(* ===== verification/_CoqProject ===== *)
-Q . S2P
Prelude.v
Machine.v
World.v
Posix.v
Platform.v
Io.v
Layout.v
Log.v
LogSpec.v
Buffer.v
BufferSpec.v
BufferData.v
LogLock.v
LockSpec.v
DbState.v
Lease.v
LeaseSpec.v
Txn.v
Silent.v
TxnSpec.v
Iter.v
IterSpec.v
Database.v
CrashSpec.v
Scan.v
Connection.v
ConnSpec.v
Store.v
Recovery.v
FaultLogic.v
Restart.v
Closing.v
Commit.v
Processes.v
Sharing.v
TxnStack.v
CLib.v
Tests.v
Dump.v
Races.v
Types.v
Stress.v
Faults.v
