(* ===== verification/Prelude.v ===== *)
(** * LogDB: a verification development

    LogDB is an embedded, append-only key-value store in C: a database is one
    file, worked on by any number of threads and processes.  This library
    models the C sources under src/src, the programs around them and their
    tests, and proves what makes them correct; where the code does not do what
    it means to, a theorem shows the execution.

    ** The program and its parts

    The database file (Layout.v) is a header and sections of 64 KB; records
    are appended to sections.  While the database is open, a second file, the
    log (Log.v), has one 16-bit entry for each section: the number of valid
    bytes in it.  A record is stored when the entry of its section covers it,
    so storing one is: lock the entry (LogLock.v), write the record behind the
    valid bytes (Lease.v), then write the entry (Txn.v).  The record is
    collected in a list of buffers (Buffer.v).  An iterator (Iter.v) walks the
    sections.  Opening and closing (Connection.v) exchange the log: the first
    process creates it from the copy at the end of the database file, the last
    one merges it back, and [flock] on the database file tells who that is.
    All transfers go through four loops over the system calls (Io.v).

    ** Execution

    World.v has the C structs as records, a [world] (memory, files, locks,
    thread-specific data, and an oracle that says which system calls are short
    or fail), and [prog]: a C function is a tree of atomic steps on a world.
    [run] executes it alone, [always] says what holds at each of its steps (a
    crash may come there), [pool_step] and [sched] interleave threads.
    Undefined behaviour, waiting and running out of fuel are outcomes of their
    own, so a theorem that a call is [Done] excludes them.  Posix.v has the
    primitives; Machine.v the integer widths and the bytes of the structs on
    disk.  Every other operation is composed of these as in the source, and
    has the source's name; a [goto] back or a loop is a [Fixpoint].

    ** Files, and the source each models

    - Prelude.v: automation and lemmas on lists and bytes.
    - Machine.v: include/logdb.h, logdb_data.h (integer types).
    - World.v, Posix.v: the structs of the headers; libc and POSIX.
    - Platform.v: system_checks/check_pwrite_O_APPEND.c.
    - Io.v: logdb_io.c.
    - Layout.v: the constants and offsets of logdb_internal.h, logdb_log.h and
      logdb_connection.c.
    - Log.v, LogSpec.v: logdb_log.c without the locks, and its specification.
    - LogLock.v, LockSpec.v: [logdb_log_lock], [logdb_log_unlock].
    - Buffer.v, BufferSpec.v, BufferData.v: logdb_buffer.c.
    - DbState.v: the state of an open database, shared by what follows.
    - Lease.v, LeaseSpec.v: logdb_lease.c.
    - Txn.v, TxnSpec.v, TxnStack.v: logdb_txn.c.
    - Iter.v, IterSpec.v, Scan.v: logdb_iter.c.
    - Database.v: the database as sections of records, and the specification
      [spec_put], [spec_all] of its operations.
    - Connection.v, ConnSpec.v: logdb_connection.c, opening and closing.
    - Store.v: the interface of the library as two classes, a client verified
      against them, and logdb as their instance.
    - Silent.v, CrashSpec.v, Recovery.v, Restart.v: a crash at any step, and
      opening again.
    - FaultLogic.v, Closing.v, Commit.v: a program logic for calls that may
      fail, and logdb_close and the commit of a put with any failures and a
      crash at any step.
    - Processes.v, Sharing.v: several processes.
    - Races.v: threads and processes whose calls overlap.
    - Faults.v: calls that fail half way.
    - Types.v: the integers of the structs stay in range, in any interleaving.
    - CLib.v: what the programs around the library use of libc.
    - Tests.v: tests/; Dump.v: stress/dump.c; Stress.v: stress/stress.c.

    ** State and its correspondence

    [db_state] (DbState.v) ties a [world] to an abstract state: the connection,
    log and lock-table structs in memory, the two descriptors, the bytes of
    the database file and the entries of the log.  [database] (Database.v)
    goes on to sections of records.  [session] and [closed_db] (ConnSpec.v)
    are the states of a database that this process has open, and that nobody
    has; [attached] allows other processes; [left_behind] (Recovery.v) is the
    state after a crash.  Each operation has a lemma from one to the next, and
    [same_rest], [put_rest] and [user_kept] say that nothing else changed.

    ** What the theorems show

    - What the library is for: the calls of any number of processes refine an
      abstract store (Sharing.v); records survive closing and opening
      (ConnSpec.v, Store.v); a put appends exactly its record (TxnSpec.v,
      Database.v) and an iterator reads exactly the records (IterSpec.v); the
      log survives the merge and the creation (LogSpec.v).
    - Crashes: at every step of a put, of opening and of closing, the files
      can be opened again, with all records that were stored before
      (CrashSpec.v, Recovery.v, Restart.v); for closing, and for writing a
      record to the section it goes to, also when any of the calls fail
      (Closing.v, Commit.v).  A file that is no database is refused and left
      alone, and every single failure while a database is opened is followed
      to its end (Faults.v).
    - The parts: transfers under any schedule of short and failing calls
      (Io.v), buffers with sharing (BufferSpec.v, BufferData.v), exclusion of
      entry locks (LockSpec.v), nested transactions (TxnStack.v), layout
      (Layout.v), typing of the stored integers (Types.v).
    - The programs: the tests pass, the dump tool prints the records, the
      stress tool stores what it says (Tests.v, Dump.v, Stress.v).
    - Where the code falls short: executions that lose records, leak locks,
      never end or are undefined, each with the place in the source in the
      comment (Races.v, Faults.v, TxnSpec.v, LogSpec.v, LockSpec.v, Scan.v,
      Restart.v, Stress.v).

    ** Fuel and bounds

    Walks of linked lists in memory (buffers, transactions, lock chunks) take
    as fuel the number of allocated blocks, more than a list without a cycle
    has nodes; the lemmas show it is enough.  The transfer loops take the
    number of bytes: each round that does not end moves at least one.  The
    walks over the log take its number of entries.  The loops that retry a
    compare-and-swap, and the walk of [logdb_lease_acquire_write], take a
    number of rounds, [RETRIES], that is a parameter of the development: alone,
    the first round succeeds, so the theorems hold for any number, and
    [acquire_write_livelock] shows that for some states no number would do.
    A database has less than 65536 sections where a theorem asks for it:
    beyond, offsets wrap, see Layout.v.

    ** Assumptions, and what is not modelled

    - The platform is LP64, little endian; [pwrite] honours its offset on a
      descriptor opened with [O_APPEND] (the build checks it, Platform.v).
    - [malloc] never returns an address twice and never refuses a small block
      unless the oracle says so; [malloc(0)] is not NULL.  A pointer into the
      middle of a block, and a NULL buffer passed to [logdb_lease_read], are
      not modelled; of the strings that hold paths only [logpath] is a block.
    - Descriptor numbers are unique in the machine, not in the process.
    - A file's contents survive the crash of a process.  After a crash of the
      machine a file has its contents or what was last synced; directory
      entries are durable; the two bytes of an entry are written together (a
      torn entry is in Commit.v and Faults.v).
    - Messages ([LOG], [perror]) are left out; [strerror] is a parameter of
      the model of the stress tool.  [pthread_rwlock_destroy] has no effect,
      and [pthread_join] fails for unknown threads only.
    - Theorems about operations on an open database are about calls that do
      not fail and threads that are not interrupted, unless they say
      otherwise; Io.v, Closing.v, Commit.v, Types.v, Races.v,
      Faults.v and Stress.v do.
      Sharing.v takes each call as one step.
    - The C# bindings (bindings/) are declarations and wrappers in another
      language.  Headers declare what the sources define. *)

From stdpp Require Export base tactics list gmap strings numbers.
From Stdlib Require Export Lia.

#[global] Open Scope Z_scope.

(** ** Automation shared by the development *)

Create HintDb logdb.

(** Split conjunctions, destruct existentials, and close what [lia] or
    [congruence] closes. *)
Ltac solve_easy := first [ done | lia | congruence | eauto with logdb ].

(** Case analysis on the innermost boolean test or match of the goal. *)
Ltac case_test :=
  match goal with
  | |- context [ if ?b then _ else _ ] => destruct b eqn:?
  | |- context [ match ?o with Some _ => _ | None => _ end ] => destruct o eqn:?
  end.

(** Turn boolean integer comparisons into propositions. *)
Ltac zbool :=
  repeat match goal with
  | H : (_ =? _) = true |- _ => apply Z.eqb_eq in H
  | H : (_ =? _) = false |- _ => apply Z.eqb_neq in H
  | H : (_ <? _) = true |- _ => apply Z.ltb_lt in H
  | H : (_ <? _) = false |- _ => apply Z.ltb_ge in H
  | H : (_ <=? _) = true |- _ => apply Z.leb_le in H
  | H : (_ <=? _) = false |- _ => apply Z.leb_gt in H
  | H : (_ && _)%bool = true |- _ => apply andb_prop in H as [? ?]
  | H : (_ || _)%bool = false |- _ => apply orb_false_elim in H as [? ?]
  | H : negb _ = true |- _ => apply negb_true_iff in H
  | H : negb _ = false |- _ => apply negb_false_iff in H
  end.

(** ** Slices of a list and overwriting a range of a list

    [slice] is what a positioned read returns, [splice] what a positioned
    write leaves: the range is overwritten, and a write that starts beyond
    the end fills the gap with [d]. *)
Section splice.
Context {A : Type}.
Implicit Types (l new : list A) (off n o : nat).

Definition slice off n l : list A := take n (drop off l).

Definition splice (d : A) off new l : list A :=
  take off l ++ replicate (off - length l) d ++ new ++ drop (off + length new) l.

Lemma lookup_slice off n l i :
  slice off n l !! i = if decide (i < n)%nat then l !! (off + i)%nat else None.
Proof.
  unfold slice. case_decide.
  - by rewrite lookup_take_lt, lookup_drop.
  - rewrite lookup_take_ge; [done | lia].
Qed.

Lemma length_slice off n l : length (slice off n l) = Nat.min n (length l - off).
Proof. unfold slice. by rewrite length_take, length_drop. Qed.

Lemma length_splice d off new l :
  length (splice d off new l) = Nat.max (length l) (off + length new).
Proof.
  unfold splice. rewrite !length_app, length_take, length_replicate, length_drop. lia.
Qed.

Lemma lookup_splice d off new l i :
  splice d off new l !! i =
    if decide (i < off)%nat then
      if decide (i < length l)%nat then l !! i else Some d
    else if decide (i < off + length new)%nat then new !! (i - off)%nat
    else l !! i.
Proof.
  unfold splice. repeat case_decide.
  - rewrite lookup_app_l by (rewrite length_take; lia). by rewrite lookup_take_lt by lia.
  - rewrite lookup_app_r by (rewrite length_take; lia).
    rewrite lookup_app_l by (rewrite length_take, length_replicate; lia).
    rewrite lookup_replicate_2; [done | rewrite length_take; lia].
  - rewrite lookup_app_r by (rewrite length_take; lia).
    rewrite lookup_app_r by (rewrite length_take, length_replicate; lia).
    rewrite lookup_app_l by (rewrite length_take, length_replicate; lia).
    f_equal. rewrite length_take, length_replicate. lia.
  - rewrite lookup_app_r by (rewrite length_take; lia).
    rewrite lookup_app_r by (rewrite length_take, length_replicate; lia).
    rewrite lookup_app_r by (rewrite length_take, length_replicate; lia).
    rewrite lookup_drop. f_equal. rewrite length_take, length_replicate. lia.
Qed.

(** Two lists are equal when all lookups are: the splice lemmas below are
    case analyses on the index. *)
Ltac by_lookup :=
  apply list_eq; intros i;
  rewrite ?lookup_slice, ?lookup_splice, ?length_splice;
  repeat case_decide; try lia; try done;
  rewrite ?lookup_splice; repeat case_decide; try lia; try done.

Lemma slice_splice_same d off new l :
  slice off (length new) (splice d off new l) = new.
Proof.
  by_lookup.
  - f_equal. lia.
  - symmetry. apply lookup_ge_None_2. lia.
Qed.

Lemma slice_splice_before d off new l o n :
  (o + n <= off)%nat -> (o + n <= length l)%nat ->
  slice o n (splice d off new l) = slice o n l.
Proof. intros. by_lookup. Qed.

Lemma slice_splice_after d off new l o n :
  (off + length new <= o)%nat ->
  slice o n (splice d off new l) = slice o n l.
Proof. intros. by_lookup. Qed.

Lemma splice_splice d off a b l :
  splice d (off + length a) b (splice d off a l) = splice d off (a ++ b) l.
Proof.
  apply list_eq. intros i. rewrite !lookup_splice, length_splice, length_app.
  repeat case_decide; try lia; try done.
  - rewrite lookup_app_l; [done | lia].
  - rewrite lookup_app_r; [f_equal; lia | lia].
Qed.

Lemma splice_end d new l : splice d (length l) new l = l ++ new.
Proof.
  unfold splice. rewrite take_ge, Nat.sub_diag, drop_ge by lia. simpl. by rewrite app_nil_r.
Qed.

Lemma splice_nil d off l : (off <= length l)%nat -> splice d off [] l = l.
Proof.
  intros. unfold splice. replace (off - length l)%nat with 0%nat by lia. simpl.
  rewrite Nat.add_0_r. apply take_drop.
Qed.

Lemma splice_same_length d new l :
  length new = length l -> splice d 0 new l = new.
Proof.
  intros E. unfold splice. simpl. rewrite drop_ge by lia. by rewrite app_nil_r.
Qed.

Lemma slice_app_l off n l k :
  (off + n <= length l)%nat -> slice off n (l ++ k) = slice off n l.
Proof.
  intros. apply list_eq. intros i. rewrite !lookup_slice. case_decide; [|done].
  by rewrite lookup_app_l by lia.
Qed.

Lemma slice_app_r n l k : slice (length l) n (l ++ k) = take n k.
Proof. unfold slice. by rewrite drop_app_length. Qed.

Lemma slice_add off n m l : slice off (n + m) l = slice off n l ++ slice (off + n) m l.
Proof. unfold slice. rewrite <- drop_drop. symmetry. apply take_take_drop. Qed.

Lemma slice_all l : slice 0 (length l) l = l.
Proof. unfold slice. simpl. by rewrite take_ge. Qed.

Lemma slice_0 off l : slice off 0 l = [].
Proof. done. Qed.
End splice.

Create Rewrite HintDb len.
#[export] Hint Rewrite @length_splice @length_slice @length_app @length_take
  @length_drop @length_replicate : len.
