(* ===== verification/Machine.v ===== *)
(** * Machine integers and the byte representation of the on-disk structs

    The C types of the program on the platforms it is built for (LP64, little
    endian): [logdb_size_t] is a 32-bit unsigned integer (include/logdb.h),
    [unsigned short] has 16 bits, [size_t] 64, and [off_t]/[ssize_t] are
    signed 64-bit.  Integers are [Z] with the wrap-around written where the C
    converts or computes; a struct on disk is the list of its bytes. *)

From S2P Require Import Prelude.
From Stdlib Require Export Strings.Byte.

(** ** Conversions to the fixed-width types *)

Definition u16 (z : Z) : Z := z mod 2 ^ 16.
Definition u32 (z : Z) : Z := z mod 2 ^ 32.
Definition u64 (z : Z) : Z := z mod 2 ^ 64.

(** Conversion to a signed 64-bit integer ([off_t], [ssize_t]). *)
Definition s64 (z : Z) : Z := (z + 2 ^ 63) mod 2 ^ 64 - 2 ^ 63.

(** The value of an [atomic_int] after an atomic addition, which wraps. *)
Definition s32 (z : Z) : Z := (z + 2 ^ 31) mod 2 ^ 32 - 2 ^ 31.

Lemma s32_small z : - 2 ^ 31 <= z < 2 ^ 31 -> s32 z = z.
Proof. intros. unfold s32. rewrite Z.mod_small; lia. Qed.

Lemma u16_small z : 0 <= z < 65536 -> u16 z = z.
Proof. intros. unfold u16. apply Z.mod_small. lia. Qed.

Lemma u32_small z : 0 <= z < 2 ^ 32 -> u32 z = z.
Proof. intros. unfold u32. apply Z.mod_small. lia. Qed.

Lemma u64_small z : 0 <= z < 2 ^ 64 -> u64 z = z.
Proof. intros. unfold u64. apply Z.mod_small. lia. Qed.

Lemma s64_small z : - 2 ^ 63 <= z < 2 ^ 63 -> s64 z = z.
Proof. intros. unfold s64. rewrite Z.mod_small; lia. Qed.

Lemma u16_range z : 0 <= u16 z < 65536.
Proof. unfold u16. apply (Z.mod_pos_bound z 65536). lia. Qed.

Lemma u32_range z : 0 <= u32 z < 2 ^ 32.
Proof. unfold u32. apply Z.mod_pos_bound. lia. Qed.

Lemma u64_range z : 0 <= u64 z < 2 ^ 64.
Proof. unfold u64. apply Z.mod_pos_bound. lia. Qed.

Lemma u32_u32 z : u32 (u32 z) = u32 z.
Proof. apply u32_small, u32_range. Qed.

Lemma u32_add_l a b : u32 (u32 a + b) = u32 (a + b).
Proof. unfold u32. by rewrite Zplus_mod_idemp_l. Qed.

Lemma u32_add_r a b : u32 (a + u32 b) = u32 (a + b).
Proof. unfold u32. by rewrite Zplus_mod_idemp_r. Qed.

#[export] Hint Resolve u16_range u32_range u64_range : logdb.

(** ** Bytes *)

Definition byte_of_Z (z : Z) : byte :=
  match Byte.of_N (Z.to_N (z mod 256)) with
  | Some b => b
  | None => x00
  end.

Definition Z_of_byte (b : byte) : Z := Z.of_N (Byte.to_N b).

Lemma Z_of_byte_range b : 0 <= Z_of_byte b < 256.
Proof.
  unfold Z_of_byte. pose proof (Byte.to_N_bounded b). lia.
Qed.

Lemma Z_of_byte_of_Z z : Z_of_byte (byte_of_Z z) = z mod 256.
Proof.
  unfold Z_of_byte, byte_of_Z.
  pose proof (Z.mod_pos_bound z 256 ltac:(lia)).
  destruct (Byte.of_N (Z.to_N (z mod 256))) as [b|] eqn:E.
  - apply Byte.to_of_N in E. rewrite E. lia.
  - pose proof (Byte.to_of_N_option_map (Z.to_N (z mod 256))) as F.
    rewrite E in F. simpl in F. destruct (N.leb_spec (Z.to_N (z mod 256)) 255); [done | lia].
Qed.

Lemma byte_of_Z_of_byte b : byte_of_Z (Z_of_byte b) = b.
Proof.
  unfold byte_of_Z. rewrite Z.mod_small by apply Z_of_byte_range.
  unfold Z_of_byte. by rewrite N2Z.id, Byte.of_to_N.
Qed.

#[export] Instance byte_eq_decision : EqDecision byte := Byte.byte_eq_dec.

(** ** Little-endian integers of [n] bytes *)

Fixpoint le_bytes (n : nat) (z : Z) : list byte :=
  match n with
  | O => []
  | S n' => byte_of_Z z :: le_bytes n' (z / 256)
  end.

Fixpoint le_val (bs : list byte) : Z :=
  match bs with
  | [] => 0
  | b :: r => Z_of_byte b + 256 * le_val r
  end.

Lemma length_le_bytes n z : length (le_bytes n z) = n.
Proof. revert z. induction n; intros; simpl; auto. Qed.

#[export] Hint Rewrite length_le_bytes : len.

Lemma le_val_bytes n z : le_val (le_bytes n z) = z mod 256 ^ Z.of_nat n.
Proof.
  revert z. induction n as [|n IH]; intros z; simpl le_val.
  - by rewrite Z.mod_1_r.
  - rewrite IH, Z_of_byte_of_Z, Nat2Z.inj_succ, Z.pow_succ_r by lia.
    rewrite Z.rem_mul_r; lia.
Qed.

Lemma le_bytes_val bs : le_bytes (length bs) (le_val bs) = bs.
Proof.
  induction bs as [|b r IH]; simpl; [done|].
  pose proof (Z_of_byte_range b). f_equal.
  - unfold byte_of_Z. rewrite (Z.mul_comm 256), Z_mod_plus_full.
    fold (byte_of_Z (Z_of_byte b)). apply byte_of_Z_of_byte.
  - rewrite (Z.mul_comm 256), Z.div_add, Z.div_small by lia. exact IH.
Qed.

Lemma le_val_range bs : 0 <= le_val bs < 256 ^ Z.of_nat (length bs).
Proof.
  pose proof (le_val_bytes (length bs) (le_val bs)) as E.
  rewrite le_bytes_val in E. rewrite E. apply Z.mod_pos_bound. lia.
Qed.

(** The width-specific encoders, as the compiler lays the fields out. *)
Definition bytes_u16 (z : Z) : list byte := le_bytes 2 z.
Definition bytes_u32 (z : Z) : list byte := le_bytes 4 z.

Lemma le_val_bytes_u16 z : le_val (bytes_u16 z) = u16 z.
Proof. unfold bytes_u16. by rewrite le_val_bytes. Qed.

Lemma le_val_bytes_u32 z : le_val (bytes_u32 z) = u32 z.
Proof. unfold bytes_u32. by rewrite le_val_bytes. Qed.

(** Only the low bits are stored. *)
Lemma bytes_u16_u16 z : bytes_u16 (u16 z) = bytes_u16 z.
Proof. rewrite <- le_val_bytes_u16. exact (le_bytes_val (bytes_u16 z)). Qed.

Lemma bytes_u32_u32 z : bytes_u32 (u32 z) = bytes_u32 z.
Proof. rewrite <- le_val_bytes_u32. exact (le_bytes_val (bytes_u32 z)). Qed.

Lemma length_bytes_u16 z : length (bytes_u16 z) = 2%nat.
Proof. apply length_le_bytes. Qed.

Lemma length_bytes_u32 z : length (bytes_u32 z) = 4%nat.
Proof. apply length_le_bytes. Qed.

#[export] Hint Rewrite length_bytes_u16 length_bytes_u32 : len.

(** The length of a list as the C sees it. *)
Abbreviation zlen l := (Z.of_nat (length l)).

Arguments le_bytes : simpl never.
Arguments le_val : simpl never.
Arguments bytes_u16 : simpl never.
Arguments bytes_u32 : simpl never.
