(* ===== verification/World.v ===== *)
(** * The C structs, the machine state and the program monad

    The structs of the headers under src/src as records; the memory, the
    operating-system state and the source of system-call outcomes as one
    record [world]; and [prog], the syntax of a C function as a sequence of
    atomic steps on a world.  [run] executes a program alone to its end;
    [always] says an invariant holds at every point of that execution;
    [pool_step] interleaves the steps of several threads. *)

From S2P Require Import Prelude Machine.

(** ** Structs *)

(** A pointer is [None] when NULL. *)
Abbreviation loc := Z.
Abbreviation ptr := (option loc).

(** [dispose_func]: libc's [free] or a function of the caller. *)
Inductive dispose_func := DisposeFree | DisposeUser (f : Z).

#[export] Instance dispose_func_eq_dec : EqDecision dispose_func.
Proof. solve_decision. Defined.

Record logdb_buffer_t := mk_buffer {
  buf_data : ptr;
  buf_len : Z;
  buf_disposer : option dispose_func;
  buf_orig : ptr;
  buf_next : ptr;
  buf_refcnt : Z
}.

Definition set_buf_data (p : ptr) (b : logdb_buffer_t) : logdb_buffer_t :=
  mk_buffer p (buf_len b) (buf_disposer b) (buf_orig b) (buf_next b) (buf_refcnt b).
Definition set_buf_len (n : Z) (b : logdb_buffer_t) : logdb_buffer_t :=
  mk_buffer (buf_data b) n (buf_disposer b) (buf_orig b) (buf_next b) (buf_refcnt b).
Definition set_buf_disposer (d : option dispose_func) (b : logdb_buffer_t) : logdb_buffer_t :=
  mk_buffer (buf_data b) (buf_len b) d (buf_orig b) (buf_next b) (buf_refcnt b).
Definition set_buf_next (p : ptr) (b : logdb_buffer_t) : logdb_buffer_t :=
  mk_buffer (buf_data b) (buf_len b) (buf_disposer b) (buf_orig b) p (buf_refcnt b).
Definition set_buf_orig (p : ptr) (b : logdb_buffer_t) : logdb_buffer_t :=
  mk_buffer (buf_data b) (buf_len b) (buf_disposer b) p (buf_next b) (buf_refcnt b).
Definition set_buf_refcnt (n : Z) (b : logdb_buffer_t) : logdb_buffer_t :=
  mk_buffer (buf_data b) (buf_len b) (buf_disposer b) (buf_orig b) (buf_next b) n.

Record logdb_txn_t := mk_txn { txn_outer : ptr; txn_buf : ptr }.

Definition set_txn_outer (p : ptr) (t : logdb_txn_t) : logdb_txn_t := mk_txn p (txn_buf t).
Definition set_txn_buf (p : ptr) (t : logdb_txn_t) : logdb_txn_t := mk_txn (txn_outer t) p.

Inductive logdb_log_lock_type := LOGDB_LOG_LOCK_NONE | LOGDB_LOG_LOCK_READ | LOGDB_LOG_LOCK_WRITE.

#[export] Instance logdb_log_lock_type_eq_dec : EqDecision logdb_log_lock_type.
Proof. solve_decision. Defined.

Record logdb_log_lock_t := mk_lock {
  lock_startindex : Z;
  lock_locks : list Z;
  lock_next : ptr
}.

Definition set_lock_startindex (i : Z) (k : logdb_log_lock_t) : logdb_log_lock_t :=
  mk_lock i (lock_locks k) (lock_next k).
Definition set_lock_locks (ls : list Z) (k : logdb_log_lock_t) : logdb_log_lock_t :=
  mk_lock (lock_startindex k) ls (lock_next k).
Definition set_lock_next (p : ptr) (k : logdb_log_lock_t) : logdb_log_lock_t :=
  mk_lock (lock_startindex k) (lock_locks k) p.

Record logdb_log_t := mk_log { log_fd : Z; log_path : option string; log_lock : ptr }.

Definition set_log_lock (p : ptr) (l : logdb_log_t) : logdb_log_t :=
  mk_log (log_fd l) (log_path l) p.

Definition set_log_path (p : option string) (l : logdb_log_t) : logdb_log_t :=
  mk_log (log_fd l) p (log_lock l).

(** [pthread_rwlock_t]: the number of read locks held, or a writer. *)
Record rwlock_t := mk_rwlock { rw_readers : Z; rw_writer : bool }.

Record logdb_connection_t := mk_connection {
  conn_version : Z;
  conn_lock : rwlock_t;
  conn_flags : Z;
  conn_fd : Z;
  conn_log : ptr;
  conn_current_txn_key : Z
}.

Definition set_conn_version (v : Z) (c : logdb_connection_t) : logdb_connection_t :=
  mk_connection v (conn_lock c) (conn_flags c) (conn_fd c) (conn_log c) (conn_current_txn_key c).
Definition set_conn_lock (k : rwlock_t) (c : logdb_connection_t) : logdb_connection_t :=
  mk_connection (conn_version c) k (conn_flags c) (conn_fd c) (conn_log c) (conn_current_txn_key c).

Record logdb_lease_t := mk_lease {
  lease_connection : ptr;
  lease_index : Z;
  lease_offset : Z;
  lease_len : Z;
  lease_type : logdb_log_lock_type
}.

Definition set_lease_connection (p : ptr) (l : logdb_lease_t) : logdb_lease_t :=
  mk_lease p (lease_index l) (lease_offset l) (lease_len l) (lease_type l).

(** [logdb_data_header_t] of logdb_data.h *)
Record logdb_data_header_t := mk_data_header { hdr_keylen : Z; hdr_valuelen : Z }.

Record logdb_iter_t := mk_iter {
  iter_connection : ptr;
  iter_lease : logdb_lease_t;
  iter_record : logdb_data_header_t;
  iter_key : ptr;
  iter_value : ptr
}.

Definition set_iter_connection (p : ptr) (i : logdb_iter_t) : logdb_iter_t :=
  mk_iter p (iter_lease i) (iter_record i) (iter_key i) (iter_value i).
Definition set_iter_lease (l : logdb_lease_t) (i : logdb_iter_t) : logdb_iter_t :=
  mk_iter (iter_connection i) l (iter_record i) (iter_key i) (iter_value i).
Definition set_iter_record (r : logdb_data_header_t) (i : logdb_iter_t) : logdb_iter_t :=
  mk_iter (iter_connection i) (iter_lease i) r (iter_key i) (iter_value i).
Definition set_iter_key (p : ptr) (i : logdb_iter_t) : logdb_iter_t :=
  mk_iter (iter_connection i) (iter_lease i) (iter_record i) p (iter_value i).
Definition set_iter_value (p : ptr) (i : logdb_iter_t) : logdb_iter_t :=
  mk_iter (iter_connection i) (iter_lease i) (iter_record i) (iter_key i) p.

(** What an allocated memory block holds. *)
Inductive cell :=
| CBytes (bs : list byte)
| CBuffer (b : logdb_buffer_t)
| CTxn (t : logdb_txn_t)
| CLock (k : logdb_log_lock_t)
| CLog (l : logdb_log_t)
| CConn (c : logdb_connection_t)
| CIter (i : logdb_iter_t).

Abbreviation heap := (gmap loc cell).

(** ** The operating system *)

(** An open file description; [fd_pid] is the process that opened it. *)
Record ofd := mk_ofd { fd_ino : Z; fd_pos : Z; fd_append : bool; fd_pid : Z }.

Definition set_fd_pos (p : Z) (o : ofd) : ofd := mk_ofd (fd_ino o) p (fd_append o) (fd_pid o).

(** A record lock of [fcntl] on bytes [fl_start, fl_end), to the end of the
    file and beyond when [fl_end] is [None]. *)
Record fcntl_lock := mk_fcntl_lock {
  fl_ino : Z; fl_pid : Z; fl_write : bool; fl_start : Z; fl_end : option Z }.

(** A whole-file lock of [flock], held by an open file description. *)
Record flock_lock := mk_flock { fk_fd : Z; fk_ino : Z; fk_excl : bool }.

Record os_state := mk_os {
  os_dir : gmap string Z;             (** path to inode *)
  os_inodes : gmap Z (list byte);     (** inode to contents *)
  os_durable : gmap Z (list byte);    (** inode to contents at the last [fsync] *)
  os_fds : gmap Z ofd;
  os_next_fd : Z;
  os_next_ino : Z;
  os_fcntl : list fcntl_lock;
  os_flock : list flock_lock;
  os_env : gmap string string         (** environment variables *)
}.

Definition set_os_dir (x : gmap string Z) (o : os_state) : os_state :=
  mk_os x (os_inodes o) (os_durable o) (os_fds o) (os_next_fd o) (os_next_ino o)
    (os_fcntl o) (os_flock o) (os_env o).
Definition set_os_inodes (x : gmap Z (list byte)) (o : os_state) : os_state :=
  mk_os (os_dir o) x (os_durable o) (os_fds o) (os_next_fd o) (os_next_ino o)
    (os_fcntl o) (os_flock o) (os_env o).
Definition set_os_durable (x : gmap Z (list byte)) (o : os_state) : os_state :=
  mk_os (os_dir o) (os_inodes o) x (os_fds o) (os_next_fd o) (os_next_ino o)
    (os_fcntl o) (os_flock o) (os_env o).
Definition set_os_fds (x : gmap Z ofd) (o : os_state) : os_state :=
  mk_os (os_dir o) (os_inodes o) (os_durable o) x (os_next_fd o) (os_next_ino o)
    (os_fcntl o) (os_flock o) (os_env o).
Definition set_os_next_fd (x : Z) (o : os_state) : os_state :=
  mk_os (os_dir o) (os_inodes o) (os_durable o) (os_fds o) x (os_next_ino o)
    (os_fcntl o) (os_flock o) (os_env o).
Definition set_os_next_ino (x : Z) (o : os_state) : os_state :=
  mk_os (os_dir o) (os_inodes o) (os_durable o) (os_fds o) (os_next_fd o) x
    (os_fcntl o) (os_flock o) (os_env o).
Definition set_os_fcntl (x : list fcntl_lock) (o : os_state) : os_state :=
  mk_os (os_dir o) (os_inodes o) (os_durable o) (os_fds o) (os_next_fd o) (os_next_ino o)
    x (os_flock o) (os_env o).
Definition set_os_flock (x : list flock_lock) (o : os_state) : os_state :=
  mk_os (os_dir o) (os_inodes o) (os_durable o) (os_fds o) (os_next_fd o) (os_next_ino o)
    (os_fcntl o) x (os_env o).
Definition set_os_env (x : gmap string string) (o : os_state) : os_state :=
  mk_os (os_dir o) (os_inodes o) (os_durable o) (os_fds o) (os_next_fd o) (os_next_ino o)
    (os_fcntl o) (os_flock o) x.

(** ** The world *)

(** The outcome the environment picks for a call that may fail: it works, it
    transfers at most [n + 1] bytes, or it fails. A call takes the next one
    from [w_oracle]; when the list is used up every call works. *)
Inductive fault := FOk | FShort (n : nat) | FFail.

Record thread := mk_thread { th_pid : Z; th_tid : Z }.

#[export] Instance thread_eq_dec : EqDecision thread.
Proof. solve_decision. Defined.

#[export] Instance thread_countable : Countable thread.
Proof.
  refine (inj_countable' (fun t => (th_pid t, th_tid t)) (fun p => mk_thread p.1 p.2) _).
  by intros [].
Defined.

Record world := mk_world {
  w_os : os_state;
  w_heap : heap;
  w_next : loc;                         (** the next block [malloc] returns *)
  w_tls : gmap (thread * Z) ptr;        (** [pthread_setspecific] values *)
  w_next_key : Z;                       (** the next key [pthread_key_create] returns *)
  w_disposed : list (Z * ptr);          (** calls of callers' disposers, latest first *)
  w_oracle : list fault
}.

Definition set_os (x : os_state) (w : world) : world :=
  mk_world x (w_heap w) (w_next w) (w_tls w) (w_next_key w) (w_disposed w) (w_oracle w).
Definition set_heap (x : heap) (w : world) : world :=
  mk_world (w_os w) x (w_next w) (w_tls w) (w_next_key w) (w_disposed w) (w_oracle w).
Definition set_next (x : loc) (w : world) : world :=
  mk_world (w_os w) (w_heap w) x (w_tls w) (w_next_key w) (w_disposed w) (w_oracle w).
Definition set_tls (x : gmap (thread * Z) ptr) (w : world) : world :=
  mk_world (w_os w) (w_heap w) (w_next w) x (w_next_key w) (w_disposed w) (w_oracle w).
Definition set_next_key (x : Z) (w : world) : world :=
  mk_world (w_os w) (w_heap w) (w_next w) (w_tls w) x (w_disposed w) (w_oracle w).
Definition set_disposed (x : list (Z * ptr)) (w : world) : world :=
  mk_world (w_os w) (w_heap w) (w_next w) (w_tls w) (w_next_key w) x (w_oracle w).
Definition set_oracle (x : list fault) (w : world) : world :=
  mk_world (w_os w) (w_heap w) (w_next w) (w_tls w) (w_next_key w) (w_disposed w) x.

(** Take the next outcome. *)
Definition next_fault (w : world) : fault * world :=
  match w_oracle w with
  | [] => (FOk, w)
  | f :: fs => (f, set_oracle fs w)
  end.

(** ** Programs *)

(** Why an execution is undefined in C. *)
Inductive ub :=
| UbNull                (** a null pointer is dereferenced *)
| UbDangling (l : loc)  (** freed or never allocated memory is used *)
| UbUninit              (** an indeterminate value is read *)
| UbBounds              (** an object is accessed out of bounds *)
| UbOverflow            (** signed arithmetic overflows *)
| UbAbort.              (** [abort()] *)

Inductive outcome (A : Type) : Type :=
| Done (a : A) (w : world)
| Blocked               (** the call waits; nothing happened *)
| Undef (u : ub)
| NoFuel.               (** a loop of the model ran out of fuel *)
Arguments Done {A} a w.
Arguments Blocked {A}.
Arguments Undef {A} u.
Arguments NoFuel {A}.

Inductive prog (A : Type) : Type :=
| Ret (a : A)
| Step {X : Type} (f : thread -> world -> outcome X) (k : X -> prog A).
Arguments Ret {A} a.
Arguments Step {A X} f k.

Fixpoint bind {A B : Type} (p : prog A) (q : A -> prog B) : prog B :=
  match p with
  | Ret a => q a
  | Step f k => Step f (fun x => bind (k x) q)
  end.

(** One atomic step. *)
Definition prim {X : Type} (f : thread -> world -> outcome X) : prog X := Step f Ret.

Declare Scope prog_scope.
Delimit Scope prog_scope with prog.
Notation "'let!' x := p 'in' q" := (bind p (fun x => q))
  (at level 10, x pattern, p at level 100, q at level 200,
   format "'[v' 'let!'  x  :=  p  'in' '/' q ']'") : prog_scope.
Notation "'do!' p 'in' q" := (bind p (fun _ => q))
  (at level 10, p at level 100, q at level 200,
   format "'[v' 'do!'  p  'in' '/' q ']'") : prog_scope.
#[global] Open Scope prog_scope.

(** Execution alone, to the end. *)
Fixpoint run {A : Type} (th : thread) (p : prog A) (w : world) : outcome A :=
  match p with
  | Ret a => Done a w
  | Step f k =>
      match f th w with
      | Done x w' => run th (k x) w'
      | Blocked => Blocked
      | Undef u => Undef u
      | NoFuel => NoFuel
      end
  end.

Lemma run_ret {A} th (a : A) w : run th (Ret a) w = Done a w.
Proof. done. Qed.

Lemma run_bind {A B} th (p : prog A) (q : A -> prog B) w :
  run th (bind p q) w =
    match run th p w with
    | Done a w' => run th (q a) w'
    | Blocked => Blocked
    | Undef u => Undef u
    | NoFuel => NoFuel
    end.
Proof.
  revert w. induction p as [a|X f k IH]; intros w; simpl; [done|].
  destruct (f th w); simpl; auto.
Qed.

Lemma run_bind_assoc {A B C} th (p : prog A) (q : A -> prog B) (k : B -> prog C) w :
  run th (bind p (fun a => bind (q a) k)) w = run th (bind (bind p q) k) w.
Proof.
  rewrite !run_bind. destruct (run th p w); try done. by rewrite run_bind.
Qed.

Lemma run_prim {X} th (f : thread -> world -> outcome X) w : run th (prim f) w = f th w.
Proof. unfold prim. simpl. by destruct (f th w). Qed.

(** [I] holds before the first step and after every step of the execution. *)
Fixpoint always {A : Type} (th : thread) (I : world -> Prop) (p : prog A) (w : world) : Prop :=
  I w /\
  match p with
  | Ret _ => True
  | Step f k =>
      match f th w with
      | Done x w' => always th I (k x) w'
      | _ => True
      end
  end.

Lemma always_here {A} th I (p : prog A) w : always th I p w -> I w.
Proof. destruct p; simpl; tauto. Qed.

Lemma always_bind {A B} th I (p : prog A) (q : A -> prog B) w :
  always th I p w ->
  (forall a w', run th p w = Done a w' -> always th I (q a) w') ->
  always th I (bind p q) w.
Proof.
  revert w. induction p as [a|X f k IH]; intros w; simpl.
  - intros _ H. by apply H.
  - intros [HI H] Hq. split; [done|]. destruct (f th w); try done. by apply IH.
Qed.

Lemma always_prim {X} th (I : world -> Prop) (f : thread -> world -> outcome X) w :
  I w -> (forall x w', f th w = Done x w' -> I w') -> always th I (prim f) w.
Proof. intros H Hf. simpl. split; [done|]. destruct (f th w) eqn:E; [|done..]. by split; eauto. Qed.

Lemma always_ret {A} th (I : world -> Prop) (a : A) w : I w -> always th I (Ret a) w.
Proof. by split. Qed.

(** ** Interleaving *)

(** A pool of threads; a step runs one atomic step of one of them. *)
Abbreviation pool A := (list (thread * prog A)).

Inductive pool_step {A : Type} : pool A * world -> pool A * world -> Prop :=
| pool_step_one (ps : pool A) w i th X (f : thread -> world -> outcome X) k x w' :
    ps !! i = Some (th, Step f k) ->
    f th w = Done x w' ->
    pool_step (ps, w) (<[i := (th, k x)]> ps, w').

(** Executable form: run the threads named by a schedule, one atomic step each;
    [None] when a scheduled thread cannot step. *)
Definition sched_step {A : Type} (i : nat) (s : pool A * world) : option (pool A * world) :=
  match s.1 !! i with
  | Some (th, Step f k) =>
      match f th s.2 with
      | Done x w' => Some (<[i := (th, k x)]> s.1, w')
      | _ => None
      end
  | _ => None
  end.

Fixpoint sched {A : Type} (l : list nat) (s : pool A * world) : option (pool A * world) :=
  match l with
  | [] => Some s
  | i :: l' => match sched_step i s with Some s' => sched l' s' | None => None end
  end.

Lemma sched_step_sound {A} i (s s' : pool A * world) :
  sched_step i s = Some s' -> pool_step s s'.
Proof.
  destruct s as [ps w]. unfold sched_step. simpl.
  destruct (ps !! i) as [[th [a|X f k]]|] eqn:E; try done.
  destruct (f th w) eqn:F; try done. intros [= <-]. by eapply pool_step_one.
Qed.

Lemma sched_sound {A} l (s s' : pool A * world) :
  sched l s = Some s' -> rtc pool_step s s'.
Proof.
  revert s. induction l as [|i l IH]; intros s; simpl.
  - by intros [= <-].
  - destruct (sched_step i s) eqn:E; [|done]. intros H.
    eapply rtc_l; [by eapply sched_step_sound|]. by apply IH.
Qed.
