(* ===== verification/Posix.v ===== *)
(** * The C library and POSIX calls the program uses

    Memory ([malloc], [calloc], [free], loads and stores of struct fields,
    C11 atomics), files ([open], [read], [pwrite], [lseek], ...), locks
    ([flock], [fcntl], [pthread_rwlock_*]) and thread-specific data, each as
    one atomic step on a [world] that follows the calls' specification.  A
    call that may fail consults [w_oracle]. *)

From S2P Require Import Prelude Machine World.

(** ** Memory *)

(** How a struct sits in a memory cell. *)
Class Cell (T : Type) := {
  to_cell : T -> cell;
  of_cell : cell -> option T;
  of_to_cell t : of_cell (to_cell t) = Some t
}.

#[export] Instance Cell_bytes : Cell (list byte) :=
  {| to_cell := CBytes; of_cell c := match c with CBytes x => Some x | _ => None end;
     of_to_cell _ := eq_refl |}.
#[export] Instance Cell_buffer : Cell logdb_buffer_t :=
  {| to_cell := CBuffer; of_cell c := match c with CBuffer x => Some x | _ => None end;
     of_to_cell _ := eq_refl |}.
#[export] Instance Cell_txn : Cell logdb_txn_t :=
  {| to_cell := CTxn; of_cell c := match c with CTxn x => Some x | _ => None end;
     of_to_cell _ := eq_refl |}.
#[export] Instance Cell_lock : Cell logdb_log_lock_t :=
  {| to_cell := CLock; of_cell c := match c with CLock x => Some x | _ => None end;
     of_to_cell _ := eq_refl |}.
#[export] Instance Cell_log : Cell logdb_log_t :=
  {| to_cell := CLog; of_cell c := match c with CLog x => Some x | _ => None end;
     of_to_cell _ := eq_refl |}.
#[export] Instance Cell_conn : Cell logdb_connection_t :=
  {| to_cell := CConn; of_cell c := match c with CConn x => Some x | _ => None end;
     of_to_cell _ := eq_refl |}.
#[export] Instance Cell_iter : Cell logdb_iter_t :=
  {| to_cell := CIter; of_cell c := match c with CIter x => Some x | _ => None end;
     of_to_cell _ := eq_refl |}.

(** The struct of type [T] at [l]. *)
Definition peek (T : Type) `{Cell T} (h : heap) (l : loc) : option T := h !! l ≫= of_cell.

Definition with_cell {T X : Type} `{Cell T} (p : ptr) (w : world)
    (f : loc -> T -> outcome X) : outcome X :=
  match p with
  | None => Undef UbNull
  | Some l => match peek T (w_heap w) l with Some t => f l t | None => Undef (UbDangling l) end
  end.

Definition do_load (T : Type) `{Cell T} (p : ptr) (w : world) : outcome T :=
  with_cell p w (fun _ t => Done t w).

(** An atomic read-modify-write of the struct at [p]. *)
Definition do_rmw {T X : Type} `{Cell T} (p : ptr) (g : T -> T * X) (w : world) : outcome X :=
  with_cell p w (fun l t => Done (g t).2 (set_heap (<[l := to_cell (g t).1]> (w_heap w)) w)).

Definition load (T : Type) `{Cell T} (p : ptr) : prog T := prim (fun _ => do_load T p).
Definition rmw {T X : Type} `{Cell T} (p : ptr) (g : T -> T * X) : prog X :=
  prim (fun _ => do_rmw p g).
(** Store to one field: [g] is the field's setter. *)
Definition upd {T : Type} `{Cell T} (p : ptr) (g : T -> T) : prog unit :=
  rmw p (fun t => (g t, tt)).

(** [malloc]/[calloc] of a block whose contents are then [c]. *)
Definition do_alloc (c : cell) (w0 : world) : outcome ptr :=
  let '(f, w) := next_fault w0 in
  match f with
  | FFail => Done None w
  | _ => Done (Some (w_next w)) (set_next (w_next w + 1) (set_heap (<[w_next w := c]> (w_heap w)) w))
  end.
Definition alloc {T : Type} `{Cell T} (t : T) : prog ptr := prim (fun _ => do_alloc (to_cell t)).

(** [free]: nothing for NULL, undefined when the block is not allocated. *)
Definition do_free (p : ptr) (w : world) : outcome unit :=
  match p with
  | None => Done tt w
  | Some l =>
      match w_heap w !! l with
      | Some _ => Done tt (set_heap (delete l (w_heap w)) w)
      | None => Undef (UbDangling l)
      end
  end.
Definition free (p : ptr) : prog unit := prim (fun _ => do_free p).

(** Call a disposer: libc's [free], or a function of the caller, whose calls
    are recorded in [w_disposed]. *)
Definition do_dispose (d : dispose_func) (p : ptr) (w : world) : outcome unit :=
  match d with
  | DisposeFree => do_free p w
  | DisposeUser f => Done tt (set_disposed ((f, p) :: w_disposed w) w)
  end.
Definition dispose (d : dispose_func) (p : ptr) : prog unit := prim (fun _ => do_dispose d p).

(** [n] bytes at offset [off] of the block [l]. *)
Definition do_load_bytes (l : loc) (off n : Z) (w : world) : outcome (list byte) :=
  with_cell (T:=list byte) (Some l) w (fun _ bs =>
    if (off + n <=? zlen bs) then Done (slice (Z.to_nat off) (Z.to_nat n) bs) w
    else Undef UbBounds).
Definition load_bytes (l : loc) (off n : Z) : prog (list byte) :=
  prim (fun _ => do_load_bytes l off n).

(** The [n] bytes a call copies from [p]; none are touched when [n] is 0. *)
Definition load_mem (p : ptr) (n : Z) : prog (list byte) :=
  if n =? 0 then Ret [] else
  prim (fun _ w => match p with None => Undef UbNull | Some l => do_load_bytes l 0 n w end).

(** Copy [data] behind the bytes already stored in the block [p] of [cap]
    bytes; the cell holds the part of the block that is initialised. *)
Definition store_append (p : ptr) (cap : Z) (data : list byte) : prog unit :=
  prim (fun _ w => with_cell (T:=list byte) p w (fun l bs =>
    if zlen bs + zlen data <=? cap
    then Done tt (set_heap (<[l := CBytes (bs ++ data)]> (w_heap w)) w)
    else Undef UbBounds)).

(** A weak compare-exchange of the integer [get] finds in the struct at [p]:
    success, and the value found.  It may fail spuriously. *)
Definition cas_weak {T : Type} `{Cell T} (p : ptr) (get : T -> Z) (put : Z -> T -> T)
    (expected desired : Z) : prog (bool * Z) :=
  prim (fun _ w0 => let '(f, w) := next_fault w0 in
    do_rmw p (fun t => match f with
      | FFail => (t, (false, get t))
      | _ => if get t =? expected then (put desired t, (true, get t)) else (t, (false, get t))
      end) w).

(** One more than the number of allocated blocks: the fuel of the recursions
    over linked structures.  A chain of distinct blocks is shorter than that. *)
Definition heap_size : prog nat := prim (fun _ w => Done (S (size (w_heap w))) w).

Definition undef {A : Type} (u : ub) : prog A := prim (fun _ _ => Undef u).
Definition no_fuel {A : Type} : prog A := prim (fun _ _ => NoFuel).

(** Did the next environment choice fail?  Used for a weak compare-exchange,
    which may fail spuriously, and for calls whose only effect is to fail. *)
Definition fails : prog bool :=
  prim (fun _ w0 => let '(f, w) := next_fault w0 in
    Done (match f with FFail => true | _ => false end) w).

(** ** Files *)

(** Bytes transferred by a call asked for [sz]. *)
Definition xfer (f : fault) (sz : Z) : Z :=
  match f with
  | FShort n => Z.min sz (Z.of_nat n + 1)
  | _ => sz
  end.

Definition get_file (ino : Z) (w : world) : list byte :=
  default [] (os_inodes (w_os w) !! ino).
Definition put_file (ino : Z) (bs : list byte) (w : world) : world :=
  set_os (set_os_inodes (<[ino := bs]> (os_inodes (w_os w))) (w_os w)) w.
Definition get_fd (fd : Z) (w : world) : option ofd := os_fds (w_os w) !! fd.
Definition put_fd (fd : Z) (o : ofd) (w : world) : world :=
  set_os (set_os_fds (<[fd := o]> (os_fds (w_os w))) (w_os w)) w.

Definition file_read (off n : Z) (bs : list byte) : list byte :=
  slice (Z.to_nat off) (Z.to_nat n) bs.
(** A write of no bytes leaves the file as it is. *)
Definition file_write (off : Z) (data bs : list byte) : list byte :=
  match data with
  | [] => bs
  | _ => splice x00 (Z.to_nat off) data bs
  end.

Lemma file_write_take off data bs n :
  (n <= length bs)%nat -> Z.of_nat n <= off -> take n (file_write off data bs) = take n bs.
Proof.
  intros Hn Ho. destruct data as [|x d]; [done|]. change (file_write off (x :: d) bs) with (splice x00 (Z.to_nat off) (x :: d) bs).
  unfold splice. rewrite take_app_le, take_take; [f_equal; lia|]. rewrite length_take. lia.
Qed.

(** A call on an open descriptor that may fail; [-1] when it does. *)
Definition with_fd {X : Type} (fd : Z) (err : X) (w0 : world)
    (k : fault -> ofd -> world -> outcome X) : outcome X :=
  let '(f, w) := next_fault w0 in
  match f, get_fd fd w with
  | FFail, _ => Done err w
  | _, None => Done err w
  | _, Some o => k f o w
  end.

Record open_flags := mk_open_flags { o_creat : bool; o_excl : bool; o_append : bool }.

(** The next descriptor, opened on inode [ino]. *)
Definition fd_opened (ino : Z) (fl : open_flags) (th : thread) (w : world) : world :=
  let fd := os_next_fd (w_os w) in
  put_fd fd (mk_ofd ino 0 (o_append fl) (th_pid th)) (set_os (set_os_next_fd (fd + 1) (w_os w)) w).

(** A new empty file at [path]. *)
Definition file_created (path : string) (w : world) : world :=
  let ino := os_next_ino (w_os w) in
  put_file ino []
    (set_os (set_os_next_ino (ino + 1) (set_os_dir (<[path := ino]> (os_dir (w_os w))) (w_os w))) w).

Definition do_open (path : string) (fl : open_flags) (th : thread) (w0 : world) : outcome Z :=
  let '(f, w) := next_fault w0 in
  match f with
  | FFail => Done (-1) w
  | _ =>
      match os_dir (w_os w) !! path with
      | Some ino =>
          if o_creat fl && o_excl fl then Done (-1) w
          else Done (os_next_fd (w_os w)) (fd_opened ino fl th w)
      | None =>
          if o_creat fl
          then Done (os_next_fd (w_os w)) (fd_opened (os_next_ino (w_os w)) fl th (file_created path w))
          else Done (-1) w
      end
  end.
Definition sys_open (path : string) (fl : open_flags) : prog Z := prim (do_open path fl).

(** Closing a descriptor drops its [flock] lock and, as POSIX specifies, every
    [fcntl] lock the process holds on the file. *)
Definition fd_closed (fd : Z) (o : ofd) (w : world) : world :=
  let os := w_os w in
  set_os
    (set_os_fds (delete fd (os_fds os))
    (set_os_flock (filter (fun k => fk_fd k <> fd) (os_flock os))
    (set_os_fcntl (filter (fun k => ~ (fl_ino k = fd_ino o /\ fl_pid k = fd_pid o)) (os_fcntl os)) os))) w.
Definition do_close (fd : Z) (w : world) : outcome Z :=
  match get_fd fd w with
  | None => Done (-1) w
  | Some o => Done 0 (fd_closed fd o w)
  end.
Definition sys_close (fd : Z) : prog Z := prim (fun _ => do_close fd).

Definition do_read (fd sz : Z) (w0 : world) : outcome (Z * list byte) :=
  with_fd fd (-1, []) w0 (fun f o w =>
    let bs := file_read (fd_pos o) (xfer f sz) (get_file (fd_ino o) w) in
    Done (zlen bs, bs) (put_fd fd (set_fd_pos (fd_pos o + zlen bs) o) w)).
Definition sys_read (fd sz : Z) : prog (Z * list byte) := prim (fun _ => do_read fd sz).

Definition do_pread (fd sz off : Z) (w0 : world) : outcome (Z * list byte) :=
  with_fd fd (-1, []) w0 (fun f o w =>
    if off <? 0 then Done (-1, []) w else
    let bs := file_read off (xfer f sz) (get_file (fd_ino o) w) in
    Done (zlen bs, bs) w).
Definition sys_pread (fd sz off : Z) : prog (Z * list byte) := prim (fun _ => do_pread fd sz off).

(** With [O_APPEND] the position is first set to the end of the file. *)
Definition do_write (fd : Z) (data : list byte) (w0 : world) : outcome Z :=
  with_fd fd (-1) w0 (fun f o w =>
    let bs := get_file (fd_ino o) w in
    let pos := if fd_append o then zlen bs else fd_pos o in
    let d := take (Z.to_nat (xfer f (zlen data))) data in
    Done (zlen d) (put_fd fd (set_fd_pos (pos + zlen d) o)
                     (put_file (fd_ino o) (file_write pos d bs) w))).
Definition sys_write (fd : Z) (data : list byte) : prog Z := prim (fun _ => do_write fd data).

(** [pwrite] as POSIX specifies it: at the given offset, also on a
    descriptor opened with [O_APPEND] (see Platform.v for the check the
    program's build makes). *)
Definition do_pwrite (fd : Z) (data : list byte) (off : Z) (w0 : world) : outcome Z :=
  with_fd fd (-1) w0 (fun f o w =>
    if off <? 0 then Done (-1) w else
    let d := take (Z.to_nat (xfer f (zlen data))) data in
    Done (zlen d) (put_file (fd_ino o) (file_write off d (get_file (fd_ino o) w)) w)).
Definition sys_pwrite (fd : Z) (data : list byte) (off : Z) : prog Z :=
  prim (fun _ => do_pwrite fd data off).

Inductive whence := SEEK_SET | SEEK_CUR | SEEK_END.

Definition do_lseek (fd off : Z) (wh : whence) (w0 : world) : outcome Z :=
  with_fd fd (-1) w0 (fun _ o w =>
    let base := match wh with
                | SEEK_SET => 0
                | SEEK_CUR => fd_pos o
                | SEEK_END => zlen (get_file (fd_ino o) w)
                end in
    if base + off <? 0 then Done (-1) w
    else Done (base + off) (put_fd fd (set_fd_pos (base + off) o) w)).
Definition sys_lseek (fd off : Z) (wh : whence) : prog Z := prim (fun _ => do_lseek fd off wh).

Definition do_ftruncate (fd len : Z) (w0 : world) : outcome Z :=
  with_fd fd (-1) w0 (fun _ o w =>
    if len <? 0 then Done (-1) w else
    let bs := get_file (fd_ino o) w in
    Done 0 (put_file (fd_ino o)
      (take (Z.to_nat len) bs ++ replicate (Z.to_nat len - length bs) x00) w)).
Definition sys_ftruncate (fd len : Z) : prog Z := prim (fun _ => do_ftruncate fd len).

Definition do_fsync (fd : Z) (w0 : world) : outcome Z :=
  with_fd fd (-1) w0 (fun _ o w =>
    Done 0 (set_os (set_os_durable
      (<[fd_ino o := get_file (fd_ino o) w]> (os_durable (w_os w))) (w_os w)) w)).
Definition sys_fsync (fd : Z) : prog Z := prim (fun _ => do_fsync fd).

Definition do_unlink (path : string) (w0 : world) : outcome Z :=
  let '(f, w) := next_fault w0 in
  match f, os_dir (w_os w) !! path with
  | FFail, _ => Done (-1) w
  | _, None => Done (-1) w
  | _, Some _ => Done 0 (set_os (set_os_dir (delete path (os_dir (w_os w))) (w_os w)) w)
  end.
Definition sys_unlink (path : string) : prog Z := prim (fun _ => do_unlink path).

(** [realpath (path, NULL)]: the paths of the model are already resolved. *)
Definition do_realpath (path : string) (w0 : world) : outcome (option string) :=
  let '(f, w) := next_fault w0 in
  match f with
  | FFail => Done None w
  | _ => Done ((fun _ => path) <$> os_dir (w_os w) !! path) w
  end.
Definition realpath (path : string) : prog (option string) := prim (fun _ => do_realpath path).

Definition getenv (name : string) : prog (option string) :=
  prim (fun _ w => Done (os_env (w_os w) !! name) w).

(** ** Locks *)

(** Do two byte ranges meet? *)
Definition before_end (s : Z) (e : option Z) : bool :=
  match e with Some e' => s <? e' | None => true end.
Definition ranges_meet (s1 : Z) (e1 : option Z) (s2 : Z) (e2 : option Z) : bool :=
  before_end s1 e2 && before_end s2 e1.

Inductive lock_op := F_RDLCK | F_WRLCK | F_UNLCK.

#[export] Instance lock_op_eq_dec : EqDecision lock_op.
Proof. solve_decision. Defined.

(** A lock of another process that a request for [s, e) conflicts with. *)
Definition fcntl_conflict (ino pid : Z) (op : lock_op) (s : Z) (e : option Z) (k : fcntl_lock) : bool :=
  (fl_ino k =? ino) && negb (fl_pid k =? pid) && ranges_meet s e (fl_start k) (fl_end k) &&
  match op with
  | F_UNLCK => false
  | F_RDLCK => fl_write k
  | F_WRLCK => true
  end.

(** What is left of a process's own lock when [s, e) is cut out of it. *)
Definition fcntl_cut (ino pid s : Z) (e : option Z) (k : fcntl_lock) : list fcntl_lock :=
  if (fl_ino k =? ino) && (fl_pid k =? pid) && ranges_meet s e (fl_start k) (fl_end k) then
    (if fl_start k <? s
     then [mk_fcntl_lock ino pid (fl_write k) (fl_start k) (Some s)] else []) ++
    match e with
    | Some e' => if before_end e' (fl_end k)
                 then [mk_fcntl_lock ino pid (fl_write k) e' (fl_end k)] else []
    | None => []
    end
  else [k].

Definition fcntl_apply (ino pid : Z) (op : lock_op) (s : Z) (e : option Z)
    (ks : list fcntl_lock) : list fcntl_lock :=
  let rest := ks ≫= fcntl_cut ino pid s e in
  match op with
  | F_UNLCK => rest
  | _ => mk_fcntl_lock ino pid (bool_decide (op = F_WRLCK)) s e :: rest
  end.

(** [fcntl (fd, F_SETLK, ...)]; [len = 0] reaches to the end of the file. *)
Definition do_setlk (wait : bool) (fd : Z) (op : lock_op) (start len : Z) (w0 : world) : outcome Z :=
  with_fd fd (-1) w0 (fun _ o w =>
    let e := if len =? 0 then None else Some (start + len) in
    if existsb (fcntl_conflict (fd_ino o) (fd_pid o) op start e) (os_fcntl (w_os w)) then
      if wait then Blocked else Done (-1) w
    else Done 0 (set_os (set_os_fcntl
           (fcntl_apply (fd_ino o) (fd_pid o) op start e (os_fcntl (w_os w))) (w_os w)) w)).
Definition sys_fcntl_setlk (fd : Z) (op : lock_op) (start len : Z) : prog Z :=
  prim (fun _ => do_setlk false fd op start len).
Definition sys_fcntl_setlkw (fd : Z) (op : lock_op) (start len : Z) : prog Z :=
  prim (fun _ => do_setlk true fd op start len).

(** [flock]: a request first gives up the lock the description holds. *)
Definition do_flock (excl nb : bool) (fd : Z) (w0 : world) : outcome Z :=
  with_fd fd (-1) w0 (fun _ o w =>
    let others := filter (fun k => fk_fd k <> fd) (os_flock (w_os w)) in
    if existsb (fun k => (fk_ino k =? fd_ino o) && (excl || fk_excl k)) others then
      if nb then Done (-1) (set_os (set_os_flock others (w_os w)) w) else Blocked
    else Done 0 (set_os (set_os_flock (mk_flock fd (fd_ino o) excl :: others) (w_os w)) w)).
(** [flock (fd, LOCK_EX | LOCK_NB)] *)
Definition sys_flock_ex_nb (fd : Z) : prog Z := prim (fun _ => do_flock true true fd).
(** [flock (fd, LOCK_SH)] *)
Definition sys_flock_sh (fd : Z) : prog Z := prim (fun _ => do_flock false false fd).
(** [flock (fd, LOCK_UN)] *)
Definition sys_flock_un (fd : Z) : prog Z :=
  prim (fun _ w0 => with_fd fd (-1) w0 (fun _ _ w =>
    Done 0 (set_os (set_os_flock (filter (fun k => fk_fd k <> fd) (os_flock (w_os w))) (w_os w)) w))).

(** The rwlock of the connection at [p]; the calls return an error number. *)
Definition with_rwlock (p : ptr) (w0 : world) (g : rwlock_t -> option rwlock_t) : outcome Z :=
  let '(f, w) := next_fault w0 in
  match f with
  | FFail => Done 1 w
  | _ =>
      with_cell (T:=logdb_connection_t) p w (fun l c =>
        match g (conn_lock c) with
        | None => Blocked
        | Some k => Done 0 (set_heap (<[l := to_cell (set_conn_lock k c)]> (w_heap w)) w)
        end)
  end.
Definition rwlock_rdlock (p : ptr) : prog Z :=
  prim (fun _ w => with_rwlock p w (fun k =>
    if rw_writer k then None else Some (mk_rwlock (rw_readers k + 1) false))).
Definition rwlock_wrlock (p : ptr) : prog Z :=
  prim (fun _ w => with_rwlock p w (fun k =>
    if rw_writer k || (0 <? rw_readers k) then None else Some (mk_rwlock (rw_readers k) true))).
(** Unlocking cannot fail for a holder; the write lock excludes readers. *)
Definition rwlock_unlock (p : ptr) : prog unit :=
  rmw (T:=logdb_connection_t) p (fun c =>
    let k := conn_lock c in
    (set_conn_lock (if rw_writer k then mk_rwlock (rw_readers k) false
                    else mk_rwlock (rw_readers k - 1) false) c, tt)).

(** ** Thread-specific data *)

Definition pthread_getspecific (key : Z) : prog ptr :=
  prim (fun th w => Done (default None (w_tls w !! (th, key))) w).
Definition pthread_setspecific (key : Z) (p : ptr) : prog Z :=
  prim (fun th w0 => let '(f, w) := next_fault w0 in
    match f with
    | FFail => Done 1 w
    | _ => Done 0 (set_tls (<[(th, key) := p]> (w_tls w)) w)
    end).
(** The new key, or [None] when none is left. *)
Definition pthread_key_create : prog (option Z) :=
  prim (fun _ w0 => let '(f, w) := next_fault w0 in
    match f with
    | FFail => Done None w
    | _ => Done (Some (w_next_key w)) (set_next_key (w_next_key w + 1) w)
    end).
(** The values the threads stored are no longer reachable. *)
Definition pthread_key_delete (key : Z) : prog Z :=
  prim (fun _ w => Done 0 (set_tls (filter (fun kv => kv.1.2 <> key) (w_tls w)) w)).

(** ** Concrete worlds *)

(** A machine with nothing on it; descriptor 4 and inode 2 are the next. *)
Definition empty_os : os_state := mk_os ∅ ∅ ∅ ∅ 4 2 [] [] ∅.
Definition empty_world (oracle : list fault) : world := mk_world empty_os ∅ 1 ∅ 0 [] oracle.

(** One process; the main thread and a second one. *)
Definition main_thread : thread := mk_thread 100 1.
Definition other_thread : thread := mk_thread 100 2.

(** Descriptor 3 of that process is open on inode 1, whose contents are [bs]. *)
Definition sample_ofd : ofd := mk_ofd 1 0 false 100.
Definition sample_world (bs : list byte) (oracle : list fault) : world :=
  put_fd 3 sample_ofd (put_file 1 bs (empty_world oracle)).

(** ** Facts about the calls *)

Lemma next_fault_quiet w : w_oracle w = [] -> next_fault w = (FOk, w).
Proof. unfold next_fault. by intros ->. Qed.

Lemma set_oracle_id w : set_oracle (w_oracle w) w = w.
Proof. by destruct w. Qed.

Lemma next_fault_spec w :
  exists f fs, next_fault w = (f, set_oracle fs w) /\
    fs `suffix_of` w_oracle w /\
    (In FFail (w_oracle w) -> In f (w_oracle w)) /\
    (~ In FFail (w_oracle w) -> f <> FFail /\ ~ In FFail fs).
Proof.
  unfold next_fault. destruct (w_oracle w) as [|f fs] eqn:E.
  - exists FOk, []. rewrite <- E, set_oracle_id, E. repeat split; auto.
  - exists f, fs. repeat split; auto.
    + by exists [f].
    + by left.
    + intros ->. apply H. by left.
    + intros ?. apply H. by right.
Qed.

Lemma put_fd_get fd o w : get_fd fd (put_fd fd o w) = Some o.
Proof. unfold get_fd, put_fd. simpl. apply lookup_insert_eq. Qed.

Lemma put_fd_get_ne fd fd' o w : fd <> fd' -> get_fd fd' (put_fd fd o w) = get_fd fd' w.
Proof. intros. unfold get_fd, put_fd. simpl. by apply lookup_insert_ne. Qed.

Lemma put_file_get i bs w : get_file i (put_file i bs w) = bs.
Proof. unfold get_file, put_file. simpl. by rewrite lookup_insert_eq. Qed.

Lemma put_file_get_ne i j bs w : i <> j -> get_file j (put_file i bs w) = get_file j w.
Proof. intros. unfold get_file, put_file. simpl. by rewrite lookup_insert_ne. Qed.

Lemma put_file_twice i a b w : put_file i a (put_file i b w) = put_file i a w.
Proof. unfold put_file, set_os, set_os_inodes. simpl. by rewrite insert_insert_eq. Qed.

(** [fd] is open on an inode that exists. *)
Definition open_fd (fd : Z) (o : ofd) (w : world) : Prop :=
  get_fd fd w = Some o /\ is_Some (os_inodes (w_os w) !! fd_ino o) /\ 0 <= fd_pos o.

Lemma open_fd_put_file fd o i bs w : open_fd fd o w -> open_fd fd o (put_file i bs w).
Proof.
  intros (H & [x Hx] & ?). split_and!; [done| |done].
  unfold put_file. simpl. destruct (decide (i = fd_ino o)) as [->|].
  - rewrite lookup_insert_eq. eauto.
  - rewrite lookup_insert_ne; eauto.
Qed.

Lemma open_fd_set_oracle fd o fs w : open_fd fd o w -> open_fd fd o (set_oracle fs w).
Proof. done. Qed.

Lemma open_fd_put_fd fd o p w :
  open_fd fd o w -> 0 <= p -> open_fd fd (set_fd_pos p o) (put_fd fd (set_fd_pos p o) w).
Proof. intros (H & ? & ?) ?. split_and!; [apply put_fd_get|done|done]. Qed.

#[export] Hint Resolve open_fd_put_file open_fd_set_oracle open_fd_put_fd : logdb.

Lemma put_fd_twice i a b w : put_fd i a (put_fd i b w) = put_fd i a w.
Proof. unfold put_fd, set_os, set_os_fds. simpl. by rewrite insert_insert_eq. Qed.

Lemma put_fd_put_file i a j b w : put_file j b (put_fd i a w) = put_fd i a (put_file j b w).
Proof. done. Qed.

Lemma put_fd_get_file i a j w : get_file j (put_fd i a w) = get_file j w.
Proof. done. Qed.

Lemma put_file_get_fd i a j w : get_fd j (put_file i a w) = get_fd j w.
Proof. done. Qed.

Lemma put_fd_id fd o w : get_fd fd w = Some o -> put_fd fd o w = w.
Proof.
  unfold get_fd, put_fd. intros H. destruct w as [[] ? ? ? ? ? ?]. simpl in *.
  unfold set_os, set_os_fds. simpl. by rewrite insert_id.
Qed.

Lemma put_file_id i w : is_Some (os_inodes (w_os w) !! i) -> put_file i (get_file i w) w = w.
Proof.
  unfold get_file, put_file. intros [bs H]. destruct w as [[] ? ? ? ? ? ?]. simpl in *.
  unfold set_os, set_os_inodes. simpl. rewrite H. simpl. by rewrite insert_id.
Qed.

Lemma set_fd_pos_id o : set_fd_pos (fd_pos o) o = o.
Proof. by destruct o. Qed.

Create Rewrite HintDb world.
#[export] Hint Rewrite put_fd_get put_file_get put_fd_get_file put_file_get_fd : world.

(** The bytes a transfer of [sz] can be cut to. *)
Lemma xfer_range f sz : 0 < sz -> 0 < xfer f sz <= sz.
Proof. destruct f; simpl; lia. Qed.

Lemma file_read_length off n bs :
  0 <= off -> 0 <= n -> zlen (file_read off n bs) = Z.min n (Z.max 0 (zlen bs - off)).
Proof. intros. unfold file_read. rewrite length_slice. lia. Qed.

Lemma file_read_app off n m bs :
  0 <= off -> 0 <= n -> 0 <= m ->
  file_read off (n + m) bs = file_read off n bs ++ file_read (off + n) m bs.
Proof.
  intros. unfold file_read. rewrite !Z2Nat.inj_add by lia. apply slice_add.
Qed.

Lemma file_write_app off a b bs :
  0 <= off -> file_write (off + zlen a) b (file_write off a bs) = file_write off (a ++ b) bs.
Proof.
  intros. destruct a as [|x a]; [simpl; by rewrite Z.add_0_r|].
  destruct b as [|y b]; [by rewrite app_nil_r|].
  unfold file_write. simpl app. rewrite app_comm_cons.
  rewrite <- splice_splice. f_equal. lia.
Qed.

Lemma file_write_nil off bs : file_write off [] bs = bs.
Proof. done. Qed.

Lemma length_file_write off d bs :
  0 <= off -> d <> [] -> zlen (file_write off d bs) = Z.max (zlen bs) (off + zlen d).
Proof.
  intros ? Hd. destruct d; [done|]. unfold file_write. rewrite length_splice. lia.
Qed.

Lemma file_write_end d bs : file_write (zlen bs) d bs = bs ++ d.
Proof.
  destruct d; simpl; [by rewrite app_nil_r|]. rewrite Nat2Z.id. apply splice_end.
Qed.

Lemma file_read_write_same off d bs :
  0 <= off -> file_read off (zlen d) (file_write off d bs) = d.
Proof.
  intros. destruct d; [done|]. unfold file_write, file_read. rewrite Nat2Z.id.
  apply slice_splice_same.
Qed.

Lemma file_read_write_before off d bs o n :
  0 <= o -> 0 <= n -> o + n <= off -> o + n <= zlen bs ->
  file_read o n (file_write off d bs) = file_read o n bs.
Proof.
  intros. destruct d; [done|]. unfold file_write, file_read. apply slice_splice_before; lia.
Qed.

Lemma file_read_write_after off d bs o n :
  0 <= off -> 0 <= o -> 0 <= n -> off + zlen d <= o ->
  file_read o n (file_write off d bs) = file_read o n bs.
Proof.
  intros. destruct d; [done|]. unfold file_write, file_read. apply slice_splice_after. lia.
Qed.

(** [run] of each call is the call's effect: the rewrite database [run]. *)
Create Rewrite HintDb run.

Section run_calls.
Context (th : thread) (w : world).

Lemma run_load T `{Cell T} p : run th (load T p) w = do_load T p w.
Proof. exact (run_prim th _ w). Qed.
Lemma run_rmw T X `{Cell T} p (g : T -> T * X) : run th (rmw p g) w = do_rmw p g w.
Proof. exact (run_prim th _ w). Qed.
Lemma run_upd T `{Cell T} p (g : T -> T) :
  run th (upd p g) w = do_rmw p (fun t => (g t, tt)) w.
Proof. exact (run_prim th _ w). Qed.
Lemma run_alloc T `{Cell T} (t : T) : run th (alloc t) w = do_alloc (to_cell t) w.
Proof. exact (run_prim th _ w). Qed.
Lemma run_free p : run th (free p) w = do_free p w.
Proof. exact (run_prim th _ w). Qed.
Lemma run_dispose d p : run th (dispose d p) w = do_dispose d p w.
Proof. exact (run_prim th _ w). Qed.
Lemma run_load_bytes l off n : run th (load_bytes l off n) w = do_load_bytes l off n w.
Proof. exact (run_prim th _ w). Qed.
Lemma run_load_mem p n :
  run th (load_mem p n) w =
    if n =? 0 then Done [] w
    else match p with None => Undef UbNull | Some l => do_load_bytes l 0 n w end.
Proof. unfold load_mem. destruct (n =? 0); [done|]. exact (run_prim th _ w). Qed.
Lemma run_store_append p cap data :
  run th (store_append p cap data) w =
    with_cell (T:=list byte) p w (fun l bs =>
      if zlen bs + zlen data <=? cap
      then Done tt (set_heap (<[l := CBytes (bs ++ data)]> (w_heap w)) w)
      else Undef UbBounds).
Proof. exact (run_prim th _ w). Qed.
Lemma run_heap_size : run th heap_size w = Done (S (size (w_heap w))) w.
Proof. exact (run_prim th _ w). Qed.
Lemma run_undef A u : run th (@undef A u) w = Undef u.
Proof. done. Qed.
Lemma run_no_fuel A : run th (@no_fuel A) w = NoFuel.
Proof. done. Qed.
Lemma run_open path fl : run th (sys_open path fl) w = do_open path fl th w.
Proof. exact (run_prim th _ w). Qed.
Lemma run_close fd : run th (sys_close fd) w = do_close fd w.
Proof. exact (run_prim th _ w). Qed.
Lemma run_read fd sz : run th (sys_read fd sz) w = do_read fd sz w.
Proof. exact (run_prim th _ w). Qed.
Lemma run_pread fd sz off : run th (sys_pread fd sz off) w = do_pread fd sz off w.
Proof. exact (run_prim th _ w). Qed.
Lemma run_write fd data : run th (sys_write fd data) w = do_write fd data w.
Proof. exact (run_prim th _ w). Qed.
Lemma run_pwrite fd data off : run th (sys_pwrite fd data off) w = do_pwrite fd data off w.
Proof. exact (run_prim th _ w). Qed.
Lemma run_lseek fd off wh : run th (sys_lseek fd off wh) w = do_lseek fd off wh w.
Proof. exact (run_prim th _ w). Qed.
Lemma run_ftruncate fd len : run th (sys_ftruncate fd len) w = do_ftruncate fd len w.
Proof. exact (run_prim th _ w). Qed.
Lemma run_fsync fd : run th (sys_fsync fd) w = do_fsync fd w.
Proof. exact (run_prim th _ w). Qed.
Lemma run_unlink path : run th (sys_unlink path) w = do_unlink path w.
Proof. exact (run_prim th _ w). Qed.
Lemma run_realpath path : run th (realpath path) w = do_realpath path w.
Proof. exact (run_prim th _ w). Qed.
Lemma run_getenv name : run th (getenv name) w = Done (os_env (w_os w) !! name) w.
Proof. exact (run_prim th _ w). Qed.
Lemma run_setlk fd op s n : run th (sys_fcntl_setlk fd op s n) w = do_setlk false fd op s n w.
Proof. exact (run_prim th _ w). Qed.
Lemma run_setlkw fd op s n : run th (sys_fcntl_setlkw fd op s n) w = do_setlk true fd op s n w.
Proof. exact (run_prim th _ w). Qed.
Lemma run_flock_ex_nb fd : run th (sys_flock_ex_nb fd) w = do_flock true true fd w.
Proof. exact (run_prim th _ w). Qed.
Lemma run_flock_sh fd : run th (sys_flock_sh fd) w = do_flock false false fd w.
Proof. exact (run_prim th _ w). Qed.
End run_calls.

#[export] Hint Rewrite @run_bind @run_ret @run_load @run_rmw @run_upd @run_alloc @run_free
  @run_dispose @run_load_bytes @run_load_mem @run_store_append @run_heap_size @run_undef @run_no_fuel @run_open @run_close
  @run_read @run_pread @run_write @run_pwrite @run_lseek @run_ftruncate @run_fsync @run_unlink
  @run_realpath @run_getenv @run_setlk @run_setlkw @run_flock_ex_nb @run_flock_sh : run.

(** Expose the effect of the next call of a program. *)
Ltac run_step := autorewrite with run.

(** The world after a block was allocated. *)
Definition alloced (c : cell) (w : world) : world :=
  set_next (w_next w + 1) (set_heap (<[w_next w := c]> (w_heap w)) w).

(** ** The calls when no failure is scheduled *)

Abbreviation quiet w := (w_oracle w = []).

Section quiet_calls.
Context (w : world) (Hq : quiet w).

Lemma with_fd_quiet {X} fd (err : X) k o :
  get_fd fd w = Some o -> with_fd fd err w k = k FOk o w.
Proof. intros Ho. unfold with_fd. rewrite next_fault_quiet by done. by rewrite Ho. Qed.

Lemma do_lseek_quiet fd off wh o :
  get_fd fd w = Some o ->
  let pos := match wh with
             | SEEK_SET => 0 | SEEK_CUR => fd_pos o | SEEK_END => zlen (get_file (fd_ino o) w)
             end + off in
  0 <= pos -> do_lseek fd off wh w = Done pos (put_fd fd (set_fd_pos pos o) w).
Proof.
  intros Ho pos Hp. unfold do_lseek. rewrite (with_fd_quiet _ _ _ o) by done.
  fold pos. destruct (Z.ltb_spec pos 0); [lia|done].
Qed.

Lemma do_lseek_quiet_neg fd off wh o :
  get_fd fd w = Some o ->
  let pos := match wh with
             | SEEK_SET => 0 | SEEK_CUR => fd_pos o | SEEK_END => zlen (get_file (fd_ino o) w)
             end + off in
  pos < 0 -> do_lseek fd off wh w = Done (-1) w.
Proof.
  intros Ho pos Hp. unfold do_lseek. rewrite (with_fd_quiet _ _ _ o) by done.
  fold pos. destruct (Z.ltb_spec pos 0); [done|lia].
Qed.

Lemma do_alloc_quiet c :
  do_alloc c w = Done (Some (w_next w))
    (set_next (w_next w + 1) (set_heap (<[w_next w := c]> (w_heap w)) w)).
Proof. unfold do_alloc. by rewrite next_fault_quiet. Qed.

(** Resizing a file: cut, or filled up with zeros. *)
Definition resize (n : Z) (bs : list byte) : list byte :=
  take (Z.to_nat n) bs ++ replicate (Z.to_nat n - length bs) x00.

Lemma do_ftruncate_quiet fd len o :
  get_fd fd w = Some o -> 0 <= len ->
  do_ftruncate fd len w = Done 0 (put_file (fd_ino o) (resize len (get_file (fd_ino o) w)) w).
Proof.
  intros Ho Hl. unfold do_ftruncate. rewrite (with_fd_quiet _ _ _ o) by done.
  destruct (Z.ltb_spec len 0); [lia|done].
Qed.

Lemma do_fsync_quiet fd o :
  get_fd fd w = Some o ->
  do_fsync fd w = Done 0 (set_os (set_os_durable
    (<[fd_ino o := get_file (fd_ino o) w]> (os_durable (w_os w))) (w_os w)) w).
Proof. intros Ho. unfold do_fsync. by rewrite (with_fd_quiet _ _ _ o). Qed.

Lemma do_unlink_quiet path :
  is_Some (os_dir (w_os w) !! path) ->
  do_unlink path w = Done 0 (set_os (set_os_dir (delete path (os_dir (w_os w))) (w_os w)) w).
Proof. intros [i E]. unfold do_unlink. by rewrite next_fault_quiet, E. Qed.

Lemma do_write_append_quiet fd data o :
  get_fd fd w = Some o -> fd_append o = true ->
  let bs := get_file (fd_ino o) w in
  do_write fd data w = Done (zlen data)
    (put_fd fd (set_fd_pos (zlen bs + zlen data) o) (put_file (fd_ino o) (bs ++ data) w)).
Proof.
  intros Ho Ha bs. unfold do_write. rewrite (with_fd_quiet _ _ _ o), Ha by done. simpl.
  rewrite take_ge by lia. by rewrite file_write_end.
Qed.

Lemma do_setlk_quiet wait fd op s n o :
  get_fd fd w = Some o ->
  let e := if n =? 0 then None else Some (s + n) in
  existsb (fcntl_conflict (fd_ino o) (fd_pid o) op s e) (os_fcntl (w_os w)) = false ->
  do_setlk wait fd op s n w = Done 0 (set_os (set_os_fcntl
    (fcntl_apply (fd_ino o) (fd_pid o) op s e (os_fcntl (w_os w))) (w_os w)) w).
Proof.
  intros Ho e Hc. unfold do_setlk. rewrite (with_fd_quiet _ _ _ o) by done.
  fold e. by rewrite Hc.
Qed.
End quiet_calls.

Lemma length_resize n bs : 0 <= n -> zlen (resize n bs) = n.
Proof. intros. unfold resize. rewrite length_app, length_take, length_replicate. lia. Qed.

(** Bytes below the new size, and not beyond the old one, survive. *)
Lemma file_read_resize off len n bs :
  0 <= off -> 0 <= len -> off + len <= n -> off + len <= zlen bs ->
  file_read off len (resize n bs) = file_read off len bs.
Proof.
  intros. unfold file_read, resize. apply list_eq. intros i. rewrite !lookup_slice.
  case_decide; [|done]. rewrite lookup_app_l by (rewrite length_take; lia).
  by rewrite lookup_take_lt by lia.
Qed.

(** Inode and descriptor numbers that are still to be handed out are unused. *)
Definition os_fresh (w : world) : Prop :=
  (forall i, os_next_ino (w_os w) <= i -> os_inodes (w_os w) !! i = None) /\
  (forall d, os_next_fd (w_os w) <= d -> os_fds (w_os w) !! d = None) /\
  0 <= os_next_fd (w_os w).

Lemma do_open_exists_quiet path fl th w ino :
  quiet w -> os_dir (w_os w) !! path = Some ino ->
  do_open path fl th w =
    if o_creat fl && o_excl fl then Done (-1) w
    else Done (os_next_fd (w_os w)) (fd_opened ino fl th w).
Proof. intros Hq E. unfold do_open. by rewrite next_fault_quiet, E. Qed.

Lemma do_open_new_quiet path fl th w :
  quiet w -> os_dir (w_os w) !! path = None ->
  do_open path fl th w =
    if o_creat fl
    then Done (os_next_fd (w_os w)) (fd_opened (os_next_ino (w_os w)) fl th (file_created path w))
    else Done (-1) w.
Proof. intros Hq E. unfold do_open. by rewrite next_fault_quiet, E. Qed.

Lemma open_fd_fresh fd o w : os_fresh w -> open_fd fd o w -> fd < os_next_fd (w_os w) /\ fd_ino o < os_next_ino (w_os w).
Proof.
  intros (Hi & Hd & _) (Ho & [b Hb] & _). split.
  - destruct (Z.lt_ge_cases fd (os_next_fd (w_os w))) as [|Hge]; [done|].
    unfold get_fd in Ho. by rewrite Hd in Ho.
  - destruct (Z.lt_ge_cases (fd_ino o) (os_next_ino (w_os w))) as [|Hge]; [done|].
    by rewrite Hi in Hb.
Qed.

Lemma os_fresh_frame w w' :
  os_fresh w -> os_next_ino (w_os w') = os_next_ino (w_os w) ->
  os_next_fd (w_os w') = os_next_fd (w_os w) -> os_inodes (w_os w') = os_inodes (w_os w) ->
  (forall d, os_next_fd (w_os w) <= d -> os_fds (w_os w') !! d = None) -> os_fresh w'.
Proof. intros (? & ? & ?) E1 E2 E3 ?. unfold os_fresh. by rewrite E1, E2, E3. Qed.

Lemma os_fresh_put_fd fd o p w :
  os_fresh w -> get_fd fd w = Some o -> os_fresh (put_fd fd p w).
Proof.
  intros Hf Ho. eapply os_fresh_frame; [done..|]. intros d Hd. simpl.
  destruct (decide (fd = d)) as [->|]; [|rewrite lookup_insert_ne by done; by apply Hf].
  destruct Hf as (_ & Hf & _). unfold get_fd in Ho. by rewrite Hf in Ho.
Qed.

Lemma os_fresh_alloced c w : os_fresh w -> os_fresh (alloced c w).
Proof. done. Qed.

Lemma os_fresh_put_file i bs w :
  os_fresh w -> is_Some (os_inodes (w_os w) !! i) -> os_fresh (put_file i bs w).
Proof.
  intros (Hi & Hd & ?) [b Hb]. split_and!; [|done..]. intros j Hj. simpl in *.
  destruct (decide (i = j)) as [->|]; [by rewrite Hi in Hb|].
  rewrite lookup_insert_ne by done. by apply Hi.
Qed.

Lemma os_fresh_closed fd o w : os_fresh w -> os_fresh (fd_closed fd o w).
Proof.
  intros (Hi & Hd & ?). split_and!; [done| |done]. intros d Hge. simpl in *.
  destruct (decide (fd = d)) as [->|]; [apply lookup_delete_eq|].
  rewrite lookup_delete_ne by done. by apply Hd.
Qed.

(** Loads and stores of a struct that is there. *)
Lemma do_load_peek T `{Cell T} l t w :
  peek T (w_heap w) l = Some t -> do_load T (Some l) w = Done t w.
Proof. intros E. unfold do_load, with_cell. by rewrite E. Qed.

Lemma do_rmw_peek {T X} `{Cell T} l t (g : T -> T * X) w :
  peek T (w_heap w) l = Some t ->
  do_rmw (Some l) g w = Done (g t).2 (set_heap (<[l := to_cell (g t).1]> (w_heap w)) w).
Proof. intros E. unfold do_rmw, with_cell. by rewrite E. Qed.

Lemma do_free_run l w :
  is_Some (w_heap w !! l) -> do_free (Some l) w = Done tt (set_heap (delete l (w_heap w)) w).
Proof. intros [c E]. simpl. by rewrite E. Qed.

Lemma do_close_run fd o w : get_fd fd w = Some o -> do_close fd w = Done 0 (fd_closed fd o w).
Proof. intros E. unfold do_close. by rewrite E. Qed.

Lemma get_fd_closed fd o w : get_fd fd (fd_closed fd o w) = None.
Proof. apply lookup_delete_eq. Qed.

Lemma get_fd_closed_ne fd fd' o w : fd <> fd' -> get_fd fd' (fd_closed fd o w) = get_fd fd' w.
Proof. intros. by apply lookup_delete_ne. Qed.

Lemma peek_insert T `{Cell T} l (t : T) h : peek T (<[l := to_cell t]> h) l = Some t.
Proof. unfold peek. rewrite lookup_insert_eq. simpl. apply of_to_cell. Qed.

Lemma peek_insert_ne T `{Cell T} l l' c h :
  l <> l' -> peek T (<[l := c]> h) l' = peek T h l'.
Proof. intros. unfold peek. by rewrite lookup_insert_ne. Qed.

Lemma peek_delete_ne T `{Cell T} l l' h : l <> l' -> peek T (delete l h) l' = peek T h l'.
Proof. intros. unfold peek. by rewrite lookup_delete_ne. Qed.

Lemma peek_is_Some T `{Cell T} l t h : peek T h l = Some t -> is_Some (h !! l).
Proof. unfold peek. destruct (h !! l); [eauto|done]. Qed.

(** Blocks are handed out upwards, so the next one is not in use. *)
Definition heap_fresh (w : world) : Prop := forall l, w_next w <= l -> w_heap w !! l = None.

Lemma heap_fresh_ne w l : heap_fresh w -> is_Some (w_heap w !! l) -> w_next w <> l.
Proof. intros Hf [c E] <-. rewrite Hf in E by lia. done. Qed.

Lemma heap_fresh_alloc w c :
  heap_fresh w ->
  heap_fresh (set_next (w_next w + 1) (set_heap (<[w_next w := c]> (w_heap w)) w)).
Proof. intros Hf l Hl. simpl in *. rewrite lookup_insert_ne by lia. apply Hf. lia. Qed.

Lemma heap_fresh_store w l c :
  heap_fresh w -> is_Some (w_heap w !! l) -> heap_fresh (set_heap (<[l := c]> (w_heap w)) w).
Proof.
  intros Hf [c' E] k Hk. simpl in *. destruct (decide (l = k)) as [->|].
  - rewrite Hf in E by lia. done.
  - rewrite lookup_insert_ne by done. by apply Hf.
Qed.

Lemma heap_fresh_delete w l : heap_fresh w -> heap_fresh (set_heap (delete l (w_heap w)) w).
Proof.
  intros Hf k Hk. simpl in *. destruct (decide (l = k)) as [->|].
  - apply lookup_delete_eq.
  - rewrite lookup_delete_ne by done. by apply Hf.
Qed.

#[export] Hint Resolve heap_fresh_alloc heap_fresh_store heap_fresh_delete : logdb.

(** Give the world a program runs in a name: goals stay small, and the facts
    about it hold by computation. *)
Ltac name_world :=
  match goal with
  | |- context [run _ _ ?W] =>
      tryif is_var W then idtac else (let w' := fresh "w" in set (w' := W))
  | _ => idtac
  end.

(** Side conditions of the [_quiet] lemmas: no failure is scheduled, the
    descriptor is open, the position is not negative. *)
Ltac quiet_side := first [ done | assumption | apply put_fd_get | lia | eauto with logdb ].

(** Expose the next call, and name the world it runs in. *)
Ltac run_next := cbn beta iota zeta; name_world; run_step.

(** Run the next call with its [_quiet] lemma. *)
Ltac run_lseek_on d := run_next; rewrite do_lseek_quiet with (o := d); [|quiet_side..].

(** A record lock is one that was there, or the process's own on the file. *)
Lemma fcntl_apply_own ino pid op s e ks k :
  k ∈ fcntl_apply ino pid op s e ks -> k ∈ ks \/ fl_pid k = pid /\ fl_ino k = ino.
Proof.
  assert (k ∈ ks ≫= fcntl_cut ino pid s e -> k ∈ ks \/ fl_pid k = pid /\ fl_ino k = ino) as Hrest.
  { intros (k0 & Hk & Hin)%list_elem_of_bind. unfold fcntl_cut in Hk. case_match.
    - right. apply elem_of_app in Hk as [Hk|Hk]; repeat case_match;
        rewrite ?list_elem_of_singleton, ?elem_of_nil in Hk; by subst.
    - apply list_elem_of_singleton in Hk as ->. by left. }
  unfold fcntl_apply. destruct op; [| |done]; intros [->|Hk]%elem_of_cons; auto.
Qed.

(** Locking where there is no lock, and unlocking all of what is locked. *)
Lemma fcntl_apply_first ino pid s e ks k :
  (forall k, k ∈ ks -> fl_ino k <> ino) -> k ∈ fcntl_apply ino pid F_WRLCK s e ks -> fl_ino k = ino ->
  k = mk_fcntl_lock ino pid true s e.
Proof.
  intros Hks [->|(k0 & Hk & Hin)%list_elem_of_bind]%elem_of_cons Hino; [done|]. specialize (Hks k0 Hin).
  unfold fcntl_cut in Hk. rewrite (proj2 (Z.eqb_neq _ _)) in Hk by done. apply list_elem_of_singleton in Hk. congruence.
Qed.

Lemma fcntl_apply_last ino pid s e ks k :
  (forall k, k ∈ ks -> fl_ino k = ino -> k = mk_fcntl_lock ino pid true s (Some e)) -> s < e ->
  k ∈ fcntl_apply ino pid F_UNLCK s (Some e) ks -> fl_ino k <> ino.
Proof.
  intros Hks Hlt (k0 & Hk & Hin)%list_elem_of_bind Hino. unfold fcntl_cut in Hk.
  destruct (Z.eq_dec (fl_ino k0) ino) as [E|E].
  - rewrite (Hks k0 Hin E) in Hk. cbn [fl_ino fl_pid fl_start fl_end] in Hk. unfold ranges_meet, before_end in Hk.
    rewrite !Z.eqb_refl, (proj2 (Z.ltb_lt s e)), Z.ltb_irrefl, Z.ltb_irrefl in Hk by lia. by apply not_elem_of_nil in Hk.
  - rewrite (proj2 (Z.eqb_neq _ _)) in Hk by done. apply list_elem_of_singleton in Hk. congruence.
Qed.

Lemma set_fd_pos_twice p q o : set_fd_pos p (set_fd_pos q o) = set_fd_pos p o.
Proof. done. Qed.

(** Equality of worlds built by the calls: compute both sides, and let the
    last store to a key win. *)
Ltac unname_worlds := repeat match goal with w := _ : world |- _ => subst w end.
Ltac world_eq :=
  unname_worlds;
  cbv beta iota zeta delta [put_fd put_file alloced set_os set_os_fds set_os_inodes set_os_durable set_os_dir
       set_os_fcntl set_os_flock set_heap set_next set_tls set_disposed set_oracle
       w_os w_heap w_next w_tls w_next_key w_disposed w_oracle os_dir os_inodes os_durable os_fds
       os_next_fd os_next_ino os_fcntl os_flock os_env set_fd_pos fd_ino fd_pos fd_append fd_pid fst snd to_cell
       Cell_bytes Cell_buffer Cell_txn Cell_lock Cell_log Cell_conn Cell_iter];
  rewrite ?insert_insert_eq; reflexivity.
