(* ===== verification/Platform.v ===== *)
(** * The platform check: src/system_checks/check_pwrite_O_APPEND.c

    The program the build runs to reject systems on which [pwrite] ignores its
    offset when the file was opened with [O_APPEND].  Here it runs on the two
    kinds of [pwrite]: the one of Posix.v passes it, so the machine of the
    development is one the build accepts, and the other one does not. *)

From S2P Require Import Prelude Machine World Posix.
From Stdlib Require String.

(** [open (path, O_RDWR | O_CREAT | O_TRUNC | O_APPEND, ...)] *)
Definition do_open_trunc (path : string) (th : thread) (w : world) : outcome Z :=
  match do_open path (mk_open_flags true false true) th w with
  | Done fd w' =>
      match get_fd fd w' with
      | Some o => if fd =? -1 then Done fd w' else Done fd (put_file (fd_ino o) [] w')
      | None => Done fd w'
      end
  | o => o
  end.
Definition sys_open_trunc (path : string) : prog Z := prim (do_open_trunc path).

(** The [pwrite] of the bug report the check names. *)
Definition do_pwrite_bug (fd : Z) (data : list byte) (off : Z) (w0 : world) : outcome Z :=
  with_fd fd (-1) w0 (fun f o w =>
    if off <? 0 then Done (-1) w else
    let d := take (Z.to_nat (xfer f (zlen data))) data in
    let bs := get_file (fd_ino o) w in
    Done (zlen d) (put_file (fd_ino o) (file_write (if fd_append o then zlen bs else off) d bs) w)).
Definition sys_pwrite_bug (fd : Z) (data : list byte) (off : Z) : prog Z :=
  prim (fun _ => do_pwrite_bug fd data off).

(** [main].  [result] is an uninitialised array of ten bytes, of which
    [strncmp] reads no more than it needs: up to the first that differs. *)
Fixpoint check_strncmp (expected result : list byte) : option bool :=
  match expected, result with
  | [], _ => Some true
  | _ :: _, [] => None
  | x :: expected, y :: result => if decide (x = y) then check_strncmp expected result else Some false
  end.

Section check.
Context (pwrite : Z -> list byte -> Z -> prog Z).

Definition check_main : prog Z :=
  let! fd := sys_open_trunc "test.dat" in
  if fd =? -1 then Ret 1 else
  let! r := sys_write fd (String.list_byte_of_string "bbbbbbbbbb") in
  if r =? -1 then Ret 1 else
  let! r := pwrite fd (String.list_byte_of_string "aaaaa") 0 in
  if r =? -1 then Ret 1 else
  do! sys_fsync fd in
  let! (r, result) := sys_pread fd 10 0 in
  if r =? -1 then Ret 2 else
  match check_strncmp (String.list_byte_of_string "aaaaabbbbb") result with
  | None => undef UbUninit
  | Some ev =>
      do! (if ev : bool then sys_unlink "test.dat" else Ret 0) in
      Ret (if ev then 0 else 3)
  end.

End check.

(** ** Facts *)

Lemma open_trunc_run path th w :
  quiet w -> os_fresh w ->
  exists ino w1, run th (sys_open_trunc path) w = Done (os_next_fd (w_os w)) w1 /\ quiet w1 /\
    get_fd (os_next_fd (w_os w)) w1 = Some (mk_ofd ino 0 true (th_pid th)) /\ get_file ino w1 = [] /\
    os_dir (w_os w1) = <[path := ino]> (os_dir (w_os w)).
Proof.
  intros Hq Hos. unfold sys_open_trunc. rewrite run_prim. unfold do_open_trunc.
  assert ((os_next_fd (w_os w) =? -1) = false) as Hfd by (apply Z.eqb_neq; destruct Hos as (_ & _ & ?); lia).
  destruct (os_dir (w_os w) !! path) as [ino|] eqn:E.
  - rewrite (do_open_exists_quiet _ _ _ _ ino) by done. cbn [o_creat o_excl andb].
    replace (get_fd _ _) with (Some (mk_ofd ino 0 true (th_pid th))) by (symmetry; apply put_fd_get). rewrite Hfd.
    eexists ino, _. split_and!; [done|done|apply put_fd_get|apply put_file_get|]. cbn. by rewrite insert_id.
  - rewrite do_open_new_quiet by done. cbn [o_creat].
    replace (get_fd _ _) with (Some (mk_ofd (os_next_ino (w_os w)) 0 true (th_pid th))) by (symmetry; apply put_fd_get). rewrite Hfd.
    eexists (os_next_ino (w_os w)), _. split_and!; [done|done|apply put_fd_get|apply put_file_get|done].
Qed.

(** From the [fsync] on: the file at the start holds [bs]. *)
Lemma check_rest_run th fd o w bs x :
  quiet w -> get_fd fd w = Some o -> get_file (fd_ino o) w = bs -> is_Some (os_dir (w_os w) !! "test.dat") ->
  check_strncmp (String.list_byte_of_string "aaaaabbbbb") (file_read 0 10 bs) = Some x ->
  exists w', run th (do! sys_fsync fd in
      let! (r, result) := sys_pread fd 10 0 in
      if r =? -1 then Ret 2 else
      match check_strncmp (String.list_byte_of_string "aaaaabbbbb") result with
      | None => undef UbUninit
      | Some ev => do! (if ev : bool then sys_unlink "test.dat" else Ret 0) in Ret (if ev then 0 else 3)
      end) w = Done (if x then 0 else 3) w' /\
    os_dir (w_os w') = if x then delete "test.dat" (os_dir (w_os w)) else os_dir (w_os w).
Proof.
  intros Hq Ho Hf Hd Hx. unfold sys_fsync, sys_pread. rewrite run_bind, run_prim, (do_fsync_quiet _ Hq _ o) by done.
  cbn iota. set (w1 := set_os _ w). rewrite run_bind, run_prim. unfold do_pread. rewrite (with_fd_quiet w1 Hq _ _ _ o) by done.
  cbn [xfer]. change (0 <? 0) with false. cbn iota beta. change (get_file (fd_ino o) w1) with (get_file (fd_ino o) w). rewrite Hf.
  rewrite (proj2 (Z.eqb_neq _ _)) by lia. rewrite Hx, run_bind. destruct x; [|by exists w1].
  unfold sys_unlink. rewrite run_prim, do_unlink_quiet by done. by eexists.
Qed.

Lemma pwrite_prefix_run (bug : bool) th fd ino pid pos w :
  quiet w -> get_fd fd w = Some (mk_ofd ino pos true pid) ->
  get_file ino w = String.list_byte_of_string "bbbbbbbbbb" ->
  run th ((if bug then sys_pwrite_bug else sys_pwrite) fd (String.list_byte_of_string "aaaaa") 0) w =
    Done 5 (put_file ino (String.list_byte_of_string (if bug then "bbbbbbbbbbaaaaa" else "aaaaabbbbb")) w).
Proof.
  intros Hq Ho Hf. unfold sys_pwrite, sys_pwrite_bug. destruct bug; rewrite run_prim; unfold do_pwrite, do_pwrite_bug;
    rewrite (with_fd_quiet _ Hq _ _ _ _ Ho); cbn [xfer fd_ino fd_append]; cbn iota beta; by rewrite Hf.
Qed.

Lemma check_run (bug : bool) th w :
  quiet w -> os_fresh w ->
  exists w', run th (check_main (if bug then sys_pwrite_bug else sys_pwrite)) w = Done (if bug then 3 else 0) w' /\
    (bug = false -> os_dir (w_os w') = delete "test.dat" (os_dir (w_os w))).
Proof.
  intros Hq Hos. unfold check_main. destruct (open_trunc_run "test.dat" th w Hq Hos) as (ino & w1 & E1 & Hq1 & Ho1 & Hf1 & Hd1).
  set (fd := os_next_fd (w_os w)) in *.
  assert ((fd =? -1) = false) as Hfd by (apply Z.eqb_neq; destruct Hos as (_ & _ & ?); unfold fd; lia).
  rewrite run_bind, E1, Hfd, run_bind. unfold sys_write. rewrite run_prim, (do_write_append_quiet _ Hq1 _ _ _ Ho1) by done.
  cbn [fd_ino]. rewrite Hf1. cbn iota. change (zlen (String.list_byte_of_string "bbbbbbbbbb") =? -1) with false. cbn iota.
  set (w2 := put_fd fd _ _).
  rewrite run_bind, (pwrite_prefix_run bug th fd ino (th_pid th) 10 w2); [|done|apply put_fd_get|apply put_file_get].
  change (5 =? -1) with false. cbn iota. set (w3 := put_file ino _ w2).
  destruct (check_rest_run th fd (mk_ofd ino 10 true (th_pid th)) w3
    (String.list_byte_of_string (if bug then "bbbbbbbbbbaaaaa" else "aaaaabbbbb")) (negb bug)) as (w' & E & Hd).
  - done.
  - apply put_fd_get.
  - apply put_file_get.
  - change (os_dir (w_os w3)) with (os_dir (w_os w1)). rewrite Hd1, lookup_insert_eq. by eexists.
  - by destruct bug.
  - exists w'. split; [rewrite E; by destruct bug|]. intros ->. cbn [negb] in Hd. rewrite Hd.
    change (os_dir (w_os w3)) with (os_dir (w_os w1)). rewrite Hd1. by rewrite delete_insert_eq.
Qed.

(** ** Properties *)

(** C39. On the [pwrite] of this development the check exits with 0 and leaves no
    file behind; on one that appends it exits with 3. *)
Theorem platform_check th w :
  quiet w -> os_fresh w ->
  (exists w', run th (check_main sys_pwrite) w = Done 0 w' /\ os_dir (w_os w') = delete "test.dat" (os_dir (w_os w))) /\
  (exists w', run th (check_main sys_pwrite_bug) w = Done 3 w').
Proof.
  intros Hq Hos. destruct (check_run false th w Hq Hos) as (w1 & E1 & Hd1). destruct (check_run true th w Hq Hos) as (w2 & E2 & _).
  split; [exists w1; auto|by exists w2].
Qed.

Lemma platform_check_witness :
  (exists w', run main_thread (check_main sys_pwrite) (empty_world []) = Done 0 w' /\ os_dir (w_os w') = delete "test.dat" ∅) /\
  (exists w', run main_thread (check_main sys_pwrite_bug) (empty_world []) = Done 3 w').
Proof. apply (platform_check main_thread (empty_world [])); [done|by split_and!]. Defined.
