(* ===== verification/Io.v ===== *)
(** * Complete transfers: src/src/logdb_io.c

    The four loops that repeat [read], [write], [pread] and [pwrite] until
    everything is transferred, the file ends or the call fails.  Each theorem
    covers every schedule of short transfers and failures, and says the loop
    ends: every call that does not end it moves at least one byte, so the size
    is fuel enough. *)

From S2P Require Import Prelude Machine World Posix.

(** The value after the loop: [bytes] is [None] while no call was made, and
    then reading it is undefined. *)
Definition io_read_result (bytes : option Z) (sz : Z) (buf : list byte) : prog (Z * list byte) :=
  match bytes with
  | None => undef UbUninit
  | Some b => Ret (if b =? 0 then -1 else s64 sz, buf)
  end.

(** A read also returns the bytes it stored at [buf]. *)
Fixpoint io_read_loop (fuel : nat) (fd sz : Z) (bytes : option Z) (buf : list byte)
    : prog (Z * list byte) :=
  if 0 <? sz then
    match fuel with
    | O => no_fuel
    | S fuel' =>
        let! (b, data) := sys_read fd sz in
        if 0 <? b then io_read_loop fuel' fd (sz - b) (Some b) (buf ++ data)
        else io_read_result (Some b) sz buf
    end
  else io_read_result bytes sz buf.

Definition logdb_io_read (fd sz : Z) : prog (Z * list byte) :=
  io_read_loop (Z.to_nat sz) fd sz None [].

Fixpoint io_write_loop (fuel : nat) (fd : Z) (data : list byte) (sz : Z) : prog Z :=
  if 0 <? sz then
    match fuel with
    | O => no_fuel
    | S fuel' =>
        let! b := sys_write fd data in
        if 0 <? b then io_write_loop fuel' fd (drop (Z.to_nat b) data) (sz - b)
        else Ret sz
    end
  else Ret sz.

Definition logdb_io_write (fd : Z) (data : list byte) : prog Z :=
  io_write_loop (length data) fd data (zlen data).

Fixpoint io_pread_loop (fuel : nat) (fd sz offs : Z) (bytes : option Z) (buf : list byte)
    : prog (Z * list byte) :=
  if 0 <? sz then
    match fuel with
    | O => no_fuel
    | S fuel' =>
        let! (b, data) := sys_pread fd sz offs in
        if 0 <? b then io_pread_loop fuel' fd (sz - b) (offs + b) (Some b) (buf ++ data)
        else io_read_result (Some b) sz buf
    end
  else io_read_result bytes sz buf.

Definition logdb_io_pread (fd sz offs : Z) : prog (Z * list byte) :=
  io_pread_loop (Z.to_nat sz) fd sz offs None [].

Fixpoint io_pwrite_loop (fuel : nat) (fd : Z) (data : list byte) (sz offs : Z) : prog Z :=
  if 0 <? sz then
    match fuel with
    | O => no_fuel
    | S fuel' =>
        let! b := sys_pwrite fd data offs in
        if 0 <? b then io_pwrite_loop fuel' fd (drop (Z.to_nat b) data) (sz - b) (offs + b)
        else Ret sz
    end
  else Ret sz.

Definition logdb_io_pwrite (fd : Z) (data : list byte) (offs : Z) : prog Z :=
  io_pwrite_loop (length data) fd data (zlen data) offs.

(** ** Outcomes *)

(** What a read of [sz] bytes may return when [n] of them arrived: all, the
    end of the file, or the number missing after an error. *)
Inductive read_end (size off sz n : Z) (fails : Prop) : Z -> Prop :=
| read_end_all : n = sz -> read_end size off sz n fails 0
| read_end_eof : n < sz -> size <= off + n -> read_end size off sz n fails (-1)
| read_end_err : n < sz -> fails -> read_end size off sz n fails (sz - n).

(** One call on an open descriptor: it fails, or transfers a nonempty part. *)
Lemma with_fd_cases {X} fd (err : X) w k o (P : outcome X -> Prop) :
  get_fd fd w = Some o ->
  (forall fs, fs `suffix_of` w_oracle w -> In FFail (w_oracle w) ->
     P (Done err (set_oracle fs w))) ->
  (forall f fs, fs `suffix_of` w_oracle w -> P (k f o (set_oracle fs w))) ->
  P (with_fd fd err w k).
Proof.
  intros Ho Herr Hk. unfold with_fd, next_fault.
  destruct (w_oracle w) as [|f fs] eqn:E.
  - rewrite Ho. rewrite <- (set_oracle_id w), E. by apply Hk.
  - change (get_fd fd (set_oracle fs w)) with (get_fd fd w).
    rewrite Ho. assert (fs `suffix_of` f :: fs) by by exists [f].
    destruct f; [by apply Hk|by apply Hk|]. apply Herr; [done|]. by left.
Qed.

Lemma file_read_clip off m bs :
  file_read off (zlen (file_read off m bs)) bs = file_read off m bs.
Proof.
  unfold file_read. rewrite Nat2Z.id, length_slice. apply list_eq. intros i.
  rewrite !lookup_slice. repeat case_decide; try done; try lia.
  symmetry. apply lookup_ge_None_2. lia.
Qed.

Lemma file_read_zero off bs : file_read off 0 bs = [].
Proof. done. Qed.

Lemma file_read_take_file off f sz bs :
  0 <= off -> 0 < sz ->
  exists n, file_read off (xfer f sz) bs = file_read off n bs /\
    zlen (file_read off n bs) = n /\ 0 <= n <= sz /\ (n = 0 -> zlen bs <= off).
Proof.
  intros. pose proof (xfer_range f sz ltac:(lia)).
  exists (zlen (file_read off (xfer f sz) bs)). rewrite file_read_clip.
  pose proof (file_read_length off (xfer f sz) bs). split_and!; lia || done.
Qed.

(** What one call of a read-like primitive gives, by [adv] on the world. *)
Definition read_call (adv : Z -> world -> world) (w : world) (size off sz : Z) (bs : list byte)
    (out : outcome (Z * list byte)) : Prop :=
  exists fs, fs `suffix_of` w_oracle w /\
    ((In FFail (w_oracle w) /\ out = Done (-1, []) (set_oracle fs w)) \/
     exists n, out = Done (n, file_read off n bs) (adv n (set_oracle fs w)) /\
       zlen (file_read off n bs) = n /\ 0 <= n <= sz /\ (n = 0 -> size <= off)).

Lemma do_pread_call fd sz off w o :
  get_fd fd w = Some o -> 0 <= off -> 0 < sz ->
  let bs := get_file (fd_ino o) w in
  read_call (fun _ w => w) w (zlen bs) off sz bs (do_pread fd sz off w).
Proof.
  intros Ho Hoff Hsz bs. unfold do_pread. apply (with_fd_cases _ _ _ _ o); [done|..].
  - intros fs ??. exists fs. split; [done|]. by left.
  - intros f fs ?. exists fs. split; [done|]. right.
    destruct (Z.ltb_spec off 0); [lia|].
    destruct (file_read_take_file off f sz bs) as (n & E & Hn & ?); [done..|].
    exists n. change (get_file _ (set_oracle fs w)) with bs. by rewrite E, Hn.
Qed.

Lemma do_read_call fd sz w o :
  get_fd fd w = Some o -> 0 <= fd_pos o -> 0 < sz ->
  let bs := get_file (fd_ino o) w in
  read_call (fun n => put_fd fd (set_fd_pos (fd_pos o + n) o)) w (zlen bs) (fd_pos o) sz bs
    (do_read fd sz w).
Proof.
  intros Ho Hoff Hsz bs. unfold do_read. apply (with_fd_cases _ _ _ _ o); [done|..].
  - intros fs ??. exists fs. split; [done|]. by left.
  - intros f fs ?. exists fs. split; [done|]. right.
    destruct (file_read_take_file (fd_pos o) f sz bs) as (n & E & Hn & ?); [done..|].
    exists n. change (get_file _ (set_oracle fs w)) with bs. rewrite E, Hn. done.
Qed.

(** ** The loops, on every schedule of outcomes *)

(** The world after a positioned read, and the file it reads, differ from the
    world before only in the outcomes used up. *)
Lemma io_pread_loop_spec th fd fuel sz off bytes buf w o :
  get_fd fd w = Some o ->
  0 <= off -> 0 <= sz < 2 ^ 63 -> (Z.to_nat sz <= fuel)%nat ->
  (sz = 0 -> exists b, bytes = Some b /\ b <> 0) ->
  let bs := get_file (fd_ino o) w in
  exists n r fs,
    run th (io_pread_loop fuel fd sz off bytes buf) w =
      Done (r, buf ++ file_read off n bs) (set_oracle fs w) /\
    fs `suffix_of` w_oracle w /\ 0 <= n <= sz /\ zlen (file_read off n bs) = n /\
    read_end (zlen bs) off sz n (In FFail (w_oracle w)) r.
Proof.
  revert sz off bytes buf w. induction fuel as [|fuel IH];
    intros sz off bytes buf w Ho Hoff Hsz Hf Hb bs; cbn [io_pread_loop];
    destruct (Z.ltb_spec 0 sz) as [Hp|Hp]; try lia.
  1,3: destruct Hb as (b & -> & Hb0); [lia|]; simpl;
    rewrite (proj2 (Z.eqb_neq b 0) Hb0);
    exists 0, 0, (w_oracle w); rewrite set_oracle_id, file_read_zero, app_nil_r;
    rewrite s64_small by lia; replace sz with 0 by lia;
    split_and!; [done|done|lia|lia|done|by constructor].
  run_step.
  destruct (do_pread_call fd sz off w o) as (fs & Hfs & [[Hin ->]|(n & -> & Hn & Hr & He)]);
    [done..|simpl|].
  - exists 0, sz, fs. rewrite file_read_zero, app_nil_r, s64_small by lia.
    split_and!; [done|done|lia|lia|done|].
    replace sz with (sz - 0) at 2 by lia. apply read_end_err; [lia|done].
  - fold bs in He |- *. destruct (Z.ltb_spec 0 n).
    + destruct (IH (sz - n) (off + n) (Some n) (buf ++ file_read off n bs) (set_oracle fs w))
        as (m & r & fs' & -> & Hs & Hm & Hl & Hend); [done|lia..| |].
      { intros _. exists n. split; [done|lia]. }
      exists (n + m), r, fs'. rewrite <- app_assoc, file_read_app by lia.
      rewrite length_app, Nat2Z.inj_add.
      split_and!; [done|by etrans|lia|lia|by apply (f_equal2 Z.add)|].
      destruct Hend; [apply read_end_all; lia|apply read_end_eof; [lia|]|].
      * change (get_file _ (set_oracle fs w)) with bs in *. lia.
      * replace (sz - n - m) with (sz - (n + m)) by lia. apply read_end_err; [lia|].
        destruct Hfs as [k ->]. apply in_app_iff. by right.
    + assert (n = 0) as -> by lia. simpl. exists 0, (-1), fs.
      rewrite app_nil_r. split_and!; [done|done|lia|lia|done|]. apply read_end_eof; lia.
Qed.

Lemma io_read_loop_spec th fd fuel sz bytes buf w o :
  get_fd fd w = Some o ->
  0 <= fd_pos o -> 0 <= sz < 2 ^ 63 -> (Z.to_nat sz <= fuel)%nat ->
  (sz = 0 -> exists b, bytes = Some b /\ b <> 0) ->
  let bs := get_file (fd_ino o) w in
  exists n r fs,
    run th (io_read_loop fuel fd sz bytes buf) w =
      Done (r, buf ++ file_read (fd_pos o) n bs)
        (put_fd fd (set_fd_pos (fd_pos o + n) o) (set_oracle fs w)) /\
    fs `suffix_of` w_oracle w /\ 0 <= n <= sz /\ zlen (file_read (fd_pos o) n bs) = n /\
    read_end (zlen bs) (fd_pos o) sz n (In FFail (w_oracle w)) r.
Proof.
  revert sz bytes buf w o. induction fuel as [|fuel IH];
    intros sz bytes buf w o Ho Hoff Hsz Hf Hb bs; cbn [io_read_loop];
    destruct (Z.ltb_spec 0 sz) as [Hp|Hp]; try lia.
  1,3: destruct Hb as (b & -> & Hb0); [lia|]; simpl;
    rewrite (proj2 (Z.eqb_neq b 0) Hb0);
    exists 0, 0, (w_oracle w); rewrite set_oracle_id, file_read_zero, app_nil_r;
    rewrite Z.add_0_r, set_fd_pos_id, put_fd_id by done;
    rewrite s64_small by lia; replace sz with 0 by lia;
    split_and!; [done|done|lia|lia|done|by constructor].
  run_step.
  destruct (do_read_call fd sz w o) as (fs & Hfs & [[Hin ->]|(n & -> & Hn & Hr & He)]);
    [done..|simpl|].
  - exists 0, sz, fs. rewrite file_read_zero, app_nil_r, s64_small by lia.
    rewrite Z.add_0_r, set_fd_pos_id, put_fd_id by done.
    split_and!; [done|done|lia|lia|done|].
    replace sz with (sz - 0) at 2 by lia. apply read_end_err; [lia|done].
  - fold bs in He |- *. destruct (Z.ltb_spec 0 n).
    + set (o' := set_fd_pos (fd_pos o + n) o).
      destruct (IH (sz - n) (Some n) (buf ++ file_read (fd_pos o) n bs)
        (put_fd fd o' (set_oracle fs w)) o')
        as (m & r & fs' & -> & Hs & Hm & Hl & Hend); [apply put_fd_get|simpl; lia|lia..| |].
      { intros _. exists n. split; [done|lia]. }
      exists (n + m), r, fs'. rewrite <- app_assoc, file_read_app by lia.
      change (set_oracle fs' (put_fd fd o' (set_oracle fs w))) with (put_fd fd o' (set_oracle fs' w)).
      rewrite put_fd_twice. unfold o' at 1. simpl. rewrite Z.add_assoc.
      rewrite length_app, Nat2Z.inj_add.
      split_and!; [done|by etrans|lia|lia|by apply (f_equal2 Z.add)|].
      destruct Hend; [apply read_end_all; lia|apply read_end_eof; [lia|]|].
      * change (get_file _ (put_fd fd o' (set_oracle fs w))) with bs in *. simpl in *. lia.
      * replace (sz - n - m) with (sz - (n + m)) by lia. apply read_end_err; [lia|].
        destruct Hfs as [k ->]. apply in_app_iff. by right.
    + assert (n = 0) as -> by lia. simpl. exists 0, (-1), fs.
      rewrite app_nil_r. split_and!; [done|done|lia|lia|done|]. apply read_end_eof; lia.
Qed.

Lemma suffix_in {A} (x : A) k l : k `suffix_of` l -> In x k -> In x l.
Proof. intros [m ->] ?. apply in_app_iff. by right. Qed.

(** What one call of a write-like primitive gives: [eff n] is the world after
    [n] bytes went out. *)
Definition write_call (eff : list byte -> world -> world) (w : world) (data : list byte)
    (out : outcome Z) : Prop :=
  exists fs, fs `suffix_of` w_oracle w /\
    ((In FFail (w_oracle w) /\ out = Done (-1) (set_oracle fs w)) \/
     exists n, out = Done n (eff (take (Z.to_nat n) data) (set_oracle fs w)) /\ 0 < n <= zlen data).

Lemma do_pwrite_call fd data off w o :
  get_fd fd w = Some o -> 0 <= off -> data <> [] ->
  write_call (fun d w => put_file (fd_ino o) (file_write off d (get_file (fd_ino o) w)) w)
    w data (do_pwrite fd data off w).
Proof.
  intros Ho Hoff Hd. unfold do_pwrite. apply (with_fd_cases _ _ _ _ o); [done|..].
  - intros fs ??. exists fs. split; [done|]. by left.
  - intros f fs ?. exists fs. split; [done|]. right.
    destruct (Z.ltb_spec off 0); [lia|]. exists (xfer f (zlen data)).
    assert (0 < zlen data) by (destruct data; simpl; [done|lia]).
    pose proof (xfer_range f (zlen data) ltac:(lia)). split; [|lia].
    f_equal. rewrite length_take. lia.
Qed.

Lemma do_write_call fd data w o :
  get_fd fd w = Some o -> fd_append o = false -> data <> [] ->
  write_call (fun d w => put_fd fd (set_fd_pos (fd_pos o + zlen d) o)
      (put_file (fd_ino o) (file_write (fd_pos o) d (get_file (fd_ino o) w)) w))
    w data (do_write fd data w).
Proof.
  intros Ho Ha Hd. unfold do_write. apply (with_fd_cases _ _ _ _ o); [done|..].
  - intros fs ??. exists fs. split; [done|]. by left.
  - intros f fs ?. exists fs. split; [done|]. right. rewrite Ha.
    exists (xfer f (zlen data)).
    assert (0 < zlen data) by (destruct data; simpl; [done|lia]).
    pose proof (xfer_range f (zlen data) ltac:(lia)). split; [|lia].
    f_equal. rewrite length_take. lia.
Qed.

(** The bytes of a write that is split in two. *)
Lemma file_write_split off n m data bs :
  0 <= off -> 0 <= n <= zlen data -> 0 <= m ->
  file_write (off + n) (take (Z.to_nat m) (drop (Z.to_nat n) data))
    (file_write off (take (Z.to_nat n) data) bs) =
  file_write off (take (Z.to_nat (n + m)) data) bs.
Proof.
  intros. rewrite Z2Nat.inj_add by lia. rewrite <- take_take_drop, <- file_write_app by done.
  do 2 f_equal. rewrite length_take. lia.
Qed.

Lemma io_pwrite_loop_spec th fd fuel data sz off w o :
  open_fd fd o w -> 0 <= off -> sz = zlen data -> (length data <= fuel)%nat ->
  exists n fs,
    run th (io_pwrite_loop fuel fd data sz off) w =
      Done (sz - n) (put_file (fd_ino o)
        (file_write off (take (Z.to_nat n) data) (get_file (fd_ino o) w)) (set_oracle fs w)) /\
    fs `suffix_of` w_oracle w /\ 0 <= n <= sz /\ (n < sz -> In FFail (w_oracle w)).
Proof.
  revert data sz off w. induction fuel as [|fuel IH]; intros data sz off w Ho Hoff -> Hf;
    cbn [io_pwrite_loop]; destruct (Z.ltb_spec 0 (zlen data)) as [Hp|Hp]; try lia.
  1,3: exists 0, (w_oracle w); rewrite set_oracle_id; simpl take; simpl file_write;
    rewrite put_file_id by apply Ho;
    split_and!; [simpl; by rewrite Z.sub_0_r|done|lia|lia|lia].
  run_step.
  destruct (do_pwrite_call fd data off w o) as (fs & Hfs & [[Hin ->]|(n & -> & Hn)]);
    [apply Ho|done|by intros ->|simpl|].
  - exists 0, fs. simpl. rewrite Z.sub_0_r.
    change (get_file (fd_ino o) w) with (get_file (fd_ino o) (set_oracle fs w)).
    rewrite put_file_id by apply Ho. split_and!; [done|done|lia|lia|done].
  - destruct (Z.ltb_spec 0 n); [|lia].
    edestruct (IH (drop (Z.to_nat n) data) (zlen data - n) (off + n))
      as (m & fs' & -> & Hs & Hm & Hend).
    { apply open_fd_put_file, open_fd_set_oracle, Ho. }
    { lia. } { rewrite length_drop; lia. } { rewrite length_drop; lia. }
    exists (n + m), fs'. autorewrite with world.
    rewrite file_write_split by lia. simpl in Hs.
    split_and!; [|by etrans|lia|lia|].
    + rewrite Z.sub_add_distr. f_equal.
      change (set_oracle fs' (put_file ?i ?b (set_oracle fs w))) with (put_file i b (set_oracle fs' w)).
      by rewrite put_file_twice.
    + intros. eapply suffix_in; [done|]. apply Hend. lia.
Qed.

Lemma io_write_loop_spec th fd fuel data sz w o :
  open_fd fd o w -> fd_append o = false -> sz = zlen data -> (length data <= fuel)%nat ->
  exists n fs,
    run th (io_write_loop fuel fd data sz) w =
      Done (sz - n) (put_fd fd (set_fd_pos (fd_pos o + n) o) (put_file (fd_ino o)
        (file_write (fd_pos o) (take (Z.to_nat n) data) (get_file (fd_ino o) w)) (set_oracle fs w))) /\
    fs `suffix_of` w_oracle w /\ 0 <= n <= sz /\ (n < sz -> In FFail (w_oracle w)).
Proof.
  revert data sz w o. induction fuel as [|fuel IH]; intros data sz w o Ho Ha -> Hf;
    cbn [io_write_loop]; destruct (Z.ltb_spec 0 (zlen data)) as [Hp|Hp]; try lia.
  1,3: exists 0, (w_oracle w); rewrite set_oracle_id; simpl take; simpl file_write;
    rewrite put_file_id, Z.add_0_r, set_fd_pos_id, put_fd_id by apply Ho;
    split_and!; [simpl; by rewrite Z.sub_0_r|done|lia|lia|lia].
  run_step.
  destruct (do_write_call fd data w o) as (fs & Hfs & [[Hin ->]|(n & -> & Hn)]);
    [apply Ho|done|by intros ->|simpl|].
  - exists 0, fs. simpl. rewrite Z.sub_0_r, Z.add_0_r, set_fd_pos_id.
    change (get_file (fd_ino o) w) with (get_file (fd_ino o) (set_oracle fs w)).
    rewrite put_file_id, put_fd_id by apply Ho. split_and!; [done|done|lia|lia|done].
  - destruct (Z.ltb_spec 0 n); [|lia].
    assert (zlen (take (Z.to_nat n) data) = n) as -> by (rewrite length_take; lia).
    edestruct (IH (drop (Z.to_nat n) data) (zlen data - n))
      as (m & fs' & -> & Hs & Hm & Hend).
    { apply open_fd_put_fd, Z.add_nonneg_nonneg; [|apply Ho|lia].
      apply open_fd_put_file, open_fd_set_oracle, Ho. }
    { done. } { rewrite length_drop; lia. } { rewrite length_drop; lia. }
    exists (n + m), fs'. simpl fd_ino. simpl fd_pos. autorewrite with world.
    rewrite file_write_split by (apply Ho || lia). simpl in Hs.
    split_and!; [|by etrans|lia|lia|].
    + rewrite Z.sub_add_distr. f_equal.
      change (set_oracle fs' (put_fd ?j ?c (put_file ?i ?b (set_oracle fs w))))
        with (put_fd j c (put_file i b (set_oracle fs' w))).
      rewrite put_fd_put_file, put_file_twice, put_fd_twice. simpl. by rewrite Z.add_assoc.
    + intros. eapply suffix_in; [done|]. apply Hend. lia.
Qed.

(** ** The functions when nothing fails *)


Lemma quiet_suffix fs w : quiet w -> fs `suffix_of` w_oracle w -> fs = [].
Proof. intros -> [k E]. destruct k; simpl in E; by destruct fs. Qed.

Lemma quiet_world w : quiet w -> set_oracle [] w = w.
Proof. destruct w; simpl. by intros ->. Qed.

Lemma file_read_long off n m bs :
  0 <= off -> 0 <= n <= m -> zlen bs <= off + n -> file_read off n bs = file_read off m bs.
Proof.
  intros. replace m with (n + (m - n)) by lia. rewrite file_read_app by lia.
  assert (zlen (file_read (off + n) (m - n) bs) = 0) as E by (rewrite file_read_length; lia).
  destruct (file_read (off + n) (m - n) bs); [by rewrite app_nil_r|simpl in E; lia].
Qed.

Lemma pread_quiet th fd sz off w o :
  quiet w -> get_fd fd w = Some o -> 0 <= off -> 0 < sz < 2 ^ 63 ->
  let bs := get_file (fd_ino o) w in
  run th (logdb_io_pread fd sz off) w =
    Done (if off + sz <=? zlen bs then 0 else -1, file_read off sz bs) w.
Proof.
  intros Hq Ho Hoff Hsz bs. unfold logdb_io_pread.
  destruct (io_pread_loop_spec th fd (Z.to_nat sz) sz off None [] w o)
    as (n & r & fs & -> & Hfs & Hn & Hl & Hr); [done|lia..|]. fold bs in Hl, Hr |- *.
  rewrite (quiet_suffix fs w), quiet_world by done. simpl. rewrite Hq in Hr.
  rewrite file_read_length in Hl by lia.
  destruct Hr as [->| |? []].
  - by rewrite (proj2 (Z.leb_le _ _)) by lia.
  - rewrite (proj2 (Z.leb_gt _ _)) by lia. by rewrite (file_read_long off n sz) by lia.
Qed.

Lemma read_quiet th fd sz w o :
  quiet w -> get_fd fd w = Some o -> 0 <= fd_pos o -> 0 < sz < 2 ^ 63 ->
  let bs := get_file (fd_ino o) w in
  run th (logdb_io_read fd sz) w =
    Done (if fd_pos o + sz <=? zlen bs then 0 else -1, file_read (fd_pos o) sz bs)
      (put_fd fd (set_fd_pos (fd_pos o + zlen (file_read (fd_pos o) sz bs)) o) w).
Proof.
  intros Hq Ho Hoff Hsz bs. unfold logdb_io_read.
  destruct (io_read_loop_spec th fd (Z.to_nat sz) sz None [] w o)
    as (n & r & fs & -> & Hfs & Hn & Hl & Hr); [done|lia..|]. fold bs in Hl, Hr |- *.
  rewrite (quiet_suffix fs w), quiet_world by done. simpl. rewrite Hq in Hr.
  pose proof Hl as Hl'. rewrite file_read_length in Hl' by lia.
  destruct Hr as [->| |? []].
  - by rewrite (proj2 (Z.leb_le _ _)), Hl by lia.
  - rewrite (proj2 (Z.leb_gt _ _)) by lia.
    by rewrite <- (file_read_long (fd_pos o) n sz), Hl by lia.
Qed.

Lemma pwrite_quiet th fd data off w o :
  quiet w -> open_fd fd o w -> 0 <= off ->
  run th (logdb_io_pwrite fd data off) w =
    Done 0 (put_file (fd_ino o) (file_write off data (get_file (fd_ino o) w)) w).
Proof.
  intros Hq Ho Hoff. unfold logdb_io_pwrite.
  destruct (io_pwrite_loop_spec th fd (length data) data (zlen data) off w o)
    as (n & fs & -> & Hfs & Hn & Hf); [done..|].
  rewrite (quiet_suffix fs w), quiet_world by done. rewrite Hq in Hf.
  assert (n = zlen data) as -> by (destruct (Z.lt_ge_cases n (zlen data)); [by destruct Hf|lia]).
  rewrite Z.sub_diag, take_ge by lia. done.
Qed.

Lemma write_quiet th fd data w o :
  quiet w -> open_fd fd o w -> fd_append o = false ->
  run th (logdb_io_write fd data) w =
    Done 0 (put_fd fd (set_fd_pos (fd_pos o + zlen data) o)
      (put_file (fd_ino o) (file_write (fd_pos o) data (get_file (fd_ino o) w)) w)).
Proof.
  intros Hq Ho Ha. unfold logdb_io_write.
  destruct (io_write_loop_spec th fd (length data) data (zlen data) w o)
    as (n & fs & -> & Hfs & Hn & Hf); [done..|].
  rewrite (quiet_suffix fs w), quiet_world by done. rewrite Hq in Hf.
  assert (n = zlen data) as -> by (destruct (Z.lt_ge_cases n (zlen data)); [by destruct Hf|lia]).
  rewrite Z.sub_diag, take_ge by lia. done.
Qed.

(** ** Properties *)

(** C33. [logdb_io_pread] ends on every schedule of short reads and errors,
    changes nothing but the schedule, returns the bytes of the file from [off]
    on, and tells the three cases apart: all of them (0), the end of the file
    (-1), or the number of bytes missing after an error. *)
Theorem logdb_io_pread_correct th fd sz off w o :
  get_fd fd w = Some o -> 0 <= off -> 0 < sz < 2 ^ 63 ->
  let bs := get_file (fd_ino o) w in
  exists n r fs,
    run th (logdb_io_pread fd sz off) w = Done (r, file_read off n bs) (set_oracle fs w) /\
    zlen (file_read off n bs) = n /\ 0 <= n <= sz /\
    read_end (zlen bs) off sz n (In FFail (w_oracle w)) r.
Proof.
  intros Ho Hoff Hsz bs.
  destruct (io_pread_loop_spec th fd (Z.to_nat sz) sz off None [] w o)
    as (n & r & fs & E & _ & Hn & Hl & Hr); [done|lia..|].
  by exists n, r, fs.
Qed.

Lemma logdb_io_pread_correct_witness :
  exists n r fs,
    let w := sample_world [x61; x62; x63] [FShort 0; FShort 1] in
    run main_thread (logdb_io_pread 3 4 1) w =
      Done (r, file_read 1 n [x61; x62; x63]) (set_oracle fs w) /\
    zlen (file_read 1 n [x61; x62; x63]) = n /\ 0 <= n <= 4 /\
    read_end 3 1 4 n (In FFail [FShort 0; FShort 1]) r.
Proof.
  apply (logdb_io_pread_correct main_thread 3 4 1
    (sample_world [x61; x62; x63] [FShort 0; FShort 1]) sample_ofd); [reflexivity|lia|lia].
Defined.

(** C34. [logdb_io_pwrite] ends on every schedule, writes a prefix of the data at
    [off] and nothing else, returns the number of bytes that are missing, and
    misses some only when a call failed. *)
Theorem logdb_io_pwrite_correct th fd data off w o :
  open_fd fd o w -> 0 <= off ->
  exists n fs,
    run th (logdb_io_pwrite fd data off) w =
      Done (zlen data - n) (put_file (fd_ino o)
        (file_write off (take (Z.to_nat n) data) (get_file (fd_ino o) w)) (set_oracle fs w)) /\
    0 <= n <= zlen data /\ (n < zlen data -> In FFail (w_oracle w)).
Proof.
  intros Ho Hoff.
  destruct (io_pwrite_loop_spec th fd (length data) data (zlen data) off w o)
    as (n & fs & E & _ & Hn & Hf); [done..|].
  by exists n, fs.
Qed.

Lemma logdb_io_pwrite_correct_witness :
  exists n fs,
    let w := sample_world [x61] [FShort 0; FFail] in
    run main_thread (logdb_io_pwrite 3 [x62; x63] 0) w =
      Done (zlen [x62; x63] - n) (put_file 1
        (file_write 0 (take (Z.to_nat n) [x62; x63]) [x61]) (set_oracle fs w)) /\
    0 <= n <= 2 /\ (n < 2 -> In FFail [FShort 0; FFail]).
Proof.
  apply (logdb_io_pwrite_correct main_thread 3 [x62; x63] 0
    (sample_world [x61] [FShort 0; FFail]) sample_ofd); [|lia].
  split; [reflexivity|]. split; [by exists [x61]|done].
Defined.

(** A transfer of no bytes reads the uninitialised variable [bytes]: the
    behaviour of [logdb_io_pread] is undefined for size 0. *)
Lemma logdb_io_pread_zero_undefined th fd off w :
  run th (logdb_io_pread fd 0 off) w = Undef UbUninit.
Proof. reflexivity. Qed.
