(* ===== verification/Layout.v ===== *)
(** * File layout

    Constants, sizes and offsets: logdb_internal.h, logdb_log.h,
    logdb_connection.h and the two offset computations.  The database file is
    a header, sections of [LOGDB_SECTION_SIZE] bytes and, while no connection
    is open, a copy of the log and a trailer; the log file is a header and one
    16-bit entry per section, the number of valid bytes in it. *)

From S2P Require Import Prelude Machine World Posix.
From Stdlib Require String.

(** How the library was built, and how often the model lets the two [goto]
    loops that wait for other threads start over. *)
Class Build := mk_build {
  DEBUG : bool;     (** compiled with [-DDEBUG] *)
  RETRIES : nat
}.

(** The build of the concrete runs. *)
Definition debug_build : Build := mk_build true 4.

Definition LOGDB_VERSION : Z := 1.
Definition LOGDB_SECTION_SIZE : Z := 65536.
Definition LOGDB_OPEN_EXISTING : Z := 0.
Definition LOGDB_OPEN_CREATE : Z := 1.
Definition LOGDB_OPEN_NOSYNC : Z := 2.
Definition LOGDB_LOG_FILE_SUFFIX : string := "-log".
Definition LOGDB_LEASE_MAX_WALK : Z := 4.

Definition LOGDB_MAGIC : list byte := String.list_byte_of_string "LDBF".
Definition LOGDB_LOG_MAGIC : list byte := String.list_byte_of_string "LDBL".

(** [sizeof] of the structs: the compiler aligns [unsigned short] to 2, so
    none has padding. *)
Definition sizeof_header : Z := 6.       (** [logdb_header_t] *)
Definition sizeof_log_header : Z := 6.   (** [logdb_log_header_t] *)
Definition sizeof_log_entry : Z := 2.    (** [logdb_log_entry_t] *)
Definition sizeof_trailer : Z := 4.      (** [logdb_trailer_t] *)
Definition sizeof_data_header : Z := 8.  (** [logdb_data_header_t] *)

Definition LOGDB_MIN_SIZE : Z := sizeof_header + sizeof_log_header + sizeof_trailer.

(** The bytes of the fixed structs. *)
Definition header_bytes : list byte := LOGDB_MAGIC ++ bytes_u16 LOGDB_VERSION.
Definition log_header_bytes : list byte := LOGDB_LOG_MAGIC ++ bytes_u16 LOGDB_VERSION.

Definition data_header_bytes (h : logdb_data_header_t) : list byte :=
  bytes_u32 (hdr_keylen h) ++ bytes_u32 (hdr_valuelen h).
Definition data_header_of_bytes (bs : list byte) : logdb_data_header_t :=
  mk_data_header (le_val (take 4 bs)) (le_val (take 4 (drop 4 bs))).

(** The product is in [size_t], so it does not wrap for a 32-bit index. *)
Definition logdb_log_offset (index : Z) : Z := sizeof_log_header + index * sizeof_log_entry.

(** The comparison and the division are in [size_t]; the result is converted
    to 32 bits. *)
Definition logdb_log_index_from_offset (offset : Z) : Z :=
  if u64 offset <? sizeof_log_header then 0
  else u32 (u64 (offset - sizeof_log_header) / sizeof_log_entry).

(** The product of an [unsigned int] and an [int] is in [unsigned int]. *)
Definition logdb_connection_offset (index : Z) : Z :=
  sizeof_header + u32 (index * LOGDB_SECTION_SIZE).

(** ** Facts *)

Lemma log_index_of_offset i :
  0 <= i < 2 ^ 32 -> logdb_log_index_from_offset (logdb_log_offset i) = i.
Proof.
  intros. unfold logdb_log_index_from_offset, logdb_log_offset, sizeof_log_header, sizeof_log_entry.
  rewrite !u64_small by lia. destruct (Z.ltb_spec (6 + i * 2) 6); [lia|].
  replace (6 + i * 2 - 6) with (i * 2) by lia. rewrite Z.div_mul by lia. by apply u32_small.
Qed.

Lemma connection_offset_small i :
  0 <= i < 65536 -> logdb_connection_offset i = 6 + i * 65536.
Proof.
  intros. unfold logdb_connection_offset, sizeof_header, LOGDB_SECTION_SIZE.
  rewrite u32_small; lia.
Qed.

Lemma data_header_roundtrip h :
  0 <= hdr_keylen h < 2 ^ 32 -> 0 <= hdr_valuelen h < 2 ^ 32 ->
  data_header_of_bytes (data_header_bytes h) = h.
Proof.
  destruct h as [k v]. cbn [hdr_keylen hdr_valuelen]. intros.
  unfold data_header_of_bytes, data_header_bytes. cbn [hdr_keylen hdr_valuelen].
  rewrite take_app_length' by done.
  rewrite drop_app_length' by done.
  rewrite take_ge by (rewrite length_bytes_u32; lia).
  by rewrite !le_val_bytes_u32, !u32_small.
Qed.

Lemma length_data_header_bytes h : length (data_header_bytes h) = 8%nat.
Proof. done. Qed.

Lemma length_log_header_bytes : length log_header_bytes = 6%nat.
Proof. done. Qed.

Lemma length_header_bytes : length header_bytes = 6%nat.
Proof. done. Qed.

(** The offset of a log entry determines its index. *)
Lemma log_offset_roundtrip i :
  0 <= i < 2 ^ 32 ->
  logdb_log_index_from_offset (logdb_log_offset i) = i /\
  logdb_log_index_from_offset (logdb_log_offset i + 1) = i.
Proof.
  intros. split; [by apply log_index_of_offset|].
  unfold logdb_log_index_from_offset, logdb_log_offset, sizeof_log_header, sizeof_log_entry.
  rewrite !u64_small by lia. destruct (Z.ltb_spec (6 + i * 2 + 1) 6); [lia|].
  replace ((6 + i * 2 + 1 - 6) / 2) with i; [by apply u32_small|].
  replace (6 + i * 2 + 1 - 6) with (1 + i * 2) by lia. by rewrite Z.div_add by lia.
Qed.

(** The offset of any section: the product wraps. *)
Lemma connection_offset_mod i : logdb_connection_offset i = 6 + (i mod 65536) * 65536.
Proof.
  unfold logdb_connection_offset, LOGDB_SECTION_SIZE, sizeof_header, u32. f_equal.
  change (2 ^ 32) with (65536 * 65536). by rewrite Z.mul_mod_distr_r by lia.
Qed.

(** ** Properties *)

(** C40. Sections lie behind the header, and two of them overlap exactly when
    their numbers are equal modulo 65536: the offset is a 32-bit product, so
    the first 65536 are disjoint, and a database of more than 4 GB overwrites
    itself. *)
Theorem sections_overlap i j :
  sizeof_header <= logdb_connection_offset i /\
  (logdb_connection_offset i < logdb_connection_offset j + LOGDB_SECTION_SIZE /\
   logdb_connection_offset j < logdb_connection_offset i + LOGDB_SECTION_SIZE <-> i mod 65536 = j mod 65536).
Proof.
  rewrite !connection_offset_mod. unfold LOGDB_SECTION_SIZE, sizeof_header.
  pose proof (Z.mod_pos_bound i 65536 ltac:(lia)). pose proof (Z.mod_pos_bound j 65536 ltac:(lia)). lia.
Qed.
