(* ===== verification/Log.v ===== *)
(** * The log file: src/src/logdb_log.c

    Reading, creating, opening and closing the log, its entries, and merging
    it back into the database file.  (The entry locks are in LogLock.v.) *)

From S2P Require Import Prelude Machine World Posix Io Layout.

Section log.
Context `{Build}.

(** ** Operations *)

(** [logdb_log_new]: takes over [fd]. *)
Definition logdb_log_new (fd : Z) (path : string) : prog ptr :=
  let! result := alloc (mk_log fd None None) in
  match result with
  | None => Ret None
  | Some _ =>
      let! p := realpath path in
      do! upd result (set_log_path p) in
      Ret result
  end.

Inductive logdb_log_read_mode :=
| LOGDB_VALIDATE_ONLY | LOGDB_READ_NO_TRAILER | LOGDB_READ_HAS_TRAILER.

(** The pointer [logdb_log_read] returns: NULL, [(void* )1], or a block. *)
Inductive log_header_ptr := HdrNull | HdrOne | HdrAt (l : loc).

(** [malloc] refuses sizes over [PTRDIFF_MAX]. *)
Definition malloc_bytes (size : Z) (bs : list byte) : prog ptr :=
  if 2 ^ 63 <=? size then Ret None else alloc bs.

(** The header read, is it a log header of this version? *)
Definition log_header_valid (header : list byte) : bool :=
  bool_decide (take 4 header = LOGDB_LOG_MAGIC) && (le_val (drop 4 header) =? LOGDB_VERSION).

(** The second half of [logdb_log_read]: the entries behind a valid header.
    The block holds the header and, once read, the entries. *)
Definition log_read_entries (fd : Z) (mode : logdb_log_read_mode) (header : list byte)
    : prog log_header_ptr :=
  let! start := sys_lseek fd 0 SEEK_CUR in
  if start =? -1 then Ret HdrNull else
  let! end0 := sys_lseek fd 0 SEEK_END in
  if end0 =? -1 then Ret HdrNull else
  let end1 := match mode with LOGDB_READ_HAS_TRAILER => end0 - sizeof_trailer | _ => end0 end in
  let entrysize := u64 (end1 - start) in
  let size := u64 (sizeof_log_header + entrysize) in
  let! result := malloc_bytes size header in
  match result with
  | None => Ret HdrNull
  | Some l =>
      if size <? sizeof_log_header then undef UbBounds else
      if negb (entrysize =? 0) then
        let! pos := sys_lseek fd start SEEK_SET in
        if pos =? -1 then Ret HdrNull else
        let! (r, data) := logdb_io_read fd entrysize in
        if negb (r =? 0) then
          do! free result in
          Ret HdrNull
        else
          do! upd (T := list byte) result (fun hd => hd ++ data) in
          Ret (HdrAt l)
      else Ret (HdrAt l)
  end.

Definition logdb_log_read (fd : Z) (mode : logdb_log_read_mode) : prog log_header_ptr :=
  let! (readresult, header) := logdb_io_read fd sizeof_log_header in
  if 0 <? readresult then Ret HdrNull else
  if (readresult =? -1) || negb (log_header_valid header) then Ret HdrNull else
  match mode with
  | LOGDB_VALIDATE_ONLY => Ret HdrOne
  | _ => log_read_entries fd mode header
  end.

Definition logdb_log_open (path : string) : prog ptr :=
  let! fd := sys_open path (mk_open_flags false false true) in
  if fd =? -1 then Ret None else
  let! hdr := logdb_log_read fd LOGDB_VALIDATE_ONLY in
  match hdr with
  | HdrNull =>
      do! sys_close fd in
      Ret None
  | _ => logdb_log_new fd path
  end.

(** First part of [logdb_log_create]: the log at the end of the database, if
    it is large enough to hold one.  [None] is an error; otherwise the header
    block, or NULL, and [logsz]. *)
Definition log_create_find (dbfd dbsz : Z) : prog (option (ptr * Z)) :=
  if LOGDB_MIN_SIZE <=? dbsz then
    let! p := sys_lseek dbfd (- sizeof_trailer) SEEK_END in
    if p =? -1 then Ret None else
    let! (r, trailer) := logdb_io_read dbfd sizeof_trailer in
    if 0 <? r then Ret None else
    if zlen trailer <? sizeof_trailer then undef UbUninit else
    let log_offset := le_val trailer in
    let! q := sys_lseek dbfd (log_offset * -1) SEEK_END in
    if q =? -1 then Ret None else
    let! hdr := logdb_log_read dbfd LOGDB_READ_HAS_TRAILER in
    Ret (Some (match hdr with HdrAt l => Some l | _ => None end, u64 (log_offset - sizeof_trailer)))
  else Ret (Some (None, sizeof_log_header)).

(** The common exit after a failed write. *)
Definition log_create_fail (path : string) (header : ptr) (logfd : Z) : prog ptr :=
  do! free header in
  do! sys_close logfd in
  do! sys_unlink path in
  Ret None.

(** Second part: write the new log file, the entries before the header. *)
Definition log_create_write (path : string) (header : loc) (logsz : Z) : prog ptr :=
  let! logfd := sys_open path (mk_open_flags true true true) in
  if logfd =? -1 then
    do! free (Some header) in
    Ret None
  else
  let! ok :=
    (if sizeof_log_header <? logsz then
       let! entries := load_bytes header sizeof_log_header (logsz - sizeof_log_header) in
       let! r := logdb_io_pwrite logfd entries sizeof_log_header in
       Ret (r =? 0)
     else Ret true) in
  if negb ok then log_create_fail path (Some header) logfd else
  let! early := (if DEBUG then getenv "LOGDB_TEST_LOG_CREATE_RETURN_EARLY" else Ret None) in
  match early with
  | Some _ =>
      do! free (Some header) in
      do! sys_close logfd in
      Ret None
  | None =>
      let! hd := load_bytes header 0 sizeof_log_header in
      let! r := logdb_io_pwrite logfd hd 0 in
      if negb (r =? 0) then log_create_fail path (Some header) logfd else
      do! free (Some header) in
      logdb_log_new logfd path
  end.

Definition logdb_log_create (path : string) (dbfd : Z) : prog ptr :=
  let! dbsz := sys_lseek dbfd 0 SEEK_END in
  if dbsz =? -1 then Ret None else
  let! found := log_create_find dbfd dbsz in
  match found with
  | None => Ret None
  | Some (Some header, logsz) => log_create_write path header logsz
  | Some (None, logsz) =>
      let! header := alloc log_header_bytes in
      match header with
      | None => Ret None
      | Some l => log_create_write path l logsz
      end
  end.

(** Returns the offset, or -1, and the entry read. *)
Definition logdb_log_read_entry (log : ptr) (index : Z) : prog (Z * Z) :=
  if DEBUG && bool_decide (log = None) then Ret (-1, 0) else
  let offset := logdb_log_offset index in
  let! l := load logdb_log_t log in
  let! (result, bs) := logdb_io_pread (log_fd l) sizeof_log_entry offset in
  if 0 <? result then Ret (-1, 0) else
  Ret (if result =? -1 then -1 else offset, le_val bs).

(** [len] is the [unsigned short] of the entry. *)
Definition logdb_log_write_entry (log : ptr) (len : Z) (index : Z) : prog Z :=
  if DEBUG && bool_decide (log = None) then Ret (-1) else
  let offset := logdb_log_offset index in
  let! l := load logdb_log_t log in
  let! r := logdb_io_pwrite (log_fd l) (bytes_u16 len) offset in
  if 0 <? r then Ret (-1) else Ret 0.

Definition logdb_log_close (log : ptr) : prog Z :=
  match log with
  | None => Ret (-1)
  | Some _ =>
      let! l := load logdb_log_t log in
      do! sys_close (log_fd l) in
      do! free log in
      Ret 0
  end.

(** The loop of [logdb_log_close_merge] over the entries from the last one:
    the new size of the database and of the log. *)
Fixpoint close_merge_trim (fuel : nat) (header : loc) (i sections minsz logsz : Z) : prog (Z * Z) :=
  if i <=? sections then
    match fuel with
    | O => no_fuel
    | S fuel' =>
        let! e := load_bytes header (sizeof_log_header + (sections - i) * sizeof_log_entry) sizeof_log_entry in
        let minsz' := minsz - (LOGDB_SECTION_SIZE - le_val e) in
        if le_val e =? 0
        then close_merge_trim fuel' header (i + 1) sections minsz' (logsz - sizeof_log_entry)
        else Ret (minsz', logsz)
    end
  else Ret (minsz, logsz).

Definition close_merge_failunlock (logfd : Z) : prog Z :=
  do! sys_fcntl_setlk logfd F_UNLCK 0 0 in
  Ret (-1).

(** From the header block on: truncate the database behind the last section
    with data, append the log and the trailer, and remove the log file. *)
Definition close_merge_write (log : ptr) (logfd dbfd : Z) (path : string) (header : loc) : prog Z :=
  let! logsz := sys_lseek logfd 0 SEEK_END in
  if logsz =? -1 then close_merge_failunlock logfd else
  let sections := logdb_log_index_from_offset logsz in
  let! (minsz, logsz) :=
    close_merge_trim (Z.to_nat sections) header 1 sections (logdb_connection_offset sections) logsz in
  let! t := sys_ftruncate dbfd minsz in
  if negb (t =? 0) then close_merge_failunlock logfd else
  let! p := sys_lseek dbfd 0 SEEK_END in
  if p =? -1 then close_merge_failunlock logfd else
  let log_offset := u32 (logsz + sizeof_trailer) in
  let! hd := load_bytes header 0 logsz in
  let! r := logdb_io_write dbfd hd in
  let! r' := (if negb (r =? 0) then Ret r else logdb_io_write dbfd (bytes_u32 log_offset)) in
  if negb (r' =? 0) then close_merge_failunlock logfd else
  do! sys_unlink path in
  logdb_log_close log.

Definition logdb_log_close_merge (log : ptr) (dbfd : Z) : prog Z :=
  match log with
  | None => Ret (-1)
  | Some _ =>
      let! l := load logdb_log_t log in
      match log_path l with
      | None => Ret (-1)
      | Some path =>
          let logfd := log_fd l in
          let! k := sys_fcntl_setlkw logfd F_WRLCK 0 0 in
          if k =? -1 then Ret (-1) else
          let! p := sys_lseek logfd 0 SEEK_SET in
          if p =? -1 then close_merge_failunlock logfd else
          let! hdr := logdb_log_read logfd LOGDB_READ_NO_TRAILER in
          match hdr with
          | HdrAt header => close_merge_write log logfd dbfd path header
          | _ => close_merge_failunlock logfd
          end
      end
  end.

End log.
