(* ===== verification/LogSpec.v ===== *)
(** * What the log file holds, and the specification of its operations

    [log_image es] is the contents of a log file with entries [es].  The
    lemmas give the operations of Log.v on such a file when no call fails;
    [close_merge_run] and [log_create_run] are the two halves of the round
    trip through the database file. *)

From S2P Require Import Prelude Machine World Posix Io Layout Log.

(** An entry is an [unsigned short]. *)
Definition entry_ok (e : Z) : Prop := 0 <= e < 65536.

Definition entries_bytes (es : list Z) : list byte := es ≫= bytes_u16.
Definition log_image (es : list Z) : list byte := log_header_bytes ++ entries_bytes es.

(** ** Images *)

Lemma length_entries_bytes es : length (entries_bytes es) = (2 * length es)%nat.
Proof.
  induction es as [|e es IH]; [done|]. unfold entries_bytes in *. cbn [mbind list_bind length].
  rewrite length_app, IH, length_bytes_u16. lia.
Qed.

Lemma entries_bytes_app a b : entries_bytes (a ++ b) = entries_bytes a ++ entries_bytes b.
Proof. apply bind_app. Qed.

Lemma length_log_image es : zlen (log_image es) = 6 + 2 * zlen es.
Proof.
  unfold log_image. rewrite length_app, length_entries_bytes, length_log_header_bytes. lia.
Qed.

Lemma log_image_snoc es e : log_image (es ++ [e]) = log_image es ++ bytes_u16 e.
Proof.
  unfold log_image. rewrite entries_bytes_app, app_assoc. done.
Qed.

(** An image cut behind [n] entries is the image of the first [n]. *)
Lemma take_log_image a b : take (Z.to_nat (6 + 2 * zlen a)) (log_image (a ++ b)) = log_image a.
Proof.
  unfold log_image. rewrite entries_bytes_app, app_assoc. apply take_app_length'.
  rewrite length_app, length_entries_bytes, length_log_header_bytes. lia.
Qed.

Lemma log_image_split es i e :
  es !! i = Some e ->
  log_image es = log_image (take i es) ++ bytes_u16 e ++ entries_bytes (drop (S i) es).
Proof.
  intros E. rewrite <- (take_drop_middle es i e E) at 1. unfold log_image.
  rewrite entries_bytes_app, <- app_assoc. do 2 f_equal.
Qed.

Lemma length_take_lookup {A} (l : list A) i x : l !! i = Some x -> length (take i l) = i.
Proof. intros E. apply lookup_lt_Some in E. rewrite length_take. lia. Qed.

(** Reading entry [i] of an image, the bytes and the value. *)
Lemma file_read_entry es i e :
  es !! i = Some e ->
  file_read (logdb_log_offset (Z.of_nat i)) sizeof_log_entry (log_image es) = bytes_u16 e.
Proof.
  intros E. rewrite (log_image_split es i e E). unfold file_read, slice, logdb_log_offset.
  unfold sizeof_log_header, sizeof_log_entry.
  rewrite drop_app_length'; [by rewrite take_app_length'|].
  pose proof (length_log_image (take i es)). rewrite (length_take_lookup es i e E) in *. lia.
Qed.

Lemma file_read_entry_end es i :
  zlen es <= i ->
  file_read (logdb_log_offset i) sizeof_log_entry (log_image es) = [].
Proof.
  intros. unfold file_read, slice, logdb_log_offset, sizeof_log_header, sizeof_log_entry.
  rewrite drop_ge; [done|]. pose proof (length_log_image es). lia.
Qed.

(** Overwriting entry [i]. *)
Lemma file_write_entry es i e e' :
  es !! i = Some e ->
  file_write (logdb_log_offset (Z.of_nat i)) (bytes_u16 e') (log_image es) =
  log_image (<[i := e']> es).
Proof.
  intros E. pose proof (lookup_lt_Some _ _ _ E) as Hi.
  rewrite (insert_take_drop es i e' Hi). rewrite (log_image_split es i e E) at 1.
  assert (log_image (take i es ++ e' :: drop (S i) es) =
    log_image (take i es) ++ bytes_u16 e' ++ entries_bytes (drop (S i) es)) as ->.
  { unfold log_image. rewrite entries_bytes_app, <- app_assoc. done. }
  pose proof (length_log_image (take i es)) as HL.
  rewrite (length_take_lookup es i e E) in HL.
  change (file_write ?o (bytes_u16 e') ?l) with (splice x00 (Z.to_nat o) (bytes_u16 e') l).
  unfold splice, logdb_log_offset, sizeof_log_header, sizeof_log_entry.
  replace (Z.to_nat (6 + Z.of_nat i * 2)) with (length (log_image (take i es))) by lia.
  rewrite take_app_length, length_app.
  replace (length (log_image (take i es)) - _)%nat with 0%nat by lia. simpl.
  by rewrite drop_app_add.
Qed.

Lemma le_val_entry e : entry_ok e -> le_val (bytes_u16 e) = e.
Proof. intros. rewrite le_val_bytes_u16. by apply u16_small. Qed.

Lemma log_header_image_valid es : log_header_valid (take 6 (log_image es)) = true.
Proof. unfold log_image. by rewrite take_app_length' by done. Qed.

(** ** Trailing empty sections *)

(** The entries without the zeros at the end. *)
Fixpoint trim_zeros (es : list Z) : list Z :=
  match es with
  | [] => []
  | e :: r =>
      match trim_zeros r with
      | [] => if e =? 0 then [] else [e]
      | r' => e :: r'
      end
  end.

(** The size of a database file whose sections hold [es]. *)
Definition db_end (es : list Z) : Z :=
  match list.last es with
  | Some e => 6 + 65536 * (zlen es - 1) + e
  | None => 6
  end.

Lemma trim_zeros_snoc es e :
  trim_zeros (es ++ [e]) = if e =? 0 then trim_zeros es else es ++ [e].
Proof.
  induction es as [|a es IH]; simpl; [done|]. rewrite IH.
  destruct (e =? 0); [done|]. by destruct es.
Qed.

Lemma trim_zeros_prefix es : exists k, es = trim_zeros es ++ replicate k 0.
Proof.
  induction es as [|e es IH] using rev_ind; [by exists 0%nat|].
  rewrite trim_zeros_snoc. destruct (Z.eqb_spec e 0) as [->|].
  - destruct IH as [k E]. exists (S k). rewrite replicate_S_end, app_assoc. by f_equal.
  - exists 0%nat. simpl. by rewrite app_nil_r.
Qed.

Lemma trim_zeros_lookup es i e : es !! i = Some e -> e <> 0 -> trim_zeros es !! i = Some e.
Proof.
  intros E Hne. destruct (trim_zeros_prefix es) as [k Ek]. rewrite Ek in E.
  apply lookup_app_Some in E as [E|[_ E]]; [done|].
  apply lookup_replicate in E as [-> _]. done.
Qed.

Lemma trim_zeros_length es : zlen (trim_zeros es) <= zlen es.
Proof.
  destruct (trim_zeros_prefix es) as [k E]. rewrite E at 2. rewrite length_app. lia.
Qed.

Lemma trim_zeros_idemp es : trim_zeros (trim_zeros es) = trim_zeros es.
Proof.
  induction es as [|e es IH] using rev_ind; [done|].
  rewrite !trim_zeros_snoc. destruct (e =? 0) eqn:E; [done|].
  rewrite trim_zeros_snoc, E. done.
Qed.

(** A section's data lie before the end of the database. *)
Lemma db_end_section es i e :
  Forall entry_ok es -> es !! i = Some e -> 6 + 65536 * Z.of_nat i + e <= db_end es.
Proof.
  intros Hok E. unfold db_end. destruct es as [|a es _] using rev_ind; [done|].
  rewrite last_snoc, length_app. simpl.
  apply Forall_app in Hok as [Hes Ha]. apply Forall_cons_1 in Ha as [Ha _]. unfold entry_ok in Ha.
  apply lookup_app_Some in E as [E|[Hi E]].
  - pose proof (lookup_lt_Some _ _ _ E). apply (Forall_lookup_1 _ _ _ _ Hes) in E.
    unfold entry_ok in E. lia.
  - apply list_lookup_singleton_Some in E as [? ->]. lia.
Qed.

Lemma db_end_nonneg es : Forall entry_ok es -> 6 <= db_end es.
Proof.
  intros Hok. unfold db_end. destruct es as [|a es _] using rev_ind; [done|].
  rewrite last_snoc, length_app. simpl. apply Forall_app in Hok as [_ Ha].
  apply Forall_cons_1 in Ha as [Ha _]. unfold entry_ok in Ha. lia.
Qed.

(** ** An open log *)

(** The log structure at [p] is [l], its descriptor [o] is open on a file that
    holds the entries [es]. *)
Record log_ok (p : loc) (l : logdb_log_t) (o : ofd) (es : list Z) (w : world) : Prop := mk_log_ok {
  lo_struct : peek logdb_log_t (w_heap w) p = Some l;
  lo_fd : open_fd (log_fd l) o w;
  lo_file : get_file (fd_ino o) w = log_image es;
  lo_entries : Forall entry_ok es;
  lo_count : zlen es < 2 ^ 31
}.

(** A world that differs elsewhere. *)
Lemma log_ok_frame p l o es w w' :
  log_ok p l o es w ->
  peek logdb_log_t (w_heap w') p = Some l ->
  open_fd (log_fd l) o w' ->
  get_file (fd_ino o) w' = get_file (fd_ino o) w ->
  log_ok p l o es w'.
Proof. intros [] ?? E. constructor; try done. by rewrite E. Qed.

Lemma log_ok_put_file_ne p l o es i bs w :
  log_ok p l o es w -> i <> fd_ino o -> log_ok p l o es (put_file i bs w).
Proof.
  intros Hl Hne. eapply log_ok_frame; [done|apply Hl|apply open_fd_put_file, Hl|].
  by apply put_file_get_ne.
Qed.

Section entries.
Context `{Build} (th : thread) (w : world) (p : loc) (l : logdb_log_t) (o : ofd) (es : list Z).
Context (Hq : quiet w) (Hl : log_ok p l o es w).

Lemma read_entry_run i :
  0 <= i ->
  run th (logdb_log_read_entry (Some p) i) w =
    Done (match es !! Z.to_nat i with
          | Some e => (logdb_log_offset i, e) | None => (-1, 0) end) w.
Proof.
  intros Hi. unfold logdb_log_read_entry.
  rewrite bool_decide_eq_false_2, andb_false_r by done. run_step.
  rewrite (do_load_peek _ _ l) by apply Hl. run_step.
  rewrite (pread_quiet _ _ _ _ _ o);
    [|done|apply Hl|unfold logdb_log_offset, sizeof_log_header, sizeof_log_entry; lia|done].
  rewrite (lo_file _ _ _ _ _ Hl), length_log_image.
  destruct (es !! Z.to_nat i) as [e|] eqn:E.
  - pose proof (lookup_lt_Some _ _ _ E).
    rewrite (proj2 (Z.leb_le _ _))
      by (unfold logdb_log_offset, sizeof_log_header, sizeof_log_entry; lia).
    rewrite <- (Z2Nat.id i) at 1 2 by lia. rewrite (file_read_entry _ _ e E).
    pose proof (Forall_lookup_1 _ _ _ _ (lo_entries _ _ _ _ _ Hl) E).
    rewrite le_val_entry by done. simpl. by rewrite Z2Nat.id by lia.
  - apply lookup_ge_None_1 in E.
    rewrite (proj2 (Z.leb_gt _ _))
      by (unfold logdb_log_offset, sizeof_log_header, sizeof_log_entry; lia).
    by rewrite file_read_entry_end by lia.
Qed.

Lemma write_entry_run i len :
  0 <= i < zlen es ->
  run th (logdb_log_write_entry (Some p) len i) w =
    Done 0 (put_file (fd_ino o) (log_image (<[Z.to_nat i := u16 len]> es)) w).
Proof.
  intros Hi. unfold logdb_log_write_entry.
  rewrite bool_decide_eq_false_2, andb_false_r by done. run_step.
  rewrite (do_load_peek _ _ l) by apply Hl. run_step.
  rewrite (pwrite_quiet _ _ _ _ _ o);
    [|done|apply Hl|unfold logdb_log_offset, sizeof_log_header, sizeof_log_entry; lia].
  rewrite (lo_file _ _ _ _ _ Hl), <- bytes_u16_u16.
  destruct (lookup_lt_is_Some_2 es (Z.to_nat i)) as [e E]; [lia|].
  rewrite <- (file_write_entry es (Z.to_nat i) e) by done. by rewrite Z2Nat.id by lia.
Qed.

Lemma log_ok_write i e :
  entry_ok e -> log_ok p l o (<[i := e]> es) (put_file (fd_ino o) (log_image (<[i := e]> es)) w).
Proof.
  intros He. constructor; [apply Hl|apply open_fd_put_file, Hl|apply put_file_get| |].
  - apply Forall_insert; [apply Hl|done].
  - rewrite length_insert. apply Hl.
Qed.
End entries.

(** ** Reading a log *)

(** The bytes behind a log that the mode leaves out. *)
Definition mode_tail (mode : logdb_log_read_mode) : Z :=
  match mode with LOGDB_READ_HAS_TRAILER => sizeof_trailer | _ => 0 end.

Lemma file_read_middle (a b c : list byte) :
  file_read (zlen a) (zlen b) (a ++ b ++ c) = b.
Proof.
  unfold file_read. rewrite !Nat2Z.id, slice_app_r. by apply take_app_length.
Qed.

Lemma log_read_entries_run th fd o mode pre es post w :
  quiet w -> get_fd fd w = Some o ->
  get_file (fd_ino o) w = pre ++ log_image es ++ post ->
  fd_pos o = zlen pre + 6 -> zlen post = mode_tail mode ->
  zlen (pre ++ log_image es ++ post) < 2 ^ 62 ->
  exists q, 0 <= q /\
    run th (log_read_entries fd mode log_header_bytes) w =
      Done (HdrAt (w_next w)) (put_fd fd (set_fd_pos q o) (alloced (CBytes (log_image es)) w)).
Proof.
  intros Hq Ho Hf Hp Hpost Hsz. pose proof (length_log_image es) as HL.
  rewrite !length_app in Hsz.
  unfold log_read_entries. run_lseek_on o.
  rewrite Hp, Z.add_0_r, (proj2 (Z.eqb_neq _ _)) by lia.
  run_lseek_on (set_fd_pos (zlen pre + 6) o).
  change (get_file _ w0) with (get_file (fd_ino o) w). rewrite Hf, !length_app, Z.add_0_r.
  rewrite (proj2 (Z.eqb_neq _ _)) by lia.
  replace (match mode with LOGDB_READ_HAS_TRAILER => _ | _ => _ end - (zlen pre + 6))
    with (2 * zlen es) by (destruct mode; unfold mode_tail, sizeof_trailer in *; lia).
  unfold sizeof_log_header, malloc_bytes. rewrite !u64_small by (rewrite ?u64_small; lia).
  rewrite (proj2 (Z.leb_gt (2 ^ 63) _)) by lia. run_next. rewrite do_alloc_quiet by done.
  rewrite (proj2 (Z.ltb_ge _ _)) by lia.
  destruct (Z.eqb_spec (2 * zlen es) 0) as [E|E]; simpl negb; cbn match.
  - assert (es = []) as -> by (destruct es; [done|simpl in E; lia]).
    eexists. split; [|rewrite run_ret; unfold w1, w0; rewrite put_fd_twice; reflexivity]. lia.
  - run_lseek_on (set_fd_pos (Z.of_nat (length pre + (length (log_image es) + length post))) o).
    rewrite (proj2 (Z.eqb_neq _ _)) by lia. run_next.
    erewrite read_quiet; [|done|apply put_fd_get|cbn; lia|lia].
    change (get_file _ w3) with (get_file (fd_ino o) w). rewrite Hf. cbn [fd_pos set_fd_pos].
    rewrite (proj2 (Z.leb_le _ _)) by (rewrite !length_app; lia). simpl negb. cbn match.
    assert (file_read (0 + (zlen pre + 6)) (2 * zlen es) (pre ++ log_image es ++ post)
      = entries_bytes es) as ->.
    { unfold log_image. rewrite <- app_assoc, (app_assoc pre).
      rewrite <- (file_read_middle (pre ++ log_header_bytes) (entries_bytes es) post) at 2.
      f_equal; rewrite ?length_app, ?length_entries_bytes, ?length_log_header_bytes; lia. }
    run_next. rewrite (do_rmw_peek _ log_header_bytes) by apply (peek_insert (list byte)).
    run_next. exists (0 + (zlen pre + 6) + zlen (entries_bytes es)). split; [lia|].
    f_equal. world_eq.
Qed.

(** A log header at the position of the descriptor, and the entries behind
    it: the block read is the image. *)
Lemma log_read_run th fd o mode pre es post w :
  quiet w -> get_fd fd w = Some o ->
  get_file (fd_ino o) w = pre ++ log_image es ++ post ->
  fd_pos o = zlen pre -> zlen post = mode_tail mode -> mode <> LOGDB_VALIDATE_ONLY ->
  zlen (pre ++ log_image es ++ post) < 2 ^ 62 ->
  exists q, 0 <= q /\
    run th (logdb_log_read fd mode) w =
      Done (HdrAt (w_next w)) (put_fd fd (set_fd_pos q o) (alloced (CBytes (log_image es)) w)).
Proof.
  intros Hq Ho Hf Hp Hpost Hm Hsz. pose proof (length_log_image es) as HL.
  unfold logdb_log_read. run_next. rewrite (read_quiet _ _ _ _ o) by (done || lia).
  rewrite Hf, Hp, (proj2 (Z.leb_le _ _)) by (rewrite !length_app; unfold sizeof_log_header; lia).
  assert (file_read (zlen pre) sizeof_log_header (pre ++ log_image es ++ post) = log_header_bytes)
    as ->.
  { unfold log_image. rewrite <- app_assoc.
    exact (file_read_middle pre log_header_bytes (entries_bytes es ++ post)). }
  rewrite length_log_header_bytes. cbn match beta. name_world.
  destruct (log_read_entries_run th fd (set_fd_pos (zlen pre + Z.of_nat 6) o) mode pre es post w0)
    as (q & Hq0 & E); [done|apply put_fd_get|done|done|done|done|].
  exists q. split; [done|].
  replace (if 0 <? 0 then _ else _) with (log_read_entries fd mode log_header_bytes)
    by (destruct mode; done).
  rewrite E. f_equal. world_eq.
Qed.

(** ** Trimming *)

Lemma close_merge_trim_run th hdr es k fuel w minsz logsz :
  peek (list byte) (w_heap w) hdr = Some (log_image (es ++ replicate k 0)) ->
  Forall entry_ok es -> (length es <= fuel)%nat ->
  let tr := trim_zeros es in
  run th (close_merge_trim fuel hdr (Z.of_nat k + 1) (zlen es + Z.of_nat k) minsz logsz) w =
    Done (minsz - (6 + 65536 * zlen es - db_end tr), logsz - 2 * (zlen es - zlen tr)) w.
Proof.
  revert k fuel minsz logsz. induction es as [|e es IH] using rev_ind;
    intros k fuel minsz logsz Hh Hok Hf tr.
  - destruct fuel; cbn [close_merge_trim]; rewrite (proj2 (Z.leb_gt _ _)) by (simpl; lia);
      rewrite run_ret; unfold db_end, tr; simpl; do 2 f_equal; lia.
  - rewrite length_app in *. simpl in Hf |- *. destruct fuel as [|fuel]; [lia|].
    apply Forall_app in Hok as [Hes He]. apply Forall_cons_1 in He as [He _].
    cbn [close_merge_trim]. rewrite (proj2 (Z.leb_le _ _)) by lia. run_next.
    assert (zlen (es ++ [e]) + Z.of_nat k - (Z.of_nat k + 1) = zlen es) as Hi
      by (rewrite length_app; simpl; lia).
    unfold do_load_bytes, with_cell. rewrite Hh.
    rewrite (proj2 (Z.leb_le _ _)) by (rewrite length_log_image, !length_app; simpl;
      unfold sizeof_log_header, sizeof_log_entry; lia).
    set (bs := slice _ _ _).
    assert (bs = bytes_u16 e) as ->.
    { unfold bs. rewrite <- (file_read_entry ((es ++ [e]) ++ replicate k 0) (length es) e).
      - unfold file_read, logdb_log_offset. do 3 f_equal; lia.
      - rewrite lookup_app_l by (rewrite length_app; simpl; lia).
        by rewrite list_lookup_middle. }
    cbn match beta. rewrite le_val_entry by done. unfold tr. rewrite trim_zeros_snoc.
    destruct (Z.eqb_spec e 0) as [->|Hne].
    + replace (Z.of_nat (length es + 1) + Z.of_nat k) with (zlen es + Z.of_nat (S k)) by lia.
      replace (Z.of_nat k + 1 + 1) with (Z.of_nat (S k) + 1) by lia.
      rewrite IH; [|by rewrite <- app_assoc in Hh|done|lia].
      unfold LOGDB_SECTION_SIZE, sizeof_log_entry. do 2 f_equal; lia.
    + rewrite run_ret. unfold db_end. rewrite last_snoc, length_app. simpl.
      unfold LOGDB_SECTION_SIZE. do 2 f_equal; lia.
Qed.

(** ** Merging the log into the database *)

(** The database file after a merge: the sections up to the last valid byte,
    the log without its trailing empty entries, and the distance of the log
    from the end of the file. *)
Definition merged_db (es : list Z) (db : list byte) : list byte :=
  let tr := trim_zeros es in
  resize (db_end tr) db ++ log_image tr ++ bytes_u32 (zlen (log_image tr) + sizeof_trailer).

(** Nothing another process does stops a lock on the whole file. *)
Definition log_unlocked (o : ofd) (w : world) : Prop :=
  existsb (fcntl_conflict (fd_ino o) (fd_pid o) F_WRLCK 0 None) (os_fcntl (w_os w)) = false.

Record merge_done (p : loc) (l : logdb_log_t) (path : string) (dbfd : Z) (dbo : ofd)
    (es : list Z) (w w' : world) : Prop := mk_merge_done {
  md_db : get_file (fd_ino dbo) w' = merged_db es (get_file (fd_ino dbo) w);
  md_files : forall i, i <> fd_ino dbo -> get_file i w' = get_file i w;
  md_dir : os_dir (w_os w') = delete path (os_dir (w_os w));
  md_dbfd : exists q, 0 <= q /\ get_fd dbfd w' = Some (set_fd_pos q dbo);
  md_logfd : get_fd (log_fd l) w' = None;
  md_heap : forall x, x < w_next w -> w_heap w' !! x = delete p (w_heap w) !! x;
  md_heap_fresh : heap_fresh w -> heap_fresh w';
  md_os_fresh : os_fresh w -> os_fresh w';
  md_env : os_env (w_os w') = os_env (w_os w);
  md_flock k : k ∈ os_flock (w_os w') -> k ∈ os_flock (w_os w);
  md_fcntl k : k ∈ os_fcntl (w_os w') -> k ∈ os_fcntl (w_os w) \/ Some (fl_ino k) = fd_ino <$> get_fd (log_fd l) w;
  md_next_ino : os_next_ino (w_os w') = os_next_ino (w_os w);
  md_fds d : d <> dbfd -> get_fd d w' = get_fd d w \/ get_fd d w' = None;
  md_tls : w_tls w' = w_tls w;
  md_next_key : w_next_key w' = w_next_key w;
  md_quiet : quiet w'
}.

(** The first [n] bytes of a block. *)
Lemma do_load_bytes_run l n bs w :
  peek (list byte) (w_heap w) l = Some bs -> 0 <= n <= zlen bs ->
  do_load_bytes l 0 n w = Done (take (Z.to_nat n) bs) w.
Proof.
  intros E Hn. unfold do_load_bytes, with_cell. rewrite E.
  by rewrite (proj2 (Z.leb_le _ _)) by lia.
Qed.

(** Appending two byte strings with two writes. *)
Lemma append_twice th fd o a b w :
  quiet w -> open_fd fd o w -> fd_append o = false -> fd_pos o = zlen (get_file (fd_ino o) w) ->
  exists q, 0 <= q /\
    run th (let! r := logdb_io_write fd a in
            if negb (r =? 0) then Ret r else logdb_io_write fd b) w =
      Done 0 (put_fd fd (set_fd_pos q o)
        (put_file (fd_ino o) (get_file (fd_ino o) w ++ a ++ b) w)).
Proof.
  intros Hq Ho Ha Hp. run_next. rewrite (write_quiet _ _ _ _ o) by done.
  cbn match beta. simpl negb. cbn match. name_world.
  set (o' := set_fd_pos (fd_pos o + zlen a) o) in *.
  assert (0 <= fd_pos o + zlen a) as Hp' by (destruct Ho as (_ & _ & ?); lia).
  rewrite (write_quiet _ _ _ _ o'); [|done| |done].
  2: { split_and!; [apply put_fd_get| |done]. apply (open_fd_put_file fd o); done. }
  exists (fd_pos o + zlen a + zlen b). split; [lia|]. f_equal.
  unfold w0 at 1. unfold o'. cbn [fd_ino fd_pos set_fd_pos]. autorewrite with world.
  rewrite file_write_app by (rewrite Hp; lia). rewrite Hp, file_write_end.
  subst o'. world_eq.
Qed.

Section merge.
Context (th : thread) (p : loc) (l : logdb_log_t) (o : ofd) (es : list Z).
Context (path : string) (dbfd : Z) (dbo : ofd).
Context (Happ : fd_append dbo = false) (Hfd : dbfd <> log_fd l).
Context (Hok : Forall entry_ok es) (Hes : zlen es < 65536).

(** The log read to its end, and the database file merged. *)
Definition merge_file_world (q : Z) (w : world) : world :=
  put_fd dbfd (set_fd_pos q dbo) (put_file (fd_ino dbo) (merged_db es (get_file (fd_ino dbo) w))
    (put_fd (log_fd l) (set_fd_pos (6 + 2 * zlen es + 0) o) w)).

(** Counting the sections that are in use. *)
Lemma close_merge_count_run w hdr :
  peek (list byte) (w_heap w) hdr = Some (log_image es) ->
  run th (close_merge_trim (Z.to_nat (zlen es)) hdr 1 (zlen es) (6 + zlen es * 65536) (6 + 2 * zlen es + 0)) w =
    Done (db_end (trim_zeros es), 6 + 2 * zlen (trim_zeros es)) w.
Proof.
  intros Hh. pose proof (close_merge_trim_run th hdr es 0 (Z.to_nat (zlen es)) w (6 + zlen es * 65536)
    (6 + 2 * zlen es + 0)) as Etrim. simpl replicate in Etrim. rewrite app_nil_r in Etrim.
  change (Z.of_nat 0 + 1) with 1 in Etrim. change (Z.of_nat 0) with 0 in Etrim.
  rewrite (Z.add_0_r (zlen es)) in Etrim. rewrite Etrim; [|done..|lia]. do 2 f_equal; lia.
Qed.

(** Up to the removal of the log file. *)
Lemma close_merge_file_run w hdr q :
  quiet w -> get_fd (log_fd l) w = Some (set_fd_pos q o) -> open_fd dbfd dbo w ->
  get_file (fd_ino o) w = log_image es -> peek (list byte) (w_heap w) hdr = Some (log_image es) ->
  exists q', 0 <= q' /\ run th (close_merge_write (Some p) (log_fd l) dbfd path hdr) w =
    run th (let! _ := sys_unlink path in logdb_log_close (Some p)) (merge_file_world q' w).
Proof.
  intros Hq Hlf (Hdf & Hdi & Hdp) Hf Hh. pose proof (length_log_image es) as HL.
  unfold close_merge_write. run_lseek_on (set_fd_pos q o). rewrite set_fd_pos_twice.
  cbn [fd_ino set_fd_pos]. rewrite Hf, HL. rewrite (proj2 (Z.eqb_neq _ _)) by lia.
  assert (logdb_log_index_from_offset (6 + 2 * zlen es + 0) = zlen es) as ->.
  { rewrite <- (log_index_of_offset (zlen es)) at 2 by lia. f_equal.
    unfold logdb_log_offset, sizeof_log_header, sizeof_log_entry. lia. }
  rewrite connection_offset_small by lia. run_next. rewrite close_merge_count_run by done.
  set (tr := trim_zeros es). destruct (trim_zeros_prefix es) as [k Ek]. fold tr in Ek.
  assert (Forall entry_ok tr) as Htr by (rewrite Ek in Hok; by apply Forall_app in Hok as [? _]).
  pose proof (db_end_nonneg tr Htr). pose proof (length_log_image tr) as HLt.
  assert (zlen tr <= zlen es) by apply trim_zeros_length.
  assert (get_fd dbfd w0 = Some dbo) as Hdf0 by (unfold w0; by rewrite put_fd_get_ne).
  run_next. rewrite do_ftruncate_quiet with (o := dbo) by (done || lia).
  simpl negb. cbn match. run_lseek_on dbo.
  assert (get_file (fd_ino dbo) w1 = resize (db_end tr) (get_file (fd_ino dbo) w)) as Ew1
    by apply put_file_get.
  rewrite Ew1, length_resize, Z.add_0_r, (proj2 (Z.eqb_neq _ _)) by lia. run_next.
  rewrite (do_load_bytes_run _ _ (log_image es)) by (done || lia).
  assert (take (Z.to_nat (6 + 2 * zlen tr)) (log_image es) = log_image tr) as ->
    by (rewrite Ek at 1; apply take_log_image).
  cbn match beta. name_world. rewrite run_bind_assoc, run_bind.
  set (dbo1 := set_fd_pos (db_end tr) dbo) in *.
  destruct (append_twice th dbfd dbo1 (log_image tr)
    (bytes_u32 (u32 (6 + 2 * zlen tr + sizeof_trailer))) w2) as (q' & Hq' & ->);
    [done| |done| |].
  { apply open_fd_put_fd; [|lia]. apply open_fd_put_file. unfold w0. by split_and!. }
  { change (get_file _ w2) with (get_file (fd_ino dbo) w1). by rewrite Ew1, length_resize by lia. }
  exists q'. split; [done|]. cbn match beta. simpl negb. cbn match. f_equal. unfold merge_file_world, merged_db. fold tr.
  change (get_file (fd_ino dbo1) w2) with (get_file (fd_ino dbo) w1).
  rewrite Ew1, bytes_u32_u32, HLt. subst dbo1. world_eq.
Qed.

(** What there is once the log is closed. *)
Definition merge_end_world (q : Z) (w : world) : world :=
  let w3 := merge_file_world q w in
  let w5 := fd_closed (log_fd l) (set_fd_pos (6 + 2 * zlen es + 0) o)
    (set_os (set_os_dir (delete path (os_dir (w_os w3))) (w_os w3)) w3) in
  set_heap (delete p (w_heap w5)) w5.

Lemma merge_file_log_fd q w : get_fd (log_fd l) (merge_file_world q w) = Some (set_fd_pos (6 + 2 * zlen es + 0) o).
Proof. unfold merge_file_world. rewrite put_fd_get_ne, put_file_get_fd by done. apply put_fd_get. Qed.

Lemma merge_end_done q w :
  quiet w -> get_fd (log_fd l) w <> None -> get_fd dbfd w = Some dbo -> is_Some (os_inodes (w_os w) !! fd_ino dbo) -> 0 <= q ->
  merge_done p l path dbfd dbo es w (merge_end_world q w).
Proof.
  intros Hq [lo Hlf]%not_eq_None_Some Hdf Hdi Hq'. unfold merge_end_world. set (w3 := merge_file_world q w). set (w5 := fd_closed _ _ _).
  assert (forall d, d <> log_fd l -> get_fd d w5 = get_fd d w3) as H5 by (intros d Hd; unfold w5; by rewrite get_fd_closed_ne).
  split; try done.
  - change (get_file (fd_ino dbo) w3 = merged_db es (get_file (fd_ino dbo) w)). unfold w3, merge_file_world. by rewrite put_fd_get_file, put_file_get.
  - intros i Hi. change (get_file i w3 = get_file i w). unfold w3, merge_file_world.
    by rewrite put_fd_get_file, put_file_get_ne, put_fd_get_file.
  - exists q. split; [done|]. change (get_fd dbfd w5 = Some (set_fd_pos q dbo)). rewrite H5 by done. apply put_fd_get.
  - apply get_fd_closed.
  - intros Hfr. apply (heap_fresh_delete w5). exact Hfr.
  - intros Hfr. change (os_fresh w5). apply os_fresh_closed. change (os_fresh w3).
    apply (os_fresh_put_fd dbfd dbo); [|rewrite put_file_get_fd; by rewrite put_fd_get_ne].
    apply os_fresh_put_file; [|done]. by apply (os_fresh_put_fd _ lo).
  - intros x Hx. apply list_elem_of_filter in Hx as [_ Hx]. exact Hx.
  - intros x Hx. apply list_elem_of_filter in Hx as [_ Hx]. by left.
  - intros d Hd. change (get_fd d w5 = get_fd d w \/ get_fd d w5 = None). destruct (decide (d = log_fd l)) as [->|Hne].
    { right. apply get_fd_closed. }
    left. rewrite H5 by done. unfold w3, merge_file_world. rewrite put_fd_get_ne, put_file_get_fd by done. by apply put_fd_get_ne.
Qed.

(** The part behind the header block at [hdr]. *)
Lemma close_merge_write_run w hdr q :
  quiet w -> peek logdb_log_t (w_heap w) p = Some l ->
  get_fd (log_fd l) w = Some (set_fd_pos q o) -> open_fd dbfd dbo w ->
  get_file (fd_ino o) w = log_image es ->
  peek (list byte) (w_heap w) hdr = Some (log_image es) ->
  is_Some (os_dir (w_os w) !! path) ->
  exists w', run th (close_merge_write (Some p) (log_fd l) dbfd path hdr) w = Done 0 w' /\
    merge_done p l path dbfd dbo es w w'.
Proof.
  intros Hq Hp Hlf Hd Hf Hh Hdir. destruct (close_merge_file_run w hdr q) as (q' & Hq' & ->); [done..|].
  exists (merge_end_world q' w). split; [|apply merge_end_done; [done|congruence|apply Hd..|done]].
  run_next. rewrite do_unlink_quiet by done. run_next. unfold logdb_log_close. run_next.
  rewrite (do_load_peek _ _ l) by done. run_next. rewrite (do_close_run _ (set_fd_pos (6 + 2 * zlen es + 0) o)) by exact (merge_file_log_fd q' w). run_next.
  by rewrite do_free_run by exact (peek_is_Some _ _ _ _ Hp).
Qed.

(** The whole of [logdb_log_close_merge]. *)
Lemma close_merge_run w :
  quiet w -> log_ok p l o es w -> heap_fresh w -> log_path l = Some path ->
  is_Some (os_dir (w_os w) !! path) -> open_fd dbfd dbo w -> log_unlocked o w ->
  exists w', run th (logdb_log_close_merge (Some p) dbfd) w = Done 0 w' /\
    merge_done p l path dbfd dbo es w w'.
Proof.
  intros Hq Hl Hfresh Hpath Hdir Hdb Hun.
  unfold logdb_log_close_merge. run_next. rewrite (do_load_peek _ _ l) by apply Hl.
  rewrite Hpath. run_next. rewrite do_setlk_quiet with (o := o); [|done|apply Hl|done].
  simpl Z.eqb. cbn match. run_lseek_on o. 2: apply Hl. simpl Z.eqb. cbn match.
  rewrite run_bind. name_world.
  destruct (log_read_run th (log_fd l) (set_fd_pos 0 o) LOGDB_READ_NO_TRAILER [] es [] w1)
    as (q & Hq0 & ->); try done.
  { apply put_fd_get. }
  { rewrite app_nil_r. apply Hl. }
  { rewrite app_nil_r. simpl app. rewrite length_log_image. lia. }
  cbn match beta. name_world.
  assert (p < w_next w) as Hp.
  { pose proof (heap_fresh_ne w p Hfresh) as Hne.
    destruct (Z.lt_ge_cases p (w_next w)) as [|Hge]; [done|].
    pose proof (peek_is_Some _ _ _ _ (lo_struct _ _ _ _ _ Hl)) as [c Hc].
    by rewrite Hfresh in Hc. }
  destruct (close_merge_write_run w2 (w_next w1) q) as (w' & -> & Hdone); try done.
  - unfold w2, alloced. simpl. rewrite peek_insert_ne by (simpl; lia). apply Hl.
  - apply put_fd_get.
  - destruct Hdb as (? & ? & ?). split_and!; [|done|done].
    unfold w2. rewrite put_fd_get_ne by done. change (get_fd dbfd w1 = Some dbo).
    unfold w1. by rewrite put_fd_get_ne.
  - apply Hl.
  - exact (peek_insert (list byte) _ _ _).
  - exists w'. split; [done|]. destruct Hdone as [Hd1 Hd2 Hd3 Hd4 Hd5 Hd6 Hd7 Hd8 Hd9 Hd10 Hd11 Hd12 Hd13 Hd14 Hd15 Hd16].
    constructor; try done.
    2: { intros _. apply Hd7. apply (heap_fresh_alloc w1). exact Hfresh. }
    2: { intros Hf. apply Hd8. apply (os_fresh_put_fd _ (set_fd_pos (0 + 0) o));
         [|apply put_fd_get]. by apply os_fresh_alloced, (os_fresh_put_fd _ o); [|apply Hl]. }
    2: { intros x [Hx|Hx]%Hd11; [|right; unfold w2 in Hx; rewrite put_fd_get in Hx; by rewrite (proj1 (lo_fd _ _ _ _ _ Hl))].
         change (os_fcntl (w_os w2)) with
           (fcntl_apply (fd_ino o) (fd_pid o) F_WRLCK 0 None (os_fcntl (w_os w))) in Hx.
         apply fcntl_apply_own in Hx as [Hx|[_ Hx]]; [by left|right].
         rewrite (proj1 (lo_fd _ _ _ _ _ Hl)). simpl. by rewrite Hx. }
    2: { intros d Hd. destruct (Hd13 d Hd) as [E|E]; [|by right]. destruct (decide (d = log_fd l)) as [->|].
         { right. exact Hd5. }
         left. rewrite E. unfold w2. rewrite put_fd_get_ne by done. change (get_fd d w1 = get_fd d w).
         unfold w1. by rewrite put_fd_get_ne. }
    intros x Hx. rewrite Hd6 by (simpl; lia).
    simpl w_heap. destruct (decide (p = x)) as [->|Hne].
    + by rewrite !lookup_delete_eq.
    + rewrite !lookup_delete_ne, lookup_insert_ne by (done || lia). done.
Qed.
End merge.

(** ** Creating a log *)

(** The test hook that makes [logdb_log_create] give up half way is off. *)
Definition no_early_return `{Build} (w : world) : Prop :=
  DEBUG = false \/ os_env (w_os w) !! "LOGDB_TEST_LOG_CREATE_RETURN_EARLY" = None.

(** A log file was created at [path] with the entries [es]; nothing else of
    the files changed, and the older memory is [h]. *)
Record create_done (path : string) (es : list Z) (th : thread) (h : heap) (w : world) (p : loc)
    (w' : world) : Prop := mk_create_done {
  cd_log : log_ok p (mk_log (os_next_fd (w_os w)) (Some path) None)
             (mk_ofd (os_next_ino (w_os w)) 0 true (th_pid th)) es w';
  cd_dir : os_dir (w_os w') = <[path := os_next_ino (w_os w)]> (os_dir (w_os w));
  cd_files : forall i, i <> os_next_ino (w_os w) -> get_file i w' = get_file i w;
  cd_inodes : forall i, is_Some (os_inodes (w_os w) !! i) -> is_Some (os_inodes (w_os w') !! i);
  cd_fds : forall d, d <> os_next_fd (w_os w) -> get_fd d w' = get_fd d w;
  cd_heap : forall x, x < w_next w -> w_heap w' !! x = h !! x;
  cd_new : w_next w <= p;
  cd_fcntl : os_fcntl (w_os w') = os_fcntl (w_os w);
  cd_flock : os_flock (w_os w') = os_flock (w_os w);
  cd_fresh : heap_fresh w';
  cd_quiet : quiet w';
  cd_os_fresh : os_fresh w';
  cd_next_ino : os_next_ino (w_os w') = os_next_ino (w_os w) + 1;
  cd_env : os_env (w_os w') = os_env (w_os w);
  cd_tls : w_tls w' = w_tls w;
  cd_next_key : w_next_key w' = w_next_key w
}.

Lemma log_new_run th fd path w :
  quiet w -> is_Some (os_dir (w_os w) !! path) ->
  run th (logdb_log_new fd path) w =
    Done (Some (w_next w)) (alloced (CLog (mk_log fd (Some path) None)) w).
Proof.
  intros Hq [i Hi]. unfold logdb_log_new. run_next. rewrite do_alloc_quiet by done.
  run_next. unfold do_realpath. rewrite next_fault_quiet by done.
  change (os_dir (w_os w0)) with (os_dir (w_os w)). rewrite Hi. simpl fmap. run_next.
  rewrite (do_rmw_peek _ (mk_log fd None None)) by exact (peek_insert logdb_log_t _ _ _).
  run_next. f_equal. world_eq.
Qed.

(** The entries first, the header over the gap they leave. *)
Lemma log_file_two_writes es :
  file_write 0 log_header_bytes (file_write sizeof_log_header (entries_bytes es) []) = log_image es.
Proof.
  unfold log_image. destruct (entries_bytes es) as [|b bs] eqn:E; [done|].
  unfold file_write at 2. unfold splice. rewrite drop_nil, app_nil_r, take_nil.
  change (file_write 0 log_header_bytes ?l) with (splice x00 0 log_header_bytes l).
  unfold splice. rewrite take_0, !app_nil_l. f_equal.
Qed.

(** The write of the entries, when there are any. *)
Lemma create_entries_run th fd o hdr es w :
  quiet w -> open_fd fd o w -> get_file (fd_ino o) w = [] ->
  peek (list byte) (w_heap w) hdr = Some (log_image es) ->
  run th (if sizeof_log_header <? zlen (log_image es) then
            let! entries := load_bytes hdr sizeof_log_header
                              (zlen (log_image es) - sizeof_log_header) in
            let! r := logdb_io_pwrite fd entries sizeof_log_header in
            Ret (r =? 0)
          else Ret true) w =
    Done true (put_file (fd_ino o) (file_write sizeof_log_header (entries_bytes es) []) w).
Proof.
  intros Hq Ho Hf Hh. pose proof (length_log_image es) as HL.
  destruct (Z.ltb_spec sizeof_log_header (zlen (log_image es))) as [Hlt|Hge].
  - run_next. unfold do_load_bytes, with_cell. rewrite Hh.
    rewrite (proj2 (Z.leb_le _ _)) by lia.
    assert (slice (Z.to_nat sizeof_log_header) (Z.to_nat (zlen (log_image es) - sizeof_log_header))
      (log_image es) = entries_bytes es) as ->.
    { unfold slice. rewrite take_ge; [done|]. rewrite length_drop. unfold sizeof_log_header. lia. }
    run_next. rewrite (pwrite_quiet _ _ _ _ _ o) by done. run_step. by rewrite Hf.
  - assert (es = []) as -> by (unfold sizeof_log_header in Hge; destruct es; [done|cbn [length] in HL; lia]).
    rewrite run_ret. change (file_write _ (entries_bytes []) []) with (@nil byte).
    rewrite <- Hf, put_file_id; [done|apply Ho].
Qed.

Lemma log_create_write_run `{Build} th path w hdr es :
  quiet w -> os_fresh w -> heap_fresh w -> no_early_return w ->
  os_dir (w_os w) !! path = None ->
  peek (list byte) (w_heap w) hdr = Some (log_image es) ->
  Forall entry_ok es -> zlen es < 2 ^ 31 ->
  exists w', run th (log_create_write path hdr (zlen (log_image es))) w =
      Done (Some (w_next w)) w' /\
    create_done path es th (delete hdr (w_heap w)) w (w_next w) w'.
Proof.
  intros Hq (Hfi & Hfd & Hnf) Hfresh Hearly Hdir Hh Hok Hes.
  set (ino := os_next_ino (w_os w)). set (fd := os_next_fd (w_os w)).
  set (o := mk_ofd ino 0 true (th_pid th)).
  unfold log_create_write. run_next. rewrite do_open_new_quiet by done. cbn [o_creat].
  change (os_next_fd (w_os w)) with fd. rewrite (proj2 (Z.eqb_neq _ _)) by (unfold fd; lia).
  rewrite run_bind. cbn beta iota. name_world.
  assert (open_fd fd o w0) as Ho0.
  { split_and!; [apply put_fd_get| |done]. unfold w0, fd_opened, file_created. simpl.
    rewrite lookup_insert_eq. eauto. }
  rewrite (create_entries_run th fd o hdr es w0); [|done..|apply (put_file_get ino [])|done].
  cbn match beta. simpl negb. cbn match. name_world. rewrite run_bind.
  assert (run th (if DEBUG then getenv "LOGDB_TEST_LOG_CREATE_RETURN_EARLY" else Ret None) w1 =
    Done None w1) as ->.
  { destruct DEBUG eqn:E; [|done]. rewrite run_getenv. change (os_env (w_os w1)) with (os_env (w_os w)).
    destruct Hearly as [?|E']; [congruence|by rewrite E']. }
  run_next. rewrite (do_load_bytes_run _ _ (log_image es));
    [|done|rewrite length_log_image; unfold sizeof_log_header; lia].
  change (take (Z.to_nat sizeof_log_header) (log_image es)) with log_header_bytes.
  run_next. rewrite (pwrite_quiet _ _ _ _ _ o); [|done|by apply open_fd_put_file|done].
  unfold w1 at 1. rewrite put_file_get, log_file_two_writes. simpl negb. cbn match. run_next.
  rewrite do_free_run by exact (peek_is_Some _ _ _ _ Hh). cbn match beta. name_world.
  rewrite log_new_run; [|done|].
  2: { exists ino. unfold w3, w2. simpl. apply lookup_insert_eq. }
  eexists. split; [reflexivity|].
  assert (forall i, i <> ino -> get_file i w3 = get_file i w) as Hfiles.
  { intros i Hi. unfold w3, w2, w1. change (get_file i (set_heap ?a ?b)) with (get_file i b).
    rewrite !put_file_get_ne by done. change (get_file i w0) with (get_file i (file_created path w)).
    unfold file_created. cbn zeta. fold ino. by rewrite put_file_get_ne. }
  constructor; try done.
  - constructor; [exact (peek_insert logdb_log_t _ _ _)| |apply (put_file_get ino)|done|done].
    apply (open_fd_put_file fd o), (open_fd_put_file fd o), Ho0.
  - intros i [b Hb]. unfold w3, w2, w1, w0, fd_opened, file_created. simpl. fold ino.
    destruct (decide (ino = i)) as [->|]; [rewrite lookup_insert_eq; eauto|].
    rewrite !lookup_insert_ne by done. eauto.
  - intros d Hd. change (get_fd d w0 = get_fd d w). unfold w0, fd_opened.
    by rewrite (put_fd_get_ne fd).
  - intros x Hx. unfold alloced. simpl. rewrite lookup_insert_ne by lia. done.
  - apply heap_fresh_alloc. apply (heap_fresh_delete w2). exact Hfresh.
  - apply os_fresh_alloced. change (os_fresh w2). unfold w2, w1.
    assert (os_fresh w0) as H0.
    { split_and!; unfold w0, fd_opened, file_created; simpl; fold ino fd.
      - intros i Hi. rewrite !lookup_insert_ne by lia. apply Hfi. fold ino. lia.
      - intros d Hd. rewrite lookup_insert_ne by lia. apply Hfd. fold fd. lia.
      - fold fd in Hnf. lia. }
    assert (is_Some (os_inodes (w_os w0) !! ino)) by apply Ho0.
    apply os_fresh_put_file; [by apply os_fresh_put_file|]. simpl. rewrite lookup_insert_eq. by eexists.
Qed.

(** A database file ends with a log and its trailer. *)
Definition db_has_log (es : list Z) (bs : list byte) : Prop :=
  exists data, bs = data ++ log_image es ++ bytes_u32 (zlen (log_image es) + sizeof_trailer) /\
    LOGDB_MIN_SIZE <= zlen bs < 2 ^ 62 /\ Forall entry_ok es /\ zlen es < 2 ^ 30.

(** Finding the log at the end of the database. *)
Lemma log_create_find_run th dbfd dbo es w :
  quiet w -> get_fd dbfd w = Some dbo -> db_has_log es (get_file (fd_ino dbo) w) ->
  exists q, 0 <= q /\
    run th (log_create_find dbfd (zlen (get_file (fd_ino dbo) w))) w =
      Done (Some (Some (w_next w), zlen (log_image es)))
        (put_fd dbfd (set_fd_pos q dbo) (alloced (CBytes (log_image es)) w)).
Proof.
  intros Hq Ho (data & Hf & Hsz & Hok & Hes). pose proof (length_log_image es) as HL.
  set (bs := get_file (fd_ino dbo) w) in *.
  assert (zlen bs = zlen data + zlen (log_image es) + 4) as Hlen
    by (rewrite Hf, !length_app, length_bytes_u32; lia).
  unfold log_create_find. rewrite (proj2 (Z.leb_le _ _)) by lia.
  unfold sizeof_trailer in *. run_lseek_on dbo. 2: { fold bs. lia. }
  fold bs. rewrite (proj2 (Z.eqb_neq _ _)) by lia. run_next.
  erewrite read_quiet; [|done|apply put_fd_get|cbn; lia|lia].
  change (get_file _ w0) with bs. cbn [fd_pos set_fd_pos].
  rewrite (proj2 (Z.leb_le _ _)) by lia.
  assert (file_read (zlen bs + -(4)) 4 bs = bytes_u32 (zlen (log_image es) + 4)) as ->.
  { pose proof (file_read_middle (data ++ log_image es)
      (bytes_u32 (zlen (log_image es) + 4)) []) as E.
    rewrite app_nil_r, <- app_assoc, <- Hf in E.
    etrans; [|exact E]. f_equal. rewrite length_app. lia. }
  cbn beta iota. rewrite length_bytes_u32. change (0 <? 0) with false.
  change (Z.of_nat 4 <? 4) with false. cbn beta iota.
  rewrite le_val_bytes_u32, u32_small by lia. run_next.
  erewrite do_lseek_quiet; [|done|apply put_fd_get|cbn [fd_ino set_fd_pos]].
  2: { change (get_file _ w1) with bs. lia. }
  cbn [fd_ino set_fd_pos]. change (get_file _ w1) with bs.
  replace (zlen bs + (zlen (log_image es) + 4) * -1) with (zlen data) by lia.
  rewrite (proj2 (Z.eqb_neq _ _)) by lia. cbn match. rewrite run_bind. name_world.
  destruct (log_read_run th dbfd (set_fd_pos (zlen data) dbo) LOGDB_READ_HAS_TRAILER data es
    (bytes_u32 (zlen (log_image es) + 4)) w2) as (q & Hq' & ->);
    [done|apply put_fd_get|exact Hf|done|reflexivity|done|rewrite <- Hf; lia|].
  exists q. split; [done|]. run_step. rewrite u64_small by lia.
  replace (zlen (log_image es) + 4 - 4) with (zlen (log_image es)) by lia.
  f_equal. world_eq.
Qed.

(** Behind the search: the header block is new, and is freed again. *)
Lemma create_done_weaken path es th w c q dbfd dbo p w' :
  create_done path es th (delete (w_next w) (<[w_next w := c]> (w_heap w)))
    (put_fd dbfd (set_fd_pos q dbo) (alloced c w)) p w' ->
  create_done path es th (w_heap w) (put_fd dbfd (set_fd_pos q dbo) w) p w'.
Proof.
  intros Hd. pose proof (cd_heap _ _ _ _ _ _ _ Hd) as Hh. pose proof (cd_new _ _ _ _ _ _ _ Hd) as Hn.
  destruct Hd. constructor; try done.
  - intros x Hx. simpl in Hx. rewrite Hh by (simpl; lia).
    rewrite lookup_delete_ne, lookup_insert_ne by lia. done.
  - simpl in *. lia.
Qed.

Section create.
Context `{Build} (th : thread) (path : string) (dbfd : Z) (dbo : ofd) (w : world).
Context (Hq : quiet w) (Hos : os_fresh w) (Hh : heap_fresh w) (Hearly : no_early_return w).
Context (Hdir : os_dir (w_os w) !! path = None) (Hdb : get_fd dbfd w = Some dbo).

(** [logdb_log_create] on a database that ends with a log. *)
Lemma log_create_run es :
  db_has_log es (get_file (fd_ino dbo) w) ->
  exists p q w', run th (logdb_log_create path dbfd) w = Done (Some p) w' /\ 0 <= q /\
    create_done path es th (w_heap w) (put_fd dbfd (set_fd_pos q dbo) w) p w'.
Proof.
  intros Hlog. unfold logdb_log_create. run_lseek_on dbo. rewrite Z.add_0_r.
  rewrite (proj2 (Z.eqb_neq _ _)) by lia. rewrite run_bind. name_world.
  destruct (log_create_find_run th dbfd (set_fd_pos (zlen (get_file (fd_ino dbo) w)) dbo) es w0)
    as (q & Hq0 & E); [done|apply put_fd_get|exact Hlog|].
  change (get_file _ w0) with (get_file (fd_ino dbo) w) in E. rewrite E. cbn beta iota. name_world.
  destruct Hlog as (_ & _ & _ & Hok & Hes).
  destruct (log_create_write_run th path w1 (w_next w0) es) as (w' & Hrun & Hdone); try done.
  - apply (os_fresh_put_fd dbfd (set_fd_pos (zlen (get_file (fd_ino dbo) w)) dbo));
      [|apply put_fd_get].
    by apply os_fresh_alloced, (os_fresh_put_fd dbfd dbo).
  - unfold w1. apply heap_fresh_alloc. exact Hh.
  - exact (peek_insert (list byte) _ _ _).
  - lia.
  - exists (w_next w1), q, w'. split; [done|]. split; [done|].
    apply create_done_weaken in Hdone. unfold w0 in Hdone. rewrite set_fd_pos_twice, put_fd_twice in Hdone.
    exact Hdone.
Qed.

(** [logdb_log_create] on a database too small to end with one. *)
Lemma log_create_fresh_run :
  zlen (get_file (fd_ino dbo) w) < LOGDB_MIN_SIZE ->
  exists p q w', run th (logdb_log_create path dbfd) w = Done (Some p) w' /\ 0 <= q /\
    create_done path [] th (w_heap w) (put_fd dbfd (set_fd_pos q dbo) w) p w'.
Proof.
  intros Hsz. unfold logdb_log_create. run_lseek_on dbo. rewrite Z.add_0_r.
  rewrite (proj2 (Z.eqb_neq _ _)) by lia. unfold log_create_find.
  rewrite (proj2 (Z.leb_gt _ _)) by lia. run_next. rewrite do_alloc_quiet by done.
  fold (alloced (CBytes log_header_bytes) w0). cbn beta iota. name_world.
  change sizeof_log_header with (zlen (log_image [])).
  destruct (log_create_write_run th path w1 (w_next w0) []) as (w' & Hrun & Hdone); try done.
  - by apply os_fresh_alloced, (os_fresh_put_fd dbfd dbo).
  - apply heap_fresh_alloc. exact Hh.
  - exact (peek_insert (list byte) _ _ _).
  - exists (w_next w1), (zlen (get_file (fd_ino dbo) w)), w'. split; [done|]. split; [lia|].
    by apply (create_done_weaken path [] th w (CBytes log_header_bytes)).
Qed.
End create.

(** ** What survives a merge *)

(** Every section's data are inside the file; an empty section may lie behind
    its end. *)
Definition sections_in (es : list Z) (db : list byte) : Prop :=
  forall i e, es !! i = Some e -> e <> 0 -> logdb_connection_offset (Z.of_nat i) + e <= zlen db.

(** The valid bytes of section [i]. *)
Definition section (es : list Z) (db : list byte) (i : nat) : list byte :=
  file_read (logdb_connection_offset (Z.of_nat i)) (default 0 (es !! i)) db.

Lemma file_read_app_l off n a b :
  0 <= off -> 0 <= n -> off + n <= zlen a -> file_read off n (a ++ b) = file_read off n a.
Proof. intros. unfold file_read. apply slice_app_l. lia. Qed.

Lemma trim_zeros_ok es : Forall entry_ok es -> Forall entry_ok (trim_zeros es).
Proof.
  intros Hok. destruct (trim_zeros_prefix es) as [k E]. rewrite E in Hok.
  by apply Forall_app in Hok as [? _].
Qed.

Lemma trim_zeros_default es i : default 0 (trim_zeros es !! i) = default 0 (es !! i).
Proof.
  destruct (es !! i) as [e|] eqn:E.
  - destruct (decide (e = 0)) as [->|Hne]; [|by rewrite (trim_zeros_lookup es i e)].
    destruct (trim_zeros_prefix es) as [k Ek]. rewrite Ek in E.
    apply lookup_app_Some in E as [E|[Hge _]]; [by rewrite E|].
    by rewrite lookup_ge_None_2.
  - rewrite lookup_ge_None_2; [done|]. apply lookup_ge_None_1 in E.
    pose proof (trim_zeros_length es). lia.
Qed.

Lemma merged_section es db i :
  Forall entry_ok es -> zlen es < 65536 -> sections_in es db ->
  section (trim_zeros es) (merged_db es db) i = section es db i.
Proof.
  intros Hok Hes Hin. unfold section. rewrite trim_zeros_default.
  destruct (es !! i) as [e|] eqn:E; [|done]. simpl.
  pose proof (lookup_lt_Some _ _ _ E) as Hi.
  pose proof (Forall_lookup_1 _ _ _ _ Hok E) as He. unfold entry_ok in He.
  destruct (decide (e = 0)) as [->|Hne]; [by rewrite !file_read_zero|].
  pose proof (Hin _ _ E Hne) as Hie. rewrite connection_offset_small in * by lia.
  pose proof (trim_zeros_ok es Hok) as Hok'.
  pose proof (db_end_section _ _ _ Hok' (trim_zeros_lookup _ _ _ E Hne)).
  pose proof (db_end_nonneg _ Hok').
  unfold merged_db. rewrite file_read_app_l by (rewrite ?length_resize; lia).
  apply file_read_resize; lia.
Qed.

Lemma db_end_le es : Forall entry_ok es -> db_end es <= 6 + 65536 * zlen es.
Proof.
  intros Hok. unfold db_end. destruct es as [|a l _] using rev_ind; [simpl; lia|].
  rewrite last_snoc, length_app. apply Forall_app in Hok as [_ Ha].
  apply Forall_cons_1 in Ha as [Ha _]. unfold entry_ok in Ha. simpl. lia.
Qed.

Lemma merged_has_log es db :
  Forall entry_ok es -> zlen es < 65536 -> db_has_log (trim_zeros es) (merged_db es db).
Proof.
  intros Hok Hes. pose proof (trim_zeros_ok es Hok) as Hok'.
  pose proof (trim_zeros_length es). pose proof (db_end_nonneg _ Hok').
  pose proof (length_log_image (trim_zeros es)) as HL.
  pose proof (db_end_le _ Hok').
  eexists. split; [reflexivity|]. split; [|split; [done|lia]].
  unfold merged_db. rewrite !length_app, !Nat2Z.inj_add, length_resize, HL, length_bytes_u32 by lia.
  unfold LOGDB_MIN_SIZE, sizeof_header, sizeof_log_header, sizeof_trailer. lia.
Qed.

(** ** Reading what is not a log *)

Lemma log_header_valid_bytes h :
  length h = 6%nat -> log_header_valid h = true -> h = log_header_bytes.
Proof.
  intros Hl Hv. unfold log_header_valid in Hv. apply andb_prop in Hv as [Hm Hver].
  apply bool_decide_eq_true in Hm. apply Z.eqb_eq in Hver.
  rewrite <- (take_drop 4 h), Hm. unfold log_header_bytes. f_equal.
  pose proof (le_bytes_val (drop 4 h)) as E. rewrite length_drop, Hl, Hver in E.
  symmetry. exact E.
Qed.

(** A log header cannot overlap the trailer that leads to it: the size of the
    entries computed from them does not wrap. *)
Lemma log_header_before_trailer bs L :
  L <= zlen bs -> 6 <= L ->
  file_read (zlen bs - 4) 4 bs = bytes_u32 L ->
  log_header_valid (file_read (zlen bs - L) 6 bs) = true -> 10 <= L.
Proof.
  intros HL H6 Ht Hv. apply log_header_valid_bytes in Hv.
  2: { pose proof (file_read_length (zlen bs - L) 6 bs). lia. }
  destruct (Z.lt_ge_cases L 10) as [Hlt|]; [exfalso|done].
  assert (file_read (zlen bs - 4) 4 bs !! 0%nat = log_header_bytes !! Z.to_nat (L - 4)) as E.
  { rewrite <- Hv. unfold file_read. rewrite !lookup_slice.
    rewrite !decide_True by lia. f_equal. lia. }
  rewrite Ht in E. assert (L = 6 \/ L = 7 \/ L = 8 \/ L = 9) as HL4 by lia.
  destruct HL4 as [->|[->|[->| ->]]]; vm_compute in E; discriminate E.
Qed.

(** Only the position of one descriptor and new memory changed. *)
Record scanned (fd : Z) (w w' : world) : Prop := mk_scanned {
  sc_os : exists q o, get_fd fd w = Some o /\ (0 <= fd_pos o -> 0 <= q) /\ w_os w' = w_os (put_fd fd (set_fd_pos q o) w);
  sc_heap x : x < w_next w -> w_heap w' !! x = w_heap w !! x;
  sc_next : w_next w <= w_next w';
  sc_fresh : heap_fresh w -> heap_fresh w';
  sc_tls : w_tls w' = w_tls w;
  sc_key : w_next_key w' = w_next_key w;
  sc_oracle : w_oracle w' = w_oracle w
}.

Lemma scanned_refl fd o w : get_fd fd w = Some o -> scanned fd w w.
Proof.
  intros Ho. constructor; try done. exists (fd_pos o), o. split_and!; [done..|]. by rewrite set_fd_pos_id, put_fd_id.
Qed.

Lemma scanned_pos fd w v o p : scanned fd w v -> get_fd fd v = Some o -> 0 <= p -> scanned fd w (put_fd fd (set_fd_pos p o) v).
Proof.
  intros [(q & o' & Ho' & Hq & Eos)] Ho Hp. constructor; try done. exists p, o'. split_and!; [done..|].
  assert (o = set_fd_pos q o') as ->.
  { unfold get_fd in Ho. rewrite Eos in Ho. change (get_fd fd (put_fd fd (set_fd_pos q o') w) = Some o) in Ho.
    rewrite put_fd_get in Ho. by injection Ho. }
  unfold put_fd. cbn [w_os set_os]. rewrite Eos. unfold put_fd, set_os_fds. cbn. by rewrite insert_insert_eq.
Qed.

Lemma scanned_alloc fd w v c : scanned fd w v -> scanned fd w (alloced c v).
Proof.
  intros []. constructor; try done; cbn [w_heap w_next alloced set_next set_heap].
  - intros x Hx. rewrite lookup_insert_ne by lia. by apply sc_heap0.
  - lia.
  - intros Hf. by apply (heap_fresh_alloc v), sc_fresh0.
Qed.

Lemma scanned_heap fd w v h :
  scanned fd w v -> (forall x, x < w_next w -> h !! x = w_heap v !! x) -> (forall x, is_Some (h !! x) -> is_Some (w_heap v !! x)) ->
  scanned fd w (set_heap h v).
Proof.
  intros [] Hlow Hdom. constructor; try done; cbn [w_heap w_next set_heap].
  - intros x Hx. rewrite Hlow by done. by apply sc_heap0.
  - intros Hf x Hx. cbn [w_heap w_next set_heap] in *. apply eq_None_not_Some. intros Hs%Hdom.
    rewrite (sc_fresh0 Hf) in Hs by done. by destruct Hs.
Qed.

Lemma scanned_trans fd w v w' : scanned fd w v -> scanned fd v w' -> scanned fd w w'.
Proof.
  intros [(q & o & Ho & Hq & Eos)] [(q' & o' & Ho' & Hq' & Eos')]. constructor; try congruence; try lia.
  - exists q', o. split; [done|].
    unfold get_fd in Ho'. rewrite Eos in Ho'.
    change (get_fd fd (put_fd fd (set_fd_pos q o) w) = Some o') in Ho'. rewrite put_fd_get in Ho'. injection Ho' as <-.
    split; [auto|]. rewrite Eos'. unfold put_fd. cbn [w_os set_os]. rewrite Eos. unfold put_fd, set_os_fds. cbn. by rewrite insert_insert_eq.
  - intros x Hx. rewrite sc_heap1 by lia. by apply sc_heap0.
  - auto.
Qed.

(** A new block. *)
Definition new_block (w w' : world) (l : loc) : Prop := w_next w <= l < w_next w' /\ is_Some (w_heap w' !! l).

(** With any header, [log_read_entries] ends without a fault when the end it
    computes is not before the position. *)
Lemma log_read_entries_safe th fd o mode header w :
  quiet w -> get_fd fd w = Some o ->
  0 <= fd_pos o <= zlen (get_file (fd_ino o) w) - mode_tail mode ->
  zlen (get_file (fd_ino o) w) < 2 ^ 62 ->
  exists r w', run th (log_read_entries fd mode header) w = Done r w' /\ scanned fd w w' /\
    forall l, r = HdrAt l -> new_block w w' l.
Proof.
  intros Hq Ho Hp Hsz. set (bs := get_file (fd_ino o) w) in *.
  pose proof (scanned_refl fd o w Ho) as S.
  unfold log_read_entries. run_lseek_on o. rewrite Z.add_0_r, (proj2 (Z.eqb_neq _ _)) by lia.
  apply (scanned_pos _ _ _ o (fd_pos o)) in S; [|done|lia].
  run_lseek_on (set_fd_pos (fd_pos o) o). change (get_file _ w0) with bs.
  rewrite Z.add_0_r, (proj2 (Z.eqb_neq _ _)) by lia.
  replace (match mode with LOGDB_READ_HAS_TRAILER => _ | _ => _ end - fd_pos o)
    with (zlen bs - mode_tail mode - fd_pos o)
    by (destruct mode; unfold mode_tail, sizeof_trailer in *; lia).
  set (n := zlen bs - mode_tail mode - fd_pos o).
  assert (0 <= n <= zlen bs) by (unfold n; destruct mode; unfold mode_tail, sizeof_trailer in *; lia).
  unfold sizeof_log_header, malloc_bytes. rewrite !u64_small by (rewrite ?u64_small; lia).
  apply (scanned_pos _ _ w0 (set_fd_pos (fd_pos o) o) (zlen bs)) in S; [|apply put_fd_get|lia].
  rewrite (proj2 (Z.leb_gt (2 ^ 63) _)) by lia. run_next. rewrite do_alloc_quiet by done.
  apply (scanned_alloc _ _ _ (CBytes header)) in S. fold w1 in S. unfold alloced in S. cbn beta iota. name_world.
  set (l := w_next w1) in *. assert (w_heap w2 !! l = Some (CBytes header)) as El by apply lookup_insert_eq.
  assert (w_next w <= l < w_next w2) as Hl.
  { split; [|cbn; lia]. exact (Z.le_refl (w_next w)). }
  rewrite (proj2 (Z.ltb_ge _ _)) by lia.
  destruct (Z.eqb_spec n 0) as [E|E]; simpl negb; cbn match.
  { do 2 eexists. split; [reflexivity|]. split; [exact S|]. intros ? [= <-]. split; [done|by eexists]. }
  run_next. erewrite do_lseek_quiet; [|done|apply put_fd_get|cbn; lia].
  rewrite (proj2 (Z.eqb_neq _ _)) by lia. run_next.
  erewrite read_quiet; [|done|apply put_fd_get|cbn; lia|lia].
  set (k := zlen (file_read _ _ _)). eapply (scanned_pos _ _ w2 _ (fd_pos o)) in S; [|apply put_fd_get|lia].
  eapply (scanned_pos _ _ _ _ (fd_pos o + k)) in S; [|apply put_fd_get|lia].
  cbn beta iota. destruct (negb _).
  - run_next. rewrite do_free_run; [|by exists (CBytes header)]. run_step. do 2 eexists. split; [reflexivity|]. split; [|done].
    eapply scanned_heap; [exact S| |].
    + intros x Hx. apply lookup_delete_ne. lia.
    + intros x. destruct (decide (l = x)) as [->|]; [by rewrite lookup_delete_eq; intros []|by rewrite lookup_delete_ne].
  - run_next. rewrite (do_rmw_peek _ header); [|change (peek (list byte) (w_heap w2) l = Some header); unfold peek; by rewrite El]. run_step.
    do 2 eexists. split; [reflexivity|]. split.
    + eapply scanned_heap; [exact S| |].
      * intros x Hx. apply lookup_insert_ne. lia.
      * intros x. destruct (decide (l = x)) as [->|]; [by eexists|by rewrite lookup_insert_ne].
    + intros ? [= <-]. split; [exact Hl|]. eexists. apply lookup_insert_eq.
Qed.

Lemma log_read_safe th fd o L w :
  quiet w -> get_fd fd w = Some o ->
  let bs := get_file (fd_ino o) w in
  fd_pos o = zlen bs - L -> 0 <= L <= zlen bs -> zlen bs < 2 ^ 62 ->
  file_read (zlen bs - 4) 4 bs = bytes_u32 L ->
  exists r w', run th (logdb_log_read fd LOGDB_READ_HAS_TRAILER) w = Done r w' /\ scanned fd w w' /\
    forall l, r = HdrAt l -> new_block w w' l.
Proof.
  intros Hq Ho bs Hp HL Hsz Ht. unfold logdb_log_read. run_next.
  rewrite (read_quiet _ _ _ _ o) by (done || lia). fold bs. rewrite Hp.
  set (k := zlen (file_read _ _ _)).
  pose proof (scanned_pos _ _ _ o (zlen bs - L + k) (scanned_refl fd o w Ho) Ho ltac:(lia)) as S.
  assert (forall (r : log_header_ptr) w', (forall l, r <> HdrAt l) -> scanned fd w w' ->
    exists r0 w0, run th (Ret r) w' = Done r0 w0 /\ scanned fd w w0 /\ forall l, r0 = HdrAt l -> new_block w w0 l) as Hnone.
  { intros r w' Hr Hs. exists r, w'. split_and!; [done..|]. intros l ->. by destruct (Hr l). }
  destruct (Z.leb_spec (zlen bs - L + sizeof_log_header) (zlen bs)) as [Hle|Hgt];
    unfold sizeof_log_header in *; [|by apply Hnone].
  cbn beta iota. change (0 <? 0) with false. change (0 =? -1) with false. cbn [orb].
  cbn iota. name_world.
  destruct (log_header_valid (file_read (zlen bs - L) 6 bs)) eqn:Hv; [|by apply Hnone].
  cbn [negb]. cbn iota. pose proof (log_header_before_trailer bs L ltac:(lia) ltac:(lia) Ht Hv) as H10.
  pose proof (file_read_length (zlen bs - L) 6 bs ltac:(lia) ltac:(lia)) as Hl.
  destruct (log_read_entries_safe th fd (set_fd_pos (zlen bs - L + k) o) LOGDB_READ_HAS_TRAILER
    (file_read (zlen bs - L) 6 bs) w0) as (r & w' & E & S' & Hr); [done|apply put_fd_get|cbn [fd_pos fd_ino set_fd_pos]|exact Hsz|].
  - change (get_file _ w0) with bs. unfold mode_tail, sizeof_trailer, k. lia.
  - exists r, w'. split_and!; [done|by eapply scanned_trans|]. intros l ->. destruct (Hr l eq_refl) as [Hb ?].
    split; [|done]. exact Hb.
Qed.

(** What looking for a log finds, and what it changes. *)
Lemma log_create_find_scan th dbfd dbo w :
  quiet w -> get_fd dbfd w = Some dbo -> zlen (get_file (fd_ino dbo) w) < 2 ^ 62 ->
  exists r w', run th (log_create_find dbfd (zlen (get_file (fd_ino dbo) w))) w = Done r w' /\ scanned dbfd w w' /\
    forall l sz, r = Some (Some l, sz) -> new_block w w' l.
Proof.
  intros Hq Ho Hsz. set (bs := get_file (fd_ino dbo) w) in *. unfold log_create_find.
  pose proof (scanned_refl _ _ _ Ho) as S.
  destruct (Z.leb_spec LOGDB_MIN_SIZE (zlen bs)) as [Hmin|]; [|by do 2 eexists].
  unfold LOGDB_MIN_SIZE, sizeof_header, sizeof_log_header, sizeof_trailer in *.
  run_lseek_on dbo. 2: { fold bs. lia. } fold bs.
  apply (scanned_pos _ _ _ dbo (zlen bs + -(4))) in S; [|done|lia].
  rewrite (proj2 (Z.eqb_neq _ _)) by lia. run_next.
  erewrite read_quiet; [|done|apply put_fd_get|cbn; lia|lia].
  change (get_file _ w0) with bs. cbn [fd_pos set_fd_pos].
  rewrite (proj2 (Z.leb_le _ _)) by lia. cbn beta iota. change (0 <? 0) with false. cbn iota.
  pose proof (file_read_length (zlen bs + -(4)) 4 bs ltac:(lia) ltac:(lia)) as Hl.
  rewrite (proj2 (Z.ltb_ge _ _)) by lia.
  set (t := file_read (zlen bs + -(4)) 4 bs) in *.
  eapply (scanned_pos _ _ w0 _ (zlen bs + -(4) + zlen t)) in S; [|apply put_fd_get|lia].
  pose proof (le_val_range t) as Hr. assert (length t = 4%nat) as Hl4 by lia.
  rewrite Hl4 in Hr. change (256 ^ Z.of_nat 4) with (2 ^ 32) in Hr.
  assert (t = bytes_u32 (le_val t)) as Et
    by (unfold bytes_u32; rewrite <- Hl4; symmetry; apply le_bytes_val).
  run_next. destruct (Z.lt_ge_cases (zlen bs) (le_val t)) as [Hlt|Hge].
  - erewrite do_lseek_quiet_neg; [run_step; by do 2 eexists|done|apply put_fd_get|].
    cbn [fd_ino set_fd_pos]. change (get_file _ w1) with bs. lia.
  - erewrite do_lseek_quiet; [|done|apply put_fd_get|].
    2: { cbn [fd_ino set_fd_pos]. change (get_file _ w1) with bs. lia. }
    cbn [fd_ino set_fd_pos]. change (get_file _ w1) with bs.
    eapply (scanned_pos _ _ w1 _ (zlen bs + le_val t * -1)) in S; [|apply put_fd_get|lia].
    rewrite (proj2 (Z.eqb_neq _ _)) by lia. cbn iota. rewrite run_bind. name_world.
    edestruct (log_read_safe th dbfd) with (w := w2) (L := le_val t) as (r & w' & -> & S' & Hr');
      [done|apply put_fd_get|..]; cbn [fd_ino fd_pos set_fd_pos]; try (change (get_file _ w2) with bs; lia).
    { change (get_file _ w2) with bs. by rewrite <- Et. }
    run_step. do 2 eexists. split; [reflexivity|]. split; [by eapply scanned_trans|].
    intros l sz. destruct r as [| |l']; intros [= -> _]. exact (Hr' l eq_refl).
Qed.

(** Whatever the database file holds, looking for a log at its end reads no
    indeterminate memory and allocates no block whose size has wrapped. *)
Lemma log_create_find_safe th dbfd dbo w :
  quiet w -> get_fd dbfd w = Some dbo -> zlen (get_file (fd_ino dbo) w) < 2 ^ 62 ->
  exists r w', run th (log_create_find dbfd (zlen (get_file (fd_ino dbo) w))) w = Done r w'.
Proof. intros Hq Ho Hsz. destruct (log_create_find_scan th dbfd dbo w Hq Ho Hsz) as (r & w' & E & _). by exists r, w'. Qed.

(** Writing an entry and reading any entry: the written one has the length
    modulo 2^16, the others keep theirs, and the log stays well formed. *)
Lemma log_entry_write_read `{Build} th p l o es w i len :
  quiet w -> log_ok p l o es w -> 0 <= i < zlen es ->
  exists w', run th (logdb_log_write_entry (Some p) len i) w = Done 0 w' /\
    log_ok p l o (<[Z.to_nat i := u16 len]> es) w' /\
    forall j, 0 <= j ->
      run th (logdb_log_read_entry (Some p) j) w' =
        Done (match <[Z.to_nat i := u16 len]> es !! Z.to_nat j with
              | Some e => (logdb_log_offset j, e) | None => (-1, 0) end) w'.
Proof.
  intros Hq Hl Hi. eexists. split; [by apply (write_entry_run th w p l o es)|].
  assert (log_ok p l o (<[Z.to_nat i := u16 len]> es)
    (put_file (fd_ino o) (log_image (<[Z.to_nat i := u16 len]> es)) w)) as Hl'.
  { apply log_ok_write; [done|]. unfold entry_ok. apply u16_range. }
  split; [done|]. intros j Hj. eapply read_entry_run; eauto.
Qed.

(** C28. Closing the log by merging it into the database and then creating it
    again from the database: both succeed, the log is back without its trailing
    empty entries, and every section of the database holds the bytes it held. *)
Theorem merge_create_roundtrip `{Build} th p l o es path dbfd dbo w :
  quiet w -> log_ok p l o es w -> heap_fresh w -> os_fresh w -> log_path l = Some path ->
  is_Some (os_dir (w_os w) !! path) -> open_fd dbfd dbo w -> log_unlocked o w ->
  fd_append dbo = false -> dbfd <> log_fd l ->
  zlen es < 65536 -> no_early_return w -> sections_in es (get_file (fd_ino dbo) w) ->
  exists p' l' o' w', run th (let! r := logdb_log_close_merge (Some p) dbfd in
                              let! p := logdb_log_create path dbfd in Ret (r, p)) w =
      Done (0, Some p') w' /\
    log_ok p' l' o' (trim_zeros es) w' /\
    forall i, section (trim_zeros es) (get_file (fd_ino dbo) w') i =
              section es (get_file (fd_ino dbo) w) i.
Proof.
  intros Hq Hl Hh Hos Hp Hdir Hdb Hun Happ Hfd Hes Hearly Hin.
  pose proof (lo_entries _ _ _ _ _ Hl) as Hok.
  destruct (close_merge_run th p l o es path dbfd dbo Happ Hfd Hok Hes w)
    as (w1 & E & Hd); [done..|].
  destruct (md_dbfd _ _ _ _ _ _ _ _ Hd) as (q & Hq0 & Hdb1).
  pose proof (md_db _ _ _ _ _ _ _ _ Hd) as Hdbf.
  destruct (log_create_run th path dbfd (set_fd_pos q dbo) w1) with (es := trim_zeros es)
    as (p' & q' & w' & E' & _ & Hc).
  - by apply Hd.
  - by apply (md_os_fresh _ _ _ _ _ _ _ _ Hd).
  - by apply (md_heap_fresh _ _ _ _ _ _ _ _ Hd).
  - unfold no_early_return. by rewrite (md_env _ _ _ _ _ _ _ _ Hd).
  - rewrite (md_dir _ _ _ _ _ _ _ _ Hd). apply lookup_delete_eq.
  - done.
  - cbn [fd_ino set_fd_pos]. rewrite Hdbf. by apply merged_has_log.
  - eexists p', _, _, w'. split; [run_step; rewrite E; run_step; by rewrite E'|].
    split; [apply Hc|]. intros i. rewrite (cd_files _ _ _ _ _ _ _ Hc).
    + rewrite put_fd_get_file, Hdbf. by apply merged_section.
    + apply (md_os_fresh _ _ _ _ _ _ _ _ Hd) in Hos as (Hi & _). simpl. intros Heq.
      assert (get_file (fd_ino dbo) w1 = []) as Hnil by (unfold get_file; by rewrite Hi by lia).
      rewrite Hdbf in Hnil. apply (f_equal length) in Hnil.
      unfold merged_db in Hnil. rewrite !length_app, length_bytes_u32 in Hnil. simpl in Hnil. lia.
Qed.

(** When the file is large enough to end with a log but the place its last
    four bytes point to holds none, [logsz] is kept although the header block
    is replaced by a bare header: [logdb_log_create] writes the memory behind
    that block to the new log file. *)
Lemma log_create_overread `{Build} th path dbfd dbo w :
  quiet w -> os_fresh w -> heap_fresh w -> os_dir (w_os w) !! path = None ->
  get_fd dbfd w = Some dbo ->
  let bs := get_file (fd_ino dbo) w in
  let L := le_val (file_read (zlen bs - 4) 4 bs) in
  LOGDB_MIN_SIZE <= zlen bs < 2 ^ 62 -> 10 < L <= zlen bs ->
  log_header_valid (file_read (zlen bs - L) 6 bs) = false ->
  run th (logdb_log_create path dbfd) w = Undef UbBounds.
Proof.
  intros Hq Hos Hh Hdir Ho bs L Hsz HL Hv. unfold logdb_log_create.
  run_lseek_on dbo. fold bs. rewrite Z.add_0_r, (proj2 (Z.eqb_neq _ _)) by lia.
  unfold log_create_find. rewrite (proj2 (Z.leb_le _ _)) by lia.
  unfold LOGDB_MIN_SIZE, sizeof_header, sizeof_log_header, sizeof_trailer in *.
  run_next. erewrite do_lseek_quiet; [|done|apply put_fd_get|].
  2: { cbn [fd_ino set_fd_pos]. change (get_file _ w0) with bs. lia. }
  cbn [fd_ino set_fd_pos]. change (get_file _ w0) with bs.
  rewrite (proj2 (Z.eqb_neq _ _)) by lia. run_next.
  erewrite read_quiet; [|done|apply put_fd_get|cbn; lia|lia].
  change (get_file _ w1) with bs. cbn [fd_pos set_fd_pos].
  pose proof (file_read_length (zlen bs - 4) 4 bs ltac:(lia) ltac:(lia)) as Hl.
  rewrite (proj2 (Z.leb_le _ _)) by lia. cbn beta iota. change (0 <? 0) with false. cbn iota.
  change (zlen bs + -(4)) with (zlen bs - 4).
  rewrite (proj2 (Z.ltb_ge _ _)) by lia. fold L. run_next.
  erewrite do_lseek_quiet; [|done|apply put_fd_get|].
  2: { cbn [fd_ino set_fd_pos]. change (get_file _ w2) with bs. lia. }
  cbn [fd_ino set_fd_pos]. change (get_file _ w2) with bs.
  replace (zlen bs + L * -1) with (zlen bs - L) by lia.
  rewrite (proj2 (Z.eqb_neq _ _)) by lia. unfold logdb_log_read. run_next.
  erewrite read_quiet; [|done|apply put_fd_get|cbn; lia|unfold sizeof_log_header; lia].
  change (get_file _ w3) with bs. cbn [fd_pos set_fd_pos]. unfold sizeof_log_header.
  rewrite (proj2 (Z.leb_le _ _)) by lia. cbn beta iota. change (0 <? 0) with false.
  change (0 =? -1) with false. rewrite Hv. cbn [negb orb]. cbn iota.
  run_next. rewrite do_alloc_quiet by done.
  cbn beta iota. unfold log_create_write. run_next. rewrite do_open_new_quiet by done.
  cbn [o_creat]. destruct Hos as (_ & _ & Hnf).
  change (os_next_fd (w_os w5)) with (os_next_fd (w_os w)).
  rewrite (proj2 (Z.eqb_neq _ _)) by lia. unfold sizeof_log_header.
  assert (u64 (L - 4) = L - 4) as -> by (apply u64_small; lia).
  rewrite (proj2 (Z.ltb_lt _ _)) by lia. run_next.
  unfold do_load_bytes, with_cell. change (w_heap w6) with (<[w_next w4 := to_cell log_header_bytes]> (w_heap w4)).
  rewrite (peek_insert (list byte) _ log_header_bytes).
  by rewrite (proj2 (Z.leb_gt _ _)) by (rewrite length_log_header_bytes; lia).
Qed.

(** ** A process with an open database *)

(** Descriptor 3 is the database "t.db", 4 its log, both opened by the main
    thread's process; the log structure is at 1, the connection at 2. *)
Definition db_ofd : ofd := mk_ofd 1 0 false 100.
Definition log_ofd : ofd := mk_ofd 2 0 true 100.
Definition open_log : logdb_log_t := mk_log 4 (Some "t.db-log") None.
Definition open_conn (flags : Z) : logdb_connection_t :=
  mk_connection LOGDB_VERSION (mk_rwlock 0 false) flags 3 (Some 1) 0.
Definition open_os (db : list byte) (es : list Z) : os_state :=
  mk_os {[ "t.db" := 1; "t.db-log" := 2 ]} {[ 1 := db; 2 := log_image es ]} ∅
    {[ 3 := db_ofd; 4 := log_ofd ]} 5 3 [] [mk_flock 3 1 false] ∅.
Definition open_world (flags : Z) (db : list byte) (es : list Z) (oracle : list fault) : world :=
  mk_world (open_os db es) {[ 1 := CLog open_log; 2 := CConn (open_conn flags) ]} 3 ∅ 1 [] oracle.

Lemma open_world_log flags db es oracle :
  Forall entry_ok es -> zlen es < 2 ^ 31 ->
  log_ok 1 open_log log_ofd es (open_world flags db es oracle).
Proof. intros. by constructor. Qed.

Lemma open_world_db flags db es oracle : open_fd 3 db_ofd (open_world flags db es oracle).
Proof. split_and!; [done|by eexists|done]. Qed.

Lemma open_world_heap_fresh flags db es oracle : heap_fresh (open_world flags db es oracle).
Proof.
  intros l Hl. simpl in *. rewrite lookup_insert_ne by lia.
  rewrite lookup_singleton_ne by lia. done.
Qed.

Lemma open_world_os_fresh flags db es oracle : os_fresh (open_world flags db es oracle).
Proof.
  split_and!; [| |done]; intros i Hi; simpl in *;
    rewrite lookup_insert_ne, lookup_singleton_ne by lia; done.
Qed.

#[export] Hint Resolve open_world_log open_world_db open_world_heap_fresh open_world_os_fresh : logdb.

(** ** Witnesses *)

Section witnesses.
#[local] Existing Instance debug_build.

Definition two_sections : list byte := header_bytes ++ replicate (Z.to_nat 65545) x01.

Lemma merge_create_roundtrip_witness :
  exists p' l' o' w',
    run main_thread (let! r := logdb_log_close_merge (Some 1) 3 in
                     let! p := logdb_log_create "t.db-log" 3 in Ret (r, p))
      (open_world 0 two_sections [5; 9; 0] []) = Done (0, Some p') w' /\
    log_ok p' l' o' [5; 9] w' /\
    forall i, section [5; 9] (get_file 1 w') i = section [5; 9; 0] two_sections i.
Proof.
  apply (merge_create_roundtrip main_thread 1 open_log log_ofd [5; 9; 0] "t.db-log" 3 db_ofd
           (open_world 0 two_sections [5; 9; 0] [])).
  - done.
  - apply open_world_log; [by repeat constructor|done].
  - apply open_world_heap_fresh.
  - apply open_world_os_fresh.
  - done.
  - by eexists.
  - apply open_world_db.
  - done.
  - done.
  - done.
  - done.
  - by right.
  - intros [|[|[|i]]] e E He; [..|done]; injection E as <-; by vm_compute.
Defined.
End witnesses.
