(* ===== verification/Buffer.v ===== *)
(** * Buffers: src/src/logdb_buffer.c

    A buffer points to data of the caller or to data of its own, may be a
    shallow copy of another buffer ([orig]), and is the head of a linked list
    ([next]).  The functions below walk that structure in the heap; the fuel
    of a walk is the number of allocated blocks. *)

From S2P Require Import Prelude Machine World Posix Layout.

Section buffer.
Context `{Build}.

(** ** Operations *)

Definition logdb_buffer_new_direct (data : ptr) (length : Z) (disposer : option dispose_func) : prog ptr :=
  if DEBUG && bool_decide (data = None) then Ret None else
  alloc (mk_buffer data length disposer None None 1).

(** [data] is the memory copied, or [None] for NULL. *)
Definition logdb_buffer_new_copy (data : option (list byte)) : prog ptr :=
  match data with
  | None => if DEBUG then Ret None else undef UbNull
  | Some bs =>
      let! copy := alloc bs in
      match copy with
      | None => Ret None
      | Some _ =>
          let! result := logdb_buffer_new_direct copy (zlen bs) (Some DisposeFree) in
          match result with
          | None =>
              do! free copy in
              Ret None
          | Some _ => Ret result
          end
      end
  end.

Fixpoint buffer_length_loop (fuel : nat) (buf : ptr) (len : Z) : prog Z :=
  match buf with
  | None => Ret len
  | Some _ =>
      match fuel with
      | O => no_fuel
      | S fuel' =>
          let! b := load logdb_buffer_t buf in
          let! n := match buf_orig b with
                    | Some _ => buffer_length_loop fuel' (buf_orig b) 0
                    | None => Ret (buf_len b)
                    end in
          buffer_length_loop fuel' (buf_next b) (u32 (len + n))
      end
  end.

Definition logdb_buffer_length (buffer : ptr) : prog Z :=
  let! fuel := heap_size in
  buffer_length_loop fuel buffer 0.

(** The loop of [logdb_buffer_data] that copies the list; [rec] is the
    recursive call.  [false] when a recursive call fails. *)
Fixpoint data_copy (rec : ptr -> prog ptr) (fuel : nat) (newdata : ptr) (newlen : Z) (cur : ptr)
    : prog bool :=
  match cur with
  | None => Ret true
  | Some _ =>
      match fuel with
      | O => no_fuel
      | S fuel' =>
          let! c := load logdb_buffer_t cur in
          match buf_orig c with
          | Some _ =>
              let! len := logdb_buffer_length (buf_orig c) in
              let! data := rec (buf_orig c) in
              match data with
              | None =>
                  do! free newdata in
                  Ret false
              | Some _ =>
                  let! bs := load_mem data len in
                  do! store_append newdata newlen bs in
                  let! c := load logdb_buffer_t cur in
                  data_copy rec fuel' newdata newlen (buf_next c)
              end
          | None =>
              let! bs := load_mem (buf_data c) (buf_len c) in
              do! store_append newdata newlen bs in
              data_copy rec fuel' newdata newlen (buf_next c)
          end
      end
  end.

Fixpoint buffer_data_loop (fuel : nat) (buf : ptr) : prog ptr :=
  match buf with
  | None => if DEBUG then Ret None else undef UbNull
  | Some _ =>
      match fuel with
      | O => no_fuel
      | S fuel' =>
          let! b := load logdb_buffer_t buf in
          match buf_orig b, buf_next b with
          | Some _, _ => buffer_data_loop fuel' (buf_orig b)
          | None, None => Ret (buf_data b)
          | None, Some _ =>
              let! newlen := logdb_buffer_length buf in
              let! newdata := alloc ([] : list byte) in
              match newdata with
              | None => Ret None
              | Some _ =>
                  let! ok := data_copy (buffer_data_loop fuel') fuel newdata newlen buf in
                  if negb ok then Ret None else
                  let! b := load logdb_buffer_t buf in
                  do! match buf_disposer b with
                      | Some d => dispose d (buf_data b)
                      | None => Ret tt
                      end in
                  do! upd buf (set_buf_data newdata) in
                  do! upd buf (set_buf_len newlen) in
                  do! upd buf (set_buf_next None) in
                  do! upd buf (set_buf_disposer (Some DisposeFree)) in
                  let! b := load logdb_buffer_t buf in
                  Ret (buf_data b)
              end
          end
      end
  end.

Definition logdb_buffer_data (buffer : ptr) : prog ptr :=
  let! fuel := heap_size in
  buffer_data_loop fuel buffer.

Definition logdb_buffer_retain (buffer : ptr) : prog unit :=
  upd buffer (fun b => set_buf_refcnt (s32 (buf_refcnt b + 1)) b).

Definition logdb_buffer_copy (buf : ptr) : prog ptr :=
  let! b := load logdb_buffer_t buf in
  let! result := logdb_buffer_new_direct (buf_data b) (buf_len b) None in
  match result with
  | None => Ret None
  | Some _ =>
      do! logdb_buffer_retain buf in
      do! upd result (set_buf_orig buf) in
      Ret result
  end.

(** The walk of [logdb_buffer_append] to the last buffer of the list;
    [None] when it meets [buffer2]. *)
Fixpoint append_last (fuel : nat) (buf buffer2 : ptr) : prog (option ptr) :=
  match fuel with
  | O => no_fuel
  | S fuel' =>
      let! b := load logdb_buffer_t buf in
      match buf_next b with
      | None => Ret (Some buf)
      | Some _ =>
          if decide (buf_next b = buffer2) then Ret None
          else append_last fuel' (buf_next b) buffer2
      end
  end.

Definition logdb_buffer_append (buffer1 buffer2 : ptr) : prog ptr :=
  if DEBUG && (bool_decide (buffer2 = None) || bool_decide (buffer1 = buffer2)) then Ret None else
  match buffer1 with
  | None => Ret buffer2
  | Some _ =>
      let! len1 := logdb_buffer_length buffer1 in
      let! len2 := logdb_buffer_length buffer2 in
      if 2 ^ 32 - 1 - len1 <? len2 then Ret None else
      let! fuel := heap_size in
      let! last := append_last fuel buffer1 buffer2 in
      match last with
      | None => Ret None
      | Some buf =>
          let! copy := logdb_buffer_copy buffer2 in
          do! upd buf (set_buf_next copy) in
          Ret buffer1
      end
  end.

Fixpoint buffer_free_loop (fuel : nat) (buf : ptr) : prog unit :=
  match buf with
  | None => Ret tt
  | Some _ =>
      match fuel with
      | O => no_fuel
      | S fuel' =>
          let! old := rmw buf (fun b => (set_buf_refcnt (s32 (buf_refcnt b - 1)) b, buf_refcnt b)) in
          if 1 <? old then Ret tt else
          let! b := load logdb_buffer_t buf in
          do! match buf_disposer b with
              | Some d => dispose d (buf_data b)
              | None => Ret tt
              end in
          let! b := load logdb_buffer_t buf in
          do! buffer_free_loop fuel' (buf_orig b) in
          let! b := load logdb_buffer_t buf in
          do! buffer_free_loop fuel' (buf_next b) in
          free buf
      end
  end.

Definition logdb_buffer_free (buffer : ptr) : prog unit :=
  let! fuel := heap_size in
  buffer_free_loop fuel buffer.

End buffer.
