(* ===== verification/BufferSpec.v ===== *)
(** * What a buffer holds, and the specification of the buffer operations

    [buffer_bytes n h p] reads off the heap the data of the buffer [p], down to
    [n] links; [buffer_is h p bs] says it is [bs].  Links never form a cycle in
    such a buffer, so it is no deeper than the heap has blocks
    ([buffer_bytes_size]) and the walks of Buffer.v have fuel enough. *)

From S2P Require Import Prelude Machine World Posix Layout Buffer.

(** ** The abstraction *)

(** The [n] bytes at [p]: what [load_mem] gives. *)
Definition mem_bytes (h : heap) (p : ptr) (n : Z) : option (list byte) :=
  if n =? 0 then Some [] else
  l ← p; bs ← peek (list byte) h l;
  if decide (0 <= n <= zlen bs) then Some (take (Z.to_nat n) bs) else None.

Fixpoint buffer_bytes (n : nat) (h : heap) (p : ptr) : option (list byte) :=
  match p with
  | None => Some []
  | Some l =>
      match n with
      | O => None
      | S n' =>
          b ← peek logdb_buffer_t h l;
          bs ← match buf_orig b with
               | Some _ => buffer_bytes n' h (buf_orig b)
               | None => mem_bytes h (buf_data b) (buf_len b)
               end;
          rest ← buffer_bytes n' h (buf_next b);
          Some (bs ++ rest)
      end
  end.

Definition buffer_is (h : heap) (p : ptr) (bs : list byte) : Prop :=
  exists n, buffer_bytes n h p = Some bs.

(** ** Depth *)

Lemma buffer_bytes_mono n m h p bs :
  (n <= m)%nat -> buffer_bytes n h p = Some bs -> buffer_bytes m h p = Some bs.
Proof.
  revert m p bs. induction n as [|n IH]; intros m [l|] bs Hle; simpl; [done|by destruct m| |by destruct m].
  destruct m as [|m]; [lia|]. simpl.
  destruct (peek logdb_buffer_t h l) as [b|]; [|done]. simpl.
  destruct (buf_orig b) as [o|] eqn:Eo.
  - intros (d & E1 & (r & E2 & [= <-])%bind_Some)%bind_Some.
    rewrite (IH m _ _ ltac:(lia) E1). simpl. by rewrite (IH m _ _ ltac:(lia) E2).
  - intros (d & E1 & (r & E2 & [= <-])%bind_Some)%bind_Some.
    rewrite E1. simpl. by rewrite (IH m _ _ ltac:(lia) E2).
Qed.

(** A buffer of exact depth [n] has [n] distinct blocks below it, one of each
    depth: so [n] is at most the number of blocks. *)
Definition exact_depth (h : heap) (n : nat) (l : loc) : Prop :=
  is_Some (buffer_bytes n h (Some l)) /\ buffer_bytes (pred n) h (Some l) = None.

Lemma exact_depth_unique h n m l : exact_depth h n l -> exact_depth h m l -> n = m.
Proof.
  intros [[a Ha] Hn] [[b Hb] Hm]. destruct (Nat.lt_trichotomy n m) as [Hlt|[|Hlt]]; [exfalso|done|exfalso].
  - apply (buffer_bytes_mono n (pred m)) in Ha; [|lia]. congruence.
  - apply (buffer_bytes_mono m (pred n)) in Hb; [|lia]. congruence.
Qed.

Lemma exact_depth_child h n l :
  exact_depth h (S (S n)) l -> exists l', exact_depth h (S n) l'.
Proof.
  intros [[bs E] N]. simpl pred in N.
  assert (forall p, is_Some (buffer_bytes (S n) h p) -> buffer_bytes n h p = None ->
            exists l', exact_depth h (S n) l') as Hchild.
  { intros [k|] Hs Hn; [by exists k|by destruct n]. }
  cbn [buffer_bytes] in E, N. destruct (peek logdb_buffer_t h l) as [b|]; [|done].
  cbn [mbind option_bind] in E, N.
  apply bind_Some in E as (d & E1 & (r & E2 & _)%bind_Some).
  destruct (buffer_bytes n h (buf_next b)) as [r'|] eqn:En; [|by eapply Hchild; eauto].
  destruct (buf_orig b) as [o|] eqn:Eo; [|by rewrite E1 in N].
  destruct (buffer_bytes n h (Some o)) as [d'|] eqn:En'; [done|].
  by eapply (Hchild (Some o)); eauto.
Qed.

Lemma exact_depth_list h n l :
  exact_depth h (S n) l ->
  exists ls, length ls = S n /\ NoDup ls /\
    forall k, k ∈ ls -> is_Some (h !! k) /\ exists m, (m <= S n)%nat /\ exact_depth h m k.
Proof.
  assert (forall m k, exact_depth h m k -> is_Some (h !! k)) as Hdom.
  { intros m k [[bs E] _]. destruct m; [done|]. simpl in E.
    destruct (peek logdb_buffer_t h k) eqn:Ep; [|done]. exact (peek_is_Some _ _ _ _ Ep). }
  revert l. induction n as [|n IH]; intros l Hl.
  - exists [l]. split; [done|]. split; [apply NoDup_singleton|].
    intros k ->%list_elem_of_singleton. eauto.
  - destruct (exact_depth_child _ _ _ Hl) as [l' Hl'].
    destruct (IH _ Hl') as (ls & Hlen & Hnd & Hls). exists (l :: ls). split; [simpl; lia|]. split.
    + apply NoDup_cons_2; [|done]. intros Hin. destruct (Hls _ Hin) as (_ & m & Hm & Hd).
      pose proof (exact_depth_unique _ _ _ _ Hl Hd). lia.
    + intros k [->|Hk]%elem_of_cons; [by eauto|]. destruct (Hls _ Hk) as (? & m & ? & ?).
      split; [done|]. exists m. split; [lia|done].
Qed.

Lemma buffer_bytes_size n h p bs :
  buffer_bytes n h p = Some bs -> buffer_bytes (size h) h p = Some bs.
Proof.
  destruct p as [l|]; [|by destruct n, (size h)]. intros E.
  assert (exists m, (m <= n)%nat /\ exact_depth h (S m) l \/ buffer_bytes m h (Some l) = Some bs /\ (m <= size h)%nat)
    as [m [[Hle Hm]|[Hm Hle]]]; [| |by eapply buffer_bytes_mono].
  - induction n as [|n IH]; [done|].
    destruct (buffer_bytes n h (Some l)) as [bs'|] eqn:En.
    + apply (buffer_bytes_mono n (S n)) in En as En'; [|lia]. rewrite E in En'. injection En' as <-.
      destruct (IH eq_refl) as [m Hm]. exists m. destruct Hm as [[? ?]|?]; [left; split; [lia|done]|by right].
    + exists n. left. split; [lia|]. split; [by eexists|done].
  - destruct (exact_depth_list _ _ _ Hm) as (ls & Hlen & Hnd & Hls).
    assert (S m <= size h)%nat.
    { rewrite <- Hlen, <- size_dom. rewrite <- (size_list_to_set (C:=gset loc) ls Hnd).
      apply subseteq_size. intros k Hk. apply elem_of_list_to_set in Hk.
      apply elem_of_dom. by apply Hls. }
    destruct Hm as [[bs' E'] _].
    assert (bs' = bs) as ->.
    { apply (buffer_bytes_mono _ (max n (S m))) in E'; [|lia].
      apply (buffer_bytes_mono _ (max n (S m))) in E; [|lia]. congruence. }
    by eapply buffer_bytes_mono.
Qed.

Lemma buffer_is_size h p bs : buffer_is h p bs <-> buffer_bytes (size h) h p = Some bs.
Proof. split; [intros [n E]; by eapply buffer_bytes_size|by eexists]. Qed.

Lemma buffer_is_unique h p a b : buffer_is h p a -> buffer_is h p b -> a = b.
Proof. rewrite !buffer_is_size. congruence. Qed.

(** ** Framing *)

(** Every struct and byte block of [h] that buffers are made of is in [h'],
    up to reference counts and owners of data. *)
Definition same_node (b b' : logdb_buffer_t) : Prop :=
  buf_data b' = buf_data b /\ buf_len b' = buf_len b /\
  buf_orig b' = buf_orig b /\ buf_next b' = buf_next b.

Record heap_le (h h' : heap) : Prop := {
  hl_nodes l b : peek logdb_buffer_t h l = Some b ->
    exists b', peek logdb_buffer_t h' l = Some b' /\ same_node b b';
  hl_bytes l bs : peek (list byte) h l = Some bs -> peek (list byte) h' l = Some bs
}.

#[export] Instance heap_le_preorder : PreOrder heap_le.
Proof.
  split.
  - intros h. split; [|done]. intros l b E. by exists b.
  - intros h1 h2 h3 [N1 B1] [N2 B2]. split; [|by eauto].
    intros l b E. apply N1 in E as (b' & E & S1). apply N2 in E as (b'' & E & S2).
    exists b''. split; [done|]. unfold same_node in *. intuition congruence.
Qed.

Lemma heap_le_subseteq h h' : h ⊆ h' -> heap_le h h'.
Proof.
  intros Hs. assert (forall T (HT : Cell T) l (x : T), peek T h l = Some x -> peek T h' l = Some x) as Hp.
  { intros T HT l x E. unfold peek in *. destruct (h !! l) as [c|] eqn:El; [|done].
    by rewrite (lookup_weaken _ _ _ _ El Hs). }
  split; [|by apply Hp]. intros l b E. exists b. split; [by apply Hp|done].
Qed.

Lemma heap_le_delete h l : heap_le (delete l h) h.
Proof. apply heap_le_subseteq, delete_subseteq. Qed.

Lemma heap_le_alloc h l c : h !! l = None -> heap_le h (<[l := c]> h).
Proof. intros E. by apply heap_le_subseteq, insert_subseteq. Qed.

(** Replacing a node by one with the same links and data. *)
Lemma heap_le_node h l b b' :
  peek logdb_buffer_t h l = Some b -> same_node b b' -> heap_le h (<[l := CBuffer b']> h).
Proof.
  intros E Hs. split.
  - intros k c Ek. destruct (decide (l = k)) as [->|Hne].
    + assert (c = b) as -> by congruence. exists b'.
      split; [exact (peek_insert logdb_buffer_t _ _ _)|done].
    + exists c. by rewrite peek_insert_ne.
  - intros k bs Ek. destruct (decide (l = k)) as [->|Hne]; [exfalso|by rewrite peek_insert_ne].
    unfold peek in *. destruct (h !! k) as [[]|]; done.
Qed.

(** A cell that holds neither a buffer nor bytes may change. *)
Definition is_data (c : cell) : bool :=
  match c with CBytes _ | CBuffer _ => true | _ => false end.

Lemma heap_le_other h l c c' :
  h !! l = Some c -> is_data c = false -> heap_le h (<[l := c']> h).
Proof.
  intros E Hd. split.
  - intros k b Ek. exists b. split; [|done]. rewrite peek_insert_ne; [done|]. intros <-.
    unfold peek in Ek. rewrite E in Ek. by destruct c.
  - intros k bs Ek. rewrite peek_insert_ne; [done|]. intros <-.
    unfold peek in Ek. rewrite E in Ek. by destruct c.
Qed.

Lemma heap_le_delete_mono h h' l : heap_le h h' -> heap_le (delete l h) (delete l h').
Proof.
  intros [N B]. assert (forall T (HT : Cell T) g k (x : T), peek T (delete l g) k = Some x ->
    l <> k /\ peek T g k = Some x) as Hp.
  { intros T HT g k x E. unfold peek in *. destruct (decide (l = k)) as [->|Hne].
    - by rewrite lookup_delete_eq in E.
    - by rewrite lookup_delete_ne in E. }
  split.
  - intros k b [Hne E]%Hp. apply N in E as (b' & E & ?). exists b'. by rewrite peek_delete_ne.
  - intros k bs [Hne E]%Hp. rewrite peek_delete_ne by done. by apply B.
Qed.

Lemma mem_bytes_le h h' p n bs : heap_le h h' -> mem_bytes h p n = Some bs -> mem_bytes h' p n = Some bs.
Proof.
  intros [_ B]. unfold mem_bytes. destruct (n =? 0); [done|]. destruct p as [l|]; [|done]. simpl.
  destruct (peek (list byte) h l) as [d|] eqn:E; [|done]. by rewrite (B _ _ E).
Qed.

Lemma buffer_bytes_le n h h' p bs :
  heap_le h h' -> buffer_bytes n h p = Some bs -> buffer_bytes n h' p = Some bs.
Proof.
  intros Hle. revert p bs. induction n as [|n IH]; intros [l|] bs; simpl; try done.
  destruct (peek logdb_buffer_t h l) as [b|] eqn:E; [|done]. simpl.
  apply (hl_nodes _ _ Hle) in E as (b' & -> & Hd & Hl & Ho & Hn). simpl. rewrite Ho, Hn, Hd, Hl.
  intros (d & E1 & (r & E2 & [= <-])%bind_Some)%bind_Some.
  destruct (buf_orig b).
  - rewrite (IH _ _ E1). simpl. by rewrite (IH _ _ E2).
  - rewrite (mem_bytes_le _ _ _ _ _ Hle E1). simpl. by rewrite (IH _ _ E2).
Qed.

Lemma buffer_is_le h h' p bs : heap_le h h' -> buffer_is h p bs -> buffer_is h' p bs.
Proof. intros Hle [n E]. exists n. by eapply buffer_bytes_le. Qed.

#[export] Instance buffer_is_proper : Proper (heap_le ==> eq ==> eq ==> impl) buffer_is.
Proof. intros h h' Hle p ? <- bs ? <- Hb. by eapply buffer_is_le. Qed.

#[export] Hint Resolve heap_le_delete heap_le_alloc heap_le_node heap_le_delete_mono : logdb.

(** ** One node at a time *)

(** What a node adds to the buffer it is in. *)
Definition node_bytes (h : heap) (b : logdb_buffer_t) (bs : list byte) : Prop :=
  match buf_orig b with
  | Some _ => buffer_is h (buf_orig b) bs
  | None => mem_bytes h (buf_data b) (buf_len b) = Some bs
  end.

Lemma node_bytes_le h h' b bs : heap_le h h' -> node_bytes h b bs -> node_bytes h' b bs.
Proof.
  intros Hle. unfold node_bytes. destruct (buf_orig b); [by apply buffer_is_le|by apply mem_bytes_le].
Qed.

Lemma buffer_is_cons h l b bs rest :
  peek logdb_buffer_t h l = Some b -> node_bytes h b bs -> buffer_is h (buf_next b) rest ->
  buffer_is h (Some l) (bs ++ rest).
Proof.
  intros E Hb [n Hn]. unfold node_bytes in Hb. destruct (buf_orig b) as [o|] eqn:Eo.
  - destruct Hb as [m Hm]. exists (S (max m n)). simpl. rewrite E. simpl. rewrite Eo.
    rewrite (buffer_bytes_mono m (max m n) _ _ _ ltac:(lia) Hm). simpl.
    by rewrite (buffer_bytes_mono n (max m n) _ _ _ ltac:(lia) Hn).
  - exists (S n). simpl. rewrite E. simpl. rewrite Eo, Hb. simpl. by rewrite Hn.
Qed.

Lemma buffer_is_inv h l bs :
  buffer_is h (Some l) bs ->
  exists b d r, peek logdb_buffer_t h l = Some b /\ node_bytes h b d /\
    buffer_is h (buf_next b) r /\ bs = d ++ r.
Proof.
  intros [[|n] E]; [done|]. simpl in E. destruct (peek logdb_buffer_t h l) as [b|]; [|done]. simpl in E.
  apply bind_Some in E as (d & E1 & (r & E2 & [= <-])%bind_Some).
  exists b, d, r. split_and!; try done; [|by exists n]. unfold node_bytes.
  destruct (buf_orig b); [by exists n|done].
Qed.

Lemma buffer_is_nil h bs : buffer_is h None bs <-> bs = [].
Proof. split; [by intros [[] [= <-]]|intros ->; by exists O]. Qed.

Lemma mem_bytes_all h p bs : peek (list byte) h p = Some bs -> mem_bytes h (Some p) (zlen bs) = Some bs.
Proof.
  intros E. unfold mem_bytes. destruct (Z.eqb_spec (zlen bs) 0) as [Hz|].
  - by destruct bs.
  - simpl. rewrite E. simpl. rewrite decide_True by lia. by rewrite take_ge by lia.
Qed.

(** A buffer of one node with its own data. *)
Lemma buffer_is_own h l p bs d r :
  peek logdb_buffer_t h l = Some (mk_buffer (Some p) (zlen bs) d None None r) ->
  peek (list byte) h p = Some bs -> buffer_is h (Some l) bs.
Proof.
  intros E Ep. rewrite <- (app_nil_r bs). eapply buffer_is_cons; [done| |by apply buffer_is_nil].
  by apply mem_bytes_all.
Qed.

(** ** Length *)

Lemma mem_bytes_length h p n bs : mem_bytes h p n = Some bs -> zlen bs = n.
Proof.
  unfold mem_bytes. destruct (Z.eqb_spec n 0) as [->|]; [by intros [= <-]|].
  intros (l & _ & (d & _ & E)%bind_Some)%bind_Some. case_decide; [|done].
  injection E as <-. rewrite length_take. lia.
Qed.

Lemma load_mem_run th w p n bs :
  mem_bytes (w_heap w) p n = Some bs -> run th (load_mem p n) w = Done bs w.
Proof.
  rewrite run_load_mem. unfold mem_bytes. destruct (n =? 0); [by intros [= <-]|].
  intros (l & -> & (d & E & Hd)%bind_Some)%bind_Some. case_decide; [|done]. injection Hd as <-.
  unfold do_load_bytes, with_cell. rewrite E. destruct (Z.leb_spec (0 + n) (zlen d)); [|lia]. done.
Qed.

Lemma length_loop_run th w n p bs len :
  buffer_bytes n (w_heap w) p = Some bs -> 0 <= len < 2 ^ 32 ->
  run th (buffer_length_loop n p len) w = Done (u32 (len + zlen bs)) w.
Proof.
  revert p bs len. induction n as [|n IH]; intros [l|] bs len; cbn [buffer_bytes buffer_length_loop];
    [done|intros [= <-] ?; simpl; by rewrite Z.add_0_r, u32_small by lia| |
     intros [= <-] ?; simpl; by rewrite Z.add_0_r, u32_small by lia].
  destruct (peek logdb_buffer_t (w_heap w) l) as [b|] eqn:E; [|done]. cbn [mbind option_bind].
  intros (d & E1 & (r & E2 & [= <-])%bind_Some)%bind_Some Hlen.
  run_step. rewrite (do_load_peek _ _ _ _ E). rewrite run_bind.
  assert (run th (match buf_orig b with Some _ => buffer_length_loop n (buf_orig b) 0 | None => Ret (buf_len b) end) w
    = Done (match buf_orig b with Some _ => u32 (zlen d) | None => zlen d end) w) as ->.
  { destruct (buf_orig b); [rewrite (IH _ _ 0 E1) by lia; done|].
    rewrite (mem_bytes_length _ _ _ _ E1). done. }
  rewrite (IH _ _ _ E2) by (apply u32_range). rewrite length_app, Nat2Z.inj_add.
  f_equal. rewrite u32_add_l. destruct (buf_orig b); [|f_equal; lia].
  rewrite <- Z.add_assoc, (Z.add_comm _ (zlen r)), Z.add_assoc, u32_add_r. f_equal. lia.
Qed.

Lemma buffer_length_run `{Build} th w p bs :
  buffer_is (w_heap w) p bs ->
  run th (logdb_buffer_length p) w = Done (u32 (zlen bs)) w.
Proof.
  intros E%buffer_is_size. unfold logdb_buffer_length. run_step.
  apply (buffer_bytes_mono _ (S (size (w_heap w)))) in E; [|lia].
  by rewrite (length_loop_run _ _ _ _ _ 0 E) by lia.
Qed.

(** ** Appending *)

(** The list from [l] on ends at the node [t], holds [bs], and uses [t]
    nowhere else: everything else can be read in the heap without [t]. *)
Inductive spine (h : heap) (t : loc) : loc -> list byte -> Prop :=
| spine_last b bs :
    peek logdb_buffer_t h t = Some b -> buf_next b = None ->
    node_bytes (delete t h) b bs -> spine h t t bs
| spine_cons l b bs l' bs' :
    l <> t -> peek logdb_buffer_t h l = Some b -> buf_next b = Some l' ->
    node_bytes (delete t h) b bs -> spine h t l' bs' -> spine h t l (bs ++ bs').

Lemma spine_is h t l bs : spine h t l bs -> buffer_is h (Some l) bs.
Proof.
  induction 1 as [b bs E En Hb|l b bs l' bs' _ E En Hb _ IH].
  - rewrite <- (app_nil_r bs). eapply buffer_is_cons; [done|by eapply node_bytes_le; eauto with logdb|].
    by rewrite En, buffer_is_nil.
  - eapply buffer_is_cons; [done|by eapply node_bytes_le; eauto with logdb|]. by rewrite En.
Qed.

Lemma spine_tail h t l bs : spine h t l bs -> exists b, peek logdb_buffer_t h t = Some b /\ buf_next b = None.
Proof. induction 1; eauto. Qed.

(** A buffer that does without [t] is not on the list. *)
Lemma spine_needs h t l bs x : spine h t l bs -> ~ buffer_is (delete t h) (Some l) x.
Proof.
  intros Hs. revert x.
  induction Hs as [b bs E En Hb|l b bs l' bs' Hne E En Hb Hs IH]; intros x
    (b' & d & r & E' & _ & Hr & _)%buffer_is_inv.
  - unfold peek in E'. by rewrite lookup_delete_eq in E'.
  - rewrite peek_delete_ne in E' by done. assert (b' = b) as -> by congruence.
    rewrite En in Hr. by eapply IH.
Qed.

Lemma append_last_run th w n t l bs l2 bs2 x :
  spine (w_heap w) t l bs -> buffer_is (delete t (w_heap w)) (Some l2) bs2 ->
  buffer_bytes n (w_heap w) (Some l) = Some x ->
  run th (append_last n (Some l) (Some l2)) w = Done (Some (Some t)) w.
Proof.
  intros Hs Hl2. revert n x. induction Hs as [b bs E En Hb|l b bs l' bs' Hne E En Hb Hs IH];
    intros [|n] x Hn; try done; cbn [append_last]; run_step; rewrite (do_load_peek _ _ _ _ E), En; [done|].
  rewrite decide_False by (intros [= ->]; by eapply spine_needs).
  simpl in Hn. rewrite E in Hn. simpl in Hn.
  apply bind_Some in Hn as (d & _ & (r & E2 & _)%bind_Some). rewrite En in E2. by eapply IH.
Qed.

(** Linking a new last node [c] behind [t]. *)
Lemma spine_snoc h h' t c l bs bt bt' bc bs2 :
  spine h t l bs -> h !! c = None -> heap_le (delete t h) (delete c h') ->
  peek logdb_buffer_t h t = Some bt -> peek logdb_buffer_t h' t = Some bt' ->
  same_node (set_buf_next (Some c) bt) bt' ->
  peek logdb_buffer_t h' c = Some bc -> buf_next bc = None ->
  node_bytes (delete c h') bc bs2 -> spine h' c l (bs ++ bs2).
Proof.
  intros Hs Hc Hle Et Et' (Sd & Sl & So & Sn) Ec Hcn Hcb. simpl in *.
  assert (spine h' c c bs2) as Hcs by (by eapply spine_last).
  assert (forall k b, peek logdb_buffer_t h k = Some b -> k <> c) as Hnc.
  { intros k b E ->. unfold peek in E. by rewrite Hc in E. }
  induction Hs as [b bs E En Hb|l b bs l' bs' Hne E En Hb Hs IH].
  - assert (b = bt) as -> by congruence. apply (spine_cons h' c t bt' bs c bs2); [by eapply Hnc|done|done| |done].
    apply (node_bytes_le _ _ _ _ Hle) in Hb. unfold node_bytes in *. by rewrite So, Sd, Sl.
  - rewrite <- app_assoc. assert (l <> c) by by eapply Hnc.
    assert (peek logdb_buffer_t (delete t h) l = Some b) as E' by by rewrite peek_delete_ne.
    apply (hl_nodes _ _ Hle) in E' as (b' & E' & Hd' & Hl' & Ho' & Hn').
    rewrite peek_delete_ne in E' by done.
    eapply (spine_cons h' c l b' bs l'); [done|done|by rewrite Hn'| |done].
    apply (node_bytes_le _ _ _ _ Hle) in Hb. unfold node_bytes in *. by rewrite Ho', Hd', Hl'.
Qed.

(** The heap after [logdb_buffer_append]: the copy [c] of [l2], one more
    reference to [l2], and the link from [t]. *)
Definition shallow_copy (l2 : loc) (b2 : logdb_buffer_t) : logdb_buffer_t :=
  mk_buffer (buf_data b2) (buf_len b2) None (Some l2) None 1.
Definition retained (b : logdb_buffer_t) : logdb_buffer_t :=
  set_buf_refcnt (s32 (buf_refcnt b + 1)) b.
Definition appended_heap (t : loc) (bt : logdb_buffer_t) (c l2 : loc) (b2 : logdb_buffer_t) (h : heap) : heap :=
  <[t := CBuffer (set_buf_next (Some c) bt)]>
    (<[c := CBuffer (shallow_copy l2 b2)]> (<[l2 := CBuffer (retained b2)]> h)).

(** A debug build refuses a node without data. *)
Definition copyable `{Build} (b : logdb_buffer_t) : Prop := DEBUG = false \/ buf_data b <> None.

Lemma buffer_copy_run `{Build} th w l2 b2 :
  quiet w -> heap_fresh w -> peek logdb_buffer_t (w_heap w) l2 = Some b2 -> copyable b2 ->
  run th (logdb_buffer_copy (Some l2)) w = Done (Some (w_next w))
    (set_next (w_next w + 1) (set_heap (<[w_next w := CBuffer (shallow_copy l2 b2)]>
      (<[l2 := CBuffer (retained b2)]> (w_heap w))) w)).
Proof.
  intros Hq Hf E Hc. assert (w_next w <> l2) as Hne.
  { apply heap_fresh_ne; [done|]. exact (peek_is_Some _ _ _ _ E). }
  unfold logdb_buffer_copy, logdb_buffer_new_direct, logdb_buffer_retain. run_step.
  rewrite (do_load_peek _ _ _ _ E).
  assert (DEBUG && bool_decide (buf_data b2 = None) = false) as ->.
  { destruct Hc as [-> | Hc]; [done|]. rewrite bool_decide_eq_false_2 by done. apply andb_false_r. }
  run_step. rewrite do_alloc_quiet by done. run_next.
  rewrite (do_rmw_peek _ b2) by (rewrite <- E; by apply peek_insert_ne). run_next.
  erewrite (do_rmw_peek (T:=logdb_buffer_t)).
  2: { cbn [w_heap set_heap w1]. rewrite peek_insert_ne by done. apply (peek_insert logdb_buffer_t). }
  run_next. f_equal. unname_worlds. cbn [w_heap set_heap set_next fst snd w_next].
  unfold set_next, set_heap. cbn [w_os w_tls w_next_key w_disposed w_oracle]. f_equal.
  rewrite (insert_insert_ne _ l2) by done. by rewrite insert_insert_eq.
Qed.

(** Up to the copy of the second buffer. *)
Lemma append_enter `{Build} th w t l bs l2 bs2 :
  spine (w_heap w) t l bs -> buffer_is (delete t (w_heap w)) (Some l2) bs2 -> zlen bs + zlen bs2 < 2 ^ 32 ->
  run th (logdb_buffer_append (Some l) (Some l2)) w =
    run th (let! copy := logdb_buffer_copy (Some l2) in
            do! upd (Some t) (set_buf_next copy) in Ret (Some l)) w.
Proof.
  intros Hs Hb2 Hlen. unfold logdb_buffer_append. assert (l <> l2) as Hne by (intros ->; by eapply spine_needs).
  rewrite !bool_decide_eq_false_2 by congruence. cbn [orb]. rewrite andb_false_r.
  rewrite run_bind, (buffer_length_run _ _ _ _ (spine_is _ _ _ _ Hs)).
  assert (buffer_is (w_heap w) (Some l2) bs2) as Hb2' by (eapply buffer_is_le; [apply heap_le_delete|done]).
  rewrite run_bind, (buffer_length_run _ _ _ _ Hb2'). rewrite !u32_small by lia.
  destruct (Z.ltb_spec (2 ^ 32 - 1 - zlen bs) (zlen bs2)) as [|_]; [lia|]. rewrite run_bind, run_heap_size.
  pose proof (spine_is _ _ _ _ Hs) as Hl%buffer_is_size.
  apply (buffer_bytes_mono _ (S (size (w_heap w)))) in Hl; [|lia].
  by rewrite run_bind, (append_last_run _ _ _ _ _ _ _ _ _ Hs Hb2 Hl).
Qed.

Lemma append_run `{Build} th w t l bs bt l2 b2 bs2 :
  quiet w -> heap_fresh w -> spine (w_heap w) t l bs ->
  peek logdb_buffer_t (w_heap w) t = Some bt -> peek logdb_buffer_t (w_heap w) l2 = Some b2 ->
  copyable b2 -> buffer_is (delete t (w_heap w)) (Some l2) bs2 ->
  zlen bs + zlen bs2 < 2 ^ 32 ->
  run th (logdb_buffer_append (Some l) (Some l2)) w = Done (Some l)
    (set_next (w_next w + 1) (set_heap (appended_heap t bt (w_next w) l2 b2 (w_heap w)) w)).
Proof.
  intros Hq Hf Hs Et E2 Hc Hb2 Hlen. rewrite (append_enter th w t l bs l2 bs2) by done.
  assert (t <> l2) as Hne'.
  { intros ->. apply buffer_is_inv in Hb2 as (? & ? & ? & E & _). unfold peek in E.
    by rewrite lookup_delete_eq in E. }
  run_step. rewrite (buffer_copy_run _ _ _ _ Hq Hf E2 Hc). run_next.
  assert (w_next w <> t) by (apply heap_fresh_ne; [done|exact (peek_is_Some _ _ _ _ Et)]).
  rewrite (do_rmw_peek _ bt).
  2: { cbn [w_heap set_heap set_next w0]. rewrite !peek_insert_ne by done. done. }
  run_next. done.
Qed.

(** What [logdb_buffer_append] leaves: the longer list, everything else as it was. *)
Lemma appended_spine w t l bs bt l2 b2 bs2 :
  heap_fresh w -> spine (w_heap w) t l bs ->
  peek logdb_buffer_t (w_heap w) t = Some bt -> peek logdb_buffer_t (w_heap w) l2 = Some b2 ->
  buffer_is (delete t (w_heap w)) (Some l2) bs2 ->
  let h' := appended_heap t bt (w_next w) l2 b2 (w_heap w) in
  spine h' (w_next w) l (bs ++ bs2) /\ heap_le (delete t (w_heap w)) (delete (w_next w) h').
Proof.
  intros Hf Hs Et E2 Hb2 h'. set (c := w_next w) in *.
  assert (w_heap w !! c = None) as Hc by (apply Hf; lia).
  assert (forall k (b : logdb_buffer_t), peek logdb_buffer_t (w_heap w) k = Some b -> c <> k) as Hck.
  { intros k b E ->. unfold peek in E. by rewrite Hc in E. }
  pose proof (Hck _ _ Et). pose proof (Hck _ _ E2).
  assert (t <> l2) as Hne.
  { intros ->. apply buffer_is_inv in Hb2 as (? & ? & ? & E & _). unfold peek in E.
    by rewrite lookup_delete_eq in E. }
  assert (heap_le (delete t (w_heap w)) (delete c h')) as Hle.
  { transitivity (<[l2 := CBuffer (retained b2)]> (delete t (w_heap w))).
    { eapply heap_le_node; [by rewrite peek_delete_ne|done]. }
    apply heap_le_subseteq, map_subseteq_spec. intros k x Hk. unfold h', appended_heap.
    rewrite lookup_delete_ne.
    2: { intros <-. rewrite lookup_insert_ne, lookup_delete_ne in Hk by done. congruence. }
    assert (t <> k) by (intros <-; by rewrite lookup_insert_ne, lookup_delete_eq in Hk).
    rewrite lookup_insert_ne by done.
    destruct (decide (l2 = k)) as [<-|].
    - rewrite lookup_insert_ne by done. rewrite lookup_insert_eq in *. done.
    - rewrite lookup_insert_ne, lookup_delete_ne in Hk by done.
      rewrite !lookup_insert_ne; [done|done|]. intros <-. congruence. }
  split; [|done].
  eapply (spine_snoc (w_heap w) h' t c l bs bt (set_buf_next (Some c) bt) (shallow_copy l2 b2) bs2);
    [done|done|done|done| | | |done|].
  - exact (peek_insert logdb_buffer_t _ _ _).
  - done.
  - unfold h', appended_heap. rewrite peek_insert_ne by done. exact (peek_insert logdb_buffer_t _ _ _).
  - unfold node_bytes. simpl. by eapply buffer_is_le.
Qed.

(** ** Freeing *)

(** A node of a list that nothing else refers to: with data of its own, and
    the block to free for it if any, or a copy of another buffer. *)
Inductive link := Own (l : loc) (d : ptr) | Copy (l o : loc).

Definition link_node (k : link) : loc := match k with Own l _ | Copy l _ => l end.
Definition link_block (k : link) : ptr := match k with Own _ d => d | Copy _ _ => None end.
Definition link_orig (k : link) : ptr := match k with Own _ _ => None | Copy _ o => Some o end.

Definition link_disposer (k : link) : option dispose_func :=
  match link_block k with Some _ => Some DisposeFree | None => None end.

(** The list at [p] consists of these nodes, each referred to once. *)
Fixpoint links_ok (h : heap) (ks : list link) (p : ptr) : Prop :=
  match ks with
  | [] => p = None
  | k :: ks' =>
      p = Some (link_node k) /\
      exists b, peek logdb_buffer_t h (link_node k) = Some b /\ buf_refcnt b = 1 /\
        buf_disposer b = link_disposer k /\ buf_orig b = link_orig k /\
        (forall d, link_block k = Some d -> buf_data b = Some d /\ is_Some (peek (list byte) h d)) /\
        links_ok h ks' (buf_next b)
  end.

(** The blocks that go when the list is freed. *)
Definition link_owned (k : link) : list loc :=
  link_node k :: (match link_block k with Some d => [d] | None => [] end).
Definition owned (ks : list link) : list loc := ks ≫= link_owned.
Definition copies (ks : list link) (o : loc) : nat :=
  length (filter (fun k => link_orig k = Some o) ks).

(** Every original has more references than the list's copies. *)
Definition origs_ok (h : heap) (ks : list link) : Prop :=
  forall o, (0 < copies ks o)%nat ->
    (o ∉ owned ks) /\ exists b, peek logdb_buffer_t h o = Some b /\ Z.of_nat (copies ks o) < buf_refcnt b < 2 ^ 31.

(** The heap after the list was freed. *)
Definition released (ks : list link) (h : heap) (x : loc) : option cell :=
  if decide (x ∈ owned ks) then None else
  match h !! x with
  | Some (CBuffer b) => Some (CBuffer (set_buf_refcnt (buf_refcnt b - Z.of_nat (copies ks x)) b))
  | c => c
  end.

Lemma copies_cons k ks o :
  copies (k :: ks) o = ((if decide (link_orig k = Some o) then 1 else 0) + copies ks o)%nat.
Proof. unfold copies. rewrite filter_cons. by case_decide. Qed.

Lemma peek_cell T `{Cell T} h l t : peek T h l = Some t -> exists c, h !! l = Some c /\ of_cell c = Some t.
Proof. unfold peek. destruct (h !! l) as [c|]; [eauto|done]. Qed.

Lemma peek_buffer_cell h l b : peek logdb_buffer_t h l = Some b <-> h !! l = Some (CBuffer b).
Proof.
  unfold peek. split; [|by intros ->]. destruct (h !! l) as [[]|]; try done. by intros [= ->].
Qed.

Lemma links_ok_frame h h' ks p :
  (forall x, x ∈ owned ks -> h' !! x = h !! x) -> links_ok h ks p -> links_ok h' ks p.
Proof.
  revert p. induction ks as [|k ks IH]; intros p Heq; [done|].
  intros [-> (b & E & Hr & Hd & Ho & Hb & Hk)]. split; [done|]. exists b. split_and!; try done.
  - unfold peek. rewrite Heq; [done|]. unfold owned. simpl. left.
  - intros d Hkd. destruct (Hb d Hkd). split; [done|]. unfold peek. rewrite Heq; [done|].
    unfold owned. simpl. right. rewrite Hkd. left.
  - apply IH; [|done]. intros x Hx. apply Heq. unfold owned. simpl. right.
    apply elem_of_app. by right.
Qed.

Lemma free_shared_run th w n l b :
  peek logdb_buffer_t (w_heap w) l = Some b -> 1 < buf_refcnt b < 2 ^ 31 ->
  run th (buffer_free_loop (S n) (Some l)) w =
    Done tt (set_heap (<[l := CBuffer (set_buf_refcnt (buf_refcnt b - 1) b)]> (w_heap w)) w).
Proof.
  intros E Hr. cbn [buffer_free_loop]. run_step. rewrite (do_rmw_peek _ b) by done. cbn [fst snd].
  rewrite s32_small by lia. rewrite (proj2 (Z.ltb_lt _ _)) by lia. done.
Qed.

(** The first node, up to the call for the rest of the list. *)
Lemma free_head_run th w n k b :
  peek logdb_buffer_t (w_heap w) (link_node k) = Some b -> buf_refcnt b = 1 ->
  buf_disposer b = link_disposer k -> buf_orig b = link_orig k ->
  (forall d, link_block k = Some d ->
     buf_data b = Some d /\ is_Some (w_heap w !! d) /\ d <> link_node k) ->
  (forall o, link_orig k = Some o -> o <> link_node k /\
     exists bo, peek logdb_buffer_t (w_heap w) o = Some bo /\ 1 < buf_refcnt bo < 2 ^ 31) ->
  exists h',
    run th (buffer_free_loop (S (S n)) (Some (link_node k))) w =
      run th (do! buffer_free_loop (S n) (buf_next b) in free (Some (link_node k))) (set_heap h' w) /\
    is_Some (h' !! link_node k) /\
    forall x, x <> link_node k ->
      h' !! x = if decide (link_block k = Some x) then None else
                if decide (link_orig k = Some x)
                then (fun c => match c with
                               | CBuffer b => CBuffer (set_buf_refcnt (buf_refcnt b - 1) b)
                               | c => c end) <$> w_heap w !! x
                else w_heap w !! x.
Proof.
  intros E Hr Hd Ho Hb Hor. remember (S n) as m eqn:Em. cbn [buffer_free_loop]. run_step.
  rewrite (do_rmw_peek _ b) by done. cbn [fst snd]. rewrite Hr. cbn iota.
  set (b0 := set_buf_refcnt (s32 (1 - 1)) b). set (h1 := <[link_node k := to_cell b0]> (w_heap w)).
  change (1 <? 1) with false. cbn iota. run_step.
  assert (peek logdb_buffer_t h1 (link_node k) = Some b0) as E1 by apply (peek_insert logdb_buffer_t).
  rewrite (do_load_peek _ _ b0) by done. run_step.
  change (buf_disposer b0) with (buf_disposer b). rewrite Hd. unfold link_disposer.
  destruct k as [l [d|]|l o]; cbn [link_node link_block link_orig] in *; rewrite ?run_step.
  - destruct (Hb d eq_refl) as (Hdata & Hds & Hne). run_step.
    change (buf_data b0) with (buf_data b). rewrite Hdata. cbn [do_dispose].
    rewrite do_free_run by (cbn [w_heap set_heap]; unfold h1; by rewrite lookup_insert_ne). run_step.
    assert (peek logdb_buffer_t (delete d h1) l = Some b0) as E2 by by rewrite peek_delete_ne.
    rewrite (do_load_peek _ _ b0) by done. change (buf_orig b0) with (buf_orig b). rewrite Ho.
    rewrite Em. cbn [buffer_free_loop]. run_step. rewrite (do_load_peek _ _ b0) by done.
    exists (delete d h1). split; [by run_step|].
    split; [by rewrite lookup_delete_ne; [unfold h1; rewrite lookup_insert_eq|]|].
    intros x Hx. destruct (decide (Some d = Some x)) as [[= ->]|Hdx]; [apply lookup_delete_eq|].
    rewrite lookup_delete_ne by congruence. unfold h1. by rewrite lookup_insert_ne.
  - run_step. rewrite (do_load_peek _ _ b0) by done. change (buf_orig b0) with (buf_orig b). rewrite Ho.
    rewrite Em. cbn [buffer_free_loop]. run_step. rewrite (do_load_peek _ _ b0) by done.
    exists h1. split; [by run_step|]. split; [unfold h1; by rewrite lookup_insert_eq|].
    intros x Hx. unfold h1. by rewrite lookup_insert_ne.
  - run_step. rewrite (do_load_peek _ _ b0) by done. change (buf_orig b0) with (buf_orig b). rewrite Ho.
    destruct (Hor o eq_refl) as (Hne & bo & Eo & Hro). rewrite Em.
    assert (peek logdb_buffer_t h1 o = Some bo) as Eo1 by (unfold h1; by rewrite peek_insert_ne).
    rewrite run_bind, (free_shared_run _ _ _ _ bo) by done. cbn [w_heap set_heap]. run_step.
    set (h2 := <[o := _]> h1).
    assert (peek logdb_buffer_t h2 l = Some b0) as E2 by (unfold h2; by rewrite peek_insert_ne).
    rewrite (do_load_peek _ _ b0) by done. exists h2. split; [by run_step|].
    split; [unfold h2, h1; rewrite lookup_insert_ne by done; by rewrite lookup_insert_eq|].
    intros x Hx. rewrite decide_False by done. unfold h2, h1.
    destruct (decide (Some o = Some x)) as [[= ->]|Hox].
    + rewrite lookup_insert_eq. apply peek_buffer_cell in Eo. by rewrite Eo.
    + rewrite !lookup_insert_ne by congruence. done.
Qed.

Lemma owned_cons k ks x : x ∈ owned (k :: ks) <-> x = link_node k \/ link_block k = Some x \/ x ∈ owned ks.
Proof.
  unfold owned. cbn [mbind list_bind]. unfold link_owned. rewrite elem_of_app, elem_of_cons.
  destruct (link_block k) as [d|]; rewrite ?list_elem_of_singleton, ?elem_of_nil; [|intuition congruence].
  split; [intros [[->| ->]|?]|intros [->|[[= ->]|?]]]; tauto.
Qed.

Lemma released_cons k ks h h' x :
  (link_node k ∉ owned ks) -> x <> link_node k ->
  (forall d, link_block k = Some d -> d ∉ owned ks) ->
  (forall o, link_orig k = Some o -> link_block k = None) ->
  (forall x, x <> link_node k ->
     h' !! x = if decide (link_block k = Some x) then None else
               if decide (link_orig k = Some x)
               then (fun c => match c with
                              | CBuffer b => CBuffer (set_buf_refcnt (buf_refcnt b - 1) b)
                              | c => c end) <$> h !! x
               else h !! x) ->
  released ks h' x = released (k :: ks) h x.
Proof.
  intros Hk Hx Hd Ho Hh. unfold released.
  destruct (decide (x ∈ owned (k :: ks))) as [Hin|Hin]; rewrite owned_cons in Hin.
  - destruct Hin as [Hin|[Hin|Hin]]; [done| |by rewrite decide_True].
    rewrite decide_False by eauto. by rewrite Hh, decide_True by done.
  - rewrite decide_False by tauto. rewrite Hh by done. rewrite decide_False by tauto.
    rewrite copies_cons. case_decide as Hox; [|done].
    destruct (h !! x) as [[]|]; try done. cbn [fmap option_fmap option_map].
    unfold set_buf_refcnt. cbn [buf_refcnt buf_data buf_len buf_disposer buf_orig buf_next].
    do 2 f_equal. f_equal. lia.
Qed.

(** Freeing a list: its nodes and blocks go, the originals lose the references
    the list had, and nothing else changes. *)
Lemma free_links_run th ks p n w :
  links_ok (w_heap w) ks p -> NoDup (owned ks) -> origs_ok (w_heap w) ks -> (length ks < n)%nat ->
  exists h', run th (buffer_free_loop n p) w = Done tt (set_heap h' w) /\
    forall x, h' !! x = released ks (w_heap w) x.
Proof.
  revert p n w. induction ks as [|k ks IH]; intros p n w Hk Hnd Ho Hn.
  - cbn in Hk. subst p. exists (w_heap w). split; [destruct n; by destruct w|].
    intros x. unfold released. rewrite decide_False by (unfold owned; simpl; apply not_elem_of_nil).
    destruct (w_heap w !! x) as [[]|]; try done. unfold copies. simpl. rewrite Z.sub_0_r.
    by destruct b.
  - destruct Hk as [-> (b & E & Hr & Hd & Hor & Hb & Hks)].
    destruct n as [|[|n]]; [simpl in Hn; lia..|].
    assert ((link_node k ∉ owned ks) /\ forall d, link_block k = Some d ->
      d <> link_node k /\ (d ∉ owned ks)) as [Hnk Hnb].
    { change (owned (k :: ks)) with (link_owned k ++ owned ks) in Hnd.
      apply list.NoDup_app in Hnd as (Hnd & Hdis & _). unfold link_owned in *.
      split; [apply Hdis; left|]. intros d Hkd. rewrite Hkd in *. split.
      - apply NoDup_cons_1_1 in Hnd. intros ->. apply Hnd. left.
      - apply Hdis. right. left. }
    assert (forall o, link_orig k = Some o -> link_block k = None) as Hob by by destruct k.
    assert (forall o, (0 < copies ks o)%nat -> (0 < copies (k :: ks) o)%nat) as Hmore
      by (intros o; rewrite copies_cons; lia).
    destruct (free_head_run th w n k b) as (h' & -> & Hself & Hh'); [done..| | |].
    { intros d Hkd. destruct (Hb d Hkd) as [? [y Ey]], (Hnb d Hkd).
      split_and!; [done| |done]. exact (peek_is_Some _ _ _ _ Ey). }
    { intros o Hko. destruct (Ho o) as [Hno (bo & Eo & Hro)]; [rewrite copies_cons, Hko, decide_True by done; lia|].
      split; [intros ->; apply Hno; rewrite owned_cons; by left|]. exists bo. split; [done|].
      rewrite copies_cons, decide_True in Hro by done. lia. }
    destruct (IH (buf_next b) (S n) (set_heap h' w)) as (h'' & E'' & Hh''); cbn [w_heap set_heap].
    { eapply links_ok_frame; [|exact Hks]. intros x Hx. rewrite Hh' by (intros ->; done).
      rewrite decide_False by (intros Hkd; by apply (Hnb x Hkd)).
      destruct (decide (link_orig k = Some x)) as [Hko|]; [|done]. exfalso.
      destruct (Ho x) as [Hno _]; [rewrite copies_cons, decide_True by done; lia|].
      apply Hno. rewrite owned_cons. tauto. }
    { change (owned (k :: ks)) with (link_owned k ++ owned ks) in Hnd.
      by apply list.NoDup_app in Hnd as (_ & _ & Hnd). }
    { intros o Hc. destruct (Ho o (Hmore o Hc)) as [Hno (bo & Eo & Hro)].
      rewrite owned_cons in Hno. split; [tauto|]. rewrite copies_cons in Hro.
      apply peek_buffer_cell in Eo. setoid_rewrite peek_buffer_cell.
      rewrite Hh' by tauto. rewrite decide_False, Eo by tauto.
      destruct (decide (link_orig k = Some o)); eexists; (split; [done|]); simpl; lia. }
    { simpl in Hn. lia. }
    run_step. rewrite E''. run_step. cbn [w_heap set_heap].
    assert (is_Some (h'' !! link_node k)) as Hl.
    { rewrite Hh''. unfold released. cbn [w_heap set_heap]. rewrite decide_False by done.
      destruct Hself as [c ->]. destruct c; eauto. }
    rewrite do_free_run by done. eexists. split; [done|]. intros x. cbn [w_heap set_heap].
    destruct (decide (x = link_node k)) as [->|Hx].
    + rewrite lookup_delete_eq. unfold released. by rewrite decide_True by (rewrite owned_cons; by left).
    + rewrite lookup_delete_ne by done. rewrite Hh''. cbn [w_heap set_heap].
      eapply released_cons; [done|done|by intros d Hkd; apply Hnb|done|done].
Qed.

(** Distinct blocks of the heap are no more than its size. *)
Lemma NoDup_heap_size (h : heap) (ls : list loc) :
  NoDup ls -> (forall l, l ∈ ls -> is_Some (h !! l)) -> (length ls <= size h)%nat.
Proof.
  intros Hnd Hls. rewrite <- size_dom, <- (size_list_to_set (C:=gset loc) ls Hnd).
  apply subseteq_size. intros k Hk. apply elem_of_list_to_set in Hk. apply elem_of_dom. by apply Hls.
Qed.

Lemma links_ok_in h ks p x : links_ok h ks p -> x ∈ owned ks -> is_Some (h !! x).
Proof.
  revert p. induction ks as [|k ks IH]; intros p; [by intros _ ?%not_elem_of_nil|].
  intros [_ (b & E & _ & _ & _ & Hb & Hks)]. rewrite owned_cons. intros [->|[Hd|Hin]]; [| |by eapply IH].
  2: { destruct (Hb _ Hd) as [_ [y Ey]]. exact (peek_is_Some _ _ _ _ Ey). }
  exact (peek_is_Some _ _ _ _ E).
Qed.

Lemma length_owned ks : (length ks <= length (owned ks))%nat.
Proof.
  induction ks as [|k ks IH]; [done|]. unfold owned in *. cbn [mbind list_bind length].
  rewrite length_app. unfold link_owned at 1. simpl. lia.
Qed.

Lemma buffer_free_run `{Build} th ks p w :
  links_ok (w_heap w) ks p -> NoDup (owned ks) -> origs_ok (w_heap w) ks ->
  exists h', run th (logdb_buffer_free p) w = Done tt (set_heap h' w) /\
    forall x, h' !! x = released ks (w_heap w) x.
Proof.
  intros Hk Hnd Ho. unfold logdb_buffer_free. run_step. apply free_links_run; [done..|].
  pose proof (NoDup_heap_size _ _ Hnd (fun x => links_ok_in _ _ _ x Hk)). pose proof (length_owned ks). lia.
Qed.

(** ** Two buffers of a caller *)

#[local] Existing Instance debug_build.

(** The buffers 2 and 4, on the blocks 1 and 3. *)
Definition two_buffers (bs bs2 : list byte) : world :=
  set_next 5 (set_heap
    (<[1 := CBytes bs]> (<[2 := CBuffer (mk_buffer (Some 1) (zlen bs) None None None 1)]>
    (<[3 := CBytes bs2]> (<[4 := CBuffer (mk_buffer (Some 3) (zlen bs2) None None None 1)]> ∅)))) (empty_world [])).

Lemma two_buffers_is bs bs2 :
  buffer_is (w_heap (two_buffers bs bs2)) (Some 2) bs /\ buffer_is (w_heap (two_buffers bs bs2)) (Some 4) bs2.
Proof. split; by eapply buffer_is_own. Qed.

Lemma two_buffers_fresh bs bs2 : heap_fresh (two_buffers bs bs2).
Proof. intros l Hl. simpl in *. by rewrite !lookup_insert_ne by lia. Qed.

(** ** Properties *)

(** C31. Appending the buffer [l2] to the list [l] returns [l], which then holds
    both contents; [l2] still holds its own and has one more reference, no
    file changes, and every buffer that does without the last node of [l]
    keeps its contents. *)
Theorem buffer_append_correct `{Build} th w t l bs l2 b2 bs2 :
  quiet w -> heap_fresh w -> spine (w_heap w) t l bs ->
  peek logdb_buffer_t (w_heap w) l2 = Some b2 -> copyable b2 ->
  buffer_is (delete t (w_heap w)) (Some l2) bs2 -> zlen bs + zlen bs2 < 2 ^ 32 ->
  exists w', run th (logdb_buffer_append (Some l) (Some l2)) w = Done (Some l) w' /\
    buffer_is (w_heap w') (Some l) (bs ++ bs2) /\
    peek logdb_buffer_t (w_heap w') l2 = Some (retained b2) /\
    (forall p x, buffer_is (delete t (w_heap w)) p x -> buffer_is (w_heap w') p x) /\
    w_os w' = w_os w.
Proof.
  intros Hq Hf Hs E2 Hc Hb2 Hlen. destruct (spine_tail _ _ _ _ Hs) as (bt & Et & _).
  destruct (appended_spine w t l bs bt l2 b2 bs2) as [Hs' Hle]; [done..|].
  eexists. split; [by eapply append_run|]. split_and!; [by eapply spine_is| | |done].
  - simpl. assert (t <> l2).
    { intros ->. apply buffer_is_inv in Hb2 as (? & ? & ? & E & _). unfold peek in E.
      by rewrite lookup_delete_eq in E. }
    assert (w_next w <> l2) by (apply heap_fresh_ne; [done|exact (peek_is_Some _ _ _ _ E2)]).
    unfold appended_heap. rewrite !peek_insert_ne by done. exact (peek_insert logdb_buffer_t _ _ _).
  - intros p x Hp. eapply buffer_is_le; [|exact Hp]. etransitivity; [exact Hle|apply heap_le_delete].
Qed.

Lemma buffer_append_correct_witness :
  let w := two_buffers [x61] [x62] in
  exists w', run main_thread (logdb_buffer_append (Some 2) (Some 4)) w = Done (Some 2) w' /\
    buffer_is (w_heap w') (Some 2) ([x61] ++ [x62]) /\
    peek logdb_buffer_t (w_heap w') 4 = Some (retained (mk_buffer (Some 3) 1 None None None 1)) /\
    (forall p x, buffer_is (delete 2 (w_heap w)) p x -> buffer_is (w_heap w') p x) /\
    w_os w' = w_os w.
Proof.
  apply (buffer_append_correct main_thread _ 2 2 [x61] 4 _ [x62]); try done.
  - apply two_buffers_fresh.
  - by eapply spine_last.
  - by right.
  - by eapply buffer_is_own.
Defined.

(** When the contents together are longer than [logdb_size_t] can say,
    appending returns NULL and changes nothing. *)
Lemma buffer_append_overflow `{Build} th w l l2 bs bs2 :
  buffer_is (w_heap w) (Some l) bs -> buffer_is (w_heap w) (Some l2) bs2 ->
  zlen bs < 2 ^ 32 -> zlen bs2 < 2 ^ 32 -> 2 ^ 32 <= zlen bs + zlen bs2 ->
  run th (logdb_buffer_append (Some l) (Some l2)) w = Done None w.
Proof.
  intros H1 H2 ???. unfold logdb_buffer_append. case_match; [done|]. run_step.
  rewrite (buffer_length_run _ _ _ _ H1). run_step. rewrite (buffer_length_run _ _ _ _ H2).
  rewrite !u32_small by lia. by rewrite (proj2 (Z.ltb_lt _ _)) by lia.
Qed.

(** C32. Freeing a list that is referred to once: its nodes and the blocks it
    owns are freed, each buffer it has copies of loses one reference per copy,
    and the rest of the memory is unchanged. *)
Theorem buffer_free_correct `{Build} th ks p w :
  links_ok (w_heap w) ks p -> NoDup (owned ks) -> origs_ok (w_heap w) ks ->
  exists w', run th (logdb_buffer_free p) w = Done tt w' /\
    (forall x, x ∈ owned ks -> w_heap w' !! x = None) /\
    (forall x b, x ∉ owned ks -> peek logdb_buffer_t (w_heap w) x = Some b ->
       peek logdb_buffer_t (w_heap w') x =
         Some (set_buf_refcnt (buf_refcnt b - Z.of_nat (copies ks x)) b)) /\
    (forall x bs, x ∉ owned ks -> peek (list byte) (w_heap w) x = Some bs ->
       peek (list byte) (w_heap w') x = Some bs) /\
    w_disposed w' = w_disposed w.
Proof.
  intros Hk Hnd Ho. destruct (buffer_free_run th ks p w Hk Hnd Ho) as (h' & E & Hh').
  exists (set_heap h' w). split; [done|]. cbn [w_heap set_heap]. split_and!; [| | |done].
  - intros x Hx. rewrite Hh'. unfold released. by rewrite decide_True.
  - intros x b Hx Eb%peek_buffer_cell. apply peek_buffer_cell. rewrite Hh'. unfold released.
    by rewrite decide_False, Eb.
  - intros x bs Hx Eb. unfold peek in *. rewrite Hh'. unfold released. rewrite decide_False by done.
    destruct (w_heap w !! x) as [[]|]; done.
Qed.

(** A list of a node with its own block and a copy of the buffer 4. *)
Definition list_sample : world :=
  let w := two_buffers [x61] [x62] in
  set_next 7 (set_heap
    (<[2 := CBuffer (mk_buffer (Some 1) 1 (Some DisposeFree) None (Some 5) 1)]>
    (<[4 := CBuffer (mk_buffer (Some 3) 1 None None None 2)]>
    (<[5 := CBuffer (mk_buffer (Some 3) 1 None (Some 4) None 1)]> (w_heap w)))) w).

Lemma buffer_free_correct_witness :
  let w := list_sample in let ks := [Own 2 (Some 1); Copy 5 4] in
  exists w', run main_thread (logdb_buffer_free (Some 2)) w = Done tt w' /\
    (forall x, x ∈ owned ks -> w_heap w' !! x = None) /\
    (forall x b, x ∉ owned ks -> peek logdb_buffer_t (w_heap w) x = Some b ->
       peek logdb_buffer_t (w_heap w') x =
         Some (set_buf_refcnt (buf_refcnt b - Z.of_nat (copies ks x)) b)) /\
    (forall x bs, x ∉ owned ks -> peek (list byte) (w_heap w) x = Some bs ->
       peek (list byte) (w_heap w') x = Some bs) /\
    w_disposed w' = w_disposed w.
Proof.
  apply (buffer_free_correct main_thread [Own 2 (Some 1); Copy 5 4] (Some 2) list_sample).
  - split; [done|]. eexists. split_and!; [done..| |].
    + intros d [= <-]. by split; [|eexists].
    + split; [done|]. eexists. by split_and!.
  - change (NoDup [2; 1; 5]). apply (bool_decide_unpack _). vm_compute. exact I.
  - intros o Ho. unfold copies in Ho. simpl in Ho. destruct (decide (4 = o)) as [<-|Hne].
    + split; [|by eexists]. apply (bool_decide_unpack _). vm_compute. exact I.
    + rewrite filter_cons_False, filter_cons_False in Ho by (simpl; congruence). simpl in Ho. lia.
Defined.

