(* ===== verification/BufferData.v ===== *)
(** * Flattening a buffer: [logdb_buffer_data]

    On a list of nodes that own their data, or copy buffers of one node, the
    list and the single block it is replaced by are equivalent: the same bytes,
    in order. *)

From S2P Require Import Prelude Machine World Posix Layout Buffer BufferSpec.

(** A buffer of one node. *)
Definition one_node (h : heap) (o : loc) : Prop :=
  exists b, peek logdb_buffer_t h o = Some b /\ buf_orig b = None /\ buf_next b = None /\ buf_data b <> None.

Lemma one_node_mem h o b d :
  one_node h o -> peek logdb_buffer_t h o = Some b -> buffer_is h (Some o) d -> mem_bytes h (buf_data b) (zlen d) = Some d.
Proof.
  intros (b' & Eb' & Ho & Hn & _) Eb Hd. assert (b' = b) as -> by congruence.
  destruct (buffer_is_inv _ _ _ Hd) as (b' & d' & r & Eb2 & Hb & Hr & ->). assert (b' = b) as -> by congruence.
  rewrite Hn in Hr. apply buffer_is_nil in Hr as ->. rewrite app_nil_r. unfold node_bytes in Hb. rewrite Ho in Hb.
  by rewrite (mem_bytes_length _ _ _ _ Hb).
Qed.

(** A list whose copies are of buffers of one node. *)
Inductive flat_list (h : heap) : ptr -> Prop :=
| flat_nil : flat_list h None
| flat_cons l b :
    peek logdb_buffer_t h l = Some b -> (forall o, buf_orig b = Some o -> one_node h o) ->
    flat_list h (buf_next b) -> flat_list h (Some l).

Section data.
Context `{Build} (th : thread).

(** One node: its own data. *)
Lemma data_one_run n w o :
  one_node (w_heap w) o ->
  exists b, peek logdb_buffer_t (w_heap w) o = Some b /\
    run th (buffer_data_loop (S n) (Some o)) w = Done (buf_data b) w /\ buf_data b <> None.
Proof.
  intros (b & E & Ho & Hn & Hd). exists b. split_and!; [done| |done]. cbn [buffer_data_loop].
  by rewrite run_bind, run_load, (do_load_peek _ _ _ _ E), Ho, Hn.
Qed.

(** The copying loop; [a] is the new block. *)
Lemma data_copy_run h0 a m n f cur newlen w bs rest :
  buffer_bytes n h0 cur = Some rest -> flat_list h0 cur -> h0 !! a = None ->
  w_heap w = <[a := CBytes bs]> h0 -> zlen bs + zlen rest = newlen -> newlen < 2 ^ 32 -> (n <= f)%nat ->
  run th (data_copy (buffer_data_loop (S m)) f (Some a) newlen cur) w =
    Done true (set_heap (<[a := CBytes (bs ++ rest)]> h0) w).
Proof.
  revert f cur w bs rest. induction n as [|n IH]; intros f [l|] w bs rest Hb Hfl Ha Hh Hl Hlt Hf; try done.
  1,3: cbn [buffer_bytes] in Hb; injection Hb as <-; rewrite app_nil_r, <- Hh; destruct f; cbn; by destruct w.
  destruct f as [|f]; [lia|]. inversion Hfl as [|l' b Eb Ho Hrest]; subst l'. cbn [buffer_bytes] in Hb. rewrite Eb in Hb.
  cbn [mbind option_bind] in Hb. apply bind_Some in Hb as (d & E1 & (d2 & E2 & [= <-])%bind_Some).
  assert (heap_le h0 (w_heap w)) as Hle by (rewrite Hh; by apply heap_le_alloc).
  assert (forall T (HT : Cell T) x (t : T), peek T h0 x = Some t -> peek T (w_heap w) x = Some t) as Hpk.
  { intros T HT x t E. rewrite Hh, peek_insert_ne; [done|]. intros <-. unfold peek in E. by rewrite Ha in E. }
  rewrite length_app, Nat2Z.inj_add in Hl.
  assert (forall bs', bs' = bs ++ d ->
    run th (data_copy (buffer_data_loop (S m)) f (Some a) newlen (buf_next b)) (set_heap (<[a := CBytes bs']> h0) w) =
      Done true (set_heap (<[a := CBytes (bs ++ d ++ d2)]> h0) w)) as Hgo.
  { intros bs' ->. rewrite (IH f (buf_next b) _ (bs ++ d) d2); [by rewrite <- app_assoc|done..|rewrite length_app; lia|done|lia]. }
  assert (peek (list byte) (w_heap w) a = Some bs) as Ea by (rewrite Hh; exact (peek_insert (list byte) _ _ _)).
  cbn [data_copy]. rewrite run_bind, run_load, (do_load_peek _ _ b) by by apply Hpk.
  assert (run th (store_append (Some a) newlen d) w = Done tt (set_heap (<[a := CBytes (bs ++ d)]> h0) w)) as Hst.
  { rewrite run_store_append. unfold with_cell. rewrite Ea, (proj2 (Z.leb_le _ _)) by lia. by rewrite Hh, insert_insert_eq. }
  destruct (buf_orig b) as [o|] eqn:Eo.
  - assert (one_node (w_heap w) o) as Hone.
    { destruct (Ho o eq_refl) as (bo & Ebo & ?). exists bo. split; [by apply Hpk|done]. }
    destruct (data_one_run m w o Hone) as (bo & Ebo & Erun & Hd).
    rewrite run_bind, (buffer_length_run _ _ _ d) by (eapply buffer_is_le; [exact Hle|by exists n]).
    rewrite run_bind, Erun, u32_small by lia.
    destruct (buf_data bo) as [p|] eqn:Ep; [|done].
    assert (mem_bytes (w_heap w) (Some p) (zlen d) = Some d) as Hmem
      by (rewrite <- Ep; eapply one_node_mem; [done..|eapply buffer_is_le; [exact Hle|by exists n]]).
    rewrite run_bind, (load_mem_run _ _ _ _ _ Hmem), run_bind, Hst.
    rewrite run_bind, run_load, (do_load_peek _ _ b); [by apply Hgo|].
    cbn [w_heap set_heap]. rewrite peek_insert_ne; [done|]. intros <-. unfold peek in Eb. by rewrite Ha in Eb.
  - rewrite run_bind, (load_mem_run _ _ _ _ d) by by eapply mem_bytes_le.
    rewrite run_bind, Hst. by apply Hgo.
Qed.

(** The old data of the first node goes to its disposer. *)
Definition old_disposed (b : logdb_buffer_t) (h : heap) : heap :=
  match buf_disposer b, buf_data b with
  | Some DisposeFree, Some p => delete p h
  | _, _ => h
  end.
Definition old_recorded (b : logdb_buffer_t) (ds : list (Z * ptr)) : list (Z * ptr) :=
  match buf_disposer b with Some (DisposeUser f) => (f, buf_data b) :: ds | _ => ds end.

Definition disposable (h : heap) (b : logdb_buffer_t) : Prop :=
  buf_disposer b = Some DisposeFree -> exists p, buf_data b = Some p /\ is_Some (peek (list byte) h p).

Lemma dispose_old_run w b :
  disposable (w_heap w) b ->
  run th (match buf_disposer b with Some d => dispose d (buf_data b) | None => Ret tt end) w =
    Done tt (set_disposed (old_recorded b (w_disposed w)) (set_heap (old_disposed b (w_heap w)) w)).
Proof.
  intros Hd. unfold disposable, old_recorded, old_disposed in *. destruct (buf_disposer b) as [[|f]|].
  - destruct (Hd eq_refl) as (p & -> & Hp). rewrite run_dispose. cbn [do_dispose].
    rewrite do_free_run; [by destruct w|]. destruct Hp as [t Ht]. exact (peek_is_Some _ _ _ _ Ht).
  - rewrite run_dispose. cbn [do_dispose]. by destruct w.
  - by destruct w.
Qed.

Lemma store_node_run {A} w l g (q : prog A) h b :
  run th (let! _ := upd (T:=logdb_buffer_t) (Some l) g in q) (set_heap (<[l := CBuffer b]> h) w) =
    run th q (set_heap (<[l := CBuffer (g b)]> h) w).
Proof.
  rewrite run_bind, run_upd, (do_rmw_peek _ b) by exact (peek_insert logdb_buffer_t _ _ _).
  cbn [fst snd w_heap set_heap]. by rewrite insert_insert_eq.
Qed.

Lemma buffer_data_run w l b nx bs :
  let a := w_next w in
  quiet w -> heap_fresh w -> peek logdb_buffer_t (w_heap w) l = Some b -> buf_orig b = None -> buf_next b = Some nx ->
  flat_list (w_heap w) (Some l) -> buffer_is (w_heap w) (Some l) bs -> zlen bs < 2 ^ 32 -> disposable (w_heap w) b ->
  run th (logdb_buffer_data (Some l)) w = Done (Some a)
    (set_disposed (old_recorded b (w_disposed w)) (set_next (a + 1) (set_heap
      (<[l := CBuffer (mk_buffer (Some a) (zlen bs) (Some DisposeFree) None None (buf_refcnt b))]>
        (old_disposed b (<[a := CBytes bs]> (w_heap w)))) w))).
Proof.
  intros a Hq Hf Eb Ho Hn Hfl Hbs Hlt Hd. unfold logdb_buffer_data.
  assert (a <> l) as Hal by (apply heap_fresh_ne; [done|exact (peek_is_Some _ _ _ _ Eb)]).
  assert (w_heap w !! a = None) as Ha by (apply Hf; unfold a; lia).
  assert (exists m, size (w_heap w) = S m) as [m Em].
  { destruct (size (w_heap w)) as [|m] eqn:E; [|by exists m]. apply map_size_empty_iff in E. unfold peek in Eb. by rewrite E, lookup_empty in Eb. }
  rewrite run_bind, run_heap_size. rewrite Em. remember (S m) as k eqn:Ek. cbn [buffer_data_loop].
  rewrite run_bind, run_load, (do_load_peek _ _ _ _ Eb), Ho, Hn.
  rewrite run_bind, (buffer_length_run _ _ _ _ Hbs), u32_small by lia.
  rewrite run_bind, run_alloc, do_alloc_quiet by done. cbn beta iota. fold a.
  set (w1 := set_next (a + 1) (set_heap (<[a := to_cell []]> (w_heap w)) w)).
  pose proof (proj1 (buffer_is_size _ _ _) Hbs) as Hn'. rewrite Em, Ek in *.
  rewrite run_bind, (data_copy_run (w_heap w) a m (S m) (S (S m)) (Some l) (zlen bs) w1 [] bs); [|done..|lia].
  cbn [negb app]. cbn iota. set (w2 := set_heap _ w1).
  assert (peek logdb_buffer_t (w_heap w2) l = Some b) as E2 by (cbn [w_heap w2 set_heap]; by rewrite peek_insert_ne).
  rewrite run_bind, run_load, (do_load_peek _ _ _ _ E2), run_bind, dispose_old_run.
  2: { intros Hfree. destruct (Hd Hfree) as (p & ? & t & Ht). exists p. split; [done|]. exists t.
       cbn [w_heap w2 set_heap]. rewrite peek_insert_ne; [done|]. intros <-. unfold peek in Ht. by rewrite Ha in Ht. }
  set (w3 := set_disposed _ _).
  assert (peek logdb_buffer_t (w_heap w3) l = Some b) as E3.
  { cbn [w_heap w3 set_disposed set_heap]. unfold old_disposed. destruct (buf_disposer b) as [[|f]|] eqn:Edp; [|done..].
    destruct (buf_data b) as [p|] eqn:Ep; [|done]. rewrite peek_delete_ne; [done|]. intros ->.
    destruct (Hd Edp) as (p & E & t & Ht). rewrite Ep in E. injection E as ->. unfold peek in *. by destruct (w_heap w !! p) as [[]|]. }
  assert (w3 = set_heap (<[l := CBuffer b]> (w_heap w3)) w3) as Ew3.
  { unfold set_heap. rewrite insert_id; [by destruct w3|]. apply peek_cell in E3 as (x & Ex & Hx). destruct x; try done.
    by injection Hx as ->. }
  rewrite Ew3, !store_node_run.
  match goal with |- context [CBuffer ?b'] => set (b2 := b') end.
  rewrite run_bind, run_load, (do_load_peek logdb_buffer_t _ b2) by exact (peek_insert logdb_buffer_t _ _ _). rewrite run_ret.
  assert (b2 = mk_buffer (Some a) (zlen bs) (Some DisposeFree) None None (buf_refcnt b)) as ->
    by (unfold b2; destruct b; cbn in Ho |- *; by rewrite Ho).
  done.
Qed.

End data.

(** A caller's list: own bytes, then a copy of another buffer. *)
Definition data_sample (a b : list byte) : world :=
  set_next 6 (set_heap
    (<[1 := CBytes a]> (<[2 := CBuffer (mk_buffer (Some 1) (zlen a) (Some DisposeFree) None (Some 5) 1)]>
    (<[3 := CBytes b]> (<[4 := CBuffer (mk_buffer (Some 3) (zlen b) None None None 2)]>
    (<[5 := CBuffer (mk_buffer (Some 3) (zlen b) None (Some 4) None 1)]> ∅))))) (empty_world [])).

(** ** Properties *)

#[local] Existing Instance debug_build.

(** C14. [logdb_buffer_data] of a list makes it one block with the same bytes: it
    returns the block, the buffer is then a single node with it, still holds
    the same bytes and keeps its references; the data the first node had goes
    to its disposer, and no other block changes.  Asking again returns the same
    block and changes nothing. *)
Theorem buffer_data_correct `{Build} th w l b nx bs :
  let a := w_next w in
  quiet w -> heap_fresh w -> peek logdb_buffer_t (w_heap w) l = Some b -> buf_orig b = None -> buf_next b = Some nx ->
  flat_list (w_heap w) (Some l) -> buffer_is (w_heap w) (Some l) bs -> zlen bs < 2 ^ 32 -> disposable (w_heap w) b ->
  exists w', run th (logdb_buffer_data (Some l)) w = Done (Some a) w' /\
    peek (list byte) (w_heap w') a = Some bs /\
    peek logdb_buffer_t (w_heap w') l = Some (mk_buffer (Some a) (zlen bs) (Some DisposeFree) None None (buf_refcnt b)) /\
    buffer_is (w_heap w') (Some l) bs /\ w_disposed w' = old_recorded b (w_disposed w) /\
    (forall x, x <> l -> x <> a -> w_heap w' !! x = old_disposed b (w_heap w) !! x) /\
    run th (logdb_buffer_data (Some l)) w' = Done (Some a) w'.
Proof.
  intros a Hq Hf Eb Ho Hn Hfl Hbs Hlt Hd. eexists. split; [by eapply buffer_data_run|].
  assert (a <> l) as Hal by (apply heap_fresh_ne; [done|exact (peek_is_Some _ _ _ _ Eb)]).
  assert (w_heap w !! a = None) as Ha by (apply Hf; unfold a; lia).
  assert (forall p, buf_disposer b = Some DisposeFree -> buf_data b = Some p -> p <> a) as Hp.
  { intros p Hdp Ep ->. destruct (Hd Hdp) as (p & E & t & Ht). rewrite Ep in E. injection E as <-.
    unfold peek in Ht. by rewrite Ha in Ht. }
  set (w' := set_disposed _ _). fold a in w'.
  assert (peek logdb_buffer_t (w_heap w') l = Some (mk_buffer (Some a) (zlen bs) (Some DisposeFree) None None (buf_refcnt b))) as El
    by exact (peek_insert logdb_buffer_t _ _ _).
  assert (peek (list byte) (w_heap w') a = Some bs) as Ea.
  { unfold w'. cbn [w_heap set_disposed set_next set_heap]. rewrite peek_insert_ne by done. unfold old_disposed.
    destruct (buf_disposer b) as [[|f]|] eqn:Edp; [|exact (peek_insert (list byte) _ _ _)..].
    destruct (buf_data b) as [p|] eqn:Ep; [|exact (peek_insert (list byte) _ _ _)].
    rewrite peek_delete_ne by exact (Hp p eq_refl eq_refl). exact (peek_insert (list byte) _ _ _). }
  split_and!; [done|done|by eapply buffer_is_own|done| |].
  - intros x Hl Hx. unfold w'. cbn [w_heap set_disposed set_next set_heap]. rewrite lookup_insert_ne by done. unfold old_disposed.
    destruct (buf_disposer b) as [[|f]|], (buf_data b) as [p|]; rewrite ?lookup_insert_ne by done; try done.
    destruct (decide (p = x)) as [->|]; [by rewrite !lookup_delete_eq|]. by rewrite !lookup_delete_ne, lookup_insert_ne by done.
  - unfold logdb_buffer_data. rewrite run_bind, run_heap_size.
    destruct (data_one_run th (size (w_heap w')) w' l) as (b' & Eb' & E & _); [by eexists|].
    assert (b' = mk_buffer (Some a) (zlen bs) (Some DisposeFree) None None (buf_refcnt b)) as -> by congruence. exact E.
Qed.

Lemma buffer_data_correct_witness :
  let w := data_sample [x61] [x62; x63] in
  exists w', run main_thread (logdb_buffer_data (Some 2)) w = Done (Some 6) w' /\
    peek (list byte) (w_heap w') 6 = Some [x61; x62; x63] /\
    peek logdb_buffer_t (w_heap w') 2 = Some (mk_buffer (Some 6) 3 (Some DisposeFree) None None 1) /\
    buffer_is (w_heap w') (Some 2) [x61; x62; x63] /\ w_disposed w' = [] /\
    (forall x, x <> 2 -> x <> 6 -> w_heap w' !! x = delete 1 (w_heap w) !! x) /\
    run main_thread (logdb_buffer_data (Some 2)) w' = Done (Some 6) w'.
Proof.
  apply (buffer_data_correct main_thread (data_sample [x61] [x62; x63]) 2
    (mk_buffer (Some 1) 1 (Some DisposeFree) None (Some 5) 1) 5 [x61; x62; x63]); try done.
  - intros x Hx. cbn in *. by rewrite !lookup_insert_ne by lia.
  - eapply flat_cons; [done|done|]. eapply flat_cons; [done| |constructor]. intros o [= <-]. eexists. by split_and!.
  - exists 4%nat. by vm_compute.
  - intros _. exists 1. split; [done|]. by eexists.
Defined.
