(* ===== verification/LogLock.v ===== *)
(** * Entry locks: src/src/logdb_log.c

    A lock on an entry of the log is held twice: in the process, as an atomic
    counter in a linked list of chunks of 128 of them, and, once that succeeded,
    between processes as an [fcntl] lock on the bytes of the entry. *)

From S2P Require Import Prelude Machine World Posix Io Layout Log.

Section log_lock.
Context `{Build}.

(** ** Operations *)

(** Where [dest] points: [&log->lock] or [&lock->next]. *)
Inductive lock_dest := DestLog (log : ptr) | DestNext (lock : ptr).

Definition load_dest (d : lock_dest) : prog ptr :=
  match d with
  | DestLog log => let! l := load logdb_log_t log in Ret (log_lock l)
  | DestNext lock => let! k := load logdb_log_lock_t lock in Ret (lock_next k)
  end.

(** [atomic_compare_exchange_strong (dest, &expected, desired)]: success and
    the value found. *)
Definition cas_dest (d : lock_dest) (expected desired : ptr) : prog (bool * ptr) :=
  match d with
  | DestLog log => rmw log (fun l =>
      if decide (log_lock l = expected) then (set_log_lock desired l, (true, log_lock l))
      else (l, (false, log_lock l)))
  | DestNext lock => rmw lock (fun k =>
      if decide (lock_next k = expected) then (set_lock_next desired k, (true, lock_next k))
      else (k, (false, lock_next k)))
  end.

(** [tryagain1]: find or insert the chunk for [index]; the chunk and the place
    in it, or [None] when no memory is left. *)
Fixpoint lock_find (fuel : nat) (dest : lock_dest) (lock : ptr) (index : Z) : prog (option (ptr * Z)) :=
  match fuel with
  | O => no_fuel
  | S fuel' =>
      let enter (lock : ptr) : prog (option (ptr * Z)) :=
        let! k := load logdb_log_lock_t lock in
        let lockindex := u32 (index - lock_startindex k) in
        if 127 <? lockindex then
          let! next := load_dest (DestNext lock) in
          lock_find fuel' (DestNext lock) next index
        else Ret (Some (lock, lockindex)) in
      let! missing :=
        match lock with
        | None => Ret true
        | Some _ => let! k := load logdb_log_lock_t lock in Ret (index <? lock_startindex k)
        end in
      if missing : bool then
        let! newlock := alloc (mk_lock index (replicate 128 0) lock) in
        match newlock with
        | None => Ret None
        | Some _ =>
            let! (ok, found) := cas_dest dest lock newlock in
            if ok : bool then enter newlock
            else
              do! free newlock in
              lock_find fuel' dest found index
        end
      else enter lock
  end.

(** Lock [i] of a chunk. *)
Definition get_lock (i : Z) (k : logdb_log_lock_t) : Z := default 0 (lock_locks k !! Z.to_nat i).
Definition put_lock (i v : Z) (k : logdb_log_lock_t) : logdb_log_lock_t :=
  set_lock_locks (<[Z.to_nat i := v]> (lock_locks k)) k.

(** [tryagain2]: [value] is the last value seen; the [fcntl] lock to take, or
    [None] when the entry is locked. *)
Fixpoint lock_take (fuel : nat) (lock : ptr) (lockindex : Z) (type : logdb_log_lock_type) (value : Z)
    : prog (option lock_op) :=
  match fuel with
  | O => no_fuel
  | S fuel' =>
      if bool_decide (type = LOGDB_LOG_LOCK_READ) && (0 <=? value) then
        if value =? 2 ^ 31 - 1 then undef UbOverflow else
        let! (ok, found) := cas_weak lock (get_lock lockindex) (put_lock lockindex) value (value + 1) in
        if ok : bool then Ret (Some F_RDLCK) else lock_take fuel' lock lockindex type found
      else if bool_decide (type = LOGDB_LOG_LOCK_WRITE) && (value =? 0) then
        let! (ok, found) := cas_weak lock (get_lock lockindex) (put_lock lockindex) value (-1) in
        if ok : bool then Ret (Some F_WRLCK) else lock_take fuel' lock lockindex type found
      else Ret None
  end.

(** Add to lock [i] of a chunk; there are 128. *)
Definition fetch_add_lock (lock : ptr) (i d : Z) : prog unit :=
  prim (fun _ w => with_cell (T:=logdb_log_lock_t) lock w (fun l k =>
    match lock_locks k !! Z.to_nat i with
    | Some v => Done tt (set_heap (<[l := CLock (put_lock i (s32 (v + d)) k)]> (w_heap w)) w)
    | None => Undef UbBounds
    end)).

Fixpoint inproc_unlock_loop (fuel : nat) (lock : ptr) (index : Z) (type : logdb_log_lock_type) : prog unit :=
  match fuel with
  | O => no_fuel
  | S fuel' =>
      let! k := load logdb_log_lock_t lock in
      if u32 (lock_startindex k + 127) <? index then
        inproc_unlock_loop fuel' (lock_next k) index type
      else
        let lockindex := u32 (index - lock_startindex k) in
        match type with
        | LOGDB_LOG_LOCK_READ => fetch_add_lock lock lockindex (-1)
        | LOGDB_LOG_LOCK_WRITE => fetch_add_lock lock lockindex 1
        | LOGDB_LOG_LOCK_NONE => undef UbAbort
        end
  end.

Definition logdb_log_inproc_unlock (log : ptr) (index : Z) (type : logdb_log_lock_type) : prog unit :=
  let! l := load logdb_log_t log in
  let! fuel := heap_size in
  inproc_unlock_loop fuel (log_lock l) index type.

(** From the right chunk on: the in-process lock, then the [fcntl] lock. *)
Definition lock_at (log : ptr) (index : Z) (type : logdb_log_lock_type) (lock : ptr) (lockindex : Z) : prog Z :=
  let! k := load logdb_log_lock_t lock in
  let! op := lock_take (S RETRIES) lock lockindex type (get_lock lockindex k) in
  match op with
  | None => Ret (-2)
  | Some op =>
      let! l := load logdb_log_t log in
      let! r := sys_fcntl_setlk (log_fd l) op (logdb_log_offset index) sizeof_log_entry in
      if r =? -1 then
        do! logdb_log_inproc_unlock log index type in
        Ret (-3)
      else Ret 0
  end.

Definition logdb_log_lock (log : ptr) (index : Z) (type : logdb_log_lock_type) : prog Z :=
  let! lock := load_dest (DestLog log) in
  let! fuel := heap_size in
  let! found := lock_find (fuel + RETRIES) (DestLog log) lock index in
  match found with
  | None => Ret (-1)
  | Some (lock, lockindex) => lock_at log index type lock lockindex
  end.

Definition logdb_log_unlock (log : ptr) (index : Z) (type : logdb_log_lock_type) : prog unit :=
  let! l := load logdb_log_t log in
  do! sys_fcntl_setlk (log_fd l) F_UNLCK (logdb_log_offset index) sizeof_log_entry in
  logdb_log_inproc_unlock log index type.

End log_lock.
