(* ===== verification/LockSpec.v ===== *)
(** * The lock table and the specification of its operations

    [lock_list h k cs] says the chunks at [k] are [cs].  The in-process state
    of entry [i] is in the first chunk that does not end before [i]; the lemmas
    give locking and unlocking on an arbitrary table, for a thread that is not
    interrupted. *)

From S2P Require Import Prelude Machine World Posix Io Layout Log LogSpec LogLock.
From S2P Require Import BufferSpec.

Lemma Forall_middle {A} (P : A -> Prop) pre c post : Forall P (pre ++ c :: post) -> P c.
Proof. intros Hf. apply Forall_app in Hf as [_ Hf]. by apply Forall_cons_1 in Hf as [Hc _]. Qed.

(** ** The table *)

Record chunk := mk_chunk { ch_loc : loc; ch_start : Z; ch_locks : list Z }.

Fixpoint lock_list (h : heap) (k : ptr) (cs : list chunk) : Prop :=
  match cs with
  | [] => k = None
  | c :: r =>
      k = Some (ch_loc c) /\
      exists nx, peek logdb_log_lock_t h (ch_loc c) = Some (mk_lock (ch_start c) (ch_locks c) nx) /\
        lock_list h nx r
  end.

Definition no_locks : list Z := replicate 128 0.

(** 128 counters; the entries are numbered below [2 ^ 31]. *)
Definition chunk_ok (c : chunk) : Prop := length (ch_locks c) = 128%nat /\ 0 <= ch_start c < 2 ^ 31.

(** The chunk ends before entry [i], or holds its counter. *)
Definition ends_before (i : Z) (c : chunk) : Prop := ch_start c + 127 < i.
Definition covers (i : Z) (c : chunk) : Prop := ch_start c <= i <= ch_start c + 127.

Definition set_chunk (i v : Z) (c : chunk) : chunk :=
  mk_chunk (ch_loc c) (ch_start c) (<[Z.to_nat (i - ch_start c) := v]> (ch_locks c)).

(** ** Heaps up to the locks *)

(** The cell without what the lock table changes. *)
Definition strip (c : option cell) : option cell :=
  match c with
  | Some (CLock _) => None
  | Some (CLog l) => Some (CLog (set_log_lock None l))
  | c => c
  end.

Definition lock_equiv (h h' : heap) : Prop := forall x, strip (h !! x) = strip (h' !! x).

#[export] Instance lock_equiv_equivalence : Equivalence lock_equiv.
Proof. split; repeat intro; congruence. Qed.

Lemma lock_equiv_lookup h h' x c :
  lock_equiv h h' -> h !! x = Some c ->
  match c with CLock _ | CLog _ => True | _ => h' !! x = Some c end.
Proof.
  intros He E. specialize (He x). rewrite E in He. destruct c; try done; simpl in He;
    destruct (h' !! x) as [[]|]; simpl in He; congruence.
Qed.

(** What a cell of another type holds is the same. *)
Class NotLock (T : Type) `{Cell T} := not_lock t :
  match to_cell t with CLock _ | CLog _ => False | _ => True end /\
  forall c, of_cell c = Some t -> c = to_cell t.
#[export] Instance not_lock_bytes : NotLock (list byte).
Proof. intros t. split; [done|]. intros []; simpl; congruence. Qed.
#[export] Instance not_lock_buffer : NotLock logdb_buffer_t.
Proof. intros t. split; [done|]. intros []; simpl; congruence. Qed.
#[export] Instance not_lock_txn : NotLock logdb_txn_t.
Proof. intros t. split; [done|]. intros []; simpl; congruence. Qed.
#[export] Instance not_lock_conn : NotLock logdb_connection_t.
Proof. intros t. split; [done|]. intros []; simpl; congruence. Qed.
#[export] Instance not_lock_iter : NotLock logdb_iter_t.
Proof. intros t. split; [done|]. intros []; simpl; congruence. Qed.

Lemma lock_equiv_peek T `{NotLock T} h h' l (t : T) :
  lock_equiv h h' -> peek T h l = Some t -> peek T h' l = Some t.
Proof.
  intros He (c & E & Hc)%peek_cell. destruct (not_lock t) as [Hn Ht]. apply Ht in Hc as ->.
  pose proof (lock_equiv_lookup _ _ _ _ He E) as E'. unfold peek.
  destruct (to_cell t) eqn:Ec; try done; rewrite E'; simpl; rewrite <- Ec; apply of_to_cell.
Qed.

Lemma lock_equiv_log h h' l t :
  lock_equiv h h' -> peek logdb_log_t h l = Some t ->
  exists k, peek logdb_log_t h' l = Some (set_log_lock k t).
Proof.
  intros He (c & E & Hc)%peek_cell. destruct c; try done. injection Hc as ->.
  specialize (He l). rewrite E in He. unfold peek. simpl in He.
  destruct (h' !! l) as [[]|]; simpl in He; try done. injection He as He1 He2.
  exists (log_lock l0). destruct t, l0. simpl in *. by subst.
Qed.

Lemma lock_equiv_le h h' : lock_equiv h h' -> heap_le h h'.
Proof.
  intros He. split; [|intros l bs E; exact (lock_equiv_peek (list byte) _ _ _ _ He E)].
  intros l b E. exists b. split; [|done]. exact (lock_equiv_peek logdb_buffer_t _ _ _ _ He E).
Qed.

Lemma lock_equiv_lock h l k :
  strip (h !! l) = None -> lock_equiv h (<[l := CLock k]> h).
Proof.
  intros E x. destruct (decide (l = x)) as [<-|]; [by rewrite lookup_insert_eq|by rewrite lookup_insert_ne].
Qed.

Lemma lock_equiv_set_log h l t k :
  peek logdb_log_t h l = Some t -> lock_equiv h (<[l := CLog (set_log_lock k t)]> h).
Proof.
  intros (c & E & Hc)%peek_cell x. destruct c; try done. injection Hc as ->.
  destruct (decide (l = x)) as [<-|]; [by rewrite lookup_insert_eq, E|by rewrite lookup_insert_ne].
Qed.

Lemma peek_lock_strip h l k : peek logdb_log_lock_t h l = Some k -> strip (h !! l) = None.
Proof. intros (c & -> & Hc)%peek_cell. by destruct c. Qed.

(** A change elsewhere than at the chunks leaves the list. *)
Lemma lock_list_insert h k cs x c :
  (forall d, d ∈ cs -> ch_loc d <> x) -> lock_list h k cs -> lock_list (<[x := c]> h) k cs.
Proof.
  revert k. induction cs as [|d cs IH]; intros k Hx; [done|]. intros [-> (nx & E & Hl)].
  split; [done|]. exists nx. rewrite peek_insert_ne by (intros ->; by apply (Hx d); [left|]).
  split; [done|]. apply IH; [|done]. intros d' Hd'. apply Hx. by right.
Qed.

(** ** Finding the chunk *)

Definition dest_addr (d : lock_dest) : option loc := match d with DestLog p | DestNext p => p end.

(** The cell of [dest] when it holds [k]. *)
Definition dest_cell (h : heap) (d : lock_dest) (k : ptr) : option cell :=
  match d with
  | DestLog p => a ← p; l ← peek logdb_log_t h a; Some (CLog (set_log_lock k l))
  | DestNext p => a ← p; c ← peek logdb_log_lock_t h a; Some (CLock (set_lock_next k c))
  end.

(** [dest] is at [a] and holds [k]. *)
Definition dest_is (h : heap) (d : lock_dest) (a : loc) (k : ptr) : Prop :=
  dest_addr d = Some a /\ is_Some (h !! a) /\ h !! a = dest_cell h d k.

Lemma set_log_lock_id l k : set_log_lock k l = l -> log_lock l = k.
Proof. by intros <-. Qed.

Lemma load_dest_run th w d a k :
  dest_is (w_heap w) d a k -> run th (load_dest d) w = Done k w.
Proof.
  intros (Ha & Hs & E). destruct d; simpl in Ha; subst; simpl in E.
  - destruct (peek logdb_log_t (w_heap w) a) as [l|] eqn:El; simpl in E; [|by destruct Hs; congruence].
    cbn [load_dest]. run_step. rewrite (do_load_peek _ _ _ _ El). unfold peek in El. rewrite E in El.
    injection El as El. by apply set_log_lock_id in El as ->.
  - destruct (peek logdb_log_lock_t (w_heap w) a) as [c|] eqn:Ec; simpl in E; [|by destruct Hs; congruence].
    cbn [load_dest]. run_step. rewrite (do_load_peek _ _ _ _ Ec). unfold peek in Ec. rewrite E in Ec.
    injection Ec as <-. done.
Qed.

(** The compare-exchange of a thread that is not interrupted succeeds. *)
Lemma cas_dest_run th w d a k new :
  dest_is (w_heap w) d a k ->
  exists c, dest_cell (w_heap w) d new = Some c /\
    run th (cas_dest d k new) w = Done (true, k) (set_heap (<[a := c]> (w_heap w)) w).
Proof.
  intros (Ha & Hs & E). destruct d; simpl in Ha; subst; simpl in E; cbn [dest_cell cas_dest mbind option_bind].
  - destruct (peek logdb_log_t (w_heap w) a) as [l|] eqn:El; simpl in E; [|by destruct Hs; congruence].
    eexists. split; [done|]. rewrite run_rmw, (do_rmw_peek _ l) by done.
    unfold peek in El. rewrite E in El. injection El as El. apply set_log_lock_id in El.
    rewrite decide_True by done. by rewrite El.
  - destruct (peek logdb_log_lock_t (w_heap w) a) as [c|] eqn:Ec; simpl in E; [|by destruct Hs; congruence].
    eexists. split; [done|]. rewrite run_rmw, (do_rmw_peek _ c) by done.
    unfold peek in Ec. rewrite E in Ec. injection Ec as Ec. assert (lock_next c = k) as <- by by rewrite <- Ec.
    by rewrite decide_True.
Qed.

Lemma dest_cell_strip h d a k k' c :
  dest_is h d a k -> dest_cell h d k' = Some c -> strip (h !! a) = strip (Some c).
Proof.
  intros (Ha & _ & ->). destruct d; simpl in Ha; subst; simpl.
  - destruct (peek logdb_log_t h a); [|done]. simpl. by intros [= <-].
  - destruct (peek logdb_log_lock_t h a); [|done]. simpl. by intros [= <-].
Qed.

(** What [lock_find] leaves: the table [pre ++ c :: post] at [dest], where [c]
    covers the entry and was there, or is new. *)
Record found (i : Z) (d : lock_dest) (a : loc) (cs : list chunk) (w w' : world)
    (pre : list chunk) (c : chunk) (post : list chunk) : Prop := mk_found {
  fo_pre : Forall (ends_before i) pre;
  fo_covers : covers i c;
  fo_list : exists k', w_heap w' !! a = dest_cell (w_heap w) d k' /\
    lock_list (w_heap w') k' (pre ++ c :: post);
  fo_frame x : x <> w_next w -> x <> a -> (forall e, e ∈ cs -> ch_loc e <> x) ->
    w_heap w' !! x = w_heap w !! x;
  fo_equiv : lock_equiv (w_heap w) (w_heap w');
  fo_cases : (cs = pre ++ c :: post /\ w' = w) \/
    (cs = pre ++ post /\ c = mk_chunk (w_next w) i no_locks /\
     (forall e r, post = e :: r -> i < ch_start e) /\
     w' = set_next (w_next w + 1) (set_heap (w_heap w') w) /\ heap_fresh w')
}.

Lemma lock_list_in h k cs c : lock_list h k cs -> c ∈ cs -> is_Some (h !! ch_loc c).
Proof.
  revert k. induction cs as [|d cs IH]; intros k; [by intros _ ?%not_elem_of_nil|].
  intros [_ (nx & E & Hl)] [->|Hin]%elem_of_cons; [exact (peek_is_Some _ _ _ _ E)|by eapply IH].
Qed.

(** Inserting a chunk at [dest]. *)
Lemma lock_insert_found th w d a k cs i :
  quiet w -> heap_fresh w -> dest_is (w_heap w) d a k -> lock_list (w_heap w) k cs ->
  (forall e, e ∈ cs -> ch_loc e <> a) -> (forall e r, cs = e :: r -> i < ch_start e) ->
  exists w', run th (cas_dest d k (Some (w_next w)))
      (alloced (CLock (mk_lock i no_locks k)) w) = Done (true, k) w' /\
    found i d a cs w w' [] (mk_chunk (w_next w) i no_locks) cs.
Proof.
  intros Hq Hf Hd Hl Ha Hhd. set (w1 := alloced _ w). pose proof Hd as (Haddr & Hs & Ecell).
  assert (w_heap w !! w_next w = None) as Hnone by (apply Hf; lia).
  assert (a <> w_next w) as Hne by (intros ->; rewrite Hnone in Hs; by destruct Hs).
  assert (forall k', dest_cell (w_heap w1) d k' = dest_cell (w_heap w) d k') as Hcell.
  { intros k'. unfold dest_cell, w1, alloced. cbn [w_heap set_heap set_next].
    destruct d; simpl in Haddr; subst; simpl; by rewrite peek_insert_ne. }
  assert (dest_is (w_heap w1) d a k) as Hd1.
  { split; [done|]. rewrite Hcell. unfold w1, alloced. cbn [w_heap set_heap set_next].
    by rewrite lookup_insert_ne. }
  destruct (cas_dest_run th w1 d a k (Some (w_next w)) Hd1) as (c & Hc & E).
  eexists. split; [exact E|]. cbn [w_heap set_heap].
  constructor; cbn [w_heap set_heap].
  - done.
  - unfold covers. simpl. lia.
  - exists (Some (w_next w)). rewrite lookup_insert_eq, <- Hcell, Hc. split; [done|]. split; [done|].
    exists k. split.
    + rewrite peek_insert_ne by done. exact (peek_insert logdb_log_lock_t _ _ _).
    + apply lock_list_insert; [done|]. unfold w1, alloced. cbn [w_heap set_heap set_next].
      apply lock_list_insert; [|done].
      intros e He Heq. pose proof (lock_list_in _ _ _ _ Hl He) as [? Hin]. congruence.
  - intros x Hx1 Hx2 _. rewrite lookup_insert_ne by done. unfold w1, alloced.
    cbn [w_heap set_heap set_next]. by rewrite lookup_insert_ne.
  - intros x. destruct (decide (a = x)) as [<-|Hax].
    + rewrite lookup_insert_eq. eapply dest_cell_strip; [done|by rewrite <- Hcell].
    + rewrite lookup_insert_ne by done. unfold w1, alloced. cbn [w_heap set_heap set_next].
      destruct (decide (w_next w = x)) as [<-|]; [by rewrite lookup_insert_eq, Hnone|by rewrite lookup_insert_ne].
  - right. split_and!; [done..|]. intros x Hx. cbn [w_heap w_next set_heap set_next w1 alloced] in *.
    rewrite lookup_insert_ne; [rewrite lookup_insert_ne by lia; apply Hf; lia|].
    intros ->. destruct Hs as [? Hs]. rewrite (Hf x) in Hs by lia. done.
Qed.

Lemma lock_find_missing_run `{Build} th w d a k cs i n :
  quiet w -> heap_fresh w -> dest_is (w_heap w) d a k -> lock_list (w_heap w) k cs ->
  (forall e, e ∈ cs -> ch_loc e <> a) -> 0 <= i ->
  (forall e r, cs = e :: r -> i < ch_start e) ->
  exists w', run th (lock_find (S n) d k i) w = Done (Some (Some (w_next w), 0)) w' /\
    found i d a cs w w' [] (mk_chunk (w_next w) i no_locks) cs.
Proof.
  intros Hq Hf Hd Hl Ha Hi Hs.
  destruct (lock_insert_found th w d a k cs i Hq Hf Hd Hl Ha Hs) as (w' & E & Hfo).
  exists w'. split; [|done]. cbn [lock_find].
  assert (run th (match k with
      | None => Ret true
      | Some _ => let! k := load logdb_log_lock_t k in Ret (i <? lock_startindex k)
      end) w = Done true w) as Em.
  { destruct cs as [|e r]; simpl in Hl; [by subst|]. destruct Hl as [-> (nx & Ee & _)].
    run_step. rewrite (do_load_peek _ _ _ _ Ee). simpl. rewrite (proj2 (Z.ltb_lt _ _)); [done|].
    by eapply Hs. }
  rewrite run_bind, Em. run_step. rewrite do_alloc_quiet by done. fold no_locks.
  change (set_next (w_next w + 1) _) with (alloced (CLock (mk_lock i no_locks k)) w).
  rewrite run_bind, E. cbn iota beta. destruct (fo_list _ _ _ _ _ _ _ _ _ Hfo) as (k' & _ & Hlist).
  simpl in Hlist. destruct Hlist as [_ (nx & En & _)]. run_step.
  rewrite (do_load_peek _ _ _ _ En). cbn [lock_startindex]. rewrite Z.sub_diag. done.
Qed.

(** [tryagain1] on any table. *)
Lemma lock_find_run `{Build} th cs d a k w i n :
  quiet w -> heap_fresh w -> dest_is (w_heap w) d a k -> lock_list (w_heap w) k cs ->
  NoDup (ch_loc <$> cs) -> (forall e, e ∈ cs -> ch_loc e <> a) -> Forall chunk_ok cs ->
  0 <= i < 2 ^ 31 -> (length cs < n)%nat ->
  exists w' pre c post,
    run th (lock_find n d k i) w = Done (Some (Some (ch_loc c), i - ch_start c)) w' /\
    found i d a cs w w' pre c post.
Proof.
  revert d a k n. induction cs as [|e cs IH]; intros d a k n Hq Hf Hd Hl Hnd Ha Hok Hi Hn;
    (destruct n as [|n]; [simpl in Hn; lia|]).
  { destruct (lock_find_missing_run th w d a k [] i n) as (w' & E & Hfo); [done..|lia|done|].
    exists w', [], (mk_chunk (w_next w) i no_locks), []. simpl. by rewrite Z.sub_diag. }
  apply Forall_cons_1 in Hok as [[Hlen Hst] Hok].
  destruct (Z.lt_ge_cases i (ch_start e)) as [Hlt|Hge].
  { destruct (lock_find_missing_run th w d a k (e :: cs) i n) as (w' & E & Hfo); [done..|lia| |].
    { by intros ?? [= <- <-]. }
    exists w', [], (mk_chunk (w_next w) i no_locks), (e :: cs). simpl. by rewrite Z.sub_diag. }
  pose proof Hl as [-> (nx & Ee & Hnx)]. cbn [lock_find].
  rewrite run_bind, run_bind, run_load, (do_load_peek _ _ _ _ Ee), run_ret. cbn [lock_startindex].
  rewrite (proj2 (Z.ltb_ge _ _)) by done. run_step. rewrite (do_load_peek _ _ _ _ Ee).
  cbn [lock_startindex]. rewrite u32_small by lia.
  destruct (Z.ltb_spec 127 (i - ch_start e)) as [Hskip|Hhere].
  - assert (dest_is (w_heap w) (DestNext (Some (ch_loc e))) (ch_loc e) nx) as Hd'.
    { split; [done|]. split; [exact (peek_is_Some _ _ _ _ Ee)|]. simpl. rewrite Ee. simpl.
      destruct (peek_cell _ _ _ _ Ee) as (c & -> & Hc). destruct c; try done. by injection Hc as ->. }
    rewrite run_bind, (load_dest_run _ _ _ _ _ Hd').
    cbn [fmap list_fmap] in Hnd. pose proof (NoDup_cons_1_1 _ _ Hnd) as Hne.
    apply NoDup_cons_1_2 in Hnd.
    destruct (IH (DestNext (Some (ch_loc e))) (ch_loc e) nx n) as (w' & pre & c & post & E & Hfo); try done.
    { intros e' He' Heq. apply Hne. rewrite <- Heq. by apply list_elem_of_fmap_2. }
    { simpl in Hn. lia. }
    exists w', (e :: pre), c, post. split; [done|].
    destruct Hfo as [Hpre Hcov (k' & Hk' & Hlist) Hframe Heq Hcases].
    assert (a <> w_next w).
    { intros ->. destruct Hd as (_ & [x Hx] & _). rewrite Hf in Hx by lia. done. }
    assert (w_heap w' !! a = w_heap w !! a) as Hsame.
    { apply Hframe; [done| |].
      - intros ->. apply (Ha e); [left|done].
      - intros e' He'. apply Ha. by right. }
    constructor; [|done| | |done|].
    + constructor; [|done]. unfold ends_before. lia.
    + exists (Some (ch_loc e)). split; [rewrite Hsame; apply Hd|]. split; [done|].
      exists k'. split; [|done]. simpl in Hk'. rewrite Ee in Hk'. unfold peek. by rewrite Hk'.
    + intros x Hx1 Hx2 Hx3. apply Hframe; [done| |].
      * intros ->. by apply (Hx3 e); [left|].
      * intros e' He'. apply Hx3. by right.
    + destruct Hcases as [[-> ->]|(-> & -> & Hhd & E' & Hf')]; [by left|by right].
  - exists w, [], e, cs. split; [done|]. constructor; try done.
    + unfold covers. lia.
    + exists (Some (ch_loc e)). split; [apply Hd|done].
    + by left.
Qed.

(** ** Locking and unlocking *)

(** The log structure at [p] has this table. *)
Definition lock_table (p : loc) (cs : list chunk) (h : heap) : Prop :=
  exists l, peek logdb_log_t h p = Some l /\ lock_list h (log_lock l) cs.

(** The table is in order: no two chunks at the same address. *)
Definition table_ok (cs : list chunk) : Prop := NoDup (ch_loc <$> cs) /\ Forall chunk_ok cs.

Definition fcntl_set (o : ofd) (op : lock_op) (i : Z) (w : world) : world :=
  set_os (set_os_fcntl (fcntl_apply (fd_ino o) (fd_pid o) op (logdb_log_offset i)
    (Some (logdb_log_offset i + sizeof_log_entry)) (os_fcntl (w_os w))) (w_os w)) w.

(** No other process holds a lock that conflicts. *)
Definition fcntl_free (o : ofd) (op : lock_op) (i : Z) (w : world) : Prop :=
  existsb (fcntl_conflict (fd_ino o) (fd_pid o) op (logdb_log_offset i)
    (Some (logdb_log_offset i + sizeof_log_entry))) (os_fcntl (w_os w)) = false.

Lemma lock_list_chunk h k pre c post :
  lock_list h k (pre ++ c :: post) ->
  exists nx, peek logdb_log_lock_t h (ch_loc c) = Some (mk_lock (ch_start c) (ch_locks c) nx).
Proof.
  revert k. induction pre as [|d pre IH]; intros k; simpl.
  - intros [_ (nx & E & _)]. by exists nx.
  - intros [_ (nx & _ & Hl)]. by eapply IH.
Qed.

Lemma lock_list_set h k pre c post nx v i :
  NoDup (ch_loc <$> (pre ++ c :: post)) -> lock_list h k (pre ++ c :: post) ->
  peek logdb_log_lock_t h (ch_loc c) = Some (mk_lock (ch_start c) (ch_locks c) nx) ->
  lock_list (<[ch_loc c := CLock (put_lock (i - ch_start c) v (mk_lock (ch_start c) (ch_locks c) nx))]> h) k
    (pre ++ set_chunk i v c :: post).
Proof.
  intros Hnd Hl Ec. revert k Hnd Hl. induction pre as [|d pre IH]; intros k Hnd Hl; simpl in Hnd, Hl |- *.
  - destruct Hl as [-> (nx' & Ec' & Hl)]. split; [done|]. exists nx. split.
    { exact (peek_insert logdb_log_lock_t _ _ _). }
    assert (nx' = nx) as -> by congruence. apply lock_list_insert; [|done].
    intros e He Heq. apply NoDup_cons_1_1 in Hnd. apply Hnd. rewrite <- Heq. by apply list_elem_of_fmap_2.
  - destruct Hl as [-> (nx' & Ed & Hl)]. split; [done|]. exists nx'.
    rewrite peek_insert_ne.
    2: { intros Heq. apply NoDup_cons_1_1 in Hnd. apply Hnd. rewrite <- Heq.
      apply list_elem_of_fmap_2. apply elem_of_app. right. left. }
    split; [done|]. apply IH; [by apply NoDup_cons_1_2 in Hnd|done].
Qed.

Lemma chunk_lookup i c :
  chunk_ok c -> covers i c -> exists v, ch_locks c !! Z.to_nat (i - ch_start c) = Some v.
Proof. intros [Hl _] Hc. apply lookup_lt_is_Some_2. unfold covers in Hc. lia. Qed.

Lemma get_lock_chunk i c nx v :
  ch_locks c !! Z.to_nat (i - ch_start c) = Some v ->
  get_lock (i - ch_start c) (mk_lock (ch_start c) (ch_locks c) nx) = v.
Proof. intros E. unfold get_lock. simpl. by rewrite E. Qed.

Lemma found_table_ok i d a k cs w w' pre c post :
  table_ok cs -> lock_list (w_heap w) k cs ->
  heap_fresh w -> 0 <= i < 2 ^ 31 -> found i d a cs w w' pre c post -> table_ok (pre ++ c :: post).
Proof.
  intros [Hnd Hok] Hl Hf Hi Hfo. destruct (fo_cases _ _ _ _ _ _ _ _ _ Hfo) as [[<- _]|(-> & -> & _ & _ & _)]; [done|].
  split.
  - rewrite fmap_app in *. simpl. apply list.NoDup_app in Hnd as (H1 & H2 & H3).
    assert (w_next w ∉ ch_loc <$> pre ++ post) as Hnew.
    { intros (e & He & Hin)%list_elem_of_fmap. destruct (lock_list_in _ _ _ _ Hl Hin) as [x Hx].
      rewrite Hf in Hx by lia. done. }
    rewrite fmap_app, elem_of_app in Hnew.
    apply list.NoDup_app. split; [done|]. split.
    + intros x Hx [->|Hp]%elem_of_cons; [tauto|]. by apply (H2 x).
    + apply NoDup_cons_2; [tauto|done].
  - apply Forall_app in Hok as [? ?]. apply Forall_app. split; [done|]. constructor; [|done].
    split; [done|simpl; lia].
Qed.

Lemma lock_list_head h k cs : lock_list h k cs -> k = ch_loc <$> head cs.
Proof. destruct cs; [done|]. by intros [-> _]. Qed.

Lemma log_not_chunk h k cs p l e :
  peek logdb_log_t h p = Some l -> lock_list h k cs -> e ∈ cs -> ch_loc e <> p.
Proof.
  intros Ep Hl He Heq. revert k Hl. induction cs as [|d cs IH]; [by apply not_elem_of_nil in He|].
  intros k [_ (nx & Ed & Hl)]. apply elem_of_cons in He as [->|He]; [|by eapply IH].
  unfold peek in *. rewrite Heq in Ed. destruct (h !! p) as [[]|]; done.
Qed.

Lemma table_size h k cs : NoDup (ch_loc <$> cs) -> lock_list h k cs -> (length cs <= size h)%nat.
Proof.
  intros Hnd Hl. rewrite <- (length_fmap ch_loc cs). apply NoDup_heap_size; [done|].
  intros x (e & -> & He)%list_elem_of_fmap. by eapply lock_list_in.
Qed.

(** The chunk for [i] as [logdb_log_lock] finds it. *)
Lemma log_lock_enter `{Build} th w p l cs i type :
  quiet w -> heap_fresh w -> peek logdb_log_t (w_heap w) p = Some l ->
  lock_list (w_heap w) (log_lock l) cs -> table_ok cs -> 0 <= i < 2 ^ 31 ->
  exists w1 pre c post k,
    found i (DestLog (Some p)) p cs w w1 pre c post /\ table_ok (pre ++ c :: post) /\ quiet w1 /\
    heap_fresh w1 /\ peek logdb_log_t (w_heap w1) p = Some (set_log_lock k l) /\
    lock_list (w_heap w1) k (pre ++ c :: post) /\
    run th (logdb_log_lock (Some p) i type) w =
      run th (lock_at (Some p) i type (Some (ch_loc c)) (i - ch_start c)) w1.
Proof.
  intros Hq Hf Ep Hl [Hnd Hok] Hi.
  assert (dest_is (w_heap w) (DestLog (Some p)) p (log_lock l)) as Hd.
  { split; [done|]. split; [exact (peek_is_Some _ _ _ _ Ep)|]. simpl. rewrite Ep. simpl.
    destruct (peek_cell _ _ _ _ Ep) as (c & -> & Hc). destruct c; try done. injection Hc as ->.
    by destruct l. }
  pose proof (table_size _ _ _ Hnd Hl) as Hsz.
  destruct (lock_find_run th cs (DestLog (Some p)) p (log_lock l) w i (S (size (w_heap w)) + RETRIES))
    as (w1 & pre & c & post & E & Hfo); [done..| |done|done|lia|].
  { intros e He. by eapply log_not_chunk. }
  pose proof Hfo as [_ _ (k & Ek & Hlist) _ _ Hcases]. exists w1, pre, c, post, k.
  assert (table_ok (pre ++ c :: post)) as Htab by exact (found_table_ok _ _ _ _ _ _ _ _ _ _ (conj Hnd Hok) Hl Hf Hi Hfo).
  split; [done|]. split; [done|]. split_and!.
  - by destruct Hcases as [[_ ->]|(_ & _ & _ & -> & _)].
  - by destruct Hcases as [[_ ->]|(_ & _ & _ & _ & ?)].
  - simpl in Ek. rewrite Ep in Ek. unfold peek. by rewrite Ek.
  - done.
  - unfold logdb_log_lock. rewrite run_bind, (load_dest_run _ _ _ _ _ Hd). run_step.
    by rewrite E.
Qed.

(** The counter of the entry, with the chunk found. *)
Lemma lock_at_value cs i d a w w' pre c post :
  table_ok (pre ++ c :: post) -> found i d a cs w w' pre c post ->
  exists v, ch_locks c !! Z.to_nat (i - ch_start c) = Some v.
Proof.
  intros [_ Hok] Hfo. apply chunk_lookup; [|apply Hfo].
  apply Forall_app in Hok as [_ Hok]. by apply Forall_cons_1 in Hok as [? _].
Qed.

(** The in-process state of the entry is not 0: a write lock is refused. *)
Lemma lock_at_busy `{Build} th w p c i nx v :
  peek logdb_log_lock_t (w_heap w) (ch_loc c) = Some (mk_lock (ch_start c) (ch_locks c) nx) ->
  ch_locks c !! Z.to_nat (i - ch_start c) = Some v -> v <> 0 ->
  run th (lock_at p i LOGDB_LOG_LOCK_WRITE (Some (ch_loc c)) (i - ch_start c)) w = Done (-2) w.
Proof.
  intros Ec Ev Hv. unfold lock_at. run_step. rewrite (do_load_peek _ _ _ _ Ec). run_step.
  rewrite (get_lock_chunk _ _ _ _ Ev). cbn [lock_take]. rewrite bool_decide_eq_false_2 by done.
  rewrite (proj2 (Z.eqb_neq v 0)) by done. rewrite andb_false_r. done.
Qed.

Lemma peek_log_lock_ne h x k p (l : logdb_log_t) kk :
  peek logdb_log_lock_t h x = Some kk -> peek logdb_log_t h p = Some l ->
  peek logdb_log_t (<[x := CLock k]> h) p = Some l.
Proof.
  intros Ex Ep. rewrite peek_insert_ne; [done|]. intros ->. unfold peek in *.
  destruct (h !! p) as [[]|]; done.
Qed.

Lemma do_setlk_free o fd i op w :
  quiet w -> get_fd fd w = Some o -> fcntl_free o op i w ->
  do_setlk false fd op (logdb_log_offset i) sizeof_log_entry w = Done 0 (fcntl_set o op i w).
Proof. intros Hq Ho Hc. by rewrite (do_setlk_quiet _ Hq _ _ _ _ _ o) by done. Qed.

Lemma lock_take_free `{Build} th w x kk j :
  quiet w -> peek logdb_log_lock_t (w_heap w) x = Some kk -> get_lock j kk = 0 ->
  run th (lock_take (S RETRIES) (Some x) j LOGDB_LOG_LOCK_WRITE 0) w =
    Done (Some F_WRLCK) (set_heap (<[x := CLock (put_lock j (-1) kk)]> (w_heap w)) w).
Proof.
  intros Hq Ek Ej. cbn [lock_take]. rewrite bool_decide_eq_false_2 by done. cbn [andb].
  rewrite bool_decide_eq_true_2 by done. cbn [andb]. change (0 =? 0) with true. cbn iota.
  unfold cas_weak. rewrite run_bind, run_prim. rewrite next_fault_quiet by done. cbn beta iota.
  rewrite (do_rmw_peek _ kk) by done. rewrite Ej. done.
Qed.

Lemma lock_at_free `{Build} th w p l o k pre c post i :
  quiet w -> peek logdb_log_t (w_heap w) p = Some (set_log_lock k l) ->
  lock_list (w_heap w) k (pre ++ c :: post) -> table_ok (pre ++ c :: post) ->
  ch_locks c !! Z.to_nat (i - ch_start c) = Some 0 ->
  get_fd (log_fd l) w = Some o -> fcntl_free o F_WRLCK i w ->
  exists h', run th (lock_at (Some p) i LOGDB_LOG_LOCK_WRITE (Some (ch_loc c)) (i - ch_start c)) w =
      Done 0 (fcntl_set o F_WRLCK i (set_heap h' w)) /\
    peek logdb_log_t h' p = Some (set_log_lock k l) /\
    lock_list h' k (pre ++ set_chunk i (-1) c :: post) /\ lock_equiv (w_heap w) h' /\
    forall x, is_Some (h' !! x) <-> is_Some (w_heap w !! x).
Proof.
  intros Hq Ep Hl [Hnd _] Ev Ho Hc. destruct (lock_list_chunk _ _ _ _ _ Hl) as (nx & Ec).
  pose proof (get_lock_chunk _ _ nx _ Ev) as Eg.
  exists (<[ch_loc c := CLock (put_lock (i - ch_start c) (-1) (mk_lock (ch_start c) (ch_locks c) nx))]> (w_heap w)).
  assert (peek logdb_log_t (<[ch_loc c := CLock (put_lock (i - ch_start c) (-1)
    (mk_lock (ch_start c) (ch_locks c) nx))]> (w_heap w)) p = Some (set_log_lock k l)) as Ep'
    by (eapply peek_log_lock_ne; done).
  split_and!.
  - unfold lock_at. run_step. rewrite (do_load_peek _ _ _ _ Ec). rewrite run_bind, Eg.
    rewrite (lock_take_free _ _ _ _ _ Hq Ec Eg). run_next.
    rewrite (do_load_peek _ _ (set_log_lock k l)) by done. run_next. by rewrite (do_setlk_free o).
  - done.
  - by apply lock_list_set.
  - apply lock_equiv_lock. by eapply peek_lock_strip.
  - intros x. destruct (decide (ch_loc c = x)) as [<-|].
    + rewrite lookup_insert_eq. split; [|by eauto]. intros _. exact (peek_is_Some _ _ _ _ Ec).
    + by rewrite lookup_insert_ne.
Qed.

(** Another process holds a lock: the in-process lock is given back. *)
Lemma inproc_unlock_loop_run th w cs k pre c post i n v :
  cs = pre ++ c :: post -> lock_list (w_heap w) k cs -> table_ok cs -> 0 <= i < 2 ^ 31 ->
  Forall (ends_before i) pre -> covers i c ->
  ch_locks c !! Z.to_nat (i - ch_start c) = Some v -> (length pre < n)%nat ->
  exists nx, peek logdb_log_lock_t (w_heap w) (ch_loc c) = Some (mk_lock (ch_start c) (ch_locks c) nx) /\
  run th (inproc_unlock_loop n k i LOGDB_LOG_LOCK_WRITE) w =
    Done tt (set_heap (<[ch_loc c := CLock (put_lock (i - ch_start c) (s32 (v + 1))
       (mk_lock (ch_start c) (ch_locks c) nx))]> (w_heap w)) w).
Proof.
  intros -> Hl [_ Hok] Hi Hpre Hcov Ev Hn. revert k n Hl Hok Hn.
  induction pre as [|d pre IH]; intros k n Hl Hok Hn; (destruct n as [|n]; [simpl in Hn; lia|]);
    simpl in Hl, Hok; destruct Hl as [-> (nx & E & Hl)]; apply Forall_cons_1 in Hok as [[Hlen Hs] Hok];
    cbn [inproc_unlock_loop]; rewrite run_bind, run_load, (do_load_peek _ _ _ _ E); cbn [lock_startindex lock_next];
    rewrite (u32_small (_ + 127)) by lia.
  - exists nx. split; [done|]. unfold covers in Hcov. rewrite (proj2 (Z.ltb_ge _ _)) by lia.
    rewrite u32_small by lia. unfold fetch_add_lock. rewrite run_prim. unfold with_cell. rewrite E.
    cbn [lock_locks]. by rewrite Ev.
  - apply Forall_cons_1 in Hpre as [Hd Hpre]. unfold ends_before in Hd.
    rewrite (proj2 (Z.ltb_lt _ _)) by lia. apply IH; try done. simpl in Hn. lia.
Qed.

Lemma inproc_unlock_run `{Build} th w p l k pre c post i v :
  peek logdb_log_t (w_heap w) p = Some l -> log_lock l = k ->
  lock_list (w_heap w) k (pre ++ c :: post) -> table_ok (pre ++ c :: post) -> 0 <= i < 2 ^ 31 ->
  Forall (ends_before i) pre -> covers i c -> ch_locks c !! Z.to_nat (i - ch_start c) = Some v ->
  exists h', run th (logdb_log_inproc_unlock (Some p) i LOGDB_LOG_LOCK_WRITE) w = Done tt (set_heap h' w) /\
    peek logdb_log_t h' p = Some l /\
    lock_list h' k (pre ++ set_chunk i (s32 (v + 1)) c :: post) /\ lock_equiv (w_heap w) h' /\
    forall x, is_Some (h' !! x) <-> is_Some (w_heap w !! x).
Proof.
  intros Ep Ek Hl Htab Hi Hpre Hcov Ev. pose proof (proj1 Htab) as Hnd. pose proof (table_size _ _ _ Hnd Hl) as Hsz.
  destruct (inproc_unlock_loop_run th w (pre ++ c :: post) k pre c post i (S (size (w_heap w))) v) as (nx & Ec & E); [done..| |].
  { rewrite length_app in Hsz. simpl in Hsz. lia. }
  eexists. split_and!.
  - unfold logdb_log_inproc_unlock. run_step. rewrite (do_load_peek _ _ l) by done. run_next. rewrite Ek. exact E.
  - by eapply peek_log_lock_ne.
  - by apply lock_list_set.
  - apply lock_equiv_lock. by eapply peek_lock_strip.
  - intros x. destruct (decide (ch_loc c = x)) as [<-|].
    + rewrite lookup_insert_eq. split; [|by eauto]. intros _. exact (peek_is_Some _ _ _ _ Ec).
    + by rewrite lookup_insert_ne.
Qed.

(** Nothing is in the way of giving up a lock. *)
Lemma fcntl_free_unlock o i w : fcntl_free o F_UNLCK i w.
Proof.
  unfold fcntl_free. apply not_true_iff_false. rewrite existsb_exists. intros (x & _ & Hx).
  unfold fcntl_conflict in Hx. by rewrite andb_false_r in Hx.
Qed.

(** The first chunk that does not end before [i] is unique. *)
Lemma chunk_unique i pre c post pre' c' post' :
  pre ++ c :: post = pre' ++ c' :: post' ->
  Forall (ends_before i) pre -> ~ ends_before i c ->
  Forall (ends_before i) pre' -> ~ ends_before i c' -> pre' = pre /\ c' = c /\ post' = post.
Proof.
  revert pre'. induction pre as [|d pre IH]; intros [|d' pre']; simpl; intros [= -> E] Hp Hc Hp' Hc'.
  - by subst.
  - by apply Forall_cons_1 in Hp' as [? _].
  - by apply Forall_cons_1 in Hp as [? _].
  - apply Forall_cons_1 in Hp as [_ Hp], Hp' as [_ Hp'].
    by destruct (IH pre' E Hp Hc Hp' Hc') as (-> & -> & ->).
Qed.

(** The chunk that covers an entry of the table is the one found. *)
Lemma found_covered i d a w w' pre c post pre' c' post' :
  Forall (ends_before i) pre -> covers i c ->
  found i d a (pre ++ c :: post) w w' pre' c' post' ->
  pre' = pre /\ c' = c /\ post' = post /\ w' = w.
Proof.
  intros Hpre Hc [Hpre' Hc' _ _ _ [[E ->]|(E & _ & Hhd & _)]]; unfold covers in *.
  - destruct (chunk_unique i pre c post pre' c' post') as (-> & -> & ->); try done; unfold ends_before; lia.
  - destruct post' as [|e r].
    + rewrite app_nil_r in E. subst pre'. apply Forall_app in Hpre' as [_ Hp].
      apply Forall_cons_1 in Hp as [Hp _]. unfold ends_before in Hp. lia.
    + specialize (Hhd e r eq_refl).
      destruct (chunk_unique i pre c post pre' e r) as (_ & -> & _); try done; unfold ends_before; lia.
Qed.

(** ** A table with no lock held, and with one *)

Definition chunk_free (c : chunk) : Prop := ch_locks c = no_locks.

(** What is locked: the chunks, and the entry the process has an [fcntl] lock on. *)
Record table := mk_table { tb_chunks :> heap -> logdb_log_t -> Prop; tb_locked : option Z }.

Definition idle_chunks (h : heap) (l : logdb_log_t) : Prop :=
  exists cs, lock_list h (log_lock l) cs /\ table_ok cs /\ Forall chunk_free cs.

(** Only the write lock on entry [i] is held. *)
Definition held_chunks (i : Z) (h : heap) (l : logdb_log_t) : Prop :=
  exists pre c post, lock_list h (log_lock l) (pre ++ set_chunk i (-1) c :: post) /\
    table_ok (pre ++ c :: post) /\ Forall chunk_free (pre ++ c :: post) /\
    Forall (ends_before i) pre /\ covers i c.

Definition table_idle : table := mk_table idle_chunks None.
Definition table_held (i : Z) : table := mk_table (held_chunks i) (Some i).
(** Nothing is locked in the process, but the [fcntl] lock on entry [i] may be
    left. *)
Definition table_leaked (i : Z) : table := mk_table idle_chunks (Some i).

(** The [fcntl] lock on entry [i]. *)
Definition entry_lock (ino pid i : Z) : fcntl_lock :=
  mk_fcntl_lock ino pid true (logdb_log_offset i) (Some (logdb_log_offset i + sizeof_log_entry)).

Lemma table_ok_set pre c post i v : table_ok (pre ++ c :: post) <-> table_ok (pre ++ set_chunk i v c :: post).
Proof.
  unfold table_ok. rewrite !fmap_app, !Forall_app. cbn [fmap list_fmap].
  assert (chunk_ok c <-> chunk_ok (set_chunk i v c)) as Hc
    by (unfold chunk_ok; simpl; by rewrite length_insert).
  rewrite !Forall_cons_iff. simpl. tauto.
Qed.

Lemma free_lookup i c : chunk_free c -> covers i c -> ch_locks c !! Z.to_nat (i - ch_start c) = Some 0.
Proof.
  unfold chunk_free, covers. intros -> Hc. unfold no_locks. rewrite lookup_replicate. split; [done|lia].
Qed.

Lemma set_chunk_free i c : chunk_free c -> covers i c -> set_chunk i (s32 (-1 + 1)) (set_chunk i (-1) c) = c.
Proof.
  intros Hf Hc. unfold set_chunk. simpl. rewrite list_insert_insert_eq.
  change (s32 (-1 + 1)) with 0. rewrite list_insert_id by by apply free_lookup. by destruct c.
Qed.

Lemma heap_fresh_dom h' w' :
  heap_fresh w' -> (forall x, is_Some (h' !! x) <-> is_Some (w_heap w' !! x)) ->
  heap_fresh (set_heap h' w').
Proof.
  intros Hf' Hd x Hx. cbn [w_heap set_heap w_next] in *. apply eq_None_not_Some. rewrite Hd.
  rewrite Hf' by done. by intros [? ?].
Qed.

(** The lock in the process is given up. *)
Lemma inproc_unlock_held_run `{Build} th w p l i :
  heap_fresh w -> peek logdb_log_t (w_heap w) p = Some l -> 0 <= i < 2 ^ 31 -> table_held i (w_heap w) l ->
  exists h', run th (logdb_log_inproc_unlock (Some p) i LOGDB_LOG_LOCK_WRITE) w = Done tt (set_heap h' w) /\
    peek logdb_log_t h' p = Some l /\ table_idle h' l /\ lock_equiv (w_heap w) h' /\ heap_fresh (set_heap h' w).
Proof.
  intros Hf Hp Hi (pre & c & post & Hl & Htab & Hfree & Hpre & Hcov).
  assert (chunk_free c) as Hcf by (by eapply Forall_middle).
  pose proof (proj1 (table_ok_set _ _ _ i (-1)) Htab) as Htab'.
  destruct (inproc_unlock_run th w p l (log_lock l) pre (set_chunk i (-1) c) post i (-1)) as (h' & E & Ep' & Hl' & Heq & Hdom);
    try done.
  { apply list_lookup_insert_eq. rewrite Hcf. unfold no_locks. rewrite length_replicate. unfold covers in Hcov. lia. }
  exists h'. split_and!; [done|done| |done|by apply heap_fresh_dom].
  exists (pre ++ c :: post). rewrite set_chunk_free in Hl' by done. done.
Qed.

Section table.
Context `{Build} (th : thread) (w : world) (p : loc) (l : logdb_log_t) (o : ofd) (i : Z).
Context (Hq : quiet w) (Hf : heap_fresh w) (Hp : peek logdb_log_t (w_heap w) p = Some l).
Context (Hi : 0 <= i < 2 ^ 31) (Ho : get_fd (log_fd l) w = Some o).

Lemma lock_idle_run :
  table_idle (w_heap w) l -> fcntl_free o F_WRLCK i w ->
  exists h' nx k, let w' := fcntl_set o F_WRLCK i (set_next nx (set_heap h' w)) in
    run th (logdb_log_lock (Some p) i LOGDB_LOG_LOCK_WRITE) w = Done 0 w' /\
    peek logdb_log_t h' p = Some (set_log_lock k l) /\ table_held i h' (set_log_lock k l) /\
    lock_equiv (w_heap w) h' /\ heap_fresh w'.
Proof.
  intros (cs & Hl & Htab & Hfree) Hc.
  destruct (log_lock_enter th w p l cs i LOGDB_LOG_LOCK_WRITE) as
    (w1 & pre & c & post & k & Hfo & Htab1 & Hq1 & Hf1 & Ep1 & Hl1 & E); [done..|].
  assert (Forall chunk_free (pre ++ c :: post)) as Hfree1.
  { destruct (fo_cases _ _ _ _ _ _ _ _ _ Hfo) as [[<- _]|(-> & -> & _)]; [done|].
    apply Forall_app in Hfree as [? ?]. apply Forall_app. split; [done|]. by constructor. }
  assert (exists nx, w1 = set_next nx (set_heap (w_heap w1) w)) as [nx Ew1].
  { destruct (fo_cases _ _ _ _ _ _ _ _ _ Hfo) as [[_ ->]|(_ & _ & _ & -> & _)]; [exists (w_next w); by destruct w|].
    by eexists. }
  assert (chunk_free c) as Hcf by (by eapply Forall_middle).
  destruct (lock_at_free th w1 p l o k pre c post i) as (h' & E' & Ep' & Hl' & Heq & Hdom); [done..| | | |].
  { apply free_lookup; [done|apply Hfo]. }
  { by rewrite Ew1. }
  { by rewrite Ew1. }
  exists h', nx, k. cbn zeta.
  assert (set_next nx (set_heap h' w) = set_heap h' w1) as -> by by rewrite Ew1.
  split_and!; [by rewrite E|done| | |].
  - exists pre, c, post. split; [done|]. split_and!; [done|done|apply Hfo|apply Hfo].
  - etransitivity; [apply Hfo|done].
  - intros x Hx. by apply (heap_fresh_dom h' w1 Hf1 Hdom).
Qed.

Lemma lock_held_run :
  table_held i (w_heap w) l ->
  run th (logdb_log_lock (Some p) i LOGDB_LOG_LOCK_WRITE) w = Done (-2) w.
Proof.
  intros (pre & c & post & Hl & Htab & Hfree & Hpre & Hcov). apply (table_ok_set _ _ _ i (-1)) in Htab.
  destruct (log_lock_enter th w p l _ i LOGDB_LOG_LOCK_WRITE Hq Hf Hp Hl Htab Hi) as
    (w1 & pre' & c' & post' & k & Hfo & _ & _ & _ & _ & Hl1 & ->).
  apply found_covered in Hfo as (-> & -> & -> & ->); [|done..].
  destruct (lock_list_chunk _ _ _ _ _ Hl) as (nx & Ec).
  apply (lock_at_busy th w _ (set_chunk i (-1) c) i nx (-1)); [done| |done].
  apply list_lookup_insert_eq. apply Forall_middle in Hfree as Hc.
  rewrite Hc. unfold no_locks. rewrite length_replicate. unfold covers in Hcov. lia.
Qed.

Lemma unlock_held_run :
  table_held i (w_heap w) l ->
  exists h', let w' := fcntl_set o F_UNLCK i (set_heap h' w) in
    run th (logdb_log_unlock (Some p) i LOGDB_LOG_LOCK_WRITE) w = Done tt w' /\
    peek logdb_log_t h' p = Some l /\ table_idle h' l /\
    lock_equiv (w_heap w) h' /\ heap_fresh w'.
Proof.
  intros Hh. destruct (inproc_unlock_held_run th (fcntl_set o F_UNLCK i w) p l i) as (h' & E & Ep' & Hidle & Heq & Hf');
    [done..|]. exists h'. cbn zeta. split; [|done].
  unfold logdb_log_unlock. run_step. rewrite (do_load_peek _ _ _ _ Hp). run_next.
  rewrite (do_setlk_free o) by (done || apply fcntl_free_unlock). exact E.
Qed.

End table.

#[local] Existing Instance debug_build.

(** ** Properties *)



(** C38. Three threads of a process ask for write locks on the entries 1, 0 and
    1: all are granted.  The chunk allocated for entry 0 also covers entry 1,
    and hides the chunk in which entry 1 is locked. *)
Theorem log_lock_shadowed `{Build} th1 th2 th3 :
  exists w1 w2 w3,
    run th1 (logdb_log_lock (Some 1) 1 LOGDB_LOG_LOCK_WRITE) (open_world 0 [] [0; 0] []) = Done 0 w1 /\
    run th2 (logdb_log_lock (Some 1) 0 LOGDB_LOG_LOCK_WRITE) w1 = Done 0 w2 /\
    run th3 (logdb_log_lock (Some 1) 1 LOGDB_LOG_LOCK_WRITE) w2 = Done 0 w3.
Proof.
  eexists. eexists. eexists. split; [vm_compute; reflexivity|].
  split; [vm_compute; reflexivity|]. vm_compute. reflexivity.
Qed.
