(* ===== verification/DbState.v ===== *)
(** * The state of an open database

    [db_state c D es bs r T w]: the connection at [c] is open on a database
    whose file holds [bs] and whose log has the entries [es]; [r] threads hold
    the connection's lock for reading, and the lock table satisfies [T].  [D]
    collects what stays the same while the connection is open.  [same_rest]
    says an operation left everything else alone. *)

From S2P Require Import Prelude Machine World Posix Io Layout Log LogSpec Buffer.
From S2P Require Import BufferSpec LogLock LockSpec.

Record desc := mk_desc {
  d_fd : Z; d_log : loc; d_logfd : Z; d_path : option string;
  d_dbino : Z; d_logino : Z; d_flags : Z; d_key : Z; d_pid : Z
}.

Definition the_conn (D : desc) (r : Z) : logdb_connection_t :=
  mk_connection LOGDB_VERSION (mk_rwlock r false) (d_flags D) (d_fd D) (Some (d_log D)) (d_key D).

Record db_state (c : loc) (D : desc) (es : list Z) (bs : list byte) (r : Z)
    (T : table) (w : world) : Prop := mk_db_state {
  ds_quiet : quiet w;
  ds_fresh : heap_fresh w;
  ds_conn : peek logdb_connection_t (w_heap w) c = Some (the_conn D r);
  ds_log : exists l, peek logdb_log_t (w_heap w) (d_log D) = Some l /\
    log_fd l = d_logfd D /\ log_path l = d_path D /\ T (w_heap w) l;
  ds_dbfd : exists o, get_fd (d_fd D) w = Some o /\ fd_ino o = d_dbino D /\ 0 <= fd_pos o /\ fd_append o = false;
  ds_logfd : exists o, get_fd (d_logfd D) w = Some o /\ fd_ino o = d_logino D /\ 0 <= fd_pos o /\
    fd_append o = true /\ fd_pid o = d_pid D;
  ds_db : os_inodes (w_os w) !! d_dbino D = Some bs;
  ds_logfile : os_inodes (w_os w) !! d_logino D = Some (log_image es);
  ds_ne : d_dbino D <> d_logino D /\ d_fd D <> d_logfd D;
  ds_entries : Forall entry_ok es;
  ds_count : zlen es <= 65536;
  ds_fcntl k : k ∈ os_fcntl (w_os w) -> fl_ino k = d_logino D ->
    exists i, tb_locked T = Some i /\ k = entry_lock (d_logino D) (d_pid D) i
}.

(** ** What does not belong to the database *)

(** The cell, unless it is the connection's. *)
Definition user_cell (c : option cell) : option cell :=
  match c with Some (CLock _ | CLog _ | CConn _) => None | c => c end.

Definition user_equiv (h h' : heap) : Prop := forall x, user_cell (h !! x) = user_cell (h' !! x).

#[export] Instance user_equiv_equivalence : Equivalence user_equiv.
Proof. split; repeat intro; congruence. Qed.

Lemma lock_user_equiv h h' : lock_equiv h h' -> user_equiv h h'.
Proof.
  intros He x. specialize (He x). destruct (h !! x) as [[]|], (h' !! x) as [[]|]; simpl in *; congruence.
Qed.

Class UserCell (T : Type) `{Cell T} := user_of_cell c (t : T) :
  of_cell c = Some t -> user_cell (Some c) = Some c.
#[export] Instance user_bytes : UserCell (list byte).
Proof. intros []; by simpl. Qed.
#[export] Instance user_buffer : UserCell logdb_buffer_t.
Proof. intros []; by simpl. Qed.
#[export] Instance user_txn : UserCell logdb_txn_t.
Proof. intros []; by simpl. Qed.
#[export] Instance user_iter : UserCell logdb_iter_t.
Proof. intros []; by simpl. Qed.

Lemma user_equiv_cell h h' l c :
  user_equiv h h' -> h !! l = Some c -> user_cell (Some c) = Some c -> h' !! l = Some c.
Proof.
  intros He E Hc. specialize (He l). rewrite E, Hc in He.
  destruct (h' !! l) as [[]|]; simpl in He; congruence.
Qed.

Lemma user_equiv_peek T `{UserCell T} h h' l (t : T) :
  user_equiv h h' -> peek T h l = Some t -> peek T h' l = Some t.
Proof.
  intros He (c & E & Hc)%peek_cell. unfold peek.
  rewrite (user_equiv_cell _ _ _ _ He E) by (by eapply user_of_cell). done.
Qed.

Lemma user_equiv_le h h' : user_equiv h h' -> heap_le h h'.
Proof.
  intros He. split; [|intros l bs E; exact (user_equiv_peek (list byte) _ _ _ _ He E)].
  intros l b E. exists b. split; [|done]. exact (user_equiv_peek logdb_buffer_t _ _ _ _ He E).
Qed.

(** The caller's memory is still there; there may be more. *)
Definition user_kept (h h' : heap) : Prop :=
  forall x y, h !! x = Some y -> user_cell (Some y) = Some y -> h' !! x = Some y.

#[export] Instance user_kept_preorder : PreOrder user_kept.
Proof. split; [by intros h x y|]. intros a b c Hab Hbc x y Ex Hy. by apply Hbc; [apply Hab|]. Qed.

Lemma user_equiv_kept h h' : user_equiv h h' -> user_kept h h'.
Proof. intros He x y Ex Hy. by eapply user_equiv_cell. Qed.

Lemma user_kept_subseteq h h' : h ⊆ h' -> user_kept h h'.
Proof. intros Hs x y Ex _. by eapply lookup_weaken. Qed.

Lemma user_kept_peek T `{UserCell T} h h' x (t : T) : user_kept h h' -> peek T h x = Some t -> peek T h' x = Some t.
Proof.
  intros Hk (y & Ex & Hy)%peek_cell. unfold peek. rewrite (Hk x y Ex); [done|]. by eapply user_of_cell.
Qed.

Lemma user_kept_le h h' : user_kept h h' -> heap_le h h'.
Proof.
  intros Hk. split; [|intros l bs E; by eapply (user_kept_peek (list byte))].
  intros l b E. exists b. split; [|done]. by eapply (user_kept_peek logdb_buffer_t).
Qed.

Lemma user_equiv_insert h h' x c : user_equiv h h' -> user_equiv (<[x := c]> h) (<[x := c]> h').
Proof.
  intros He y. destruct (decide (x = y)) as [<-|]; [by rewrite !lookup_insert_eq|].
  rewrite !lookup_insert_ne by done. apply He.
Qed.

(** Everything but the database's own files, descriptors and structs. *)
Record same_rest (D : desc) (w w' : world) : Prop := mk_same_rest {
  sr_heap : user_equiv (w_heap w) (w_heap w');
  sr_tls : w_tls w' = w_tls w;
  sr_key : w_next_key w' = w_next_key w;
  sr_disposed : w_disposed w' = w_disposed w;
  sr_dir : os_dir (w_os w') = os_dir (w_os w);
  sr_env : os_env (w_os w') = os_env (w_os w);
  sr_flock : os_flock (w_os w') = os_flock (w_os w);
  sr_next_fd : os_next_fd (w_os w') = os_next_fd (w_os w);
  sr_next_ino : os_next_ino (w_os w') = os_next_ino (w_os w);
  sr_fds d : d <> d_fd D -> d <> d_logfd D -> os_fds (w_os w') !! d = os_fds (w_os w) !! d;
  sr_fcntl k : k ∈ os_fcntl (w_os w') -> k ∈ os_fcntl (w_os w) \/ fl_ino k = d_logino D;
  sr_inodes i : i <> d_dbino D -> i <> d_logino D -> os_inodes (w_os w') !! i = os_inodes (w_os w) !! i
}.

(** A world that differs in the database's files, descriptors and structs. *)
Ltac rest_step :=
  constructor; try done; try (by intros; left); try (intros; simpl; apply lookup_insert_ne; congruence).

#[export] Instance same_rest_preorder D : PreOrder (same_rest D).
Proof.
  split; [intros w; rest_step|]. intros w1 w2 w3 H1 H2.
  constructor; try (destruct H1, H2; first [congruence|by etransitivity]).
  - intros d ??. by rewrite (sr_fds _ _ _ H2), (sr_fds _ _ _ H1).
  - intros k [Hk|Hk]%(sr_fcntl _ _ _ H2); [|by right]. by apply (sr_fcntl _ _ _ H1).
  - intros i ??. by rewrite (sr_inodes _ _ _ H2), (sr_inodes _ _ _ H1).
Qed.

(** The connection's lock word is not part of what [same_rest] looks at. *)
Lemma same_rest_heap D w h :
  user_equiv (w_heap w) h -> same_rest D w (set_heap h w).
Proof. intros He. by rest_step. Qed.

Lemma user_equiv_conn h c k k' :
  peek logdb_connection_t h c = Some k -> user_equiv h (<[c := CConn k']> h).
Proof.
  intros (x & E & Hx)%peek_cell y. destruct x; try done.
  destruct (decide (c = y)) as [<-|]; [by rewrite lookup_insert_eq, E|by rewrite lookup_insert_ne].
Qed.
