(* ===== verification/Lease.v ===== *)
(** * Leases: src/src/logdb_lease.c

    A lease is the right to read or to append to one section of the database.
    A write lease locks the section's log entry; every lease holds the
    connection's lock for reading.  The functions that fill in the caller's
    [logdb_lease_t] take it and return it. *)

From S2P Require Import Prelude Machine World Posix Io Layout Log LogLock.

Section lease.
Context `{Build}.

(** ** Operations *)

(** The result, and the length in the entry read. *)
Definition logdb_lease_read_entry_space (log : ptr) (index size : Z) : prog (bool * Z) :=
  let! (offset, len) := logdb_log_read_entry log index in
  if offset =? -1 then Ret (false, len) else
  let freespace := LOGDB_SECTION_SIZE - len in
  Ret (size <=? u32 freespace, len).

Definition logdb_lease_acquire_prelude (lease : logdb_lease_t) (conn : ptr) : prog (Z * logdb_lease_t) :=
  if DEBUG && bool_decide (conn = None) then Ret (-1, lease) else
  let lease := set_lease_connection None lease in
  let! err := rwlock_rdlock conn in
  if negb (err =? 0) then Ret (-1, lease) else Ret (0, lease).

Definition logdb_lease_acqire_read (lease : logdb_lease_t) (conn : ptr) (index offset : Z)
    : prog (Z * logdb_lease_t) :=
  let! (r, lease) := logdb_lease_acquire_prelude lease conn in
  if negb (r =? 0) then Ret (-1, lease) else
  let! c := load logdb_connection_t conn in
  let! (r, len) := logdb_log_read_entry (conn_log c) index in
  if r =? -1 then
    do! rwlock_unlock conn in
    Ret (-1, lease)
  else if (offset <? 0) || (len <=? offset) then
    do! rwlock_unlock conn in
    Ret (-1, lease)
  else Ret (0, mk_lease conn index offset (u32 (len - offset)) LOGDB_LOG_LOCK_NONE).

(** The loop over the last entries; [fuel] is one more than
    [LOGDB_LEASE_MAX_WALK - visited].  [offset], [index] and [visited] when it
    ends. *)
Fixpoint walk_entries (fuel : nat) (log : ptr) (size index visited : Z) : prog (Z * Z * Z) :=
  match fuel with
  | O => no_fuel
  | S fuel' =>
      if index =? 0 then Ret (-1, u32 (index - 1), visited) else
      let index := index - 1 in
      if visited <? LOGDB_LEASE_MAX_WALK then
        let visited := visited + 1 in
        let! (space, len) := logdb_lease_read_entry_space log index size in
        if space : bool then Ret (len, index, visited)
        else walk_entries fuel' log size index visited
      else Ret (-1, index, visited + 1)
  end.

(** Append an entry for a new section: the index, or [None] after an error.
    The result of [write] is compared as an unsigned number. *)
Definition append_entry (logfd : Z) : prog (option Z) :=
  let! r := sys_write logfd (bytes_u16 0) in
  if u64 r <? sizeof_log_entry then Ret None else
  let! offset := sys_lseek logfd 0 SEEK_CUR in
  if offset <? 0 then Ret None else
  Ret (Some (u32 (logdb_log_index_from_offset offset - 1))).

(** From [walk] on: one of the last entries with enough space, else a new one.
    The offset in it, its index and [visited], or [None] after an error. *)
Definition choose_section (log : ptr) (logfd size visited : Z) : prog (option (Z * Z * Z)) :=
  let! offset := sys_lseek logfd 0 SEEK_END in
  if offset =? -1 then Ret None else
  let index := u32 (logdb_log_index_from_offset offset - visited) in
  let! (offset, index, visited) :=
    walk_entries (S (Z.to_nat LOGDB_LEASE_MAX_WALK)) log size index 0 in
  if offset <? 0 then
    let! new := append_entry logfd in
    Ret (match new with Some index => Some (0, index, 1) | None => None end)
  else Ret (Some (offset, index, visited)).

(** Choose a section and lock it, and start over when that fails or when the
    section has filled up in between. *)
Fixpoint acquire_walk (fuel : nat) (lease : logdb_lease_t) (conn : ptr) (size visited : Z)
    : prog (Z * logdb_lease_t) :=
  match fuel with
  | O => no_fuel
  | S fuel' =>
      let! c := load logdb_connection_t conn in
      let! l := load logdb_log_t (conn_log c) in
      let! place := choose_section (conn_log c) (log_fd l) size visited in
      match place with
      | None =>
          do! rwlock_unlock conn in
          Ret (-1, lease)
      | Some (offset, index, visited) =>
          let! r := logdb_log_lock (conn_log c) index LOGDB_LOG_LOCK_WRITE in
          if negb (r =? 0) then acquire_walk fuel' lease conn size visited else
          let! (space, _) := logdb_lease_read_entry_space (conn_log c) index size in
          if negb space then acquire_walk fuel' lease conn size visited else
          Ret (0, mk_lease conn index offset size LOGDB_LOG_LOCK_WRITE)
      end
  end.

Definition logdb_lease_acquire_write (lease : logdb_lease_t) (conn : ptr) (size : Z)
    : prog (Z * logdb_lease_t) :=
  if LOGDB_SECTION_SIZE <? size then Ret (-1, lease) else
  let! (r, lease) := logdb_lease_acquire_prelude lease conn in
  if negb (r =? 0) then Ret (-1, lease) else
  acquire_walk (S RETRIES) lease conn size 0.

(** The lease after [bytes] of it were used: the new offset is 64 bits, the
    new length 32. *)
Definition lease_advance (bytes : Z) (lease : logdb_lease_t) : logdb_lease_t :=
  mk_lease (lease_connection lease) (lease_index lease) (s64 (lease_offset lease + bytes))
    (u32 (lease_len lease - bytes)) (lease_type lease).

(** The amount not read, as a [size_t], and the data read. *)
Definition logdb_lease_read (lease : logdb_lease_t) (len : Z) : prog (Z * list byte * logdb_lease_t) :=
  if lease_len lease <? len then Ret (len, [], lease) else
  let offset := logdb_connection_offset (lease_index lease) + lease_offset lease in
  let! c := load logdb_connection_t (lease_connection lease) in
  let! (r, data) := logdb_io_pread (conn_fd c) len offset in
  let notread := u64 r in
  Ret (notread, data, lease_advance (u64 (len - notread)) lease).

Definition logdb_lease_write (lease : logdb_lease_t) (buf : ptr) (len : Z) : prog (Z * logdb_lease_t) :=
  if DEBUG && bool_decide (buf = None) then Ret (len, lease) else
  if lease_len lease <? len then Ret (len, lease) else
  let offset := logdb_connection_offset (lease_index lease) + lease_offset lease in
  let! c := load logdb_connection_t (lease_connection lease) in
  let! data := load_mem buf len in
  let! notwritten := logdb_io_pwrite (conn_fd c) data offset in
  Ret (notwritten, lease_advance (u64 (len - notwritten)) lease).

Definition logdb_lease_seek (lease : logdb_lease_t) (offset : Z) : Z * logdb_lease_t :=
  if DEBUG && ((lease_offset lease + offset <? 0) || (lease_len lease <? offset)) then (-1, lease) else
  let lease := lease_advance offset lease in
  (lease_offset lease, lease).

Definition logdb_lease_release (lease : logdb_lease_t) : prog logdb_lease_t :=
  if DEBUG && bool_decide (lease_connection lease = None) then Ret lease else
  do! (if decide (lease_type lease = LOGDB_LOG_LOCK_NONE) then Ret tt else
       let! c := load logdb_connection_t (lease_connection lease) in
       logdb_log_unlock (conn_log c) (lease_index lease) (lease_type lease)) in
  do! rwlock_unlock (lease_connection lease) in
  Ret (set_lease_connection None lease).

End lease.
