(* ===== verification/LeaseSpec.v ===== *)
(** * The specification of leases

    The lease operations on an open database, when no call fails and the
    thread is not interrupted: which section a write lease is on
    ([place]), what reading and writing through it does, and what releasing it
    restores. *)

From S2P Require Import Prelude Machine World Posix Io Layout Log LogSpec Buffer.
From S2P Require Import BufferSpec LogLock LockSpec DbState Lease.

(** ** Which section *)

(** The last of the entries before [i] with room for [size] bytes, looking at
    [n] of them at most. *)
Fixpoint pick (n i : nat) (es : list Z) (size : Z) : option (nat * Z) :=
  match n, i with
  | S n', S i' =>
      match es !! i' with
      | Some e => if e + size <=? LOGDB_SECTION_SIZE then Some (i', e) else pick n' i' es size
      | None => None
      end
  | _, _ => None
  end.

(** The section a write lease is on, how much of it is in use, and the log
    then: one of the last four sections, or a new one. *)
Definition place (es : list Z) (size : Z) : nat * Z * list Z :=
  match pick (Z.to_nat LOGDB_LEASE_MAX_WALK) (length es) es size with
  | Some (i, e) => (i, e, es)
  | None => (length es, 0, es ++ [0])
  end.

Lemma pick_some n i es size j e :
  pick n i es size = Some (j, e) -> es !! j = Some e /\ e + size <= LOGDB_SECTION_SIZE /\ (j < i)%nat.
Proof.
  revert i. induction n as [|n IH]; intros [|i]; try done. cbn [pick].
  destruct (es !! i) as [x|] eqn:E; [|done]. destruct (Z.leb_spec (x + size) LOGDB_SECTION_SIZE).
  - intros [= <- <-]. split_and!; [done|lia|lia].
  - intros (? & ? & ?)%IH. split_and!; [done..|lia].
Qed.

Lemma place_spec es size i e es' :
  0 <= size <= LOGDB_SECTION_SIZE -> place es size = (i, e, es') ->
  es' !! i = Some e /\ e + size <= LOGDB_SECTION_SIZE /\ (es' = es \/ es' = es ++ [0] /\ i = length es).
Proof.
  intros Hs. unfold place. destruct (pick _ _ _ _) as [[j x]|] eqn:E; intros [= <- <- <-].
  - apply pick_some in E as (? & ? & ?). split_and!; [done|lia|by left].
  - rewrite lookup_app_r, Nat.sub_diag by lia. split_and!; [done|lia|by right].
Qed.

(** ** Views of the state *)

Section views.
Context (c : loc) (D : desc) (es : list Z) (bs : list byte) (r : Z) (T : table) (w : world).
Context (Hdb : db_state c D es bs r T w).

Lemma db_log_ok :
  exists l o, log_ok (d_log D) l o es w /\ log_fd l = d_logfd D /\ log_path l = d_path D /\
    T (w_heap w) l /\ get_fd (d_logfd D) w = Some o /\ fd_ino o = d_logino D /\ fd_append o = true /\
    fd_pid o = d_pid D.
Proof.
  destruct (ds_log _ _ _ _ _ _ _ Hdb) as (l & El & Hfd & Hpath & HT).
  destruct (ds_logfd _ _ _ _ _ _ _ Hdb) as (o & Eo & Hino & Hpos & Happ & Hpid).
  pose proof (ds_logfile _ _ _ _ _ _ _ Hdb) as Ef. rewrite <- Hino in Ef.
  exists l, o. split; [|by rewrite ?Hfd]. constructor; [done| | | |].
  - rewrite Hfd. split_and!; [done|by rewrite Ef|done].
  - unfold get_file. by rewrite Ef.
  - apply Hdb.
  - pose proof (ds_count _ _ _ _ _ _ _ Hdb). lia.
Qed.

Lemma db_fcntl_free o op i :
  fd_ino o = d_logino D -> fd_pid o = d_pid D -> fcntl_free o op i w.
Proof.
  intros Hino Hpid. unfold fcntl_free. apply not_true_iff_false. rewrite existsb_exists.
  intros (k & Hk & Hc). unfold fcntl_conflict in Hc.
  apply andb_prop in Hc as [Hc _]. apply andb_prop in Hc as [Hc _]. apply andb_prop in Hc as [H1 H2].
  apply Z.eqb_eq in H1. rewrite Hino in H1. apply list_elem_of_In in Hk.
  destruct (ds_fcntl _ _ _ _ _ _ _ Hdb k Hk H1) as (j & _ & ->). cbn [fl_pid entry_lock] in H2. by rewrite Hpid, Z.eqb_refl in H2.
Qed.

Lemma db_entry i e : es !! i = Some e -> 0 <= e < 65536.
Proof. intros E. exact (Forall_lookup_1 _ _ _ _ (ds_entries _ _ _ _ _ _ _ Hdb) E). Qed.

(** The connection's cell is neither the log's nor a chunk. *)
Lemma db_conn_ne l : peek logdb_log_t (w_heap w) l <> None -> c <> l.
Proof.
  intros Hl ->. pose proof (ds_conn _ _ _ _ _ _ _ Hdb) as Hc. unfold peek in *.
  destruct (w_heap w !! l) as [[]|]; done.
Qed.

End views.

(** What changes of the state with the heap, the lock table and the descriptors. *)
Lemma lock_list_conn h k cs x cn c :
  peek logdb_connection_t h x = Some cn -> lock_list h k cs -> lock_list (<[x := CConn c]> h) k cs.
Proof.
  intros Ex Hl. apply lock_list_insert; [|done]. intros d Hd Heq.
  destruct (lock_list_in _ _ _ _ Hl Hd) as [y Hy].
  revert k Hl. induction cs as [|e cs IH]; [by apply not_elem_of_nil in Hd|].
  intros k [_ (nx & Ee & Hl)]. apply elem_of_cons in Hd as [->|Hd]; [|by eapply IH].
  rewrite Heq in Ee. unfold peek in *. destruct (h !! x) as [[]|]; done.
Qed.

(** The lock table is not about other cells. *)
Class TableFrame (T : table) := {
  table_conn h l x cn c : peek logdb_connection_t h x = Some cn -> T h l -> T (<[x := CConn c]> h) l;
  table_user h h' l : (forall x c, h !! x = Some c -> user_cell (Some c) = None -> h' !! x = Some c) ->
    T h l -> T h' l
}.

Lemma lock_list_user h h' k cs :
  (forall x c, h !! x = Some c -> user_cell (Some c) = None -> h' !! x = Some c) ->
  lock_list h k cs -> lock_list h' k cs.
Proof.
  intros Hh. revert k. induction cs as [|d cs IH]; intros k; [done|]. intros [-> (nx & E & Hl)].
  split; [done|]. exists nx. split; [|by apply IH].
  destruct (peek_cell _ _ _ _ E) as (x & Ex & Hx). unfold peek. by rewrite (Hh _ _ Ex) by (by destruct x).
Qed.

#[export] Instance table_idle_frame : TableFrame table_idle.
Proof.
  split.
  - intros h l x cn c Ex (cs & Hl & Ht). exists cs. split; [|done]. by eapply lock_list_conn.
  - intros h h' l Hh (cs & Hl & Ht). exists cs. split; [|done]. by eapply lock_list_user.
Qed.

#[export] Instance table_held_frame i : TableFrame (table_held i).
Proof.
  split.
  - intros h l x cn c Ex (pre & d & post & Hl & Ht). exists pre, d, post. split; [|done].
    by eapply lock_list_conn.
  - intros h h' l Hh (pre & d & post & Hl & Ht). exists pre, d, post. split; [|done].
    by eapply lock_list_user.
Qed.

(** ** The connection's lock *)

Section conn_lock.
Context (c : loc) (D : desc) (es : list Z) (bs : list byte) (T : table) `{TableFrame T}.

Lemma db_state_readers r r' w :
  db_state c D es bs r T w ->
  db_state c D es bs r' T (set_heap (<[c := CConn (the_conn D r')]> (w_heap w)) w) /\
  same_rest D w (set_heap (<[c := CConn (the_conn D r')]> (w_heap w)) w).
Proof.
  intros Hdb. pose proof (ds_conn _ _ _ _ _ _ _ Hdb) as Ec.
  split; [|by apply same_rest_heap; eapply user_equiv_conn].
  constructor; try apply Hdb.
  - apply heap_fresh_store; [apply Hdb|]. exact (peek_is_Some _ _ _ _ Ec).
  - exact (peek_insert logdb_connection_t _ _ _).
  - destruct (ds_log _ _ _ _ _ _ _ Hdb) as (l & El & ? & ? & HT). exists l.
    split_and!; [|done|done|by eapply table_conn].
    cbn [w_heap set_heap]. rewrite peek_insert_ne; [done|]. by eapply db_conn_ne; [|rewrite El].
Qed.

Lemma rdlock_run th r w :
  db_state c D es bs r T w ->
  exists w', run th (rwlock_rdlock (Some c)) w = Done 0 w' /\
    db_state c D es bs (r + 1) T w' /\ same_rest D w w'.
Proof.
  intros Hdb. pose proof (ds_conn _ _ _ _ _ _ _ Hdb) as Ec. eexists.
  split; [|by apply (db_state_readers r)]. unfold rwlock_rdlock. rewrite run_prim. unfold with_rwlock.
  rewrite next_fault_quiet by apply Hdb. unfold with_cell. rewrite Ec. done.
Qed.

Lemma rwunlock_run th r w :
  db_state c D es bs r T w ->
  exists w', run th (rwlock_unlock (Some c)) w = Done tt w' /\
    db_state c D es bs (r - 1) T w' /\ same_rest D w w'.
Proof.
  intros Hdb. pose proof (ds_conn _ _ _ _ _ _ _ Hdb) as Ec. eexists.
  split; [|by apply (db_state_readers r)]. unfold rwlock_unlock. rewrite run_rmw.
  by rewrite (do_rmw_peek _ _ _ _ Ec).
Qed.

Lemma prelude_run `{Build} th r lease w :
  db_state c D es bs r T w ->
  exists w', run th (logdb_lease_acquire_prelude lease (Some c)) w =
      Done (0, set_lease_connection None lease) w' /\
    db_state c D es bs (r + 1) T w' /\ same_rest D w w'.
Proof.
  intros Hdb. destruct (rdlock_run th r w Hdb) as (w' & E & ? & ?). exists w'. split; [|done].
  unfold logdb_lease_acquire_prelude. rewrite bool_decide_eq_false_2 by done. rewrite andb_false_r.
  rewrite run_bind, E. done.
Qed.

End conn_lock.

(** ** Choosing a section *)

Section choose.
Context `{Build} (th : thread) (c : loc) (D : desc) (es : list Z) (bs : list byte) (r : Z)
  (T : table) (w : world).
Context (Hdb : db_state c D es bs r T w).

Lemma db_read_entry_run i :
  0 <= i ->
  run th (logdb_log_read_entry (Some (d_log D)) i) w =
    Done (match es !! Z.to_nat i with Some e => (logdb_log_offset i, e) | None => (-1, 0) end) w.
Proof.
  intros Hi. destruct (db_log_ok _ _ _ _ _ _ _ Hdb) as (l & o & Hl & _).
  eapply read_entry_run; [apply Hdb|done|done].
Qed.

Lemma entry_space_run i size e :
  0 <= i -> es !! Z.to_nat i = Some e ->
  run th (logdb_lease_read_entry_space (Some (d_log D)) i size) w =
    Done (e + size <=? LOGDB_SECTION_SIZE, e) w.
Proof.
  intros Hi E. unfold logdb_lease_read_entry_space. rewrite run_bind, db_read_entry_run, E by done.
  unfold logdb_log_offset, sizeof_log_header, sizeof_log_entry, LOGDB_SECTION_SIZE.
  rewrite (proj2 (Z.eqb_neq _ _)) by lia. pose proof (db_entry _ _ _ _ _ _ _ Hdb _ _ E).
  rewrite u32_small by lia. rewrite run_ret. do 2 f_equal. apply eq_iff_eq_true.
  rewrite !Z.leb_le. lia.
Qed.

Lemma walk_entries_run n i size :
  (i <= length es)%nat -> (n <= 4)%nat ->
  exists idx vis, run th (walk_entries (S n) (Some (d_log D)) size (Z.of_nat i) (4 - Z.of_nat n)) w =
    Done (match pick n i es size with
          | Some (j, e) => (e, Z.of_nat j, vis)
          | None => (-1, idx, vis)
          end) w.
Proof.
  revert i. induction n as [|n IH]; intros i Hi Hn; cbn [walk_entries].
  - destruct (Z.eqb_spec (Z.of_nat i) 0); [by eexists _, _|]. eexists _, _. done.
  - destruct i as [|i]; [by eexists _, _|]. rewrite (proj2 (Z.eqb_neq _ _)) by lia.
    unfold LOGDB_LEASE_MAX_WALK. rewrite (proj2 (Z.ltb_lt _ _)) by lia.
    replace (Z.of_nat (S i) - 1) with (Z.of_nat i) by lia.
    destruct (lookup_lt_is_Some_2 es i) as [e E]; [lia|].
    rewrite run_bind, (entry_space_run _ _ e) by (rewrite ?Nat2Z.id; done || lia).
    cbn [pick]. rewrite E. cbn beta iota. destruct (e + size <=? LOGDB_SECTION_SIZE).
    + by eexists (-1), _.
    + replace (4 - Z.of_nat (S n) + 1) with (4 - Z.of_nat n) by lia. apply IH; lia.
Qed.

End choose.

(** A new entry at the end of the log. *)
Lemma append_entry_run `{Build} th c D es bs r T w `{TableFrame T} :
  db_state c D es bs r T w -> zlen es < 65536 ->
  exists w', run th (append_entry (d_logfd D)) w = Done (Some (zlen es)) w' /\
    db_state c D (es ++ [0]) bs r T w' /\ same_rest D w w' /\ w_heap w' = w_heap w.
Proof.
  intros Hdb Hlen. destruct (ds_logfd _ _ _ _ _ _ _ Hdb) as (o & Eo & Hino & Hpos & Happ & Hpid).
  pose proof (ds_logfile _ _ _ _ _ _ _ Hdb) as Ef. pose proof (ds_ne _ _ _ _ _ _ _ Hdb) as [Hne Hfd].
  assert (get_file (fd_ino o) w = log_image es) as Hf by (unfold get_file; by rewrite Hino, Ef).
  pose proof (length_log_image es) as HL.
  unfold append_entry. run_step. rewrite (do_write_append_quiet _ ltac:(apply Hdb) _ _ o) by done.
  rewrite Hf, length_bytes_u16. change (u64 (Z.of_nat 2) <? sizeof_log_entry) with false. cbn iota.
  run_next. erewrite do_lseek_quiet; [|apply Hdb|apply put_fd_get|cbn; lia]. cbn [fd_pos set_fd_pos].
  rewrite (proj2 (Z.ltb_ge _ _)) by lia.
  replace (Z.of_nat (length (log_image es)) + Z.of_nat 2 + 0) with (logdb_log_offset (zlen es + 1))
    by (unfold logdb_log_offset, sizeof_log_header, sizeof_log_entry; lia).
  rewrite log_index_of_offset by lia. replace (zlen es + 1 - 1) with (zlen es) by lia.
  rewrite u32_small by lia. eexists. split; [done|].
  unfold w0. rewrite <- log_image_snoc.
  assert (forall p, 0 <= p -> let w' := put_fd (d_logfd D) (set_fd_pos p o) (put_file (fd_ino o) (log_image (es ++ [0])) w) in
    db_state c D (es ++ [0]) bs r T w' /\ same_rest D w w' /\ w_heap w' = w_heap w) as Hst.
  { intros p Hp. cbn zeta. split_and!; [| |done].
    - constructor; try apply Hdb.
      + destruct (ds_dbfd _ _ _ _ _ _ _ Hdb) as (o' & ? & ?). exists o'. by rewrite put_fd_get_ne by done.
      + exists (set_fd_pos p o). by rewrite put_fd_get.
      + simpl. rewrite Hino, lookup_insert_ne by done. apply Hdb.
      + simpl. by rewrite Hino, lookup_insert_eq.
      + apply Forall_app. split; [apply Hdb|]. constructor; [|constructor]. unfold entry_ok. lia.
      + rewrite length_app. simpl. lia.
    - rest_step. }
  rewrite put_fd_twice. apply (Hst (logdb_log_offset (zlen es + 1))).
  unfold logdb_log_offset, sizeof_log_header, sizeof_log_entry. lia.
Qed.

(** ** Acquiring *)

Section acquire.
Context `{Build} (th : thread) (c : loc) (D : desc) (es : list Z) (bs : list byte) (r : Z).

(** Moving the log's file position. *)
Lemma log_seek_state T w o p :
  db_state c D es bs r T w -> get_fd (d_logfd D) w = Some o -> 0 <= p ->
  db_state c D es bs r T (put_fd (d_logfd D) (set_fd_pos p o) w) /\
  same_rest D w (put_fd (d_logfd D) (set_fd_pos p o) w).
Proof.
  intros Hdb Eo Hp. split; [|by rest_step]. pose proof (ds_ne _ _ _ _ _ _ _ Hdb) as [_ Hfd].
  constructor; try apply Hdb.
  - destruct (ds_dbfd _ _ _ _ _ _ _ Hdb) as (o' & ? & ?). exists o'. by rewrite put_fd_get_ne by done.
  - destruct (ds_logfd _ _ _ _ _ _ _ Hdb) as (o' & Eo' & ?). assert (o' = o) as -> by congruence.
    exists (set_fd_pos p o). rewrite put_fd_get. simpl. tauto.
Qed.

(** The state after the lock table and the process's [fcntl] locks changed. *)
Lemma relock_state (T T' : table) w o op i h' nx l :
  db_state c D es bs r T w ->
  let w' := fcntl_set o op i (set_next nx (set_heap h' w)) in
  fd_pid o = d_pid D -> fd_ino o = d_logino D -> peek logdb_log_t h' (d_log D) = Some l ->
  log_fd l = d_logfd D -> log_path l = d_path D -> T' h' l ->
  (forall k, k ∈ os_fcntl (w_os w') -> fl_ino k = d_logino D ->
    exists j, tb_locked T' = Some j /\ k = entry_lock (d_logino D) (d_pid D) j) ->
  lock_equiv (w_heap w) h' -> heap_fresh w' ->
  db_state c D es bs r T' w' /\ same_rest D w w'.
Proof.
  intros Hdb w' Hpid Hino' El Hfd Hpath HT Hk' He Hf. split.
  - constructor; try apply Hdb; [exact Hf| | |].
    + exact (lock_equiv_peek logdb_connection_t _ _ _ _ He (ds_conn _ _ _ _ _ _ _ Hdb)).
    + by exists l.
    + exact Hk'.
  - rest_step; [by apply lock_user_equiv|]. intros k [Hk|[_ Hk]]%fcntl_apply_own; [by left|right; congruence].
Qed.

Lemma lock_state_run w i :
  db_state c D es bs r table_idle w -> 0 <= i < 2 ^ 31 ->
  exists w', run th (logdb_log_lock (Some (d_log D)) i LOGDB_LOG_LOCK_WRITE) w = Done 0 w' /\
    db_state c D es bs r (table_held i) w' /\ same_rest D w w'.
Proof.
  intros Hdb Hi.
  destruct (db_log_ok _ _ _ _ _ _ _ Hdb) as (l & o & Hl & Hfd & Hpath & HT & Eo & Hino & Happ & Hpid).
  destruct (lock_idle_run th w (d_log D) l o i) as (h' & nx & k & E & Ep & Hheld & He & Hf);
    [apply Hdb|apply Hdb|apply Hl|done|by rewrite Hfd|done|by eapply db_fcntl_free|].
  eexists. split; [exact E|]. eapply (relock_state table_idle (table_held i)); [done..| |done|done].
  intros x Hx Hxi. exists i. split; [done|]. unfold entry_lock. rewrite <- Hpid, <- Hino.
  eapply fcntl_apply_first; [|exact Hx|congruence]. intros y Hy Hyi.
  destruct (ds_fcntl _ _ _ _ _ _ _ Hdb y Hy) as (? & ? & _); [congruence|done].
Qed.

Lemma unlock_state_run w i :
  db_state c D es bs r (table_held i) w -> 0 <= i < 2 ^ 31 ->
  exists w', run th (logdb_log_unlock (Some (d_log D)) i LOGDB_LOG_LOCK_WRITE) w = Done tt w' /\
    db_state c D es bs r table_idle w' /\ same_rest D w w'.
Proof.
  intros Hdb Hi.
  destruct (db_log_ok _ _ _ _ _ _ _ Hdb) as (l & o & Hl & Hfd & Hpath & HT & Eo & Hino & Happ & Hpid).
  destruct (unlock_held_run th w (d_log D) l o i) as (h' & E & Ep & Hidle & He & Hf);
    [apply Hdb|apply Hdb|apply Hl|done|by rewrite Hfd|done|].
  eexists. split; [exact E|].
  replace (set_heap h' w) with (set_next (w_next w) (set_heap h' w)) in * by by destruct w.
  eapply (relock_state (table_held i) table_idle); [done..| |done|done].
  intros x Hx Hxi. exfalso. eapply fcntl_apply_last; [| |exact Hx|congruence].
  - intros y Hy Hyi. destruct (ds_fcntl _ _ _ _ _ _ _ Hdb y Hy) as (j & [= <-] & ->); [congruence|]. by rewrite Hino, Hpid.
  - unfold sizeof_log_entry. lia.
Qed.

End acquire.

(** ** The operations on leases *)

Section operations.
Context `{Build} (th : thread) (c : loc) (D : desc).

Lemma choose_section_run es bs r w size i e es' :
  db_state c D es bs r table_idle w -> zlen es < 65536 -> place es size = (i, e, es') ->
  exists w' vis, run th (choose_section (Some (d_log D)) (d_logfd D) size 0) w =
      Done (Some (e, Z.of_nat i, vis)) w' /\
    db_state c D es' bs r table_idle w' /\ same_rest D w w'.
Proof.
  intros Hdb Hlen Hpl. unfold choose_section.
  destruct (db_log_ok _ _ _ _ _ _ _ Hdb) as (l & o & Hl & _ & _ & _ & Eo & _).
  pose proof (length_log_image es) as HL. run_step.
  rewrite (do_lseek_quiet _ ltac:(apply Hdb) _ _ _ o) by (done || rewrite (lo_file _ _ _ _ _ Hl); lia).
  rewrite (lo_file _ _ _ _ _ Hl), Z.add_0_r.
  destruct (log_seek_state c D es bs r table_idle w o (zlen (log_image es)) Hdb Eo ltac:(lia))
    as [Hdb2 Hr2]. set (w2 := put_fd _ _ w) in *.
  rewrite (proj2 (Z.eqb_neq _ _)) by lia. rewrite HL.
  replace (6 + 2 * zlen es) with (logdb_log_offset (Z.of_nat (length es)))
    by (unfold logdb_log_offset, sizeof_log_header, sizeof_log_entry; lia).
  rewrite log_index_of_offset, Z.sub_0_r, u32_small by lia. run_step.
  destruct (walk_entries_run th c D es bs r table_idle w2 Hdb2 4 (length es) size)
    as (idx & vis & Ew); [lia..|]. change (4 - Z.of_nat 4) with 0 in Ew.
  change (S (Z.to_nat LOGDB_LEASE_MAX_WALK)) with 5%nat. rewrite Ew.
  unfold place in Hpl. change (Z.to_nat LOGDB_LEASE_MAX_WALK) with 4%nat in Hpl.
  destruct (pick 4 (length es) es size) as [[j x]|] eqn:Ep; injection Hpl as <- <- <-; cbn beta iota.
  - apply pick_some in Ep as (Ej & _ & _). pose proof (db_entry _ _ _ _ _ _ _ Hdb _ _ Ej).
    rewrite (proj2 (Z.ltb_ge _ _)) by lia. by exists w2, vis.
  - destruct (append_entry_run th c D es bs r table_idle w2 Hdb2 Hlen) as (w3 & E3 & ? & ? & _).
    exists w3, 1. change (-1 <? 0) with true. cbn iota. split; [by rewrite run_bind, E3|].
    split; [done|by etransitivity].
Qed.

(** Acquiring a write lease: the section is the one [place] gives. *)
Lemma acquire_write_run es bs r w lease size i e es' :
  db_state c D es bs r table_idle w -> 0 <= size <= LOGDB_SECTION_SIZE -> zlen es < 65536 ->
  place es size = (i, e, es') ->
  exists w', run th (logdb_lease_acquire_write lease (Some c) size) w =
      Done (0, mk_lease (Some c) (Z.of_nat i) e size LOGDB_LOG_LOCK_WRITE) w' /\
    db_state c D es' bs (r + 1) (table_held (Z.of_nat i)) w' /\ same_rest D w w'.
Proof.
  intros Hdb Hs Hlen Hpl. pose proof (place_spec _ _ _ _ _ Hs Hpl) as (Ei & Hroom & _).
  unfold logdb_lease_acquire_write. rewrite (proj2 (Z.ltb_ge _ _)) by lia.
  destruct (prelude_run c D es bs table_idle th r lease w Hdb) as (w1 & E1 & Hdb1 & Hr1).
  rewrite run_bind, E1. cbn beta iota. change (negb (0 =? 0)) with false. cbn iota. cbn [acquire_walk].
  destruct (db_log_ok _ _ _ _ _ _ _ Hdb1) as (l & o & Hl & Hfd & _).
  run_step. rewrite (do_load_peek _ _ _ _ (ds_conn _ _ _ _ _ _ _ Hdb1)). run_step. cbn [conn_log the_conn].
  rewrite (do_load_peek _ _ l) by apply Hl. run_step. rewrite Hfd.
  destruct (choose_section_run es bs (r + 1) w1 size i e es' Hdb1 Hlen Hpl) as (w2 & vis & E2 & Hdb2 & Hr2).
  rewrite E2. cbn beta iota. run_step.
  assert (0 <= Z.of_nat i < 2 ^ 31) as Hi.
  { apply lookup_lt_Some in Ei. pose proof (ds_count _ _ _ _ _ _ _ Hdb2). lia. }
  destruct (lock_state_run th c D es' bs (r + 1) w2 (Z.of_nat i) Hdb2 Hi) as (w3 & E3 & Hdb3 & Hr3).
  rewrite E3. change (negb (0 =? 0)) with false. cbn iota. rewrite run_bind.
  rewrite (entry_space_run th c D es' bs (r + 1) _ w3 Hdb3 (Z.of_nat i) size e ltac:(lia)
    ltac:(by rewrite Nat2Z.id)).
  rewrite (proj2 (Z.leb_le _ _)) by lia. exists w3. split; [done|]. split; [done|].
  do 2 (etransitivity; [eassumption|]). done.
Qed.

End operations.

(** ** Using a lease *)

Section lease_use.
Context `{Build} (th : thread) (c : loc) (D : desc).

(** The database file after a write. *)
Lemma write_db_state es bs bs' r T w :
  db_state c D es bs r T w ->
  db_state c D es bs' r T (put_file (d_dbino D) bs' w) /\ same_rest D w (put_file (d_dbino D) bs' w).
Proof.
  intros Hdb. pose proof (ds_ne _ _ _ _ _ _ _ Hdb) as [Hne _]. split.
  - constructor; try apply Hdb; simpl; [by rewrite lookup_insert_eq|].
    rewrite lookup_insert_ne by done. apply Hdb.
  - rest_step.
Qed.

Lemma lease_write_run es bs r T w i off len t p n d :
  db_state c D es bs r T w -> mem_bytes (w_heap w) p n = Some d ->
  0 <= i < 65536 -> 0 <= off -> n <= len < 2 ^ 32 -> off + n < 2 ^ 62 ->
  exists w', run th (logdb_lease_write (mk_lease (Some c) i off len t) p n) w =
      Done (0, mk_lease (Some c) i (off + n) (len - n) t) w' /\
    db_state c D es (file_write (logdb_connection_offset i + off) d bs) r T w' /\ same_rest D w w' /\
    w_heap w' = w_heap w.
Proof.
  intros Hdb Hd Hi Hoff Hlen Hsz. pose proof (mem_bytes_length _ _ _ _ Hd) as Hn.
  assert (lease_advance (u64 (n - 0)) (mk_lease (Some c) i off len t) =
    mk_lease (Some c) i (off + n) (len - n) t) as Hadv.
  { unfold lease_advance. simpl. rewrite Z.sub_0_r, u64_small, s64_small, u32_small by lia. done. }
  unfold logdb_lease_write. cbn [lease_len lease_index lease_offset lease_connection].
  destruct (DEBUG && bool_decide (p = None)) eqn:Ep.
  - apply andb_prop in Ep as [_ ->%bool_decide_eq_true]. unfold mem_bytes in Hd.
    destruct (Z.eqb_spec n 0) as [->|]; [|done]. injection Hd as <-. exists w.
    rewrite file_write_nil, Z.add_0_r, Z.sub_0_r. done.
  - rewrite (proj2 (Z.ltb_ge _ _)) by lia. run_step.
    rewrite (do_load_peek _ _ _ _ (ds_conn _ _ _ _ _ _ _ Hdb)). rewrite run_bind.
    rewrite (load_mem_run _ _ _ _ _ Hd). cbn beta iota. run_step. cbn [conn_fd the_conn].
    destruct (ds_dbfd _ _ _ _ _ _ _ Hdb) as (o & Eo & Hino & Hpos & Happ).
    assert (open_fd (d_fd D) o w) as Hopen.
    { split_and!; [done|by rewrite Hino, (ds_db _ _ _ _ _ _ _ Hdb)|done]. }
    rewrite (pwrite_quiet _ _ _ _ _ o); [|apply Hdb|done|rewrite connection_offset_small; lia].
    cbn beta iota. run_step. rewrite Hadv. rewrite Hino.
    assert (get_file (d_dbino D) w = bs) as -> by (unfold get_file; by rewrite (ds_db _ _ _ _ _ _ _ Hdb)).
    eexists. split; [done|].
    destruct (write_db_state es bs (file_write (logdb_connection_offset i + off) d bs) r T w Hdb). done.
Qed.

(** Releasing a write lease. *)
Lemma release_write_run es bs r w i off len :
  db_state c D es bs r (table_held i) w -> 0 <= i < 2 ^ 31 ->
  exists w', run th (logdb_lease_release (mk_lease (Some c) i off len LOGDB_LOG_LOCK_WRITE)) w =
      Done (mk_lease None i off len LOGDB_LOG_LOCK_WRITE) w' /\
    db_state c D es bs (r - 1) table_idle w' /\ same_rest D w w'.
Proof.
  intros Hdb Hi. unfold logdb_lease_release. cbn [lease_connection lease_type lease_index].
  rewrite bool_decide_eq_false_2, andb_false_r by done. rewrite decide_False by done.
  rewrite run_bind, run_bind, run_load, (do_load_peek _ _ _ _ (ds_conn _ _ _ _ _ _ _ Hdb)). cbn [conn_log the_conn].
  destruct (unlock_state_run th c D es bs r w i Hdb Hi) as (w1 & -> & Hdb1 & Hr1).
  destruct (rwunlock_run c D es bs table_idle th r w1 Hdb1) as (w2 & E2 & Hdb2 & Hr2).
  rewrite run_bind, E2. exists w2. split; [done|]. split; [done|]. by etransitivity.
Qed.

Lemma release_read_run es bs r w i off len :
  db_state c D es bs r table_idle w ->
  exists w', run th (logdb_lease_release (mk_lease (Some c) i off len LOGDB_LOG_LOCK_NONE)) w =
      Done (mk_lease None i off len LOGDB_LOG_LOCK_NONE) w' /\
    db_state c D es bs (r - 1) table_idle w' /\ same_rest D w w'.
Proof.
  intros Hdb. unfold logdb_lease_release. cbn [lease_connection lease_type lease_index].
  rewrite bool_decide_eq_false_2, andb_false_r by done. rewrite decide_True by done.
  destruct (rwunlock_run c D es bs table_idle th r w Hdb) as (w2 & E2 & Hdb2 & Hr2).
  rewrite run_bind, run_ret, run_bind, E2. by exists w2.
Qed.

(** A read lease on the rest of a section. *)
Lemma acquire_read_run es bs r w lease i off e :
  db_state c D es bs r table_idle w -> es !! i = Some e -> 0 <= off < e ->
  exists w', run th (logdb_lease_acqire_read lease (Some c) (Z.of_nat i) off) w =
      Done (0, mk_lease (Some c) (Z.of_nat i) off (e - off) LOGDB_LOG_LOCK_NONE) w' /\
    db_state c D es bs (r + 1) table_idle w' /\ same_rest D w w'.
Proof.
  intros Hdb Ei Hoff. pose proof (db_entry _ _ _ _ _ _ _ Hdb _ _ Ei) as He.
  destruct (prelude_run c D es bs table_idle th r lease w Hdb) as (w1 & E1 & Hdb1 & Hr1).
  exists w1. split; [|done]. unfold logdb_lease_acqire_read. rewrite run_bind, E1. cbn beta iota.
  change (negb (0 =? 0)) with false. cbn iota.
  rewrite run_bind, run_load, (do_load_peek _ _ _ _ (ds_conn _ _ _ _ _ _ _ Hdb1)). cbn [conn_log the_conn].
  rewrite run_bind, (db_read_entry_run th c D es bs (r + 1) _ w1 Hdb1), Nat2Z.id, Ei by lia.
  unfold logdb_log_offset, sizeof_log_header, sizeof_log_entry. rewrite (proj2 (Z.eqb_neq _ _)) by lia.
  rewrite (proj2 (Z.ltb_ge off 0)), (proj2 (Z.leb_gt e off)) by lia. cbn [orb].
  rewrite u32_small by lia. done.
Qed.

Lemma lease_read_run es bs r T w i off len t n :
  db_state c D es bs r T w -> 0 <= i < 65536 -> 0 <= off -> 0 < n <= len -> len < 2 ^ 32 ->
  off + n < 2 ^ 62 -> logdb_connection_offset i + off + n <= zlen bs ->
  run th (logdb_lease_read (mk_lease (Some c) i off len t) n) w =
    Done (0, file_read (logdb_connection_offset i + off) n bs, mk_lease (Some c) i (off + n) (len - n) t) w.
Proof.
  intros Hdb Hi Hoff Hn Hlen Hsz Hin. unfold logdb_lease_read.
  cbn [lease_len lease_index lease_offset lease_connection].
  rewrite (proj2 (Z.ltb_ge _ _)) by lia.
  rewrite run_bind, run_load, (do_load_peek _ _ _ _ (ds_conn _ _ _ _ _ _ _ Hdb)). cbn [conn_fd the_conn].
  destruct (ds_dbfd _ _ _ _ _ _ _ Hdb) as (o & Eo & Hino & Hpos & Happ).
  assert (open_fd (d_fd D) o w) as Hopen.
  { split_and!; [done|by rewrite Hino, (ds_db _ _ _ _ _ _ _ Hdb)|done]. }
  assert (get_file (fd_ino o) w = bs) as Hf by (unfold get_file; by rewrite Hino, (ds_db _ _ _ _ _ _ _ Hdb)).
  rewrite run_bind, (pread_quiet _ _ _ _ _ o); [|apply Hdb|done|rewrite connection_offset_small; lia|lia].
  rewrite Hf, (proj2 (Z.leb_le _ _)) by lia. cbn beta iota. rewrite run_ret.
  change (u64 0) with 0. rewrite Z.sub_0_r. unfold lease_advance. simpl.
  rewrite u64_small, s64_small, u32_small by lia. done.
Qed.

End lease_use.
