(* ===== verification/Txn.v ===== *)
(** * Transactions: src/src/logdb_txn.c

    The transactions of a thread form a stack in thread-specific data.  A
    transaction collects its records in a buffer; committing the outermost one
    writes the buffer to a leased section, and only then the section's entry
    in the log. *)

From S2P Require Import Prelude Machine World Posix Io Layout Log LogLock Buffer.
From S2P Require Import Lease.

Section txn.
Context `{Build}.

(** ** Operations *)

(** [LOGDB_VERIFY_CONNECTION]: is the argument refused? *)
Definition verify_connection (conn : ptr) : prog bool :=
  if DEBUG then
    match conn with
    | None => Ret false
    | Some _ => let! c := load logdb_connection_t conn in Ret (conn_version c =? LOGDB_VERSION)
    end
  else Ret true.

Definition logdb_txn_current (conn : ptr) : prog ptr :=
  let! c := load logdb_connection_t conn in
  pthread_getspecific (conn_current_txn_key c).

Definition logdb_txn_set_current (conn txn : ptr) : prog Z :=
  let! c := load logdb_connection_t conn in
  pthread_setspecific (conn_current_txn_key c) txn.

Fixpoint txn_write_buf_loop (fuel : nat) (lease : logdb_lease_t) (buf : ptr) : prog (Z * logdb_lease_t) :=
  match fuel with
  | O => no_fuel
  | S fuel' =>
      let! b := load logdb_buffer_t buf in
      let! (r, lease) := match buf_orig b with
                         | Some _ => txn_write_buf_loop fuel' lease (buf_orig b)
                         | None => logdb_lease_write lease (buf_data b) (buf_len b)
                         end in
      if negb (r =? 0) then Ret (-1, lease) else
      match buf_next b with
      | Some _ => txn_write_buf_loop fuel' lease (buf_next b)
      | None => Ret (0, lease)
      end
  end.

Definition logdb_txn_write_buf (lease : logdb_lease_t) (buf : ptr) : prog (Z * logdb_lease_t) :=
  let! fuel := heap_size in
  txn_write_buf_loop fuel lease buf.

Definition logdb_txn_begin_implicit (conn : ptr) : prog ptr :=
  let! txn := alloc (mk_txn None None) in
  match txn with
  | None => Ret None
  | Some _ =>
      let! outer := logdb_txn_current conn in
      do! upd txn (set_txn_outer outer) in
      Ret txn
  end.

(** [logdb_txn_close (NULL, txn)]: with all outer transactions. *)
Fixpoint txn_close_all (fuel : nat) (txn : ptr) : prog unit :=
  match fuel with
  | O => no_fuel
  | S fuel' =>
      let! t := load logdb_txn_t txn in
      do! match txn_outer t with
          | Some _ => txn_close_all fuel' (txn_outer t)
          | None => Ret tt
          end in
      let! t := load logdb_txn_t txn in
      do! match txn_buf t with Some _ => logdb_buffer_free (txn_buf t) | None => Ret tt end in
      free txn
  end.

Definition logdb_txn_close (conn txn : ptr) : prog unit :=
  match conn with
  | Some _ =>
      let! t := load logdb_txn_t txn in
      do! logdb_txn_set_current conn (txn_outer t) in
      let! t := load logdb_txn_t txn in
      do! match txn_buf t with Some _ => logdb_buffer_free (txn_buf t) | None => Ret tt end in
      free txn
  | None =>
      let! fuel := heap_size in
      txn_close_all fuel txn
  end.

Definition is_durable (flags : Z) : bool :=
  negb (Z.land flags LOGDB_OPEN_NOSYNC =? LOGDB_OPEN_NOSYNC).

(** The part of [logdb_txn_commit] that holds the lease: data, [fsync], the
    log entry, [fsync]. *)
Definition commit_write (conn txn : ptr) (lease : logdb_lease_t) : prog Z :=
  let! t := load logdb_txn_t txn in
  let! (r, lease) := logdb_txn_write_buf lease (txn_buf t) in
  if negb (r =? 0) then
    do! logdb_lease_release lease in
    Ret (-1)
  else
    let! c := load logdb_connection_t conn in
    let durable := is_durable (conn_flags c) in
    let! s := (if durable then sys_fsync (conn_fd c) else Ret 0) in
    if s =? -1 then
      do! logdb_lease_release lease in
      Ret (-1)
    else
      let! r := logdb_log_write_entry (conn_log c) (u16 (lease_offset lease)) (lease_index lease) in
      if negb (r =? 0) then
        do! logdb_lease_release lease in
        Ret (-1)
      else
        do! (if durable then
               let! l := load logdb_log_t (conn_log c) in
               do! sys_fsync (log_fd l) in
               Ret tt
             else Ret tt) in
        do! logdb_lease_release lease in
        Ret 0.

(** An uninitialised [logdb_lease_t]: [logdb_lease_acquire_write] fills it in
    before anything is read from it. *)
Definition no_lease : logdb_lease_t := mk_lease None 0 0 0 LOGDB_LOG_LOCK_NONE.

Definition logdb_txn_commit (conn txn : ptr) : prog Z :=
  let! t := load logdb_txn_t txn in
  let! len := logdb_buffer_length (txn_buf t) in
  if len =? 0 then
    do! logdb_txn_close conn txn in
    Ret 0
  else
    match txn_outer t with
    | Some _ =>
        do! match txn_buf t with
            | Some _ =>
                let! o := load logdb_txn_t (txn_outer t) in
                let! b := logdb_buffer_append (txn_buf o) (txn_buf t) in
                upd (txn_outer t) (set_txn_buf b)
            | None => Ret tt
            end in
        do! logdb_txn_close conn txn in
        Ret 0
    | None =>
        let! (r, lease) := logdb_lease_acquire_write no_lease conn len in
        if negb (r =? 0) then Ret (-1) else
        let! r := commit_write conn txn lease in
        if negb (r =? 0) then Ret (-1) else
        do! logdb_txn_close conn txn in
        Ret 0
    end.

Definition logdb_txn_commit_implicit (conn txn : ptr) : prog Z :=
  let! result := logdb_txn_commit conn txn in
  do! (if negb (result =? 0) then logdb_txn_close conn txn else Ret tt) in
  Ret result.

Definition logdb_begin (conn : ptr) : prog Z :=
  let! ok := verify_connection conn in
  if negb ok then Ret (-1) else
  let! txn := logdb_txn_begin_implicit conn in
  match txn with
  | None => Ret (-1)
  | Some _ => logdb_txn_set_current conn txn
  end.

Definition logdb_put (conn key value : ptr) : prog Z :=
  let! ok := verify_connection conn in
  if negb ok then Ret (-1) else
  if DEBUG && (bool_decide (key = None) || bool_decide (value = None)) then Ret (-1) else
  let! keylen := logdb_buffer_length key in
  let! valuelen := logdb_buffer_length value in
  let! headerbuf := logdb_buffer_new_copy (Some (data_header_bytes (mk_data_header keylen valuelen))) in
  match headerbuf with
  | None => Ret (-1)
  | Some _ =>
      let! txn := logdb_txn_begin_implicit conn in
      match txn with
      | None =>
          do! logdb_buffer_free headerbuf in
          Ret (-1)
      | Some _ =>
          let! b := logdb_buffer_append headerbuf key in
          let! b := logdb_buffer_append b value in
          do! upd txn (set_txn_buf b) in
          logdb_txn_commit_implicit conn txn
      end
  end.

Definition logdb_commit (conn : ptr) : prog Z :=
  let! ok := verify_connection conn in
  if negb ok then Ret (-1) else
  let! txn := logdb_txn_current conn in
  match txn with
  | None => Ret (-1)
  | Some _ => logdb_txn_commit conn txn
  end.

Definition logdb_rollback (conn : ptr) : prog Z :=
  let! ok := verify_connection conn in
  if negb ok then Ret (-1) else
  let! txn := logdb_txn_current conn in
  match txn with
  | None => Ret (-1)
  | Some _ =>
      do! logdb_txn_close conn txn in
      Ret 0
  end.

Definition logdb_txn_destruct (current_txn : ptr) : prog unit :=
  match current_txn with
  | None => Ret tt
  | Some _ => logdb_txn_close None current_txn
  end.

Definition logdb_txn_rollback_all (conn : ptr) : prog unit :=
  let! txn := logdb_txn_current conn in
  logdb_txn_destruct txn.

End txn.
