(* ===== verification/Silent.v ===== *)
(** * Steps that leave the files alone

    [keeps g p]: no step of [p], in any world, changes what [g] looks at;
    [silent p] when that is the files, what of them is on the disk, and the
    directory.  [p] at [w] [reaches] [q] at [v] when it gets there by such
    steps; [atomic] says that an execution changes the files at one moment.
    An invariant of the files then holds along the execution because it holds
    before and after that moment.  Most of the library is silent: that is
    found by [silent_solve]. *)

From S2P Require Import Prelude Machine World Posix Io Layout Log Buffer LogLock.
From S2P Require Import Lease Txn.

(** What the crash of a process leaves, and the last state of each file that
    is on the disk for sure. *)
Definition durable (w : world) : gmap Z (list byte) := os_durable (w_os w).
Definition files (w : world) : gmap string Z * gmap Z (list byte) * gmap Z (list byte) :=
  (os_dir (w_os w), os_inodes (w_os w), durable w).

Fixpoint keeps {A B} (g : world -> B) (p : prog A) : Prop :=
  match p with
  | Ret _ => True
  | Step f k => (forall th w x w', f th w = Done x w' -> g w' = g w) /\ forall x, keeps g (k x)
  end.

Abbreviation silent := (keeps files).

Lemma keeps_compose {A B C} (g : world -> B) (h : B -> C) (p : prog A) : keeps g p -> keeps (fun w => h (g w)) p.
Proof.
  induction p as [a|X f k IH]; [done|]. intros [Hf Hk]. split; [|intros x; by apply IH].
  intros th w x w' E. by rewrite (Hf _ _ _ _ E).
Qed.

Lemma silent_durable {A} (p : prog A) : silent p -> keeps durable p.
Proof. apply (keeps_compose files snd). Qed.

Definition dir (w : world) : gmap string Z := os_dir (w_os w).

Lemma silent_dir {A} (p : prog A) : silent p -> keeps dir p.
Proof. apply (keeps_compose files (fun x => fst (fst x))). Qed.

Lemma keeps_bind {A B C} (g : world -> C) (p : prog A) (q : A -> prog B) :
  keeps g p -> (forall a, keeps g (q a)) -> keeps g (bind p q).
Proof.
  induction p as [a|X f k IH]; intros Hp Hq; [apply Hq|]. destruct Hp as [Hf Hk]. cbn [bind keeps].
  split; [done|]. intros x. by apply IH.
Qed.

Lemma keeps_prim {X B} (g : world -> B) (f : thread -> world -> outcome X) :
  (forall th w x w', f th w = Done x w' -> g w' = g w) -> keeps g (prim f).
Proof. intros Hf. split; [done|]. by intros. Qed.

Lemma keeps_run {A B} (g : world -> B) th (p : prog A) w a w' : keeps g p -> run th p w = Done a w' -> g w' = g w.
Proof.
  revert w. induction p as [b|X f k IH]; intros w Hs E; cbn [run] in *; [by injection E as -> ->|].
  destruct Hs as [Hf Hk]. destruct (f th w) as [x w1| | |] eqn:Ef; try done.
  rewrite (IH x w1) by done. by eapply Hf.
Qed.

(** A predicate on worlds that looks at the files only. *)
Class OnFiles (I : world -> Prop) := on_files w w' : files w' = files w -> I w -> I w'.
(** ** Reaching *)

Section reaches.
Context (th : thread).

Inductive reaches {A} : prog A -> world -> prog A -> world -> Prop :=
| reaches_refl p w : reaches p w p w
| reaches_step X (f : thread -> world -> outcome X) k w x w' q v :
    f th w = Done x w' -> files w' = files w -> reaches (k x) w' q v -> reaches (Step f k) w q v.

Lemma reaches_run {A} (p q : prog A) w v : reaches p w q v -> run th p w = run th q v.
Proof. induction 1 as [|X f k w x w' q v E _ _ IH]; [done|]. cbn [run]. by rewrite E. Qed.

Lemma reaches_files {A} (p q : prog A) w v : reaches p w q v -> files v = files w.
Proof. induction 1 as [|X f k w x w' q v E Hf _ IH]; [done|]. by rewrite IH. Qed.

Lemma reaches_always {A} I `{OnFiles I} (p q : prog A) w v : reaches p w q v -> always th I q v -> always th I p w.
Proof.
  induction 1 as [|X f k w x w' q v E Hf _ IH]; [done|]. intros Ha. specialize (IH Ha). cbn [always].
  pose proof (always_here _ _ _ _ IH) as Hw. split; [by apply (on_files w' w)|]. by rewrite E.
Qed.

Lemma reaches_bind {A B} (p : prog A) (q : A -> prog B) w a w' r v :
  silent p -> run th p w = Done a w' -> reaches (q a) w' r v -> reaches (bind p q) w r v.
Proof.
  revert w. induction p as [b|X f k IH]; intros w Hs E Hr; cbn [run bind] in *; [by injection E as -> ->|].
  destruct Hs as [Hf Hk]. destruct (f th w) as [x w1| | |] eqn:Ef; try done.
  eapply reaches_step; [done|by eapply Hf|]. by apply (IH x).
Qed.

Lemma silent_always {A} I `{OnFiles I} (p : prog A) w : silent p -> I w -> always th I p w.
Proof.
  revert w. induction p as [b|X f k IH]; intros w Hs Hi; cbn [always]; [done|]. destruct Hs as [Hf Hk]. split; [done|].
  destruct (f th w) as [x w1| | |] eqn:Ef; try done. apply IH; [done|]. eapply on_files; [by eapply Hf|done].
Qed.

(** A part of an execution whose end is known. *)
Lemma always_run {A B} I (p : prog A) (q : A -> prog B) w a w' :
  run th p w = Done a w' -> always th I p w -> always th I (q a) w' -> always th I (bind p q) w.
Proof. intros E Hp Hq. apply always_bind; [done|]. intros b v E'. rewrite E in E'. by injection E' as <- <-. Qed.

Lemma always_silent {A B} I `{OnFiles I} (p : prog A) (q : A -> prog B) w a w' :
  run th p w = Done a w' -> silent p -> I w -> (I w' -> always th I (q a) w') -> always th I (bind p q) w.
Proof.
  intros E Hs Hi Hq. eapply always_run; [done|by apply silent_always|]. apply Hq.
  eapply on_files; [by eapply keeps_run|done].
Qed.

(** An execution that keeps the invariant, and how it ends. *)
Definition safely {A} (I : world -> Prop) (p : prog A) (w : world) (a : A) (w' : world) : Prop :=
  run th p w = Done a w' /\ always th I p w.

Lemma safely_bind {A B} I (p : prog A) (q : A -> prog B) w a w1 b w2 :
  safely I p w a w1 -> safely I (q a) w1 b w2 -> safely I (bind p q) w b w2.
Proof. intros [Ep Hp] [Eq Hq]. split; [by rewrite run_bind, Ep|]. by eapply always_run. Qed.

Lemma safely_silent {A} I `{OnFiles I} (p : prog A) w a w' :
  run th p w = Done a w' -> silent p -> I w -> safely I p w a w'.
Proof. intros E Hs Hw. split; [done|by apply silent_always]. Qed.

Lemma always_end {A} I (p : prog A) w a w' : always th I p w -> run th p w = Done a w' -> I w'.
Proof.
  revert w. induction p as [b|X f k IH]; intros w; cbn [always run]; [by intros [? _] [= _ <-]|].
  intros [_ Hk] E. destruct (f th w) as [x w1| | |]; try done. by eapply IH.
Qed.

(** A silent rest of the program. *)
Lemma always_rest {A B} I `{OnFiles I} (p : prog A) (q : A -> prog B) w :
  always th I p w -> (forall a w', run th p w = Done a w' -> silent (q a)) -> always th I (bind p q) w.
Proof.
  intros Hp Hq. apply always_bind; [done|]. intros a w' E. apply silent_always; [done|by eapply Hq|by eapply always_end].
Qed.

Lemma rest_files {A B} (p : prog A) (q : A -> prog B) w a w1 b w2 :
  run th p w = Done a w1 -> silent (q a) -> run th (bind p q) w = Done b w2 -> files w2 = files w1.
Proof. intros E Hs. rewrite run_bind, E. by apply keeps_run. Qed.

Lemma always_and {A} (I J : world -> Prop) (p : prog A) w :
  always th I p w -> always th J p w -> always th (fun v => I v /\ J v) p w.
Proof.
  revert w. induction p as [b|X f k IH]; intros w; cbn [always]; intros [Hi Hk] [Hj Hl]; [done|].
  split; [done|]. destruct (f th w); try done. by apply IH.
Qed.

Lemma keeps_always {A B} (g : world -> B) (p : prog A) w : keeps g p -> always th (fun v => g v = g w) p w.
Proof.
  revert w. induction p as [b|X f k IH]; intros w; cbn [keeps always]; [done|]. intros [Hf Hk]. split; [done|].
  destruct (f th w) as [x w1| | |] eqn:E; try done. pose proof (Hf _ _ _ _ E) as E1. specialize (IH x w1 (Hk x)).
  by rewrite E1 in IH.
Qed.

(** ** One change *)

Definition atomic {A} (p : prog A) (w : world) : Prop :=
  always th (fun v => files v = files w \/ forall a w', run th p w = Done a w' -> files v = files w') p w.

Lemma always_mono {A} (I J : world -> Prop) (p : prog A) w : (forall v, I v -> J v) -> always th I p w -> always th J p w.
Proof.
  intros HIJ. revert w. induction p as [b|X f k IH]; intros w; cbn [always]; intros [Hi Hk]; (split; [by apply HIJ|]); [done|].
  destruct (f th w); try done. by apply IH.
Qed.

Lemma atomic_always {A} I `{OnFiles I} (p : prog A) w a w' :
  run th p w = Done a w' -> atomic p w -> I w -> I w' -> always th I p w.
Proof. intros E Ha Hw Hw'. eapply always_mono; [|done]. intros v [Ev|Ev]; [by eapply on_files|]. by eapply on_files; [eapply Ev|]. Qed.

Lemma safely_atomic {A} I `{OnFiles I} (p : prog A) w a w' :
  run th p w = Done a w' -> atomic p w -> I w -> I w' -> safely I p w a w'.
Proof. intros E Hs Hw Hw'. split; [done|by eapply atomic_always]. Qed.

#[export] Instance same_files_on_files w0 : OnFiles (fun v => files v = files w0).
Proof. intros v v' Ev Hv. by rewrite Ev. Qed.

Lemma atomic_silent {A} (p : prog A) w : silent p -> atomic p w.
Proof.
  intros Hs. eapply always_mono; [|by apply (silent_always (fun v => files v = files w))]. by left.
Qed.

Lemma atomic_prim {X} (f : thread -> world -> outcome X) w : atomic (prim f) w.
Proof.
  split; [by left|]. destruct (f th w) as [x w'| | |] eqn:E; try done. split; [|done]. right.
  intros a v Ea. rewrite run_prim, E in Ea. by injection Ea as _ <-.
Qed.

Lemma atomic_before {A B} (p : prog A) (q : A -> prog B) w :
  silent p -> (forall a w', run th p w = Done a w' -> atomic (q a) w') -> atomic (bind p q) w.
Proof.
  intros Hs Hq. apply always_bind.
  - eapply always_mono; [|by apply (silent_always (fun v => files v = files w))]. by left.
  - intros a w1 E. pose proof (keeps_run _ _ _ _ _ _ Hs E) as Ef. eapply always_mono; [|exact (Hq a w1 E)].
    cbn beta. intros v [Hv|Hv]; [left; by rewrite Hv|right]. intros b w2. rewrite run_bind, E. apply Hv.
Qed.

Lemma atomic_after {A B} (p : prog A) (q : A -> prog B) w :
  atomic p w -> (forall a w', run th p w = Done a w' -> silent (q a)) -> atomic (bind p q) w.
Proof.
  intros Hp Hq. apply always_bind.
  - eapply always_mono; [|exact Hp]. cbn beta. intros v [Hv|Hv]; [by left|right]. intros b w2. rewrite run_bind.
    destruct (run th p w) as [a w1| | |] eqn:E; try done. intros E2. rewrite (Hv a w1) by done.
    symmetry. by eapply keeps_run; [eapply Hq|].
  - intros a w1 E. pose proof (Hq a w1 E) as Hs. eapply always_mono; [|by apply (silent_always (fun v => files v = files w1))].
    cbn beta. intros v Hv. right. intros b w2. rewrite run_bind, E. intros E2. rewrite Hv. symmetry. by eapply keeps_run.
Qed.

End reaches.

(** ** What is silent *)

(** The primitives: case analysis on what they test. *)
Ltac silent_prim_solve :=
  apply keeps_prim; unfold files, durable, dir; intros th w x w' E;
  cbv [do_load do_rmw do_alloc do_free do_dispose do_load_bytes with_cell with_fd with_rwlock do_pread do_read do_lseek do_write do_pwrite do_fsync
       do_setlk do_flock next_fault] in E;
  repeat (case_match; try done); simplify_eq/=; done.

Lemma silent_load T `{Cell T} p : silent (load T p).
Proof. silent_prim_solve. Qed.
Lemma silent_rmw {T X} `{Cell T} p (g : T -> T * X) : silent (rmw p g).
Proof. silent_prim_solve. Qed.
Lemma silent_upd {T} `{Cell T} p (g : T -> T) : silent (upd p g).
Proof. apply silent_rmw. Qed.
Lemma silent_alloc {T} `{Cell T} (t : T) : silent (alloc t).
Proof. silent_prim_solve. Qed.
Lemma silent_free p : silent (free p).
Proof. silent_prim_solve. Qed.
Lemma silent_dispose d p : silent (dispose d p).
Proof. silent_prim_solve. Qed.
Lemma silent_load_mem p n : silent (load_mem p n).
Proof. unfold load_mem. destruct (n =? 0); [done|]. silent_prim_solve. Qed.
Lemma silent_cas_weak {T} `{Cell T} p (get : T -> Z) put e d : silent (cas_weak p get put e d).
Proof. silent_prim_solve. Qed.
Lemma silent_heap_size : silent heap_size.
Proof. silent_prim_solve. Qed.
Lemma silent_undef {A} u : silent (undef u : prog A).
Proof. silent_prim_solve. Qed.
Lemma silent_no_fuel {A} : silent (no_fuel : prog A).
Proof. silent_prim_solve. Qed.
Lemma silent_pread fd sz off : silent (sys_pread fd sz off).
Proof. silent_prim_solve. Qed.
Lemma silent_lseek fd off wh : silent (sys_lseek fd off wh).
Proof. silent_prim_solve. Qed.
Lemma silent_setlk fd op s n : silent (sys_fcntl_setlk fd op s n).
Proof. silent_prim_solve. Qed.
Lemma silent_rdlock p : silent (rwlock_rdlock p).
Proof. silent_prim_solve. Qed.
Lemma silent_rwunlock p : silent (rwlock_unlock p).
Proof. apply silent_rmw. Qed.
Lemma silent_read fd sz : silent (sys_read fd sz).
Proof. silent_prim_solve. Qed.
Lemma silent_load_bytes l off n : silent (load_bytes l off n).
Proof. silent_prim_solve. Qed.
Lemma silent_getenv name : silent (getenv name).
Proof. silent_prim_solve. Qed.
Lemma silent_realpath path : silent (realpath path).
Proof. unfold realpath, do_realpath. silent_prim_solve. Qed.
Lemma silent_close fd : silent (sys_close fd).
Proof. unfold sys_close, do_close. silent_prim_solve. Qed.
Lemma silent_fails : silent fails.
Proof. silent_prim_solve. Qed.
Lemma silent_setlkw fd op s n : silent (sys_fcntl_setlkw fd op s n).
Proof. silent_prim_solve. Qed.
Lemma silent_flock_ex_nb fd : silent (sys_flock_ex_nb fd).
Proof. silent_prim_solve. Qed.
Lemma silent_flock_sh fd : silent (sys_flock_sh fd).
Proof. silent_prim_solve. Qed.
Lemma silent_flock_un fd : silent (sys_flock_un fd).
Proof. silent_prim_solve. Qed.
Lemma silent_wrlock p : silent (rwlock_wrlock p).
Proof. silent_prim_solve. Qed.
Lemma silent_key_create : silent pthread_key_create.
Proof. silent_prim_solve. Qed.
Lemma silent_key_delete k : silent (pthread_key_delete k).
Proof. silent_prim_solve. Qed.
Lemma silent_getspecific k : silent (pthread_getspecific k).
Proof. silent_prim_solve. Qed.
Lemma silent_setspecific k p : silent (pthread_setspecific k p).
Proof. silent_prim_solve. Qed.

Create HintDb silent.
#[export] Hint Resolve silent_load silent_rmw silent_upd silent_alloc silent_free silent_dispose silent_load_mem
  silent_cas_weak silent_heap_size silent_undef silent_no_fuel silent_pread silent_lseek silent_setlk silent_rdlock
  silent_rwunlock silent_getspecific silent_setspecific silent_read silent_load_bytes silent_getenv silent_realpath
  silent_close silent_fails silent_setlkw silent_flock_ex_nb silent_flock_sh silent_flock_un silent_wrlock
  silent_key_create silent_key_delete : silent.

(** Through binds and branches, down to what is known. *)
Ltac silent_solve :=
  repeat (intros; cbn beta iota;
    first [ done
          | solve [auto with silent]
          | solve [apply silent_durable; auto with silent]
          | solve [apply silent_dir; auto with silent]
          | apply keeps_bind
          | match goal with |- keeps _ (match ?x with _ => _ end) => destruct x end ]).

(** ** The silent functions of the library *)

Section library.
Context `{Build}.

Lemma silent_buffer_length_loop n buf len : silent (buffer_length_loop n buf len).
Proof. revert buf len. induction n as [|n IH]; intros [l|] len; cbn [buffer_length_loop]; silent_solve. Qed.

Lemma silent_buffer_length buf : silent (logdb_buffer_length buf).
Proof. pose proof silent_buffer_length_loop. unfold logdb_buffer_length. silent_solve. Qed.

Lemma silent_append_last n b b2 : silent (append_last n b b2).
Proof. revert b. induction n as [|n IH]; intros b; cbn [append_last]; silent_solve. Qed.

Lemma silent_new_direct d n f : silent (logdb_buffer_new_direct d n f).
Proof. unfold logdb_buffer_new_direct. silent_solve. Qed.

Lemma silent_new_copy d : silent (logdb_buffer_new_copy d).
Proof. pose proof silent_new_direct. unfold logdb_buffer_new_copy. silent_solve. Qed.

Lemma silent_buffer_copy b : silent (logdb_buffer_copy b).
Proof. pose proof silent_new_direct. unfold logdb_buffer_copy, logdb_buffer_retain. silent_solve. Qed.

Lemma silent_append b1 b2 : silent (logdb_buffer_append b1 b2).
Proof.
  pose proof silent_append_last. pose proof silent_buffer_length. pose proof silent_buffer_copy.
  unfold logdb_buffer_append. silent_solve.
Qed.

Lemma silent_buffer_free_loop n b : silent (buffer_free_loop n b).
Proof. revert b. induction n as [|n IH]; intros [l|]; cbn [buffer_free_loop]; silent_solve. Qed.

Lemma silent_buffer_free b : silent (logdb_buffer_free b).
Proof. pose proof silent_buffer_free_loop. unfold logdb_buffer_free. silent_solve. Qed.

Lemma silent_verify_connection conn : silent (verify_connection conn).
Proof. unfold verify_connection. silent_solve. Qed.

Lemma silent_txn_current conn : silent (logdb_txn_current conn).
Proof. unfold logdb_txn_current. silent_solve. Qed.

Lemma silent_begin_implicit conn : silent (logdb_txn_begin_implicit conn).
Proof. pose proof silent_txn_current. unfold logdb_txn_begin_implicit. silent_solve. Qed.

Lemma silent_txn_close conn txn : silent (logdb_txn_close (Some conn) txn).
Proof. pose proof silent_buffer_free. unfold logdb_txn_close, logdb_txn_set_current. silent_solve. Qed.

Lemma silent_txn_close_all n txn : silent (txn_close_all n txn).
Proof. pose proof silent_buffer_free. revert txn. induction n as [|n IH]; intros txn; cbn [txn_close_all]; silent_solve. Qed.

Lemma silent_txn_destruct txn : silent (logdb_txn_destruct txn).
Proof. pose proof silent_txn_close_all. unfold logdb_txn_destruct, logdb_txn_close. silent_solve. Qed.

Lemma silent_rollback_all conn : silent (logdb_txn_rollback_all conn).
Proof. pose proof silent_txn_current. pose proof silent_txn_destruct. unfold logdb_txn_rollback_all. silent_solve. Qed.

Lemma silent_prelude lease conn : silent (logdb_lease_acquire_prelude lease conn).
Proof. unfold logdb_lease_acquire_prelude. silent_solve. Qed.

Lemma silent_pread_loop n fd sz off b buf : silent (io_pread_loop n fd sz off b buf).
Proof.
  revert sz off b buf. induction n as [|n IH]; intros sz off b buf; cbn [io_pread_loop]; unfold io_read_result; silent_solve.
Qed.

Lemma silent_read_entry log i : silent (logdb_log_read_entry log i).
Proof. pose proof silent_pread_loop. unfold logdb_log_read_entry, logdb_io_pread. silent_solve. Qed.

Lemma silent_entry_space log i size : silent (logdb_lease_read_entry_space log i size).
Proof. pose proof silent_read_entry. unfold logdb_lease_read_entry_space. silent_solve. Qed.

Lemma silent_walk_entries n log size i v : silent (walk_entries n log size i v).
Proof.
  pose proof silent_entry_space. revert i v. induction n as [|n IH]; intros i v; cbn [walk_entries]; silent_solve.
Qed.

Lemma silent_load_dest d : silent (load_dest d).
Proof. unfold load_dest. silent_solve. Qed.

Lemma silent_cas_dest d e p : silent (cas_dest d e p).
Proof. unfold cas_dest. silent_solve. Qed.

Lemma silent_lock_find n d lock i : silent (lock_find n d lock i).
Proof.
  pose proof silent_load_dest. pose proof silent_cas_dest.
  revert d lock i. induction n as [|n IH]; intros d lock i; cbn [lock_find]; silent_solve.
Qed.

Lemma silent_lock_take n lock i t v : silent (lock_take n lock i t v).
Proof. revert v. induction n as [|n IH]; intros v; cbn [lock_take]; silent_solve. Qed.

Lemma silent_fetch_add lock i d : silent (fetch_add_lock lock i d).
Proof. silent_prim_solve. Qed.

Lemma silent_inproc_unlock_loop n lock i t : silent (inproc_unlock_loop n lock i t).
Proof.
  pose proof silent_fetch_add. revert lock. induction n as [|n IH]; intros lock; cbn [inproc_unlock_loop]; silent_solve.
Qed.

Lemma silent_inproc_unlock log i t : silent (logdb_log_inproc_unlock log i t).
Proof. pose proof silent_inproc_unlock_loop. unfold logdb_log_inproc_unlock. silent_solve. Qed.

Lemma silent_log_lock log i t : silent (logdb_log_lock log i t).
Proof.
  pose proof silent_load_dest. pose proof silent_lock_find. pose proof silent_lock_take. pose proof silent_inproc_unlock.
  unfold logdb_log_lock, lock_at. silent_solve.
Qed.

Lemma silent_log_unlock log i t : silent (logdb_log_unlock log i t).
Proof. pose proof silent_inproc_unlock. unfold logdb_log_unlock. silent_solve. Qed.

Lemma silent_lease_release lease : silent (logdb_lease_release lease).
Proof. pose proof silent_log_unlock. unfold logdb_lease_release. silent_solve. Qed.

Lemma silent_read_loop n fd sz b buf : silent (io_read_loop n fd sz b buf).
Proof.
  revert sz b buf. induction n as [|n IH]; intros sz b buf; cbn [io_read_loop]; unfold io_read_result; silent_solve.
Qed.

Lemma silent_io_read fd sz : silent (logdb_io_read fd sz).
Proof. apply silent_read_loop. Qed.

Lemma silent_log_new fd path : silent (logdb_log_new fd path).
Proof. unfold logdb_log_new. silent_solve. Qed.

Lemma silent_log_read fd mode : silent (logdb_log_read fd mode).
Proof. pose proof silent_io_read. unfold logdb_log_read, log_read_entries, malloc_bytes. silent_solve. Qed.

Lemma silent_create_find fd sz : silent (log_create_find fd sz).
Proof. pose proof silent_io_read. pose proof silent_log_read. unfold log_create_find. silent_solve. Qed.

Lemma silent_log_close log : silent (logdb_log_close log).
Proof. unfold logdb_log_close. silent_solve. Qed.

Lemma silent_merge_trim n hdr i k a b : silent (close_merge_trim n hdr i k a b).
Proof. revert i a b. induction n as [|n IH]; intros i a b; cbn [close_merge_trim]; silent_solve. Qed.

(** Not silent, but nothing is synced. *)
Lemma durable_pwrite_loop n fd data sz off : keeps durable (io_pwrite_loop n fd data sz off).
Proof.
  assert (forall data off, keeps durable (sys_pwrite fd data off)) by (intros; silent_prim_solve).
  revert data sz off. induction n as [|n IH]; intros; cbn [io_pwrite_loop]; silent_solve.
Qed.

Lemma durable_pwrite fd data off : keeps durable (logdb_io_pwrite fd data off).
Proof. apply durable_pwrite_loop. Qed.

Lemma durable_lease_write lease buf len : keeps durable (logdb_lease_write lease buf len).
Proof. pose proof durable_pwrite. unfold logdb_lease_write. silent_solve. Qed.

Lemma durable_write_entry log len i : keeps durable (logdb_log_write_entry log len i).
Proof. pose proof durable_pwrite. unfold logdb_log_write_entry. silent_solve. Qed.

Lemma durable_append_entry fd : keeps durable (append_entry fd).
Proof.
  assert (forall data, keeps durable (sys_write fd data)) by (intros; silent_prim_solve).
  unfold append_entry. silent_solve.
Qed.

Lemma durable_choose_section log fd size v : keeps durable (choose_section log fd size v).
Proof. pose proof durable_append_entry. pose proof silent_walk_entries. unfold choose_section. silent_solve. Qed.

Lemma durable_acquire_walk n lease conn size v : keeps durable (acquire_walk n lease conn size v).
Proof.
  pose proof durable_choose_section. pose proof silent_entry_space. pose proof silent_log_lock.
  revert v. induction n as [|n IH]; intros v; cbn [acquire_walk]; silent_solve.
Qed.

Lemma durable_acquire_write lease conn size : keeps durable (logdb_lease_acquire_write lease conn size).
Proof. pose proof durable_acquire_walk. pose proof silent_prelude. unfold logdb_lease_acquire_write. silent_solve. Qed.

Lemma durable_write_buf_loop n lease b : keeps durable (txn_write_buf_loop n lease b).
Proof. pose proof durable_lease_write. revert lease b. induction n as [|n IH]; intros; cbn [txn_write_buf_loop]; silent_solve. Qed.

(** No file is created or removed by a put. *)
Lemma dir_pwrite fd data off : keeps dir (logdb_io_pwrite fd data off).
Proof.
  assert (forall data off, keeps dir (sys_pwrite fd data off)) by (intros; silent_prim_solve).
  unfold logdb_io_pwrite. generalize (zlen data) as sz. generalize (length data) as n. intros n. revert data off.
  induction n as [|n IH]; intros; cbn [io_pwrite_loop]; silent_solve.
Qed.

Lemma dir_write_buf_loop n lease b : keeps dir (txn_write_buf_loop n lease b).
Proof.
  pose proof dir_pwrite. revert lease b. induction n as [|n IH]; intros; cbn [txn_write_buf_loop]; unfold logdb_lease_write; silent_solve.
Qed.

Lemma dir_acquire_walk n lease conn size v : keeps dir (acquire_walk n lease conn size v).
Proof.
  assert (forall fd data, keeps dir (sys_write fd data)) by (intros; silent_prim_solve).
  pose proof silent_walk_entries. pose proof silent_entry_space. pose proof silent_log_lock.
  revert v. induction n as [|n IH]; intros v; cbn [acquire_walk]; unfold choose_section, append_entry; silent_solve.
Qed.

Lemma dir_commit_write conn txn lease : keeps dir (commit_write conn txn lease).
Proof.
  assert (forall fd, keeps dir (sys_fsync fd)) by (intros; silent_prim_solve).
  pose proof dir_pwrite. pose proof dir_write_buf_loop. pose proof silent_lease_release.
  unfold commit_write, logdb_txn_write_buf, logdb_log_write_entry. silent_solve.
Qed.

Lemma dir_commit conn txn : keeps dir (logdb_txn_commit (Some conn) txn).
Proof.
  pose proof dir_commit_write. pose proof dir_acquire_walk. pose proof silent_prelude.
  pose proof silent_buffer_length. pose proof silent_txn_close. pose proof silent_append.
  unfold logdb_txn_commit, logdb_lease_acquire_write. silent_solve.
Qed.

Lemma dir_put conn key value : keeps dir (logdb_put (Some conn) key value).
Proof.
  pose proof dir_commit. pose proof silent_verify_connection. pose proof silent_buffer_length. pose proof silent_new_copy.
  pose proof silent_begin_implicit. pose proof silent_append. pose proof silent_txn_close. pose proof silent_buffer_free.
  unfold logdb_put, logdb_txn_commit_implicit. silent_solve.
Qed.

(** A whole append to the log is one change. *)
Lemma atomic_append_entry th fd w : atomic th (append_entry fd) w.
Proof. apply atomic_after; [apply atomic_prim|]. intros. silent_solve. Qed.

Lemma atomic_choose_section th log fd size v w : atomic th (choose_section log fd size v) w.
Proof.
  pose proof silent_walk_entries. apply atomic_before; [silent_solve|]. intros off w1 _.
  destruct (off =? -1); [by apply atomic_silent|]. cbn zeta. apply atomic_before; [silent_solve|]. intros [[off' i] vis] w2 _.
  destruct (off' <? 0); [|by apply atomic_silent]. apply atomic_after; [apply atomic_append_entry|]. intros. silent_solve.
Qed.

End library.

#[export] Hint Resolve silent_buffer_length silent_new_copy silent_append silent_buffer_free silent_verify_connection
  silent_txn_current silent_begin_implicit silent_txn_close silent_rollback_all silent_prelude silent_read_entry silent_entry_space
  silent_io_read silent_log_new silent_log_read silent_create_find silent_log_close silent_merge_trim
  silent_walk_entries silent_log_lock silent_log_unlock silent_lease_release durable_pwrite durable_lease_write
  durable_write_entry durable_append_entry durable_choose_section : silent.
