(* ===== verification/TxnSpec.v ===== *)
(** * The specification of transactions

    What committing an outermost transaction and [logdb_put] do to an open
    database, when no call fails and the thread is not interrupted. *)

From S2P Require Import Prelude Machine World Posix Io Layout Log LogSpec Buffer.
From S2P Require Import BufferSpec LogLock LockSpec DbState Lease LeaseSpec Txn Silent.

(** ** Writing the buffer *)

Section commit.
Context `{Build} (th : thread) (c : loc) (D : desc).

Lemma write_buf_loop_run n es bs r T w i off len l d :
  db_state c D es bs r T w -> buffer_bytes n (w_heap w) (Some l) = Some d ->
  0 <= i < 65536 -> 0 <= off -> zlen d <= len < 2 ^ 32 -> off + zlen d < 2 ^ 62 ->
  exists w', run th (txn_write_buf_loop n (mk_lease (Some c) i off len LOGDB_LOG_LOCK_WRITE) (Some l)) w =
      Done (0, mk_lease (Some c) i (off + zlen d) (len - zlen d) LOGDB_LOG_LOCK_WRITE) w' /\
    db_state c D es (file_write (logdb_connection_offset i + off) d bs) r T w' /\ same_rest D w w' /\
    w_heap w' = w_heap w.
Proof.
  revert bs w off len l d. induction n as [|n IH]; intros bs w off len l d Hdb Hb Hi Hoff Hlen Hsz; [done|].
  cbn [buffer_bytes] in Hb. destruct (peek logdb_buffer_t (w_heap w) l) as [b|] eqn:Eb; [|done].
  cbn [mbind option_bind] in Hb. apply bind_Some in Hb as (d1 & E1 & (d2 & E2 & [= <-])%bind_Some).
  rewrite length_app in Hlen, Hsz |- *. rewrite Nat2Z.inj_add in *.
  cbn [txn_write_buf_loop]. rewrite run_bind, run_load, (do_load_peek _ _ _ _ Eb). rewrite run_bind.
  assert (exists w1, run th (match buf_orig b with
      | Some _ => txn_write_buf_loop n (mk_lease (Some c) i off len LOGDB_LOG_LOCK_WRITE) (buf_orig b)
      | None => logdb_lease_write (mk_lease (Some c) i off len LOGDB_LOG_LOCK_WRITE) (buf_data b) (buf_len b)
      end) w = Done (0, mk_lease (Some c) i (off + zlen d1) (len - zlen d1) LOGDB_LOG_LOCK_WRITE) w1 /\
    db_state c D es (file_write (logdb_connection_offset i + off) d1 bs) r T w1 /\ same_rest D w w1 /\
    w_heap w1 = w_heap w) as (w1 & -> & Hdb1 & Hr1 & Hh1).
  { destruct (buf_orig b) as [o|].
    - apply IH; (done || lia).
    - pose proof (mem_bytes_length _ _ _ _ E1) as Hn.
      destruct (lease_write_run th c D es bs r T w i off len LOGDB_LOG_LOCK_WRITE (buf_data b) (buf_len b) d1 Hdb E1)
        as (w1 & E & ? & ? & ?); [lia..|]. rewrite <- Hn in E at 2 3. by exists w1. }
  cbn beta iota. change (negb (0 =? 0)) with false. cbn iota.
  destruct (buf_next b) as [l'|].
  - rewrite <- Hh1 in E2.
    destruct (IH (file_write (logdb_connection_offset i + off) d1 bs) w1 (off + zlen d1) (len - zlen d1) l' d2)
      as (w2 & -> & Hdb2 & Hr2 & Hh2); [done|done|lia..|].
    exists w2. rewrite !Z.add_assoc, !Z.sub_add_distr. split; [done|]. split_and!.
    + rewrite Z.add_assoc, file_write_app in Hdb2; [done|]. rewrite connection_offset_small; lia.
    + by etransitivity.
    + congruence.
  - assert (d2 = []) as -> by (destruct n; by injection E2). simpl length. rewrite app_nil_r, Z.add_0_r.
    by exists w1.
Qed.

Lemma write_buf_run es bs r T w i off len l d :
  db_state c D es bs r T w -> buffer_is (w_heap w) (Some l) d ->
  0 <= i < 65536 -> 0 <= off -> zlen d <= len < 2 ^ 32 -> off + zlen d < 2 ^ 62 ->
  exists w', run th (logdb_txn_write_buf (mk_lease (Some c) i off len LOGDB_LOG_LOCK_WRITE) (Some l)) w =
      Done (0, mk_lease (Some c) i (off + zlen d) (len - zlen d) LOGDB_LOG_LOCK_WRITE) w' /\
    db_state c D es (file_write (logdb_connection_offset i + off) d bs) r T w' /\ same_rest D w w' /\
    w_heap w' = w_heap w.
Proof.
  intros Hdb Hb%buffer_is_size. intros. unfold logdb_txn_write_buf.
  rewrite run_bind, run_heap_size. apply write_buf_loop_run; try done.
  apply (buffer_bytes_mono (size (w_heap w))); [lia|done].
Qed.

(** ** Syncing, and the log entry *)

Lemma fsync_run es bs r T w fd o :
  db_state c D es bs r T w -> get_fd fd w = Some o ->
  exists w', run th (sys_fsync fd) w = Done 0 w' /\ db_state c D es bs r T w' /\ same_rest D w w' /\
    w_heap w' = w_heap w.
Proof.
  intros Hdb Eo. eexists. rewrite run_fsync. rewrite (do_fsync_quiet _ ltac:(apply Hdb) _ o) by done.
  split; [done|]. split; [|split; [|done]]; [constructor; by try apply Hdb|rest_step].
Qed.

Lemma write_entry_state_run es bs r T w i len :
  db_state c D es bs r T w -> (i < length es)%nat ->
  exists w', run th (logdb_log_write_entry (Some (d_log D)) len (Z.of_nat i)) w = Done 0 w' /\
    db_state c D (<[i := u16 len]> es) bs r T w' /\ same_rest D w w' /\ w_heap w' = w_heap w.
Proof.
  intros Hdb Hi. pose proof (ds_ne _ _ _ _ _ _ _ Hdb) as [Hne _].
  destruct (db_log_ok _ _ _ _ _ _ _ Hdb) as (l & o & Hl & Hfd & _ & _ & Eo & Hino & _).
  eexists. split; [apply (write_entry_run th w _ l o es); [apply Hdb|done|lia]|].
  rewrite Nat2Z.id, Hino. split; [|split; [|done]].
  - constructor; try apply Hdb; simpl.
    + rewrite lookup_insert_ne by done. apply Hdb.
    + by rewrite lookup_insert_eq.
    + apply Forall_insert; [apply Hdb|]. apply u16_range.
    + rewrite length_insert. apply Hdb.
  - rest_step.
Qed.

(** Data, log entry, release: the whole of [commit_write]. *)
Lemma commit_write_run es bs r w i e t tx l d :
  db_state c D es bs r (table_held (Z.of_nat i)) w -> es !! i = Some e ->
  peek logdb_txn_t (w_heap w) t = Some tx -> txn_buf tx = Some l ->
  buffer_is (w_heap w) (Some l) d -> zlen d <= 65536 ->
  exists w', run th (commit_write (Some c) (Some t)
      (mk_lease (Some c) (Z.of_nat i) e (zlen d) LOGDB_LOG_LOCK_WRITE)) w = Done 0 w' /\
    db_state c D (<[i := u16 (e + zlen d)]> es)
      (file_write (logdb_connection_offset (Z.of_nat i) + e) d bs) (r - 1) table_idle w' /\ same_rest D w w'.
Proof.
  intros Hdb Ei Et Etb Hd Hlen. pose proof (db_entry _ _ _ _ _ _ _ Hdb _ _ Ei) as He.
  pose proof (lookup_lt_Some _ _ _ Ei) as Hil. pose proof (ds_count _ _ _ _ _ _ _ Hdb) as Hc.
  unfold commit_write. rewrite run_bind, run_load, (do_load_peek _ _ _ _ Et), Etb.
  destruct (write_buf_run es bs r _ w (Z.of_nat i) e (zlen d) l d Hdb Hd) as (w1 & E1 & Hdb1 & Hr1 & Hh1); [lia..|].
  rewrite run_bind, E1. cbn beta iota. change (negb (0 =? 0)) with false. cbn iota.
  rewrite run_bind, run_load, (do_load_peek _ _ _ _ (ds_conn _ _ _ _ _ _ _ Hdb1)). cbn [conn_fd conn_flags conn_log the_conn].
  set (bs1 := file_write _ d bs) in *.
  assert (forall es' w fd o, db_state c D es' bs1 r (table_held (Z.of_nat i)) w -> get_fd fd w = Some o ->
    exists w', run th (if is_durable (d_flags D) then sys_fsync fd else Ret 0) w = Done 0 w' /\
      db_state c D es' bs1 r (table_held (Z.of_nat i)) w' /\ same_rest D w w') as Hsync.
  { intros es' w0 fd o Hdb0 Eo. destruct (is_durable (d_flags D)); [|by exists w0].
    destruct (fsync_run _ _ _ _ _ _ _ Hdb0 Eo) as (w' & ? & ? & ? & _). by exists w'. }
  destruct (ds_dbfd _ _ _ _ _ _ _ Hdb1) as (o & Eo & _).
  destruct (Hsync es w1 (d_fd D) o Hdb1 Eo) as (w2 & E2 & Hdb2 & Hr2).
  rewrite run_bind, E2. change (0 =? -1) with false. cbn iota.
  cbn [lease_offset lease_index].
  destruct (write_entry_state_run es bs1 r _ w2 i (u16 (e + zlen d)) Hdb2 Hil) as (w3 & E3 & Hdb3 & Hr3 & _).
  rewrite run_bind, E3. change (negb (0 =? 0)) with false. cbn iota.
  assert (u16 (u16 (e + zlen d)) = u16 (e + zlen d)) as Eu by (apply u16_small, u16_range). rewrite Eu in Hdb3.
  destruct (ds_log _ _ _ _ _ _ _ Hdb3) as (lg & El & Hlfd & _).
  destruct (ds_logfd _ _ _ _ _ _ _ Hdb3) as (o' & Eo' & _).
  destruct (Hsync _ w3 (d_logfd D) o' Hdb3 Eo') as (w4 & E4 & Hdb4 & Hr4).
  destruct (release_write_run th c D _ _ r w4 (Z.of_nat i) (e + zlen d) (zlen d - zlen d) Hdb4)
    as (w5 & E5 & Hdb5 & Hr5); [lia|].
  exists w5. split; [|split; [done|by do 4 (etransitivity; [eassumption|])]].
  rewrite run_bind. destruct (is_durable (d_flags D)).
  - rewrite run_bind, run_load, (do_load_peek _ _ _ _ El), run_bind, Hlfd, E4, run_ret, run_bind, E5. done.
  - injection E4 as ->. rewrite run_ret, run_bind, E5. done.
Qed.

End commit.

(** ** Building a record *)

(** A record as it is stored. *)
Definition record_bytes (k v : list byte) : list byte :=
  data_header_bytes (mk_data_header (zlen k) (zlen v)) ++ k ++ v.

Lemma length_record_bytes k v : zlen (record_bytes k v) = 8 + zlen k + zlen v.
Proof. unfold record_bytes. rewrite !length_app, length_data_header_bytes. lia. Qed.

(** The heap with [copies ks x] more references to each buffer [x]. *)
Definition referred (ks : list link) (c : option cell) (x : loc) : option cell :=
  match c with
  | Some (CBuffer b) => Some (CBuffer (set_buf_refcnt (buf_refcnt b + Z.of_nat (copies ks x)) b))
  | c => c
  end.

(** The list [logdb_put] builds: the record header and shallow copies of key
    and value. *)
Definition put_links (hb hd kc kl vc vl : loc) : list link :=
  [Own hb (Some hd); Copy kc kl; Copy vc vl].

(** The transaction of a put: its buffer holds the record, in blocks that were
    not allocated before. *)
Record put_built (w w' : world) (t hb hd kc kl vc vl : loc) (outer : ptr) (rec : list byte) : Prop := mk_put_built {
  pb_txn : peek logdb_txn_t (w_heap w') t = Some (mk_txn outer (Some hb));
  pb_bytes : buffer_is (w_heap w') (Some hb) rec;
  pb_links : links_ok (w_heap w') (put_links hb hd kc kl vc vl) (Some hb);
  pb_new : NoDup (t :: owned (put_links hb hd kc kl vc vl));
  pb_fresh x : x ∈ t :: owned (put_links hb hd kc kl vc vl) -> w_heap w !! x = None;
  pb_rest x : (x ∉ t :: owned (put_links hb hd kc kl vc vl)) ->
    w_heap w' !! x = referred (put_links hb hd kc kl vc vl) (w_heap w !! x) x;
  pb_world : exists nx, w' = set_next nx (set_heap (w_heap w') w) /\ heap_fresh w'
}.

(** The buffer a caller passes: what it holds, and that it may be copied. *)
Record user_buffer `{Build} (h : heap) (l : loc) (bs : list byte) : Prop := mk_user_buffer {
  ub_is : buffer_is h (Some l) bs;
  ub_node : exists b, peek logdb_buffer_t h l = Some b /\ copyable b /\ 1 <= buf_refcnt b < 2 ^ 31 - 2
}.

Lemma copies_put hb hd kc kl vc vl x :
  copies (put_links hb hd kc kl vc vl) x =
    ((if decide (kl = x) then 1 else 0) + (if decide (vl = x) then 1 else 0))%nat.
Proof.
  unfold put_links. rewrite !copies_cons. simpl. unfold copies. simpl.
  repeat case_decide; try congruence; lia.
Qed.

Lemma owned_put hb hd kc kl vc vl : owned (put_links hb hd kc kl vc vl) = [hb; hd; kc; vc].
Proof. done. Qed.

Section put.
Context `{Build} (th : thread) (c : loc) (D : desc).

Lemma verify_connection_run es bs r T w :
  db_state c D es bs r T w -> run th (verify_connection (Some c)) w = Done true w.
Proof.
  intros Hdb. unfold verify_connection. destruct DEBUG; [|done].
  rewrite run_bind, run_load, (do_load_peek _ _ _ _ (ds_conn _ _ _ _ _ _ _ Hdb)). done.
Qed.

(** The transaction the thread is in. *)
Definition current_txn (w : world) : ptr := default None (w_tls w !! (th, d_key D)).

Lemma txn_current_run es bs r T w :
  db_state c D es bs r T w -> run th (logdb_txn_current (Some c)) w = Done (current_txn w) w.
Proof.
  intros Hdb. unfold logdb_txn_current.
  rewrite run_bind, run_load, (do_load_peek _ _ _ _ (ds_conn _ _ _ _ _ _ _ Hdb)). done.
Qed.

(** Allocating and filling in memory that is not the database's. *)
Lemma db_state_user es bs r T `{TableFrame T} w h nx :
  db_state c D es bs r T w ->
  (forall x y, w_heap w !! x = Some y -> user_cell (Some y) = None -> h !! x = Some y) ->
  heap_fresh (set_next nx (set_heap h w)) ->
  db_state c D es bs r T (set_next nx (set_heap h w)).
Proof.
  intros Hdb Hh Hf. constructor; try apply Hdb; [exact Hf| |].
  - destruct (peek_cell _ _ _ _ (ds_conn _ _ _ _ _ _ _ Hdb)) as (x & Ex & Hx). unfold peek. cbn [w_heap set_heap set_next].
    rewrite (Hh _ _ Ex); [done|by destruct x].
  - destruct (ds_log _ _ _ _ _ _ _ Hdb) as (l & El & ? & ? & HT). exists l.
    split_and!; [|done|done|by eapply table_user].
    destruct (peek_cell _ _ _ _ El) as (x & Ex & Hx). unfold peek. cbn [w_heap set_heap set_next].
    rewrite (Hh _ _ Ex); [done|by destruct x].
Qed.

Lemma new_copy_run w bs :
  quiet w ->
  run th (logdb_buffer_new_copy (Some bs)) w = Done (Some (w_next w + 1))
    (set_next (w_next w + 2) (set_heap
      (<[w_next w + 1 := CBuffer (mk_buffer (Some (w_next w)) (zlen bs) (Some DisposeFree) None None 1)]>
        (<[w_next w := CBytes bs]> (w_heap w))) w)).
Proof.
  intros Hq. unfold logdb_buffer_new_copy, logdb_buffer_new_direct. run_step.
  rewrite do_alloc_quiet by done. cbn beta iota. rewrite bool_decide_eq_false_2, andb_false_r by done.
  run_step. rewrite do_alloc_quiet by done. cbn beta iota. run_step.
  unfold set_next, set_heap. simpl. replace (w_next w + 1 + 1) with (w_next w + 2) by lia. done.
Qed.

(** The heap [logdb_put] builds, [a] being the first new block: the header and
    its buffer, the transaction, and the copies of key and value. *)
Definition node_after (kl vl : loc) (bk bv : logdb_buffer_t) : logdb_buffer_t :=
  if decide (kl = vl) then retained bk else bv.

Definition header_node (a : loc) : logdb_buffer_t := mk_buffer (Some a) 8 (Some DisposeFree) None None 1.

Definition put_heap3 (a : loc) (outer : ptr) (hdr : list byte) (h : heap) : heap :=
  <[a + 2 := CTxn (mk_txn outer None)]> (<[a + 1 := CBuffer (header_node a)]> (<[a := CBytes hdr]> h)).
Definition put_heap4 a outer hdr kl bk h : heap :=
  appended_heap (a + 1) (header_node a) (a + 3) kl bk (put_heap3 a outer hdr h).
Definition put_heap5 a outer hdr kl bk vl bv h : heap :=
  appended_heap (a + 3) (shallow_copy kl bk) (a + 4) vl (node_after kl vl bk bv) (put_heap4 a outer hdr kl bk h).
Definition put_heap6 a outer hdr kl bk vl bv h : heap :=
  <[a + 2 := CTxn (mk_txn outer (Some (a + 1)))]> (put_heap5 a outer hdr kl bk vl bv h).

Lemma heap_fresh_lt w l T `{Cell T} (t : T) :
  heap_fresh w -> peek T (w_heap w) l = Some t -> l < w_next w.
Proof.
  intros Hf E. apply peek_is_Some in E as [x Ex]. destruct (Z.lt_ge_cases l (w_next w)) as [|Hge]; [done|].
  rewrite Hf in Ex by done. done.
Qed.

Lemma heap_fresh_steps w h nx :
  heap_fresh w -> w_next w <= nx ->
  (forall x, nx <= x -> h !! x = w_heap w !! x) -> heap_fresh (set_next nx (set_heap h w)).
Proof. intros Hf Hn Hh x Hx. cbn [w_heap set_heap w_next set_next] in *. rewrite Hh by done. apply Hf. lia. Qed.

(** Look up a heap built by stores at known places. *)
Ltac put_lookup :=
  unfold put_heap6, put_heap5, put_heap4, put_heap3, appended_heap;
  repeat (rewrite lookup_insert_ne by lia); rewrite ?lookup_insert_eq.

(** Past a silent call that ends as [E] says. *)
Tactic Notation "reach" uconstr(E) := eapply reaches_bind; [solve [silent_solve]|eapply E|]; cbn beta.

Section build.
Context (w : world) (es : list Z) (bs : list byte) (r : Z) (T : table).
Context (kl vl : loc) (k v : list byte) (bk bv : logdb_buffer_t).
Context (Hdb : db_state c D es bs r T w).
Context (Hk : buffer_is (w_heap w) (Some kl) k) (Hv : buffer_is (w_heap w) (Some vl) v).
Context (Ek : peek logdb_buffer_t (w_heap w) kl = Some bk) (Ev : peek logdb_buffer_t (w_heap w) vl = Some bv).
Context (Hck : copyable bk) (Hcv : copyable bv).

#[local] Abbreviation a := (w_next w).
#[local] Abbreviation outer := (current_txn w).

Lemma build_lt : kl < a /\ vl < a /\ c < a.
Proof.
  pose proof (ds_fresh _ _ _ _ _ _ _ Hdb) as Hf.
  split_and!; [exact (heap_fresh_lt _ _ _ _ Hf Ek)|exact (heap_fresh_lt _ _ _ _ Hf Ev)|].
  exact (heap_fresh_lt _ _ _ _ Hf (ds_conn _ _ _ _ _ _ _ Hdb)).
Qed.

Lemma build_new x : a <= x -> w_heap w !! x = None.
Proof. apply (ds_fresh _ _ _ _ _ _ _ Hdb). Qed.

Lemma put_heap3_le hdr : heap_le (w_heap w) (delete (a + 1) (put_heap3 a outer hdr (w_heap w))).
Proof.
  apply heap_le_subseteq, map_subseteq_spec. intros x y Hx.
  assert (x < a). { destruct (Z.lt_ge_cases x a); [done|]. by rewrite build_new in Hx. }
  rewrite lookup_delete_ne by lia. by put_lookup.
Qed.

Lemma put_spine3 hdr : zlen hdr = 8 ->
  spine (put_heap3 a outer hdr (w_heap w)) (a + 1) (a + 1) hdr.
Proof.
  intros Hl. apply (spine_last _ _ (header_node a)); [|done|].
  - apply peek_buffer_cell. by put_lookup.
  - unfold node_bytes. cbn. unfold mem_bytes, peek. cbn [Z.eqb mbind option_bind].
    rewrite lookup_delete_ne by lia. unfold put_heap3.
    rewrite !lookup_insert_ne, lookup_insert_eq by lia. simpl.
    rewrite decide_True by lia. by rewrite take_ge by lia.
Qed.

Lemma put_heap5_spec hdr :
  zlen hdr = 8 ->
  buffer_is (put_heap4 a outer hdr kl bk (w_heap w)) (Some (a + 1)) (hdr ++ k) /\
  spine (put_heap4 a outer hdr kl bk (w_heap w)) (a + 3) (a + 1) (hdr ++ k) /\
  buffer_is (delete (a + 3) (put_heap4 a outer hdr kl bk (w_heap w))) (Some vl) v /\
  buffer_is (put_heap5 a outer hdr kl bk vl bv (w_heap w)) (Some (a + 1)) (hdr ++ k ++ v).
Proof.
  intros Hl. pose proof build_lt as (? & ? & ?).
  set (w3 := set_next (a + 3) (set_heap (put_heap3 a outer hdr (w_heap w)) w)).
  assert (heap_fresh w3) as Hf3.
  { apply heap_fresh_steps; [apply Hdb|lia|]. intros x Hx. by put_lookup. }
  destruct (appended_spine w3 (a + 1) (a + 1) hdr (header_node a) kl bk k) as [Hs4 Hle4]; [done|by apply put_spine3| | | |].
  { apply peek_buffer_cell. cbn [w_heap w3 set_heap set_next]. by put_lookup. }
  { apply peek_buffer_cell in Ek. apply peek_buffer_cell. cbn [w_heap w3 set_heap set_next]. by put_lookup. }
  { by eapply buffer_is_le; [apply put_heap3_le|]. }
  change (appended_heap _ _ _ _ _ _) with (put_heap4 a outer hdr kl bk (w_heap w)) in Hs4, Hle4.
  cbn [w_next w3 set_next] in Hs4, Hle4.
  assert (buffer_is (delete (a + 3) (put_heap4 a outer hdr kl bk (w_heap w))) (Some vl) v) as Hv4.
  { eapply buffer_is_le; [exact Hle4|]. by eapply buffer_is_le; [apply put_heap3_le|]. }
  set (w4 := set_next (a + 4) (set_heap (put_heap4 a outer hdr kl bk (w_heap w)) w)).
  assert (heap_fresh w4) as Hf4.
  { apply heap_fresh_steps; [apply Hdb|lia|]. intros x Hx. by put_lookup. }
  destruct (appended_spine w4 (a + 3) (a + 1) (hdr ++ k) (shallow_copy kl bk) vl (node_after kl vl bk bv) v)
    as [Hs5 _]; [done|done| | |done|].
  { apply peek_buffer_cell. cbn [w_heap w4 set_heap set_next]. by put_lookup. }
  { apply peek_buffer_cell in Ev. apply peek_buffer_cell. cbn [w_heap w4 set_heap set_next]. unfold node_after.
    case_decide as Heq; [subst; by put_lookup|]. by put_lookup. }
  split_and!; [by eapply spine_is|done|done|]. rewrite app_assoc. by eapply spine_is.
Qed.

Definition put_world : world :=
  set_next (a + 5) (set_heap (put_heap6 a outer
    (data_header_bytes (mk_data_header (zlen k) (zlen v))) kl bk vl bv (w_heap w)) w).

Lemma begin_implicit_run w2 :
  quiet w2 -> peek logdb_connection_t (w_heap w2) c = Some (the_conn D r) -> c < w_next w2 ->
  w_tls w2 = w_tls w ->
  run th (logdb_txn_begin_implicit (Some c)) w2 = Done (Some (w_next w2))
    (set_next (w_next w2 + 1) (set_heap (<[w_next w2 := CTxn (mk_txn outer None)]> (w_heap w2)) w2)).
Proof.
  intros Hq Hc Hlt Ht. unfold logdb_txn_begin_implicit, logdb_txn_current. run_step.
  rewrite do_alloc_quiet by done. cbn beta iota. run_next. rewrite (do_load_peek _ _ (the_conn D r))
    by (cbn [w_heap w0 set_heap set_next]; by rewrite peek_insert_ne by lia).
  unfold pthread_getspecific. cbn beta iota. rewrite run_prim. cbn beta iota. run_step.
  rewrite (do_rmw_peek _ (mk_txn None None)) by (cbn [w_heap w0 set_heap set_next]; exact (peek_insert logdb_txn_t _ _ _)).
  cbn beta iota. run_step. f_equal. unfold w0. cbn [w_tls set_heap set_next w_heap]. rewrite Ht.
  unfold set_next, set_heap. simpl. by rewrite insert_insert_eq.
Qed.

(** Up to the commit nothing but memory changes. *)
Lemma put_build_reaches :
  zlen k + zlen v < 2 ^ 32 - 8 ->
  reaches th (logdb_put (Some c) (Some kl) (Some vl)) w
    (logdb_txn_commit_implicit (Some c) (Some (a + 2))) put_world.
Proof.
  intros Hlen. pose proof build_lt as (Hkl & Hvl & Hcl). pose proof (ds_quiet _ _ _ _ _ _ _ Hdb) as Hq.
  set (hdr := data_header_bytes (mk_data_header (zlen k) (zlen v))).
  assert (zlen hdr = 8) as Hhdr by done.
  unfold logdb_put. reach (verify_connection_run _ _ _ _ _ Hdb). cbn [negb]. cbn iota.
  rewrite !bool_decide_eq_false_2 by done. cbn [orb]. rewrite andb_false_r.
  reach (buffer_length_run _ _ _ _ Hk). reach (buffer_length_run _ _ _ _ Hv).
  rewrite !u32_small by lia. fold hdr. reach (new_copy_run w hdr Hq). cbn iota.
  rewrite Hhdr. fold (header_node a). match goal with |- reaches _ _ ?v _ _ => set (w0 := v) end.
  reach begin_implicit_run; [done| |cbn [w_next w0 set_next]; lia|done|].
  1: { cbn [w_heap w0 set_heap set_next]. rewrite !peek_insert_ne by lia. apply Hdb. }
  change (w_next w0) with (a + 2). cbn iota.
  set (w3 := set_next (a + 2 + 1) _).
  assert (w3 = set_next (a + 3) (set_heap (put_heap3 a outer hdr (w_heap w)) w)) as ->.
  { unfold w3, w0. unfold set_next, set_heap. simpl. f_equal. lia. }
  clear w0. set (w3 := set_next (a + 3) _).
  destruct (put_heap5_spec hdr Hhdr) as (_ & Hs4 & Hv4 & _).
  assert (heap_fresh w3) as Hf3.
  { apply heap_fresh_steps; [apply Hdb|lia|]. intros x Hx. by put_lookup. }
  reach (append_run th w3 (a + 1) (a + 1) hdr (header_node a) kl bk k); [done|done|by apply put_spine3|..].
  { apply peek_buffer_cell. cbn [w_heap w3 set_heap set_next]. by put_lookup. }
  { apply peek_buffer_cell in Ek. apply peek_buffer_cell. cbn [w_heap w3 set_heap set_next]. by put_lookup. }
  { done. }
  { by eapply buffer_is_le; [apply put_heap3_le|]. }
  { lia. }
  change (appended_heap (a + 1) _ _ _ _ _) with (put_heap4 a outer hdr kl bk (w_heap w)).
  assert (set_next (w_next w3 + 1) (set_heap (put_heap4 a outer hdr kl bk (w_heap w)) w3) =
    set_next (a + 4) (set_heap (put_heap4 a outer hdr kl bk (w_heap w)) w)) as ->.
  { unfold w3. unfold set_next, set_heap. simpl. f_equal. lia. }
  set (w4 := set_next (a + 4) _).
  assert (heap_fresh w4) as Hf4.
  { apply heap_fresh_steps; [apply Hdb|lia|]. intros x Hx. by put_lookup. }
  reach (append_run th w4 (a + 3) (a + 1) (hdr ++ k) (shallow_copy kl bk) vl (node_after kl vl bk bv) v);
    [done|done|done|..].
  { apply peek_buffer_cell. cbn [w_heap w4 set_heap set_next]. by put_lookup. }
  { apply peek_buffer_cell in Ev. apply peek_buffer_cell. cbn [w_heap w4 set_heap set_next]. unfold node_after.
    case_decide as Heq; [subst; by put_lookup|]. by put_lookup. }
  { unfold node_after. by case_decide. }
  { done. }
  { rewrite length_app. lia. }
  change (appended_heap (a + 3) _ _ _ _ _) with (put_heap5 a outer hdr kl bk vl bv (w_heap w)).
  eapply reaches_bind; [silent_solve| |].
  { rewrite run_upd, (do_rmw_peek _ (mk_txn outer None)); [reflexivity|]. unfold peek. cbn [w_heap set_heap set_next]. by put_lookup. }
  match goal with |- reaches _ _ ?v _ _ => assert (v = put_world) as -> end; [|constructor].
  unfold put_world. fold hdr. unfold w4, set_next, set_heap. simpl. f_equal. lia.
Qed.

Lemma put_build_run :
  zlen k + zlen v < 2 ^ 32 - 8 ->
  run th (logdb_put (Some c) (Some kl) (Some vl)) w =
    run th (logdb_txn_commit_implicit (Some c) (Some (a + 2))) put_world.
Proof. intros. by apply reaches_run, put_build_reaches. Qed.


Lemma put_built_world :
  zlen k + zlen v < 2 ^ 32 - 8 -> 1 <= buf_refcnt bk < 2 ^ 31 - 2 -> 1 <= buf_refcnt bv < 2 ^ 31 - 2 ->
  put_built w put_world (a + 2) (a + 1) a (a + 3) kl (a + 4) vl outer (record_bytes k v).
Proof.
  intros Hlen Hrk Hrv. pose proof build_lt as (Hkl & Hvl & Hcl).
  set (hdr := data_header_bytes (mk_data_header (zlen k) (zlen v))).
  destruct (put_heap5_spec hdr eq_refl) as (_ & _ & _ & H5).
  unfold put_world. fold hdr. constructor; cbn [w_heap set_heap set_next].
  - exact (peek_insert logdb_txn_t _ _ _).
  - eapply buffer_is_le; [|exact H5]. apply (heap_le_other _ _ (CTxn (mk_txn outer None))); [|done]. by put_lookup.
  - unfold put_links. cbn [links_ok link_node link_block link_orig].
    split; [done|]. eexists. split; [apply peek_buffer_cell; by put_lookup|].
    do 3 (split; [done|]). split.
    { intros d [= <-]. split; [done|]. unfold peek. put_lookup. by eauto. }
    split; [done|]. eexists. split; [apply peek_buffer_cell; by put_lookup|]. do 4 (split; [done|]).
    split; [done|]. eexists. split; [apply peek_buffer_cell; by put_lookup|]. done.
  - rewrite owned_put. repeat (apply NoDup_cons_2; [rewrite ?elem_of_cons, elem_of_nil; lia|]). constructor.
  - intros x Hx. rewrite owned_put, !elem_of_cons, elem_of_nil in Hx. apply build_new. lia.
  - intros x Hx. rewrite owned_put, !elem_of_cons, elem_of_nil in Hx.
    apply peek_buffer_cell in Ek, Ev. unfold referred. rewrite copies_put. unfold put_heap6, put_heap5, put_heap4, put_heap3, appended_heap.
    unfold node_after. destruct (decide (vl = x)) as [<-|Hvx]; rewrite !(lookup_insert_ne _ _ _) by lia.
    + rewrite lookup_insert_eq, Ev. simpl. case_decide as Heq.
      * subst. assert (bv = bk) as -> by congruence. unfold retained, set_buf_refcnt. simpl.
        rewrite !s32_small by (rewrite ?s32_small; lia). do 2 f_equal. f_equal. lia.
      * unfold retained, set_buf_refcnt. simpl. by rewrite s32_small by lia.
    + destruct (decide (kl = x)) as [<-|Hkx].
      * rewrite lookup_insert_eq, Ek. simpl. unfold retained, set_buf_refcnt. simpl. by rewrite s32_small by lia.
      * rewrite !(lookup_insert_ne _ _ x) by lia.
        destruct (w_heap w !! x) as [[]|]; try done. simpl. rewrite Z.add_0_r. by destruct b.
  - exists (a + 5). split; [done|]. apply heap_fresh_steps; [apply Hdb|lia|]. intros x Hx. by put_lookup.
Qed.

End build.

(** ** Closing the transaction of a put *)

Lemma links_ok_user h h' ks p : user_equiv h h' -> links_ok h ks p -> links_ok h' ks p.
Proof.
  intros He. revert p. induction ks as [|k ks IH]; intros p; [done|].
  intros [-> (b & E & Hr & Hd & Ho & Hb & Hk)]. split; [done|]. exists b.
  split_and!; try done; [exact (user_equiv_peek _ _ _ _ _ He E)| |by apply IH].
  intros d Hkd. destruct (Hb d Hkd) as [? [y Ey]]. split; [done|].
  rewrite (user_equiv_peek _ _ _ _ _ He Ey). by eauto.
Qed.

Lemma user_equiv_delete h h' x : user_equiv h h' -> user_equiv (delete x h) (delete x h').
Proof.
  intros He y. destruct (decide (x = y)) as [<-|]; [by rewrite !lookup_delete_eq|].
  rewrite !lookup_delete_ne by done. apply He.
Qed.

(** What a list owns are buffers and byte blocks. *)
Lemma links_ok_user_cell h ks p x :
  links_ok h ks p -> x ∈ owned ks -> exists y, h !! x = Some y /\ user_cell (Some y) = Some y.
Proof.
  revert p. induction ks as [|k ks IH]; intros p; [by intros _ ?%not_elem_of_nil|].
  intros [_ (b & E & _ & _ & _ & Hb & Hks)]. rewrite owned_cons. intros [->|[Hd|Hin]]; [| |by eapply IH].
  - apply peek_buffer_cell in E. by eauto.
  - destruct (Hb _ Hd) as [_ [bs Eb]]. destruct (peek_cell _ _ _ _ Eb) as (y & Ey & Hy).
    exists y. split; [done|]. by destruct y.
Qed.

(** Everything of a built put is given back. *)
Lemma put_released w w' h t hb hd kc kl vc vl outer rec :
  put_built w w' t hb hd kc kl vc vl outer rec -> user_equiv (w_heap w') h ->
  (forall h', (forall x, h' !! x = released (put_links hb hd kc kl vc vl) h x) ->
    user_equiv (w_heap w) (delete t h')).
Proof.
  intros Hp He h' Hh' x. set (ks := put_links hb hd kc kl vc vl) in *.
  destruct (decide (x ∈ t :: owned ks)) as [Hin|Hin].
  - rewrite (pb_fresh _ _ _ _ _ _ _ _ _ _ _ Hp x Hin).
    apply elem_of_cons in Hin as [->|Hin]; [by rewrite lookup_delete_eq|].
    destruct (decide (t = x)) as [->|]; [by rewrite lookup_delete_eq|].
    rewrite lookup_delete_ne, Hh' by done. unfold released. by rewrite decide_True.
  - pose proof (pb_rest _ _ _ _ _ _ _ _ _ _ _ Hp x Hin) as Hr. fold ks in Hr.
    rewrite elem_of_cons in Hin. rewrite lookup_delete_ne, Hh' by (intros ->; tauto).
    unfold released. rewrite decide_False by tauto. pose proof (He x) as Hx. rewrite Hr in Hx.
    destruct (w_heap w !! x) as [[]|], (h !! x) as [[]|]; simpl in Hx |- *; try congruence.
    injection Hx as <-. unfold set_buf_refcnt. simpl. rewrite Z.add_simpl_r. by destruct b.
Qed.

(** Every other cell of a built put is as it was. *)
Lemma put_built_others w w' t hb hd kc kl vc vl outer rec x y :
  put_built w w' t hb hd kc kl vc vl outer rec -> w_heap w !! x = Some y ->
  match y with CBuffer _ => True | _ => w_heap w' !! x = Some y end.
Proof.
  intros Hp E. destruct (decide (x ∈ t :: owned (put_links hb hd kc kl vc vl))) as [Hin|Hin].
  - by rewrite (pb_fresh _ _ _ _ _ _ _ _ _ _ _ Hp x Hin) in E.
  - rewrite (pb_rest _ _ _ _ _ _ _ _ _ _ _ Hp x Hin), E. by destruct y.
Qed.

(** The database is as it was. *)
Lemma put_built_state es bs r T `{TableFrame T} w w' t hb hd kc kl vc vl outer rec :
  db_state c D es bs r T w -> put_built w w' t hb hd kc kl vc vl outer rec -> db_state c D es bs r T w'.
Proof.
  intros Hdb Hp. destruct (pb_world _ _ _ _ _ _ _ _ _ _ _ Hp) as (nx & Ew & Hf). rewrite Ew in Hf |- *.
  apply db_state_user; [apply _|done| |done]. intros x y Ey Hy.
  pose proof (put_built_others _ _ _ _ _ _ _ _ _ _ _ _ _ Hp Ey). by destruct y.
Qed.

Lemma put_origs_ok w w' t hb hd kc kl vc vl outer rec bk bv h :
  put_built w w' t hb hd kc kl vc vl outer rec -> user_equiv (w_heap w') h ->
  peek logdb_buffer_t (w_heap w) kl = Some bk -> peek logdb_buffer_t (w_heap w) vl = Some bv ->
  1 <= buf_refcnt bk < 2 ^ 31 - 2 -> 1 <= buf_refcnt bv < 2 ^ 31 - 2 ->
  origs_ok h (put_links hb hd kc kl vc vl).
Proof.
  intros Hp He Ek Ev Hrk Hrv o Ho.
  assert (exists b, peek logdb_buffer_t (w_heap w) o = Some b /\ 1 <= buf_refcnt b < 2 ^ 31 - 2) as (b & Eb & Hr).
  { rewrite copies_put in Ho. destruct (decide (kl = o)) as [<-|]; [by exists bk|].
    destruct (decide (vl = o)) as [<-|]; [by exists bv|lia]. }
  apply peek_buffer_cell in Eb.
  assert (o ∉ t :: owned (put_links hb hd kc kl vc vl)) as Hin.
  { intros Hin. by rewrite (pb_fresh _ _ _ _ _ _ _ _ _ _ _ Hp o Hin) in Eb. }
  split; [intros ?; apply Hin; by right|].
  pose proof (pb_rest _ _ _ _ _ _ _ _ _ _ _ Hp o Hin) as E. rewrite Eb in E. simpl in E.
  eexists. split; [apply (user_equiv_peek logdb_buffer_t _ _ _ _ He); by apply peek_buffer_cell|].
  simpl. rewrite copies_put. repeat case_decide; simpl; lia.
Qed.

Lemma txn_close_run es bs r T `{TableFrame T} w w' w7 t hb hd kc kl vc vl outer rec bk bv :
  put_built w w' t hb hd kc kl vc vl outer rec -> user_equiv (w_heap w') (w_heap w7) ->
  db_state c D es bs r T w7 ->
  peek logdb_buffer_t (w_heap w) kl = Some bk -> peek logdb_buffer_t (w_heap w) vl = Some bv ->
  1 <= buf_refcnt bk < 2 ^ 31 - 2 -> 1 <= buf_refcnt bv < 2 ^ 31 - 2 ->
  exists h, run th (logdb_txn_close (Some c) (Some t)) w7 =
      Done tt (set_tls (<[(th, d_key D) := outer]> (w_tls w7)) (set_heap h w7)) /\
    db_state c D es bs r T (set_heap h w7) /\ user_equiv (w_heap w) h /\
    (forall x, x ∈ t :: owned (put_links hb hd kc kl vc vl) -> h !! x = None).
Proof.
  intros Hp He Hdb Ek Ev Hrk Hrv.
  pose proof (user_equiv_peek _ _ _ _ _ He (pb_txn _ _ _ _ _ _ _ _ _ _ _ Hp)) as Et.
  pose proof (links_ok_user _ _ _ _ He (pb_links _ _ _ _ _ _ _ _ _ _ _ Hp)) as Hl.
  pose proof (put_origs_ok _ _ _ _ _ _ _ _ _ _ _ _ _ _ Hp He Ek Ev Hrk Hrv) as Ho.
  pose proof (pb_new _ _ _ _ _ _ _ _ _ _ _ Hp) as Hnd.
  unfold logdb_txn_close, logdb_txn_set_current.
  rewrite run_bind, run_load, (do_load_peek _ _ _ _ Et). cbn [txn_outer].
  rewrite run_bind, run_bind, run_load, (do_load_peek _ _ _ _ (ds_conn _ _ _ _ _ _ _ Hdb)).
  cbn [conn_current_txn_key the_conn]. unfold pthread_setspecific. rewrite run_prim.
  rewrite next_fault_quiet by apply Hdb. cbn beta iota.
  set (w8 := set_tls _ w7). rewrite run_bind, run_load, (do_load_peek _ _ (mk_txn outer (Some hb))) by done.
  cbn [txn_buf].
  destruct (buffer_free_run th (put_links hb hd kc kl vc vl) (Some hb) w8) as (h' & E & Hh'); [done| |done|].
  { exact (NoDup_cons_1_2 _ _ Hnd). }
  rewrite run_bind, E.
  assert (h' !! t = w_heap w7 !! t) as Ht.
  { rewrite Hh'. unfold released. pose proof (NoDup_cons_1_1 _ _ Hnd). rewrite decide_False by done.
    cbn [w_heap set_tls w8]. unfold peek in Et. destruct (w_heap w7 !! t) as [[]|]; done. }
  rewrite run_free, do_free_run.
  2: { cbn [w_heap set_heap]. rewrite Ht. exact (peek_is_Some _ _ _ _ Et). }
  exists (delete t h'). split; [done|]. split; [|split; [by eapply put_released|]].
  2: { intros x Hx. destruct (decide (t = x)) as [->|]; [by rewrite lookup_delete_eq|].
    rewrite lookup_delete_ne, Hh' by done. unfold released. apply elem_of_cons in Hx as [|Hx]; [done|].
    by rewrite decide_True. }
  replace (set_heap (delete t h') w7) with (set_next (w_next w7) (set_heap (delete t h') w7)) by by destruct w7.
  assert (forall x, is_Some (delete t h' !! x) -> is_Some (w_heap w7 !! x)) as Hdom.
  { intros x [y Ey]. destruct (decide (t = x)) as [->|]; [by rewrite lookup_delete_eq in Ey|].
    rewrite lookup_delete_ne, Hh' in Ey by done. unfold released in Ey.
    case_decide; [done|]. cbn [w_heap set_tls w8] in Ey. by destruct (w_heap w7 !! x). }
  apply db_state_user; [done|done| |].
  - intros x y Ey Hy. rewrite lookup_delete_ne.
    2: { intros <-. unfold peek in Et. rewrite Ey in Et. destruct y; done. }
    rewrite Hh'. unfold released. rewrite decide_False.
    + cbn [w_heap set_tls w8]. rewrite Ey. by destruct y.
    + intros Hin. assert (x ∈ t :: owned (put_links hb hd kc kl vc vl)) as Hin' by by right.
      destruct (links_ok_user_cell _ _ _ x Hl Hin) as (z & Ez & Hz).
      rewrite Ey in Ez. injection Ez as ->. by destruct z.
  - intros x Hx. cbn [w_heap w_next set_next set_heap] in *. apply eq_None_not_Some. intros Hs.
    apply Hdom in Hs as [y Ey]. rewrite (ds_fresh _ _ _ _ _ _ _ Hdb) in Ey by done. done.
Qed.

(** ** A put outside a transaction *)

Lemma put_run es bs r w kl vl k v i e es' :
  db_state c D es bs r table_idle w -> current_txn w = None ->
  user_buffer (w_heap w) kl k -> user_buffer (w_heap w) vl v ->
  zlen (record_bytes k v) <= LOGDB_SECTION_SIZE -> zlen es < 65536 ->
  place es (zlen (record_bytes k v)) = (i, e, es') ->
  exists w', run th (logdb_put (Some c) (Some kl) (Some vl)) w = Done 0 w' /\
    db_state c D (<[i := u16 (e + zlen (record_bytes k v))]> es')
      (file_write (logdb_connection_offset (Z.of_nat i) + e) (record_bytes k v) bs) r table_idle w' /\
    w_tls w' = <[(th, d_key D) := None]> (w_tls w) /\ same_rest D (set_tls (w_tls w') w) w'.
Proof.
  intros Hdb Hcur [Hk (bk & Ek & Hck & Hrk)] [Hv (bv & Ev & Hcv & Hrv)] Hsz Hlen Hpl.
  pose proof (length_record_bytes k v) as Hn. unfold LOGDB_SECTION_SIZE in *.
  pose proof (place_spec es (zlen (record_bytes k v)) i e es' ltac:(unfold LOGDB_SECTION_SIZE; lia) Hpl) as (Ei & _).
  assert (zlen k + zlen v < 2 ^ 32 - 8) as Hkv by lia.
  rewrite (put_build_run w es bs r table_idle kl vl k v bk bv) by done.
  set (a := w_next w). set (w1 := put_world w kl vl k v bk bv).
  assert (put_built w w1 (a + 2) (a + 1) a (a + 3) kl (a + 4) vl None (record_bytes k v)) as Hp
    by (rewrite <- Hcur; by eapply put_built_world).
  assert (db_state c D es bs r table_idle w1) as Hdb1 by (eapply put_built_state; [exact _|exact Hdb|exact Hp]).
  unfold logdb_txn_commit_implicit, logdb_txn_commit.
  rewrite run_bind, run_bind, run_load, (do_load_peek _ _ _ _ (pb_txn _ _ _ _ _ _ _ _ _ _ _ Hp)).
  cbn [txn_buf txn_outer].
  rewrite run_bind, (buffer_length_run _ _ _ _ (pb_bytes _ _ _ _ _ _ _ _ _ _ _ Hp)), u32_small by lia.
  rewrite (proj2 (Z.eqb_neq _ _)) by lia.
  destruct (acquire_write_run th c D es bs r w1 no_lease (zlen (record_bytes k v)) i e es' Hdb1)
    as (w2 & E2 & Hdb2 & Hr2); [unfold LOGDB_SECTION_SIZE; lia|done|done|].
  rewrite run_bind, E2. change (negb (0 =? 0)) with false. cbn iota.
  destruct (commit_write_run th c D es' bs (r + 1) w2 i e (a + 2) (mk_txn None (Some (a + 1))) (a + 1) (record_bytes k v))
    as (w3 & E3 & Hdb3 & Hr3); [done|done| |done| |lia|].
  { eapply user_equiv_peek; [apply _|apply (sr_heap _ _ _ Hr2)|apply Hp]. }
  { eapply buffer_is_le; [apply user_equiv_le, (sr_heap _ _ _ Hr2)|apply Hp]. }
  rewrite run_bind, E3. change (negb (0 =? 0)) with false. cbn iota.
  replace (r + 1 - 1) with r in Hdb3 by lia. assert (same_rest D w1 w3) as Hr13 by by etransitivity.
  destruct (txn_close_run _ _ _ _ w w1 w3 _ _ _ _ _ _ _ _ _ bk bv Hp (sr_heap _ _ _ Hr13) Hdb3 Ek Ev Hrk Hrv)
    as (h & E4 & Hdb4 & He4 & _).
  rewrite run_bind, E4, run_ret, run_bind. change (negb (0 =? 0)) with false. cbn iota. rewrite !run_ret.
  eexists. split; [done|]. destruct (pb_world _ _ _ _ _ _ _ _ _ _ _ Hp) as (nx & Ew1 & _).
  split_and!.
  - destruct Hdb4. by constructor.
  - cbn [w_tls set_tls set_heap]. by rewrite (sr_tls _ _ _ Hr13), Ew1.
  - destruct Hr13 as [_ _ ? ? ? ? ? ?]. rewrite Ew1 in *. by constructor.
Qed.

End put.

(** ** A put in a transaction *)

Section nested.
Context `{Build} (th : thread) (c : loc) (D : desc).

Definition store_cell (x : loc) (y : cell) (w : world) : world := set_heap (<[x := y]> (w_heap w)) w.

(** A built put does not depend on the other transactions. *)
Lemma put_built_store w w' t hb hd kc kl vc vl outer rec o tx y :
  put_built w w' t hb hd kc kl vc vl outer rec -> peek logdb_txn_t (w_heap w) o = Some tx ->
  put_built (store_cell o (CTxn y) w) (store_cell o (CTxn y) w') t hb hd kc kl vc vl outer rec.
Proof.
  intros Hp Eo. assert (w_heap w !! o = Some (CTxn tx)) as Ec.
  { destruct (peek_cell _ _ _ _ Eo) as (x & Ex & Hx). destruct x; try done. by injection Hx as ->. }
  assert (o ∉ t :: owned (put_links hb hd kc kl vc vl)) as Ho.
  { intros Hin. by rewrite (pb_fresh _ _ _ _ _ _ _ _ _ _ _ Hp o Hin) in Ec. }
  assert (w_heap w' !! o = Some (CTxn tx)) as Ec' by exact (put_built_others _ _ _ _ _ _ _ _ _ _ _ _ _ Hp Ec).
  constructor; unfold store_cell; cbn [w_heap set_heap].
  - rewrite peek_insert_ne; [apply Hp|]. intros ->. apply Ho. left.
  - eapply buffer_is_le; [|apply Hp]. by eapply heap_le_other.
  - eapply links_ok_frame; [|apply Hp]. intros x Hx. apply lookup_insert_ne. intros ->. apply Ho. by right.
  - apply Hp.
  - intros x Hx. rewrite lookup_insert_ne by (intros ->; done). by apply Hp.
  - intros x Hx. destruct (decide (o = x)) as [<-|]; [by rewrite !lookup_insert_eq|].
    rewrite !lookup_insert_ne by done. by apply Hp.
  - destruct (pb_world _ _ _ _ _ _ _ _ _ _ _ Hp) as (nx & Ew & Hf). exists nx. split; [by rewrite Ew|].
    apply heap_fresh_store; [done|]. by rewrite Ec'.
Qed.

Lemma db_state_store es bs r T `{TableFrame T} w o tx y :
  db_state c D es bs r T w -> peek logdb_txn_t (w_heap w) o = Some tx ->
  db_state c D es bs r T (store_cell o (CTxn y) w).
Proof.
  intros Hdb (x & Ex & Hx)%peek_cell. unfold store_cell.
  replace (set_heap _ w) with (set_next (w_next w) (set_heap (<[o := CTxn y]> (w_heap w)) w)) by by destruct w.
  apply db_state_user; [apply _|done| |].
  - intros x' y' Ex' Hy. rewrite lookup_insert_ne; [done|]. intros ->. rewrite Ex' in Ex. injection Ex as ->.
    by destruct x.
  - intros l Hl. cbn [w_heap w_next set_heap set_next] in *. rewrite lookup_insert_ne.
    + by apply (ds_fresh _ _ _ _ _ _ _ Hdb).
    + intros ->. by rewrite (ds_fresh _ _ _ _ _ _ _ Hdb) in Ex.
Qed.

(** The first put in a transaction: the outer transaction gets the put's own
    list, which is then freed. *)
Lemma nested_put_run es bs r w kl vl k v o oo :
  db_state c D es bs r table_idle w -> current_txn th D w = Some o ->
  peek logdb_txn_t (w_heap w) o = Some (mk_txn oo None) ->
  user_buffer (w_heap w) kl k -> user_buffer (w_heap w) vl v ->
  zlen k + zlen v < 2 ^ 32 - 8 ->
  exists w' b, run th (logdb_put (Some c) (Some kl) (Some vl)) w = Done 0 w' /\
    db_state c D es bs r table_idle w' /\ current_txn th D w' = Some o /\
    peek logdb_txn_t (w_heap w') o = Some (mk_txn oo (Some b)) /\ w_heap w' !! b = None.
Proof.
  intros Hdb Hcur Eo [Hk (bk & Ek & Hck & Hrk)] [Hv (bv & Ev & Hcv & Hrv)] Hlen.
  rewrite (put_build_run th c D w es bs r table_idle kl vl k v bk bv) by done.
  set (a := w_next w). set (w1 := put_world th D w kl vl k v bk bv).
  assert (put_built w w1 (a + 2) (a + 1) a (a + 3) kl (a + 4) vl (Some o) (record_bytes k v)) as Hp
    by (rewrite <- Hcur; by eapply put_built_world).
  assert (db_state c D es bs r table_idle w1) as Hdb1 by (eapply put_built_state; [exact _|exact Hdb|exact Hp]).
  assert (peek logdb_txn_t (w_heap w1) o = Some (mk_txn oo None)) as Eo1.
  { destruct (peek_cell _ _ _ _ Eo) as (x & Ex & Hx). destruct x; try done. injection Hx as ->.
    pose proof (put_built_others _ _ _ _ _ _ _ _ _ _ _ _ _ Hp Ex) as Ex1.
    cbn beta iota in Ex1. clearbody w1. unfold peek. by rewrite Ex1. }
  pose proof (length_record_bytes k v) as Hn.
  unfold logdb_txn_commit_implicit, logdb_txn_commit.
  rewrite run_bind, run_bind, run_load, (do_load_peek _ _ _ _ (pb_txn _ _ _ _ _ _ _ _ _ _ _ Hp)).
  cbn [txn_buf txn_outer].
  rewrite run_bind, (buffer_length_run _ _ _ _ (pb_bytes _ _ _ _ _ _ _ _ _ _ _ Hp)), u32_small by lia.
  rewrite (proj2 (Z.eqb_neq _ _)) by lia.
  rewrite run_bind, run_bind, run_load, (do_load_peek _ _ _ _ Eo1). cbn [txn_buf].
  unfold logdb_buffer_append. rewrite !bool_decide_eq_false_2 by done. cbn [orb]. rewrite andb_false_r.
  rewrite run_bind, run_ret, run_upd. rewrite (do_rmw_peek _ (mk_txn oo None)) by done.
  cbn beta iota. cbn [fst snd set_txn_buf txn_outer].
  pose proof (put_built_store _ _ _ _ _ _ _ _ _ _ _ o _ (mk_txn oo (Some (a + 1))) Hp Eo) as Hp2.
  pose proof (db_state_store _ _ _ _ _ _ _ (mk_txn oo (Some (a + 1))) Hdb1 Eo1) as Hdb2.
  change (set_heap _ w1) with (store_cell o (CTxn (mk_txn oo (Some (a + 1)))) w1).
  assert (forall l b, peek logdb_buffer_t (w_heap w) l = Some b ->
    peek logdb_buffer_t (w_heap (store_cell o (CTxn (mk_txn oo (Some (a + 1)))) w)) l = Some b) as Hbuf.
  { intros l b E. unfold store_cell. cbn [w_heap set_heap]. rewrite peek_insert_ne; [done|].
    intros <-. unfold peek in *. destruct (w_heap w !! o) as [[]|]; done. }
  destruct (txn_close_run th c D es bs r table_idle _ _ _ _ _ _ _ _ _ _ _ _ bk bv Hp2 ltac:(done) Hdb2
    (Hbuf _ _ Ek) (Hbuf _ _ Ev) Hrk Hrv) as (h & E4 & Hdb4 & He4 & Hnone).
  rewrite run_bind, E4, run_ret, run_bind. change (negb (0 =? 0)) with false. cbn iota. rewrite !run_ret.
  eexists _, (a + 1). split; [done|]. cbn [w_heap set_heap set_tls]. split_and!.
  - destruct Hdb4. by constructor.
  - unfold current_txn. simpl. by rewrite lookup_insert_eq.
  - apply (user_equiv_peek logdb_txn_t _ _ _ _ He4). exact (peek_insert logdb_txn_t _ _ _).
  - apply Hnone. rewrite owned_put. right. left.
Qed.

(** Beginning a transaction. *)
Lemma begin_run es bs r T `{TableFrame T} w :
  db_state c D es bs r T w ->
  exists w' o, run th (logdb_begin (Some c)) w = Done 0 w' /\ db_state c D es bs r T w' /\
    current_txn th D w' = Some o /\ w_heap w !! o = None /\
    w_heap w' = <[o := CTxn (mk_txn (current_txn th D w) None)]> (w_heap w).
Proof.
  intros Hdb. unfold logdb_begin, logdb_txn_set_current.
  pose proof (ds_fresh _ _ _ _ _ _ _ Hdb (w_next w) ltac:(lia)) as Hnew.
  assert (c < w_next w) as Hc by exact (heap_fresh_lt _ _ _ _ (ds_fresh _ _ _ _ _ _ _ Hdb) (ds_conn _ _ _ _ _ _ _ Hdb)).
  rewrite run_bind, (verify_connection_run _ _ _ _ _ _ _ _ Hdb). cbn [negb]. cbn iota.
  rewrite run_bind, (begin_implicit_run th c D w r w) by (done || apply Hdb). cbn beta iota.
  set (w1 := set_next (w_next w + 1) _).
  assert (db_state c D es bs r T w1) as Hdb1.
  { apply db_state_user; [done|done| |].
    - intros x y Ex _. rewrite lookup_insert_ne; [done|]. intros <-. by rewrite Hnew in Ex.
    - apply heap_fresh_steps; [apply Hdb|lia|]. intros x Hx. apply lookup_insert_ne. lia. }
  rewrite run_bind, run_load, (do_load_peek _ _ _ _ (ds_conn _ _ _ _ _ _ _ Hdb1)).
  cbn [conn_current_txn_key the_conn]. unfold pthread_setspecific. rewrite run_prim.
  rewrite next_fault_quiet by apply Hdb1. cbn beta iota.
  exists (set_tls (<[(th, d_key D) := Some (w_next w)]> (w_tls w1)) w1), (w_next w). split; [done|]. split_and!.
  - destruct Hdb1. by constructor.
  - unfold current_txn. cbn [w_tls set_tls]. by rewrite lookup_insert_eq.
  - done.
  - done.
Qed.

(** Using a freed buffer. *)
Lemma length_dangling w b : w_heap w !! b = None -> run th (logdb_buffer_length (Some b)) w = Undef (UbDangling b).
Proof.
  intros E. unfold logdb_buffer_length. rewrite run_bind, run_heap_size. cbn [buffer_length_loop].
  rewrite run_bind, run_load. unfold do_load, with_cell, peek. by rewrite E.
Qed.

Lemma free_dangling w b : w_heap w !! b = None -> run th (logdb_buffer_free (Some b)) w = Undef (UbDangling b).
Proof.
  intros E. unfold logdb_buffer_free. rewrite run_bind, run_heap_size. cbn [buffer_free_loop].
  rewrite run_bind, run_rmw. unfold do_rmw, with_cell, peek. by rewrite E.
Qed.

(** A transaction whose buffer is freed can neither be committed nor rolled
    back. *)
Lemma dangling_commit es bs r T w o oo b :
  db_state c D es bs r T w -> current_txn th D w = Some o ->
  peek logdb_txn_t (w_heap w) o = Some (mk_txn oo (Some b)) -> w_heap w !! b = None ->
  run th (logdb_commit (Some c)) w = Undef (UbDangling b) /\
  run th (logdb_rollback (Some c)) w = Undef (UbDangling b).
Proof.
  intros Hdb Hcur Eo Eb. unfold logdb_commit, logdb_rollback.
  rewrite !run_bind, (verify_connection_run _ _ _ _ _ _ _ _ Hdb). cbn [negb]. cbn iota.
  rewrite !run_bind, (txn_current_run _ _ _ _ _ _ _ _ Hdb), Hcur. split.
  - unfold logdb_txn_commit. rewrite run_bind, run_load, (do_load_peek _ _ _ _ Eo). cbn [txn_buf].
    by rewrite run_bind, length_dangling.
  - unfold logdb_txn_close, logdb_txn_set_current. rewrite !run_bind, run_load, (do_load_peek _ _ _ _ Eo).
    rewrite run_bind, run_bind, run_load, (do_load_peek _ _ _ _ (ds_conn _ _ _ _ _ _ _ Hdb)).
    cbn [conn_current_txn_key the_conn]. unfold pthread_setspecific. rewrite run_prim.
    rewrite next_fault_quiet by apply Hdb. cbn beta iota.
    rewrite run_bind, run_load, (do_load_peek _ _ (mk_txn oo (Some b))) by done. cbn [txn_buf].
    by rewrite run_bind, free_dangling.
Qed.

End nested.

(** ** Sections *)

(** Appending to a section: its bytes grow, the others' stay. *)
Lemma section_append es es' bs i e d size :
  Forall entry_ok es -> zlen es' <= 65536 -> sections_in es bs ->
  es' !! i = Some e -> (es' = es \/ es' = es ++ [0] /\ i = length es) ->
  e + size <= LOGDB_SECTION_SIZE -> zlen d = size -> e + size < 65536 ->
  let es2 := <[i := e + size]> es' in
  let bs2 := file_write (logdb_connection_offset (Z.of_nat i) + e) d bs in
  section es2 bs2 i = section es bs i ++ d /\
  (forall j, j <> i -> section es2 bs2 j = section es bs j) /\ (d <> [] -> sections_in es2 bs2).
Proof.
  intros Hok Hlen Hin Ei Hes Hroom Hd Hlt es2 bs2. unfold LOGDB_SECTION_SIZE in *.
  assert (forall j, default 0 (es' !! j) = default 0 (es !! j)) as Hdef.
  { intros j. destruct Hes as [->|[-> _]]; [done|]. destruct (decide (j < length es)%nat).
    - by rewrite lookup_app_l.
    - rewrite lookup_app_r by lia. rewrite (lookup_ge_None_2 es) by lia. by destruct (j - length es)%nat as [|[]]. }
  assert (forall j x, es !! j = Some x -> 0 <= x < 65536) as Hx.
  { intros j x E. exact (Forall_lookup_1 _ _ _ _ Hok E). }
  assert (0 <= e) as He.
  { pose proof (Hdef i) as Hdi. rewrite Ei in Hdi. simpl in Hdi.
    destruct (es !! i) as [x|] eqn:E; simpl in Hdi; [apply Hx in E|]; lia. }
  pose proof (lookup_lt_Some _ _ _ Ei) as Hil.
  assert (forall j, Z.of_nat j < 65536 -> logdb_connection_offset (Z.of_nat j) = 6 + Z.of_nat j * 65536) as Hoff
    by (intros; apply connection_offset_small; lia).
  assert (e <> 0 -> 6 + Z.of_nat i * 65536 + e <= zlen bs) as Hend.
  { intros Hne. pose proof (Hdef i) as Hdi. rewrite Ei in Hdi. simpl in Hdi.
    destruct (es !! i) as [x|] eqn:E; simpl in Hdi; [|lia].
    pose proof (Hin i x E ltac:(lia)). rewrite Hoff in * by lia. lia. }
  split_and!.
  - unfold section, es2, bs2. rewrite list_lookup_insert_eq by done. simpl.
    rewrite <- (Hdef i), Ei. simpl. rewrite file_read_app by (rewrite ?Hoff; lia). f_equal.
    + destruct (decide (e = 0)) as [->|Hne]; [by rewrite !file_read_zero|].
      apply file_read_write_before; rewrite ?Hoff in * by lia; lia.
    + subst size. apply file_read_write_same. rewrite Hoff by lia. lia.
  - intros j Hj. unfold section, es2, bs2. rewrite list_lookup_insert_ne by done. rewrite Hdef.
    destruct (es !! j) as [x|] eqn:E; simpl; [|by rewrite !file_read_zero].
    pose proof (Hx _ _ E). pose proof (lookup_lt_Some _ _ _ E).
    assert (length es <= length es')%nat by (destruct Hes as [->|[-> _]]; rewrite ?length_app; lia).
    destruct (decide (x = 0)) as [->|Hne]; [by rewrite !file_read_zero|].
    pose proof (Hin j x E Hne) as Hjx. rewrite !Hoff in * by lia.
    destruct (Nat.lt_ge_cases j i); [apply file_read_write_before|apply file_read_write_after]; lia.
  - intros Hnn j x Ej Hne. unfold bs2. rewrite length_file_write by (rewrite ?Hoff; done || lia).
    unfold es2 in Ej. destruct (decide (i = j)) as [<-|].
    + rewrite list_lookup_insert_eq in Ej by done. injection Ej as <-. lia.
    + rewrite list_lookup_insert_ne in Ej by done. pose proof (Hdef j) as Hdj. rewrite Ej in Hdj. simpl in Hdj.
      destruct (es !! j) as [y|] eqn:E; simpl in Hdj; [|lia]. subst x.
      pose proof (Hin j y E Hne). lia.
Qed.

(** An entry of the log a write lease leaves is in range. *)
Lemma db_entry_place es es' i e :
  Forall entry_ok es -> es' = es \/ es' = es ++ [0] /\ i = length es -> es' !! i = Some e -> 0 <= e < 65536.
Proof.
  intros Hok Hes Ei. assert (Forall entry_ok es') as Hok'.
  { destruct Hes as [->|[-> _]]; [done|]. apply Forall_app. split; [done|]. by repeat constructor. }
  exact (Forall_lookup_1 _ _ _ _ Hok' Ei).
Qed.

(** ** A process about to put a record *)

Definition open_desc (flags : Z) : desc := mk_desc 3 1 4 (Some "t.db-log") 1 2 flags 0 100.

(** The open database of LogSpec.v, and buffers 4 and 6 on key and value. *)
Definition put_sample (k v : list byte) (flags : Z) (db : list byte) (es : list Z) : world :=
  let w := open_world flags db es [] in
  set_next 7 (set_heap
    (<[3 := CBytes k]> (<[4 := CBuffer (mk_buffer (Some 3) (zlen k) None None None 1)]>
    (<[5 := CBytes v]> (<[6 := CBuffer (mk_buffer (Some 5) (zlen v) None None None 1)]> (w_heap w))))) w).

Lemma put_sample_state k v flags db es :
  Forall entry_ok es -> zlen es <= 65536 ->
  db_state 2 (open_desc flags) es db 0 table_idle (put_sample k v flags db es).
Proof.
  intros Hok Hlen. constructor; try done.
  - intros l Hl. simpl in *. rewrite !lookup_insert_ne by lia. by rewrite lookup_singleton_ne by lia.
  - exists open_log. split_and!; [done..|]. exists []. split; [done|]. split; [split; constructor|constructor].
  - by exists db_ofd.
  - by exists log_ofd.
  - intros x Hx. by apply not_elem_of_nil in Hx.
Qed.

Lemma put_sample_buffer `{Build} k v flags db es l bs :
  l = 4 /\ bs = k \/ l = 6 /\ bs = v -> user_buffer (w_heap (put_sample k v flags db es)) l bs.
Proof.
  intros Hl. split.
  - destruct Hl as [[-> ->]|[-> ->]]; by eapply buffer_is_own.
  - destruct Hl as [[-> ->]|[-> ->]]; eexists; (split; [done|]); (split; [by right|done]).
Qed.

(** ** Properties *)

#[local] Existing Instance debug_build.

(** C15. [logdb_put] outside a transaction returns 0, appends the record - its
    header, the key and the value - to one section that had room for it, and
    changes no other section; the database stays well formed, no entry stays
    locked, and all memory is as it was, every reference count included. *)
Theorem put_correct `{Build} th c D es bs r w kl vl k v i e es' :
  db_state c D es bs r table_idle w -> current_txn th D w = None -> sections_in es bs ->
  user_buffer (w_heap w) kl k -> user_buffer (w_heap w) vl v ->
  zlen es < 65536 -> place es (zlen (record_bytes k v)) = (i, e, es') ->
  zlen (record_bytes k v) <= LOGDB_SECTION_SIZE -> e + zlen (record_bytes k v) < LOGDB_SECTION_SIZE ->
  exists w' es2 bs2, run th (logdb_put (Some c) (Some kl) (Some vl)) w = Done 0 w' /\
    db_state c D es2 bs2 r table_idle w' /\ sections_in es2 bs2 /\
    section es2 bs2 i = section es bs i ++ record_bytes k v /\
    (forall j, j <> i -> section es2 bs2 j = section es bs j) /\
    user_equiv (w_heap w) (w_heap w') /\ current_txn th D w' = None.
Proof.
  intros Hdb Hcur Hin Hk Hv Hlen Hpl Hsz Hfit. pose proof (length_record_bytes k v) as Hn.
  pose proof (place_spec es (zlen (record_bytes k v)) i e es' ltac:(lia) Hpl) as (Ei & Hroom & Hes).
  unfold LOGDB_SECTION_SIZE in *.
  destruct (put_run th c D es bs r w kl vl k v i e es') as (w' & E & Hdb' & Ht & Hr); [done..|].
  pose proof (ds_entries _ _ _ _ _ _ _ Hdb) as Hok. pose proof (ds_count _ _ _ _ _ _ _ Hdb') as Hcount.
  rewrite length_insert in Hcount. pose proof (db_entry_place es es' i e Hok Hes Ei) as He.
  rewrite u16_small in Hdb' by lia.
  destruct (section_append es es' bs i e (record_bytes k v) (zlen (record_bytes k v)))
    as (Hs1 & Hs2 & Hs3); [done|lia|done|done|tauto|unfold LOGDB_SECTION_SIZE; lia|done|lia|].
  eexists w', _, _. split; [exact E|]. split; [exact Hdb'|]. split_and!; [|done|done| |].
  - apply Hs3. intros Hnil. rewrite Hnil in Hn. simpl in Hn. lia.
  - exact (sr_heap _ _ _ Hr).
  - unfold current_txn. by rewrite Ht, lookup_insert_eq.
Qed.

Lemma put_correct_witness :
  let w := put_sample [x61] [x62; x63] 0 header_bytes [0] in
  exists w' es2 bs2, run main_thread (logdb_put (Some 2) (Some 4) (Some 6)) w = Done 0 w' /\
    db_state 2 (open_desc 0) es2 bs2 0 table_idle w' /\ sections_in es2 bs2 /\
    section es2 bs2 0 = section [0] header_bytes 0 ++ record_bytes [x61] [x62; x63] /\
    (forall j, j <> 0%nat -> section es2 bs2 j = section [0] header_bytes j) /\
    user_equiv (w_heap w) (w_heap w') /\ current_txn main_thread (open_desc 0) w' = None.
Proof.
  apply (put_correct main_thread 2 (open_desc 0) [0] header_bytes 0 _ 4 6 [x61] [x62; x63] 0 0 [0]); try done.
  - apply put_sample_state; [by repeat constructor|done].
  - intros i e E He. destruct i as [|i]; [by injection E as <-|done].
  - apply put_sample_buffer. by left.
  - apply put_sample_buffer. by right.
Defined.

(** C35. A record that fills its section up to the last byte is lost, and with it
    every record that was in the section: [logdb_put] returns 0, but the 16-bit
    length in the log becomes 0. *)
Theorem put_full_section_lost `{Build} th c D es bs r w kl vl k v i e es' :
  db_state c D es bs r table_idle w -> current_txn th D w = None ->
  user_buffer (w_heap w) kl k -> user_buffer (w_heap w) vl v ->
  zlen es < 65536 -> place es (zlen (record_bytes k v)) = (i, e, es') ->
  zlen (record_bytes k v) <= LOGDB_SECTION_SIZE -> e + zlen (record_bytes k v) = LOGDB_SECTION_SIZE ->
  exists w' es2 bs2, run th (logdb_put (Some c) (Some kl) (Some vl)) w = Done 0 w' /\
    db_state c D es2 bs2 r table_idle w' /\ section es2 bs2 i = [].
Proof.
  intros Hdb Hcur Hk Hv Hlen Hpl Hsz Hfull.
  pose proof (place_spec es (zlen (record_bytes k v)) i e es' ltac:(lia) Hpl) as (Ei & _).
  destruct (put_run th c D es bs r w kl vl k v i e es') as (w' & E & Hdb' & _); [done..|].
  rewrite Hfull in Hdb'. eexists w', _, _. split; [exact E|]. split; [exact Hdb'|].
  unfold section. rewrite list_lookup_insert_eq by by eapply lookup_lt_Some. done.
Qed.

Lemma put_full_section_lost_witness :
  let w := put_sample [x61] [x62; x63] 0 header_bytes [65525] in
  exists w' es2 bs2, run main_thread (logdb_put (Some 2) (Some 4) (Some 6)) w = Done 0 w' /\
    db_state 2 (open_desc 0) es2 bs2 0 table_idle w' /\ section es2 bs2 0 = [].
Proof.
  apply (put_full_section_lost main_thread 2 (open_desc 0) [65525] header_bytes 0 _ 4 6 [x61] [x62; x63] 0 65525 [65525]);
    try done.
  - apply put_sample_state; [by repeat constructor|done].
  - apply put_sample_buffer. by left.
  - apply put_sample_buffer. by right.
Defined.

(** C30. A [logdb_put] inside a transaction returns 0 but leaves the transaction
    with a buffer that has been freed: [logdb_commit] and [logdb_rollback] both
    use it after that, which is undefined behaviour. *)
Theorem nested_put_dangling `{Build} th c D es bs r w kl vl k v :
  db_state c D es bs r table_idle w ->
  user_buffer (w_heap w) kl k -> user_buffer (w_heap w) vl v -> zlen k + zlen v < 2 ^ 32 - 8 ->
  exists w1 w2 b, run th (logdb_begin (Some c)) w = Done 0 w1 /\
    run th (logdb_put (Some c) (Some kl) (Some vl)) w1 = Done 0 w2 /\
    run th (logdb_commit (Some c)) w2 = Undef (UbDangling b) /\
    run th (logdb_rollback (Some c)) w2 = Undef (UbDangling b).
Proof.
  intros Hdb Hk Hv Hlen.
  destruct (begin_run th c D es bs r table_idle w Hdb) as (w1 & o & E1 & Hdb1 & Hcur & Ho & Hh1).
  assert (forall l d, user_buffer (w_heap w) l d -> user_buffer (w_heap w1) l d) as Hub.
  { intros l d [Hd (b & Eb & Hb)]. rewrite Hh1. split.
    - eapply buffer_is_le; [|exact Hd]. by apply heap_le_alloc.
    - exists b. split; [|done]. rewrite peek_insert_ne; [done|]. intros <-. unfold peek in Eb. by rewrite Ho in Eb. }
  destruct (nested_put_run th c D es bs r w1 kl vl k v o (current_txn th D w)) as (w2 & b & E2 & Hdb2 & Hcur2 & Eo2 & Eb);
    [done|done|rewrite Hh1; exact (peek_insert logdb_txn_t _ _ _)|by apply Hub|by apply Hub|done|].
  exists w1, w2, b. split; [done|]. split; [done|]. by eapply dangling_commit.
Qed.

Lemma nested_put_dangling_witness :
  let w := put_sample [x61] [x62; x63] 0 header_bytes [0] in
  exists w1 w2 b, run main_thread (logdb_begin (Some 2)) w = Done 0 w1 /\
    run main_thread (logdb_put (Some 2) (Some 4) (Some 6)) w1 = Done 0 w2 /\
    run main_thread (logdb_commit (Some 2)) w2 = Undef (UbDangling b) /\
    run main_thread (logdb_rollback (Some 2)) w2 = Undef (UbDangling b).
Proof.
  apply (nested_put_dangling main_thread 2 (open_desc 0) [0] header_bytes 0 _ 4 6 [x61] [x62; x63]).
  - apply put_sample_state; [by repeat constructor|done].
  - apply put_sample_buffer. by left.
  - apply put_sample_buffer. by right.
  - done.
Defined.

