(* ===== verification/Iter.v ===== *)
(** * Iterators: src/src/logdb_iter.c

    An iterator walks the sections in order and, inside a section, its
    records: it holds a read lease on the rest of the current section, the
    header of the current record and, once they were asked for, buffers with
    its key and value. *)

From S2P Require Import Prelude Machine World Posix Io Layout Log LogLock Buffer.
From S2P Require Import Lease Txn.

Section iter.
Context `{Build}.

(** ** Operations *)

(** [LOGDB_VERIFY_ITER]: is the argument accepted? *)
Definition verify_iter (iter : ptr) : prog bool :=
  if DEBUG then
    match iter with
    | None => Ret false
    | Some _ =>
        let! i := load logdb_iter_t iter in
        match iter_connection i with
        | None => Ret false
        | Some _ =>
            let! c := load logdb_connection_t (iter_connection i) in
            Ret (conn_version c =? LOGDB_VERSION)
        end
    end
  else Ret true.

Definition logdb_iter_read_buf (iter : ptr) (len : Z) : prog ptr :=
  let! buf := alloc ([] : list byte) in
  match buf with
  | None => Ret None
  | Some _ =>
      let! i := load logdb_iter_t iter in
      let! (r, data, lease) := logdb_lease_read (iter_lease i) len in
      do! upd iter (set_iter_lease lease) in
      do! store_append buf len data in
      if negb (r =? 0) then Ret None else
      logdb_buffer_new_direct buf len (Some DisposeFree)
  end.

Definition logdb_iter_all (connection : ptr) : prog ptr :=
  let! ok := verify_connection connection in
  if negb ok then Ret None else
  let! iter := alloc (mk_iter None no_lease (mk_data_header 0 0) None None) in
  match iter with
  | None => Ret None
  | Some _ =>
      do! upd iter (set_iter_connection connection) in
      Ret iter
  end.

(** The index of the next section that is not empty, or [None] at the end of
    the log. *)
Fixpoint next_section (fuel : nat) (log : ptr) (index : Z) : prog (option Z) :=
  match fuel with
  | O => no_fuel
  | S fuel' =>
      let! (r, len) := logdb_log_read_entry log index in
      if r =? -1 then Ret None else
      if negb (len =? 0) then Ret (Some index)
      else next_section fuel' log (u32 (index + 1))
  end.

(** The number of entries in the log: the fuel of [next_section]. *)
Definition log_entries (log : ptr) : prog nat :=
  prim (fun _ w => with_cell (T:=logdb_log_t) log w (fun _ l =>
    Done match get_fd (log_fd l) w with
         | Some o => length (get_file (fd_ino o) w)
         | None => O
         end w)).

(** The current lease is used up: take one on the next section.  [false] when
    there is none. *)
Definition iter_next_lease (iter : ptr) : prog bool :=
  let! i := load logdb_iter_t iter in
  let! index :=
    match lease_connection (iter_lease i) with
    | Some _ =>
        let! lease := logdb_lease_release (iter_lease i) in
        do! upd iter (set_iter_lease lease) in
        Ret (u32 (lease_index (iter_lease i) + 1))
    | None => Ret 0
    end in
  let! c := load logdb_connection_t (iter_connection i) in
  let! fuel := log_entries (conn_log c) in
  let! next := next_section (S fuel) (conn_log c) index in
  match next with
  | None => Ret false
  | Some index =>
      let! i := load logdb_iter_t iter in
      let! (r, lease) := logdb_lease_acqire_read (iter_lease i) (iter_connection i) index 0 in
      do! upd iter (set_iter_lease lease) in
      Ret (r =? 0)
  end.

(** Skip the key, if it was not read, then the value. *)
Definition iter_skip (iter : ptr) : prog bool :=
  let! i := load logdb_iter_t iter in
  let! ok :=
    match iter_key i with
    | Some _ => Ret true
    | None =>
        let (r, lease) := logdb_lease_seek (iter_lease i) (hdr_keylen (iter_record i)) in
        do! upd iter (set_iter_lease lease) in
        Ret (negb (r =? -1))
    end in
  if negb ok then Ret false else
  let! i := load logdb_iter_t iter in
  match iter_value i with
  | Some _ => Ret true
  | None =>
      let (r, lease) := logdb_lease_seek (iter_lease i) (hdr_valuelen (iter_record i)) in
      do! upd iter (set_iter_lease lease) in
      Ret (negb (r =? -1))
  end.

(** Dispose the old key and value if they had been read. *)
Definition iter_dispose (iter : ptr) : prog unit :=
  let! i := load logdb_iter_t iter in
  do! match iter_key i with
      | Some _ =>
          do! logdb_buffer_free (iter_key i) in
          upd iter (set_iter_key None)
      | None => Ret tt
      end in
  let! i := load logdb_iter_t iter in
  match iter_value i with
  | Some _ =>
      do! logdb_buffer_free (iter_value i) in
      upd iter (set_iter_value None)
  | None => Ret tt
  end.

(** Read the header of the next record in the lease. *)
Definition iter_read_record (iter : ptr) : prog Z :=
  let! i := load logdb_iter_t iter in
  let! (r, data, lease) := logdb_lease_read (iter_lease i) sizeof_data_header in
  do! upd iter (set_iter_lease lease) in
  do! upd iter (fun i => set_iter_record
        (data_header_of_bytes (file_write 0 data (data_header_bytes (iter_record i)))) i) in
  Ret (if r =? 0 then 1 else 0).

Definition logdb_iter_next (iter : ptr) : prog Z :=
  let! ok := verify_iter iter in
  if negb ok then Ret 0 else
  let! i := load logdb_iter_t iter in
  let! ok := (if lease_len (iter_lease i) <? sizeof_data_header
              then iter_next_lease iter else iter_skip iter) in
  if negb ok then Ret 0 else
  do! iter_dispose iter in
  iter_read_record iter.

Definition logdb_iter_current_key (iter : ptr) : prog ptr :=
  let! ok := verify_iter iter in
  if negb ok then Ret None else
  let! i := load logdb_iter_t iter in
  match iter_key i with
  | Some _ => Ret (iter_key i)
  | None =>
      if DEBUG && bool_decide (lease_connection (iter_lease i) = None) then Ret None else
      let! key := logdb_iter_read_buf iter (hdr_keylen (iter_record i)) in
      do! upd iter (set_iter_key key) in
      Ret key
  end.

Definition logdb_iter_current_value (iter : ptr) : prog ptr :=
  let! ok := verify_iter iter in
  if negb ok then Ret None else
  let! i := load logdb_iter_t iter in
  match iter_value i with
  | Some _ => Ret (iter_value i)
  | None =>
      if DEBUG && bool_decide (lease_connection (iter_lease i) = None) then Ret None else
      do! match iter_key i with
          | Some _ => Ret tt
          | None => do! logdb_iter_current_key iter in Ret tt
          end in
      let! value := logdb_iter_read_buf iter (hdr_valuelen (iter_record i)) in
      do! upd iter (set_iter_value value) in
      Ret value
  end.

Definition logdb_iter_free (iter : ptr) : prog unit :=
  let! invalid :=
    (if DEBUG then
       match iter with
       | None => Ret true
       | Some _ => let! i := load logdb_iter_t iter in Ret (bool_decide (iter_connection i = None))
       end
     else Ret false) in
  if invalid : bool then Ret tt else
  let! i := load logdb_iter_t iter in
  do! match iter_key i with Some _ => logdb_buffer_free (iter_key i) | None => Ret tt end in
  do! match iter_value i with Some _ => logdb_buffer_free (iter_value i) | None => Ret tt end in
  do! match lease_connection (iter_lease i) with
      | Some _ =>
          let! lease := logdb_lease_release (iter_lease i) in
          upd iter (set_iter_lease lease)
      | None => Ret tt
      end in
  do! upd iter (set_iter_connection None) in
  free iter.

End iter.
