(* ===== verification/IterSpec.v ===== *)
(** * The specification of iterators

    A database whose sections hold whole records ([holds]) is read by an
    iterator from the first record to the last; the iterator leaves the
    database as it is, and [logdb_iter_free] the memory too. *)

From S2P Require Import Prelude Machine World Posix Io Layout Log LogSpec Buffer.
From S2P Require Import BufferSpec LogLock LockSpec DbState Lease LeaseSpec Txn TxnSpec Iter.

(** ** Records *)

Abbreviation record := (list byte * list byte)%type.

Definition records_bytes (rs : list record) : list byte := rs ≫= (fun r => record_bytes r.1 r.2).

Lemma records_bytes_cons k v rs : records_bytes ((k, v) :: rs) = record_bytes k v ++ records_bytes rs.
Proof. done. Qed.

Lemma records_bytes_nil rs : records_bytes rs = [] -> rs = [].
Proof. destruct rs as [|[k v] rs]; [done|]. intros E. apply (f_equal length) in E. simpl in E. lia. Qed.

(** The sections hold these records, and whole ones only. *)
Record holds (es : list Z) (bs : list byte) (secs : list (list record)) : Prop := mk_holds {
  ho_length : length secs = length es;
  ho_in : sections_in es bs;
  ho_section i rs : secs !! i = Some rs -> section es bs i = records_bytes rs
}.

(** All of [n] bytes from [off] on, as a lease on section [i] sees them. *)
Record lease_holds (bs : list byte) (i off len : Z) (d : list byte) : Prop := mk_lease_holds {
  lh_index : 0 <= i < 65536;
  lh_off : 0 <= off;
  lh_end : off + len < 65536;
  lh_len : len = zlen d;
  lh_in : logdb_connection_offset i + off + len <= zlen bs;
  lh_data : file_read (logdb_connection_offset i + off) len bs = d
}.

Lemma lease_holds_split bs i off len x y :
  lease_holds bs i off len (x ++ y) ->
  file_read (logdb_connection_offset i + off) (zlen x) bs = x /\
  lease_holds bs i (off + zlen x) (len - zlen x) y.
Proof.
  intros [Hi Ho He Hl Hin Hd]. rewrite length_app in Hl.
  assert (0 <= logdb_connection_offset i) by (rewrite connection_offset_small; lia).
  replace len with (zlen x + zlen y) in Hd by lia. rewrite file_read_app in Hd by lia.
  apply app_inj_1 in Hd as [Hx Hy].
  2: { apply Nat2Z.inj. rewrite file_read_length by lia. lia. }
  split; [done|]. constructor; try lia. rewrite <- Hy. f_equal; lia.
Qed.

(** A lease on a whole section. *)
Lemma lease_holds_section c D es bs r T w secs i e rs :
  db_state c D es bs r T w -> holds es bs secs -> es !! i = Some e -> e <> 0 -> secs !! i = Some rs ->
  lease_holds bs (Z.of_nat i) 0 e (records_bytes rs).
Proof.
  intros Hdb Hh Ei Hne Er. pose proof (db_entry _ _ _ _ _ _ _ Hdb _ _ Ei) as He.
  pose proof (lookup_lt_Some _ _ _ Ei). pose proof (ds_count _ _ _ _ _ _ _ Hdb).
  pose proof (ho_in _ _ _ Hh _ _ Ei Hne) as Hin. pose proof (ho_section _ _ _ Hh _ _ Er) as Hs.
  unfold section in Hs. rewrite Ei in Hs. simpl in Hs.
  assert (0 <= logdb_connection_offset (Z.of_nat i)) by (rewrite connection_offset_small; lia).
  constructor; try lia; [|by rewrite Z.add_0_r].
  rewrite <- Hs, file_read_length by lia. lia.
Qed.

Lemma file_write_all d bs : length d = length bs -> file_write 0 d bs = d.
Proof. intros E. destruct d; [by destruct bs|]. by apply splice_same_length. Qed.

(** ** Memory of the iterator *)

(** A buffer with its own block. *)
Record slot := mk_slot { sl_buf : loc; sl_data : loc; sl_bytes : list byte }.

Definition slot_blocks (s : slot) : list loc := [sl_buf s; sl_data s].
Definition slots_blocks (ss : list slot) : list loc := ss ≫= slot_blocks.

Definition slot_ok (h : heap) (s : slot) : Prop :=
  peek logdb_buffer_t h (sl_buf s) =
    Some (mk_buffer (Some (sl_data s)) (zlen (sl_bytes s)) (Some DisposeFree) None None 1) /\
  peek (list byte) h (sl_data s) = Some (sl_bytes s).

(** The heap without these blocks. *)
Definition forget (ls : list loc) (h : heap) : heap := foldr delete h ls.

Lemma lookup_forget ls h x : forget ls h !! x = if decide (x ∈ ls) then None else h !! x.
Proof.
  induction ls as [|l ls IH]; simpl; [done|].
  destruct (decide (l = x)) as [->|Hne].
  - rewrite lookup_delete_eq. clear IH. case_decide as Hx; [done|]. destruct Hx. left.
  - rewrite lookup_delete_ne, IH by done. clear IH. destruct (decide (x ∈ ls)), (decide (x ∈ l :: ls)); set_solver.
Qed.

Lemma forget_equiv ls h h' : user_equiv h h' -> user_equiv (forget ls h) (forget ls h').
Proof. intros He x. rewrite !lookup_forget. case_decide; [done|]. apply He. Qed.

Lemma forget_store ls h x c : x ∈ ls -> forget ls (<[x := c]> h) = forget ls h.
Proof.
  intros Hx. apply map_eq. intros y. rewrite !lookup_forget. case_decide; [done|].
  apply lookup_insert_ne. intros ->. done.
Qed.

Lemma forget_alloc ls h x c : user_cell (h !! x) = None -> user_equiv (forget ls h) (forget (x :: ls) (<[x := c]> h)).
Proof.
  intros E y. rewrite !lookup_forget. destruct (decide (x = y)) as [<-|].
  - destruct (decide (x ∈ ls)), (decide (x ∈ x :: ls)); rewrite ?E; set_solver.
  - rewrite lookup_insert_ne by done. destruct (decide (y ∈ ls)), (decide (y ∈ x :: ls)); set_solver.
Qed.

Lemma slot_ok_frame h h' s : (forall x, x ∈ slot_blocks s -> h' !! x = h !! x) -> slot_ok h s -> slot_ok h' s.
Proof.
  intros Hx [Hb Hd]. unfold slot_ok, peek. rewrite !Hx by (repeat (left || right)). done.
Qed.

Lemma slot_ok_user h h' s : user_equiv h h' -> slot_ok h s -> slot_ok h' s.
Proof.
  intros He [Hb Hd]. split; [exact (user_equiv_peek logdb_buffer_t _ _ _ _ He Hb)|].
  exact (user_equiv_peek (list byte) _ _ _ _ He Hd).
Qed.

Lemma slot_buffer h s : slot_ok h s -> buffer_is h (Some (sl_buf s)) (sl_bytes s).
Proof. intros [Hb Hd]. by eapply buffer_is_own. Qed.

(** Freeing the buffer of a slot frees its two blocks. *)
Lemma free_slot_run `{Build} th w s :
  slot_ok (w_heap w) s -> sl_buf s <> sl_data s ->
  exists h, run th (logdb_buffer_free (Some (sl_buf s))) w = Done tt (set_heap h w) /\
    h !! sl_buf s = None /\ h !! sl_data s = None /\
    forall x, x <> sl_buf s -> x <> sl_data s -> h !! x = w_heap w !! x.
Proof.
  intros [Hb Hd] Hne.
  destruct (buffer_free_run th [Own (sl_buf s) (Some (sl_data s))] (Some (sl_buf s)) w) as (h & E & Hh).
  - split; [done|]. eexists. split_and!; [exact Hb|done..| |done]. intros d [= <-]. split; [done|by eexists].
  - change (NoDup [sl_buf s; sl_data s]). apply NoDup_cons_2; [|apply NoDup_singleton].
    by intros E%list_elem_of_singleton.
  - intros o Ho. unfold copies in Ho. rewrite filter_cons_False in Ho by (simpl; congruence). simpl in Ho. lia.
  - exists h. split; [exact E|]. split_and!.
    + rewrite Hh. unfold released. by rewrite decide_True by (unfold owned; simpl; set_solver).
    + rewrite Hh. unfold released. by rewrite decide_True by (unfold owned; simpl; set_solver).
    + intros x H1 H2. rewrite Hh. unfold released. rewrite decide_False by (unfold owned; simpl; set_solver).
      destruct (w_heap w !! x) as [[|b| | | | |]|]; try done. unfold copies. rewrite filter_cons_False by (simpl; congruence).
      simpl. rewrite Z.sub_0_r. by destruct b.
Qed.

(** ** The state of an iterator *)

Section iter.
Context `{Build} (th : thread) (c : loc) (D : desc) (es : list Z) (bs : list byte).

(** The iterator's struct is [i]; it owns the slots [ss]; without its blocks
    the world is [w0], up to the connection's lock. *)
Record iter_state (r : Z) (it : loc) (i : logdb_iter_t) (ss : list slot) (w0 w : world) : Prop := mk_iter_state {
  is_db : db_state c D es bs r table_idle w;
  is_iter : peek logdb_iter_t (w_heap w) it = Some i;
  is_slots : Forall (slot_ok (w_heap w)) ss;
  is_nodup : NoDup (it :: slots_blocks ss);
  is_rest : same_rest D w0 (set_heap (forget (it :: slots_blocks ss) (w_heap w)) w)
}.

Lemma is_cell r it i ss w0 w : iter_state r it i ss w0 w -> w_heap w !! it = Some (CIter i).
Proof.
  intros Hs. destruct (peek_cell _ _ _ _ (is_iter _ _ _ _ _ _ Hs)) as (x & Ex & Hx).
  destruct x; try done. by injection Hx as ->.
Qed.

Lemma slots_frame h h' ss :
  (forall x, x ∈ slots_blocks ss -> h' !! x = h !! x) -> Forall (slot_ok h) ss -> Forall (slot_ok h') ss.
Proof.
  intros Hx. rewrite !list.Forall_forall. intros Hok s Hs. eapply slot_ok_frame; [|by apply Hok].
  intros x Hin. apply Hx, list_elem_of_bind. by exists s.
Qed.

(** Storing to the struct. *)
Lemma iter_upd r it i ss w0 w g :
  iter_state r it i ss w0 w ->
  exists w', run th (upd (Some it) g) w = Done tt w' /\ iter_state r it (g i) ss w0 w'.
Proof.
  intros Hs. pose proof (is_cell _ _ _ _ _ _ Hs) as Ec. pose proof (is_nodup _ _ _ _ _ _ Hs) as Hnd.
  rewrite run_upd, (do_rmw_peek _ i) by apply Hs. cbn [fst snd]. eexists. split; [done|].
  change (to_cell (g i)) with (CIter (g i)).
  constructor; cbn [w_heap set_heap].
  - replace (set_heap _ w) with (set_next (w_next w) (set_heap (<[it := CIter (g i)]> (w_heap w)) w)) by by destruct w.
    apply db_state_user; [apply _|apply Hs| |].
    + intros x y Ex Hy. rewrite lookup_insert_ne; [done|]. intros <-. rewrite Ec in Ex. injection Ex as <-. done.
    + intros x Hx. cbn [w_heap w_next set_heap set_next] in *.
      pose proof (ds_fresh _ _ _ _ _ _ _ (is_db _ _ _ _ _ _ Hs) x Hx). rewrite lookup_insert_ne; [done|]. congruence.
  - exact (peek_insert logdb_iter_t _ _ _).
  - eapply slots_frame; [|apply Hs]. intros x Hx. apply lookup_insert_ne. intros <-.
    by apply NoDup_cons_1_1 in Hnd.
  - done.
  - rewrite forget_store by left. destruct (is_rest _ _ _ _ _ _ Hs). by constructor.
Qed.

(** A step of the database. *)
Lemma iter_db r r' it i ss w0 w w' :
  iter_state r it i ss w0 w -> db_state c D es bs r' table_idle w' -> same_rest D w w' ->
  iter_state r' it i ss w0 w'.
Proof.
  intros Hs Hdb Hr. pose proof (sr_heap _ _ _ Hr) as He. constructor; [done| | |apply Hs|].
  - exact (user_equiv_peek logdb_iter_t _ _ _ _ He (is_iter _ _ _ _ _ _ Hs)).
  - eapply list.Forall_impl; [apply Hs|]. intros s. by apply slot_ok_user.
  - etransitivity; [exact (is_rest _ _ _ _ _ _ Hs)|].
    pose proof (forget_equiv (it :: slots_blocks ss) _ _ He). destruct Hr. by constructor.
Qed.

(** The order of the slots does not matter. *)
Lemma iter_swap r it i s s' w0 w : iter_state r it i [s; s'] w0 w -> iter_state r it i [s'; s] w0 w.
Proof.
  intros Hs. assert (slots_blocks [s; s'] ≡ₚ slots_blocks [s'; s]) as Hp.
  { exact (Permutation_app_comm (slot_blocks s) (slot_blocks s')). }
  destruct Hs as [Hdb Hi Hss Hnd Hr]. constructor; [done|done| | |].
  - rewrite !Forall_cons_iff in *. tauto.
  - by rewrite <- Hp.
  - replace (forget _ (w_heap w)) with (forget (it :: slots_blocks [s; s']) (w_heap w)); [done|].
    apply map_eq. intros x. rewrite !lookup_forget.
    assert (x ∈ it :: slots_blocks [s; s'] <-> x ∈ it :: slots_blocks [s'; s]) by (by rewrite Hp).
    repeat case_decide; tauto.
Qed.

(** Freeing the buffer of a slot. *)
Lemma iter_free_slot r it i s ss w0 w :
  iter_state r it i (s :: ss) w0 w ->
  exists w', run th (logdb_buffer_free (Some (sl_buf s))) w = Done tt w' /\ iter_state r it i ss w0 w'.
Proof.
  intros Hs. pose proof (is_cell _ _ _ _ _ _ Hs) as Ec. destruct Hs as [Hdb Hi Hss Hnd Hr].
  apply Forall_cons_iff in Hss as [[Hb Hd] Hss].
  assert (slots_blocks (s :: ss) = sl_buf s :: sl_data s :: slots_blocks ss) as Eb by done. rewrite Eb in *.
  assert (sl_buf s <> sl_data s) as Hne.
  { apply NoDup_cons_1_2 in Hnd. apply NoDup_cons_1_1 in Hnd. intros E. apply Hnd. rewrite E. left. }
  destruct (free_slot_run th w s (conj Hb Hd) Hne) as (h & E & Hn1 & Hn2 & Hx). exists (set_heap h w). split; [exact E|].
  pose proof (NoDup_cons_1_1 _ _ Hnd) as Hit. apply NoDup_cons_1_2 in Hnd.
  pose proof (NoDup_cons_1_1 _ _ Hnd) as Hb'. apply NoDup_cons_1_2 in Hnd.
  pose proof (NoDup_cons_1_1 _ _ Hnd) as Hd'. apply NoDup_cons_1_2 in Hnd.
  rewrite !elem_of_cons in Hit. rewrite elem_of_cons in Hb'. apply peek_buffer_cell in Hb as Eb1.
  destruct (peek_cell _ _ _ _ Hd) as (y & Ed & Hy). destruct y; try done.
  constructor; cbn [w_heap set_heap].
  - replace (set_heap h w) with (set_next (w_next w) (set_heap h w)) by by destruct w.
    apply db_state_user; [apply _|done| |].
    + intros x y Ex Hyx. rewrite Hx; [done| |]; intros ->; [rewrite Eb1 in Ex|rewrite Ed in Ex]; by injection Ex as <-.
    + intros x Hlt. cbn [w_heap w_next set_heap set_next] in *. pose proof (ds_fresh _ _ _ _ _ _ _ Hdb x Hlt).
      rewrite Hx; [done| |]; congruence.
  - unfold peek. rewrite Hx by tauto. exact Hi.
  - eapply slots_frame; [|exact Hss]. intros x Hin. apply Hx; intros ->; tauto.
  - apply NoDup_cons_2; [tauto|done].
  - replace (forget (it :: slots_blocks ss) h) with (forget (it :: sl_buf s :: sl_data s :: slots_blocks ss) (w_heap w)).
    { destruct Hr. by constructor. }
    apply map_eq. intros x. rewrite !lookup_forget.
    destruct (decide (x = sl_buf s)) as [->|]; [rewrite Hn1; repeat case_decide; set_solver|].
    destruct (decide (x = sl_data s)) as [->|]; [rewrite Hn2; repeat case_decide; set_solver|].
    rewrite Hx by done. repeat case_decide; set_solver.
Qed.

(** A new slot, while the struct is stored to. *)
Lemma iter_grow r it i ss w0 w i' x :
  iter_state r it i ss w0 w ->
  iter_state r it i' (mk_slot (w_next w + 1) (w_next w) x :: ss) w0
    (set_next (w_next w + 2) (set_heap
      (<[w_next w + 1 := CBuffer (mk_buffer (Some (w_next w)) (zlen x) (Some DisposeFree) None None 1)]>
        (<[w_next w := CBytes x]> (<[it := CIter i']> (w_heap w)))) w)).
Proof.
  intros Hs. pose proof (is_cell _ _ _ _ _ _ Hs) as Ec. destruct Hs as [Hdb Hi Hss Hnd Hr].
  set (a := w_next w). pose proof (ds_fresh _ _ _ _ _ _ _ Hdb) as Hf.
  assert (w_heap w !! a = None /\ w_heap w !! (a + 1) = None) as [Ha Ha1] by (split; apply Hf; unfold a; lia).
  assert (it <> a /\ it <> a + 1) as [Hia Hia1] by (split; congruence).
  assert (forall x, x ∈ slots_blocks ss -> x <> a /\ x <> a + 1 /\ x <> it) as Hin.
  { intros y Hy. pose proof (NoDup_cons_1_1 _ _ Hnd) as Hit.
    assert (is_Some (w_heap w !! y)) as [z Ez].
    { apply list_elem_of_bind in Hy as (s & Hy & Hs). rewrite list.Forall_forall in Hss.
      destruct (Hss s Hs) as [Hb Hd]. unfold slot_blocks in Hy. rewrite !elem_of_cons, elem_of_nil in Hy.
      destruct Hy as [->|[->|[]]]; [exact (peek_is_Some _ _ _ _ Hb)|exact (peek_is_Some _ _ _ _ Hd)]. }
    split_and!; intros ->; congruence. }
  constructor; cbn [w_heap set_heap set_next].
  - apply db_state_user; [apply _|done| |].
    + intros y z Ey Hy. rewrite !lookup_insert_ne; [done| | |]; intros <-; try congruence.
      rewrite Ec in Ey. by injection Ey as <-.
    + apply heap_fresh_steps; [done|lia|]. intros y Hy. rewrite !lookup_insert_ne; [done| |lia|lia].
      intros <-. rewrite Hf in Ec by lia. done.
  - rewrite !peek_insert_ne by done. exact (peek_insert logdb_iter_t _ _ _).
  - constructor.
    + unfold slot_ok. cbn [sl_buf sl_data sl_bytes]. split; [apply peek_buffer_cell, lookup_insert_eq|].
      rewrite peek_insert_ne by lia. exact (peek_insert (list byte) _ _ _).
    + eapply slots_frame; [|exact Hss]. intros y Hy. destruct (Hin y Hy) as (? & ? & ?).
      by rewrite !lookup_insert_ne.
  - change (slots_blocks (_ :: ss)) with (a + 1 :: a :: slots_blocks ss).
    pose proof (NoDup_cons_1_1 _ _ Hnd) as Hit. apply NoDup_cons_1_2 in Hnd.
    repeat (apply NoDup_cons_2; [rewrite ?elem_of_cons|]); [| | |done].
    + intros [|[|]]; [lia|lia|done].
    + intros [|Hy]; [lia|]. by destruct (Hin _ Hy) as (_ & ? & _).
    + intros Hy. by destruct (Hin _ Hy) as (? & _).
  - change (slots_blocks (_ :: ss)) with (a + 1 :: a :: slots_blocks ss).
    pose proof (sr_heap _ _ _ Hr) as Hh. destruct Hr. constructor; try done. cbn [w_heap set_heap set_next] in *.
    etransitivity; [exact Hh|]. intros y. rewrite !lookup_forget.
    destruct (decide (y = a + 1)) as [->|]; [rewrite Ha1; repeat case_decide; set_solver|].
    destruct (decide (y = a)) as [->|]; [rewrite Ha; repeat case_decide; set_solver|].
    rewrite !(lookup_insert_ne _ _ y) by done.
    destruct (decide (y = it)) as [->|]; [rewrite !decide_True by set_solver; done|].
    rewrite lookup_insert_ne by done. repeat case_decide; set_solver.
Qed.

(** Reading a key or a value. *)
Lemma iter_read_buf_run r it i ss w0 w ix off len x y :
  iter_state r it i ss w0 w -> iter_lease i = mk_lease (Some c) ix off len LOGDB_LOG_LOCK_NONE ->
  lease_holds bs ix off len (x ++ y) -> x <> [] ->
  exists w' s, run th (logdb_iter_read_buf (Some it) (zlen x)) w = Done (Some (sl_buf s)) w' /\
    sl_bytes s = x /\
    iter_state r it (set_iter_lease (mk_lease (Some c) ix (off + zlen x) (len - zlen x) LOGDB_LOG_LOCK_NONE) i)
      (s :: ss) w0 w'.
Proof.
  intros Hs El Hl Hx. pose proof (is_cell _ _ _ _ _ _ Hs) as Ec. pose proof (is_db _ _ _ _ _ _ Hs) as Hdb.
  pose proof (ds_fresh _ _ _ _ _ _ _ Hdb) as Hf. set (a := w_next w).
  assert (w_heap w !! a = None) as Ha by (apply Hf; unfold a; lia). assert (it <> a) as Hia by congruence.
  destruct (lease_holds_split _ _ _ _ _ _ Hl) as [Hd _].
  destruct Hl as [Hix Hoff Hend Hlen Hin _]. rewrite length_app in Hlen.
  assert (0 < zlen x) by (destruct x; [done|simpl; lia]).
  unfold logdb_iter_read_buf, logdb_buffer_new_direct. run_step. rewrite do_alloc_quiet by apply Hdb. cbn beta iota.
  fold a. set (w1 := set_next (a + 1) _).
  assert (db_state c D es bs r table_idle w1) as Hdb1.
  { apply db_state_user; [apply _|done| |].
    - intros z u Ez _. rewrite lookup_insert_ne; [done|]. congruence.
    - apply heap_fresh_steps; [done|lia|]. intros z Hz. apply lookup_insert_ne. lia. }
  run_step. rewrite (do_load_peek _ _ i) by (cbn [w1 w_heap set_heap set_next]; rewrite peek_insert_ne by done; apply Hs).
  cbn beta iota. rewrite El, run_bind.
  rewrite (lease_read_run th c D es bs r _ w1 ix off len LOGDB_LOG_LOCK_NONE (zlen x) Hdb1) by lia.
  rewrite Hd. cbn beta iota. run_step.
  rewrite (do_rmw_peek _ i) by (cbn [w1 w_heap set_heap set_next]; rewrite peek_insert_ne by done; apply Hs).
  cbn beta iota. run_step. unfold with_cell.
  assert (peek (list byte) (<[it := to_cell (set_iter_lease (mk_lease (Some c) ix (off + zlen x) (len - zlen x) LOGDB_LOG_LOCK_NONE) i)]>
    (w_heap w1)) a = Some []) as Ep.
  { rewrite peek_insert_ne by done. exact (peek_insert (list byte) _ _ _). }
  cbn [fst snd w_heap set_heap]. rewrite Ep. rewrite (proj2 (Z.leb_le _ _)) by (simpl; lia). cbn beta iota.
  change (negb (0 =? 0)) with false. rewrite bool_decide_eq_false_2, andb_false_r by done. cbn iota.
  run_step. rewrite do_alloc_quiet by apply Hdb.
  eexists _, (mk_slot (a + 1) a x). split; [done|]. split; [done|].
  pose proof (iter_grow r it i ss w0 w (set_iter_lease (mk_lease (Some c) ix (off + zlen x) (len - zlen x) LOGDB_LOG_LOCK_NONE) i) x Hs) as Hg.
  fold a in Hg. match type of Hg with iter_state _ _ _ _ _ ?W => match goal with |- iter_state _ _ _ _ _ ?W' =>
    assert (W' = W) as ->; [|exact Hg] end end.
  unfold w1, set_next, set_heap. cbn [w_heap w_next w_os w_tls w_next_key w_disposed w_oracle app].
  replace (a + 1 + 1) with (a + 2) by lia. f_equal. f_equal.
  change (to_cell (T:=logdb_iter_t)) with CIter. rewrite (insert_insert_ne _ it a) by done. by rewrite insert_insert_eq.
Qed.

Lemma verify_iter_run r it i ss w0 w :
  iter_state r it i ss w0 w -> iter_connection i = Some c -> run th (verify_iter (Some it)) w = Done true w.
Proof.
  intros Hs Hc. unfold verify_iter. destruct DEBUG; [|done].
  rewrite run_bind, run_load, (do_load_peek _ _ _ _ (is_iter _ _ _ _ _ _ Hs)), Hc.
  rewrite run_bind, run_load, (do_load_peek _ _ _ _ (ds_conn _ _ _ _ _ _ _ (is_db _ _ _ _ _ _ Hs))). done.
Qed.

(** Freeing what was read of the last record. *)
Lemma iter_dispose_run r it i k v w0 w :
  iter_state r it i [k; v] w0 w -> iter_key i = Some (sl_buf k) -> iter_value i = Some (sl_buf v) ->
  exists w', run th (iter_dispose (Some it)) w = Done tt w' /\
    iter_state r it (set_iter_value None (set_iter_key None i)) [] w0 w'.
Proof.
  intros Hs Ek Ev. unfold iter_dispose.
  rewrite run_bind, run_load, (do_load_peek _ _ _ _ (is_iter _ _ _ _ _ _ Hs)), Ek.
  destruct (iter_free_slot _ _ _ _ _ _ _ Hs) as (w1 & E1 & H1). rewrite run_bind, run_bind, E1.
  destruct (iter_upd _ _ _ _ _ _ (set_iter_key None) H1) as (w2 & E2 & H2). rewrite E2.
  rewrite run_bind, run_load, (do_load_peek _ _ _ _ (is_iter _ _ _ _ _ _ H2)). cbn [iter_value set_iter_key]. rewrite Ev.
  destruct (iter_free_slot _ _ _ _ _ _ _ H2) as (w3 & E3 & H3). rewrite run_bind, E3.
  destruct (iter_upd _ _ _ _ _ _ (set_iter_value None) H3) as (w4 & E4 & H4). by exists w4.
Qed.

Lemma iter_dispose_none r it i ss w0 w :
  iter_state r it i ss w0 w -> iter_key i = None -> iter_value i = None ->
  run th (iter_dispose (Some it)) w = Done tt w.
Proof.
  intros Hs Ek Ev. pose proof (do_load_peek _ _ _ _ (is_iter _ _ _ _ _ _ Hs)) as El. unfold iter_dispose.
  rewrite run_bind, run_load, El, Ek, run_bind, run_ret, run_bind, run_load, El, Ev. done.
Qed.

(** Reading the header of a record. *)
Lemma iter_read_record_run r it i ss w0 w ix off len k v rest :
  iter_state r it i ss w0 w -> iter_lease i = mk_lease (Some c) ix off len LOGDB_LOG_LOCK_NONE ->
  lease_holds bs ix off len (record_bytes k v ++ rest) ->
  exists w', run th (iter_read_record (Some it)) w = Done 1 w' /\
    iter_state r it (mk_iter (iter_connection i) (mk_lease (Some c) ix (off + 8) (len - 8) LOGDB_LOG_LOCK_NONE)
      (mk_data_header (zlen k) (zlen v)) (iter_key i) (iter_value i)) ss w0 w' /\
    lease_holds bs ix (off + 8) (len - 8) (k ++ v ++ rest).
Proof.
  intros Hs El Hl. pose proof (is_db _ _ _ _ _ _ Hs) as Hdb. pose proof (lh_len _ _ _ _ _ Hl) as Hlen.
  pose proof (lh_end _ _ _ _ _ Hl) as Hend. pose proof (lh_off _ _ _ _ _ Hl) as Hoff.
  rewrite length_app, Nat2Z.inj_add, length_record_bytes in Hlen.
  set (hd := data_header_bytes (mk_data_header (zlen k) (zlen v))). assert (zlen hd = 8) as Hhd by done.
  assert (record_bytes k v ++ rest = hd ++ k ++ v ++ rest) as Eb by (unfold record_bytes; by rewrite <- !app_assoc).
  rewrite Eb in Hl. destruct (lease_holds_split _ _ _ _ _ _ Hl) as [Hd Hl']. rewrite Hhd in Hd, Hl'.
  unfold iter_read_record. rewrite run_bind, run_load, (do_load_peek _ _ _ _ (is_iter _ _ _ _ _ _ Hs)), El.
  rewrite run_bind, (lease_read_run th c D es bs r _ w ix off len LOGDB_LOG_LOCK_NONE sizeof_data_header Hdb)
    by (unfold sizeof_data_header; first [apply Hl|lia|destruct Hl; lia]).
  change sizeof_data_header with 8. rewrite Hd. cbn beta iota. rewrite run_bind.
  destruct (iter_upd _ _ _ _ _ _ (set_iter_lease (mk_lease (Some c) ix (off + 8) (len - 8) LOGDB_LOG_LOCK_NONE)) Hs)
    as (w1 & E1 & H1). rewrite E1, run_bind.
  match goal with |- context [upd _ ?g] => destruct (iter_upd _ _ _ _ _ _ g H1) as (w2 & E2 & H2) end.
  rewrite E2. exists w2. split; [done|]. split; [|done].
  rewrite file_write_all in H2 by done. cbn [set_iter_lease iter_record iter_connection iter_key iter_value] in H2.
  unfold hd in H2. rewrite data_header_roundtrip in H2 by (cbn [hdr_keylen hdr_valuelen]; lia). exact H2.
Qed.

(** ** Finding the next section *)

Lemma next_section_run r T w n j :
  db_state c D es bs r T w -> (length es - j < n)%nat -> Z.of_nat j < 2 ^ 32 - 1 ->
  exists o, run th (next_section n (Some (d_log D)) (Z.of_nat j)) w = Done o w /\
    match o with
    | None => forall m e, (j <= m)%nat -> es !! m = Some e -> e = 0
    | Some z => exists m e, z = Z.of_nat m /\ (j <= m)%nat /\ es !! m = Some e /\ e <> 0 /\
        forall m' e, (j <= m' < m)%nat -> es !! m' = Some e -> e = 0
    end.
Proof.
  intros Hdb. pose proof (ds_count _ _ _ _ _ _ _ Hdb) as Hc. revert j.
  induction n as [|n IH]; intros j Hn Hj; [lia|]. cbn [next_section].
  rewrite run_bind, (db_read_entry_run th c D es bs r T w Hdb), Nat2Z.id by lia.
  destruct (es !! j) as [e|] eqn:Ej; cbn beta iota.
  - rewrite (proj2 (Z.eqb_neq _ _)) by (unfold logdb_log_offset, sizeof_log_header, sizeof_log_entry; lia).
    pose proof (lookup_lt_Some _ _ _ Ej). destruct (Z.eqb_spec e 0) as [->|Hne]; cbn [negb].
    + rewrite u32_small by lia. replace (Z.of_nat j + 1) with (Z.of_nat (S j)) by lia.
      destruct (IH (S j)) as (o & E & Ho); [lia|lia|]. exists o. split; [done|].
      assert (forall m x, (j <= m)%nat -> es !! m = Some x -> m = j -> x = 0) as Hj0 by (intros; subst; congruence).
      destruct o as [z|].
      * destruct Ho as (m & x & -> & ? & ? & ? & Hm). exists m, x. split_and!; [done|lia|done|done|].
        intros m' y Hm' Ey. destruct (decide (m' = j)); [apply (Hj0 m'); [lia|done|done]|]. apply (Hm m'); [lia|done].
      * intros m x Hm Ex. destruct (decide (m = j)); [apply (Hj0 m); [lia|done|done]|]. apply (Ho m); [lia|done].
    + exists (Some (Z.of_nat j)). split; [done|]. exists j, e. split_and!; [done|lia|done|done|]. intros; lia.
  - exists None. split; [done|]. intros m x Hm Ex. apply lookup_lt_Some in Ex. apply lookup_ge_None_1 in Ej. lia.
Qed.

(** Sections whose entry is 0 hold no record. *)
Lemma holds_empty secs m rs : holds es bs secs -> default 0 (es !! m) = 0 -> secs !! m = Some rs -> rs = [].
Proof.
  intros Hh He Em. apply records_bytes_nil. rewrite <- (ho_section _ _ _ Hh _ _ Em). unfold section. by rewrite He.
Qed.

Lemma concat_drop_empty secs j m :
  holds es bs secs -> (forall m' e, (j <= m' < m)%nat -> es !! m' = Some e -> e = 0) -> (j <= m <= length secs)%nat ->
  concat (drop j secs) = concat (drop m secs).
Proof.
  intros Hh Hz [Hj Hm]. induction Hj as [|m Hj IH]; [done|]. rewrite IH; [|intros m' e Hm'; apply Hz; lia|lia].
  destruct (lookup_lt_is_Some_2 secs m) as [rs Em]; [lia|]. rewrite (drop_S _ _ _ Em).
  assert (rs = []) as ->; [|done]. eapply holds_empty; [done| |done].
  destruct (es !! m) as [e|] eqn:Ee; [|done]. simpl. apply (Hz m); [lia|done].
Qed.

(** The next section with records, from [j] on. *)
Lemma next_section_records r T w n j secs :
  db_state c D es bs r T w -> holds es bs secs -> (length es - j < n)%nat -> Z.of_nat j < 2 ^ 32 - 1 ->
  exists o, run th (next_section n (Some (d_log D)) (Z.of_nat j)) w = Done o w /\
    match o with
    | None => concat (drop j secs) = []
    | Some z => exists m e rs, z = Z.of_nat m /\ es !! m = Some e /\ e <> 0 /\ secs !! m = Some rs /\
        concat (drop j secs) = rs ++ concat (drop (S m) secs)
    end.
Proof.
  intros Hdb Hh Hn Hj. pose proof (ho_length _ _ _ Hh) as Hlen.
  destruct (next_section_run r T w n j Hdb Hn Hj) as (o & E & Ho). exists o. split; [done|]. destruct o as [z|].
  - destruct Ho as (m & e & -> & Hjm & Em & Hne & Hz). pose proof (lookup_lt_Some _ _ _ Em).
    destruct (lookup_lt_is_Some_2 secs m) as [rs Er]; [lia|]. exists m, e, rs. split_and!; try done.
    rewrite (concat_drop_empty secs j m) by (done || lia). by rewrite (drop_S _ _ _ Er).
  - destruct (decide (j <= length secs)%nat); [|by rewrite drop_ge by lia].
    rewrite (concat_drop_empty secs j (length secs)); [by rewrite drop_all|done| |lia].
    intros m e Hm Em. apply (Ho m); [lia|done].
Qed.

Lemma log_entries_run r T w :
  db_state c D es bs r T w ->
  exists n, run th (log_entries (Some (d_log D))) w = Done n w /\ (length es <= n)%nat.
Proof.
  intros Hdb. destruct (ds_log _ _ _ _ _ _ _ Hdb) as (l & El & Hfd & _ & _).
  destruct (ds_logfd _ _ _ _ _ _ _ Hdb) as (o & Eo & Hino & _).
  unfold log_entries. rewrite run_prim. unfold with_cell. rewrite El, Hfd, Eo. eexists. split; [done|].
  assert (get_file (fd_ino o) w = log_image es) as ->
    by (unfold get_file; by rewrite Hino, (ds_logfile _ _ _ _ _ _ _ Hdb)).
  pose proof (length_log_image es). lia.
Qed.

(** The section the lease of an iterator is done with: [j] is the next one, and
    [r] counts the lease among the readers. *)
Definition lease_done (l : logdb_lease_t) (j : nat) (r0 r : Z) : Prop :=
  lease_connection l = None /\ j = 0%nat /\ r = r0 \/
  exists ix off len, l = mk_lease (Some c) ix off len LOGDB_LOG_LOCK_NONE /\
    Z.of_nat j = ix + 1 /\ 0 <= ix < 65536 /\ r = r0 + 1.

Lemma iter_release_run r0 r it i ss w0 w j :
  iter_state r it i ss w0 w -> lease_done (iter_lease i) j r0 r ->
  exists w' l, run th (match lease_connection (iter_lease i) with
      | Some _ =>
          let! lease := logdb_lease_release (iter_lease i) in
          do! upd (Some it) (set_iter_lease lease) in
          Ret (u32 (lease_index (iter_lease i) + 1))
      | None => Ret 0
      end) w = Done (Z.of_nat j) w' /\ lease_connection l = None /\
    iter_state r0 it (set_iter_lease l i) ss w0 w'.
Proof.
  intros Hs [(El & -> & ->)|(ix & off & len & El & Hj & Hix & ->)].
  - exists w, (iter_lease i). rewrite El. split_and!; [done|done|]. by destruct i.
  - rewrite El. cbn [lease_connection lease_index].
    destruct (release_read_run th c D es bs (r0 + 1) w ix off len (is_db _ _ _ _ _ _ Hs)) as (w1 & E1 & Hdb1 & Hr1).
    rewrite run_bind, E1, run_bind. replace (r0 + 1 - 1) with r0 in Hdb1 by lia.
    pose proof (iter_db _ _ _ _ _ _ _ _ Hs Hdb1 Hr1) as H1.
    destruct (iter_upd _ _ _ _ _ _ (set_iter_lease (mk_lease None ix off len LOGDB_LOG_LOCK_NONE)) H1) as (w2 & E2 & H2).
    exists w2, (mk_lease None ix off len LOGDB_LOG_LOCK_NONE). rewrite E2, u32_small, <- Hj by lia. by split_and!.
Qed.

Lemma iter_next_lease_run r0 r it i ss w0 w j secs :
  iter_state r it i ss w0 w -> iter_connection i = Some c -> lease_done (iter_lease i) j r0 r -> holds es bs secs ->
  exists b w' l, run th (iter_next_lease (Some it)) w = Done b w' /\
    if b : bool then
      exists m e rs, l = mk_lease (Some c) (Z.of_nat m) 0 e LOGDB_LOG_LOCK_NONE /\ e <> 0 /\
        lease_holds bs (Z.of_nat m) 0 e (records_bytes rs) /\ secs !! m = Some rs /\
        concat (drop j secs) = rs ++ concat (drop (S m) secs) /\
        iter_state (r0 + 1) it (set_iter_lease l i) ss w0 w'
    else concat (drop j secs) = [] /\ lease_connection l = None /\ iter_state r0 it (set_iter_lease l i) ss w0 w'.
Proof.
  intros Hs Hc Hj Hh. unfold iter_next_lease.
  rewrite run_bind, run_load, (do_load_peek _ _ _ _ (is_iter _ _ _ _ _ _ Hs)), run_bind.
  destruct (iter_release_run r0 r it i ss w0 w j Hs Hj) as (w1 & l & -> & Hl & H1).
  pose proof (is_db _ _ _ _ _ _ H1) as Hdb1. rewrite Hc.
  rewrite run_bind, run_load, (do_load_peek _ _ _ _ (ds_conn _ _ _ _ _ _ _ Hdb1)). cbn [conn_log the_conn].
  destruct (log_entries_run _ _ _ Hdb1) as (n & En & Hn). rewrite run_bind, En, run_bind.
  assert (Z.of_nat j < 2 ^ 32 - 1) as Hj32 by (destruct Hj as [(_ & -> & _)|(? & ? & ? & _ & ? & ? & _)]; lia).
  destruct (next_section_records _ _ _ (S n) j secs Hdb1 Hh) as (o & -> & Ho); [lia|done|]. destruct o as [z|].
  - destruct Ho as (m & e & rs & -> & Em & Hne & Er & Hcat). pose proof (db_entry _ _ _ _ _ _ _ Hdb1 _ _ Em) as He.
    rewrite run_bind, run_load, (do_load_peek _ _ _ _ (is_iter _ _ _ _ _ _ H1)).
    cbn [iter_lease iter_connection set_iter_lease]. rewrite Hc, run_bind.
    destruct (acquire_read_run th c D es bs r0 w1 l m 0 e Hdb1 Em) as (w2 & E2 & Hdb2 & Hr2); [lia|].
    rewrite E2. cbn beta iota. pose proof (iter_db _ _ _ _ _ _ _ _ H1 Hdb2 Hr2) as H2. rewrite run_bind, Z.sub_0_r.
    destruct (iter_upd _ _ _ _ _ _ (set_iter_lease (mk_lease (Some c) (Z.of_nat m) 0 e LOGDB_LOG_LOCK_NONE)) H2) as (w3 & E3 & H3).
    rewrite E3. exists true, w3, (mk_lease (Some c) (Z.of_nat m) 0 e LOGDB_LOG_LOCK_NONE). split; [done|].
    exists m, e, rs. split_and!; try done. by eapply lease_holds_section.
  - exists false, w1, l. split; [done|]. by split_and!.
Qed.

(** ** The next record *)

(** Where an iterator is: before the first record, on a record whose key and
    value were read, with the records still to come. *)
Inductive reading (secs : list (list record)) (r0 : Z) : logdb_iter_t -> list slot -> Z -> list record -> Prop :=
| reading_start l hd :
    lease_connection l = None -> lease_len l = 0 ->
    reading secs r0 (mk_iter (Some c) l hd None None) [] r0 (concat secs)
| reading_record m off len hd k v pre rs :
    secs !! m = Some (pre ++ rs) -> lease_holds bs (Z.of_nat m) off len (records_bytes rs) ->
    reading secs r0 (mk_iter (Some c) (mk_lease (Some c) (Z.of_nat m) off len LOGDB_LOG_LOCK_NONE) hd
      (Some (sl_buf k)) (Some (sl_buf v))) [k; v] (r0 + 1) (rs ++ concat (drop (S m) secs)).

(** The iterator is on the record [(k, v)] of section [m], nothing of which was
    read; [rs] are the records behind it in that section. *)
Definition on_record_in (r0 : Z) (it : loc) (k v : list byte) (m : nat) (rs : list record) (w0 w : world) : Prop :=
  exists off len,
    iter_state (r0 + 1) it (mk_iter (Some c) (mk_lease (Some c) (Z.of_nat m) off len LOGDB_LOG_LOCK_NONE)
      (mk_data_header (zlen k) (zlen v)) None None) [] w0 w /\
    lease_holds bs (Z.of_nat m) off len (k ++ v ++ records_bytes rs).

Definition on_record (secs : list (list record)) (r0 : Z) (it : loc) (k v : list byte) (rest : list record) (w0 w : world) : Prop :=
  exists m pre rs, on_record_in r0 it k v m rs w0 w /\ secs !! m = Some (pre ++ (k, v) :: rs) /\
    rest = rs ++ concat (drop (S m) secs).

(** The buffers of the last record, if any, belong to the iterator. *)
Definition slots_of (i : logdb_iter_t) (ss : list slot) : Prop :=
  iter_key i = None /\ iter_value i = None /\ ss = [] \/
  exists k v, iter_key i = Some (sl_buf k) /\ iter_value i = Some (sl_buf v) /\ ss = [k; v].

Lemma reading_slots secs r0 i ss r rest : reading secs r0 i ss r rest -> slots_of i ss.
Proof. destruct 1; [by left|right; by exists k, v]. Qed.

(** Going on to a record. *)
Lemma iter_enter_run secs r0 it i ss w0 w m off len k v pre rs :
  secs !! m = Some (pre ++ (k, v) :: rs) ->
  iter_state (r0 + 1) it i ss w0 w -> slots_of i ss -> iter_connection i = Some c ->
  iter_lease i = mk_lease (Some c) (Z.of_nat m) off len LOGDB_LOG_LOCK_NONE ->
  lease_holds bs (Z.of_nat m) off len (records_bytes ((k, v) :: rs)) ->
  exists w', run th (do! iter_dispose (Some it) in iter_read_record (Some it)) w = Done 1 w' /\
    on_record secs r0 it k v (rs ++ concat (drop (S m) secs)) w0 w'.
Proof.
  intros Em Hs Hss Hc El Hl. rewrite records_bytes_cons in Hl. rewrite run_bind.
  assert (exists w1, run th (iter_dispose (Some it)) w = Done tt w1 /\
    iter_state (r0 + 1) it (set_iter_value None (set_iter_key None i)) [] w0 w1) as (w1 & -> & H1).
  { destruct Hss as [(Ek & Ev & ->)|(k' & v' & Ek & Ev & ->)]; [|by apply (iter_dispose_run _ _ _ k' v')].
    exists w. split; [by eapply iter_dispose_none|]. destruct i. simpl in *. by subst. }
  destruct (iter_read_record_run _ _ _ _ _ _ _ _ _ _ _ _ H1 El Hl) as (w2 & E2 & H2 & Hl2).
  exists w2. split; [done|]. exists m, pre, rs. split; [|done]. eexists _, _. split; [|exact Hl2].
  cbn [iter_connection iter_key iter_value set_iter_key set_iter_value] in H2. by rewrite Hc in H2.
Qed.

(** Going on to the next section. *)
Lemma iter_next_section_run secs r0 r it i ss w0 w j :
  iter_state r it i ss w0 w -> slots_of i ss -> iter_connection i = Some c ->
  lease_done (iter_lease i) j r0 r -> lease_len (iter_lease i) < 8 -> holds es bs secs ->
  match concat (drop j secs) with
  | [] => exists w' l, run th (logdb_iter_next (Some it)) w = Done 0 w' /\ lease_connection l = None /\
      iter_state r0 it (set_iter_lease l i) ss w0 w'
  | (k, v) :: rest' => exists w', run th (logdb_iter_next (Some it)) w = Done 1 w' /\
      on_record secs r0 it k v rest' w0 w'
  end.
Proof.
  intros Hs Hss Hc Hj Hlen Hh. unfold logdb_iter_next.
  rewrite run_bind, (verify_iter_run _ _ _ _ _ _ Hs Hc). cbn [negb]. cbn iota.
  rewrite run_bind, run_load, (do_load_peek _ _ _ _ (is_iter _ _ _ _ _ _ Hs)), run_bind.
  rewrite (proj2 (Z.ltb_lt _ _)) by (unfold sizeof_data_header; lia).
  destruct (iter_next_lease_run r0 r it _ _ w0 w j secs Hs Hc Hj Hh) as (b & w1 & l1 & -> & Hb).
  destruct b; cbn [negb]; cbn iota.
  - destruct Hb as (m & e & rs & -> & Hne & Hl & Em & -> & H1). destruct rs as [|[k v] rs].
    { pose proof (lh_len _ _ _ _ _ Hl). simpl in *. lia. }
    apply (iter_enter_run secs r0 it _ ss w0 w1 m 0 e k v [] rs Em H1); [|done|done|done].
    destruct i. exact Hss.
  - destruct Hb as (-> & Hl & H1). by exists w1, l1.
Qed.

Lemma iter_next_run secs r0 r it i ss w0 w rest :
  iter_state r it i ss w0 w -> reading secs r0 i ss r rest -> holds es bs secs ->
  match rest with
  | [] => exists w' l, run th (logdb_iter_next (Some it)) w = Done 0 w' /\ lease_connection l = None /\
      iter_state r0 it (set_iter_lease l i) ss w0 w'
  | (k, v) :: rest' => exists w', run th (logdb_iter_next (Some it)) w = Done 1 w' /\
      on_record secs r0 it k v rest' w0 w'
  end.
Proof.
  intros Hs Hr Hh. pose proof (reading_slots _ _ _ _ _ _ Hr) as Hss. destruct Hr as [l hd Hl Hlen|m off len hd k v pre rs Em Hl].
  - apply (iter_next_section_run secs r0 r0 it _ _ w0 w 0 Hs Hss); [done|by left|cbn [iter_lease]; lia|done].
  - destruct rs as [|[k' v'] rs]; cbn [app].
    + pose proof (lh_index _ _ _ _ _ Hl). pose proof (lh_len _ _ _ _ _ Hl) as Hlen.
      apply (iter_next_section_run secs r0 (r0 + 1) it _ _ w0 w (S m) Hs Hss); [done| |simpl in *; lia|done].
      right. exists (Z.of_nat m), off, len. split_and!; [done|lia|lia|lia|done].
    + pose proof (lh_len _ _ _ _ _ Hl) as Hlen.
      rewrite records_bytes_cons, length_app, Nat2Z.inj_add, length_record_bytes in Hlen.
      unfold logdb_iter_next. rewrite run_bind, (verify_iter_run _ _ _ _ _ _ Hs) by done. cbn [negb]. cbn iota.
      rewrite run_bind, run_load, (do_load_peek _ _ _ _ (is_iter _ _ _ _ _ _ Hs)), run_bind. cbn [iter_lease lease_len].
      rewrite (proj2 (Z.ltb_ge _ _)) by (unfold sizeof_data_header; lia). unfold iter_skip.
      rewrite run_bind, run_load, (do_load_peek _ _ _ _ (is_iter _ _ _ _ _ _ Hs)). cbn [iter_key].
      rewrite run_bind, run_ret. cbn [negb]. cbn iota.
      rewrite run_bind, run_load, (do_load_peek _ _ _ _ (is_iter _ _ _ _ _ _ Hs)). cbn [iter_value]. rewrite run_ret.
      cbn [negb]. cbn iota. by eapply iter_enter_run.
Qed.

(** ** Keys and values *)

Lemma current_key_run r it w0 w ix off len hd k y :
  iter_state r it (mk_iter (Some c) (mk_lease (Some c) ix off len LOGDB_LOG_LOCK_NONE) hd None None) [] w0 w ->
  lease_holds bs ix off len (k ++ y) -> k <> [] -> hdr_keylen hd = zlen k ->
  exists w' s, run th (logdb_iter_current_key (Some it)) w = Done (Some (sl_buf s)) w' /\ sl_bytes s = k /\
    iter_state r it (mk_iter (Some c) (mk_lease (Some c) ix (off + zlen k) (len - zlen k) LOGDB_LOG_LOCK_NONE) hd
      (Some (sl_buf s)) None) [s] w0 w'.
Proof.
  intros Hs Hl Hk Hkl. unfold logdb_iter_current_key.
  rewrite run_bind, (verify_iter_run _ _ _ _ _ _ Hs) by done. cbn [negb]. cbn iota.
  rewrite run_bind, run_load, (do_load_peek _ _ _ _ (is_iter _ _ _ _ _ _ Hs)).
  cbn [iter_key iter_lease lease_connection iter_record]. rewrite Hkl.
  rewrite bool_decide_eq_false_2, andb_false_r by done.
  destruct (iter_read_buf_run _ _ _ _ _ _ _ _ _ _ _ Hs eq_refl Hl Hk) as (w1 & s & E1 & Hsk & H1).
  rewrite run_bind, E1, run_bind. destruct (iter_upd _ _ _ _ _ _ (set_iter_key (Some (sl_buf s))) H1) as (w2 & E2 & H2).
  rewrite E2. by exists w2, s.
Qed.

Lemma current_value_run r it w0 w ix off len hd kb ss v y :
  iter_state r it (mk_iter (Some c) (mk_lease (Some c) ix off len LOGDB_LOG_LOCK_NONE) hd (Some kb) None) ss w0 w ->
  lease_holds bs ix off len (v ++ y) -> v <> [] -> hdr_valuelen hd = zlen v ->
  exists w' s, run th (logdb_iter_current_value (Some it)) w = Done (Some (sl_buf s)) w' /\ sl_bytes s = v /\
    iter_state r it (mk_iter (Some c) (mk_lease (Some c) ix (off + zlen v) (len - zlen v) LOGDB_LOG_LOCK_NONE) hd
      (Some kb) (Some (sl_buf s))) (s :: ss) w0 w'.
Proof.
  intros Hs Hl Hv Hvl. unfold logdb_iter_current_value.
  rewrite run_bind, (verify_iter_run _ _ _ _ _ _ Hs) by done. cbn [negb]. cbn iota.
  rewrite run_bind, run_load, (do_load_peek _ _ _ _ (is_iter _ _ _ _ _ _ Hs)).
  cbn [iter_key iter_value iter_lease lease_connection iter_record]. rewrite Hvl.
  rewrite bool_decide_eq_false_2, andb_false_r by done. rewrite run_bind, run_ret.
  destruct (iter_read_buf_run _ _ _ _ _ _ _ _ _ _ _ Hs eq_refl Hl Hv) as (w1 & s & E1 & Hsv & H1).
  rewrite run_bind, E1, run_bind. destruct (iter_upd _ _ _ _ _ _ (set_iter_value (Some (sl_buf s))) H1) as (w2 & E2 & H2).
  rewrite E2. by exists w2, s.
Qed.

(** What a caller gets at the key and then the value of the record. *)
Lemma iter_key_value_run secs r0 it k v rest w0 w :
  on_record secs r0 it k v rest w0 w -> k <> [] -> v <> [] ->
  exists w1 w2 sk sv i r,
    run th (logdb_iter_current_key (Some it)) w = Done (Some (sl_buf sk)) w1 /\ sl_bytes sk = k /\
    buffer_is (w_heap w1) (Some (sl_buf sk)) k /\
    run th (logdb_iter_current_value (Some it)) w1 = Done (Some (sl_buf sv)) w2 /\ sl_bytes sv = v /\
    iter_state r it i [sk; sv] w0 w2 /\ reading secs r0 i [sk; sv] r rest.
Proof.
  intros (m & pre & rs & (off & len & Hs & Hl) & Em & ->) Hk Hv.
  destruct (lease_holds_split _ _ _ _ _ _ Hl) as [_ Hl1]. destruct (lease_holds_split _ _ _ _ _ _ Hl1) as [_ Hl2].
  destruct (current_key_run _ _ _ _ _ _ _ _ _ _ Hs Hl Hk eq_refl) as (w1 & sk & E1 & Hsk & H1).
  destruct (current_value_run _ _ _ _ _ _ _ _ _ _ _ _ H1 Hl1 Hv eq_refl) as (w2 & sv & E2 & Hsv & H2).
  apply iter_swap in H2. eexists w1, w2, sk, sv, _, _. split_and!; [done|done| |done|done|exact H2|].
  2: { apply (reading_record _ _ m _ _ _ _ _ (pre ++ [(k, v)])); [by rewrite <- app_assoc|done]. }
  pose proof (is_slots _ _ _ _ _ _ H1) as Hok%Forall_inv. apply slot_buffer in Hok. by rewrite Hsk in Hok.
Qed.

(** ** Moving on without reading *)

Lemma lease_seek_ok i off len t n :
  0 <= off -> 0 <= n <= len -> off + len < 65536 ->
  logdb_lease_seek (mk_lease (Some c) i off len t) n = (off + n, mk_lease (Some c) i (off + n) (len - n) t).
Proof.
  intros Ho Hn Hl. unfold logdb_lease_seek. cbn [lease_offset lease_len].
  rewrite (proj2 (Z.ltb_ge _ _)), (proj2 (Z.ltb_ge _ _)) by lia. cbn [orb]. rewrite andb_false_r.
  unfold lease_advance. cbn [lease_connection lease_index lease_offset lease_len lease_type].
  by rewrite s64_small, u32_small by lia.
Qed.

Lemma iter_skip_run r it w0 w ix off len k v y :
  iter_state r it (mk_iter (Some c) (mk_lease (Some c) ix off len LOGDB_LOG_LOCK_NONE) (mk_data_header (zlen k) (zlen v)) None None)
    [] w0 w ->
  lease_holds bs ix off len (k ++ v ++ y) ->
  exists w' off' len', run th (iter_skip (Some it)) w = Done true w' /\ lease_holds bs ix off' len' y /\
    iter_state r it (mk_iter (Some c) (mk_lease (Some c) ix off' len' LOGDB_LOG_LOCK_NONE) (mk_data_header (zlen k) (zlen v)) None None)
      [] w0 w'.
Proof.
  intros Hs Hl. destruct (lease_holds_split _ _ _ _ _ _ Hl) as [_ Hl1]. destruct (lease_holds_split _ _ _ _ _ _ Hl1) as [_ Hl2].
  pose proof (lh_off _ _ _ _ _ Hl) as Ho. pose proof (lh_end _ _ _ _ _ Hl) as He. pose proof (lh_len _ _ _ _ _ Hl) as Hlen.
  rewrite !length_app, !Nat2Z.inj_add in Hlen. unfold iter_skip.
  rewrite run_bind, run_load, (do_load_peek _ _ _ _ (is_iter _ _ _ _ _ _ Hs)). cbn [iter_key iter_lease iter_record hdr_keylen].
  rewrite run_bind, lease_seek_ok by lia.
  destruct (iter_upd _ _ _ _ _ _ (set_iter_lease (mk_lease (Some c) ix (off + zlen k) (len - zlen k) LOGDB_LOG_LOCK_NONE)) Hs)
    as (w1 & E1 & H1). rewrite run_bind, E1, run_ret. rewrite (proj2 (Z.eqb_neq _ _)) by lia. cbn [negb]. cbn iota.
  cbn [set_iter_lease iter_connection iter_lease iter_record iter_key iter_value] in H1.
  rewrite run_bind, run_load, (do_load_peek _ _ _ _ (is_iter _ _ _ _ _ _ H1)). cbn [set_iter_lease iter_connection iter_key iter_value iter_lease iter_record hdr_valuelen].
  rewrite lease_seek_ok by lia.
  destruct (iter_upd _ _ _ _ _ _ (set_iter_lease (mk_lease (Some c) ix (off + zlen k + zlen v) (len - zlen k - zlen v) LOGDB_LOG_LOCK_NONE)) H1)
    as (w2 & E2 & H2). rewrite run_bind, E2, run_ret. rewrite (proj2 (Z.eqb_neq _ _)) by lia. cbn [negb]. by eexists w2, _, _.
Qed.

(** [logdb_iter_next] on a record of which at least 8 bytes are left. *)
Lemma iter_next_unread_run r0 it k v m rs w0 w :
  on_record_in r0 it k v m rs w0 w -> 8 <= zlen k + zlen v + zlen (records_bytes rs) ->
  match rs with
  | (k', v') :: rs' => exists w', run th (logdb_iter_next (Some it)) w = Done 1 w' /\ on_record_in r0 it k' v' m rs' w0 w'
  | [] => exists w' i', run th (logdb_iter_next (Some it)) w = Done 0 w' /\ iter_state (r0 + 1) it i' [] w0 w' /\
      iter_connection i' = Some c /\ slots_of i' [] /\
      exists off', iter_lease i' = mk_lease (Some c) (Z.of_nat m) off' 0 LOGDB_LOG_LOCK_NONE
  end.
Proof.
  intros (off & len & Hs & Hl) Hsz. pose proof (lh_len _ _ _ _ _ Hl) as Hlen. rewrite !length_app in Hlen.
  destruct (iter_skip_run _ _ _ _ _ _ _ _ _ _ Hs Hl) as (w1 & off' & len' & E1 & Hl1 & H1).
  assert (run th (logdb_iter_next (Some it)) w = run th (do! iter_dispose (Some it) in iter_read_record (Some it)) w1) as ->.
  { unfold logdb_iter_next. rewrite run_bind, (verify_iter_run _ _ _ _ _ _ Hs) by done. cbn [negb]. cbn iota.
    rewrite run_bind, run_load, (do_load_peek _ _ _ _ (is_iter _ _ _ _ _ _ Hs)), run_bind. cbn [iter_lease lease_len].
    rewrite (proj2 (Z.ltb_ge _ _)) by (unfold sizeof_data_header; lia). by rewrite E1. }
  destruct rs as [|[k' v'] rs].
  - pose proof (lh_len _ _ _ _ _ Hl1) as Hlen'. simpl in Hlen'. subst len'.
    assert (run th (iter_dispose (Some it)) w1 = Done tt w1) as E by by eapply iter_dispose_none.
    rewrite run_bind, E. unfold iter_read_record, logdb_lease_read.
    rewrite run_bind, run_load, (do_load_peek _ _ _ _ (is_iter _ _ _ _ _ _ H1)). cbn [iter_lease lease_len].
    rewrite run_bind, (proj2 (Z.ltb_lt _ _)), run_ret by (unfold sizeof_data_header; lia). cbn iota beta.
    rewrite run_bind.
    match goal with |- context [run th (upd _ ?g) w1] => destruct (iter_upd _ _ _ _ _ _ g H1) as (w2 & E2 & H2) end.
    rewrite E2, run_bind.
    match goal with |- context [upd _ ?g] => destruct (iter_upd _ _ _ _ _ _ g H2) as (w3 & E3 & H3) end.
    rewrite E3, run_ret. eexists w3, _. split_and!; [done|exact H3|done|by left|by exists off'].
  - rewrite records_bytes_cons in Hl1. rewrite run_bind, (iter_dispose_none _ _ _ _ _ _ H1) by done.
    destruct (iter_read_record_run _ _ _ _ _ _ _ _ _ _ _ _ H1 eq_refl Hl1) as (w2 & E2 & H2 & Hl2).
    exists w2. split; [done|]. by eexists _, _.
Qed.

(** ** Creating and freeing *)

Lemma iter_all_run r w :
  db_state c D es bs r table_idle w ->
  exists w' it, run th (logdb_iter_all (Some c)) w = Done (Some it) w' /\
    iter_state r it (mk_iter (Some c) no_lease (mk_data_header 0 0) None None) [] w w'.
Proof.
  intros Hdb. pose proof (ds_fresh _ _ _ _ _ _ _ Hdb) as Hf. unfold logdb_iter_all.
  rewrite run_bind, (verify_connection_run _ _ _ _ _ _ _ _ Hdb). cbn [negb]. cbn iota.
  rewrite run_bind, run_alloc, do_alloc_quiet by apply Hdb. cbn beta iota.
  set (a := w_next w). set (i0 := mk_iter None no_lease (mk_data_header 0 0) None None). set (w1 := set_next (a + 1) _).
  assert (w_heap w !! a = None) as Ha by (apply Hf; unfold a; lia).
  assert (iter_state r a i0 [] w w1) as H1.
  { constructor.
    - apply db_state_user; [apply _|done| |].
      + intros x y Ex _. rewrite lookup_insert_ne; [done|]. congruence.
      + apply heap_fresh_steps; [done|lia|]. intros x Hx. apply lookup_insert_ne. lia.
    - exact (peek_insert logdb_iter_t _ _ _).
    - constructor.
    - apply NoDup_singleton.
    - rest_step. cbn [w1 w_heap set_heap set_next]. exact (forget_alloc [] (w_heap w) a _ ltac:(by rewrite Ha)). }
  destruct (iter_upd _ _ _ _ _ _ (set_iter_connection (Some c)) H1) as (w2 & E2 & H2).
  rewrite run_bind, E2, run_ret. by exists w2, a.
Qed.

(** Giving back what was read, without clearing the pointers. *)
Lemma iter_free_slots_run r it i ss w0 w :
  iter_state r it i ss w0 w -> slots_of i ss ->
  exists w1 w2,
    run th (match iter_key i with Some _ => logdb_buffer_free (iter_key i) | None => Ret tt end) w = Done tt w1 /\
    run th (match iter_value i with Some _ => logdb_buffer_free (iter_value i) | None => Ret tt end) w1 = Done tt w2 /\
    iter_state r it i [] w0 w2.
Proof.
  intros Hs [(-> & -> & ->)|(k & v & -> & -> & ->)]; [by exists w, w|].
  destruct (iter_free_slot _ _ _ _ _ _ _ Hs) as (w1 & E1 & H1).
  destruct (iter_free_slot _ _ _ _ _ _ _ H1) as (w2 & E2 & H2). by exists w1, w2.
Qed.

Lemma iter_free_run r0 r it i ss w0 w j :
  iter_state r it i ss w0 w -> iter_connection i = Some c -> slots_of i ss -> lease_done (iter_lease i) j r0 r ->
  exists w', run th (logdb_iter_free (Some it)) w = Done tt w' /\ db_state c D es bs r0 table_idle w' /\
    same_rest D w0 w'.
Proof.
  intros Hs Hc Hss Hj. unfold logdb_iter_free.
  assert (forall w, iter_state r it i ss w0 w -> run th (if DEBUG then let! i := load logdb_iter_t (Some it) in
    Ret (bool_decide (iter_connection i = None)) else Ret false) w = Done false w) as Hinv.
  { intros w' Hs'. destruct DEBUG; [|done]. rewrite run_bind, run_load, (do_load_peek _ _ _ _ (is_iter _ _ _ _ _ _ Hs')).
    by rewrite Hc, bool_decide_eq_false_2. }
  rewrite run_bind, (Hinv w Hs). cbn iota. rewrite run_bind, run_load, (do_load_peek _ _ _ _ (is_iter _ _ _ _ _ _ Hs)).
  destruct (iter_free_slots_run _ _ _ _ _ _ Hs Hss) as (w1 & w2 & E1 & E2 & H2). rewrite run_bind, E1, run_bind, E2.
  assert (exists w3 l, run th (match lease_connection (iter_lease i) with
      | Some _ => let! lease := logdb_lease_release (iter_lease i) in upd (Some it) (set_iter_lease lease)
      | None => Ret tt end) w2 = Done tt w3 /\ iter_state r0 it (set_iter_lease l i) [] w0 w3) as (w3 & l & E3 & H3).
  { destruct Hj as [(El & -> & ->)|(ix & off & len & El & _ & _ & ->)]; rewrite El.
    - exists w2, (iter_lease i). split; [done|]. by destruct i.
    - cbn [lease_connection].
      destruct (release_read_run th c D es bs (r0 + 1) w2 ix off len (is_db _ _ _ _ _ _ H2)) as (w3 & E3 & Hdb3 & Hr3).
      rewrite run_bind, E3. replace (r0 + 1 - 1) with r0 in Hdb3 by lia.
      destruct (iter_upd _ _ _ _ _ _ (set_iter_lease (mk_lease None ix off len LOGDB_LOG_LOCK_NONE))
        (iter_db _ _ _ _ _ _ _ _ H2 Hdb3 Hr3)) as (w4 & E4 & H4). by eexists _, _. }
  rewrite run_bind, E3, run_bind. destruct (iter_upd _ _ _ _ _ _ (set_iter_connection None) H3) as (w4 & E4 & H4).
  rewrite E4, run_free, do_free_run by (rewrite (is_cell _ _ _ _ _ _ H4); eauto).
  pose proof (is_cell _ _ _ _ _ _ H4) as Ec. destruct H4 as [Hdb4 _ _ _ Hr4].
  eexists. split; [done|]. split; [|done].
  replace (set_heap _ w4) with (set_next (w_next w4) (set_heap (delete it (w_heap w4)) w4)) by by destruct w4.
  apply db_state_user; [apply _|done| |].
  - intros x y Ex Hy. rewrite lookup_delete_ne; [done|]. intros <-. rewrite Ec in Ex. by injection Ex as <-.
  - intros x Hx. cbn [w_heap w_next set_heap set_next] in *. apply lookup_delete_None. right.
    by apply (ds_fresh _ _ _ _ _ _ _ Hdb4).
Qed.

(** ** Reading the whole database *)

(** The contents of a buffer, as a caller gets at them. *)
Definition buffer_contents (b : ptr) : prog (list byte) :=
  let! n := logdb_buffer_length b in
  let! data := logdb_buffer_data b in
  load_mem data n.

(** A caller's loop over the records: next, key, value, until the end. *)
Fixpoint read_records (fuel : nat) (iter : ptr) : prog (list record) :=
  match fuel with
  | O => no_fuel
  | S fuel' =>
      let! more := logdb_iter_next iter in
      if more =? 0 then Ret [] else
      let! key := logdb_iter_current_key iter in
      let! value := logdb_iter_current_value iter in
      let! k := buffer_contents key in
      let! v := buffer_contents value in
      let! rest := read_records fuel' iter in
      Ret ((k, v) :: rest)
  end.

Definition read_database (fuel : nat) (conn : ptr) : prog (list record) :=
  let! iter := logdb_iter_all conn in
  let! rs := read_records fuel iter in
  do! logdb_iter_free iter in
  Ret rs.

Lemma contents_run w s :
  slot_ok (w_heap w) s -> zlen (sl_bytes s) < 2 ^ 32 ->
  run th (buffer_contents (Some (sl_buf s))) w = Done (sl_bytes s) w.
Proof.
  intros Hs Hlen. unfold buffer_contents, logdb_buffer_data.
  rewrite run_bind, (buffer_length_run _ _ _ _ (slot_buffer _ _ Hs)), u32_small by lia. destruct Hs as [Hb Hd].
  rewrite run_bind, run_bind, run_heap_size. cbn [buffer_data_loop].
  rewrite run_bind, run_load, (do_load_peek _ _ _ _ Hb). cbn [buf_orig buf_next buf_data]. rewrite run_ret.
  apply load_mem_run. by apply mem_bytes_all.
Qed.

Lemma reading_done secs r0 i ss r rest : reading secs r0 i ss r rest -> exists j, lease_done (iter_lease i) j r0 r.
Proof.
  intros [l hd Hl _|m off len hd k v pre rs Em Hl]; [exists 0%nat; by left|]. exists (S m). right.
  pose proof (lh_index _ _ _ _ _ Hl). exists (Z.of_nat m), off, len. split_and!; [done|lia|lia|lia|done].
Qed.

(** Records with neither an empty key nor an empty value. *)
Definition nonempty_record (kv : record) : Prop := kv.1 <> [] /\ kv.2 <> [].

(** One round of a caller's loop: next, key, value. *)
Lemma read_record_run secs r0 r it i ss w0 w k v rest :
  iter_state r it i ss w0 w -> reading secs r0 i ss r ((k, v) :: rest) -> holds es bs secs -> nonempty_record (k, v) ->
  exists w1 w2 w3 sk sv i' r',
    run th (logdb_iter_next (Some it)) w = Done 1 w1 /\
    run th (logdb_iter_current_key (Some it)) w1 = Done (Some (sl_buf sk)) w2 /\
    run th (logdb_iter_current_value (Some it)) w2 = Done (Some (sl_buf sv)) w3 /\
    (sl_bytes sk = k /\ slot_ok (w_heap w3) sk /\ zlen k < 2 ^ 32) /\
    (sl_bytes sv = v /\ slot_ok (w_heap w3) sv /\ zlen v < 2 ^ 32) /\
    iter_state r' it i' [sk; sv] w0 w3 /\ reading secs r0 i' [sk; sv] r' rest.
Proof.
  intros Hs Hr Hh [Hk Hv]. destruct (iter_next_run secs r0 r it i ss w0 w _ Hs Hr Hh) as (w1 & E1 & H1).
  assert (zlen k < 2 ^ 32 /\ zlen v < 2 ^ 32) as [Hkl Hvl].
  { destruct H1 as (m & pre & rs & (off & len & _ & [????? _]) & _). rewrite !length_app in *. lia. }
  destruct (iter_key_value_run secs r0 it k v rest w0 w1 H1 Hk Hv)
    as (w2 & w3 & sk & sv & i' & r' & E2 & Hsk & _ & E3 & Hsv & H3 & Hr3).
  pose proof (is_slots _ _ _ _ _ _ H3) as [Hok1 [Hok2 _]%Forall_cons_iff]%Forall_cons_iff.
  by exists w1, w2, w3, sk, sv, i', r'.
Qed.

(** The end of the loop. *)
Lemma read_end_run secs r0 r it i ss w0 w :
  iter_state r it i ss w0 w -> reading secs r0 i ss r [] -> holds es bs secs ->
  exists w' i', run th (logdb_iter_next (Some it)) w = Done 0 w' /\ iter_state r0 it i' ss w0 w' /\
    iter_connection i' = Some c /\ slots_of i' ss /\ lease_connection (iter_lease i') = None.
Proof.
  intros Hs Hr Hh. destruct (iter_next_run secs r0 r it i ss w0 w _ Hs Hr Hh) as (w1 & l & E1 & Hl & H1).
  exists w1, (set_iter_lease l i). split_and!; [done|done| | |done]; [by destruct Hr|].
  pose proof (reading_slots _ _ _ _ _ _ Hr). by destruct i.
Qed.

Lemma read_records_run secs r0 fuel r it i ss w0 w rest :
  iter_state r it i ss w0 w -> reading secs r0 i ss r rest -> holds es bs secs ->
  Forall nonempty_record rest -> (length rest < fuel)%nat ->
  exists w' i' ss', run th (read_records fuel (Some it)) w = Done rest w' /\
    iter_state r0 it i' ss' w0 w' /\ iter_connection i' = Some c /\ slots_of i' ss' /\ lease_connection (iter_lease i') = None.
Proof.
  revert r i ss w rest. induction fuel as [|fuel IH]; intros r i ss w rest Hs Hr Hh Hne Hf; [lia|].
  cbn [read_records]. destruct rest as [|[k v] rest].
  - destruct (read_end_run secs r0 r it i ss w0 w Hs Hr Hh) as (w1 & i1 & E1 & ?). rewrite run_bind, E1. by exists w1, i1, ss.
  - apply Forall_cons_iff in Hne as [Hkv Hne].
    destruct (read_record_run secs r0 r it i ss w0 w k v rest Hs Hr Hh Hkv)
      as (w1 & w2 & w3 & sk & sv & i' & r' & E1 & E2 & E3 & (Hsk & Hok1 & ?) & (Hsv & Hok2 & ?) & H3 & Hr3).
    rewrite run_bind, E1. change (1 =? 0) with false. cbn iota. rewrite run_bind, E2, run_bind, E3.
    rewrite run_bind, (contents_run _ _ Hok1), run_bind, (contents_run _ _ Hok2), Hsk, Hsv by congruence.
    destruct (IH r' i' [sk; sv] w3 rest H3 Hr3 Hh Hne) as (w4 & i4 & ss4 & E4 & ?); [simpl in Hf; lia|].
    rewrite run_bind, E4. by exists w4, i4, ss4.
Qed.

End iter.

Lemma read_database_run `{Build} th c D es bs r w secs n :
  db_state c D es bs r table_idle w -> holds es bs secs -> Forall nonempty_record (concat secs) ->
  (length (concat secs) < n)%nat ->
  exists w', run th (read_database n (Some c)) w = Done (concat secs) w' /\
    db_state c D es bs r table_idle w' /\ same_rest D w w'.
Proof.
  intros Hdb Hh Hne Hn. unfold read_database.
  destruct (iter_all_run th c D es bs r w Hdb) as (w1 & it & E1 & H1). rewrite run_bind, E1.
  destruct (read_records_run th c D es bs secs r n r it _ [] w w1 (concat secs) H1)
    as (w2 & i & ss & E2 & H2 & Hc & Hss & Hl); [by constructor|done..|].
  rewrite run_bind, E2.
  destruct (iter_free_run th c D es bs r r it i ss w w2 0 H2 Hc Hss) as (w3 & E3 & Hdb3 & Hr3); [by left|].
  rewrite run_bind, E3. by exists w3.
Qed.

(** ** Properties *)

(** C9. Reading the database through an iterator gives exactly the records of
    its sections, in the order of the sections and of the records in them; it
    ends, and leaves the database and all memory as they were. *)
Theorem iter_reads_all `{Build} th c D es bs r w secs n :
  db_state c D es bs r table_idle w -> holds es bs secs -> Forall nonempty_record (concat secs) ->
  (length (concat secs) < n)%nat ->
  exists w', run th (read_database n (Some c)) w = Done (concat secs) w' /\
    db_state c D es bs r table_idle w' /\ same_rest D w w'.
Proof. by apply read_database_run. Qed.

#[local] Existing Instance debug_build.

Lemma iter_reads_all_witness :
  let db := header_bytes ++ record_bytes [x61] [x62; x63] ++ record_bytes [x64] [x65] in
  let w := put_sample [] [] 0 db [21] in
  exists w', run main_thread (read_database 3 (Some 2)) w = Done [([x61], [x62; x63]); ([x64], [x65])] w' /\
    db_state 2 (open_desc 0) [21] db 0 table_idle w' /\ same_rest (open_desc 0) w w'.
Proof.
  apply (iter_reads_all main_thread 2 (open_desc 0) [21] _ 0 _ [[([x61], [x62; x63]); ([x64], [x65])]] 3).
  - apply put_sample_state; [by repeat constructor|done].
  - constructor; [done| |].
    + intros [|i] e E; [|done]. injection E as <-. by vm_compute.
    + intros [|i] rs E; [|done]. injection E as <-. by vm_compute.
  - by repeat constructor.
  - cbn. lia.
Defined.
