(* ===== verification/Database.v ===== *)
(** * The database as a list of records

    The abstract state of a database is a list of sections, each a list of
    records.  [database] relates it to the files and structs of an open
    database; [spec_put] and [spec_all] are what a caller is promised by
    [logdb_put] and by an iterator, and the theorems show that the detailed
    definitions implement them. *)

From S2P Require Import Prelude Machine World Posix Io Layout Log LogSpec Buffer.
From S2P Require Import BufferSpec LogLock LockSpec DbState Lease LeaseSpec Txn TxnSpec Iter.
From S2P Require Import IterSpec.

(** ** The abstract operations *)

Abbreviation sections := (list (list record)).

Definition record_size (r : record) : Z := zlen (record_bytes r.1 r.2).
Definition section_size (rs : list record) : Z := zlen (records_bytes rs).

(** The sizes the log has for the sections. *)
Definition sizes (secs : sections) : list Z := section_size <$> secs.

(** Where the record goes: one of the last sections with room, or a new one. *)
Definition spec_place (secs : sections) (r : record) : option nat :=
  fst <$> pick (Z.to_nat LOGDB_LEASE_MAX_WALK) (length secs) (sizes secs) (record_size r).

Definition spec_put (secs : sections) (r : record) : sections :=
  match spec_place secs r with
  | Some i => alter (fun rs => rs ++ [r]) i secs
  | None => secs ++ [[r]]
  end.

Definition spec_all (secs : sections) : list record := concat secs.

(** There are fewer than 65536 sections, and the record fits its section
    without filling the last byte. *)
Definition fits (secs : sections) (r : record) : bool :=
  (zlen secs <? 65536) &&
  match spec_place secs r with
  | Some i => section_size (default [] (secs !! i)) + record_size r <? LOGDB_SECTION_SIZE
  | None => record_size r <? LOGDB_SECTION_SIZE
  end.

Fixpoint fit_all (secs : sections) (rs : list record) : bool :=
  match rs with
  | [] => true
  | r :: rs => fits secs r && fit_all (spec_put secs r) rs
  end.

Lemma records_bytes_app a b : records_bytes (a ++ b) = records_bytes a ++ records_bytes b.
Proof. apply bind_app. Qed.

Lemma length_sizes secs : length (sizes secs) = length secs.
Proof. apply length_fmap. Qed.

(** A put adds its record, and nothing else changes. *)
Lemma spec_put_all secs r : spec_all (spec_put secs r) ≡ₚ r :: spec_all secs.
Proof.
  unfold spec_put, spec_all. destruct (spec_place secs r) as [i|] eqn:E.
  - destruct (lookup_lt_is_Some_2 secs i) as [rs Ei].
    { unfold spec_place in E. destruct (pick _ _ _ _) as [[j e]|] eqn:Ep; [|done]. injection E as <-.
      by apply pick_some in Ep as (_ & _ & ?). }
    apply list_elem_of_split_length in Ei as (a & b & -> & ->).
    rewrite alter_app_r_alt, Nat.sub_diag by done. cbn [alter list_alter]. rewrite !concat_app. simpl.
    rewrite <- (app_assoc rs). simpl. rewrite <- (Permutation_middle rs). by rewrite <- (Permutation_middle (concat a)).
  - rewrite concat_app. simpl. rewrite Permutation_app_comm. done.
Qed.

(** The place is the one the lease finds. *)
Lemma spec_place_place secs r i e es' :
  place (sizes secs) (record_size r) = (i, e, es') ->
  (spec_place secs r = Some i /\ es' = sizes secs /\ exists rs, secs !! i = Some rs /\ e = section_size rs) \/
  (spec_place secs r = None /\ es' = sizes secs ++ [0] /\ i = length secs /\ e = 0).
Proof.
  unfold place, spec_place. rewrite length_sizes. destruct (pick _ _ _ _) as [[j x]|] eqn:E; intros [= <- <- <-].
  - left. split_and!; [done..|]. apply pick_some in E as (E & _). unfold sizes in E.
    rewrite list_lookup_fmap in E. destruct (secs !! j) as [rs|]; [|done]. injection E as <-. by exists rs.
  - right. by split_and!.
Qed.

(** ** The relation to the files *)

Section database.
Context `{Build} (th : thread) (c : loc) (D : desc).

Record database (secs : sections) (r : Z) (w : world) : Prop := mk_database {
  db_files : exists bs, db_state c D (sizes secs) bs r table_idle w /\ holds (sizes secs) bs secs
}.

(** Sections of whole records determine the log. *)
Lemma holds_sizes es bs r T w secs : db_state c D es bs r T w -> holds es bs secs -> es = sizes secs.
Proof.
  intros Hdb Hh. apply list_eq. intros i. unfold sizes. rewrite list_lookup_fmap.
  destruct (es !! i) as [e|] eqn:Ei.
  - pose proof (lookup_lt_Some _ _ _ Ei) as Hi. destruct (lookup_lt_is_Some_2 secs i) as [rs Er];
      [rewrite (ho_length _ _ _ Hh); lia|].
    rewrite Er. simpl. f_equal. unfold section_size. rewrite <- (ho_section _ _ _ Hh _ _ Er). unfold section. rewrite Ei.
    simpl. pose proof (db_entry _ _ _ _ _ _ _ Hdb _ _ Ei) as He. pose proof (ds_count _ _ _ _ _ _ _ Hdb).
    assert (0 <= logdb_connection_offset (Z.of_nat i)) by (rewrite connection_offset_small; lia).
    rewrite file_read_length by lia. destruct (decide (e = 0)); [lia|].
    pose proof (ho_in _ _ _ Hh _ _ Ei). lia.
  - rewrite lookup_ge_None_2; [done|]. rewrite (ho_length _ _ _ Hh). by apply lookup_ge_None_1.
Qed.

(** A database file that holds the sections, with a log for them. *)
Record stored (db : list byte) (secs : sections) : Prop := mk_stored {
  st_header : take 6 db = header_bytes;
  st_holds : holds (sizes secs) db secs;
  st_entries : Forall entry_ok (sizes secs);
  st_count : zlen secs <= 65536
}.

Definition syncs (D : desc) : Prop := is_durable (d_flags D) = true.

(** The sections after a put. *)
Lemma holds_put bs bs2 secs k v i e es' :
  holds (sizes secs) bs secs -> place (sizes secs) (record_size (k, v)) = (i, e, es') ->
  let es2 := <[i := e + record_size (k, v)]> es' in
  section es2 bs2 i = section (sizes secs) bs i ++ record_bytes k v ->
  (forall j, j <> i -> section es2 bs2 j = section (sizes secs) bs j) -> sections_in es2 bs2 ->
  es2 = sizes (spec_put secs (k, v)) /\ holds es2 bs2 (spec_put secs (k, v)).
Proof.
  intros Hh Hpl es2 Hi Hj Hin. unfold es2 in *. clear es2.
  assert (records_bytes [(k, v)] = record_bytes k v) as Hone by (unfold records_bytes; simpl; by rewrite app_nil_r).
  destruct (spec_place_place _ _ _ _ _ Hpl) as [(Ep & -> & rs & Er & ->)|(Ep & -> & -> & ->)]; unfold spec_put; rewrite Ep.
  - split.
    + apply list_eq. intros j. unfold sizes. destruct (decide (i = j)) as [<-|].
      * rewrite list_lookup_insert_eq by (rewrite length_fmap; by eapply lookup_lt_Some).
        rewrite list_lookup_fmap, list_lookup_alter_eq, Er. simpl. unfold section_size, record_size.
        by rewrite records_bytes_app, Hone, length_app, Nat2Z.inj_add.
      * by rewrite list_lookup_insert_ne, !list_lookup_fmap, list_lookup_alter_ne.
    + constructor; [by rewrite length_alter, length_insert, length_sizes|done|].
      intros j x Ej. destruct (decide (i = j)) as [<-|].
      * rewrite list_lookup_alter_eq, Er in Ej. injection Ej as <-.
        by rewrite Hi, (ho_section _ _ _ Hh _ _ Er), records_bytes_app, Hone.
      * rewrite list_lookup_alter_ne in Ej by done. rewrite Hj by done. by apply Hh.
  - rewrite <- (length_sizes secs) in *.
    assert (<[length (sizes secs) := 0 + record_size (k, v)]> (sizes secs ++ [0]) = sizes (secs ++ [[(k, v)]])) as Es.
    { rewrite insert_app_r_alt, Nat.sub_diag by done. unfold sizes. rewrite fmap_app. simpl. unfold section_size.
      by rewrite Hone. }
    split; [done|]. constructor; [rewrite Es; by rewrite length_sizes|done|].
    intros j x Ej. destruct (decide (j = length (sizes secs))) as [->|Hne].
    + rewrite length_sizes, lookup_app_r, Nat.sub_diag in Ej by lia. injection Ej as <-.
      rewrite Hi, Hone. unfold section. rewrite lookup_ge_None_2 by done. done.
    + rewrite Hj by done. apply Hh. rewrite lookup_app_l in Ej; [done|].
      apply lookup_lt_Some in Ej. rewrite length_app in Ej. rewrite length_sizes in Hne. simpl in Ej. lia.
Qed.

(** Where the record goes, and what the files hold once it is written there. *)
Lemma put_sections secs bs k v i e es' :
  holds (sizes secs) bs secs -> Forall entry_ok (sizes secs) -> fits secs (k, v) = true ->
  place (sizes secs) (zlen (record_bytes k v)) = (i, e, es') ->
  es' !! i = Some e /\ 0 <= e /\ e + zlen (record_bytes k v) < LOGDB_SECTION_SIZE /\ zlen es' <= 65536 /\
  (es' = sizes secs \/ es' = sizes secs ++ [0] /\ i = length (sizes secs)) /\
  <[i := e + zlen (record_bytes k v)]> es' = sizes (spec_put secs (k, v)) /\
  holds (sizes (spec_put secs (k, v)))
    (file_write (logdb_connection_offset (Z.of_nat i) + e) (record_bytes k v) bs) (spec_put secs (k, v)).
Proof.
  change (zlen (record_bytes k v)) with (record_size (k, v)). intros Hh Hok [Hcount Hfit]%andb_prop Hpl. zbool.
  assert (e + record_size (k, v) < LOGDB_SECTION_SIZE /\ 0 <= e) as [Hend He0].
  { destruct (spec_place_place _ _ _ _ _ Hpl) as [(Ep & _ & rs & Er & ->)|(Ep & _ & _ & ->)]; rewrite Ep in Hfit; zbool; [|lia].
    rewrite Er in Hfit. simpl in Hfit. unfold section_size in *. lia. }
  pose proof (length_record_bytes k v) as Hn. unfold record_size in *. cbn [fst snd] in *.
  pose proof (place_spec _ (zlen (record_bytes k v)) i e es' ltac:(lia) Hpl) as (Ei & Hroom & Hes).
  unfold LOGDB_SECTION_SIZE in *.
  assert (zlen es' <= 65536) as Hc by (destruct Hes as [->|[-> _]]; rewrite ?length_app, length_sizes; simpl; lia).
  destruct (section_append (sizes secs) es' bs i e (record_bytes k v) (zlen (record_bytes k v)))
    as (Hs1 & Hs2 & Hs3); [done|lia|apply Hh|done|tauto|unfold LOGDB_SECTION_SIZE; lia|done|lia|].
  destruct (holds_put bs _ secs k v i e es' Hh Hpl Hs1 Hs2) as [Es Hh2].
  { apply Hs3. intros Hnil. rewrite Hnil in Hn. simpl in Hn. lia. }
  unfold record_size in *. cbn [fst snd] in *. rewrite Es in Hh2. split_and!; try done; lia.
Qed.

(** What a put leaves alone: all but the two files, the log's memory and the
    thread's transaction, which is none; the file keeps its header. *)
Record put_rest (w w' : world) : Prop := mk_put_rest {
  pr_tls : w_tls w' = w_tls w \/ w_tls w' = <[(th, d_key D) := None]> (w_tls w);
  pr_rest : same_rest D (set_tls (w_tls w') w) w';
  pr_header : 6 <= zlen (get_file (d_dbino D) w) ->
    take 6 (get_file (d_dbino D) w') = take 6 (get_file (d_dbino D) w)
}.

#[export] Instance put_rest_preorder : PreOrder put_rest.
Proof.
  split.
  - intros w. constructor; [by left|by destruct w|done].
  - intros a b c' [T1 R1 P1] [T2 R2 P2]. constructor.
    + destruct T1 as [T1|T1], T2 as [T2|T2]; rewrite T2, T1; rewrite ?insert_insert_eq; tauto.
    + destruct R1, R2. constructor; cbn [w_tls w_next_key w_disposed w_heap w_os set_tls] in *; try congruence.
      * intros d ??. by rewrite sr_fds0, sr_fds.
      * intros k Hk. destruct (sr_fcntl0 k Hk) as [Hk'|]; auto.
      * intros i ??. by rewrite sr_inodes0, sr_inodes.
    + intros Hl. rewrite P2, P1; [done|done|]. apply (f_equal length) in P1; [|done]. rewrite !length_take in P1. lia.
Qed.

(** [logdb_put] implements [spec_put]. *)
Lemma put_database secs r w kl vl k v :
  database secs r w -> current_txn th D w = None ->
  user_buffer (w_heap w) kl k -> user_buffer (w_heap w) vl v -> fits secs (k, v) = true ->
  exists w', run th (logdb_put (Some c) (Some kl) (Some vl)) w = Done 0 w' /\
    database (spec_put secs (k, v)) r w' /\ current_txn th D w' = None /\ put_rest w w'.
Proof.
  intros [(bs & Hdb & Hh)] Hcur Hk Hv Hfit. pose proof (length_record_bytes k v) as Hn.
  destruct (place (sizes secs) (zlen (record_bytes k v))) as [[i e] es'] eqn:Hpl.
  destruct (put_sections secs bs k v i e es' Hh (ds_entries _ _ _ _ _ _ _ Hdb) Hfit Hpl)
    as (Ei & He & Hend & Hc & _ & Es & Hh2). apply andb_prop in Hfit as [Hcount _]. zbool. unfold LOGDB_SECTION_SIZE in *.
  destruct (put_run th c D (sizes secs) bs r w kl vl k v i e es') as (w' & E & Hdb' & Ht & Hr);
    [done..|unfold LOGDB_SECTION_SIZE; lia|rewrite length_sizes; lia|done|].
  rewrite u16_small, Es in Hdb' by lia. exists w'. split; [exact E|]. split_and!.
  - constructor. by eexists.
  - unfold current_txn. by rewrite Ht, lookup_insert_eq.
  - constructor.
    + by right.
    + exact Hr.
    + unfold get_file. rewrite (ds_db _ _ _ _ _ _ _ Hdb), (ds_db _ _ _ _ _ _ _ Hdb'). cbn [from_option id]. intros Hl.
      pose proof (lookup_lt_Some _ _ _ Ei). pose proof (connection_offset_small (Z.of_nat i)). apply file_write_take; lia.
Qed.

(** Buffers for a list of records. *)
Definition user_records (h : heap) (ps : list (loc * loc)) (rs : list record) : Prop :=
  Forall2 (fun p r => user_buffer h p.1 r.1 /\ user_buffer h p.2 r.2) ps rs.

Lemma user_buffer_kept h h' l bs : user_kept h h' -> user_buffer h l bs -> user_buffer h' l bs.
Proof.
  intros He [Hb (b & Eb & Hr)]. split; [by eapply buffer_is_le; [apply user_kept_le|]|].
  exists b. split; [|done]. by eapply (user_kept_peek logdb_buffer_t).
Qed.

Lemma user_records_kept h h' ps rs : user_kept h h' -> user_records h ps rs -> user_records h' ps rs.
Proof.
  intros He. apply Forall2_impl. intros p r [H1 H2]. split; by eapply user_buffer_kept.
Qed.

(** A caller that puts one record after the other; the number of failures. *)
Fixpoint put_records (conn : ptr) (ps : list (loc * loc)) : prog Z :=
  match ps with
  | [] => Ret 0
  | (kl, vl) :: ps =>
      let! r := logdb_put conn (Some kl) (Some vl) in
      let! n := put_records conn ps in
      Ret (if r =? 0 then n else n + 1)
  end.

Lemma put_records_run secs r w ps rs :
  database secs r w -> current_txn th D w = None -> user_records (w_heap w) ps rs -> fit_all secs rs = true ->
  exists w', run th (put_records (Some c) ps) w = Done 0 w' /\
    database (foldl spec_put secs rs) r w' /\ current_txn th D w' = None /\ put_rest w w'.
Proof.
  intros Hdb Hcur Hu. revert secs w Hdb Hcur Hu. revert rs. induction ps as [|[kl vl] ps IH]; intros rs secs w Hdb Hcur Hu Hfit.
  - apply Forall2_nil_inv_l in Hu as ->. by exists w.
  - apply Forall2_cons_inv_l in Hu as ([k v] & rs' & [Hk Hv] & Hu & ->). apply andb_prop in Hfit as [Hf Hfit].
    destruct (put_database secs r w kl vl k v) as (w1 & E1 & Hdb1 & Hcur1 & He1); [done..|].
    destruct (IH rs' _ w1 Hdb1 Hcur1) as (w2 & E2 & Hdb2 & Hcur2 & He2); [by eapply user_records_kept; [apply user_equiv_kept, (sr_heap _ _ _ (pr_rest _ _ He1))|]|done|].
    exists w2. cbn [put_records]. rewrite run_bind, E1, run_bind, E2. split_and!; [done..|by etransitivity].
Qed.

Lemma spec_puts_all secs rs : spec_all (foldl spec_put secs rs) ≡ₚ rs ++ spec_all secs.
Proof.
  revert secs. induction rs as [|r rs IH]; intros secs; [done|]. cbn [foldl app].
  rewrite IH, spec_put_all. by rewrite <- Permutation_middle.
Qed.

End database.

#[local] Existing Instance debug_build.

(** The sample of TxnSpec.v, with one empty section. *)
Lemma put_sample_database k v flags :
  database 2 (open_desc flags) [[]] 0 (put_sample k v flags header_bytes [0]).
Proof.
  constructor. exists header_bytes. split; [apply put_sample_state; [by repeat constructor|done]|].
  constructor; [done| |].
  - intros [|i] e E; [|done]. by injection E as <-.
  - intros [|i] rs E; [|done]. by injection E as <-.
Qed.

(** ** Properties *)

(** C6. [logdb_put] refines the abstract put: on a database that holds the
    sections [secs], it returns 0 and leaves one that holds [spec_put secs]
    of the record, all memory of the caller as it was, and no transaction. *)
Theorem put_refines `{Build} th c D secs r w kl vl k v :
  database c D secs r w -> current_txn th D w = None ->
  user_buffer (w_heap w) kl k -> user_buffer (w_heap w) vl v -> fits secs (k, v) = true ->
  exists w', run th (logdb_put (Some c) (Some kl) (Some vl)) w = Done 0 w' /\
    database c D (spec_put secs (k, v)) r w' /\ current_txn th D w' = None /\ user_equiv (w_heap w) (w_heap w').
Proof.
  intros Hdb Hcur Hk Hv Hfit. destruct (put_database th c D secs r w kl vl k v) as (w' & E & Hdb' & Hcur' & Hr); [done..|].
  exists w'. split_and!; [done..|]. exact (sr_heap _ _ _ (pr_rest _ _ _ _ Hr)).
Qed.

Lemma put_refines_witness :
  let w := put_sample [x61] [x62; x63] 0 header_bytes [0] in
  exists w', run main_thread (logdb_put (Some 2) (Some 4) (Some 6)) w = Done 0 w' /\
    database 2 (open_desc 0) [[([x61], [x62; x63])]] 0 w' /\ current_txn main_thread (open_desc 0) w' = None /\
    user_equiv (w_heap w) (w_heap w').
Proof.
  apply (put_refines main_thread 2 (open_desc 0) [[]] 0 _ 4 6 [x61] [x62; x63]).
  - apply put_sample_database.
  - done.
  - apply put_sample_buffer. by left.
  - apply put_sample_buffer. by right.
  - done.
Defined.

(** C12. After any number of puts, reading the database gives the records it had
    and the records put, each as often as it was put, and no others. *)
Theorem puts_then_read `{Build} th c D secs r w ps rs :
  database c D secs r w -> current_txn th D w = None -> user_records (w_heap w) ps rs -> fit_all secs rs = true ->
  Forall nonempty_record (rs ++ spec_all secs) ->
  exists w' w'' all,
    run th (put_records (Some c) ps) w = Done 0 w' /\
    run th (read_database (S (length rs + length (spec_all secs))) (Some c)) w' = Done all w'' /\
    all ≡ₚ rs ++ spec_all secs /\ database c D (foldl spec_put secs rs) r w''.
Proof.
  intros Hdb Hcur Hu Hfit Hne.
  destruct (put_records_run th c D secs r w ps rs Hdb Hcur Hu Hfit) as (w1 & E1 & [(bs & Hdb1 & Hh1)] & _).
  pose proof (spec_puts_all secs rs) as Hp. unfold spec_all in *.
  destruct (read_database_run th c D _ bs r w1 _ (S (length (concat (foldl spec_put secs rs)))) Hdb1 Hh1)
    as (w2 & E2 & Hdb2 & _); [by rewrite Hp|lia|].
  rewrite (Permutation_length Hp), length_app in E2. exists w1, w2, (concat (foldl spec_put secs rs)).
  split_and!; [done..|]. constructor. by exists bs.
Qed.

Lemma puts_then_read_witness :
  let w := put_sample [x61] [x62; x63] 0 header_bytes [0] in
  exists w' w'' all,
    run main_thread (put_records (Some 2) [(4, 6); (6, 4)]) w = Done 0 w' /\
    run main_thread (read_database 3 (Some 2)) w' = Done all w'' /\
    all ≡ₚ [([x61], [x62; x63]); ([x62; x63], [x61])] /\
    database 2 (open_desc 0) [[([x61], [x62; x63]); ([x62; x63], [x61])]] 0 w''.
Proof.
  apply (puts_then_read main_thread 2 (open_desc 0) [[]] 0 _ [(4, 6); (6, 4)]
    [([x61], [x62; x63]); ([x62; x63], [x61])]).
  - apply put_sample_database.
  - done.
  - apply Forall2_cons; [split; apply put_sample_buffer; cbn; tauto|].
    apply Forall2_cons; [split; apply put_sample_buffer; cbn; tauto|]. apply Forall2_nil.
  - done.
  - by repeat constructor.
Defined.
