(* ===== verification/CrashSpec.v ===== *)
(** * A crash during a put

    A process, or the whole machine, may stop at any step of [logdb_put].
    [crash_holds] says what the two files can then hold: after a crash of the
    process their contents; after one of the machine, for a connection that
    syncs, each of them either its contents or what was last synced. *)

From S2P Require Import Prelude Machine World Posix Io Layout Log LogSpec Buffer.
From S2P Require Import BufferSpec LogLock LockSpec DbState Lease LeaseSpec Txn Silent TxnSpec Iter.
From S2P Require Import IterSpec Database.

(** ** What a crash leaves *)

Definition found (D : desc) (w : world) (ino : Z) (bs : list byte) : Prop :=
  os_inodes (w_os w) !! ino = Some bs \/ syncs D /\ durable w !! ino = Some bs.

Definition crash_holds (D : desc) (P : sections -> Prop) (w : world) : Prop :=
  is_Some (os_inodes (w_os w) !! d_dbino D) /\ is_Some (os_inodes (w_os w) !! d_logino D) /\
  forall db log, found D w (d_dbino D) db -> found D w (d_logino D) log ->
  exists secs, P secs /\ log = log_image (sizes secs) /\ stored db secs.

#[export] Instance crash_on_files D P : OnFiles (crash_holds D P).
Proof.
  intros w w' [= Ed Ei Es] (H1 & H2 & Hw). split_and!; [by rewrite Ei..|]. intros db log Hdb Hlog.
  apply Hw; unfold found in *; [by rewrite <- Ei, <- Es|by rewrite <- Ei, <- Es].
Qed.

(** The contents of both files, and what is on the disk of them. *)
Record on_disk (D : desc) (es : list Z) (bs : list byte) (es0 : list Z) (bs0 : list byte) (w : world) : Prop := mk_on_disk {
  od_db : os_inodes (w_os w) !! d_dbino D = Some bs;
  od_log : os_inodes (w_os w) !! d_logino D = Some (log_image es);
  od_sdb : syncs D -> durable w !! d_dbino D = Some bs0;
  od_slog : syncs D -> durable w !! d_logino D = Some (log_image es0)
}.

#[export] Instance on_disk_on_files D es bs es0 bs0 : OnFiles (on_disk D es bs es0 bs0).
Proof. intros w w' [= Ed Ei Es] []. constructor; by rewrite ?Ei, ?Es. Qed.

Lemma on_disk_crash D P es bs es0 bs0 w :
  on_disk D es bs es0 bs0 w ->
  (forall e b, e = es \/ syncs D /\ e = es0 -> b = bs \/ syncs D /\ b = bs0 -> exists s, P s /\ e = sizes s /\ stored b s) ->
  crash_holds D P w.
Proof.
  intros Ho H. split; [by eexists; apply Ho|]. split; [by eexists; apply Ho|]. intros db log Hdb Hlog.
  assert (db = bs \/ syncs D /\ db = bs0) as Hd.
  { destruct Hdb as [E|[Hs E]]; [rewrite (od_db _ _ _ _ _ _ Ho) in E|rewrite (od_sdb _ _ _ _ _ _ Ho Hs) in E];
    injection E as <-; tauto. }
  assert (exists e, log = log_image e /\ (e = es \/ syncs D /\ e = es0)) as (e & -> & He).
  { destruct Hlog as [E|[Hs E]]; [rewrite (od_log _ _ _ _ _ _ Ho) in E; exists es|
      rewrite (od_slog _ _ _ _ _ _ Ho Hs) in E; exists es0]; injection E as <-; tauto. }
  destruct (H e db He Hd) as (s & HP & -> & Hh). by exists s.
Qed.

Lemma db_on_disk c D es bs r T w es0 bs0 :
  db_state c D es bs r T w ->
  (syncs D -> durable w !! d_dbino D = Some bs0 /\ durable w !! d_logino D = Some (log_image es0)) ->
  on_disk D es bs es0 bs0 w.
Proof. intros Hdb Hd. constructor; try apply Hdb; by apply Hd. Qed.

(** Both files are as they were last synced. *)
Definition synced (D : desc) (w : world) : Prop :=
  syncs D -> durable w !! d_dbino D = os_inodes (w_os w) !! d_dbino D /\
    durable w !! d_logino D = os_inodes (w_os w) !! d_logino D.

(** ** Bytes behind what is in use *)

(** A new entry makes room for a section without records. *)
Lemma holds_new_section secs bs : holds (sizes secs) bs secs -> holds (sizes (secs ++ [[]])) bs (secs ++ [[]]).
Proof.
  intros Hh. assert (sizes (secs ++ [[]]) = sizes secs ++ [0]) as -> by (unfold sizes; by rewrite fmap_app).
  assert (forall j, default 0 ((sizes secs ++ [0]) !! j) = default 0 (sizes secs !! j)) as Hdef.
  { intros j. destruct (decide (j < length (sizes secs))%nat).
    - by rewrite lookup_app_l.
    - rewrite lookup_app_r by lia. rewrite (lookup_ge_None_2 (sizes secs)) by lia. by destruct (j - _)%nat as [|[]]. }
  constructor.
  - rewrite !length_app. by rewrite (ho_length _ _ _ Hh).
  - intros i e Ei He. pose proof (Hdef i) as Hd. rewrite Ei in Hd. simpl in Hd.
    destruct (sizes secs !! i) as [x|] eqn:Ex; simpl in Hd; [|done]. subst. by eapply ho_in.
  - intros i rs Ei. unfold section. rewrite Hdef. destruct (decide (i < length secs)%nat).
    + rewrite lookup_app_l in Ei by done. by apply (ho_section _ _ _ Hh).
    + rewrite lookup_app_r in Ei by lia. rewrite (lookup_ge_None_2 (sizes secs)) by (rewrite length_sizes; lia).
      destruct (i - length secs)%nat as [|[]]; [|done|done]. injection Ei as <-. done.
Qed.

(** Writing behind the used part of section [i] does not change a section. *)
Lemma holds_write_free secs bs i d :
  holds (sizes secs) bs secs -> Forall entry_ok (sizes secs) -> zlen secs <= 65536 -> Z.of_nat i < 65536 ->
  default 0 (sizes secs !! i) + zlen d <= LOGDB_SECTION_SIZE ->
  holds (sizes secs) (file_write (logdb_connection_offset (Z.of_nat i) + default 0 (sizes secs !! i)) d bs) secs.
Proof.
  intros Hh Hok Hlen Hi Hfit. unfold LOGDB_SECTION_SIZE in *. set (e := default 0 (sizes secs !! i)) in *.
  destruct (decide (d = [])) as [->|Hd]; [by rewrite file_write_nil|].
  assert (forall j x, sizes secs !! j = Some x -> 0 <= x < 65536 /\ Z.of_nat j < 65536) as Hx.
  { intros j x E. split; [exact (Forall_lookup_1 _ _ _ _ Hok E)|].
    apply lookup_lt_Some in E. rewrite length_sizes in E. lia. }
  assert (0 <= e) as He by (unfold e; destruct (sizes secs !! i) as [x|] eqn:E; [by apply Hx in E as [[] _]|done]).
  assert (forall j, Z.of_nat j < 65536 -> logdb_connection_offset (Z.of_nat j) = 6 + Z.of_nat j * 65536) as Hoff
    by (intros; apply connection_offset_small; lia).
  set (o := logdb_connection_offset (Z.of_nat i) + e). assert (0 <= o) as Ho by (unfold o; rewrite Hoff; lia).
  pose proof (length_file_write o d bs Ho Hd) as Hlw.
  constructor; [apply Hh| |].
  - intros j x Ej Hne. pose proof (ho_in _ _ _ Hh j x Ej Hne). lia.
  - intros j rs Ej. rewrite <- (ho_section _ _ _ Hh j rs Ej). unfold section.
    destruct (sizes secs !! j) as [x|] eqn:E; simpl; [|by rewrite !file_read_zero].
    destruct (decide (x = 0)) as [->|Hne]; [by rewrite !file_read_zero|].
    pose proof (ho_in _ _ _ Hh j x E Hne) as Hin. destruct (Hx j x E) as [Hxr Hj].
    unfold o. destruct (decide (i = j)) as [<-|].
    + assert (e = x) as -> by (unfold e; by rewrite E). apply file_read_write_before; rewrite ?Hoff in * by lia; lia.
    + rewrite !Hoff in * by lia. destruct (Nat.lt_ge_cases j i); [apply file_read_write_before|apply file_read_write_after]; lia.
Qed.

(** ** The steps that write *)

Section writes.
Context `{Build} (th : thread) (c : loc) (D : desc).

Lemma atomic_pwrite fd data off w o :
  quiet w -> open_fd fd o w -> 0 <= off -> atomic th (logdb_io_pwrite fd data off) w.
Proof.
  intros Hq Ho Hoff. unfold logdb_io_pwrite. destruct data as [|b data]; [by apply atomic_silent|].
  cbn [length io_pwrite_loop]. destruct (Z.ltb_spec 0 (Z.of_nat (S (length data)))); [|lia].
  apply atomic_after; [apply atomic_prim|]. intros n w'. rewrite run_pwrite. unfold do_pwrite.
  rewrite (with_fd_quiet _ Hq _ _ _ o) by apply Ho. rewrite (proj2 (Z.ltb_ge off 0)) by done. intros [= <- _].
  unfold xfer. rewrite take_ge by (cbn [length]; lia). cbn [length].
  rewrite (proj2 (Z.ltb_lt _ _)) by lia. rewrite Z.sub_diag. by destruct (length data).
Qed.

Lemma atomic_lease_write es bs r T w i off len t p n d :
  db_state c D es bs r T w -> mem_bytes (w_heap w) p n = Some d -> 0 <= i < 65536 -> 0 <= off ->
  atomic th (logdb_lease_write (mk_lease (Some c) i off len t) p n) w.
Proof.
  intros Hdb Hd Hi Hoff. unfold logdb_lease_write. cbn [lease_len lease_index lease_offset lease_connection].
  destruct (DEBUG && _); [by apply atomic_silent|]. destruct (len <? n); [by apply atomic_silent|].
  apply atomic_before; [silent_solve|]. intros cn w1. rewrite run_load, (do_load_peek _ _ _ _ (ds_conn _ _ _ _ _ _ _ Hdb)).
  intros [= <- <-]. apply atomic_before; [silent_solve|]. intros d' w1. rewrite (load_mem_run _ _ _ _ _ Hd).
  intros [= <- <-]. destruct (ds_dbfd _ _ _ _ _ _ _ Hdb) as (o & Eo & Hino & Hpos & Happ).
  apply atomic_after; [|intros; silent_solve]. apply (atomic_pwrite _ _ _ _ o); [apply Hdb| |].
  - split_and!; [done|by rewrite Hino, (ds_db _ _ _ _ _ _ _ Hdb)|done].
  - rewrite connection_offset_small; lia.
Qed.

Lemma atomic_write_entry es bs r T w len i :
  db_state c D es bs r T w -> 0 <= i -> atomic th (logdb_log_write_entry (Some (d_log D)) len i) w.
Proof.
  intros Hdb Hi. destruct (db_log_ok _ _ _ _ _ _ _ Hdb) as (l & o & Hl & _).
  unfold logdb_log_write_entry. rewrite bool_decide_eq_false_2, andb_false_r by done.
  apply atomic_before; [silent_solve|]. intros l' w1. rewrite run_load, (do_load_peek _ _ l) by apply Hl.
  intros [= <- <-]. apply atomic_after; [|intros; silent_solve].
  apply (atomic_pwrite _ _ _ _ o); [apply Hdb|apply Hl|]. unfold logdb_log_offset, sizeof_log_header, sizeof_log_entry. lia.
Qed.

(** Syncing one of the files. *)
Lemma fsync_durable w fd o a w' :
  quiet w -> get_fd fd w = Some o -> run th (sys_fsync fd) w = Done a w' ->
  durable w' = <[fd_ino o := get_file (fd_ino o) w]> (durable w).
Proof. intros Hq Ho. rewrite run_fsync, (do_fsync_quiet _ Hq _ o) by done. by intros [= _ <-]. Qed.

(** The data goes out in pieces: an invariant that holds with any part of it
    written holds throughout. *)
Lemma write_buf_loop_always I `{OnFiles I} n es bs r T w i off len l d :
  db_state c D es bs r T w -> buffer_bytes n (w_heap w) (Some l) = Some d ->
  0 <= i < 65536 -> 0 <= off -> zlen d <= len < 2 ^ 32 -> off + zlen d < 2 ^ 62 ->
  (forall d1 d2 w', d = d1 ++ d2 -> db_state c D es (file_write (logdb_connection_offset i + off) d1 bs) r T w' ->
    durable w' = durable w -> I w') ->
  always th I (txn_write_buf_loop n (mk_lease (Some c) i off len LOGDB_LOG_LOCK_WRITE) (Some l)) w.
Proof.
  revert bs w off len l d. induction n as [|n IH]; intros bs w off len l d Hdb Hb Hi Hoff Hlen Hsz HI; [done|].
  assert (I w) as HIw by (apply (HI [] d); [done|by rewrite file_write_nil|done]).
  cbn [buffer_bytes] in Hb. destruct (peek logdb_buffer_t (w_heap w) l) as [b|] eqn:Eb; [|done].
  cbn [mbind option_bind] in Hb. apply bind_Some in Hb as (d1 & E1 & (d2 & E2 & [= <-])%bind_Some).
  rewrite length_app in Hlen, Hsz. rewrite Nat2Z.inj_add in *. cbn [txn_write_buf_loop].
  eapply always_silent; [done|by rewrite run_load, (do_load_peek _ _ _ _ Eb)|silent_solve|done|intros _].
  assert (exists w1, run th (match buf_orig b with
      | Some _ => txn_write_buf_loop n (mk_lease (Some c) i off len LOGDB_LOG_LOCK_WRITE) (buf_orig b)
      | None => logdb_lease_write (mk_lease (Some c) i off len LOGDB_LOG_LOCK_WRITE) (buf_data b) (buf_len b)
      end) w = Done (0, mk_lease (Some c) i (off + zlen d1) (len - zlen d1) LOGDB_LOG_LOCK_WRITE) w1 /\
    db_state c D es (file_write (logdb_connection_offset i + off) d1 bs) r T w1 /\ w_heap w1 = w_heap w /\
    durable w1 = durable w /\ always th I (match buf_orig b with
      | Some _ => txn_write_buf_loop n (mk_lease (Some c) i off len LOGDB_LOG_LOCK_WRITE) (buf_orig b)
      | None => logdb_lease_write (mk_lease (Some c) i off len LOGDB_LOG_LOCK_WRITE) (buf_data b) (buf_len b)
      end) w) as (w1 & Erun & Hdb1 & Hh1 & Hs1 & Ha).
  { destruct (buf_orig b) as [o|].
    - destruct (write_buf_loop_run th c D n es bs r T w i off len o d1 Hdb E1) as (w1 & E & ? & ? & ?); [lia..|].
      exists w1. split_and!; [done..| |].
      + exact (keeps_run _ _ _ _ _ _ (durable_write_buf_loop _ _ _) E).
      + apply (IH bs w off len o d1); [done..|lia|lia|]. intros a a' w' -> ??. apply (HI a (a' ++ d2)); [by rewrite app_assoc|done..].
    - pose proof (mem_bytes_length _ _ _ _ E1) as Hn.
      destruct (lease_write_run th c D es bs r T w i off len LOGDB_LOG_LOCK_WRITE (buf_data b) (buf_len b) d1 Hdb E1)
        as (w1 & E & ? & ? & ?); [lia..|].
      pose proof (keeps_run _ _ _ _ _ _ (durable_lease_write _ _ _) E) as Hs. exists w1. rewrite <- Hn in E at 2 3.
      split_and!; [done..|]. eapply atomic_always; [done|done|by eapply atomic_lease_write|done|by apply (HI d1 d2)]. }
  eapply always_run; [done|done|]. cbn beta iota. change (negb (0 =? 0)) with false. cbn iota.
  destruct (buf_next b) as [l'|]; [|apply always_ret; by apply (HI d1 d2)].
  rewrite <- Hh1 in E2. apply (IH _ w1 (off + zlen d1) (len - zlen d1) l' d2 Hdb1 E2); [done|lia..|].
  intros a a' w' -> Hdb' Hs'. apply (HI (d1 ++ a) a'); [by rewrite app_assoc| |congruence].
  rewrite Z.add_assoc, file_write_app in Hdb'; [done|]. rewrite connection_offset_small; lia.
Qed.

End writes.

(** ** A put, step by step *)

Section put_steps.
Context `{Build} (th : thread) (c : loc) (D : desc).

(** Choosing and locking a section: the log may grow by an entry. *)
Lemma acquire_write_always I `{OnFiles I} es bs r w lease size i e es' :
  db_state c D es bs r table_idle w -> 0 <= size <= LOGDB_SECTION_SIZE -> zlen es < 65536 ->
  place es size = (i, e, es') -> I w ->
  (forall w', db_state c D es' bs (r + 1) table_idle w' -> durable w' = durable w -> I w') ->
  always th I (logdb_lease_acquire_write lease (Some c) size) w.
Proof.
  intros Hdb Hs Hlen Hpl Hw HI. pose proof (place_spec _ _ _ _ _ Hs Hpl) as (Ei & Hroom & _).
  unfold logdb_lease_acquire_write. rewrite (proj2 (Z.ltb_ge _ _)) by lia.
  destruct (prelude_run c D es bs table_idle th r lease w Hdb) as (w1 & E1 & Hdb1 & _).
  pose proof (keeps_run _ _ _ _ _ _ (silent_durable _ (silent_prelude _ _)) E1) as Hs1.
  eapply always_silent; [done|exact E1|silent_solve|done|]. intros Hw1. change (negb (0 =? 0)) with false. cbn iota.
  cbn [acquire_walk]. destruct (db_log_ok _ _ _ _ _ _ _ Hdb1) as (l & o & Hl & Hfd & _).
  eapply always_silent; [done|by rewrite run_load, (do_load_peek _ _ _ _ (ds_conn _ _ _ _ _ _ _ Hdb1))|silent_solve|done|intros _].
  cbn [conn_log the_conn].
  eapply always_silent; [done|by rewrite run_load, (do_load_peek _ _ l) by apply Hl|silent_solve|done|intros _]. rewrite Hfd.
  destruct (choose_section_run th c D es bs (r + 1) w1 size i e es' Hdb1 Hlen Hpl) as (w2 & vis & E2 & Hdb2 & _).
  pose proof (keeps_run _ _ _ _ _ _ (durable_choose_section _ _ _ _) E2) as Hs2.
  assert (I w2) as Hw2 by (apply HI; [done|congruence]).
  eapply always_run; [exact E2|eapply atomic_always; [done|exact E2|apply atomic_choose_section|done..]|]. cbn iota.
  assert (0 <= Z.of_nat i < 2 ^ 31) as Hi.
  { apply lookup_lt_Some in Ei. pose proof (ds_count _ _ _ _ _ _ _ Hdb2). lia. }
  destruct (lock_state_run th c D es' bs (r + 1) w2 (Z.of_nat i) Hdb2 Hi) as (w3 & E3 & Hdb3 & _).
  eapply always_silent; [done|exact E3|silent_solve|done|intros Hw3]. change (negb (0 =? 0)) with false. cbn iota.
  eapply always_silent; [done|
    apply (entry_space_run th c D es' bs (r + 1) _ w3 Hdb3 (Z.of_nat i) size e ltac:(lia) ltac:(by rewrite Nat2Z.id))
    |silent_solve|done|intros _].
  rewrite (proj2 (Z.leb_le _ _)) by lia. by apply always_ret.
Qed.

(** [fsync], unless the connection does not sync. *)
Lemma sync_db_run es bs r T w es0 bs0 :
  db_state c D es bs r T w -> on_disk D es bs es0 bs0 w ->
  exists w', run th (if is_durable (d_flags D) then sys_fsync (d_fd D) else Ret 0) w = Done 0 w' /\
    db_state c D es bs r T w' /\ on_disk D es bs es0 bs w' /\ w_heap w' = w_heap w.
Proof.
  intros Hdb Ho. destruct (is_durable (d_flags D)) eqn:Ed.
  - destruct (ds_dbfd _ _ _ _ _ _ _ Hdb) as (o & Eo & Hino & _). pose proof (ds_ne _ _ _ _ _ _ _ Hdb) as [Hne _].
    destruct (fsync_run th c D es bs r T w _ o Hdb Eo) as (w' & E & Hdb' & _ & Hh). exists w'. split_and!; [done..| |done].
    pose proof (fsync_durable th w _ o _ _ ltac:(apply Hdb) Eo E) as Hs. rewrite Hino in Hs.
    eapply db_on_disk; [done|]. intros Hsy. rewrite Hs, lookup_insert_eq, lookup_insert_ne by done.
    split; [|by apply Ho]. unfold get_file. by rewrite (od_db _ _ _ _ _ _ Ho).
  - exists w. split_and!; [done..| |done]. eapply db_on_disk; [done|]. intros Hsy. unfold syncs in Hsy. congruence.
Qed.

Lemma sync_log_run es bs r T w es0 bs0 :
  db_state c D es bs r T w -> on_disk D es bs es0 bs0 w ->
  exists w', run th (if is_durable (d_flags D) then
      let! l := load logdb_log_t (Some (d_log D)) in do! sys_fsync (log_fd l) in Ret tt else Ret tt) w = Done tt w' /\
    db_state c D es bs r T w' /\ on_disk D es bs es bs0 w'.
Proof.
  intros Hdb Ho. destruct (is_durable (d_flags D)) eqn:Ed.
  - destruct (ds_logfd _ _ _ _ _ _ _ Hdb) as (o & Eo & Hino & _). pose proof (ds_ne _ _ _ _ _ _ _ Hdb) as [Hne _].
    destruct (ds_log _ _ _ _ _ _ _ Hdb) as (l & El & Hfd & _).
    destruct (fsync_run th c D es bs r T w _ o Hdb Eo) as (w' & E & Hdb' & _ & Hh). exists w'.
    split_and!; [by rewrite run_bind, run_load, (do_load_peek _ _ _ _ El), run_bind, Hfd, E|done|].
    pose proof (fsync_durable th w _ o _ _ ltac:(apply Hdb) Eo E) as Hs. rewrite Hino in Hs.
    eapply db_on_disk; [done|]. intros Hsy. rewrite Hs, lookup_insert_eq, lookup_insert_ne by done.
    split; [by apply Ho|]. unfold get_file. by rewrite (od_log _ _ _ _ _ _ Ho).
  - exists w. split_and!; [done..|]. eapply db_on_disk; [done|]. intros Hsy. unfold syncs in Hsy. congruence.
Qed.

End put_steps.

(** The commit: [P] holds with any part of the data written, and with all of
    it under the new entry. *)
Section commit.
Context `{Build} (th : thread) (c : loc) (D : desc) (P : sections -> Prop).
Context (es es' : list Z) (bs : list byte) (r : Z) (i : nat) (e : Z) (d : list byte).

#[local] Abbreviation I := (crash_holds D P).
#[local] Abbreviation es2 := (<[i := u16 (e + zlen d)]> es').

Definition part_written (d1 : list byte) : list byte := file_write (logdb_connection_offset (Z.of_nat i) + e) d1 bs.
Definition acceptable (es : list Z) (b : list byte) : Prop := exists s, P s /\ es = sizes s /\ stored b s.

Context (Hpart : forall d1 d2, d = d1 ++ d2 -> acceptable es (part_written d1) /\ acceptable es' (part_written d1)).
Context (Hall : acceptable es2 (part_written d)).
Context (Ei : es' !! i = Some e) (Hlen : zlen d <= 65536).

Lemma part_none : part_written [] = bs.
Proof. apply file_write_nil. Qed.

Lemma crash_data d1 d2 b0 w :
  d = d1 ++ d2 -> b0 = bs \/ b0 = part_written d1 -> on_disk D es' (part_written d1) es b0 w -> I w.
Proof.
  intros Hsp Hb0 Ho. eapply on_disk_crash; [exact Ho|].
  destruct (Hpart [] d eq_refl) as [H0 H0']. rewrite part_none in H0, H0'. destruct (Hpart _ _ Hsp).
  by intros x b [->|[_ ->]] [->|[_ ->]]; destruct Hb0 as [->| ->].
Qed.

Lemma crash_entry e0 w : e0 = es \/ e0 = es2 -> on_disk D es2 (part_written d) e0 (part_written d) w -> I w.
Proof.
  intros He0 Ho. eapply on_disk_crash; [exact Ho|]. destruct (Hpart d []) as [? _]; [by rewrite app_nil_r|].
  by intros x b [->|[_ ->]] [->|[_ ->]]; destruct He0 as [->| ->].
Qed.

Lemma commit_data_safely T w l len :
  db_state c D es' bs r T w -> on_disk D es' bs es bs w -> buffer_is (w_heap w) (Some l) d -> zlen d <= len < 2 ^ 32 ->
  exists w', safely th I (logdb_txn_write_buf (mk_lease (Some c) (Z.of_nat i) e len LOGDB_LOG_LOCK_WRITE) (Some l)) w
      (0, mk_lease (Some c) (Z.of_nat i) (e + zlen d) (len - zlen d) LOGDB_LOG_LOCK_WRITE) w' /\
    db_state c D es' (part_written d) r T w' /\ on_disk D es' (part_written d) es bs w'.
Proof.
  intros Hdb Ho Hd Hl. pose proof (db_entry _ _ _ _ _ _ _ Hdb _ _ Ei) as He. pose proof (lookup_lt_Some _ _ _ Ei) as Hil.
  pose proof (ds_count _ _ _ _ _ _ _ Hdb) as Hc.
  destruct (write_buf_run th c D es' bs r T w (Z.of_nat i) e len l d Hdb Hd) as (w1 & E1 & Hdb1 & _ & _); [lia..|].
  assert (durable w1 = durable w) as Hs1.
  { eapply keeps_run; [|exact E1]. unfold logdb_txn_write_buf. pose proof durable_write_buf_loop. silent_solve. }
  exists w1. split; [|split; [done|eapply db_on_disk; [done|]; rewrite Hs1; split; by apply Ho]]. split; [done|].
  assert (forall d1 d2 w', d = d1 ++ d2 -> db_state c D es' (part_written d1) r T w' -> durable w' = durable w -> I w') as HI.
  { intros d1 d2 w' Hsp Hdb' Hs'. eapply (crash_data d1 d2 bs); [done|by left|].
    eapply db_on_disk; [done|]. rewrite Hs'. split; by apply Ho. }
  unfold logdb_txn_write_buf. eapply always_silent; [exact _|by rewrite run_heap_size|silent_solve| |intros _].
  { apply (HI [] d); [done|by rewrite part_none|done]. }
  apply buffer_is_size in Hd. apply (write_buf_loop_always th c D I (S (size (w_heap w))) es' bs r T w _ _ _ l d Hdb);
    [apply (buffer_bytes_mono (size (w_heap w))); [lia|done]|lia..|done].
Qed.

Lemma commit_entry_safely w :
  db_state c D es' (part_written d) r (table_held (Z.of_nat i)) w ->
  on_disk D es' (part_written d) es (part_written d) w ->
  exists w', safely th I (logdb_log_write_entry (Some (d_log D)) (u16 (e + zlen d)) (Z.of_nat i)) w 0 w' /\
    db_state c D es2 (part_written d) r (table_held (Z.of_nat i)) w' /\
    on_disk D es2 (part_written d) es (part_written d) w'.
Proof.
  intros Hdb Ho. pose proof (lookup_lt_Some _ _ _ Ei) as Hil.
  destruct (write_entry_state_run th c D _ _ _ _ w i (u16 (e + zlen d)) Hdb Hil) as (w3 & E3 & Hdb3 & _).
  rewrite (u16_small (u16 _)) in Hdb3 by apply u16_range.
  assert (on_disk D es2 (part_written d) es (part_written d) w3) as Ho3.
  { eapply db_on_disk; [done|]. rewrite (keeps_run _ _ _ _ _ _ (durable_write_entry _ _ _) E3). split; by apply Ho. }
  exists w3. split; [|done]. eapply safely_atomic; [exact _|done|by eapply atomic_write_entry; [|lia]| |].
  - eapply (crash_data d []); [by rewrite app_nil_r|by right|done].
  - eapply crash_entry; [by left|done].
Qed.

Lemma commit_write_safely w t tx l :
  db_state c D es' bs r (table_held (Z.of_nat i)) w -> on_disk D es' bs es bs w ->
  peek logdb_txn_t (w_heap w) t = Some tx -> txn_buf tx = Some l -> buffer_is (w_heap w) (Some l) d ->
  exists w', safely th I (commit_write (Some c) (Some t)
      (mk_lease (Some c) (Z.of_nat i) e (zlen d) LOGDB_LOG_LOCK_WRITE)) w 0 w' /\
    on_disk D es2 (part_written d) es2 (part_written d) w'.
Proof.
  intros Hdb Ho Et Etb Hd. unfold commit_write.
  assert (I w) as Hw by (eapply (crash_data [] d bs); [done|by left|by rewrite part_none]).
  destruct (commit_data_safely _ w l (zlen d) Hdb Ho Hd) as (w1 & S1 & Hdb1 & Ho1); [lia|].
  assert (I w1) as Hw1 by (eapply (crash_data d []); [by rewrite app_nil_r|by left|done]).
  destruct (sync_db_run th c D _ _ _ _ _ _ _ Hdb1 Ho1) as (w2 & E2 & Hdb2 & Ho2 & Hh2).
  assert (I w2) as Hw2 by (eapply (crash_data d []); [by rewrite app_nil_r|by right|done]).
  destruct (commit_entry_safely w2 Hdb2 Ho2) as (w3 & S3 & Hdb3 & Ho3).
  assert (I w3) as Hw3 by (eapply crash_entry; [by left|done]).
  destruct (sync_log_run th c D _ _ _ _ _ _ _ Hdb3 Ho3) as (w4 & E4 & Hdb4 & Ho4).
  assert (I w4) as Hw4 by (eapply crash_entry; [by right|done]).
  pose proof (ds_count _ _ _ _ _ _ _ Hdb) as Hc. pose proof (lookup_lt_Some _ _ _ Ei) as Hil.
  destruct (release_write_run th c D _ _ r w4 (Z.of_nat i) (e + zlen d) (zlen d - zlen d) Hdb4) as (w5 & E5 & Hdb5 & _); [lia|].
  exists w5. split.
  2: { eapply db_on_disk; [done|]. rewrite (keeps_run _ _ _ _ _ _ (silent_durable _ (silent_lease_release _)) E5). split; by apply Ho4. }
  eapply safely_bind; [apply safely_silent; [exact _|by rewrite run_load, (do_load_peek _ _ _ _ Et)|silent_solve|done]|].
  rewrite Etb. eapply safely_bind; [exact S1|]. cbn beta iota. change (negb (0 =? 0)) with false. cbn iota.
  eapply safely_bind; [apply safely_silent; [exact _|by rewrite run_load, (do_load_peek _ _ _ _ (ds_conn _ _ _ _ _ _ _ Hdb1))|silent_solve|done]|].
  cbn [conn_fd conn_flags conn_log the_conn].
  eapply safely_bind; [eapply safely_atomic; [exact _|exact E2| |done..]|].
  { destruct (is_durable _); [apply atomic_prim|by apply atomic_silent]. }
  change (0 =? -1) with false. cbn iota. cbn [lease_offset lease_index].
  eapply safely_bind; [exact S3|]. change (negb (0 =? 0)) with false. cbn iota.
  eapply safely_bind; [eapply safely_atomic; [exact _|exact E4| |done..]|].
  { destruct (is_durable _); [|by apply atomic_silent]. apply atomic_before; [silent_solve|]. intros lg v _.
    apply atomic_after; [apply atomic_prim|]. intros. silent_solve. }
  eapply safely_bind; [apply safely_silent; [exact _|exact E5|silent_solve|done]|].
  split; [done|]. apply always_ret. eapply on_files; [|exact Hw4]. by eapply keeps_run; [|exact E5]; silent_solve.
Qed.

(** The whole commit of an outermost transaction. *)
Lemma txn_commit_safely w t l a w' :
  db_state c D es bs (r - 1) table_idle w -> on_disk D es bs es bs w -> place es (zlen d) = (i, e, es') ->
  0 < zlen d <= LOGDB_SECTION_SIZE -> zlen es < 65536 ->
  peek logdb_txn_t (w_heap w) t = Some (mk_txn None (Some l)) -> buffer_is (w_heap w) (Some l) d ->
  run th (logdb_txn_commit (Some c) (Some t)) w = Done a w' ->
  always th I (logdb_txn_commit (Some c) (Some t)) w /\ on_disk D es2 (part_written d) es2 (part_written d) w'.
Proof.
  intros Hdb Ho Hpl Hd Hes Et Hb E. unfold LOGDB_SECTION_SIZE in *.
  assert (forall es1 w1 T r1, es1 = es \/ es1 = es' -> db_state c D es1 bs r1 T w1 -> durable w1 = durable w ->
    on_disk D es1 bs es bs w1) as Hod.
  { intros es1 w1 T r1 _ Hdb1 Hs1. eapply db_on_disk; [done|]. rewrite Hs1. split; by apply Ho. }
  assert (I w) as Hw.
  { eapply on_disk_crash; [exact Ho|]. destruct (Hpart [] d eq_refl) as [H0 _]. rewrite part_none in H0.
    by intros x b [->|[_ ->]] [->|[_ ->]]. }
  destruct (acquire_write_run th c D es bs (r - 1) w no_lease (zlen d) i e es' Hdb) as (w2 & E2 & Hdb2 & Hr2);
    [unfold LOGDB_SECTION_SIZE; lia|done|done|].
  assert (on_disk D es' bs es bs w2) as Ho2.
  { eapply Hod; [by right|done|]. exact (keeps_run _ _ _ _ _ _ (durable_acquire_write _ _ _) E2). }
  assert (always th I (logdb_lease_acquire_write no_lease (Some c) (zlen d)) w) as A2.
  { eapply (acquire_write_always th c D I); try done; [unfold LOGDB_SECTION_SIZE; lia|]. intros w1 Hdb1 Hs1.
    eapply (crash_data [] d bs); [done|by left|]. rewrite part_none. eapply Hod; [by right|done|done]. }
  replace (r - 1 + 1) with r in Hdb2 by lia.
  destruct (commit_write_safely w2 t (mk_txn None (Some l)) l) as (w3 & [E3 A3] & Ho3); [done|done| |done| |].
  { eapply user_equiv_peek; [apply _|apply (sr_heap _ _ _ Hr2)|done]. }
  { eapply buffer_is_le; [apply user_equiv_le, (sr_heap _ _ _ Hr2)|done]. }
  unfold logdb_txn_commit in *. rewrite run_bind, run_load, (do_load_peek _ _ _ _ Et) in E. cbn [txn_buf txn_outer] in E.
  rewrite run_bind, (buffer_length_run _ _ _ _ Hb), u32_small in E by lia.
  rewrite (proj2 (Z.eqb_neq _ _)) in E by lia.
  rewrite run_bind, E2 in E. change (negb (0 =? 0)) with false in E. cbn iota in E.
  split.
  - eapply always_silent; [exact _|by rewrite run_load, (do_load_peek _ _ _ _ Et)|silent_solve|done|intros _]. cbn [txn_buf txn_outer].
    eapply always_silent; [exact _|exact (buffer_length_run _ _ _ _ Hb)|silent_solve|done|intros _].
    rewrite u32_small, (proj2 (Z.eqb_neq _ _)) by lia.
    eapply always_run; [exact E2|exact A2|]. change (negb (0 =? 0)) with false. cbn iota.
    apply always_rest; [exact _|exact A3|]. intros. silent_solve.
  - eapply on_files; [|exact Ho3]. eapply rest_files; [exact E3| |exact E]. silent_solve.
Qed.

End commit.

(** ** The whole put *)

Section put.
Context `{Build} (th : thread) (c : loc) (D : desc).

(** Before, after, and with a new empty section. *)
Definition put_outcomes (secs : sections) (r : record) (s : sections) : Prop :=
  s = secs \/ s = secs ++ [[]] \/ s = spec_put secs r.

Lemma put_acceptable secs bs k v i e es' :
  stored bs secs -> fits secs (k, v) = true ->
  place (sizes secs) (zlen (record_bytes k v)) = (i, e, es') ->
  let ok := acceptable (put_outcomes secs (k, v)) in
  (forall d1 d2, record_bytes k v = d1 ++ d2 ->
    ok (sizes secs) (part_written bs i e d1) /\ ok es' (part_written bs i e d1)) /\
  ok (<[i := u16 (e + zlen (record_bytes k v))]> es') (part_written bs i e (record_bytes k v)).
Proof.
  intros [Hhd Hh Hok Hsl] Hfit Hpl ok. pose proof (length_record_bytes k v) as Hn.
  destruct (put_sections secs bs k v i e es' Hh Hok Hfit Hpl) as (Ei & He & Hend & Hc & Hes & Es & Hh2).
  apply andb_prop in Hfit as [Hcount _]. zbool. unfold LOGDB_SECTION_SIZE in *.
  pose proof (lookup_lt_Some _ _ _ Ei) as Hi.
  assert (forall d, take 6 (part_written bs i e d) = header_bytes) as Hw6.
  { intros d. unfold part_written. rewrite <- Hhd. pose proof (connection_offset_small (Z.of_nat i)).
    apply (f_equal length) in Hhd. rewrite length_take in Hhd. change (length header_bytes) with 6%nat in Hhd.
    apply file_write_take; lia. }
  split.
  - intros d1 d2 Hsp. rewrite Hsp, length_app in *. unfold part_written.
    assert (default 0 (sizes secs !! i) = e) as Ed.
    { destruct Hes as [->|[-> ->]]; [by rewrite Ei|]. rewrite lookup_ge_None_2 by done.
      rewrite lookup_app_r, Nat.sub_diag in Ei by done. by injection Ei. }
    assert (ok (sizes secs) (part_written bs i e d1)) as Hold.
    { exists secs. split; [by left|]. split; [done|]. constructor; [done| |done|done]. unfold part_written. rewrite <- Ed.
      apply holds_write_free; try done; unfold LOGDB_SECTION_SIZE; lia. }
    split; [done|]. destruct Hes as [->|[-> Hil]]; [done|].
    assert (sizes secs ++ [0] = sizes (secs ++ [[]])) as Es' by (unfold sizes; by rewrite fmap_app).
    exists (secs ++ [[]]). split; [by right; left|]. split; [done|].
    assert (default 0 (sizes (secs ++ [[]]) !! i) = e) as Ed' by by rewrite <- Es', Ei.
    assert (Forall entry_ok (sizes (secs ++ [[]]))) as Hok'
      by (rewrite <- Es'; apply Forall_app; split; [done|by repeat constructor]).
    constructor; [apply Hw6| |done|rewrite length_app; simpl; lia]. unfold part_written.
    rewrite <- Ed'. apply holds_write_free; [by apply holds_new_section|done|rewrite length_app; simpl; lia|lia|].
    rewrite Ed'. unfold LOGDB_SECTION_SIZE. lia.
  - rewrite u16_small by lia. exists (spec_put secs (k, v)). split; [by right; right|]. split; [done|]. constructor; [done..| |].
    + rewrite <- Es. apply Forall_insert; [|unfold entry_ok; lia].
      destruct Hes as [->|[-> _]]; [done|]. apply Forall_app. split; [done|]. by repeat constructor.
    + rewrite <- length_sizes, <- Es, length_insert. lia.
Qed.

(** No step of the put leaves the files in another state than these; when it
    returns, the record is there. *)
Lemma put_safely secs r w kl vl k v :
  database c D secs r w -> take 6 (get_file (d_dbino D) w) = header_bytes -> synced D w -> current_txn th D w = None ->
  user_buffer (w_heap w) kl k -> user_buffer (w_heap w) vl v -> fits secs (k, v) = true ->
  exists w' es2 bs2, safely th (crash_holds D (put_outcomes secs (k, v))) (logdb_put (Some c) (Some kl) (Some vl)) w 0 w' /\
    on_disk D es2 bs2 es2 bs2 w' /\ es2 = sizes (spec_put secs (k, v)) /\ stored bs2 (spec_put secs (k, v)).
Proof.
  intros [(bs & Hdb & Hh)] Hhd Hsync Hcur Hkb Hvb Hfit. pose proof (length_record_bytes k v) as Hn.
  destruct (place (sizes secs) (zlen (record_bytes k v))) as [[i e] es'] eqn:Hpl.
  pose proof (ds_count _ _ _ _ _ _ _ Hdb) as Hsl. rewrite length_sizes in Hsl.
  unfold get_file in Hhd. rewrite (ds_db _ _ _ _ _ _ _ Hdb) in Hhd. cbn [from_option id] in Hhd.
  pose proof (mk_stored bs secs Hhd Hh (ds_entries _ _ _ _ _ _ _ Hdb) Hsl) as Hst.
  destruct (put_acceptable secs bs k v i e es' Hst Hfit Hpl) as [Hpart Hall].
  destruct (put_sections secs bs k v i e es' Hh (ds_entries _ _ _ _ _ _ _ Hdb) Hfit Hpl)
    as (Ei & He & Hend & Hc & _ & Es & Hh2). pose proof Hfit as Hfit0. apply andb_prop in Hfit0 as [Hcount _].
  zbool. unfold LOGDB_SECTION_SIZE in *.
  assert (stored (part_written bs i e (record_bytes k v)) (spec_put secs (k, v))) as Hst2.
  { destruct Hall as (s & HP & Es2 & Hs2). rewrite u16_small, Es in Es2 by lia. constructor; [apply Hs2|done|rewrite Es2; apply Hs2|].
    rewrite <- length_sizes, Es2, length_sizes. apply Hs2. }
  destruct Hkb as [Hk (bk & Ek & Hck & Hrk)], Hvb as [Hv (bv & Ev & Hcv & Hrv)].
  assert (zlen k + zlen v < 2 ^ 32 - 8) as Hkv by lia.
  pose proof (put_build_reaches th c D w (sizes secs) bs r table_idle kl vl k v bk bv Hdb Hk Hv Ek Ev Hck Hcv Hkv) as Hreach.
  destruct (put_database th c D secs r w kl vl k v) as (w' & E & _); [by constructor; exists bs|done| | |done|].
  { by split; [|exists bk]. }
  { by split; [|exists bv]. }
  assert (on_disk D (sizes secs) bs (sizes secs) bs w) as Ho.
  { eapply db_on_disk; [done|]. intros Hs. destruct (Hsync Hs) as [-> ->]. split; by apply Hdb. }
  rewrite (reaches_run _ _ _ _ _ Hreach) in E.
  set (a := w_next w) in *. set (w1 := put_world th D w kl vl k v bk bv) in *.
  assert (put_built w w1 (a + 2) (a + 1) a (a + 3) kl (a + 4) vl None (record_bytes k v)) as Hp
    by (rewrite <- Hcur; by eapply put_built_world).
  assert (db_state c D (sizes secs) bs r table_idle w1) as Hdb1 by (eapply put_built_state; [exact _|exact Hdb|exact Hp]).
  assert (on_disk D (sizes secs) bs (sizes secs) bs w1) as Ho1
    by (eapply on_files; [exact (reaches_files _ _ _ _ _ Hreach)|done]).
  unfold logdb_txn_commit_implicit in *. rewrite run_bind in E.
  destruct (run th (logdb_txn_commit (Some c) (Some (a + 2))) w1) as [res w2| | |] eqn:E2; [|done..].
  destruct (txn_commit_safely th c D (put_outcomes secs (k, v)) (sizes secs) es' bs (r + 1) i e (record_bytes k v) Hpart Hall
    Ei ltac:(lia) w1 (a + 2) (a + 1) res w2) as [A Hod]; [by replace (r + 1 - 1) with r by lia|done|done|unfold LOGDB_SECTION_SIZE; lia|
    rewrite length_sizes; lia|apply Hp|apply Hp|done|].
  rewrite u16_small, Es in Hod by lia.
  eexists w', _, _. split; [split|].
  - by rewrite (reaches_run _ _ _ _ _ Hreach), run_bind, E2.
  - eapply reaches_always; [exact _|exact Hreach|]. apply always_rest; [exact _|exact A|]. intros. silent_solve.
  - split; [|split; [reflexivity|exact Hst2]].
    eapply on_files; [|exact Hod]. eapply keeps_run; [|exact E]. silent_solve.
Qed.

End put.

(** The sample of TxnSpec.v, both files synced. *)
Definition crash_sample (k v : list byte) : world :=
  let w := put_sample k v 0 header_bytes [0] in
  set_os (set_os_durable {[ 1 := header_bytes; 2 := log_image [0] ]} (w_os w)) w.

Lemma crash_sample_database k v : database 2 (open_desc 0) [[]] 0 (crash_sample k v).
Proof.
  destruct (put_sample_database k v 0) as [(bs & Hdb & Hh)]. constructor. exists bs. split; [|done].
  destruct Hdb. by constructor.
Qed.

(** ** Properties *)

(** C7. [logdb_put] is atomic: the process may stop after any of its steps, and
    so may the machine when the connection syncs; the two files then hold the
    sections there were, maybe with a new empty one, or the sections with the
    record. Once it has returned they hold the record. *)
Theorem put_crash_atomic `{Build} th c D secs r w kl vl k v :
  database c D secs r w -> take 6 (get_file (d_dbino D) w) = header_bytes -> synced D w -> current_txn th D w = None ->
  user_buffer (w_heap w) kl k -> user_buffer (w_heap w) vl v -> fits secs (k, v) = true ->
  always th (crash_holds D (put_outcomes secs (k, v))) (logdb_put (Some c) (Some kl) (Some vl)) w /\
  exists w', run th (logdb_put (Some c) (Some kl) (Some vl)) w = Done 0 w' /\
    crash_holds D (eq (spec_put secs (k, v))) w' /\ synced D w'.
Proof.
  intros Hdb Hhd Hs Hcur Hk Hv Hfit.
  destruct (put_safely th c D secs r w kl vl k v Hdb Hhd Hs Hcur Hk Hv Hfit) as (w' & es2 & bs2 & [E A] & Ho & -> & Hh).
  split; [done|]. exists w'. split; [done|]. split.
  - eapply on_disk_crash; [exact Ho|]. intros e b He Hb. exists (spec_put secs (k, v)).
    assert (e = sizes (spec_put secs (k, v))) as -> by tauto. assert (b = bs2) as -> by tauto. done.
  - intros Hsy. rewrite (od_sdb _ _ _ _ _ _ Ho Hsy), (od_slog _ _ _ _ _ _ Ho Hsy). split; symmetry; apply Ho.
Qed.

Lemma put_crash_atomic_witness :
  let w := crash_sample [x61] [x62; x63] in let D := open_desc 0 in
  always main_thread (crash_holds D (put_outcomes [[]] ([x61], [x62; x63]))) (logdb_put (H:=debug_build) (Some 2) (Some 4) (Some 6)) w /\
  exists w', run main_thread (logdb_put (H:=debug_build) (Some 2) (Some 4) (Some 6)) w = Done 0 w' /\
    crash_holds D (eq [[([x61], [x62; x63])]]) w' /\ synced D w'.
Proof.
  apply (put_crash_atomic (H:=debug_build) main_thread 2 (open_desc 0) [[]] 0).
  - apply crash_sample_database.
  - done.
  - by intros _.
  - done.
  - apply (put_sample_buffer (H:=debug_build) [x61] [x62; x63] 0 header_bytes [0]). by left.
  - apply (put_sample_buffer (H:=debug_build) [x61] [x62; x63] 0 header_bytes [0]). by right.
  - done.
Defined.
