(* ===== verification/Scan.v ===== *)
(** * Iterating without reading

    A caller that only calls [logdb_iter_next], to count the records.  What
    [logdb_iter_next] skips when a key or value was not read, and where it
    stops: [scan_count] is the number of records it goes through. *)

From S2P Require Import Prelude Machine World Posix Io Layout Log LogSpec Buffer.
From S2P Require Import BufferSpec LogLock LockSpec DbState Lease LeaseSpec Txn TxnSpec Iter.
From S2P Require Import IterSpec Database.

(** The bytes of a record behind its header. *)
Definition body_size (r : record) : Z := zlen r.1 + zlen r.2.

(** The records from [r] on, [rs] in its section and [later] in those after it,
    of which [logdb_iter_next] finds all but those behind a section whose last
    record has eight bytes or more. *)
Fixpoint tail_count (r : record) (rs : list record) (later : nat) : nat :=
  S match rs with
    | [] => if 8 <=? body_size r then 0 else later
    | r' :: rs' => tail_count r' rs' later
    end.

Fixpoint scan_count (secs : sections) : nat :=
  match secs with
  | [] => 0
  | [] :: secs => scan_count secs
  | (r :: rs) :: secs => tail_count r rs (scan_count secs)
  end.

(** The caller. *)
Fixpoint scan_records `{Build} (fuel : nat) (iter : ptr) : prog nat :=
  match fuel with
  | O => no_fuel
  | S fuel' =>
      let! more := logdb_iter_next iter in
      if more =? 0 then Ret 0%nat else
      let! n := scan_records fuel' iter in
      Ret (S n)
  end.

Definition count_database `{Build} (fuel : nat) (conn : ptr) : prog nat :=
  let! iter := logdb_iter_all conn in
  let! n := scan_records fuel iter in
  do! logdb_iter_free iter in
  Ret n.

(** ** Facts *)

Lemma scan_count_empty secs j m :
  (j <= m)%nat -> concat (take (m - j) (drop j secs)) = [] -> scan_count (drop j secs) = scan_count (drop m secs).
Proof.
  intros Hjm. replace (drop m secs) with (drop (m - j) (drop j secs)) by (rewrite drop_drop; f_equal; lia).
  generalize (drop j secs) (m - j)%nat. intros l n. revert l. induction n as [|n IH]; intros [|rs l] E; [done..|].
  cbn [take concat] in E. apply app_nil in E as [-> E]. cbn [drop scan_count]. by apply IH.
Qed.

(** A section's records are found at [m] behind [j]: the ones between are empty. *)
Lemma concat_drop_found (secs : sections) j m pre r rs rest :
  concat (drop j secs) = r :: rest -> secs !! m = Some (pre ++ r :: rs) -> rest = rs ++ concat (drop (S m) secs) ->
  (j <= m)%nat /\ pre = [] /\ concat (take (m - j) (drop j secs)) = [].
Proof.
  intros Ej Em ->. apply (f_equal length) in Ej as El. cbn [length] in El. rewrite length_app in El.
  assert (drop m secs = (pre ++ r :: rs) :: drop (S m) secs) as Ed by by apply drop_S.
  destruct (le_lt_dec j m) as [Hjm|Hlt].
  - rewrite <- (take_drop (m - j) (drop j secs)), drop_drop, concat_app in El.
    replace (j + (m - j))%nat with m in El by lia. rewrite Ed in El. cbn [concat] in El. rewrite !length_app in El. cbn [length] in El.
    split; [done|]. split; [destruct pre; [done|simpl in El; lia]|]. destruct (concat (take _ _)); [done|simpl in El; lia].
  - rewrite <- (take_drop (j - S m) (drop (S m) secs)), drop_drop, concat_app, length_app in El.
    replace (S m + (j - S m))%nat with j in El by lia. lia.
Qed.

Section scan.
Context `{Build} (th : thread) (c : loc) (D : desc) (es : list Z) (bs : list byte) (secs : sections).
Context (Hh : holds es bs secs).

(** An iterator that can be freed. *)
Definition stopped (r0 : Z) (it : loc) (w0 w : world) : Prop :=
  exists r i j, iter_state c D es bs r it i [] w0 w /\ iter_connection i = Some c /\ slots_of i [] /\
    lease_done c (iter_lease i) j r0 r.

Lemma scan_tail_run fuel r0 it k v m pre rs w0 w :
  on_record_in c D es bs r0 it k v m rs w0 w -> secs !! m = Some (pre ++ (k, v) :: rs) ->
  (length rs + length (concat (drop (S m) secs)) < fuel)%nat ->
  exists w', run th (scan_records fuel (Some it)) w =
      Done (pred (tail_count (k, v) rs (scan_count (drop (S m) secs)))) w' /\ stopped r0 it w0 w'.
Proof.
  revert k v m pre rs w. induction fuel as [|fuel IH]; intros k v m pre rs w Ho Em Hf; [lia|]. cbn [scan_records].
  destruct (Z.lt_ge_cases (zlen k + zlen v + zlen (records_bytes rs)) 8) as [Hlt|Hge].
  - destruct rs as [|[k' v'] rs].
    2: { exfalso. rewrite records_bytes_cons, length_app, Nat2Z.inj_add, length_record_bytes in Hlt. lia. }
    destruct Ho as (off & len & Hs & Hl). pose proof (lh_index _ _ _ _ _ Hl). pose proof (lh_len _ _ _ _ _ Hl) as Hlen.
    rewrite !length_app in Hlen. cbn [tail_count pred]. unfold body_size. cbn [fst snd].
    change (zlen (records_bytes [])) with 0 in Hlt. rewrite (proj2 (Z.leb_gt _ _)) by lia.
    assert (lease_done c (mk_lease (Some c) (Z.of_nat m) off len LOGDB_LOG_LOCK_NONE) (S m) r0 (r0 + 1)) as Hd.
    { right. exists (Z.of_nat m), off, len. split_and!; [done|lia|lia|lia|done]. }
    pose proof (iter_next_section_run th c D es bs secs r0 (r0 + 1) it _ _ w0 w (S m) Hs ltac:(by left) eq_refl Hd
      ltac:(cbn [iter_lease lease_len]; change (length (records_bytes [])) with 0%nat in Hlen; lia) Hh) as Hn.
    destruct (concat (drop (S m) secs)) as [|[k' v'] rest] eqn:Ec.
    + destruct Hn as (w1 & l & E1 & El & H1). rewrite run_bind, E1. exists w1. split.
      * assert (scan_count (drop (S m) secs) = 0%nat) as ->; [|done].
        clear -Ec. induction (drop (S m) secs) as [|rs l IH]; [done|]. cbn [concat] in Ec. apply app_nil in Ec as [-> Ec]. by apply IH.
      * eexists r0, _, 0%nat. split_and!; [exact H1|done|by left|by left].
    + destruct Hn as (w1 & E1 & m' & pre' & rs' & Ho' & Em' & Er'). rewrite run_bind, E1. change (1 =? 0) with false. cbn iota.
      destruct (concat_drop_found _ _ _ _ _ _ _ Ec Em' Er') as (Hle & -> & Hempty).
      destruct (IH k' v' m' [] rs' w1 Ho' Em') as (w2 & E2 & H2).
      { cbn [length] in Hf. rewrite Er', length_app in Hf. lia. }
      rewrite run_bind, E2, run_ret. exists w2. split; [|done]. f_equal.
      rewrite (scan_count_empty secs (S m) m' Hle Hempty), (drop_S _ _ _ Em'). cbn [app scan_count].
      destruct rs'; done.
  - pose proof (iter_next_unread_run th c D es bs r0 it k v m rs w0 w Ho Hge) as Hn. destruct rs as [|[k' v'] rs].
    + destruct Hn as (w1 & i1 & E1 & H1 & Hc1 & Hs1 & off' & Hl1). rewrite run_bind, E1. exists w1. split.
      * cbn [tail_count pred]. unfold body_size. cbn [fst snd]. change (zlen (records_bytes [])) with 0 in Hge.
        by rewrite (proj2 (Z.leb_le _ _)) by lia.
      * exists (r0 + 1), i1, (S m). split_and!; [done..|]. rewrite Hl1. right. destruct Ho as (? & ? & _ & Hl).
        pose proof (lh_index _ _ _ _ _ Hl). exists (Z.of_nat m), off', 0. split_and!; [done|lia|lia|lia|done].
    + destruct Hn as (w1 & E1 & Ho1). rewrite run_bind, E1. change (1 =? 0) with false. cbn iota.
      destruct (IH k' v' m (pre ++ [(k, v)]) rs w1 Ho1) as (w2 & E2 & H2); [by rewrite <- app_assoc|simpl in Hf; lia|].
      rewrite run_bind, E2, run_ret. exists w2. split; [|done]. by destruct rs.
Qed.

Lemma scan_run fuel r0 it w0 w hd l :
  iter_state c D es bs r0 it (mk_iter (Some c) l hd None None) [] w0 w -> lease_connection l = None -> lease_len l = 0 ->
  (length (concat secs) < fuel)%nat ->
  exists w', run th (scan_records fuel (Some it)) w = Done (scan_count secs) w' /\ stopped r0 it w0 w'.
Proof.
  intros Hs Hlc Hl Hf. destruct fuel as [|fuel]; [lia|]. cbn [scan_records].
  pose proof (iter_next_run th c D es bs secs r0 r0 it _ _ w0 w (concat secs) Hs ltac:(by constructor) Hh) as Hn.
  destruct (concat secs) as [|[k v] rest] eqn:Ec.
  - destruct Hn as (w1 & l1 & E1 & El & H1). rewrite run_bind, E1. exists w1. split.
    + assert (scan_count secs = 0%nat) as ->; [|done].
      clear -Ec. induction secs as [|rs l' IH]; [done|]. cbn [concat] in Ec. apply app_nil in Ec as [-> Ec]. by apply IH.
    + eexists r0, _, 0%nat. split_and!; [exact H1|done|by left|by left].
  - destruct Hn as (w1 & E1 & m & pre & rs & Ho & Em & Er). rewrite run_bind, E1. change (1 =? 0) with false. cbn iota.
    destruct (concat_drop_found secs 0 m pre (k, v) rs rest Ec Em Er) as (Hle & -> & Hempty).
    destruct (scan_tail_run fuel r0 it k v m [] rs w0 w1 Ho Em) as (w2 & E2 & H2).
    { cbn [length] in Hf. rewrite Er, length_app in Hf. lia. }
    rewrite run_bind, E2, run_ret. exists w2. split; [|done]. f_equal.
    pose proof (scan_count_empty secs 0 m Hle Hempty) as Hs0. rewrite drop_0 in Hs0. rewrite Hs0, (drop_S _ _ _ Em).
    cbn [app scan_count]. by destruct rs.
Qed.

End scan.

Lemma count_database_run `{Build} th c D secs r w :
  database c D secs r w ->
  exists w', run th (count_database (S (length (spec_all secs))) (Some c)) w = Done (scan_count secs) w' /\
    database c D secs r w' /\ same_rest D w w'.
Proof.
  intros [(bs & Hdb & Hh)]. unfold count_database.
  destruct (iter_all_run th c D _ bs r w Hdb) as (w1 & it & E1 & H1). rewrite run_bind, E1.
  destruct (scan_run th c D _ bs secs Hh (S (length (spec_all secs))) r it w w1 _ _ H1) as (w2 & E2 & r2 & i & j & H2 & Hc & Hs & Hl);
    [done|done|unfold spec_all; lia|]. rewrite run_bind, E2.
  destruct (iter_free_run th c D _ bs r r2 it i [] w w2 j H2 Hc Hs Hl) as (w3 & E3 & Hdb3 & Hr3).
  rewrite run_bind, E3, run_ret. exists w3. split_and!; [done| |done]. constructor. by exists bs.
Qed.

(** With one section nothing is lost. *)
Lemma tail_count_all r rs : tail_count r rs 0 = S (length rs).
Proof. revert r. induction rs as [|r' rs IH]; intros r; cbn [tail_count]; [by destruct (8 <=? _)|]. by rewrite IH. Qed.

Lemma tail_count_le r rs n : (tail_count r rs n <= S (length rs) + n)%nat.
Proof. revert r. induction rs as [|r' rs IH]; intros r; cbn [tail_count]; [destruct (8 <=? _); simpl; lia|]. specialize (IH r'). simpl. lia. Qed.

Lemma scan_count_le secs : (scan_count secs <= length (spec_all secs))%nat.
Proof.
  unfold spec_all. induction secs as [|[|r rs] secs IH]; [done|exact IH|]. cbn [scan_count concat]. rewrite length_app.
  pose proof (tail_count_le r rs (scan_count secs)). simpl. lia.
Qed.

Lemma tail_count_last r n : 8 <= body_size r -> tail_count r [] n = 1%nat.
Proof. intros Hr. cbn [tail_count]. by rewrite (proj2 (Z.leb_le _ _)) by done. Qed.

Lemma tail_count_stop r1 r0 rs n : 8 <= body_size r1 -> tail_count r0 (rs ++ [r1]) n = S (S (length rs)).
Proof.
  intros Hb. revert r0. induction rs as [|r' rs IH]; intros r0; cbn [app tail_count].
  - pose proof (tail_count_last r1 n Hb) as E. cbn [tail_count] in E. by rewrite E.
  - specialize (IH r'). cbn [tail_count] in IH. simpl in IH |- *. by rewrite IH.
Qed.

(** ** Properties *)

(** C26. A caller that calls [logdb_iter_next] until it returns 0, without reading
    keys and values, gets through [scan_count] records: behind a section whose
    last record has eight bytes or more it is told that there are no more.  The
    calls end, and the database is as it was. *)
Theorem scan_counts `{Build} th c D secs r w :
  database c D secs r w ->
  exists w', run th (count_database (S (length (spec_all secs))) (Some c)) w = Done (scan_count secs) w' /\
    database c D secs r w' /\ same_rest D w w' /\ (scan_count secs <= length (spec_all secs))%nat /\
    forall rs r1 later, secs = (rs ++ [r1]) :: later -> 8 <= body_size r1 -> scan_count secs = S (length rs).
Proof.
  intros Hdb. destruct (count_database_run th c D secs r w Hdb) as (w' & E & Hdb' & Hr). exists w'.
  split_and!; [done..|apply scan_count_le|]. intros rs r1 later -> Hb.
  destruct rs as [|r0 rs]; cbn [app scan_count]; [by apply tail_count_last|by rewrite tail_count_stop].
Qed.

#[local] Existing Instance debug_build.

(** Two sections; the record in the first one has nine bytes. *)
Lemma scan_counts_witness :
  let secs := [[(replicate 4 x61, replicate 5 x62)]; [([x63], [x64])]] in
  let w := put_sample [] [] 0 (header_bytes ++ resize 65536 (records_bytes [(replicate 4 x61, replicate 5 x62)]) ++ records_bytes [([x63], [x64])]) [17; 10] in
  exists w', run main_thread (count_database 3 (Some 2)) w = Done 1%nat w' /\
    database 2 (open_desc 0) secs 0 w' /\ same_rest (open_desc 0) w w' /\ (1 <= 2)%nat /\
    forall rs r1 later, secs = (rs ++ [r1]) :: later -> 8 <= body_size r1 -> 1%nat = S (length rs).
Proof.
  apply (scan_counts main_thread 2 (open_desc 0) [[(replicate 4 x61, replicate 5 x62)]; [([x63], [x64])]] 0).
  constructor. eexists. split; [apply put_sample_state; [by repeat constructor|done]|].
  constructor; [done| |].
  - intros [|[|i]] e E; [| |done]; injection E as <-; by vm_compute.
  - intros [|[|i]] rs E; [| |done]; injection E as <-; by vm_compute.
Defined.
