(* ===== verification/Connection.v ===== *)
(** * Connections: src/src/logdb_connection.c

    Opening the two files of a database under the protection of [flock], with
    the recovery of a log another process left behind, and closing them; the
    last process to close merges the log back into the database file. *)

From S2P Require Import Prelude Machine World Posix Io Layout Log LogLock Buffer.
From S2P Require Import Lease Txn.
From Stdlib Require String.

Section connection.
Context `{Build}.

(** ** Operations *)

Definition flag_set (flags f : Z) : bool := Z.land flags f =? f.

(** The exits that close the database file and free the log's path. *)
Definition open_fail (fd : Z) (logpath : ptr) : prog ptr :=
  do! sys_close fd in
  do! free logpath in
  Ret None.

(** Write the database header, or read and verify it. *)
Definition open_header (fd flags : Z) : prog bool :=
  if flag_set flags LOGDB_OPEN_CREATE then
    let! r := logdb_io_write fd header_bytes in
    Ret (r =? 0)
  else
    let! (r, header) := logdb_io_read fd sizeof_header in
    if 0 <? r then Ret false else
    Ret (negb ((r =? -1) || negb (bool_decide (take 4 header = LOGDB_MAGIC))
               || negb (le_val (drop 4 header) =? LOGDB_VERSION))).

(** [retry_create_locked], with the exclusive lock; [retry] is 1 or 0.
    [None] when the log can neither be created nor recovered. *)
Fixpoint create_locked (retry : nat) (path : string) (fd : Z) : prog ptr :=
  let! log := logdb_log_create path fd in
  match log with
  | Some _ => Ret log
  | None =>
      let! log := logdb_log_open path in
      match log with
      | Some _ => Ret log
      | None =>
          match retry with
          | O => Ret None
          | S retry' =>
              let! u := sys_unlink path in
              if u =? -1 then Ret None else create_locked retry' path fd
          end
      end
  end.

(** Unless [LOGDB_OPEN_NOSYNC], wait for a shared lock. *)
Definition lock_shared (nosync : bool) (fd : Z) : prog bool :=
  if nosync then Ret true else
  let! r := sys_flock_sh fd in
  Ret (r =? 0).

(** [retry_create]: the log, or [None] after an error. *)
Fixpoint open_log_file (retry : nat) (nosync : bool) (path : string) (fd : Z) : prog ptr :=
  let! k := sys_flock_ex_nb fd in
  if k =? 0 then
    let! log := create_locked retry path fd in
    match log with
    | None => Ret None
    | Some _ =>
        let! ok := lock_shared nosync fd in
        Ret (if ok : bool then log else None)
    end
  else if nosync then Ret None else
    let! ok := lock_shared nosync fd in
    if negb ok then Ret None else
    let! log := logdb_log_open path in
    match log with
    | Some _ => Ret log
    | None =>
        match retry with
        | O => Ret None
        | S retry' => open_log_file retry' nosync path fd
        end
    end.

Definition open_logclosefail (log : ptr) (fd : Z) : prog ptr :=
  do! logdb_log_close log in
  do! sys_close fd in
  Ret None.

(** The connection structure, once both files are open. *)
Definition open_connection (flags fd : Z) (log : ptr) : prog ptr :=
  let! result := alloc (mk_connection 0 (mk_rwlock 0 false) 0 0 None 0) in
  match result with
  | None => open_logclosefail log fd
  | Some _ =>
      let! err := fails in
      if err : bool then
        do! free result in
        open_logclosefail log fd
      else
        let! key := pthread_key_create in
        match key with
        | None =>
            do! free result in
            open_logclosefail log fd
        | Some key =>
            do! upd result (fun c =>
              mk_connection LOGDB_VERSION (conn_lock c) flags fd log key) in
            Ret result
        end
  end.

Definition logdb_open (path : option string) (flags : Z) : prog ptr :=
  match path with
  | None => Ret None
  | Some path =>
      let logname := (path +:+ LOGDB_LOG_FILE_SUFFIX)%string in
      let! logpath := alloc (String.list_byte_of_string logname) in
      match logpath with
      | None => Ret None
      | Some _ =>
          let! fd := sys_open path (mk_open_flags (flag_set flags LOGDB_OPEN_CREATE) false false) in
          if fd =? -1 then
            do! free logpath in
            Ret None
          else
            let! ok := open_header fd flags in
            if negb ok then open_fail fd logpath else
            let! log := open_log_file 1 (flag_set flags LOGDB_OPEN_NOSYNC) logname fd in
            match log with
            | None => open_fail fd logpath
            | Some _ =>
                do! free logpath in
                open_connection flags fd log
            end
      end
  end.

(** The end of [logdb_close]: unlock and close the file, and free the
    connection. *)
Definition close_connection (conn : ptr) : prog Z :=
  let! c := load logdb_connection_t conn in
  do! sys_flock_un (conn_fd c) in
  do! sys_close (conn_fd c) in
  do! rwlock_unlock conn in
  do! upd conn (set_conn_version 0) in
  do! free conn in
  Ret 0.

Definition logdb_close (conn : ptr) : prog Z :=
  let! ok := verify_connection conn in
  if negb ok then Ret (-1) else
  let! err := rwlock_wrlock conn in
  if negb (err =? 0) then Ret (-1) else
  do! logdb_txn_rollback_all conn in
  let! c := load logdb_connection_t conn in
  do! pthread_key_delete (conn_current_txn_key c) in
  let! k := sys_flock_ex_nb (conn_fd c) in
  let! merged := (if k =? 0 then logdb_log_close_merge (conn_log c) (conn_fd c) else Ret (-1)) in
  if merged =? 0 then close_connection conn else
  let! r := logdb_log_close (conn_log c) in
  if negb (r =? 0) then
    do! sys_flock_un (conn_fd c) in
    do! rwlock_unlock conn in
    Ret (-1)
  else close_connection conn.

End connection.
