(* ===== verification/ConnSpec.v ===== *)
(** * The specification of connections

    [closed_db path ino secs w]: no process has the database at [path] open,
    its file holds the sections [secs] and ends with a log, unless it is new.
    [session path c D secs w]: this process, and no other, has it open.
    [logdb_open] leads from the one to the other and [logdb_close] back. *)

From S2P Require Import Prelude Machine World Posix Io Layout Log LogSpec Buffer.
From S2P Require Import BufferSpec LogLock LockSpec DbState Lease LeaseSpec Txn TxnSpec Iter.
From S2P Require Import IterSpec Database Connection.

Definition log_name (path : string) : string := (path +:+ LOGDB_LOG_FILE_SUFFIX)%string.

(** ** The two states *)

Section states.
Context `{Build}.

(** Common to both: the parts of the world no file belongs to. *)
Record world_ok (w : world) : Prop := mk_world_ok {
  wo_quiet : quiet w;
  wo_heap : heap_fresh w;
  wo_os : os_fresh w;
  wo_env : no_early_return w;
  wo_fcntl k : k ∈ os_fcntl (w_os w) -> fl_ino k < os_next_ino (w_os w);
  wo_flock k : k ∈ os_flock (w_os w) -> fk_ino k < os_next_ino (w_os w);
  wo_tls th k p : w_tls w !! (th, k) = Some p -> k < w_next_key w
}.

Record closed_db (path : string) (ino : Z) (secs : sections) (w : world) : Prop := mk_closed_db {
  cl_world : world_ok w;
  cl_dir : os_dir (w_os w) !! path = Some ino;
  cl_log : os_dir (w_os w) !! log_name path = None;
  cl_file : is_Some (os_inodes (w_os w) !! ino);
  cl_header : take 6 (get_file ino w) = header_bytes;
  cl_holds : holds (sizes secs) (get_file ino w) secs;
  cl_entries : Forall entry_ok (sizes secs);
  cl_count : zlen secs < 65536;
  cl_has_log : db_has_log (sizes secs) (get_file ino w) \/ secs = [] /\ zlen (get_file ino w) < LOGDB_MIN_SIZE;
  cl_flock k : k ∈ os_flock (w_os w) -> fk_ino k <> ino
}.

Record session (path : string) (c : loc) (D : desc) (secs : sections) (w : world) : Prop := mk_session {
  se_world : world_ok w;
  se_db : database c D secs 0 w;
  se_header : take 6 (get_file (d_dbino D) w) = header_bytes;
  se_dir : os_dir (w_os w) !! path = Some (d_dbino D);
  se_log : os_dir (w_os w) !! log_name path = Some (d_logino D);
  se_path : d_path D = Some (log_name path);
  se_key : d_key D < w_next_key w;
  se_flock k : k ∈ os_flock (w_os w) -> fk_ino k = d_dbino D -> fk_fd k = d_fd D
}.

(** This process has it open, and others may. *)
Record attached (path : string) (c : loc) (D : desc) (secs : sections) (w : world) : Prop := mk_attached {
  at_world : world_ok w;
  at_db : database c D secs 0 w;
  at_header : take 6 (get_file (d_dbino D) w) = header_bytes;
  at_dir : os_dir (w_os w) !! path = Some (d_dbino D);
  at_log : os_dir (w_os w) !! log_name path = Some (d_logino D);
  at_path : d_path D = Some (log_name path);
  at_key : d_key D < w_next_key w
}.

Lemma session_attached path c D secs w : session path c D secs w -> attached path c D secs w.
Proof. by intros []. Qed.

Lemma attached_session path c D secs w :
  attached path c D secs w -> (forall k, k ∈ os_flock (w_os w) -> fk_ino k = d_dbino D -> fk_fd k = d_fd D) ->
  session path c D secs w.
Proof. by intros []. Qed.

(** The only lock on the file is the one of [fd]; it is exclusive only when the
    caller did not ask to share. *)
Definition flocked (nosync : bool) (fd ino : Z) (ks : list flock_lock) : Prop :=
  mk_flock fd ino nosync ∈ ks /\ forall k, k ∈ ks -> fk_ino k = ino -> k = mk_flock fd ino nosync.

Lemma flocked_fd nosync fd ino ks k : flocked nosync fd ino ks -> k ∈ ks -> fk_ino k = ino -> fk_fd k = fd.
Proof. intros [_ Hks] Hk Hi. by rewrite (Hks k Hk Hi). Qed.

End states.

Lemma string_length_app a b : String.length (a +:+ b) = (String.length a + String.length b)%nat.
Proof. induction a as [|x a IH]; [done|]. simpl. by rewrite IH. Qed.

Lemma log_name_ne path : log_name path <> path.
Proof.
  intros E. apply (f_equal String.length) in E. unfold log_name in E. rewrite string_length_app in E. simpl in E. lia.
Qed.

(** ** Trailing empty sections *)

Definition trim (secs : sections) : sections := take (length (trim_zeros (sizes secs))) secs.

Lemma sizes_trim secs : sizes (trim secs) = trim_zeros (sizes secs).
Proof.
  unfold trim, sizes. rewrite fmap_take. destruct (trim_zeros_prefix (section_size <$> secs)) as [k E].
  rewrite E at 2. by rewrite take_app_length.
Qed.

Lemma section_size_nil rs : section_size rs = 0 -> rs = [].
Proof. intros E. apply records_bytes_nil. unfold section_size in E. by destruct (records_bytes rs). Qed.

Lemma spec_all_trim secs : spec_all (trim secs) = spec_all secs.
Proof.
  unfold trim, spec_all. set (n := length _). rewrite <- (take_drop n secs) at 2. rewrite concat_app.
  assert (concat (drop n secs) = []) as ->; [|by rewrite app_nil_r].
  destruct (trim_zeros_prefix (sizes secs)) as [k E].
  assert (Forall (fun rs => rs = []) (drop n secs)) as Hnil.
  { apply list.Forall_forall. intros rs Hrs. apply section_size_nil.
    assert (section_size rs ∈ drop n (sizes secs)) as Hin.
    { unfold sizes. rewrite <- fmap_drop. by apply list_elem_of_fmap_2. }
    rewrite E in Hin. unfold n in Hin. rewrite drop_app_length in Hin. by apply elem_of_replicate in Hin as [? _]. }
  clear E. induction Hnil as [|rs l -> _ IH]; [done|]. exact IH.
Qed.

Lemma trim_length secs : (length (trim secs) <= length secs)%nat.
Proof. unfold trim. rewrite length_take. lia. Qed.

(** What closing leaves in the database file. *)
Lemma merged_holds bs secs :
  holds (sizes secs) bs secs -> Forall entry_ok (sizes secs) -> zlen secs < 65536 ->
  holds (sizes (trim secs)) (merged_db (sizes secs) bs) (trim secs).
Proof.
  intros Hh Hok Hlen. rewrite sizes_trim. constructor.
  - rewrite <- sizes_trim. by rewrite length_sizes.
  - intros i e Ei Hne. pose proof (trim_zeros_ok _ Hok) as Hok'. pose proof (db_end_section _ _ _ Hok' Ei).
    pose proof (lookup_lt_Some _ _ _ Ei). pose proof (trim_zeros_length (sizes secs)) as Ht. rewrite length_sizes in Ht.
    rewrite connection_offset_small by lia. unfold merged_db. cbv zeta. pose proof (db_end_nonneg _ Hok'). rewrite length_app, Nat2Z.inj_add, length_resize by lia. lia.
  - intros i rs Er. rewrite merged_section; [|done|by rewrite length_sizes|apply Hh].
    apply Hh. unfold trim in Er. rewrite lookup_take in Er. by case_decide.
Qed.

Lemma merged_header es bs : Forall entry_ok es -> take 6 bs = header_bytes -> take 6 (merged_db es bs) = header_bytes.
Proof.
  intros Hok Hb. pose proof (db_end_nonneg _ (trim_zeros_ok _ Hok)).
  assert (6 <= length bs)%nat by (apply (f_equal length) in Hb; rewrite length_take in Hb; change (length header_bytes) with 6%nat in Hb; lia).
  unfold merged_db, resize. cbv zeta. rewrite <- app_assoc, take_app_le by (rewrite length_take; lia).
  rewrite take_take. replace (6 `min` _)%nat with 6%nat by lia. done.
Qed.

(** ** Closing *)

Section close.
Context `{Build} (th : thread) (path : string) (c : loc) (D : desc) (secs : sections).

Lemma flock_run fd o excl nb w :
  quiet w -> get_fd fd w = Some o ->
  (forall k, k ∈ os_flock (w_os w) -> fk_ino k = fd_ino o -> fk_fd k = fd) ->
  do_flock excl nb fd w = Done 0 (set_os (set_os_flock
    (mk_flock fd (fd_ino o) excl :: filter (fun k => fk_fd k <> fd) (os_flock (w_os w))) (w_os w)) w).
Proof.
  intros Hq Ho Hk. unfold do_flock. rewrite (with_fd_quiet _ Hq _ _ _ o) by done.
  destruct (existsb _ _) eqn:E; [exfalso|done]. apply existsb_exists in E as (k & Hin & Hc).
  apply list_elem_of_In, list_elem_of_filter in Hin as [Hne Hin]. apply andb_prop in Hc as [Hc _]. zbool.
  by apply Hne, Hk.
Qed.

(** The end of [logdb_close]. *)
Lemma close_connection_run w o k :
  quiet w -> get_fd (d_fd D) w = Some o -> peek logdb_connection_t (w_heap w) c = Some k -> conn_fd k = d_fd D ->
  run th (close_connection (Some c)) w = Done 0 (set_heap (delete c (w_heap w)) (fd_closed (d_fd D) o
    (set_os (set_os_flock (filter (fun k => fk_fd k <> d_fd D) (os_flock (w_os w))) (w_os w)) w))).
Proof.
  intros Hq Ho Hk Hfd. unfold close_connection, sys_flock_un, sys_close, rwlock_unlock.
  rewrite run_bind, run_load, (do_load_peek _ _ _ _ Hk), Hfd, run_bind, run_prim.
  rewrite (with_fd_quiet _ Hq _ _ _ o) by done. cbn beta iota. rewrite run_bind, run_prim, (do_close_run _ o) by done.
  cbn beta iota. rewrite run_bind, run_rmw, (do_rmw_peek _ k) by done. cbn beta iota. cbn [fst snd].
  rewrite run_bind, run_upd. erewrite (do_rmw_peek (T:=logdb_connection_t)) by exact (peek_insert logdb_connection_t _ _ _).
  cbn beta iota. rewrite run_bind, run_free, do_free_run.
  2: { cbn [w_heap set_heap]. rewrite lookup_insert_eq. by eexists. }
  rewrite run_ret. f_equal. unfold set_heap. cbn [w_heap w_os w_next w_tls w_next_key w_disposed w_oracle fd_closed set_os].
  f_equal. by rewrite !delete_insert_eq.
Qed.

(** The connection while [logdb_close] runs. *)
Definition locked_conn : logdb_connection_t := set_conn_lock (mk_rwlock 0 true) (the_conn D 0).

(** [logdb_close] after the thread's transactions are dropped. *)
Definition close_tail : prog Z :=
  let! k := sys_flock_ex_nb (d_fd D) in
  let! merged := (if k =? 0 then logdb_log_close_merge (Some (d_log D)) (d_fd D) else Ret (-1)) in
  if merged =? 0 then close_connection (Some c) else
  let! r := logdb_log_close (Some (d_log D)) in
  if negb (r =? 0) then
    do! sys_flock_un (d_fd D) in
    do! rwlock_unlock (Some c) in
    Ret (-1)
  else close_connection (Some c).

(** Up to there; [h] is the heap without the transactions. *)
Lemma close_prefix_run es bs w h :
  db_state c D es bs 0 table_idle w -> peek logdb_connection_t h c = Some locked_conn ->
  run th (logdb_txn_destruct (current_txn th D w)) (set_heap (<[c := CConn locked_conn]> (w_heap w)) w) =
    Done tt (set_heap h w) ->
  run th (logdb_close (Some c)) w =
    run th close_tail (set_tls (filter (fun kv => kv.1.2 <> d_key D) (w_tls w)) (set_heap h w)).
Proof.
  intros Hdb Eh Edrop. pose proof (ds_conn _ _ _ _ _ _ _ Hdb) as Ec. pose proof (ds_quiet _ _ _ _ _ _ _ Hdb) as Hq.
  unfold logdb_close. rewrite run_bind, (verify_connection_run _ _ _ _ _ _ _ _ Hdb). cbn [negb]. cbn iota.
  unfold rwlock_wrlock. rewrite run_bind, run_prim. unfold with_rwlock. rewrite next_fault_quiet by done.
  unfold with_cell. rewrite Ec. cbn [conn_lock the_conn rw_writer rw_readers orb]. change (0 <? 0) with false. cbn iota.
  change (negb (0 =? 0)) with false. cbn iota. fold locked_conn. change (to_cell locked_conn) with (CConn locked_conn).
  set (w1 := set_heap (<[c := CConn locked_conn]> (w_heap w)) w) in *.
  assert (peek logdb_connection_t (w_heap w1) c = Some locked_conn) as Ec1 by exact (peek_insert logdb_connection_t _ _ _).
  unfold logdb_txn_rollback_all, logdb_txn_current, pthread_getspecific.
  rewrite run_bind, run_bind, run_bind, run_load, (do_load_peek _ _ _ _ Ec1), run_prim. cbn [conn_current_txn_key the_conn locked_conn set_conn_lock].
  change (default None (w_tls w1 !! (th, d_key D))) with (current_txn th D w). rewrite Edrop.
  rewrite run_bind, run_load, (do_load_peek logdb_connection_t c locked_conn (set_heap h w) Eh). unfold pthread_key_delete. by rewrite run_bind, run_prim.
Qed.

Lemma close_prefix_none es bs w :
  db_state c D es bs 0 table_idle w -> current_txn th D w = None ->
  run th (logdb_close (Some c)) w =
    run th close_tail (set_tls (filter (fun kv => kv.1.2 <> d_key D) (w_tls w))
      (set_heap (<[c := CConn locked_conn]> (w_heap w)) w)).
Proof. intros Hdb Hcur. apply (close_prefix_run es bs); [done|exact (peek_insert logdb_connection_t _ _ _)|by rewrite Hcur]. Qed.

(** Up to the merge: the write lock, no transaction, the exclusive lock. *)
Definition closing (o : ofd) (k : logdb_connection_t) (w : world) : world :=
  set_os (set_os_flock (mk_flock (d_fd D) (fd_ino o) true :: filter (fun k => fk_fd k <> d_fd D) (os_flock (w_os w))) (w_os w))
    (set_tls (filter (fun kv => kv.1.2 <> d_key D) (w_tls w)) (set_heap (<[c := CConn k]> (w_heap w)) w)).

Lemma close_enter_run o w :
  session path c D secs w -> current_txn th D w = None -> get_fd (d_fd D) w = Some o -> fd_ino o = d_dbino D ->
  run th (logdb_close (Some c)) w =
    run th (let! merged := logdb_log_close_merge (Some (d_log D)) (d_fd D) in
      if merged =? 0 then close_connection (Some c) else
      let! r := logdb_log_close (Some (d_log D)) in
      if negb (r =? 0) then
        do! sys_flock_un (d_fd D) in
        do! rwlock_unlock (Some c) in
        Ret (-1)
      else close_connection (Some c)) (closing o locked_conn w).
Proof.
  intros Hs Hcur Ho Hino. destruct (se_db _ _ _ _ _ Hs) as [(bs & Hdb & Hh)].
  rewrite (close_prefix_none _ _ w Hdb Hcur). unfold close_tail.
  rewrite run_bind, run_flock_ex_nb, (flock_run _ o); [|apply Hdb|done|].
  2: { intros f Hf Hfi. apply (se_flock _ _ _ _ _ Hs f); [done|congruence]. }
  change (0 =? 0) with true. cbn iota. done.
Qed.

Lemma session_log_ok o k w :
  session path c D secs w -> get_fd (d_fd D) w = Some o -> zlen secs < 65536 ->
  exists l lo, log_ok (d_log D) l lo (sizes secs) (closing o k w) /\ log_fd l = d_logfd D /\
    log_path l = Some (log_name path) /\ get_fd (d_logfd D) w = Some lo /\ fd_ino lo = d_logino D /\
    heap_fresh (closing o k w) /\ log_unlocked lo (closing o k w) /\ c <> d_log D /\ c < w_next w.
Proof.
  intros Hs Ho Hlen. destruct (se_db _ _ _ _ _ Hs) as [(bs & Hdb & Hh)].
  pose proof (ds_conn _ _ _ _ _ _ _ Hdb) as Ec. pose proof (ds_fresh _ _ _ _ _ _ _ Hdb) as Hf.
  destruct (db_log_ok _ _ _ _ _ _ _ Hdb) as (l & lo & Hl & Hfd & Hpath & _ & Elo & Hino & _ & Hpid).
  assert (c <> d_log D) as Hne.
  { apply (db_conn_ne _ _ _ _ _ _ _ Hdb). rewrite (lo_struct _ _ _ _ _ Hl). done. }
  exists l, lo. split_and!; [|done|by rewrite Hpath, (se_path _ _ _ _ _ Hs)|done|done| | |done|exact (heap_fresh_lt _ _ _ _ Hf Ec)].
  - destruct Hl. constructor; try done. unfold closing. cbn [w_heap set_os set_tls set_heap]. by rewrite peek_insert_ne.
  - intros x Hx. unfold closing in *. cbn [w_heap w_next set_os set_tls set_heap] in *.
    rewrite lookup_insert_ne; [by apply Hf|]. intros <-. pose proof (heap_fresh_lt _ _ _ _ Hf Ec). lia.
  - unfold log_unlocked. change (os_fcntl (w_os (closing o k w))) with (os_fcntl (w_os w)).
    destruct (existsb _ _) eqn:E; [exfalso|done]. apply existsb_exists in E as (x & Hin & Hc).
    apply list_elem_of_In in Hin. unfold fcntl_conflict in Hc. zbool.
    by destruct (ds_fcntl _ _ _ _ _ _ _ Hdb x Hin ltac:(congruence)) as (? & ? & _).
Qed.

(** The files and locks after the merge and the end of [logdb_close]. *)
Section closed_after.
Context (o lo : ofd) (l : logdb_log_t) (k : logdb_connection_t) (q : Z) (w w5 : world).
Context (Hs : session path c D secs w) (Eo : get_fd (d_fd D) w = Some o) (Hino : fd_ino o = d_dbino D).
Context (Elo : get_fd (d_logfd D) w = Some lo) (Hlino : fd_ino lo = d_logino D) (Hlfd : log_fd l = d_logfd D).
Context (Hfc : heap_fresh (closing o k w)).
Context (Hd : merge_done (d_log D) l (log_name path) (d_fd D) o (sizes secs) (closing o k w) w5).

Definition closed_world_of : world :=
  set_heap (delete c (w_heap w5)) (fd_closed (d_fd D) (set_fd_pos q o)
    (set_os (set_os_flock (filter (fun k => fk_fd k <> d_fd D) (os_flock (w_os w5))) (w_os w5)) w5)).

Lemma closed_world_flock f :
  f ∈ os_flock (w_os closed_world_of) -> fk_fd f <> d_fd D /\ f ∈ os_flock (w_os w).
Proof.
  intros [_ [Hne Hf]%list_elem_of_filter]%list_elem_of_filter. split; [done|].
  apply (md_flock _ _ _ _ _ _ _ _ Hd) in Hf as [->|Hf]%elem_of_cons; [done|]. by apply list_elem_of_filter in Hf as [_ ?].
Qed.

Lemma closed_world_world : world_ok closed_world_of.
Proof.
  destruct (se_world _ _ _ _ _ Hs) as [Hq Hf Hos Henv Hfcn Hfk Htls]. destruct (se_db _ _ _ _ _ Hs) as [(bs & Hdb & Hh)].
  constructor.
  - exact (md_quiet _ _ _ _ _ _ _ _ Hd).
  - apply (heap_fresh_delete w5), (md_heap_fresh _ _ _ _ _ _ _ _ Hd), Hfc.
  - exact (os_fresh_closed (d_fd D) (set_fd_pos q o) w5 (md_os_fresh _ _ _ _ _ _ _ _ Hd Hos)).
  - unfold no_early_return in *. change (os_env (w_os closed_world_of)) with (os_env (w_os w5)). by rewrite (md_env _ _ _ _ _ _ _ _ Hd).
  - intros f Hf'. change (os_next_ino (w_os closed_world_of)) with (os_next_ino (w_os w5)).
    rewrite (md_next_ino _ _ _ _ _ _ _ _ Hd). change (os_next_ino (w_os (closing o k w))) with (os_next_ino (w_os w)).
    apply list_elem_of_filter in Hf' as [_ Hf']. apply (md_fcntl _ _ _ _ _ _ _ _ Hd) in Hf' as [Hf'|Hf']; [by apply Hfcn|].
    change (get_fd (log_fd l) (closing o k w)) with (get_fd (log_fd l) w) in Hf'. rewrite Hlfd, Elo in Hf'. injection Hf' as ->.
    rewrite Hlino. apply Z.nle_gt. intros Hge. pose proof (ds_logfile _ _ _ _ _ _ _ Hdb) as El. by rewrite (proj1 Hos) in El.
  - intros f [_ Hf']%closed_world_flock. change (os_next_ino (w_os closed_world_of)) with (os_next_ino (w_os w5)).
    rewrite (md_next_ino _ _ _ _ _ _ _ _ Hd). by apply Hfk.
  - intros t x p Ht. change (w_tls w5 !! (t, x) = Some p) in Ht. rewrite (md_tls _ _ _ _ _ _ _ _ Hd) in Ht.
    apply map_lookup_filter_Some in Ht as [Ht _].
    change (w_next_key closed_world_of) with (w_next_key w5). rewrite (md_next_key _ _ _ _ _ _ _ _ Hd). by eapply Htls.
Qed.

Lemma closed_after : zlen secs < 65536 -> closed_db path (d_dbino D) (trim secs) closed_world_of.
Proof.
  intros Hlen. destruct (se_db _ _ _ _ _ Hs) as [(bs & Hdb & Hh)]. pose proof (ds_entries _ _ _ _ _ _ _ Hdb) as Hok.
  assert (get_file (d_dbino D) w = bs) as Hfile by (unfold get_file; by rewrite (ds_db _ _ _ _ _ _ _ Hdb)).
  pose proof (md_db _ _ _ _ _ _ _ _ Hd) as Hm. change (get_file (fd_ino o) (closing o k w)) with (get_file (fd_ino o) w) in Hm.
  rewrite Hino, Hfile in Hm. assert (get_file (d_dbino D) closed_world_of = merged_db (sizes secs) bs) as Hfile' by exact Hm.
  pose proof (md_dir _ _ _ _ _ _ _ _ Hd) as Hdir. change (os_dir (w_os (closing o k w))) with (os_dir (w_os w)) in Hdir.
  constructor.
  - exact closed_world_world.
  - change (os_dir (w_os w5) !! path = Some (d_dbino D)). rewrite Hdir, lookup_delete_ne by apply log_name_ne. apply Hs.
  - change (os_dir (w_os w5) !! log_name path = None). rewrite Hdir. apply lookup_delete_eq.
  - apply not_eq_None_Some. intros E. unfold get_file in Hfile'. rewrite E in Hfile'. apply (f_equal length) in Hfile'.
    unfold merged_db in Hfile'. rewrite !length_app, length_bytes_u32 in Hfile'. simpl in Hfile'. lia.
  - rewrite Hfile'. apply merged_header; [done|]. rewrite <- Hfile. apply Hs.
  - rewrite Hfile'. by apply merged_holds.
  - rewrite sizes_trim. by apply trim_zeros_ok.
  - pose proof (trim_length secs). lia.
  - left. rewrite Hfile', sizes_trim. apply merged_has_log; [done|by rewrite length_sizes].
  - intros f [Hne Hf']%closed_world_flock Hfi. by apply Hne, (se_flock _ _ _ _ _ Hs).
Qed.

End closed_after.

Lemma close_run w :
  session path c D secs w -> current_txn th D w = None -> zlen secs < 65536 ->
  exists w', run th (logdb_close (Some c)) w = Done 0 w' /\ closed_db path (d_dbino D) (trim secs) w' /\
    forall x, x < w_next w -> w_heap w' !! x = if decide (x = c \/ x = d_log D) then None else w_heap w !! x.
Proof.
  intros Hs Hcur Hlen. destruct (se_db _ _ _ _ _ Hs) as [(bs & Hdb & Hh)].
  destruct (se_world _ _ _ _ _ Hs) as [Hq Hf Hos Henv Hfc Hfk Htls].
  pose proof (ds_entries _ _ _ _ _ _ _ Hdb) as Hok. pose proof (ds_ne _ _ _ _ _ _ _ Hdb) as [Hine Hfne].
  destruct (ds_dbfd _ _ _ _ _ _ _ Hdb) as (o & Eo & Hino & Hpos & Happ).
  assert (get_file (d_dbino D) w = bs) as Hfile by (unfold get_file; by rewrite (ds_db _ _ _ _ _ _ _ Hdb)).
  set (k := locked_conn).
  destruct (session_log_ok o k w Hs Eo Hlen) as (l & lo & Hl & Hlfd & Hlp & Elo & Hlino & Hfc' & Hun & Hcne & Hclt).
  rewrite (close_enter_run o w Hs Hcur Eo Hino). fold k. set (wc := closing o k w) in *.
  assert (open_fd (d_fd D) o wc) as Hopen.
  { split_and!; [done|rewrite Hino; exists bs; apply Hdb|done]. }
  destruct (close_merge_run th (d_log D) l lo (sizes secs) (log_name path) (d_fd D) o) with (w := wc) as (w5 & E5 & Hd);
    [done|congruence|done|by rewrite length_sizes|done..|rewrite (se_log _ _ _ _ _ Hs : os_dir (w_os wc) !! _ = _); by eexists|done|done|].
  rewrite run_bind, E5. change (0 =? 0) with true. cbn iota.
  destruct (md_dbfd _ _ _ _ _ _ _ _ Hd) as (q & Hq0 & Eo5).
  rewrite (close_connection_run w5 (set_fd_pos q o) k); [|apply Hd|done| |done].
  2: { unfold peek. rewrite (md_heap _ _ _ _ _ _ _ _ Hd) by exact Hclt. rewrite lookup_delete_ne by done.
       exact (peek_insert logdb_connection_t _ _ _). }
  eexists. split; [done|]. split; [by eapply (closed_after o lo l k q w w5)|].
  intros x Hx. cbn [w_heap set_heap]. destruct (decide (c = x)) as [<-|Hcx].
    { rewrite lookup_delete_eq. by rewrite decide_True by tauto. }
    rewrite lookup_delete_ne, (md_heap _ _ _ _ _ _ _ _ Hd) by done.
    destruct (decide (d_log D = x)) as [<-|Hlx].
    { rewrite lookup_delete_eq. by rewrite decide_True by tauto. }
    rewrite lookup_delete_ne, decide_False by (done || intros [?|?]; congruence). unfold wc, closing.
    cbn [w_heap set_os set_tls set_heap]. by apply lookup_insert_ne.
Qed.

End close.

(** ** Opening *)

Section open.
Context `{Build} (th : thread) (path : string).

Lemma file_write_prefix d bs : take (length d) bs = d -> file_write 0 d bs = bs.
Proof.
  intros E. destruct d as [|x d]; [done|]. change (file_write 0 (x :: d) bs) with ((x :: d) ++ drop (length (x :: d)) bs).
  rewrite <- E at 1. apply take_drop.
Qed.

(** Writing the header again, or verifying it. *)
Lemma open_header_run fd flags o w :
  quiet w -> open_fd fd o w -> fd_pos o = 0 -> fd_append o = false ->
  take 6 (get_file (fd_ino o) w) = header_bytes ->
  run th (open_header fd flags) w = Done true (put_fd fd (set_fd_pos 6 o) w).
Proof.
  intros Hq Ho Hpos Happ Hh. unfold open_header. destruct (flag_set flags LOGDB_OPEN_CREATE).
  - rewrite run_bind, (write_quiet _ _ _ _ o) by done. rewrite Hpos, file_write_prefix by done.
    rewrite put_file_id by apply Ho. done.
  - assert (6 <= zlen (get_file (fd_ino o) w)) as Hlen.
    { apply (f_equal length) in Hh. rewrite length_take in Hh. change (length header_bytes) with 6%nat in Hh. lia. }
    rewrite run_bind, (read_quiet _ _ _ _ o) by (done || apply Ho || unfold sizeof_header; lia). rewrite Hpos.
    change sizeof_header with 6. rewrite (proj2 (Z.leb_le _ _)) by lia.
    assert (file_read 0 6 (get_file (fd_ino o) w) = header_bytes) as -> by exact Hh. done.
Qed.

(** The header of a new file. *)
Lemma open_header_new fd flags o w :
  quiet w -> open_fd fd o w -> fd_pos o = 0 -> fd_append o = false -> get_file (fd_ino o) w = [] ->
  flag_set flags LOGDB_OPEN_CREATE = true ->
  run th (open_header fd flags) w = Done true (put_fd fd (set_fd_pos 6 o) (put_file (fd_ino o) header_bytes w)).
Proof.
  intros Hq Ho Hpos Happ Hh Hc. unfold open_header. rewrite Hc, run_bind, (write_quiet _ _ _ _ o) by done.
  by rewrite Hpos, Hh.
Qed.

(** Taking a lock that nobody else has. *)
Lemma flocked_take excl fd ino ks :
  (forall k, k ∈ ks -> fk_ino k = ino -> fk_fd k = fd) ->
  flocked excl fd ino (mk_flock fd ino excl :: filter (fun k => fk_fd k <> fd) ks).
Proof.
  intros Hks. split; [left|]. intros k [->|[Hne Hk]%list_elem_of_filter]%elem_of_cons Hi; [done|]. by destruct Hne; apply Hks.
Qed.

(** The exclusive lock, the log, and the shared lock. *)
Lemma open_log_locked nosync fd o w p w3 o3 :
  quiet w -> get_fd fd w = Some o -> (forall k, k ∈ os_flock (w_os w) -> fk_ino k <> fd_ino o) ->
  run th (create_locked 1 (log_name path) fd) (set_os (set_os_flock
    (mk_flock fd (fd_ino o) true :: filter (fun k => fk_fd k <> fd) (os_flock (w_os w))) (w_os w)) w) = Done (Some p) w3 ->
  quiet w3 -> get_fd fd w3 = Some o3 -> fd_ino o3 = fd_ino o -> flocked true fd (fd_ino o) (os_flock (w_os w3)) ->
  exists F, run th (open_log_file 1 nosync (log_name path) fd) w = Done (Some p) (set_os (set_os_flock F (w_os w3)) w3) /\
    flocked nosync fd (fd_ino o) F /\ forall k, k ∈ F -> k ∈ os_flock (w_os w3) \/ fk_ino k = fd_ino o.
Proof.
  intros Hq Ho Hfl E Hq3 Ho3 Hi3 HF3. cbn [open_log_file].
  rewrite run_bind, run_flock_ex_nb, (flock_run _ o) by (done || intros k Hk Hki; by destruct (Hfl k Hk)).
  cbn beta iota. change (0 =? 0) with true. cbn iota. rewrite run_bind, E. cbn iota. rewrite run_bind. unfold lock_shared. destruct nosync.
  - rewrite run_ret. cbn iota. exists (os_flock (w_os w3)). rewrite run_ret.
    split; [f_equal; by destruct w3 as [[] ??????]|]. split; [done|]. auto.
  - rewrite run_bind, run_flock_sh, (flock_run _ o3); [|done|done|rewrite Hi3; intros k; exact (flocked_fd _ _ _ _ k HF3)].
    eexists. split; [done|]. rewrite Hi3. split; [apply flocked_take; intros k; exact (flocked_fd _ _ _ _ k HF3)|].
    intros k [->|[_ Hk]%list_elem_of_filter]%elem_of_cons; [by right|by left].
Qed.

(** A log is created, from the end of the database or for a new one. *)
Lemma log_create_either_run name es fd o w :
  quiet w -> os_fresh w -> heap_fresh w -> no_early_return w -> os_dir (w_os w) !! name = None -> get_fd fd w = Some o ->
  db_has_log es (get_file (fd_ino o) w) \/ es = [] /\ zlen (get_file (fd_ino o) w) < LOGDB_MIN_SIZE ->
  exists p q w5, run th (logdb_log_create name fd) w = Done (Some p) w5 /\ 0 <= q /\
    create_done name es th (w_heap w) (put_fd fd (set_fd_pos q o) w) p w5.
Proof.
  intros Hq Hos Hf Henv Hdir Ho [Hlog|[-> Hsz]].
  - by apply (log_create_run th name fd o w).
  - by apply (log_create_fresh_run th name fd o w).
Qed.

(** The log, created from the database under the exclusive lock. *)
Lemma open_log_file_run nosync secs fd o w :
  world_ok w -> get_fd fd w = Some o -> os_dir (w_os w) !! log_name path = None ->
  db_has_log (sizes secs) (get_file (fd_ino o) w) \/ secs = [] /\ zlen (get_file (fd_ino o) w) < LOGDB_MIN_SIZE ->
  (forall k, k ∈ os_flock (w_os w) -> fk_ino k <> fd_ino o) ->
  exists p q F w5,
    run th (open_log_file 1 nosync (log_name path) fd) w = Done (Some p) (set_os (set_os_flock F (w_os w5)) w5) /\
    0 <= q /\ flocked nosync fd (fd_ino o) F /\
    (forall k, k ∈ F -> k ∈ os_flock (w_os w) \/ fk_ino k = fd_ino o) /\
    exists F0, create_done (log_name path) (sizes secs) th (w_heap w)
      (put_fd fd (set_fd_pos q o) (set_os (set_os_flock F0 (w_os w)) w)) p w5.
Proof.
  intros [Hq Hf Hos Henv Hfc Hfk Htls] Ho Hdir Hlog Hfl.
  set (F0 := mk_flock fd (fd_ino o) true :: filter (fun k => fk_fd k <> fd) (os_flock (w_os w))).
  set (w1 := set_os (set_os_flock F0 (w_os w)) w).
  destruct (log_create_either_run (log_name path) (sizes secs) fd o w1) as (p & q & w5 & E & Hq0 & Hd); [done..| |].
  { destruct Hlog as [Hlog|[-> Hsz]]; [by left|by right]. }
  assert (get_fd fd w5 = Some (set_fd_pos q o)) as Ho5.
  { rewrite (cd_fds _ _ _ _ _ _ _ Hd); [apply put_fd_get|].
    intros Efd. change (fd = os_next_fd (w_os w)) in Efd. destruct Hos as (_ & Hfd & _). unfold get_fd in Ho.
    by rewrite Hfd in Ho by lia. }
  pose proof (cd_flock _ _ _ _ _ _ _ Hd) as Hfl5. change (os_flock (w_os w5) = F0) in Hfl5.
  destruct (open_log_locked nosync fd o w p w5 (set_fd_pos q o)) as (F & ER & HF & HF1); [done|done|done| |apply Hd|done|done| |].
  { cbn [create_locked]. fold F0 w1. by rewrite run_bind, E, run_ret. }
  { rewrite Hfl5. apply flocked_take. intros k Hk Hki. by destruct (Hfl k Hk). }
  exists p, q, F, w5. split_and!; [done..| |by exists F0]. intros k [Hk|Hk]%HF1; [|by right].
  rewrite Hfl5 in Hk. apply elem_of_cons in Hk as [->|[_ Hk]%list_elem_of_filter]; auto.
Qed.

Lemma open_connection_run flags fd p w :
  quiet w -> let c := w_next w in
  run th (open_connection flags fd (Some p)) w = Done (Some c) (set_next_key (w_next_key w + 1) (set_next (c + 1)
    (set_heap (<[c := CConn (mk_connection LOGDB_VERSION (mk_rwlock 0 false) flags fd (Some p) (w_next_key w))]> (w_heap w)) w))).
Proof.
  intros Hq c. unfold open_connection. rewrite run_bind, run_alloc, do_alloc_quiet by done. cbn beta iota.
  unfold fails, pthread_key_create. rewrite run_bind, run_prim, next_fault_quiet by done. cbn beta iota.
  rewrite run_bind, run_prim, next_fault_quiet by done. cbn beta iota.
  rewrite run_bind, run_upd. erewrite (do_rmw_peek (T:=logdb_connection_t)) by exact (peek_insert logdb_connection_t _ _ _).
  cbn beta iota. rewrite run_ret. f_equal. unfold set_next_key, set_next, set_heap.
  cbn [w_heap w_os w_next w_tls w_next_key w_disposed w_oracle fst snd conn_lock]. f_equal.
  by rewrite insert_insert_eq.
Qed.

(** The world after [logdb_open]. *)
Record opened (ino : Z) (secs : sections) (flags : Z) (c : loc) (D : desc) (w w' : world) : Prop := mk_opened {
  op_session : session path c D secs w';
  op_ino : d_dbino D = ino;
  op_flags : d_flags D = flags;
  op_pid : d_pid D = th_pid th;
  op_file : get_file ino w' = get_file ino w;
  op_heap x : x < w_next w -> w_heap w' !! x = w_heap w !! x;
  op_new : w_next w <= c;
  op_tls : w_tls w' = w_tls w;
  op_txn t : current_txn t D w' = None;
  op_flock : flocked (flag_set flags LOGDB_OPEN_NOSYNC) (d_fd D) ino (os_flock (w_os w'))
}.

(** The same, when other processes may have the database open. *)
Record arrived (ino : Z) (secs : sections) (flags : Z) (c : loc) (D : desc) (w w' : world) : Prop := mk_arrived {
  ar_attached : attached path c D secs w';
  ar_ino : d_dbino D = ino;
  ar_flags : d_flags D = flags;
  ar_pid : d_pid D = th_pid th;
  ar_file : get_file ino w' = get_file ino w;
  ar_heap x : x < w_next w -> w_heap w' !! x = w_heap w !! x;
  ar_new : w_next w <= c;
  ar_tls : w_tls w' = w_tls w;
  ar_txn t : current_txn t D w' = None
}.

Lemma arrived_opened ino secs flags c D w w' :
  arrived ino secs flags c D w w' -> flocked (flag_set flags LOGDB_OPEN_NOSYNC) (d_fd D) ino (os_flock (w_os w')) ->
  opened ino secs flags c D w w'.
Proof.
  intros [Ha Hi] Hk. constructor; try done. apply attached_session; [done|]. intros k Hin Hki. eapply flocked_fd; [done..|congruence].
Qed.

(** The world once the log is there: opened or created. *)
Record log_ready (fd : Z) (o : ofd) (secs : sections) (w : world) (p : loc) (lfd lino : Z) (w5 : world) : Prop := mk_log_ready {
  lr_world : world_ok w5;
  lr_log : exists lo, log_ok p (mk_log lfd (Some (log_name path)) None) lo (sizes secs) w5 /\
    fd_ino lo = lino /\ fd_append lo = true /\ fd_pid lo = th_pid th;
  lr_dbfd : exists q, 0 <= q /\ get_fd fd w5 = Some (set_fd_pos q o);
  lr_ne : fd_ino o <> lino /\ fd <> lfd;
  lr_db : os_inodes (w_os w5) !! fd_ino o = os_inodes (w_os w) !! fd_ino o;
  lr_dir : os_dir (w_os w5) !! path = Some (fd_ino o) /\ os_dir (w_os w5) !! log_name path = Some lino;
  lr_fcntl k : k ∈ os_fcntl (w_os w5) -> fl_ino k <> lino;
  lr_heap x : x < w_next w -> w_heap w5 !! x = w_heap w !! x;
  lr_new : w_next w <= p;
  lr_tls : w_tls w5 = w_tls w
}.

Lemma opened_state fd flags lp o secs w p lfd lino w5 bs :
  os_inodes (w_os w) !! fd_ino o = Some bs -> stored bs secs -> fd_append o = false -> lp < w_next w ->
  log_ready fd o secs w p lfd lino w5 ->
  let c := w_next w5 in
  let D := mk_desc fd p lfd (Some (log_name path)) (fd_ino o) lino flags (w_next_key w5) (th_pid th) in
  db_state c D (sizes secs) bs 0 table_idle
    (set_next_key (w_next_key w5 + 1) (set_next (c + 1) (set_heap (<[c := CConn (the_conn D 0)]> (delete lp (w_heap w5))) w5))).
Proof.
  intros Hbs Hst Happ Hlp Hd c D. destruct (lr_world _ _ _ _ _ _ _ _ Hd) as [Hq Hf Hos Henv Hfc Hfk Htls].
  destruct (lr_log _ _ _ _ _ _ _ _ Hd) as (lo & Hl & Hlino & Hlapp & Hlpid). pose proof (lr_new _ _ _ _ _ _ _ _ Hd).
  pose proof (heap_fresh_lt _ _ _ _ Hf (lo_struct _ _ _ _ _ Hl)) as Hpc.
  destruct (lr_dbfd _ _ _ _ _ _ _ _ Hd) as (q & Hq0 & Ho).
  constructor.
  - exact Hq.
  - intros x Hx. cbn [w_heap w_next set_next_key set_next set_heap] in *. rewrite lookup_insert_ne by lia.
    rewrite lookup_delete_None. right. apply Hf. lia.
  - exact (peek_insert logdb_connection_t _ _ _).
  - eexists. split.
    { cbn [w_heap set_next_key set_next set_heap d_log D]. rewrite peek_insert_ne by lia. unfold peek.
      rewrite lookup_delete_ne by lia. exact (lo_struct _ _ _ _ _ Hl). }
    split_and!; [done..|]. exists []. split_and!; [done|split; constructor|constructor].
  - by exists (set_fd_pos q o).
  - exists lo. destruct (lo_fd _ _ _ _ _ Hl) as (? & _ & ?). by split_and!.
  - change (os_inodes (w_os w5) !! fd_ino o = Some bs). by rewrite (lr_db _ _ _ _ _ _ _ _ Hd).
  - change (os_inodes (w_os w5) !! lino = Some (log_image (sizes secs))). rewrite <- Hlino.
    destruct (lo_fd _ _ _ _ _ Hl) as (_ & [y Ey] & _). pose proof (lo_file _ _ _ _ _ Hl) as E. unfold get_file in E.
    rewrite Ey in E |- *. by rewrite <- E.
  - exact (lr_ne _ _ _ _ _ _ _ _ Hd).
  - apply Hst.
  - rewrite length_sizes. apply Hst.
  - intros k Hk Hki. by destruct (lr_fcntl _ _ _ _ _ _ _ _ Hd k Hk).
Qed.

Definition open_rest (flags fd : Z) (logpath : ptr) : prog ptr :=
  let! log := open_log_file 1 (flag_set flags LOGDB_OPEN_NOSYNC) (log_name path) fd in
  match log with
  | None => open_fail fd logpath
  | Some _ =>
      do! free logpath in
      open_connection flags fd log
  end.

(** From the log to the session. *)
Lemma open_rest_ready fd flags o secs w p lfd lino w5 bs lp :
  os_inodes (w_os w) !! fd_ino o = Some bs -> stored bs secs -> fd_append o = false ->
  heap_fresh w -> is_Some (w_heap w !! lp) ->
  run th (open_log_file 1 (flag_set flags LOGDB_OPEN_NOSYNC) (log_name path) fd) w = Done (Some p) w5 ->
  log_ready fd o secs w p lfd lino w5 ->
  exists c D w', run th (open_rest flags fd (Some lp)) w = Done (Some c) w' /\
    arrived (fd_ino o) secs flags c D (set_heap (delete lp (w_heap w)) w) w' /\
    w_os w' = w_os w5 /\ w_next_key w5 <= w_next_key w' /\ d_fd D = fd /\ d_logfd D = lfd /\ d_logino D = lino.
Proof.
  intros Hbs Hst Happ Hf0 Hlp E Hd. destruct (lr_world _ _ _ _ _ _ _ _ Hd) as [Hq Hf Hos Henv Hfc Hfk Htls].
  assert (lp < w_next w) as Hlt.
  { destruct (Z.lt_ge_cases lp (w_next w)) as [|Hge]; [done|]. rewrite Hf0 in Hlp by done. by destruct Hlp. }
  destruct (lr_log _ _ _ _ _ _ _ _ Hd) as (lo & Hl & _). pose proof (lr_new _ _ _ _ _ _ _ _ Hd) as Hp.
  pose proof (heap_fresh_lt _ _ _ _ Hf (lo_struct _ _ _ _ _ Hl)) as Hpc.
  unfold open_rest. rewrite run_bind, E, run_bind, run_free, do_free_run.
  2: { by rewrite (lr_heap _ _ _ _ _ _ _ _ Hd). }
  rewrite open_connection_run by exact Hq. do 3 eexists. split; [done|].
  pose proof (opened_state fd flags lp o secs w p lfd lino w5 bs Hbs Hst Happ Hlt Hd) as Hdb. cbn zeta in Hdb.
  cbn [w_next w_next_key w_heap set_heap]. set (c := w_next w5) in *. set (D := mk_desc _ _ _ _ _ _ _ _ _) in *.
  match goal with |- arrived _ _ _ _ _ _ ?w' /\ _ => set (w6 := w') end. change (db_state c D (sizes secs) bs 0 table_idle w6) in Hdb.
  assert (get_file (fd_ino o) w6 = bs) as Hfile.
  { unfold get_file. change (os_inodes (w_os w6)) with (os_inodes (w_os w5)). by rewrite (lr_db _ _ _ _ _ _ _ _ Hd), Hbs. }
  assert (database c D secs 0 w6) as HD by (constructor; exists bs; split; [done|apply Hst]).
  cut (arrived (fd_ino o) secs flags c D (set_heap (delete lp (w_heap w)) w) w6).
  { intros Ha. split; [exact Ha|]. split_and!; try done. change (w_next_key w5 <= w_next_key w5 + 1). lia. }
  apply mk_arrived; try done.
  - constructor; try done; [| |apply (lr_dir _ _ _ _ _ _ _ _ Hd)..|cbn; lia].
    + constructor; [apply Hdb|apply Hdb|done..|]. intros t k x Hx. specialize (Htls t k x Hx).
      change (k < w_next_key w5 + 1). lia.
    + change (d_dbino D) with (fd_ino o). rewrite Hfile. apply Hst.
  - rewrite Hfile. unfold get_file. cbn [w_os set_heap]. by rewrite Hbs.
  - intros x Hx. cbn [w_heap w_next set_heap] in *. unfold w6. cbn [w_heap set_next_key set_next set_heap].
    rewrite lookup_insert_ne by lia. destruct (decide (lp = x)) as [<-|]; [by rewrite !lookup_delete_eq|].
    rewrite !lookup_delete_ne by done. by apply (lr_heap _ _ _ _ _ _ _ _ Hd).
  - cbn [w_next set_heap]. lia.
  - exact (lr_tls _ _ _ _ _ _ _ _ Hd).
  - intros t. unfold current_txn. change (w_tls w6) with (w_tls w5). cbn [d_key D].
    destruct (w_tls w5 !! (t, w_next_key w5)) as [x|] eqn:Ex; [|done]. apply Htls in Ex. lia.
Qed.

(** The log was created. *)
Lemma created_ready fd o ino secs w F0 q p F w5 :
  closed_db path ino secs w -> get_fd fd w = Some o -> fd_ino o = ino -> 0 <= q ->
  (forall k, k ∈ F -> k ∈ os_flock (w_os w) \/ fk_ino k = fd_ino o) ->
  create_done (log_name path) (sizes secs) th (w_heap w)
    (put_fd fd (set_fd_pos q o) (set_os (set_os_flock F0 (w_os w)) w)) p w5 ->
  log_ready fd o secs w p (os_next_fd (w_os w)) (os_next_ino (w_os w)) (set_os (set_os_flock F (w_os w5)) w5).
Proof.
  intros Hc Ho Hino Hq0 HF1 Hd. destruct (cl_world _ _ _ _ Hc) as [Hq Hf Hos Henv Hfc Hfk Htls].
  destruct (cl_file _ _ _ _ Hc) as [bs Ebs].
  assert (ino < os_next_ino (w_os w)) as Hlt.
  { destruct (Z.lt_ge_cases ino (os_next_ino (w_os w))) as [|Hge]; [done|]. by rewrite (proj1 Hos) in Ebs. }
  assert (fd < os_next_fd (w_os w)) as Hfdlt.
  { destruct (Z.lt_ge_cases fd (os_next_fd (w_os w))) as [|Hge]; [done|]. destruct Hos as (_ & Hfd & _).
    unfold get_fd in Ho. by rewrite Hfd in Ho. }
  pose proof (cd_next_ino _ _ _ _ _ _ _ Hd) as Hni. change (os_next_ino (w_os (put_fd _ _ _))) with (os_next_ino (w_os w)) in Hni.
  pose proof (cd_dir _ _ _ _ _ _ _ Hd) as Hdir. change (os_next_ino (w_os (put_fd _ _ _))) with (os_next_ino (w_os w)) in Hdir.
  pose proof (cd_fcntl _ _ _ _ _ _ _ Hd) as Hfcn.
  assert (path <> log_name path) as Hpn by (pose proof (log_name_ne path); congruence).
  constructor.
  - constructor; try apply Hd.
    + unfold no_early_return in *. change (os_env (w_os (set_os _ _))) with (os_env (w_os w5)). by rewrite (cd_env _ _ _ _ _ _ _ Hd).
    + intros k Hk. change (k ∈ os_fcntl (w_os w5)) in Hk. rewrite Hfcn in Hk. specialize (Hfc k Hk).
      change (fl_ino k < os_next_ino (w_os w5)). lia.
    + intros k Hk. change (fk_ino k < os_next_ino (w_os w5)). destruct (HF1 k Hk) as [Hin| ->]; [specialize (Hfk k Hin)|]; lia.
    + intros t k x Hx. change (w_tls w5 !! (t, k) = Some x) in Hx. rewrite (cd_tls _ _ _ _ _ _ _ Hd) in Hx.
      specialize (Htls t k x Hx). change (k < w_next_key w5). rewrite (cd_next_key _ _ _ _ _ _ _ Hd). exact Htls.
  - exists (mk_ofd (os_next_ino (w_os w)) 0 true (th_pid th)). split; [|done].
    pose proof (cd_log _ _ _ _ _ _ _ Hd) as Hl. destruct Hl. by constructor.
  - exists q. split; [done|]. change (get_fd fd w5 = Some (set_fd_pos q o)).
    rewrite (cd_fds _ _ _ _ _ _ _ Hd); [apply put_fd_get|]. change (fd <> os_next_fd (w_os w)). lia.
  - rewrite Hino. lia.
  - change (os_inodes (w_os w5) !! fd_ino o = os_inodes (w_os w) !! fd_ino o). rewrite Hino, Ebs.
    pose proof (cd_files _ _ _ _ _ _ _ Hd ino) as E. specialize (E ltac:(change (ino <> os_next_ino (w_os w)); lia)).
    change (get_file ino (put_fd _ _ _)) with (get_file ino w) in E.
    destruct (cd_inodes _ _ _ _ _ _ _ Hd ino) as [y Ey]; [by exists bs|]. unfold get_file in E.
    rewrite Ey, Ebs in E. rewrite Ey. f_equal. exact E.
  - change (os_dir (w_os (set_os _ _))) with (os_dir (w_os w5)). rewrite Hdir, lookup_insert_eq, lookup_insert_ne by done.
    split; [|done]. rewrite Hino. apply Hc.
  - intros k Hk Hki. change (k ∈ os_fcntl (w_os w5)) in Hk. rewrite Hfcn in Hk. specialize (Hfc k Hk). lia.
  - exact (cd_heap _ _ _ _ _ _ _ Hd).
  - exact (cd_new _ _ _ _ _ _ _ Hd).
  - exact (cd_tls _ _ _ _ _ _ _ Hd).
Qed.

Lemma open_rest_run fd flags o ino secs w :
  closed_db path ino secs w -> get_fd fd w = Some o -> fd_ino o = ino -> fd_append o = false ->
  forall lp, is_Some (w_heap w !! lp) ->
  exists c D w', run th (open_rest flags fd (Some lp)) w = Done (Some c) w' /\
    opened ino secs flags c D (set_heap (delete lp (w_heap w)) w) w'.
Proof.
  intros Hc Ho Hino Happ lp Hlp. destruct (cl_file _ _ _ _ Hc) as [bs Ebs].
  destruct (open_log_file_run (flag_set flags LOGDB_OPEN_NOSYNC) secs fd o w) as (p & q & F & w5 & E & Hq0 & HF & HF1 & F0 & Hd);
    [apply Hc|done|apply Hc|rewrite Hino; apply Hc|intros k Hk; rewrite Hino; by apply Hc|].
  assert (stored bs secs) as Hst.
  { assert (get_file ino w = bs) as <- by (unfold get_file; by rewrite Ebs).
    constructor; [apply Hc..|]. pose proof (cl_count _ _ _ _ Hc). lia. }
  destruct (open_rest_ready fd flags o secs w p (os_next_fd (w_os w)) (os_next_ino (w_os w))
    (set_os (set_os_flock F (w_os w5)) w5) bs lp) as (c & D & w' & E' & Ha & Hos & _ & Hfd & _);
    [by rewrite Hino|done|done|apply Hc|done|exact E|by eapply created_ready|].
  rewrite Hino in *. exists c, D, w'. split; [exact E'|]. apply arrived_opened; [done|]. by rewrite Hos, Hfd.
Qed.

(** ** The steps before the log is opened *)

Lemma world_ok_alloced x w : world_ok w -> world_ok (alloced x w).
Proof. intros []. constructor; try done. by apply (heap_fresh_alloc w). Qed.

Lemma world_ok_put_fd fd o o' w : world_ok w -> get_fd fd w = Some o -> world_ok (put_fd fd o' w).
Proof. intros [] Ho. constructor; try done. by eapply os_fresh_put_fd. Qed.

Lemma world_ok_put_file i bs w : world_ok w -> is_Some (os_inodes (w_os w) !! i) -> world_ok (put_file i bs w).
Proof. intros [] Hi. constructor; try done. by apply os_fresh_put_file. Qed.

Lemma world_ok_opened ino fl w : world_ok w -> world_ok (fd_opened ino fl th w).
Proof.
  intros [Hq Hf (H1 & H2 & H3) ????]. constructor; try done. split_and!; [done| |].
  - intros d Hd. change (os_next_fd (w_os w) + 1 <= d) in Hd. unfold fd_opened.
    change (get_fd d (put_fd (os_next_fd (w_os w)) (mk_ofd ino 0 (o_append fl) (th_pid th)) w) = None).
    rewrite put_fd_get_ne by lia. apply H2. lia.
  - change (0 <= os_next_fd (w_os w) + 1). lia.
Qed.

Lemma world_ok_created w : world_ok w -> world_ok (file_created path w).
Proof.
  intros [Hq Hf (H1 & H2 & H3) ? Hc Hk ?]. constructor; try done.
  - split_and!; [|done..]. intros i Hi. unfold file_created in *. cbn [w_os set_os os_inodes os_next_ino] in *.
    cbn in Hi |- *. rewrite lookup_insert_ne by lia. apply H1. lia.
  - intros k Hin. specialize (Hc k Hin). cbn. lia.
  - intros k Hin. specialize (Hk k Hin). cbn. lia.
Qed.

Lemma closed_db_frame ino secs w w' :
  closed_db path ino secs w -> world_ok w' -> os_dir (w_os w') = os_dir (w_os w) ->
  os_inodes (w_os w') = os_inodes (w_os w) -> os_flock (w_os w') = os_flock (w_os w) -> closed_db path ino secs w'.
Proof.
  intros [] Hw E1 E2 E3. constructor; try done; unfold get_file in *; rewrite ?E1, ?E2, ?E3; done.
Qed.

(** The first half of [logdb_open], up to the header. *)
Lemma open_enter_run flags ino w2 w :
  quiet w ->
  let lp := w_next w in
  let fl := mk_open_flags (flag_set flags LOGDB_OPEN_CREATE) false false in
  let w1 := alloced (CBytes (String.list_byte_of_string (log_name path))) w in
  do_open path fl th w1 = Done (os_next_fd (w_os w)) (fd_opened ino fl th w2) -> 0 <= os_next_fd (w_os w) ->
  run th (logdb_open (Some path) flags) w =
    run th (let! ok := open_header (os_next_fd (w_os w)) flags in
            if negb ok then open_fail (os_next_fd (w_os w)) (Some lp)
            else open_rest flags (os_next_fd (w_os w)) (Some lp)) (fd_opened ino fl th w2).
Proof.
  intros Hq lp fl w1 E Hfd. unfold logdb_open. fold (log_name path). rewrite run_bind, run_alloc, do_alloc_quiet by done.
  cbn beta iota. rewrite run_bind, run_open. change (set_next _ _) with w1. fold fl. rewrite E. cbn beta iota.
  rewrite (proj2 (Z.eqb_neq _ _)) by lia. done.
Qed.

(** Opening a database that exists. *)
Lemma open_run flags ino secs w :
  closed_db path ino secs w ->
  exists c D w', run th (logdb_open (Some path) flags) w = Done (Some c) w' /\ opened ino secs flags c D w w'.
Proof.
  intros Hc. destruct (cl_world _ _ _ _ Hc) as [Hq Hf Hos Henv Hfc Hfk Htls].
  set (fd := os_next_fd (w_os w)). set (fl := mk_open_flags (flag_set flags LOGDB_OPEN_CREATE) false false).
  set (w1 := alloced (CBytes (String.list_byte_of_string (log_name path))) w).
  rewrite (open_enter_run flags ino w1); [|done| |apply Hos].
  2: { rewrite (do_open_exists_quiet _ _ _ _ ino); [|done|apply Hc]. cbn [o_excl]. by rewrite andb_false_r. }
  fold fl fd. set (o := mk_ofd ino 0 false (th_pid th)).
  assert (open_fd fd o (fd_opened ino fl th w1)) as Ho.
  { split_and!; [apply put_fd_get|exact (cl_file _ _ _ _ Hc)|done]. }
  rewrite run_bind, (open_header_run fd flags o) by (done || apply Hc). cbn [negb]. cbn iota.
  set (w2 := put_fd fd (set_fd_pos 6 o) (fd_opened ino fl th w1)).
  assert (closed_db path ino secs w2) as Hc2.
  { apply (closed_db_frame ino secs w); [done| |done..]. eapply world_ok_put_fd; [|apply Ho].
    apply world_ok_opened, world_ok_alloced. by constructor. }
  destruct (open_rest_run fd flags (set_fd_pos 6 o) ino secs w2) with (lp := w_next w) as (c & D & w' & E & Hd);
    [done|apply put_fd_get|done..|exists (CBytes (String.list_byte_of_string (log_name path))); apply lookup_insert_eq|].
  exists c, D, w'. split; [exact E|]. destruct Hd as [? ? ? ? ? Hheap Hnew ? ? ?]. constructor; try done.
  - intros x Hx. cbn [w_next set_heap] in *. rewrite Hheap by (change (x < w_next w + 1); lia).
    cbn [w_heap set_heap]. rewrite lookup_delete_ne by lia. change (w_heap w2) with (w_heap w1). apply lookup_insert_ne. lia.
  - change (w_next w + 1 <= c) in Hnew. lia.
Qed.

(** Creating one. *)
Lemma open_new_run flags w :
  world_ok w -> os_dir (w_os w) !! path = None -> os_dir (w_os w) !! log_name path = None ->
  flag_set flags LOGDB_OPEN_CREATE = true ->
  exists c D w', run th (logdb_open (Some path) flags) w = Done (Some c) w' /\
    session path c D [] w' /\ d_dbino D = os_next_ino (w_os w) /\ d_flags D = flags /\ d_pid D = th_pid th /\
    w_tls w' = w_tls w /\ (forall x, x < w_next w -> w_heap w' !! x = w_heap w !! x) /\ (forall t, current_txn t D w' = None).
Proof.
  intros Hw Hdir Hlog Hcr. destruct Hw as [Hq Hf Hos Henv Hfc Hfk Htls] eqn:EHw. clear EHw.
  set (ino := os_next_ino (w_os w)). set (fd := os_next_fd (w_os w)).
  set (fl := mk_open_flags (flag_set flags LOGDB_OPEN_CREATE) false false).
  set (w1 := file_created path (alloced (CBytes (String.list_byte_of_string (log_name path))) w)).
  rewrite (open_enter_run flags ino w1); [|done| |apply Hos].
  2: { rewrite do_open_new_quiet by done. cbn [o_creat]. by rewrite Hcr. }
  fold fl fd. set (o := mk_ofd ino 0 false (th_pid th)).
  assert (os_inodes (w_os (fd_opened ino fl th w1)) !! ino = Some []) as Ei by apply lookup_insert_eq.
  assert (open_fd fd o (fd_opened ino fl th w1)) as Ho.
  { split_and!; [apply put_fd_get|by exists []|done]. }
  rewrite run_bind, (open_header_new fd flags o); [|done..| |done].
  2: { unfold get_file. change (fd_ino o) with ino. by rewrite Ei. }
  cbn [negb]. cbn iota. set (w2 := put_fd fd (set_fd_pos 6 o) (put_file (fd_ino o) header_bytes (fd_opened ino fl th w1))).
  assert (world_ok w2) as Hw2.
  { eapply world_ok_put_fd; [|apply open_fd_put_file, Ho]. apply world_ok_put_file; [|by exists []].
    apply world_ok_opened, world_ok_created, world_ok_alloced, Hw. }
  assert (get_file ino w2 = header_bytes) as Hfile by apply put_file_get.
  assert (closed_db path ino [] w2) as Hc2.
  { constructor; [done|apply lookup_insert_eq| |eexists; apply lookup_insert_eq| | |constructor|done| |].
    - change (<[path := ino]> (os_dir (w_os w)) !! log_name path = None).
      rewrite lookup_insert_ne; [done|]. pose proof (log_name_ne path). congruence.
    - by rewrite Hfile.
    - by constructor; [|intros []|intros []].
    - right. split; [done|]. rewrite Hfile. done.
    - intros k Hk Hki. pose proof (Hfk k Hk). subst ino. lia. }
  destruct (open_rest_run fd flags (set_fd_pos 6 o) ino [] w2) with (lp := w_next w) as (c & D & w' & E & Hd);
    [done|apply put_fd_get|done..|eexists; apply lookup_insert_eq|].
  exists c, D, w'. split; [exact E|]. destruct Hd as [? ? ? ? ? Hheap ? ? ? ?]. split_and!; try done.
  intros x Hx. rewrite Hheap by (change (x < w_next w + 1); lia). cbn [w_heap set_heap].
  rewrite lookup_delete_ne by lia. change (w_heap w2) with (w_heap w1). apply lookup_insert_ne. lia.
Qed.

End open.

(** ** Between opening and closing *)

Section session.
Context `{Build} (th : thread) (path : string) (c : loc) (D : desc).

Lemma attached_inos secs w : attached path c D secs w ->
  d_dbino D < os_next_ino (w_os w) /\ d_logino D < os_next_ino (w_os w) /\
  d_fd D < os_next_fd (w_os w) /\ d_logfd D < os_next_fd (w_os w).
Proof.
  intros Hs. destruct (at_db _ _ _ _ _ Hs) as [(bs & Hdb & _)]. destruct (wo_os _ (at_world _ _ _ _ _ Hs)) as (Hi & Hd & _).
  destruct (ds_dbfd _ _ _ _ _ _ _ Hdb) as (o & Eo & _). destruct (ds_logfd _ _ _ _ _ _ _ Hdb) as (lo & Elo & _).
  pose proof (ds_db _ _ _ _ _ _ _ Hdb) as E1. pose proof (ds_logfile _ _ _ _ _ _ _ Hdb) as E2. unfold get_fd in *.
  split_and!; apply Z.nle_gt; intros Hge.
  - by rewrite Hi in E1.
  - by rewrite Hi in E2.
  - by rewrite Hd in Eo.
  - by rewrite Hd in Elo.
Qed.

Lemma attached_frame secs secs' w w' :
  attached path c D secs w -> database c D secs' 0 w' -> put_rest th D w w' -> attached path c D secs' w'.
Proof.
  intros Hs Hdb' [Ht Hr Hh]. pose proof (attached_inos _ _ Hs) as (Hi1 & Hi2 & Hf1 & Hf2).
  destruct Hs as [[Hq Hf Hos Henv Hfc Hfk Htls] Hdb Hhead Hdir Hlog Hp Hkey].
  destruct Hdb' as [(bs' & Hdb2 & Hh2)] eqn:E. clear E.
  pose proof (sr_next_ino _ _ _ Hr) as Eino. pose proof (sr_next_fd _ _ _ Hr) as Efd. cbn [w_os set_tls] in Eino, Efd.
  constructor; [|done|..].
  - constructor; [apply Hdb2|apply Hdb2|..].
    + destruct Hos as (H1 & H2 & H3). split_and!; [intros i Hi|intros d Hd|]; rewrite ?Eino, ?Efd in *.
      * rewrite (sr_inodes _ _ _ Hr) by lia. by apply H1.
      * rewrite (sr_fds _ _ _ Hr) by lia. by apply H2.
      * done.
    + unfold no_early_return in *. rewrite (sr_env _ _ _ Hr). exact Henv.
    + intros k Hk. rewrite Eino. destruct (sr_fcntl _ _ _ Hr k Hk) as [Hin| ->]; [by apply Hfc|done].
    + intros k Hk. rewrite Eino. apply Hfk. rewrite (sr_flock _ _ _ Hr) in Hk. exact Hk.
    + intros t k p Hk. rewrite (sr_key _ _ _ Hr). cbn [w_next_key set_tls].
      destruct Ht as [Ht|Ht]; rewrite Ht in Hk; [by eapply Htls|].
      destruct (decide ((th, d_key D) = (t, k))) as [[= -> <-]|Hne]; [done|]. rewrite lookup_insert_ne in Hk by done. by eapply Htls.
  - rewrite Hh; [done|]. apply (f_equal length) in Hhead. rewrite length_take in Hhead.
    change (length header_bytes) with 6%nat in Hhead. lia.
  - by rewrite (sr_dir _ _ _ Hr).
  - by rewrite (sr_dir _ _ _ Hr).
  - done.
  - rewrite (sr_key _ _ _ Hr). exact Hkey.
Qed.

Lemma session_frame secs secs' w w' :
  session path c D secs w -> database c D secs' 0 w' -> put_rest th D w w' -> session path c D secs' w'.
Proof.
  intros Hs Hdb' Hr. apply attached_session; [by eapply attached_frame; [apply session_attached|..]|].
  intros k Hk. rewrite (sr_flock _ _ _ (pr_rest _ _ _ _ Hr)) in Hk. by apply (se_flock _ _ _ _ _ Hs).
Qed.

(** A reader leaves all but the log's memory alone. *)
Lemma read_put_rest es es' bs r w w' :
  db_state c D es bs r table_idle w -> db_state c D es' bs r table_idle w' -> same_rest D w w' -> put_rest th D w w'.
Proof.
  intros Hdb Hdb' Hr. constructor; [left; apply Hr| |].
  - rewrite (sr_tls _ _ _ Hr). by destruct w.
  - intros _. unfold get_file. by rewrite (ds_db _ _ _ _ _ _ _ Hdb), (ds_db _ _ _ _ _ _ _ Hdb').
Qed.

(** The caller allocates, stores to and frees memory of its own. *)
Lemma session_user secs w h nx :
  session path c D secs w ->
  (forall x y, w_heap w !! x = Some y -> user_cell (Some y) = None -> h !! x = Some y) ->
  heap_fresh (set_next nx (set_heap h w)) -> session path c D secs (set_next nx (set_heap h w)).
Proof.
  intros Hs Hh Hf. destruct Hs as [Hw [(bs & Hdb & Hho)] ? ? ? ? ? ?]. constructor; try done.
  - destruct Hw. by constructor.
  - constructor. exists bs. split; [|done]. apply db_state_user; [apply _|done..].
Qed.

(** A thread enters or leaves a transaction. *)
Lemma session_tls secs w t p :
  session path c D secs w -> session path c D secs (set_tls (<[(t, d_key D) := p]> (w_tls w)) w).
Proof.
  intros [Hw [(bs & Hdb & Hho)] ? ? ? ? ? ?]. constructor; try done.
  - destruct Hw as [? ? ? ? ? ? Htls]. constructor; try done. intros t' k q. cbn [w_tls set_tls].
    destruct (decide ((t, d_key D) = (t', k))) as [[= -> <-]|]; [done|]. rewrite lookup_insert_ne by done. apply Htls.
  - constructor. exists bs. split; [|done]. by destruct Hdb; constructor.
Qed.

(** Reading keeps the session as it is. *)
Lemma attached_read secs w n :
  attached path c D secs w -> Forall nonempty_record (spec_all secs) -> (length (spec_all secs) < n)%nat ->
  exists w', run th (read_database n (Some c)) w = Done (spec_all secs) w' /\
    attached path c D secs w' /\ put_rest th D w w'.
Proof.
  intros Hs Hne Hn. destruct (at_db _ _ _ _ _ Hs) as [(bs & Hdb & Hh)].
  destruct (read_database_run th c D _ bs 0 w secs n Hdb Hh Hne Hn) as (w' & E & Hdb' & Hr). exists w'. split; [exact E|].
  pose proof (read_put_rest _ _ bs 0 w w' Hdb Hdb' Hr) as Hp.
  split; [|done]. eapply attached_frame; [done| |done]. constructor. by exists bs.
Qed.

Lemma session_read secs w :
  session path c D secs w -> Forall nonempty_record (spec_all secs) ->
  exists w', run th (read_database (S (length (spec_all secs))) (Some c)) w = Done (spec_all secs) w' /\
    session path c D secs w' /\ put_rest th D w w'.
Proof.
  intros Hs Hne. destruct (attached_read secs w (S (length (spec_all secs))) (session_attached _ _ _ _ _ Hs) Hne ltac:(lia)) as (w' & E & Ha & Hr).
  exists w'. split_and!; [done| |done]. apply (session_frame secs secs w); [done|apply Ha|done].
Qed.

(** [logdb_put] *)
Lemma attached_put secs w kl vl k v :
  attached path c D secs w -> current_txn th D w = None ->
  user_buffer (w_heap w) kl k -> user_buffer (w_heap w) vl v -> fits secs (k, v) = true ->
  exists w', run th (logdb_put (Some c) (Some kl) (Some vl)) w = Done 0 w' /\
    attached path c D (spec_put secs (k, v)) w' /\ put_rest th D w w'.
Proof.
  intros Hs Hcur Hk Hv Hf.
  destruct (put_database th c D secs 0 w kl vl k v (at_db _ _ _ _ _ Hs) Hcur Hk Hv Hf) as (w' & E & Hdb & _ & Hr).
  exists w'. split_and!; [done|by eapply attached_frame|done].
Qed.

Lemma session_puts secs w ps rs :
  session path c D secs w -> current_txn th D w = None -> user_records (w_heap w) ps rs -> fit_all secs rs = true ->
  exists w', run th (put_records (Some c) ps) w = Done 0 w' /\
    session path c D (foldl spec_put secs rs) w' /\ current_txn th D w' = None /\ put_rest th D w w'.
Proof.
  intros Hs Hcur Hu Hfit.
  destruct (put_records_run th c D secs 0 w ps rs (se_db _ _ _ _ _ Hs) Hcur Hu Hfit) as (w' & E & Hdb & Hcur' & Hr).
  exists w'. split_and!; [done|by eapply session_frame|done..].
Qed.

End session.

(** The caller's memory over opening and closing. *)
Lemma opened_kept `{Build} th path ino secs flags c D w w' :
  opened th path ino secs flags c D w w' -> heap_fresh w -> user_kept (w_heap w) (w_heap w').
Proof.
  intros Hop Hf x y Ex _. rewrite (op_heap _ _ _ _ _ _ _ _ _ Hop); [done|].
  apply Z.nle_gt. intros Hge. by rewrite Hf in Ex.
Qed.

Lemma fit_all_count secs rs : fit_all secs rs = true -> zlen (foldl spec_put secs rs) <= Z.max (zlen secs) 65536.
Proof.
  revert secs. induction rs as [|r rs IH]; intros secs; [simpl; lia|]. intros [[Hc _]%andb_prop Hrs]%andb_prop. zbool.
  cbn [foldl]. specialize (IH _ Hrs). assert (zlen (spec_put secs r) <= zlen secs + 1); [|lia].
  unfold spec_put. destruct (spec_place secs r); rewrite ?length_alter, ?length_app; simpl; lia.
Qed.

Lemma put_rest_none th t D w w' : put_rest th D w w' -> current_txn t D w = None -> current_txn t D w' = None.
Proof.
  intros [Ht _ _] Hc. unfold current_txn in *. destruct Ht as [-> | ->]; [done|].
  destruct (decide ((th, d_key D) = (t, d_key D))) as [E|E]; [by rewrite E, lookup_insert_eq|by rewrite lookup_insert_ne].
Qed.

(** Closing, with what happens to the caller's memory. *)
Lemma close_session `{Build} th path c D secs w :
  session path c D secs w -> current_txn th D w = None -> zlen secs < 65536 ->
  exists w', run th (logdb_close (Some c)) w = Done 0 w' /\ closed_db path (d_dbino D) (trim secs) w' /\
    user_kept (w_heap w) (w_heap w').
Proof.
  intros Hs Hcur Hlen. destruct (close_run th path c D secs w Hs Hcur Hlen) as (w' & E & Hc & Hheap).
  exists w'. split_and!; [done..|]. destruct (se_db _ _ _ _ _ Hs) as [(bs & Hdb & _)].
  destruct (ds_log _ _ _ _ _ _ _ Hdb) as (l & (yl & El & Hl)%peek_cell & _).
  pose proof (ds_conn _ _ _ _ _ _ _ Hdb) as (yc & Ec & Hyc)%peek_cell.
  intros x y Ex Hy. rewrite Hheap.
  - rewrite decide_False; [done|]. intros [-> | ->]; [rewrite Ec in Ex|rewrite El in Ex];
      injection Ex as ->; by destruct y.
  - apply Z.nle_gt. intros Hge. by rewrite (ds_fresh _ _ _ _ _ _ _ Hdb) in Ex.
Qed.

(** ** A client of the whole library *)

(** Create a database, put records, close it; open it again, read it, close. *)
Definition store_and_load `{Build} (path : string) (ps : list (loc * loc)) (fuel : nat) : prog (Z * Z * list record * Z) :=
  let! c := logdb_open (Some path) LOGDB_OPEN_CREATE in
  let! failed := put_records c ps in
  let! r := logdb_close c in
  let! c := logdb_open (Some path) 0 in
  let! all := read_database fuel c in
  let! r' := logdb_close c in
  Ret (failed, r, all, r').

(** ** Properties *)

(** C11. Closing a database and opening it again: both succeed, the log is
    rebuilt from the trailer [logdb_close] wrote, and the sections are the ones
    before but for empty ones at the end, so the records are the same. *)
Theorem close_then_open `{Build} th path c D secs flags w :
  session path c D secs w -> current_txn th D w = None -> zlen secs < 65536 ->
  exists c' D' w', run th (let! r := logdb_close (Some c) in
                           let! c' := logdb_open (Some path) flags in Ret (r, c')) w = Done (0, Some c') w' /\
    session path c' D' (trim secs) w' /\ spec_all (trim secs) = spec_all secs /\
    d_dbino D' = d_dbino D /\ d_flags D' = flags /\ user_kept (w_heap w) (w_heap w').
Proof.
  intros Hs Hcur Hlen. destruct (close_session th path c D secs w Hs Hcur Hlen) as (w1 & E1 & Hc & Hk1).
  destruct (open_run th path flags _ _ w1 Hc) as (c' & D' & w2 & E2 & Hop). exists c', D', w2.
  rewrite run_bind, E1, run_bind, E2, run_ret. split_and!; [done|apply Hop|apply spec_all_trim|apply Hop|apply Hop|].
  etransitivity; [done|]. eapply opened_kept; [done|]. apply Hc.
Qed.

(** C5. A client that creates a database, puts records in it, closes it, opens it
    again and reads it gets the records it put, each as often as it put it, and
    no others; every call succeeds. *)
Theorem records_survive_reopen `{Build} th path ps rs w :
  world_ok w -> os_dir (w_os w) !! path = None -> os_dir (w_os w) !! log_name path = None ->
  user_records (w_heap w) ps rs -> fit_all [] rs = true -> zlen (foldl spec_put [] rs) < 65536 ->
  Forall nonempty_record rs ->
  exists all w', run th (store_and_load path ps (S (length rs))) w = Done (0, 0, all, 0) w' /\ all ≡ₚ rs /\
    closed_db path (os_next_ino (w_os w)) (trim (trim (foldl spec_put [] rs))) w' /\ user_kept (w_heap w) (w_heap w').
Proof.
  intros Hw Hdir Hlog Hu Hfit Hlen Hne. unfold store_and_load. set (secs := foldl spec_put [] rs) in *.
  destruct (open_new_run th path LOGDB_OPEN_CREATE w Hw Hdir Hlog eq_refl)
    as (c & D & w1 & E1 & H1 & Hino & _ & _ & Ht1 & Hh1 & Hcur1).
  assert (user_kept (w_heap w) (w_heap w1)) as K1.
  { intros x y Ex _. rewrite Hh1; [done|]. apply Z.nle_gt. intros Hge. by rewrite (wo_heap _ Hw) in Ex. }
  destruct (session_puts th path c D [] w1 ps rs H1 (Hcur1 th)) as (w2 & E2 & H2 & Hcur2 & R2);
    [by eapply user_records_kept|done|]. fold secs in H2.
  destruct (close_session th path c D secs w2 H2 Hcur2 Hlen) as (w3 & E3 & H3 & K3).
  destruct (open_run th path 0 _ _ w3 H3) as (c4 & D4 & w4 & E4 & H4).
  assert (spec_all (trim secs) ≡ₚ rs) as Hall.
  { rewrite spec_all_trim. unfold secs. rewrite spec_puts_all. by rewrite app_nil_r. }
  destruct (session_read th path c4 D4 (trim secs) w4) as (w5 & E5 & H5 & R5); [apply H4|by rewrite Hall|].
  destruct (close_session th path c4 D4 (trim secs) w5 H5) as (w6 & E6 & H6 & K6).
  { eapply put_rest_none; [done|apply H4]. }
  { pose proof (trim_length secs). lia. }
  rewrite (Permutation_length Hall) in E5. exists (spec_all (trim secs)), w6.
  rewrite run_bind, E1, run_bind, E2, run_bind, E3, run_bind, E4, run_bind, E5, run_bind, E6, run_ret.
  split_and!; [done..| |].
  - rewrite (op_ino _ _ _ _ _ _ _ _ _ H4), Hino in H6. exact H6.
  - etransitivity; [exact K1|]. etransitivity; [exact (user_equiv_kept _ _ (sr_heap _ _ _ (pr_rest _ _ _ _ R2)))|].
    etransitivity; [exact K3|]. etransitivity; [eapply opened_kept; [done|apply H3]|].
    etransitivity; [exact (user_equiv_kept _ _ (sr_heap _ _ _ (pr_rest _ _ _ _ R5)))|exact K6].
Qed.

(** ** Witnesses *)

#[local] Existing Instance debug_build.

Lemma put_sample_session k v flags : session "t.db" 2 (open_desc flags) [[]] (put_sample k v flags header_bytes [0]).
Proof.
  pose proof (put_sample_state k v flags header_bytes [0] ltac:(by repeat constructor) ltac:(done)) as Hdb.
  constructor; try done.
  - constructor; [done|apply Hdb|apply (open_world_os_fresh 0 header_bytes [0] [])|by right|..]; cbn.
    + intros x Hx. by apply not_elem_of_nil in Hx.
    + by intros x ->%list_elem_of_singleton.
    + done.
  - apply put_sample_database.
  - by intros x ->%list_elem_of_singleton.
Qed.

Lemma close_then_open_witness :
  let w := put_sample [x61] [x62; x63] 0 header_bytes [0] in
  exists c' D' w', run main_thread (let! r := logdb_close (Some 2) in
                           let! c' := logdb_open (Some "t.db") 0 in Ret (r, c')) w = Done (0, Some c') w' /\
    session "t.db" c' D' [] w' /\ spec_all [] = spec_all [[]] /\
    d_dbino D' = 1 /\ d_flags D' = 0 /\ user_kept (w_heap w) (w_heap w').
Proof.
  apply (close_then_open main_thread "t.db" 2 (open_desc 0) [[]] 0); [apply put_sample_session|done..].
Defined.

(** No files; buffers 4 and 6 on a key and a value. *)
Definition empty_disk (k v : list byte) : world :=
  set_os (mk_os ∅ ∅ ∅ ∅ 0 0 [] [] ∅) (put_sample k v 0 [] []).

Lemma empty_disk_ok k v : world_ok (empty_disk k v).
Proof.
  constructor; [done|apply (ds_fresh _ _ _ _ _ _ _ (put_sample_state k v 0 [] [] ltac:(constructor) ltac:(done)))| |by right|..].
  - split_and!; [by intros..|done].
  - intros x Hx. by apply not_elem_of_nil in Hx.
  - intros x Hx. by apply not_elem_of_nil in Hx.
  - done.
Qed.

Lemma records_survive_reopen_witness :
  let w := empty_disk [x61] [x62; x63] in
  exists all w', run main_thread (store_and_load "t.db" [(4, 6); (6, 4)] 3) w = Done (0, 0, all, 0) w' /\
    all ≡ₚ [([x61], [x62; x63]); ([x62; x63], [x61])] /\
    closed_db "t.db" 0 (trim (trim [[([x61], [x62; x63]); ([x62; x63], [x61])]])) w' /\ user_kept (w_heap w) (w_heap w').
Proof.
  apply (records_survive_reopen main_thread "t.db" [(4, 6); (6, 4)] [([x61], [x62; x63]); ([x62; x63], [x61])]).
  - apply empty_disk_ok.
  - done.
  - done.
  - apply Forall2_cons; [split; apply (put_sample_buffer [x61] [x62; x63] 0 [] []); cbn; tauto|].
    apply Forall2_cons; [split; apply (put_sample_buffer [x61] [x62; x63] 0 [] []); cbn; tauto|]. apply Forall2_nil.
  - done.
  - done.
  - by repeat constructor.
Defined.

(** A database file nobody has open, at "t.db". *)
Definition closed_world (secs : sections) (bs : list byte) : world :=
  mk_world (mk_os {[ "t.db" := 1 ]} {[ 1 := merged_db (sizes secs) bs ]} ∅ ∅ 3 2 [] [] ∅) ∅ 1 ∅ 0 [] [].

Lemma closed_world_ok secs bs :
  holds (sizes secs) bs secs -> Forall entry_ok (sizes secs) -> zlen secs < 65536 -> take 6 bs = header_bytes ->
  trim secs = secs -> closed_db "t.db" 1 secs (closed_world secs bs).
Proof.
  intros Hh Hok Hlen Hb Ht.
  assert (get_file 1 (closed_world secs bs) = merged_db (sizes secs) bs) as Hf
    by (unfold get_file; change (os_inodes _) with ({[ 1 := merged_db (sizes secs) bs ]} : gmap Z (list byte)); by rewrite lookup_singleton_eq).
  constructor; try done; rewrite ?Hf.
  - constructor; try done; [|by right|by intros x Hx%not_elem_of_nil..].
    split_and!; [|done|done]. intros i Hi. cbn in *. by rewrite lookup_singleton_ne by lia.
  - by apply merged_header.
  - pose proof (merged_holds bs secs Hh Hok Hlen) as Hm. by rewrite Ht in Hm.
  - left. pose proof (merged_has_log (sizes secs) bs Hok ltac:(by rewrite length_sizes)) as Hm.
    rewrite <- sizes_trim, Ht in Hm. exact Hm.
  - by intros x Hx%not_elem_of_nil.
Qed.

(** The same with a record in it. *)
Definition sample_secs : sections := [[([x61], [x62])]].

(** A closed database that holds a record; the caller's buffers 4 and 6. *)
Definition closed_sample (k v : list byte) : world :=
  set_os (w_os (closed_world sample_secs (header_bytes ++ records_bytes (concat sample_secs)))) (put_sample k v 0 [] []).

Lemma closed_sample_ok k v : closed_db "t.db" 1 sample_secs (closed_sample k v).
Proof.
  assert (closed_db "t.db" 1 sample_secs (closed_world sample_secs (header_bytes ++ records_bytes (concat sample_secs)))) as Hcl.
  { apply closed_world_ok; [|by repeat constructor|done..]. constructor; [done| |].
    - intros [|i] e E; [|done]. injection E as <-. by vm_compute.
    - intros [|i] rs E; [|done]. injection E as <-. by vm_compute. }
  eapply closed_db_frame; [exact Hcl| |done..]. pose proof (cl_world _ _ _ _ Hcl) as Hw.
  constructor; [done|apply (ds_fresh _ _ _ _ _ _ _ (put_sample_state k v 0 [] [] ltac:(constructor) ltac:(done)))|exact (wo_os _ Hw)|by right|exact (wo_fcntl _ Hw)|exact (wo_flock _ Hw)|done].
Qed.
