(* ===== verification/Store.v ===== *)
(** * The interface of the library

    What logdb promises to a program that uses it, as a class: operations on
    stores, and laws about an abstract state.  A client that works in many
    sessions is verified against the laws alone; logdb has them with the
    sections of [Database] as the state. *)

From S2P Require Import Prelude Machine World Posix Io Layout Log LogSpec Buffer.
From S2P Require Import BufferSpec LogLock LockSpec DbState Lease LeaseSpec Txn TxnSpec Iter.
From S2P Require Import IterSpec Database Connection ConnSpec.

(** ** The interface *)

Class Store := {
  store_open : string -> Z -> prog ptr;
  store_put : ptr -> ptr -> ptr -> prog Z;
  store_read : nat -> ptr -> prog (list record);
  store_close : ptr -> prog Z
}.

(** [st_closed path s w]: the store at [path] is in state [s], and nobody uses
    it; [st_open th path c s w]: thread [th] uses it through [c].  A put and a
    close change the state; [st_sealed] is what closing makes of it. *)
Class StoreLaws `{Build} (ops : Store) (state : Type) := {
  st_put : state -> record -> state;
  st_sealed : state -> state;
  st_fits : state -> record -> bool;
  st_closable : state -> bool;
  st_records : state -> list record;
  st_closed : string -> state -> world -> Prop;
  st_open : thread -> string -> ptr -> state -> world -> Prop;
  st_records_put s r : st_records (st_put s r) ≡ₚ r :: st_records s;
  st_records_sealed s : st_records (st_sealed s) = st_records s;
  law_open th path flags s w :
    st_closed path s w ->
    exists c w', run th (store_open path flags) w = Done c w' /\ st_open th path c s w' /\ user_kept (w_heap w) (w_heap w');
  law_put th path c s w kl vl k v :
    st_open th path c s w -> user_buffer (w_heap w) kl k -> user_buffer (w_heap w) vl v -> st_fits s (k, v) = true ->
    exists w', run th (store_put c (Some kl) (Some vl)) w = Done 0 w' /\ st_open th path c (st_put s (k, v)) w' /\
      user_kept (w_heap w) (w_heap w');
  law_read th path c s w :
    st_open th path c s w -> Forall nonempty_record (st_records s) ->
    exists w', run th (store_read (S (length (st_records s))) c) w = Done (st_records s) w' /\ st_open th path c s w' /\
      user_kept (w_heap w) (w_heap w');
  law_close th path c s w :
    st_open th path c s w -> st_closable s = true ->
    exists w', run th (store_close c) w = Done 0 w' /\ st_closed path (st_sealed s) w' /\ user_kept (w_heap w) (w_heap w')
}.

(** ** A client of many sessions *)

Section client.
Context `{Build} {ops : Store}.

(** Put records; the number of failures. *)
Fixpoint client_puts (c : ptr) (ps : list (loc * loc)) : prog Z :=
  match ps with
  | [] => Ret 0
  | (kl, vl) :: ps =>
      let! r := store_put c (Some kl) (Some vl) in
      let! n := client_puts c ps in
      Ret (if r =? 0 then n else n + 1)
  end.

(** Open with the flags, put, close. *)
Definition client_session (path : string) (flags : Z) (ps : list (loc * loc)) : prog Z :=
  let! c := store_open path flags in
  let! n := client_puts c ps in
  let! r := store_close c in
  Ret (if r =? 0 then n else n + 1).

Fixpoint client_sessions (path : string) (bs : list (Z * list (loc * loc))) : prog Z :=
  match bs with
  | [] => Ret 0
  | (flags, ps) :: bs =>
      let! n := client_session path flags ps in
      let! m := client_sessions path bs in
      Ret (n + m)
  end.

(** All sessions, and one that reads what is there. *)
Definition client_main (path : string) (bs : list (Z * list (loc * loc))) (fuel : nat) : prog (Z * list record * Z) :=
  let! n := client_sessions path bs in
  let! c := store_open path LOGDB_OPEN_EXISTING in
  let! all := store_read fuel c in
  let! r := store_close c in
  Ret (n, all, r).

Context {state : Type} `{!StoreLaws ops state}.

Fixpoint session_fits (s : state) (rs : list record) : bool :=
  match rs with
  | [] => st_closable s
  | r :: rs => st_fits s r && session_fits (st_put s r) rs
  end.

Definition after_session (s : state) (rs : list record) : state := st_sealed (foldl st_put s rs).

Fixpoint sessions_fit (s : state) (rss : list (list record)) : bool :=
  match rss with
  | [] => st_closable s
  | rs :: rss => session_fits s rs && sessions_fit (after_session s rs) rss
  end.

Lemma client_puts_run th path c s w ps rs :
  st_open th path c s w -> user_records (w_heap w) ps rs -> session_fits s rs = true ->
  exists w', run th (client_puts c ps) w = Done 0 w' /\ st_open th path c (foldl st_put s rs) w' /\
    st_closable (foldl st_put s rs) = true /\ user_kept (w_heap w) (w_heap w').
Proof.
  revert rs s w. induction ps as [|[kl vl] ps IH]; intros rs s w Ho Hu Hfit.
  - apply Forall2_nil_inv_l in Hu as ->. by exists w.
  - apply Forall2_cons_inv_l in Hu as ([k v] & rs' & [Hk Hv] & Hu & ->). apply andb_prop in Hfit as [Hf Hfit].
    destruct (law_put th path c s w kl vl k v) as (w1 & E1 & Ho1 & K1); [done..|].
    destruct (IH rs' _ w1 Ho1) as (w2 & E2 & Ho2 & Hc & K2); [by eapply user_records_kept|done|].
    exists w2. cbn [client_puts]. rewrite run_bind, E1, run_bind, E2. split_and!; [done..|by etransitivity].
Qed.

Lemma client_session_run th path flags s w ps rs :
  st_closed path s w -> user_records (w_heap w) ps rs -> session_fits s rs = true ->
  exists w', run th (client_session path flags ps) w = Done 0 w' /\ st_closed path (after_session s rs) w' /\
    user_kept (w_heap w) (w_heap w').
Proof.
  intros Hcl Hu Hfit. destruct (law_open th path flags s w Hcl) as (c & w1 & E1 & Ho1 & K1).
  destruct (client_puts_run th path c s w1 ps rs) as (w2 & E2 & Ho2 & Hc & K2); [done|by eapply user_records_kept|done|].
  destruct (law_close th path c _ w2 Ho2 Hc) as (w3 & E3 & Hcl3 & K3). exists w3.
  unfold client_session. rewrite run_bind, E1, run_bind, E2, run_bind, E3. split_and!; [done..|by do 2 (etransitivity; [eassumption|])].
Qed.

Lemma client_sessions_run th path bs rss s w :
  st_closed path s w -> Forall2 (fun b => user_records (w_heap w) b.2) bs rss -> sessions_fit s rss = true ->
  exists w', run th (client_sessions path bs) w = Done 0 w' /\ st_closed path (foldl after_session s rss) w' /\
    st_closable (foldl after_session s rss) = true /\ user_kept (w_heap w) (w_heap w').
Proof.
  revert rss s w. induction bs as [|[flags ps] bs IH]; intros rss s w Hcl Hu Hfit.
  - apply Forall2_nil_inv_l in Hu as ->. by exists w.
  - apply Forall2_cons_inv_l in Hu as (rs & rss' & Hu1 & Hu & ->). apply andb_prop in Hfit as [Hf Hfit].
    destruct (client_session_run th path flags s w ps rs) as (w1 & E1 & Hcl1 & K1); [done..|].
    destruct (IH rss' _ w1 Hcl1) as (w2 & E2 & Hcl2 & Hc & K2); [|done|].
    { eapply list.Forall2_impl; [exact Hu|]. intros b rs'. by apply user_records_kept. }
    exists w2. cbn [client_sessions]. rewrite run_bind, E1, run_bind, E2. split_and!; [done..|by etransitivity].
Qed.

Lemma records_session s rs : st_records (after_session s rs) ≡ₚ rs ++ st_records s.
Proof.
  unfold after_session. rewrite st_records_sealed. revert s. induction rs as [|r rs IH]; intros s; [done|].
  cbn [foldl app]. rewrite IH, st_records_put. by rewrite <- Permutation_middle.
Qed.

Lemma records_sessions s rss : st_records (foldl after_session s rss) ≡ₚ concat rss ++ st_records s.
Proof.
  revert s. induction rss as [|rs rss IH]; intros s; [done|]. cbn [foldl concat]. rewrite IH, records_session.
  by rewrite !app_assoc, (Permutation_app_comm (concat rss)).
Qed.

(** What the client reads at the end. *)
Lemma client_main_run th path bs rss s w :
  st_closed path s w -> Forall2 (fun b => user_records (w_heap w) b.2) bs rss -> sessions_fit s rss = true ->
  Forall nonempty_record (concat rss ++ st_records s) ->
  exists all w', run th (client_main path bs (S (length (concat rss ++ st_records s)))) w = Done (0, all, 0) w' /\
    all ≡ₚ concat rss ++ st_records s /\ st_closed path (st_sealed (foldl after_session s rss)) w' /\
    user_kept (w_heap w) (w_heap w').
Proof.
  intros Hcl Hu Hfit Hne. destruct (client_sessions_run th path bs rss s w) as (w1 & E1 & Hcl1 & Hc1 & K1); [done..|].
  pose proof (records_sessions s rss) as Hp. set (s1 := foldl after_session s rss) in *.
  destruct (law_open th path LOGDB_OPEN_EXISTING s1 w1 Hcl1) as (c & w2 & E2 & Ho2 & K2).
  destruct (law_read th path c s1 w2 Ho2) as (w3 & E3 & Ho3 & K3); [by rewrite Hp|].
  destruct (law_close th path c s1 w3 Ho3 Hc1) as (w4 & E4 & Hcl4 & K4). exists (st_records s1), w4.
  unfold client_main. rewrite <- (Permutation_length Hp). rewrite run_bind, E1, run_bind, E2, run_bind, E3, run_bind, E4, run_ret.
  split_and!; [done..|by do 3 (etransitivity; [eassumption|])].
Qed.

End client.

(** ** The implementation *)

#[export] Instance logdb_store `{Build} : Store := {
  store_open path flags := logdb_open (Some path) flags;
  store_put := logdb_put;
  store_read := read_database;
  store_close := logdb_close
}.

(** [logdb_put] *)
Lemma session_put `{Build} th path c D secs w kl vl k v :
  session path c D secs w -> current_txn th D w = None ->
  user_buffer (w_heap w) kl k -> user_buffer (w_heap w) vl v -> fits secs (k, v) = true ->
  exists w', run th (logdb_put (Some c) (Some kl) (Some vl)) w = Done 0 w' /\
    session path c D (spec_put secs (k, v)) w' /\ current_txn th D w' = None /\ user_kept (w_heap w) (w_heap w').
Proof.
  intros Hs Hcur Hk Hv Hf.
  destruct (attached_put th path c D secs w kl vl k v (session_attached _ _ _ _ _ Hs) Hcur Hk Hv Hf) as (w' & E & Ha & Hr).
  exists w'. split_and!; [done|eapply session_frame; [done|apply Ha|done]|by eapply put_rest_none|].
  exact (user_equiv_kept _ _ (sr_heap _ _ _ (pr_rest _ _ _ _ Hr))).
Qed.

#[export] Program Instance logdb_store_laws `{Build} : StoreLaws logdb_store sections := {
  st_put := spec_put;
  st_sealed := trim;
  st_fits := fits;
  st_closable secs := zlen secs <? 65536;
  st_records := spec_all;
  st_closed path secs w := exists ino, closed_db path ino secs w;
  st_open th path c secs w := exists l D, c = Some l /\ session path l D secs w /\ current_txn th D w = None
}.
Next Obligation. intros. apply spec_put_all. Qed.
Next Obligation. intros. apply spec_all_trim. Qed.
Next Obligation.
  intros ? th path flags secs w [ino Hcl]. destruct (open_run th path flags ino secs w Hcl) as (l & D & w' & E & Hop).
  exists (Some l), w'. split_and!; [exact E| |].
  - exists l, D. split_and!; [done|apply Hop..].
  - eapply opened_kept; [exact Hop|apply Hcl].
Qed.
Next Obligation.
  intros ? th path c secs w kl vl k v (l & D & -> & Hs & Hcur) Hk Hv Hf.
  destruct (session_put th path l D secs w kl vl k v Hs Hcur Hk Hv Hf) as (w' & E & Hs' & Hcur' & K).
  exists w'. split_and!; [exact E|by exists l, D|done].
Qed.
Next Obligation.
  intros ? th path c secs w (l & D & -> & Hs & Hcur) Hne.
  destruct (session_read th path l D secs w Hs Hne) as (w' & E & Hs' & Hr). exists w'. split_and!; [exact E| |].
  - exists l, D. split_and!; [done..|by eapply put_rest_none].
  - exact (user_equiv_kept _ _ (sr_heap _ _ _ (pr_rest _ _ _ _ Hr))).
Qed.
Next Obligation.
  intros ? th path c secs w (l & D & -> & Hs & Hcur) Hc. apply Z.ltb_lt in Hc.
  destruct (close_session th path l D secs w Hs Hcur Hc) as (w' & E & Hcl & K). exists w'. split_and!; [exact E|by eexists|done].
Qed.

(** ** Properties *)

(** C10. A program that opens an existing database any number of times, each
    time with any flags, puts records and closes it, and then reads it, gets
    the records that were there and all that it put, each as often as it was
    put, and no others; no call fails. *)
Theorem sessions_accumulate `{Build} th path bs rss secs w :
  (exists ino, closed_db path ino secs w) -> Forall2 (fun b => user_records (w_heap w) b.2) bs rss ->
  sessions_fit secs rss = true -> Forall nonempty_record (concat rss ++ spec_all secs) ->
  exists all w', run th (client_main path bs (S (length (concat rss ++ spec_all secs)))) w = Done (0, all, 0) w' /\
    all ≡ₚ concat rss ++ spec_all secs /\ (exists ino, closed_db path ino (trim (foldl after_session secs rss)) w') /\
    user_kept (w_heap w) (w_heap w').
Proof. exact (client_main_run (ops := logdb_store) (state := sections) th path bs rss secs w). Qed.

(** ** Witnesses *)

#[local] Existing Instance debug_build.

Lemma sessions_accumulate_witness :
  let w := closed_sample [x61] [x62; x63] in
  exists all w', run main_thread (client_main "t.db" [(0, [(4, 6); (6, 4)]); (LOGDB_OPEN_CREATE, []); (LOGDB_OPEN_NOSYNC, [(4, 4)])] 5) w =
      Done (0, all, 0) w' /\
    all ≡ₚ [([x61], [x62; x63]); ([x62; x63], [x61]); ([x61], [x61]); ([x61], [x62])] /\
    (exists ino, closed_db "t.db" ino [[([x61], [x62]); ([x61], [x62; x63]); ([x62; x63], [x61]); ([x61], [x61])]] w') /\
    user_kept (w_heap w) (w_heap w').
Proof.
  apply (sessions_accumulate main_thread "t.db" [(0, [(4, 6); (6, 4)]); (LOGDB_OPEN_CREATE, []); (LOGDB_OPEN_NOSYNC, [(4, 4)])]
    [[([x61], [x62; x63]); ([x62; x63], [x61])]; []; [([x61], [x61])]] sample_secs).
  - exists 1. apply closed_sample_ok.
  - pose proof (put_sample_buffer [x61] [x62; x63] 0 [] [] 4 [x61] ltac:(cbn; tauto)) as Hk.
    pose proof (put_sample_buffer [x61] [x62; x63] 0 [] [] 6 [x62; x63] ltac:(cbn; tauto)) as Hv.
    repeat first [exact Hk|exact Hv|apply Forall2_nil|apply Forall2_cons|split].
  - done.
  - by repeat constructor.
Defined.
