(* ===== verification/Recovery.v ===== *)
(** * Opening after a crash

    A process that crashed left a log file next to the database.  [logdb_open]
    then fails to create the log and takes the one that is there.  Together
    with CrashSpec.v: a crash at any step of a put loses at most the record
    being put. *)

From S2P Require Import Prelude Machine World Posix Io Layout Log LogSpec Buffer.
From S2P Require Import BufferSpec LogLock LockSpec DbState Lease LeaseSpec Txn Silent TxnSpec Iter.
From S2P Require Import IterSpec Database CrashSpec Connection ConnSpec.

(** ** The log of another process *)

Section log.
Context `{Build} (th : thread).

(** [logdb_log_create] fails when there is a log file, whatever the database
    file ends with. *)
Lemma log_create_exists path i fd o w :
  quiet w -> heap_fresh w -> os_dir (w_os w) !! path = Some i -> get_fd fd w = Some o ->
  zlen (get_file (fd_ino o) w) < 2 ^ 62 ->
  exists w', run th (logdb_log_create path fd) w = Done None w' /\ scanned fd w w'.
Proof.
  intros Hq Hf Hdir Ho Hsz. unfold logdb_log_create.
  rewrite run_bind, run_lseek, (do_lseek_quiet _ Hq _ _ _ o) by (done || lia).
  set (n := zlen (get_file (fd_ino o) w)) in *. rewrite Z.add_0_r, (proj2 (Z.eqb_neq _ _)) by lia.
  set (w1 := put_fd fd (set_fd_pos n o) w).
  assert (scanned fd w w1) as S1 by (apply scanned_pos; [by eapply scanned_refl|done|lia]).
  destruct (log_create_find_scan th fd (set_fd_pos n o) w1) as (r & w2 & E2 & S2 & Hr); [done|apply put_fd_get|exact Hsz|].
  change (zlen (get_file (fd_ino (set_fd_pos n o)) w1)) with n in E2. rewrite run_bind, E2.
  pose proof (scanned_trans _ _ _ _ S1 S2) as S. clear E2.
  assert (forall l sz w', scanned fd w w' -> is_Some (w_heap w' !! l) -> w_next w <= l ->
    exists w'', run th (log_create_write path l sz) w' = Done None w'' /\ scanned fd w w'') as Hwrite.
  { intros l sz w' Hs Hl Hlt. destruct (sc_os _ _ _ Hs) as (q & o' & _ & _ & Eos).
    unfold log_create_write. rewrite run_bind, run_open, (do_open_exists_quiet _ _ _ _ i).
    2: by rewrite (sc_oracle _ _ _ Hs). 2: by rewrite Eos.
    cbn [o_creat o_excl andb]. change (-1 =? -1) with true. cbn iota. rewrite run_bind, run_free, do_free_run by done. rewrite run_ret.
    eexists. split; [done|]. apply scanned_heap; [done| |].
    - intros x Hx. apply lookup_delete_ne. lia.
    - intros x. destruct (decide (l = x)) as [->|]; [by rewrite lookup_delete_eq; intros []|by rewrite lookup_delete_ne]. }
  destruct r as [[[l|] sz]|]; [| |by exists w2].
  - destruct (Hr l sz eq_refl) as [Hl ?]. apply Hwrite; [done..|]. change (w_next w1) with (w_next w) in Hl. lia.
  - rewrite run_bind, run_alloc, do_alloc_quiet by by rewrite (sc_oracle _ _ _ S). cbn beta iota. apply Hwrite.
    + by apply (scanned_alloc _ _ _ (CBytes log_header_bytes)) in S.
    + cbn [w_heap set_next set_heap]. rewrite lookup_insert_eq. by eexists.
    + apply S.
Qed.

(** [logdb_log_open] on a log. *)
Lemma log_open_run path lino es w :
  quiet w -> os_fresh w -> os_dir (w_os w) !! path = Some lino -> os_inodes (w_os w) !! lino = Some (log_image es) ->
  let lfd := os_next_fd (w_os w) in
  let lo := set_fd_pos 6 (mk_ofd lino 0 true (th_pid th)) in
  run th (logdb_log_open path) w = Done (Some (w_next w))
    (alloced (CLog (mk_log lfd (Some path) None)) (put_fd lfd lo (fd_opened lino (mk_open_flags false false true) th w))).
Proof.
  intros Hq (_ & _ & Hfd) Hdir Hi lfd lo. unfold logdb_log_open. pose proof (length_log_image es) as HL.
  rewrite run_bind, run_open, (do_open_exists_quiet _ _ _ _ lino) by done. cbn [o_creat andb].
  fold lfd. rewrite (proj2 (Z.eqb_neq _ _)) by (unfold lfd; lia).
  set (w1 := fd_opened _ _ _ _). set (o := mk_ofd lino 0 true (th_pid th)).
  assert (get_file (fd_ino o) w1 = log_image es) as Hfile 
    by (change (default [] (os_inodes (w_os w) !! lino) = log_image es); by rewrite Hi).
  unfold logdb_log_read. rewrite run_bind, run_bind, (read_quiet _ _ _ _ o); [|done|apply put_fd_get|done|done].
  rewrite Hfile. cbn [fd_pos o]. rewrite (proj2 (Z.leb_le _ _)) by (unfold sizeof_log_header; lia). cbn beta iota.
  change (0 <? 0) with false. change (0 =? -1) with false. cbn [orb]. cbn iota.
  change (file_read 0 sizeof_log_header (log_image es)) with (take 6 (log_image es)). rewrite log_header_image_valid. cbn [negb]. cbn iota.
  rewrite run_ret. change (zlen (take 6 (log_image es))) with 6. 
  refine (log_new_run th lfd path (put_fd lfd lo w1) Hq _). by exists lino.
Qed.

End log.

(** ** Opening *)

Section open.
Context `{Build} (th : thread) (path : string).

(** Both files are there; no entry of the log is locked. *)
Record present (ino lino : Z) (db : list byte) (secs : sections) (w : world) : Prop := mk_present {
  ps_world : world_ok w;
  ps_dir : os_dir (w_os w) !! path = Some ino;
  ps_logdir : os_dir (w_os w) !! log_name path = Some lino;
  ps_ne : ino <> lino;
  ps_db : os_inodes (w_os w) !! ino = Some db;
  ps_stored : stored db secs;
  ps_log : os_inodes (w_os w) !! lino = Some (log_image (sizes secs));
  ps_fcntl k : k ∈ os_fcntl (w_os w) -> fl_ino k <> lino
}.

(** No process is left, but both files are. *)
Record left_behind (ino lino : Z) (db : list byte) (secs : sections) (w : world) : Prop := mk_left_behind {
  lb_world : world_ok w;
  lb_dir : os_dir (w_os w) !! path = Some ino;
  lb_logdir : os_dir (w_os w) !! log_name path = Some lino;
  lb_ne : ino <> lino;
  lb_db : os_inodes (w_os w) !! ino = Some db;
  lb_size : zlen db < 2 ^ 62;
  lb_stored : stored db secs;
  lb_log : os_inodes (w_os w) !! lino = Some (log_image (sizes secs));
  lb_flock k : k ∈ os_flock (w_os w) -> fk_ino k <> ino;
  lb_fcntl k : k ∈ os_fcntl (w_os w) -> fl_ino k <> lino
}.

Lemma left_present ino lino db secs w : left_behind ino lino db secs w -> present ino lino db secs w.
Proof. by intros []. Qed.

(** The world with the log open, whatever locks there are on the database. *)
Section left_ready.
Context (ino lino : Z) (db : list byte) (secs : sections) (fd : Z) (o : ofd) (w w2 : world) (F0 F : list flock_lock).
Context (Hl : present ino lino db secs w) (Ho : get_fd fd w = Some o) (Hino : fd_ino o = ino) (Hpos : 0 <= fd_pos o).
Context (S : scanned fd (set_os (set_os_flock F0 (w_os w)) w) w2).
Context (HF1 : forall k, k ∈ F -> k ∈ os_flock (w_os w) \/ fk_ino k = fd_ino o).

#[local] Abbreviation lfd := (os_next_fd (w_os w)).
#[local] Abbreviation lo := (set_fd_pos 6 (mk_ofd lino 0 true (th_pid th))).

Definition left_world : world :=
  let w3 := alloced (CLog (mk_log lfd (Some (log_name path)) None))
    (put_fd lfd lo (fd_opened lino (mk_open_flags false false true) th w2)) in
  set_os (set_os_flock F (w_os w3)) w3.

(** Its operating system, but for the descriptors. *)
Lemma left_os :
  exists q, 0 <= q /\ w_os w2 = w_os (put_fd fd (set_fd_pos q o) (set_os (set_os_flock F0 (w_os w)) w)) /\
    forall v, v = left_world -> os_inodes (w_os v) = os_inodes (w_os w) /\ os_dir (w_os v) = os_dir (w_os w) /\
      os_fcntl (w_os v) = os_fcntl (w_os w) /\ os_next_ino (w_os v) = os_next_ino (w_os w) /\
      os_env (w_os v) = os_env (w_os w) /\ os_flock (w_os v) = F /\ os_next_fd (w_os v) = lfd + 1.
Proof.
  destruct (sc_os _ _ _ S) as (q & o' & Ho' & Hq0 & Eos). change (get_fd fd w = Some o') in Ho'.
  assert (o' = o) as -> by congruence. exists q. split_and!; [by apply Hq0|done|]. intros v ->.
  change (w_os left_world) with (set_os_flock F (w_os (put_fd lfd lo (fd_opened lino (mk_open_flags false false true) th w2)))).
  unfold put_fd, fd_opened. cbn [w_os set_os]. rewrite Eos. by split_and!.
Qed.

Lemma left_fd_lt : fd < lfd.
Proof.
  destruct (wo_os _ (ps_world _ _ _ _ _ Hl)) as (_ & Hd & _). apply Z.nle_gt. intros Hge. unfold get_fd in Ho. by rewrite Hd in Ho.
Qed.

Lemma left_fds q d :
  w_os w2 = w_os (put_fd fd (set_fd_pos q o) (set_os (set_os_flock F0 (w_os w)) w)) ->
  get_fd d left_world = if decide (d = lfd) then Some lo else if decide (d = fd) then Some (set_fd_pos q o) else get_fd d w.
Proof.
  intros Eos. assert (os_next_fd (w_os w2) = lfd) as Elfd by by rewrite Eos.
  change (get_fd d left_world) with (get_fd d (put_fd lfd lo (fd_opened lino (mk_open_flags false false true) th w2))).
  case_decide as Hdl; [subst; apply put_fd_get|]. rewrite put_fd_get_ne by done. unfold fd_opened. rewrite Elfd, put_fd_get_ne by done.
  change (os_fds (w_os w2) !! d = if decide (d = fd) then Some (set_fd_pos q o) else get_fd d w). rewrite Eos.
  change (get_fd d (put_fd fd (set_fd_pos q o) w) = if decide (d = fd) then Some (set_fd_pos q o) else get_fd d w).
  case_decide as Hdf; [subst; apply put_fd_get|by apply put_fd_get_ne].
Qed.

Lemma left_world_ok : world_ok left_world.
Proof.
  destruct (ps_world _ _ _ _ _ Hl) as [Hq Hf (Hi & Hd & Hd0) Henv Hfc Hfk Htls].
  destruct left_os as (q & Hq0 & Eos & E). pose proof left_fd_lt as Hlt.
  destruct (E left_world eq_refl) as (Ei & _ & Ec & En & Ee & Ef & Enf).
  constructor; [exact (eq_trans (sc_oracle _ _ _ S) Hq)|apply (heap_fresh_alloc (put_fd lfd _ (fd_opened lino _ th w2))); exact (sc_fresh _ _ _ S Hf)| | | | |].
  - unfold os_fresh. rewrite Ei, En, Enf. split_and!; [done| |lia].
    intros d Hd'. change (get_fd d left_world = None). rewrite (left_fds q), !decide_False by (done || lia). apply Hd. lia.
  - unfold no_early_return in *. by rewrite Ee.
  - rewrite Ec, En. exact Hfc.
  - rewrite Ef, En. intros k [Hin| ->]%HF1; [by apply Hfk|]. rewrite Hino. apply Z.nle_gt. intros Hge.
    pose proof (ps_db _ _ _ _ _ Hl) as Edb. by rewrite (Hi ino Hge) in Edb.
  - intros t k x Hx. change (w_tls w2 !! (t, k) = Some x) in Hx. change (k < w_next_key w2).
    rewrite (sc_tls _ _ _ S) in Hx. rewrite (sc_key _ _ _ S). by eapply Htls.
Qed.

Lemma left_ready : log_ready th path fd o secs w (w_next w2) lfd lino left_world.
Proof.
  destruct left_os as (q & Hq0 & Eos & E). pose proof left_fd_lt as Hlt. pose proof (ps_stored _ _ _ _ _ Hl) as Hst.
  assert (get_fd lfd left_world = Some lo) as Elo by by rewrite (left_fds q), decide_True.
  destruct (E left_world eq_refl) as (Ei & Ed & Ec & _). constructor; rewrite ?Ei, ?Ed, ?Ec.
  - exact left_world_ok.
  - exists lo. split; [|done]. constructor; [exact (peek_insert logdb_log_t _ _ _)| | |apply Hst|rewrite length_sizes; pose proof (st_count _ _ Hst); lia].
    + split_and!; [exact Elo| |cbn; lia]. rewrite Ei. eexists. exact (ps_log _ _ _ _ _ Hl).
    + unfold get_file. rewrite Ei. cbn [fd_ino set_fd_pos]. by rewrite (ps_log _ _ _ _ _ Hl).
  - exists q. split; [done|]. by rewrite (left_fds q), decide_False, decide_True by (done || lia).
  - split; [rewrite Hino; apply Hl|lia].
  - done.
  - rewrite Hino. split; apply Hl.
  - intros k Hk. by apply (ps_fcntl _ _ _ _ _ Hl).
  - intros x Hx. pose proof (sc_next _ _ _ S) as Hn. change (w_next w <= w_next w2) in Hn.
    change (<[w_next w2 := CLog (mk_log lfd (Some (log_name path)) None)]> (w_heap w2) !! x = w_heap w !! x).
    rewrite lookup_insert_ne by lia. by apply (sc_heap _ _ _ S).
  - exact (sc_next _ _ _ S).
  - exact (sc_tls _ _ _ S).
Qed.

End left_ready.

(** The log file is taken over, under the exclusive lock. *)
Lemma open_log_left ino lino db secs nosync fd o w :
  left_behind ino lino db secs w -> get_fd fd w = Some o -> fd_ino o = ino -> 0 <= fd_pos o ->
  exists p w5, run th (open_log_file 1 nosync (log_name path) fd) w = Done (Some p) w5 /\
    log_ready th path fd o secs w p (os_next_fd (w_os w)) lino w5 /\ flocked nosync fd ino (os_flock (w_os w5)).
Proof.
  intros Hl Ho Hino Hpos. destruct (lb_world _ _ _ _ _ Hl) as [Hq Hf Hos Henv Hfc Hfk Htls].
  set (F0 := mk_flock fd (fd_ino o) true :: filter (fun k => fk_fd k <> fd) (os_flock (w_os w))).
  set (w1 := set_os (set_os_flock F0 (w_os w)) w).
  assert (get_file (fd_ino o) w1 = db) as Hfile
    by (rewrite Hino; unfold get_file; by rewrite (lb_db _ _ _ _ _ Hl : os_inodes (w_os w1) !! _ = _)).
  assert (forall k, k ∈ os_flock (w_os w) -> fk_ino k <> fd_ino o) as Hno by (rewrite Hino; apply Hl).
  destruct (log_create_exists th (log_name path) lino fd o w1) as (w2 & E2 & S2); [done..|apply Hl|done|rewrite Hfile; apply Hl|].
  destruct (sc_os _ _ _ S2) as (q & o' & Ho' & _ & Eos). change (get_fd fd w = Some o') in Ho'. assert (o' = o) as -> by congruence.
  assert (quiet w2) as Hq2 by by rewrite (sc_oracle _ _ _ S2).
  pose proof (log_open_run th (log_name path) lino (sizes secs) w2 Hq2) as E3. cbn zeta in E3.
  assert (os_next_fd (w_os w2) = os_next_fd (w_os w)) as Elfd by by rewrite Eos.
  rewrite Elfd in E3. specialize (E3 ltac:(split_and!; rewrite Eos; [apply Hos| |apply Hos];
    exact (proj1 (proj2 (os_fresh_put_fd fd o (set_fd_pos q o) w Hos Ho)))) ltac:(rewrite Eos; apply Hl) ltac:(rewrite Eos; apply Hl)).
  set (w3 := alloced _ _) in E3.
  assert (os_flock (w_os w3) = F0) as Efl by (change (os_flock (w_os w2) = F0); by rewrite Eos).
  destruct (open_log_locked th path nosync fd o w (w_next w2) w3 (set_fd_pos q o)) as (F & ER & HF & HF1); [done|done|done| |done| |done| |].
  { cbn [create_locked]. fold F0 w1. rewrite run_bind, E2, run_bind, E3. by rewrite run_ret. }
  { assert (fd <> os_next_fd (w_os w)) as Hne.
    { intros ->. destruct Hos as (_ & Hd & _). unfold get_fd in Ho. by rewrite Hd in Ho by lia. }
    change (get_fd fd (put_fd (os_next_fd (w_os w)) (set_fd_pos 6 (mk_ofd lino 0 true (th_pid th)))
      (fd_opened lino (mk_open_flags false false true) th w2)) = Some (set_fd_pos q o)).
    rewrite put_fd_get_ne by done. unfold fd_opened. rewrite Elfd, put_fd_get_ne by done.
    change (os_fds (w_os w2) !! fd = Some (set_fd_pos q o)). rewrite Eos. apply put_fd_get. }
  { rewrite Efl. apply flocked_take. intros k Hk Hki. by destruct (Hno k Hk). }
  exists (w_next w2), (set_os (set_os_flock F (w_os w3)) w3). split; [done|]. split; [|by rewrite <- Hino].
  eapply left_ready; [by apply left_present|done..|]. intros k [Hk|Hk]%HF1; [|by right].
  rewrite Efl in Hk. apply elem_of_cons in Hk as [->|[_ Hk]%list_elem_of_filter]; auto.
Qed.

(** [logdb_open] recovers the database. *)
Lemma open_left_run ino lino db secs flags w :
  left_behind ino lino db secs w ->
  exists c D w', run th (logdb_open (Some path) flags) w = Done (Some c) w' /\ opened th path ino secs flags c D w w'.
Proof.
  intros Hl. destruct (lb_world _ _ _ _ _ Hl) as [Hq Hf Hos Henv Hfc Hfk Htls].
  set (fd := os_next_fd (w_os w)). set (fl := mk_open_flags (flag_set flags LOGDB_OPEN_CREATE) false false).
  set (w1 := alloced (CBytes (String.list_byte_of_string (log_name path))) w).
  rewrite (open_enter_run th path flags ino w1); [|done| |apply Hos].
  2: { rewrite (do_open_exists_quiet _ _ _ _ ino); [|done|apply Hl]. cbn [o_excl]. by rewrite andb_false_r. }
  fold fl fd. set (o := mk_ofd ino 0 false (th_pid th)).
  assert (get_file ino (fd_opened ino fl th w1) = db) as Hfile
    by (change (default [] (os_inodes (w_os w) !! ino) = db); by rewrite (lb_db _ _ _ _ _ Hl)).
  assert (open_fd fd o (fd_opened ino fl th w1)) as Ho.
  { split_and!; [apply put_fd_get|exists db; apply Hl|done]. }
  rewrite run_bind, (open_header_run th fd flags o); [|done..|].
  2: { cbn [fd_ino o]. rewrite Hfile. apply Hl. }
  cbn [negb]. cbn iota.
  set (w2 := put_fd fd (set_fd_pos 6 o) (fd_opened ino fl th w1)).
  assert (world_ok w2) as Hw2.
  { eapply world_ok_put_fd; [|apply Ho]. apply world_ok_opened, world_ok_alloced. by constructor. }
  assert (left_behind ino lino db secs w2) as Hl2 by (destruct Hl; by constructor).
  destruct (open_log_left ino lino db secs (flag_set flags LOGDB_OPEN_NOSYNC) fd (set_fd_pos 6 o) w2) as (p & w5 & E & Hd & Hfl);
    [done|apply put_fd_get|done..|].
  destruct (open_rest_ready th path fd flags (set_fd_pos 6 o) secs w2 p (os_next_fd (w_os w2)) lino w5 db (w_next w)) as (c & D & w' & E' & Hop & Hos' & _ & Hfd & _);
    [apply Hl|apply Hl|done|apply Hw2|eexists; apply lookup_insert_eq|exact E|exact Hd|].
  exists c, D, w'. split; [exact E'|]. rewrite <- Hos', <- Hfd in Hfl. apply arrived_opened in Hop; [|done].
  destruct Hop as [? ? ? ? ? Hheap Hnew ? ? ?]. constructor; try done.
  - intros x Hx. cbn [w_next set_heap] in *. rewrite Hheap by (change (x < w_next w + 1); lia).
    cbn [w_heap set_heap]. rewrite lookup_delete_ne by lia. change (w_heap w2) with (w_heap w1). apply lookup_insert_ne. lia.
  - change (w_next w + 1 <= c) in Hnew. lia.
Qed.

End open.

(** ** A restart *)

(** After a crash at [v] the files are as the crash left them; the process is a
    new one, and no lock of the old one is left. *)
Record restarted `{Build} (D : desc) (v w : world) : Prop := mk_restarted {
  rs_world : world_ok w;
  rs_dir : os_dir (w_os w) = os_dir (w_os v);
  rs_db : exists db, os_inodes (w_os w) !! d_dbino D = Some db /\ found D v (d_dbino D) db /\ zlen db < 2 ^ 62;
  rs_log : exists log, os_inodes (w_os w) !! d_logino D = Some log /\ found D v (d_logino D) log;
  rs_flock k : k ∈ os_flock (w_os w) -> fk_ino k <> d_dbino D;
  rs_fcntl k : k ∈ os_fcntl (w_os w) -> fl_ino k <> d_logino D
}.

Lemma restarted_left `{Build} path D P v w :
  crash_holds D P v -> restarted D v w -> d_dbino D <> d_logino D ->
  os_dir (w_os v) !! path = Some (d_dbino D) -> os_dir (w_os v) !! log_name path = Some (d_logino D) ->
  exists secs db, P secs /\ left_behind path (d_dbino D) (d_logino D) db secs w.
Proof.
  intros (_ & _ & Hc) [Hw Hd (db & Ei & Hf & Hsz) (log & Ej & Hg) Hk Hl] Hne E1 E2.
  destruct (Hc db log Hf Hg) as (secs & HP & -> & Hst). exists secs, db. split; [done|].
  constructor; try done; by rewrite Hd.
Qed.

Lemma put_outcomes_all secs r s :
  put_outcomes secs r s -> spec_all s = spec_all secs \/ spec_all s ≡ₚ r :: spec_all secs.
Proof.
  intros [->|[->| ->]]; [by left|left|right; apply spec_put_all].
  unfold spec_all. rewrite concat_app. simpl. by rewrite app_nil_r.
Qed.

(** The sample of CrashSpec.v after a crash before the first step. *)
Definition restart_sample (k v : list byte) : world :=
  let w := crash_sample k v in
  mk_world (mk_os (os_dir (w_os w)) (os_inodes (w_os w)) (os_durable (w_os w)) ∅ 3 3 [] [] ∅) ∅ 1 ∅ 0 [] [].

(** ** Properties *)

(** C1. A crash loses at most the record being put: whenever the process stops
    in [logdb_put] - or the machine, when the connection syncs - opening the
    database again succeeds, and it holds the records it held before, with or
    without the new one. *)
Theorem crash_recovery `{Build} th path c D secs w kl vl k v :
  session path c D secs w -> synced D w -> current_txn th D w = None ->
  user_buffer (w_heap w) kl k -> user_buffer (w_heap w) vl v -> fits secs (k, v) = true ->
  always th (fun x => forall th' flags w0, restarted D x w0 ->
      exists c' D' secs' w', run th' (logdb_open (Some path) flags) w0 = Done (Some c') w' /\
        session path c' D' secs' w' /\
        (spec_all secs' = spec_all secs \/ spec_all secs' ≡ₚ (k, v) :: spec_all secs))
    (logdb_put (Some c) (Some kl) (Some vl)) w.
Proof.
  intros Hs Hsy Hcur Hk Hv Hfit. destruct (se_db _ _ _ _ _ Hs) as [(bs & Hdb & _)].
  destruct (put_safely th c D secs 0 w kl vl k v (se_db _ _ _ _ _ Hs) (se_header _ _ _ _ _ Hs) Hsy Hcur Hk Hv Hfit)
    as (w1 & _ & _ & [_ A] & _).
  eapply always_mono; [|apply always_and; [exact A|apply (keeps_always th dir), dir_put]].
  intros x [Hc Hd] th' flags w0 Hr. unfold dir in Hd.
  destruct (restarted_left path D _ x w0 Hc Hr) as (secs' & db & HP & Hl);
    [apply (ds_ne _ _ _ _ _ _ _ Hdb)|by rewrite Hd; apply Hs|by rewrite Hd; apply Hs|].
  destruct (open_left_run th' path _ _ _ _ flags w0 Hl) as (c' & D' & w' & E & Hop).
  exists c', D', secs', w'. split_and!; [done|apply Hop|by eapply put_outcomes_all].
Qed.

#[local] Existing Instance debug_build.

Lemma crash_sample_session k v : session "t.db" 2 (open_desc 0) [[]] (crash_sample k v).
Proof.
  pose proof (put_sample_session k v 0) as [Hw ? ? ? ? ? ? ?]. constructor; try done; [|apply crash_sample_database].
  destruct Hw. by constructor.
Qed.

Lemma crash_recovery_witness :
  let w := crash_sample [x61] [x62; x63] in let w0 := restart_sample [x61] [x62; x63] in
  restarted (open_desc 0) w w0 /\
  always main_thread (fun x => forall th' flags w0, restarted (open_desc 0) x w0 ->
      exists c' D' secs' w', run th' (logdb_open (Some "t.db") flags) w0 = Done (Some c') w' /\
        session "t.db" c' D' secs' w' /\
        (spec_all secs' = [] \/ spec_all secs' ≡ₚ [([x61], [x62; x63])]))
    (logdb_put (Some 2) (Some 4) (Some 6)) w.
Proof.
  split.
  - constructor; [|done|by exists header_bytes; split_and!; [|left|]|by exists (log_image [0]); split; [|left]|
      by intros x Hx%not_elem_of_nil..].
    constructor; try done; [|by right|by intros x Hx%not_elem_of_nil..].
    split_and!; [|done|done]. intros i Hi. cbn in *. rewrite !lookup_insert_ne by lia. by rewrite ?lookup_singleton_ne by lia.
  - apply (crash_recovery main_thread "t.db" 2 (open_desc 0) [[]] _ 4 6 [x61] [x62; x63]).
    + apply crash_sample_session.
    + by intros _.
    + done.
    + apply (put_sample_buffer [x61] [x62; x63] 0 header_bytes [0]). by left.
    + apply (put_sample_buffer [x61] [x62; x63] 0 header_bytes [0]). by right.
    + done.
Defined.
