(* ===== verification/FaultLogic.v ===== *)
(** * Programs whose calls may fail

    [wp th I p Q w]: run alone from [w], with whatever failures are scheduled
    there, [p] ends without undefined behaviour and without waiting, in a state
    with [Q], and [I] holds at every step.  The rules below are about calls on
    any schedule; [near w w'] collects what calls that only look at the files
    leave as it was, also when they fail. *)

From S2P Require Import Prelude Machine World Posix Io Layout Log LogSpec Silent.

Section logic.
Context (th : thread) (I : world -> Prop).

Fixpoint wp {A : Type} (p : prog A) (Q : A -> world -> Prop) (w : world) : Prop :=
  I w /\
  match p with
  | Ret a => Q a w
  | Step f k =>
      match f th w with
      | Done x w' => wp (k x) Q w'
      | _ => False
      end
  end.

Lemma wp_ret {A} (a : A) Q w : I w -> Q a w -> wp (Ret a) Q w.
Proof. by split. Qed.

Lemma wp_bind {A B} (p : prog A) (q : A -> prog B) Q w :
  wp p (fun a w' => wp (q a) Q w') w -> wp (bind p q) Q w.
Proof.
  revert w. induction p as [a|X f k IH]; intros w; cbn [wp bind]; [by intros [_ ?]|].
  intros [Hi H]. split; [done|]. destruct (f th w); try done. by apply IH.
Qed.

Lemma wp_mono {A} (p : prog A) (Q R : A -> world -> Prop) w :
  wp p Q w -> (forall a w', Q a w' -> R a w') -> wp p R w.
Proof.
  intros H HQR. revert w H. induction p as [a|X f k IH]; intros w; cbn [wp]; intros [Hi H]; (split; [done|]); [by apply HQR|].
  destruct (f th w); try done. by apply IH.
Qed.

(** The invariant holds at the end, too. *)
Lemma wp_inv {A} (p : prog A) Q w : wp p Q w -> wp p (fun a w' => I w' /\ Q a w') w.
Proof.
  revert w. induction p as [a|X f k IH]; intros w; cbn [wp]; intros [Hi H]; (split; [done|]); [done|].
  destruct (f th w); try done. by apply IH.
Qed.

(** What it means. *)
Lemma wp_sound {A} (p : prog A) Q w :
  wp p Q w -> always th I p w /\ exists a w', run th p w = Done a w' /\ Q a w'.
Proof.
  revert w. induction p as [a|X f k IH]; intros w; cbn [wp always run].
  - intros [Hi H]. split; [done|]. by exists a, w.
  - intros [Hi H]. destruct (f th w) as [x w1| | |]; try done. destruct (IH x w1 H) as [Ha He]. by split.
Qed.

Lemma wp_intro {A} (p : prog A) (Q : A -> world -> Prop) w a w' :
  run th p w = Done a w' -> always th I p w -> Q a w' -> wp p Q w.
Proof.
  intros E Ha HQ. revert w E Ha. induction p as [b|X f k IH]; intros w; cbn [wp always run].
  - intros [= -> ->] [Hi _]. done.
  - intros E [Hi Ha]. split; [done|]. destruct (f th w) as [x w1| | |]; try done. by apply IH.
Qed.

(** A part of the program that leaves the files alone. *)
Lemma wp_silent `{OnFiles I} {A} (p : prog A) (Q : A -> world -> Prop) w a w' :
  run th p w = Done a w' -> silent p -> I w -> (files w' = files w -> Q a w') -> wp p Q w.
Proof.
  intros E Hs Hi HQ. eapply wp_intro; [done|by apply silent_always|]. apply HQ. by eapply keeps_run.
Qed.

End logic.

(** ** Calls that look at the files *)

Record near (w w' : world) : Prop := mk_near {
  nr_files : files w' = files w;
  nr_fcntl : os_fcntl (w_os w') = os_fcntl (w_os w);
  nr_fd d o : get_fd d w = Some o -> 0 <= fd_pos o -> exists q, 0 <= q /\ get_fd d w' = Some (set_fd_pos q o);
  nr_fresh : heap_fresh w -> heap_fresh w';
  nr_heap : heap_fresh w -> w_heap w ⊆ w_heap w'
}.

#[export] Instance near_preorder : PreOrder near.
Proof.
  split.
  - intros w. constructor; try done. intros d o Ho Hp. exists (fd_pos o). by rewrite set_fd_pos_id.
  - intros a b c [] []. constructor; try congruence; [|by auto|intros Hf; etrans; auto].
    intros d o Ho Hp. destruct (nr_fd0 d o Ho Hp) as (q & Hq & Hd). destruct (nr_fd1 _ _ Hd Hq) as (q' & Hq' & Hd').
    exists q'. by rewrite set_fd_pos_twice in Hd'.
Qed.

Lemma near_file w w' i : near w w' -> get_file i w' = get_file i w.
Proof. intros [[= _ Ei _] _ _ _ _]. unfold get_file. by rewrite Ei. Qed.

Lemma near_peek T `{Cell T} w w' l (t : T) : near w w' -> heap_fresh w -> peek T (w_heap w) l = Some t -> peek T (w_heap w') l = Some t.
Proof.
  intros Hn Hf Hp. unfold peek in *. destruct (w_heap w !! l) as [x|] eqn:E; [|done].
  by rewrite (lookup_weaken _ _ _ _ E (nr_heap _ _ Hn Hf)).
Qed.

Lemma near_oracle fs w : near w (set_oracle fs w).
Proof. constructor; try done. intros d o Ho Hp. exists (fd_pos o). by rewrite set_fd_pos_id. Qed.

Lemma near_pos w fd o q : get_fd fd w = Some o -> 0 <= q -> near w (put_fd fd (set_fd_pos q o) w).
Proof.
  intros Ho Hq. constructor; try done. intros d o' Hd Hp. destruct (decide (fd = d)) as [<-|Hne].
  - exists q. rewrite put_fd_get. split; [done|congruence].
  - exists (fd_pos o'). by rewrite put_fd_get_ne, set_fd_pos_id.
Qed.

Lemma near_alloced w c : near w (alloced c w).
Proof.
  constructor; try done.
  - intros d o Ho Hp. exists (fd_pos o). by rewrite set_fd_pos_id.
  - by apply heap_fresh_alloc.
  - intros Hf. cbn [alloced w_heap set_next set_heap]. apply insert_subseteq, Hf. lia.
Qed.

(** Blocks that are newer than [w]. *)
Lemma near_free w w' l : near w w' -> w_heap w !! l = None -> near w (set_heap (delete l (w_heap w')) w').
Proof.
  intros [] Hl. constructor; try done.
  - intros Hf. apply (heap_fresh_delete w'). auto.
  - intros Hf. apply map_subseteq_spec. intros x y Ex. cbn [w_heap set_heap].
    rewrite lookup_delete_ne by congruence. eapply lookup_weaken; [done|auto].
Qed.

Lemma near_store w w' l c : near w w' -> w_heap w !! l = None -> is_Some (w_heap w' !! l) -> near w (set_heap (<[l := c]> (w_heap w')) w').
Proof.
  intros [] Hl Hs. constructor; try done.
  - intros Hf. apply (heap_fresh_store w' l c); auto.
  - intros Hf. apply map_subseteq_spec. intros x y Ex. cbn [w_heap set_heap].
    rewrite lookup_insert_ne by congruence. eapply lookup_weaken; [done|auto].
Qed.

(** ** Rules *)

Section rules.
Context (th : thread) (I : world -> Prop) `{OnFiles I}.

Lemma near_on_files w w' : near w w' -> I w -> I w'.
Proof. intros Hn. apply on_files, Hn. Qed.

(** One call on an open descriptor. *)
Lemma wp_with_fd {X} fd (err : X) (k : fault -> ofd -> world -> outcome X) Q w o :
  get_fd fd w = Some o -> I w ->
  (forall fs, Q err (set_oracle fs w)) ->
  (forall f fs x w', k f o (set_oracle fs w) = Done x w' -> I w' /\ Q x w') ->
  (forall f fs, exists x w', k f o (set_oracle fs w) = Done x w') ->
  wp th I (prim (fun _ w => with_fd fd err w k)) Q w.
Proof.
  intros Ho Hi Herr Hk Hd. unfold prim. cbn [wp]. split; [done|]. apply (with_fd_cases _ _ _ _ o); [done|..].
  - intros fs _ _. split; [|apply Herr]. eapply near_on_files; [apply near_oracle|done].
  - intros f fs _. destruct (Hd f fs) as (x & w' & E). rewrite E. by apply (Hk f fs).
Qed.

Lemma wp_lseek fd off wh (Q : Z -> world -> Prop) w o :
  get_fd fd w = Some o -> I w ->
  let pos := match wh with SEEK_SET => 0 | SEEK_CUR => fd_pos o | SEEK_END => zlen (get_file (fd_ino o) w) end + off in
  (forall r w', near w w' -> r = -1 \/ r = pos /\ 0 <= pos /\ get_fd fd w' = Some (set_fd_pos pos o) -> Q r w') ->
  wp th I (sys_lseek fd off wh) Q w.
Proof.
  intros Ho Hi pos HQ. unfold sys_lseek, do_lseek. apply (wp_with_fd _ _ _ _ _ o); [done..| | |].
  - intros fs. by apply HQ; [apply near_oracle|left].
  - intros f fs x w' E. change (get_file _ (set_oracle fs w)) with (get_file (fd_ino o) w) in E. fold pos in E.
    destruct (Z.ltb_spec pos 0); injection E as <- <-.
    + pose proof (near_oracle fs w) as Hn. split; [by eapply near_on_files|by apply HQ; [|left]].
    + assert (near w (put_fd fd (set_fd_pos pos o) (set_oracle fs w))) as Hn.
      { etrans; [apply near_oracle|by apply near_pos]. }
      split; [by eapply near_on_files|]. apply HQ; [done|right]. split_and!; [done..|apply put_fd_get].
  - intros f fs. destruct (_ <? 0); eauto.
Qed.

Lemma wp_alloc {T} `{Cell T} (t : T) (Q : ptr -> world -> Prop) w :
  I w -> heap_fresh w ->
  (forall p w', near w w' -> (forall l, p = Some l -> w_heap w !! l = None /\ w_heap w' !! l = Some (to_cell t)) -> Q p w') ->
  wp th I (alloc t) Q w.
Proof.
  intros Hi Hf HQ. unfold alloc, prim. cbn [wp]. split; [done|]. unfold do_alloc.
  destruct (next_fault_spec w) as (f & fs & -> & _). pose proof (near_oracle fs w) as Hn.
  assert (I (alloced (to_cell t) (set_oracle fs w)) /\ Q (Some (w_next w)) (alloced (to_cell t) (set_oracle fs w))) as Hok.
  { assert (near w (alloced (to_cell t) (set_oracle fs w))) as Hn' by (etrans; [exact Hn|apply near_alloced]).
    split; [by eapply near_on_files|]. apply HQ; [done|]. intros l [= <-]. split; [apply Hf; lia|apply lookup_insert_eq]. }
  destruct f; [exact Hok..|]. split; [by eapply near_on_files|]. by apply HQ.
Qed.

(** A read that succeeds has read everything. *)
Lemma wp_io_read fd sz (Q : Z * list byte -> world -> Prop) w o :
  get_fd fd w = Some o -> 0 <= fd_pos o -> 0 < sz < 2 ^ 63 -> I w ->
  let bs := get_file (fd_ino o) w in
  (forall r d w', near w w' -> -1 <= r ->
    (r = 0 -> d = file_read (fd_pos o) sz bs /\ fd_pos o + sz <= zlen bs /\ get_fd fd w' = Some (set_fd_pos (fd_pos o + sz) o)) -> Q (r, d) w') ->
  wp th I (logdb_io_read fd sz) Q w.
Proof.
  intros Ho Hp Hsz Hi bs HQ. unfold logdb_io_read.
  destruct (io_read_loop_spec th fd (Z.to_nat sz) sz None [] w o) as (n & r & fs & E & _ & Hn & Hl & Hr); [done..|lia|done|lia|].
  eapply wp_silent; [exact _|exact E|apply silent_read_loop|done|]. intros _. rewrite app_nil_l. apply HQ.
  - etrans; [apply (near_oracle fs)|]. apply (near_pos (set_oracle fs w)); [done|lia].
  - destruct Hr; lia.
  - fold bs in Hl, Hr. intros ->. rewrite put_fd_get. pose proof (file_read_length (fd_pos o) n bs ltac:(lia) ltac:(lia)).
    remember 0 as z eqn:Ez in Hr. destruct Hr; [subst|lia..]. split_and!; [done|lia|done].
Qed.

(** Calls on locks change nothing but locks. *)
Record locks_only (w w' : world) : Prop := mk_locks_only {
  lk_files : files w' = files w;
  lk_heap : w_heap w' = w_heap w;
  lk_next : w_next w' = w_next w;
  lk_fds : os_fds (w_os w') = os_fds (w_os w)
}.

(** A lock that no other process is in the way of. *)
Lemma wp_setlkw fd op s n (Q : Z -> world -> Prop) w o :
  get_fd fd w = Some o -> I w ->
  existsb (fcntl_conflict (fd_ino o) (fd_pid o) op s (if n =? 0 then None else Some (s + n))) (os_fcntl (w_os w)) = false ->
  (forall r w', locks_only w w' -> Q r w') ->
  wp th I (sys_fcntl_setlkw fd op s n) Q w.
Proof.
  intros Ho Hi Hc HQ. unfold sys_fcntl_setlkw, do_setlk. apply (wp_with_fd _ _ _ _ _ o); [done..| | |].
  - intros fs. by apply HQ.
  - intros f fs x w'. change (os_fcntl (w_os (set_oracle fs w))) with (os_fcntl (w_os w)). rewrite Hc. intros [= <- <-].
    split; [by apply (on_files w)|by apply HQ].
  - intros f fs. change (os_fcntl (w_os (set_oracle fs w))) with (os_fcntl (w_os w)). rewrite Hc. eauto.
Qed.

Lemma wp_unlock fd s n (Q : Z -> world -> Prop) w :
  I w -> (forall r w', locks_only w w' -> Q r w') -> wp th I (sys_fcntl_setlk fd F_UNLCK s n) Q w.
Proof.
  intros Hi HQ. unfold sys_fcntl_setlk, do_setlk, with_fd, prim. cbn [wp]. split; [done|].
  destruct (next_fault_spec w) as (f & fs & -> & _).
  assert (locks_only w (set_oracle fs w)) as Hl by done.
  assert (I (set_oracle fs w)) as Hi' by by apply (on_files w).
  destruct f, (get_fd fd (set_oracle fs w)) as [o|]; try (by split; [|apply HQ]).
  all: destruct (existsb _ _); by split; [apply (on_files w)|apply HQ].
Qed.

Lemma wp_flock_ex_nb fd (Q : Z -> world -> Prop) w :
  I w -> (forall r w', locks_only w w' -> os_fcntl (w_os w') = os_fcntl (w_os w) -> Q r w') -> wp th I (sys_flock_ex_nb fd) Q w.
Proof.
  intros Hi HQ. unfold sys_flock_ex_nb, do_flock, with_fd, prim. cbn [wp]. split; [done|].
  destruct (next_fault_spec w) as (f & fs & -> & _).
  assert (I (set_oracle fs w)) as Hi' by by apply (on_files w).
  destruct f, (get_fd fd (set_oracle fs w)) as [o|]; try (by split; [|apply HQ]).
  all: destruct (existsb _ _); by split; [apply (on_files w)|apply HQ].
Qed.

(** ** Calls that change a file *)

Lemma wp_ftruncate fd len (Q : Z -> world -> Prop) w o :
  get_fd fd w = Some o -> 0 <= len -> I w -> (forall fs, Q (-1) (set_oracle fs w)) ->
  (forall fs, let w' := put_file (fd_ino o) (resize len (get_file (fd_ino o) w)) (set_oracle fs w) in I w' /\ Q 0 w') ->
  wp th I (sys_ftruncate fd len) Q w.
Proof.
  intros Ho Hl Hi H1 H2. unfold sys_ftruncate, do_ftruncate. apply (wp_with_fd _ _ _ _ _ o); [done..| |].
  - intros f fs x w'. rewrite (proj2 (Z.ltb_ge _ _)) by done. intros [= <- <-]. apply H2.
  - intros f fs. rewrite (proj2 (Z.ltb_ge _ _)) by done. eauto.
Qed.

Lemma wp_unlink path (Q : Z -> world -> Prop) w :
  I w -> (forall fs, Q (-1) (set_oracle fs w)) ->
  (forall fs, let w' := set_os (set_os_dir (delete path (os_dir (w_os w))) (w_os w)) (set_oracle fs w) in I w' /\ Q 0 w') ->
  wp th I (sys_unlink path) Q w.
Proof.
  intros Hi H1 H2. unfold sys_unlink, do_unlink, prim. cbn [wp]. split; [done|].
  destruct (next_fault_spec w) as (f & fs & -> & _). assert (I (set_oracle fs w)) as Hi' by by apply (on_files w).
  destruct f, (os_dir (w_os (set_oracle fs w)) !! path); (split; [|by apply H1]) || apply H2; done.
Qed.

(** The file and the position after [n] bytes of [data] were written. *)
Definition written (fd : Z) (o : ofd) (data : list byte) (w : world) (n : Z) (fs : list fault) : world :=
  put_fd fd (set_fd_pos (fd_pos o + n) o)
    (put_file (fd_ino o) (file_write (fd_pos o) (take (Z.to_nat n) data) (get_file (fd_ino o) w)) (set_oracle fs w)).

Lemma written_none fd o data w fs : open_fd fd o w -> written fd o data w 0 fs = set_oracle fs w.
Proof.
  intros Ho. unfold written. rewrite take_0, file_write_nil, Z.add_0_r, set_fd_pos_id.
  change (get_file (fd_ino o) w) with (get_file (fd_ino o) (set_oracle fs w)). rewrite put_file_id by apply Ho.
  apply put_fd_id. apply Ho.
Qed.

Lemma written_more fd o data w n m fs fs' :
  open_fd fd o w -> 0 <= n <= zlen data -> 0 <= m ->
  written fd (set_fd_pos (fd_pos o + n) o) (drop (Z.to_nat n) data) (written fd o data w n fs) m fs' =
    written fd o data w (n + m) fs'.
Proof.
  intros Ho Hn Hm. unfold written. cbn [fd_ino fd_pos set_fd_pos]. rewrite put_fd_get_file, put_file_get.
  rewrite file_write_split by (apply Ho || lia). rewrite set_fd_pos_twice, Z.add_assoc.
  change (set_oracle fs' (put_fd ?j ?c (put_file ?i ?b (set_oracle fs w)))) with (put_fd j c (put_file i b (set_oracle fs' w))).
  by rewrite put_fd_put_file, put_file_twice, put_fd_twice.
Qed.

Lemma wp_io_write_loop fuel fd data (Q : Z -> world -> Prop) w o :
  (length data <= fuel)%nat -> open_fd fd o w -> fd_append o = false ->
  (forall n fs, 0 <= n <= zlen data -> I (written fd o data w n fs)) ->
  (forall n fs, 0 <= n <= zlen data -> Q (zlen data - n) (written fd o data w n fs)) ->
  wp th I (io_write_loop fuel fd data (zlen data)) Q w.
Proof.
  revert data w o. induction fuel as [|fuel IH]; intros data w o Hf Ho Happ HI HQ; cbn [io_write_loop].
  all: pose proof (HI 0 (w_oracle w) ltac:(lia)) as Hi; rewrite written_none, set_oracle_id in Hi by done.
  all: destruct (Z.ltb_spec 0 (zlen data)) as [Hp|Hp]; [try (exfalso; lia)|].
  1,3: apply wp_ret; [done|]; pose proof (HQ 0 (w_oracle w) ltac:(lia)) as HQ0;
    rewrite written_none, set_oracle_id, Z.sub_0_r in HQ0 by done; exact HQ0.
  apply wp_bind. unfold sys_write, prim. cbn [wp]. split; [done|].
  destruct (do_write_call fd data w o) as (fs & _ & [[_ ->]|(n & -> & Hn)]); [apply Ho|done|by intros ->|..].
  - pose proof (HI 0 fs ltac:(lia)) as Hi'. pose proof (HQ 0 fs ltac:(lia)) as HQ'. rewrite written_none in Hi', HQ' by done.
    rewrite Z.sub_0_r in HQ'. split; [done|]. by apply wp_ret.
  - assert (zlen (take (Z.to_nat n) data) = n) as -> by (rewrite length_take; lia).
    change (put_fd fd _ _) with (written fd o data w n fs). split; [apply HI; lia|]. rewrite (proj2 (Z.ltb_lt _ _)) by lia.
    set (o' := set_fd_pos (fd_pos o + n) o).
    assert (zlen data - n = zlen (drop (Z.to_nat n) data)) as El by (rewrite length_drop; lia). rewrite El.
    apply (IH _ _ o'); [rewrite length_drop; lia| |done|..].
    + apply open_fd_put_fd; [|destruct Ho as (_ & _ & ?); lia]. apply open_fd_put_file, open_fd_set_oracle, Ho.
    + intros m fs' Hm. unfold o'. rewrite written_more by (done || lia). apply HI. lia.
    + intros m fs' Hm. unfold o'. rewrite written_more by (done || lia).
      replace (_ - m) with (zlen data - (n + m)) by lia. apply HQ. lia.
Qed.

(** Any part of the data may have been written; a result of 0 says all of it. *)
Lemma wp_io_write fd data (Q : Z -> world -> Prop) w o :
  open_fd fd o w -> fd_append o = false ->
  (forall n fs, 0 <= n <= zlen data -> I (written fd o data w n fs)) ->
  (forall n fs, 0 <= n <= zlen data -> Q (zlen data - n) (written fd o data w n fs)) ->
  wp th I (logdb_io_write fd data) Q w.
Proof. intros. by apply (wp_io_write_loop _ fd data Q w o). Qed.

(** The file after [n] bytes of [data] were written at [off]. *)
Definition pwritten (ino off : Z) (data : list byte) (w : world) (n : Z) (fs : list fault) : world :=
  put_file ino (file_write off (take (Z.to_nat n) data) (get_file ino w)) (set_oracle fs w).

Lemma pwritten_none ino off data w fs : is_Some (os_inodes (w_os w) !! ino) -> pwritten ino off data w 0 fs = set_oracle fs w.
Proof.
  intros Hs. unfold pwritten. rewrite take_0, file_write_nil. change (get_file ino w) with (get_file ino (set_oracle fs w)).
  by rewrite put_file_id.
Qed.

Lemma pwritten_more ino off data w n m fs fs' :
  0 <= off -> 0 <= n <= zlen data -> 0 <= m ->
  pwritten ino (off + n) (drop (Z.to_nat n) data) (pwritten ino off data w n fs) m fs' = pwritten ino off data w (n + m) fs'.
Proof.
  intros Hoff Hn Hm. unfold pwritten. rewrite put_file_get, file_write_split by lia.
  change (set_oracle fs' (put_file ?i ?b (set_oracle fs w))) with (put_file i b (set_oracle fs' w)). by rewrite put_file_twice.
Qed.

Lemma wp_io_pwrite_loop fuel fd data off (Q : Z -> world -> Prop) w o :
  (length data <= fuel)%nat -> open_fd fd o w -> 0 <= off ->
  (forall n fs, 0 <= n <= zlen data -> I (pwritten (fd_ino o) off data w n fs)) ->
  (forall n fs, 0 <= n <= zlen data -> Q (zlen data - n) (pwritten (fd_ino o) off data w n fs)) ->
  wp th I (io_pwrite_loop fuel fd data (zlen data) off) Q w.
Proof.
  revert data off w. induction fuel as [|fuel IH]; intros data off w Hf Ho Hoff HI HQ; cbn [io_pwrite_loop].
  all: pose proof (HI 0 (w_oracle w) ltac:(lia)) as Hi; rewrite pwritten_none, set_oracle_id in Hi by apply Ho.
  all: destruct (Z.ltb_spec 0 (zlen data)) as [Hp|Hp]; [try (exfalso; lia)|].
  1,3: apply wp_ret; [done|]; pose proof (HQ 0 (w_oracle w) ltac:(lia)) as HQ0;
    rewrite pwritten_none, set_oracle_id, Z.sub_0_r in HQ0 by apply Ho; exact HQ0.
  apply wp_bind. unfold sys_pwrite, prim. cbn [wp]. split; [done|].
  destruct (do_pwrite_call fd data off w o) as (fs & _ & [[_ ->]|(n & -> & Hn)]); [apply Ho|done|by intros ->|..].
  - pose proof (HI 0 fs ltac:(lia)) as Hi'. pose proof (HQ 0 fs ltac:(lia)) as HQ'. rewrite pwritten_none in Hi', HQ' by apply Ho.
    rewrite Z.sub_0_r in HQ'. split; [done|]. by apply wp_ret.
  - change (put_file (fd_ino o) _ (set_oracle fs w)) with (pwritten (fd_ino o) off data w n fs). split; [apply HI; lia|].
    rewrite (proj2 (Z.ltb_lt _ _)) by lia. assert (zlen data - n = zlen (drop (Z.to_nat n) data)) as El by (rewrite length_drop; lia).
    rewrite El. apply IH; [rewrite length_drop; lia|by apply open_fd_put_file, open_fd_set_oracle|lia|..].
    + intros m fs' Hm. rewrite pwritten_more by lia. apply HI. lia.
    + intros m fs' Hm. rewrite pwritten_more by lia. replace (_ - m) with (zlen data - (n + m)) by lia. apply HQ. lia.
Qed.

Lemma wp_io_pwrite fd data off (Q : Z -> world -> Prop) w o :
  open_fd fd o w -> 0 <= off ->
  (forall n fs, 0 <= n <= zlen data -> I (pwritten (fd_ino o) off data w n fs)) ->
  (forall n fs, 0 <= n <= zlen data -> Q (zlen data - n) (pwritten (fd_ino o) off data w n fs)) ->
  wp th I (logdb_io_pwrite fd data off) Q w.
Proof. intros. by apply (wp_io_pwrite_loop _ fd data off Q w o). Qed.

(** A file put on the disk as it is. *)
Definition fsynced (ino : Z) (w : world) : world :=
  set_os (set_os_durable (<[ino := get_file ino w]> (os_durable (w_os w))) (w_os w)) w.

Lemma wp_fsync fd (Q : Z -> world -> Prop) w o :
  get_fd fd w = Some o -> I w -> (forall fs, Q (-1) (set_oracle fs w)) ->
  (forall fs, let w' := fsynced (fd_ino o) (set_oracle fs w) in I w' /\ Q 0 w') -> wp th I (sys_fsync fd) Q w.
Proof.
  intros Ho Hi H1 H2. unfold sys_fsync, do_fsync. apply (wp_with_fd _ _ _ _ _ o); [done..| |eauto].
  intros f fs x w' [= <- <-]. apply H2.
Qed.

End rules.
