(* ===== verification/Restart.v ===== *)
(** * A crash while the database is opened

    [logdb_open] creates the log; a process may stop at any step of it.
    [restartable] lists the states of the two files that [logdb_open] and
    [logdb_close] (Closing.v) go through: closed, with a whole log next to the
    database, or with a log file whose header was not written yet.  From each of
    them [logdb_open] gets back to a session with the same records.  (After a
    crash of the machine that is not so: the merge removes the log before the
    database file is on the disk.) *)

From S2P Require Import Prelude Machine World Posix Io Layout Log LogSpec Buffer.
From S2P Require Import BufferSpec LogLock LockSpec DbState Lease LeaseSpec Txn Silent TxnSpec Iter.
From S2P Require Import IterSpec Database CrashSpec Connection ConnSpec Recovery.

(** ** A log without its header *)

(** The log file removed. *)
Definition unlinked (name : string) (w : world) : world :=
  set_os (set_os_dir (delete name (os_dir (w_os w))) (w_os w)) w.

Section torn.
Context `{Build} (th : thread) (path : string).

(** A process crashed while it created the log: without the log file, the
    database would be a closed one. *)
Record torn (ino lino : Z) (secs : sections) (w : world) : Prop := mk_torn {
  tn_closed : closed_db path ino secs (unlinked (log_name path) w);
  tn_logdir : os_dir (w_os w) !! log_name path = Some lino;
  tn_log : exists log, os_inodes (w_os w) !! lino = Some log /\ log_header_valid (take 6 log) = false
}.

Lemma torn_world ino lino secs w : torn ino lino secs w -> world_ok w.
Proof. intros [[[]]]. by constructor. Qed.

(** [logdb_log_open] opens the file and closes it again. *)
Lemma log_open_torn_run name lino log w :
  quiet w -> os_fresh w -> os_dir (w_os w) !! name = Some lino -> os_inodes (w_os w) !! lino = Some log ->
  log_header_valid (take 6 log) = false ->
  let lfd := os_next_fd (w_os w) in
  exists o, fd_ino o = lino /\ run th (logdb_log_open name) w =
    Done None (fd_closed lfd o (put_fd lfd o (fd_opened lino (mk_open_flags false false true) th w))).
Proof.
  intros Hq (_ & _ & Hfd) Hdir Hi Hv lfd. unfold logdb_log_open.
  rewrite run_bind, run_open, (do_open_exists_quiet _ _ _ _ lino) by done. cbn [o_creat andb].
  fold lfd. rewrite (proj2 (Z.eqb_neq _ _)) by (unfold lfd; lia).
  set (w1 := fd_opened _ _ _ _). set (o := mk_ofd lino 0 true (th_pid th)).
  assert (get_file (fd_ino o) w1 = log) as Hfile
    by (change (default [] (os_inodes (w_os w) !! lino) = log); by rewrite Hi).
  unfold logdb_log_read. rewrite run_bind, run_bind, (read_quiet _ _ _ _ o); [|done|apply put_fd_get|done|done].
  rewrite Hfile. cbn [fd_pos o]. change (file_read 0 sizeof_log_header log) with (take 6 log). rewrite Hv. cbn [negb].
  rewrite orb_true_r. replace (0 <? (if 0 + sizeof_log_header <=? zlen log then 0 else -1)) with false by by destruct (_ <=? _).
  cbn iota. rewrite run_ret, run_bind, run_close. eexists (set_fd_pos _ o). split; [done|].
  by erewrite do_close_run by apply put_fd_get.
Qed.

(** What that leaves: the descriptor number is used up. *)
Lemma opened_closed_fds fd lino fl o w :
  os_fresh w -> get_fd fd (fd_closed (os_next_fd (w_os w)) o (put_fd (os_next_fd (w_os w)) o (fd_opened lino fl th w))) = get_fd fd w.
Proof.
  intros (_ & Hd & _). set (lfd := os_next_fd (w_os w)). destruct (decide (lfd = fd)) as [<-|Hne].
  - rewrite get_fd_closed. symmetry. by apply Hd.
  - rewrite get_fd_closed_ne, put_fd_get_ne by done. unfold fd_opened. fold lfd. by rewrite put_fd_get_ne.
Qed.

Lemma world_ok_closed fd o w : world_ok w -> world_ok (fd_closed fd o w).
Proof.
  intros []. constructor; try done.
  - by apply os_fresh_closed.
  - intros k [_ Hk]%list_elem_of_filter. by apply wo_fcntl.
  - intros k [_ Hk]%list_elem_of_filter. by apply wo_flock.
Qed.

Lemma world_ok_scanned fd o w v : world_ok w -> get_fd fd w = Some o -> scanned fd w v -> world_ok v.
Proof.
  intros Hw Ho S. destruct (sc_os _ _ _ S) as (q & o' & Ho' & _ & Eos). assert (o' = o) as -> by congruence.
  pose proof (world_ok_put_fd fd o (set_fd_pos q o) w Hw Ho) as [H1 H2 H3 H4 H5 H6 H7]. constructor; rewrite ?Eos; try done.
  - by rewrite (sc_oracle _ _ _ S).
  - apply (sc_fresh _ _ _ S), Hw.
  - unfold os_fresh. by rewrite Eos.
  - unfold no_early_return. by rewrite Eos.
  - intros t k p. rewrite (sc_tls _ _ _ S), (sc_key _ _ _ S). apply H7.
Qed.

(** Preparing the log, seen from an earlier world. *)
Lemma log_ready_base fd o secs v w p lfd lino w5 :
  log_ready th path fd o secs v p lfd lino w5 -> w_next w <= w_next v ->
  (forall x, x < w_next w -> w_heap v !! x = w_heap w !! x) ->
  os_inodes (w_os v) !! fd_ino o = os_inodes (w_os w) !! fd_ino o -> w_tls v = w_tls w ->
  log_ready th path fd o secs w p lfd lino w5.
Proof.
  intros [] Hn Hh Hi Ht. constructor; try done; try congruence; [|lia].
  intros x Hx. rewrite lr_heap by lia. by apply Hh.
Qed.

(** The log was given up: what is left of it is a used descriptor number. *)
Record dropped (fd : Z) (o : ofd) (w w' : world) : Prop := mk_dropped {
  dr_world : world_ok w';
  dr_fd : exists q, 0 <= q /\ get_fd fd w' = Some (set_fd_pos q o);
  dr_dir : os_dir (w_os w') = delete (log_name path) (os_dir (w_os w));
  dr_inodes : os_inodes (w_os w') = os_inodes (w_os w);
  dr_flock : os_flock (w_os w') = filter (fun k => fk_fd k <> os_next_fd (w_os w)) (os_flock (w_os w));
  dr_next : w_next w <= w_next w';
  dr_heap x : x < w_next w -> w_heap w' !! x = w_heap w !! x;
  dr_tls : w_tls w' = w_tls w
}.

(** The first round: the log can be neither created nor opened. *)
Lemma create_drops_run lino log fd o w :
  world_ok w -> get_fd fd w = Some o -> 0 <= fd_pos o -> zlen (get_file (fd_ino o) w) < 2 ^ 62 ->
  os_dir (w_os w) !! log_name path = Some lino -> os_inodes (w_os w) !! lino = Some log ->
  log_header_valid (take 6 log) = false ->
  exists w', run th (create_locked 1 (log_name path) fd) w = run th (create_locked 0 (log_name path) fd) w' /\ dropped fd o w w'.
Proof.
  intros Hw Ho Hpos Hsz Hdir Hi Hv. destruct Hw as [Hq Hf Hos ????] eqn:EHw. clear EHw.
  destruct (log_create_exists th (log_name path) lino fd o w Hq Hf Hdir Ho Hsz) as (w2 & E2 & S).
  destruct (sc_os _ _ _ S) as (q & o' & Ho' & Hq0 & Eos). assert (o' = o) as -> by congruence.
  pose proof (world_ok_scanned fd o w w2 Hw Ho S) as Hw2.
  destruct (log_open_torn_run (log_name path) lino log w2) as (lo & Hlo & E3); [apply Hw2|apply Hw2|by rewrite Eos..|done|].
  assert (os_next_fd (w_os w2) = os_next_fd (w_os w)) as Elfd by by rewrite Eos.
  set (w3 := fd_closed _ _ _) in E3. assert (quiet w3) as Hq3 by apply Hw2.
  assert (os_dir (w_os w3) = os_dir (w_os w)) as Edir by (change (os_dir (w_os w2) = os_dir (w_os w)); by rewrite Eos).
  exists (unlinked (log_name path) w3). split.
  { cbn [create_locked]. rewrite run_bind, E2, run_bind, E3. cbn iota. rewrite run_bind, run_unlink, do_unlink_quiet by (done || by rewrite Edir, Hdir).
    done. }
  constructor.
  - assert (world_ok w3) as [].
    { apply world_ok_closed. eapply world_ok_put_fd; [by apply world_ok_opened|]. apply put_fd_get. }
    by constructor.
  - exists q. split; [by apply Hq0|]. change (get_fd fd w3 = Some (set_fd_pos q o)). unfold w3.
    rewrite opened_closed_fds by apply Hw2. unfold get_fd. rewrite Eos. apply put_fd_get.
  - cbn [unlinked w_os set_os os_dir set_os_dir]. by rewrite Edir.
  - change (os_inodes (w_os w2) = os_inodes (w_os w)). by rewrite Eos.
  - change (filter (fun k => fk_fd k <> os_next_fd (w_os w2)) (os_flock (w_os w2)) =
      filter (fun k => fk_fd k <> os_next_fd (w_os w)) (os_flock (w_os w))). by rewrite Eos.
  - exact (sc_next _ _ _ S).
  - exact (sc_heap _ _ _ S).
  - exact (sc_tls _ _ _ S).
Qed.

(** The second round creates it from the database. *)
Lemma create_again_run secs fd o w :
  world_ok w -> get_fd fd w = Some o -> os_dir (w_os w) !! log_name path = None ->
  db_has_log (sizes secs) (get_file (fd_ino o) w) \/ secs = [] /\ zlen (get_file (fd_ino o) w) < LOGDB_MIN_SIZE ->
  exists p q w5, run th (create_locked 0 (log_name path) fd) w = Done (Some p) w5 /\ 0 <= q /\
    create_done (log_name path) (sizes secs) th (w_heap w) (put_fd fd (set_fd_pos q o) w) p w5.
Proof.
  intros [Hq Hf Hos Henv ???] Ho Hdir Hlog.
  destruct (log_create_either_run th (log_name path) (sizes secs) fd o w) as (p & q & w5 & E & Hd); [done..| |].
  { destruct Hlog as [Hlog|[-> Hsz]]; [by left|by right]. }
  exists p, q, w5. split; [|done]. cbn [create_locked]. by rewrite run_bind, E, run_ret.
Qed.

Lemma world_ok_flock F w : world_ok w -> (forall k, k ∈ F -> fk_ino k < os_next_ino (w_os w)) -> world_ok (set_os (set_os_flock F (w_os w)) w).
Proof. intros [] HF. by constructor. Qed.

Lemma closed_ino_lt ino secs w : closed_db path ino secs w -> ino < os_next_ino (w_os w).
Proof.
  intros Hc. destruct (cl_file _ _ _ _ Hc) as [bs E]. destruct (wo_os _ (cl_world _ _ _ _ Hc)) as (Hi & _).
  apply Z.nle_gt. intros Hge. by rewrite Hi in E.
Qed.

Lemma closed_size ino secs w : closed_db path ino secs w -> zlen (get_file ino w) < 2 ^ 62.
Proof.
  intros Hc. destruct (cl_has_log _ _ _ _ Hc) as [(? & _ & ? & _)|[_ ?]]; [lia|].
  unfold LOGDB_MIN_SIZE, sizeof_header, sizeof_log_header, sizeof_trailer in *. lia.
Qed.

(** Without the log, and without the locks of [fd], it is a closed database. *)
Lemma dropped_closed ino lino secs fd o w F w4 :
  torn ino lino secs w -> fd_ino o = ino -> flocked true fd ino F ->
  dropped fd o (set_os (set_os_flock F (w_os w)) w) w4 ->
  closed_db path ino secs (set_os (set_os_flock (filter (fun k => fk_fd k <> fd) (os_flock (w_os w4))) (w_os w4)) w4).
Proof.
  intros Ht Hino HF Hd. pose proof (tn_closed _ _ _ _ Ht) as Hc. pose proof (dr_dir _ _ _ _ Hd) as Ed. pose proof (dr_inodes _ _ _ _ Hd) as Ei.
  change (os_dir (w_os (set_os _ w))) with (os_dir (w_os w)) in Ed. change (os_inodes (w_os (set_os _ w))) with (os_inodes (w_os w)) in Ei.
  pose proof (dr_world _ _ _ _ Hd) as Hw4.
  assert (forall v, os_inodes (w_os v) = os_inodes (w_os w4) -> get_file ino v = get_file ino (unlinked (log_name path) w)) as Hfile.
  { intros v Ev. unfold get_file. by rewrite Ev, Ei. }
  constructor; rewrite ?(Hfile (set_os _ w4)) by done; try apply Hc.
  - apply world_ok_flock; [done|]. intros k [_ Hk]%list_elem_of_filter. by apply (wo_flock _ Hw4).
  - change (os_dir (w_os w4) !! path = Some ino). rewrite Ed. apply Hc.
  - change (os_dir (w_os w4) !! log_name path = None). rewrite Ed. apply lookup_delete_eq.
  - change (is_Some (os_inodes (w_os w4) !! ino)). rewrite Ei. apply Hc.
  - intros k [Hne Hk]%list_elem_of_filter Hki. rewrite (dr_flock _ _ _ _ Hd) in Hk. apply list_elem_of_filter in Hk as [_ Hk].
    apply Hne. exact (flocked_fd _ _ _ _ k HF Hk Hki).
Qed.

Lemma open_log_torn ino lino secs nosync fd o w :
  torn ino lino secs w -> get_fd fd w = Some o -> fd_ino o = ino -> 0 <= fd_pos o -> fd < os_next_fd (w_os w) ->
  exists p q lfd lino' w5, run th (open_log_file 1 nosync (log_name path) fd) w = Done (Some p) w5 /\
    log_ready th path fd (set_fd_pos q o) secs w p lfd lino' w5 /\ flocked nosync fd ino (os_flock (w_os w5)).
Proof.
  intros Ht Ho Hino Hpos Hfd. pose proof (torn_world _ _ _ _ Ht) as Hw. pose proof (tn_closed _ _ _ _ Ht) as Hc.
  assert (forall k, k ∈ os_flock (w_os w) -> fk_ino k <> fd_ino o) as Hno by (rewrite Hino; apply Hc).
  set (F0 := mk_flock fd (fd_ino o) true :: filter (fun k => fk_fd k <> fd) (os_flock (w_os w))).
  assert (flocked true fd (fd_ino o) F0) as HF0 by (apply flocked_take; intros k Hk Hki; by destruct (Hno k Hk)).
  set (w1 := set_os (set_os_flock F0 (w_os w)) w). destruct (tn_log _ _ _ _ Ht) as (log & Hlog & Hv).
  assert (world_ok w1) as Hw1.
  { apply world_ok_flock; [done|]. intros k [->|[_ Hk]%list_elem_of_filter]%elem_of_cons; [|by apply (wo_flock _ Hw)].
    rewrite Hino. by apply closed_ino_lt in Hc. }
  destruct (create_drops_run lino log fd o w1) as (w4 & E4 & Hd); [done..| |apply (tn_logdir _ _ _ _ Ht)|done|done|].
  { rewrite Hino. exact (closed_size _ _ _ Hc). }
  rewrite Hino in HF0. pose proof (dropped_closed ino lino secs fd o w F0 w4 Ht Hino HF0 Hd) as Hcv.
  set (v := set_os _ w4) in Hcv. destruct (dr_fd _ _ _ _ Hd) as (q & Hq0 & Ho4). set (o4 := set_fd_pos q o) in *.
  destruct (create_again_run secs fd o4 w4) as (p & q5 & w5 & E5 & Hq5 & Hcd); [apply Hd|done|apply Hcv|change (fd_ino o4) with (fd_ino o); rewrite Hino; apply Hcv|].
  assert (fd <> os_next_fd (w_os w4)) as Hne4.
  { intros Heq. destruct (wo_os _ (dr_world _ _ _ _ Hd)) as (_ & Hn & _). unfold get_fd in Ho4. by rewrite Hn in Ho4 by lia. }
  assert (os_flock (w_os w5) = filter (fun k => fk_fd k <> os_next_fd (w_os w)) F0) as Efl
    by (rewrite (cd_flock _ _ _ _ _ _ _ Hcd); exact (dr_flock _ _ _ _ Hd)).
  destruct (open_log_locked th path nosync fd o w p w5 (set_fd_pos q5 o4)) as (F & ER & HF & HF1); [apply Hw|done|done|by fold F0 w1; rewrite E4|apply Hcd| |done| |].
  { rewrite (cd_fds _ _ _ _ _ _ _ Hcd) by exact Hne4. apply put_fd_get. }
  { rewrite Efl, Hino. split.
    - apply list_elem_of_filter. split; [cbn; lia|rewrite <- Hino; left].
    - intros k [_ Hk]%list_elem_of_filter. by apply HF0. }
  assert (w4 = set_os (set_os_flock (os_flock (w_os w4)) (w_os v)) v) as Ew4 by by destruct w4 as [[] ??????].
  exists p, q, (os_next_fd (w_os v)), (os_next_ino (w_os v)), (set_os (set_os_flock F (w_os w5)) w5).
  split; [done|]. split; [|by rewrite <- Hino].
  apply (log_ready_base fd o4 secs v); [|exact (dr_next _ _ _ _ Hd)|exact (dr_heap _ _ _ _ Hd)| |exact (dr_tls _ _ _ _ Hd)].
  2: { by rewrite (dr_inodes _ _ _ _ Hd : os_inodes (w_os v) = _). }
  apply (created_ready th path fd o4 ino secs v (os_flock (w_os w4)) q5 p F w5); [done|done|done|done| |by rewrite <- Ew4].
  intros k [Hk|Hk]%HF1; [|by right]. rewrite (cd_flock _ _ _ _ _ _ _ Hcd) in Hk. change (k ∈ os_flock (w_os w4)) in Hk.
  destruct (decide (fk_fd k = fd)) as [Heq|Hne]; [right|left; by apply list_elem_of_filter].
  rewrite (dr_flock _ _ _ _ Hd) in Hk. apply list_elem_of_filter in Hk as [_ [->|[Hne _]%list_elem_of_filter]%elem_of_cons]; [done|by destruct Hne].
Qed.

Lemma torn_frame ino lino secs w w' :
  torn ino lino secs w -> world_ok w' -> os_dir (w_os w') = os_dir (w_os w) ->
  os_inodes (w_os w') = os_inodes (w_os w) -> os_flock (w_os w') = os_flock (w_os w) -> torn ino lino secs w'.
Proof.
  intros [Hc Hd Hl] Hw E1 E2 E3. constructor; rewrite ?E1, ?E2; [|done..]. apply (closed_db_frame path ino secs _ _ Hc); try done.
  - destruct Hw. by constructor.
  - cbn [unlinked w_os set_os os_dir set_os_dir]. by rewrite E1.
Qed.

(** [logdb_open] on a database with such a log. *)
Lemma open_torn_run ino lino secs flags w :
  torn ino lino secs w ->
  exists c D w', run th (logdb_open (Some path) flags) w = Done (Some c) w' /\ session path c D secs w'.
Proof.
  intros Ht. pose proof (torn_world _ _ _ _ Ht) as Hw. pose proof (tn_closed _ _ _ _ Ht) as Hc.
  destruct Hw as [Hq Hf Hos Henv Hfc Hfk Htls] eqn:EHw. clear EHw.
  assert (os_dir (w_os w) !! path = Some ino) as Hdir.
  { pose proof (cl_dir _ _ _ _ Hc) as E. cbn [unlinked w_os set_os os_dir set_os_dir] in E.
    rewrite lookup_delete_ne in E; [done|]. pose proof (log_name_ne path). congruence. }
  set (fd := os_next_fd (w_os w)). set (fl := mk_open_flags (flag_set flags LOGDB_OPEN_CREATE) false false).
  set (w1 := alloced (CBytes (String.list_byte_of_string (log_name path))) w).
  rewrite (open_enter_run th path flags ino w1); [|done| |apply Hos].
  2: { rewrite (do_open_exists_quiet _ _ _ _ ino); [|done|done]. cbn [o_excl]. by rewrite andb_false_r. }
  fold fl fd. set (o := mk_ofd ino 0 false (th_pid th)).
  assert (open_fd fd o (fd_opened ino fl th w1)) as Ho.
  { split_and!; [apply put_fd_get|exact (cl_file _ _ _ _ Hc)|done]. }
  rewrite run_bind, (open_header_run th fd flags o) by (done || apply Hc). cbn [negb]. cbn iota.
  set (w2 := put_fd fd (set_fd_pos 6 o) (fd_opened ino fl th w1)).
  assert (torn ino lino secs w2) as Ht2.
  { apply (torn_frame ino lino secs w); [done| |done..]. eapply world_ok_put_fd; [|apply Ho]. by apply world_ok_opened, world_ok_alloced. }
  destruct (open_log_torn ino lino secs (flag_set flags LOGDB_OPEN_NOSYNC) fd (set_fd_pos 6 o) w2) as (p & q & lfd & lino' & w5 & E & Hr & Hfl);
    [done|apply put_fd_get|done..|change (fd < os_next_fd (w_os w) + 1); lia|].
  destruct (cl_file _ _ _ _ Hc) as [bs Ebs].
  assert (stored bs secs) as Hst.
  { assert (get_file ino (unlinked (log_name path) w) = bs) as <- by (unfold get_file; by rewrite Ebs).
    constructor; [apply Hc..|]. pose proof (cl_count _ _ _ _ Hc). lia. }
  destruct (open_rest_ready th path fd flags (set_fd_pos q (set_fd_pos 6 o)) secs w2 p lfd lino' w5 bs (w_next w)) as (c & D & w' & E' & Ha & Hos' & _ & Hfd & _);
    [exact Ebs|done|done|apply (torn_world _ _ _ _ Ht2)|eexists; apply lookup_insert_eq|exact E|exact Hr|].
  exists c, D, w'. split; [exact E'|]. eapply op_session, arrived_opened; [exact Ha|]. by rewrite Hos', Hfd.
Qed.

End torn.

(** ** The states a restart copes with *)

(** A database file that is not in use. *)
Record closed_file (secs : sections) (bs : list byte) : Prop := mk_closed_file {
  cf_header : take 6 bs = header_bytes;
  cf_holds : holds (sizes secs) bs secs;
  cf_entries : Forall entry_ok (sizes secs);
  cf_count : zlen secs < 65536;
  cf_log : db_has_log (sizes secs) bs \/ secs = [] /\ zlen bs < LOGDB_MIN_SIZE
}.

Definition restartable (path : string) (ino : Z) (secs : sections) (v : world) : Prop :=
  os_dir (w_os v) !! path = Some ino /\
  exists bs, os_inodes (w_os v) !! ino = Some bs /\
    match os_dir (w_os v) !! log_name path with
    | None => closed_file secs bs
    | Some lino => ino <> lino /\ exists log, os_inodes (w_os v) !! lino = Some log /\
        (log = log_image (sizes secs) /\ stored bs secs /\ zlen bs < 2 ^ 62 \/
         log_header_valid (take 6 log) = false /\ closed_file secs bs)
    end.

#[export] Instance restartable_on_files path ino secs : OnFiles (restartable path ino secs).
Proof. intros w w' [= Ed Ei _] Hr. unfold restartable. by rewrite Ed, Ei. Qed.

(** The machine after the crash at [v]: the files are the same, and the locks
    of the process are gone. *)
Record rebooted `{Build} (path : string) (v w : world) : Prop := mk_rebooted {
  rb_world : world_ok w;
  rb_dir : os_dir (w_os w) = os_dir (w_os v);
  rb_inodes : os_inodes (w_os w) = os_inodes (w_os v);
  rb_flock k : k ∈ os_flock (w_os w) -> os_dir (w_os w) !! path <> Some (fk_ino k);
  rb_fcntl k : k ∈ os_fcntl (w_os w) -> os_dir (w_os w) !! log_name path <> Some (fl_ino k)
}.

Lemma closed_file_db `{Build} path ino secs bs w :
  world_ok w -> os_dir (w_os w) !! path = Some ino -> os_dir (w_os w) !! log_name path = None ->
  os_inodes (w_os w) !! ino = Some bs -> closed_file secs bs ->
  (forall k, k ∈ os_flock (w_os w) -> fk_ino k <> ino) -> closed_db path ino secs w.
Proof.
  intros Hw Hd Hl Hi [] Hk. assert (get_file ino w = bs) as Hf by (unfold get_file; by rewrite Hi).
  by constructor; rewrite ?Hf.
Qed.

Lemma closed_db_file `{Build} path ino secs w : closed_db path ino secs w -> closed_file secs (get_file ino w).
Proof. intros []. by constructor. Qed.

Lemma closed_restartable `{Build} path ino secs w : closed_db path ino secs w -> restartable path ino secs w.
Proof.
  intros Hc. split; [apply Hc|]. destruct (cl_file _ _ _ _ Hc) as [bs E]. exists bs. split; [done|].
  rewrite (cl_log _ _ _ _ Hc). apply closed_db_file in Hc. unfold get_file in Hc. by rewrite E in Hc.
Qed.

(** [logdb_open] after the crash. *)
Lemma restart_run `{Build} th path ino secs flags v w :
  restartable path ino secs v -> rebooted path v w ->
  exists c D w', run th (logdb_open (Some path) flags) w = Done (Some c) w' /\ session path c D secs w'.
Proof.
  intros (Hd & bs & Hi & Hl) [Hw Ed Ei Hk Hf]. rewrite <- Ed, <- Ei in *.
  destruct (os_dir (w_os w) !! log_name path) as [lino|] eqn:El.
  - destruct Hl as (Hne & log & Hlog & [(-> & Hst & Hsz)|[Hv Hc]]).
    + destruct (open_left_run th path ino lino bs secs flags w) as (c & D & w' & E & Ho).
      { constructor; try done; [intros k Hin Heq; apply (Hk k Hin)|intros k Hin Heq; apply (Hf k Hin)]; congruence. }
      exists c, D, w'. split; [done|apply Ho].
    + apply (open_torn_run th path ino lino). constructor; [|done|by exists log].
      apply (closed_file_db path ino secs bs); try done.
      * destruct Hw. by constructor.
      * cbn [unlinked w_os set_os os_dir set_os_dir]. rewrite lookup_delete_ne by apply log_name_ne. done.
      * apply lookup_delete_eq.
      * intros k Hin Heq. apply (Hk k Hin). congruence.
  - destruct (open_run th path flags ino secs w) as (c & D & w' & E & Ho).
    { apply (closed_file_db path ino secs bs); try done. intros k Hin Heq. apply (Hk k Hin). congruence. }
    exists c, D, w'. split; [done|apply Ho].
Qed.

(** ** Opening, step by step *)

(** Whatever is written behind its place, without the header it is no log. *)
Lemma no_header_invalid es : log_header_valid (take 6 (file_write sizeof_log_header (entries_bytes es) [])) = false.
Proof.
  destruct (entries_bytes es) as [|b bs]; [done|]. unfold file_write, splice. rewrite drop_nil, app_nil_r, take_nil.
  by rewrite app_nil_l, take_app_length'.
Qed.

Section open_steps.
Context `{Build} (th : thread).

Lemma atomic_write fd data w o :
  quiet w -> open_fd fd o w -> fd_append o = false -> atomic th (logdb_io_write fd data) w.
Proof.
  intros Hq Ho Happ. unfold logdb_io_write. destruct data as [|b data]; [by apply atomic_silent|].
  cbn [length io_write_loop]. destruct (Z.ltb_spec 0 (Z.of_nat (S (length data)))); [|lia].
  apply atomic_after; [apply atomic_prim|]. intros n w'. rewrite run_write. unfold do_write.
  rewrite (with_fd_quiet _ Hq _ _ _ o) by apply Ho. intros [= <- _].
  unfold xfer. rewrite take_ge by (cbn [length]; lia). cbn [length].
  rewrite (proj2 (Z.ltb_lt _ _)) by lia. rewrite Z.sub_diag. by destruct (length data).
Qed.

(** The new log file: first without its header, then whole. *)
Lemma log_create_write_always I `{OnFiles I} name w hdr es :
  quiet w -> os_fresh w -> os_dir (w_os w) !! name = None -> peek (list byte) (w_heap w) hdr = Some (log_image es) -> I w ->
  (forall log w', os_dir (w_os w') = <[name := os_next_ino (w_os w)]> (os_dir (w_os w)) ->
    os_inodes (w_os w') = <[os_next_ino (w_os w) := log]> (os_inodes (w_os w)) ->
    log_header_valid (take 6 log) = false \/ log = log_image es -> I w') ->
  always th I (log_create_write name hdr (zlen (log_image es))) w.
Proof.
  intros Hq (_ & _ & Hnf) Hdir Hh Hw HI. set (ino := os_next_ino (w_os w)) in *. set (fd := os_next_fd (w_os w)) in *.
  set (fl := mk_open_flags true true true). set (w0 := fd_opened ino fl th (file_created name w)).
  assert (run th (sys_open name fl) w = Done fd w0) as E0 by by rewrite run_open, do_open_new_quiet.
  set (o := mk_ofd ino 0 true (th_pid th)).
  assert (open_fd fd o w0) as Ho0 by (split_and!; [apply put_fd_get|eexists; apply lookup_insert_eq|done]).
  set (l1 := file_write sizeof_log_header (entries_bytes es) []). set (w1 := put_file (fd_ino o) l1 w0).
  assert (I w0) as Hw0 by (apply (HI []); [done|done|by left]).
  assert (I w1) as Hw1.
  { apply (HI l1); [done| |left; apply no_header_invalid].
    change (<[ino := l1]> (<[ino := []]> (os_inodes (w_os w))) = <[ino := l1]> (os_inodes (w_os w))). apply insert_insert_eq. }
  unfold log_create_write. eapply always_run; [exact E0|eapply atomic_always; [exact _|exact E0|apply atomic_prim|done..]|].
  rewrite (proj2 (Z.eqb_neq _ _)) by (unfold fd; lia).
  eapply always_run; [apply (create_entries_run th fd o hdr es w0); [done|done|exact (put_file_get ino [] _)|done]| |].
  { eapply atomic_always; [exact _|apply (create_entries_run th fd o hdr es w0); [done|done|exact (put_file_get ino [] _)|done]| |done..].
    destruct (_ <? _); [|by apply atomic_silent]. apply atomic_before; [silent_solve|]. intros bs w' Eb.
    rewrite run_load_bytes in Eb. unfold do_load_bytes, with_cell in Eb. change (w_heap w0) with (w_heap w) in Eb. rewrite Hh in Eb.
    destruct (_ <=? _) in Eb; [|done]. injection Eb as <- <-. apply atomic_after; [|intros; silent_solve].
    by eapply atomic_pwrite. }
  fold l1. change (put_file (fd_ino o) l1 w0) with w1. cbn [negb]. cbn iota.
  apply always_bind; [apply silent_always; [exact _|destruct DEBUG; silent_solve|done]|]. intros early w' Ew.
  assert (w' = w1) as ->.
  { destruct DEBUG; [rewrite run_getenv in Ew|rewrite run_ret in Ew]; by injection Ew. }
  destruct early as [x|]; [apply silent_always; [exact _|silent_solve|done]|].
  eapply always_silent; [exact _|rewrite run_load_bytes; apply (do_load_bytes_run _ _ (log_image es)); [done|]|silent_solve|done|intros _].
  { rewrite length_log_image. unfold sizeof_log_header. lia. }
  change (take (Z.to_nat sizeof_log_header) (log_image es)) with log_header_bytes.
  assert (run th (logdb_io_pwrite fd log_header_bytes 0) w1 = Done 0 (put_file (fd_ino o) (log_image es) w1)) as E2.
  { rewrite (pwrite_quiet _ _ _ _ _ o); [|done|by apply open_fd_put_file|done]. unfold w1 at 1. by rewrite put_file_get, <- log_file_two_writes. }
  assert (I (put_file (fd_ino o) (log_image es) w1)) as Hw2.
  { apply (HI (log_image es)); [done| |by right]. unfold w1. rewrite put_file_twice.
    change (<[ino := log_image es]> (<[ino := []]> (os_inodes (w_os w))) = <[ino := log_image es]> (os_inodes (w_os w))). apply insert_insert_eq. }
  eapply always_run; [exact E2|eapply atomic_always; [exact _|exact E2| |done|done]|].
  { eapply (atomic_pwrite _ _ _ _ _ o); [done|by apply open_fd_put_file|done]. }
  change (negb (0 =? 0)) with false. cbn iota. apply silent_always; [exact _|silent_solve|done].
Qed.

Lemma atomic_open_header fd flags o w :
  quiet w -> open_fd fd o w -> fd_append o = false -> atomic th (open_header fd flags) w.
Proof.
  intros Hq Ho Happ. unfold open_header. destruct (flag_set flags LOGDB_OPEN_CREATE).
  - apply atomic_after; [by eapply atomic_write|]. intros. silent_solve.
  - apply atomic_silent. silent_solve.
Qed.

(** [logdb_log_create], which finds the entries in the database. *)
Lemma log_create_always I `{OnFiles I} name fd o w es :
  quiet w -> os_fresh w -> heap_fresh w -> os_dir (w_os w) !! name = None -> get_fd fd w = Some o ->
  db_has_log es (get_file (fd_ino o) w) \/ es = [] /\ zlen (get_file (fd_ino o) w) < LOGDB_MIN_SIZE -> I w ->
  (forall log w', os_dir (w_os w') = <[name := os_next_ino (w_os w)]> (os_dir (w_os w)) ->
    os_inodes (w_os w') = <[os_next_ino (w_os w) := log]> (os_inodes (w_os w)) ->
    log_header_valid (take 6 log) = false \/ log = log_image es -> I w') ->
  always th I (logdb_log_create name fd) w.
Proof.
  intros Hq Hos Hf Hdir Ho Hlog Hw HI. unfold logdb_log_create. set (n := zlen (get_file (fd_ino o) w)) in *.
  eapply always_silent; [exact _|rewrite run_lseek, (do_lseek_quiet _ Hq _ _ _ o) by (done || lia); done|silent_solve|done|intros Hw1].
  fold n in Hw1 |- *. rewrite Z.add_0_r in *. rewrite (proj2 (Z.eqb_neq _ _)) by lia.
  set (o1 := set_fd_pos n o) in *. set (w1 := put_fd fd o1 w) in *.
  assert (os_fresh w1) as Hos1 by by apply (os_fresh_put_fd fd o).
  destruct Hlog as [Hlog|[-> Hsz]].
  - destruct (log_create_find_run th fd o1 es w1) as (q & Hq0 & E); [done|apply put_fd_get|done|].
    change (zlen (get_file (fd_ino o1) w1)) with n in E.
    eapply always_silent; [exact _|exact E|silent_solve|done|intros Hw2]. cbn iota.
    apply (log_create_write_always I); [done| |done|exact (peek_insert (list byte) _ _ _)|done|exact HI].
    apply (os_fresh_put_fd fd o1); [|apply put_fd_get]. by apply os_fresh_alloced.
  - eapply always_silent; [exact _| |silent_solve|done|intros _].
    { unfold log_create_find. by rewrite (proj2 (Z.leb_gt _ _)) by lia. }
    cbn iota. eapply always_silent; [exact _|by rewrite run_alloc, do_alloc_quiet|silent_solve|done|intros Hw2]. cbn iota.
    change sizeof_log_header with (zlen (log_image [])).
    apply (log_create_write_always I); [done|by apply (os_fresh_alloced (to_cell log_header_bytes) w1)|done| |done|exact HI].
    exact (peek_insert (list byte) _ _ _).
Qed.

End open_steps.

Section open_always.
Context `{Build} (th : thread) (path : string) (ino : Z) (secs : sections).

Lemma silent_open_connection flags fd log : silent (open_connection flags fd log).
Proof. unfold open_connection, open_logclosefail. silent_solve. Qed.

(** The new log file next to a closed database. *)
Lemma restartable_new_log log w w' :
  closed_db path ino secs w -> os_dir (w_os w') = <[log_name path := os_next_ino (w_os w)]> (os_dir (w_os w)) ->
  os_inodes (w_os w') = <[os_next_ino (w_os w) := log]> (os_inodes (w_os w)) ->
  log_header_valid (take 6 log) = false \/ log = log_image (sizes secs) -> restartable path ino secs w'.
Proof.
  intros Hc Ed Ei Hlog. pose proof (log_name_ne path). pose proof (closed_ino_lt path ino secs w Hc) as Hlt.
  pose proof (closed_size path ino secs w Hc) as Hsz. pose proof (closed_db_file path ino secs w Hc) as Hcf.
  destruct (cl_file _ _ _ _ Hc) as [bs E]. unfold get_file in Hsz, Hcf. rewrite E in Hsz, Hcf. cbn in Hsz, Hcf.
  split; [rewrite Ed, lookup_insert_ne by done; apply Hc|]. exists bs. rewrite Ei, lookup_insert_ne by lia.
  split; [done|]. rewrite Ed, lookup_insert_eq. split; [lia|]. exists log. rewrite lookup_insert_eq. split; [done|].
  destruct Hlog as [Hv| ->]; [by right|left]. split_and!; [done| |done].
  destruct Hcf as [? ? ? Hn _]. constructor; try done. lia.
Qed.

Lemma open_log_file_always nosync fd o w :
  closed_db path ino secs w -> get_fd fd w = Some o -> fd_ino o = ino ->
  always th (restartable path ino secs) (open_log_file 1 nosync (log_name path) fd) w.
Proof.
  intros Hc Ho Hino. destruct (cl_world _ _ _ _ Hc) as [Hq Hf Hos Henv _ _ _].
  pose proof (closed_restartable path ino secs w Hc) as Hr. cbn [open_log_file].
  eapply always_silent; [exact _|rewrite run_flock_ex_nb, (flock_run _ o);
      [done|done|done|intros k Hk Hki; destruct (cl_flock _ _ _ _ Hc k Hk); congruence]|silent_solve|done|intros Hr1].
  change (0 =? 0) with true. cbn iota. set (w1 := set_os _ _) in *.
  assert (db_has_log (sizes secs) (get_file (fd_ino o) w1) \/ sizes secs = [] /\ zlen (get_file (fd_ino o) w1) < LOGDB_MIN_SIZE) as Hlog.
  { rewrite Hino. destruct (cl_has_log _ _ _ _ Hc) as [Hl|[-> Hl]]; [by left|by right]. }
  destruct (log_create_either_run th (log_name path) (sizes secs) fd o w1) as (p & q & w5 & E & _); [done..|apply Hc|done|done|].
  assert (run th (create_locked 1 (log_name path) fd) w1 = Done (Some p) w5) as E' by by (cbn [create_locked]; rewrite run_bind, E, run_ret).
  apply always_rest; [exact _| |intros log w' El; rewrite E' in El; injection El as <- <-; unfold lock_shared; silent_solve].
  cbn [create_locked]. apply always_rest; [exact _| |intros log w' El; rewrite E in El; by injection El as <- <-].
  apply (log_create_always th (restartable path ino secs) (log_name path) fd o w1 (sizes secs)); try done; [apply Hc|].
  intros log w' Ed Ei Hv. by apply (restartable_new_log log w).
Qed.

(** At every step of opening, the files are as before or have the new log. *)
Lemma open_restartable flags w :
  closed_db path ino secs w -> always th (restartable path ino secs) (logdb_open (Some path) flags) w.
Proof.
  intros Hc. pose proof (closed_restartable path ino secs w Hc) as Hr. pose proof (cl_world _ _ _ _ Hc) as Hw.
  pose proof (wo_quiet _ Hw) as Hq. set (fd := os_next_fd (w_os w)). set (o := mk_ofd ino 0 false (th_pid th)).
  unfold logdb_open. fold (log_name path).
  eapply always_silent; [exact _|by rewrite run_alloc, do_alloc_quiet|silent_solve|done|intros _]. cbn iota.
  set (w1 := set_next _ _). set (fl := mk_open_flags _ _ _).
  assert (run th (sys_open path fl) w1 = Done fd (fd_opened ino fl th w1)) as E1.
  { rewrite run_open, (do_open_exists_quiet _ _ _ _ ino); [|done|apply Hc]. cbn [o_excl fl]. by rewrite andb_false_r. }
  eapply always_run; [exact E1|eapply atomic_always; [exact _|exact E1|apply atomic_prim|done|done]|].
  rewrite (proj2 (Z.eqb_neq _ _)) by (unfold fd; destruct (wo_os _ Hw) as (_ & _ & ?); lia).
  assert (open_fd fd o (fd_opened ino fl th w1)) as Ho.
  { split_and!; [apply put_fd_get|exact (cl_file _ _ _ _ Hc)|done]. }
  pose proof (open_header_run th fd flags o (fd_opened ino fl th w1) Hq Ho eq_refl eq_refl (cl_header _ _ _ _ Hc)) as E2.
  set (w2 := put_fd fd (set_fd_pos 6 o) (fd_opened ino fl th w1)) in E2.
  eapply always_run; [exact E2|eapply atomic_always; [exact _|exact E2|by eapply atomic_open_header|done|done]|]. cbn [negb]. cbn iota.
  assert (closed_db path ino secs w2) as Hc2.
  { apply (closed_db_frame path ino secs w); [done| |done..]. eapply world_ok_put_fd; [|apply Ho].
    by apply world_ok_opened, (world_ok_alloced (to_cell (String.list_byte_of_string (log_name path)))). }
  destruct (open_log_file_run th path (flag_set flags LOGDB_OPEN_NOSYNC) secs fd (set_fd_pos 6 o) w2) as (p & q & F & w5 & E & _);
    [apply Hc2|apply put_fd_get|apply Hc2|apply Hc2|intros k Hk; by apply (cl_flock _ _ _ _ Hc)|].
  apply always_rest; [exact _|eapply (open_log_file_always _ fd); [done|apply put_fd_get|done]|].
  intros log w' El. rewrite E in El. injection El as <- <-. pose proof silent_open_connection. silent_solve.
Qed.

End open_always.

(** ** A crash of the machine *)

(** Every process is gone; the files are as after a crash of the process, or as
    they were last synced. *)
Definition crashed (fs : gmap Z (list byte)) (v : world) : world :=
  mk_world (mk_os (os_dir (w_os v)) fs fs ∅ (os_next_fd (w_os v)) (os_next_ino (w_os v)) [] [] (os_env (w_os v))) ∅ 1 ∅ 0 [] [].
Definition process_died (v : world) : world := crashed (os_inodes (w_os v)) v.
Definition power_failed (v : world) : world := crashed (durable v) v.

(** Such a machine is one the theorems on crashes of processes are about. *)
Lemma process_died_rebooted `{Build} path v : world_ok (set_oracle [] v) -> rebooted path v (process_died v).
Proof.
  intros [Hq Hf (Hi & Hd & Hn) He _ _ _]. constructor; try done; [|by intros k Hk%not_elem_of_nil..].
  constructor; try done; by intros k Hk%not_elem_of_nil.
Qed.

(** A client that stores one record, and one that reads all of them; [None]
    when the database cannot be opened. *)
Definition store_one `{Build} (path : string) (key value : loc) : prog (Z * Z) :=
  let! c := logdb_open (Some path) LOGDB_OPEN_CREATE in
  let! r := logdb_put c (Some key) (Some value) in
  let! r' := logdb_close c in
  Ret (r, r').

Definition load_all `{Build} (path : string) (fuel : nat) : prog (option (list record)) :=
  let! c := logdb_open (Some path) LOGDB_OPEN_EXISTING in
  match c with
  | None => Ret None
  | Some _ =>
      let! all := read_database fuel c in
      Ret (Some all)
  end.

(** ** Properties *)

(** C4. A process may crash at any step of [logdb_open]: when the machine is up
    again, and no other process has the database, opening it succeeds and finds
    all records, also when the log file was created without its header. *)
Theorem open_crash_recovery `{Build} th path ino secs flags w :
  closed_db path ino secs w ->
  always th (fun x => forall th' flags' w0, rebooted path x w0 ->
      exists c D w', run th' (logdb_open (Some path) flags') w0 = Done (Some c) w' /\ session path c D secs w')
    (logdb_open (Some path) flags) w.
Proof.
  intros Hc. eapply always_mono; [|by apply (open_restartable th path ino secs)].
  intros x Hr th' flags' w0 Hb. by eapply restart_run.
Qed.

#[local] Existing Instance debug_build.


(** ** Witnesses *)

Lemma open_crash_recovery_witness :
  let w := closed_sample [] [] in
  rebooted "t.db" w (process_died w) /\
  always main_thread (fun x => forall th' flags' w0, rebooted "t.db" x w0 ->
      exists c D w', run th' (logdb_open (Some "t.db") flags') w0 = Done (Some c) w' /\ session "t.db" c D sample_secs w')
    (logdb_open (Some "t.db") 0) w.
Proof.
  split.
  - apply process_died_rebooted, (cl_world _ _ _ _ (closed_sample_ok [] [])).
  - apply (open_crash_recovery main_thread "t.db" 1 sample_secs 0). apply closed_sample_ok.
Defined.
