(* ===== verification/Closing.v ===== *)
(** * Closing when calls fail and processes crash

    [logdb_close] merges the log into the database file and removes it.  Any of
    its system calls may fail, or transfer less than it should, and the process
    may crash at any step: the two files always hold all records, and the call
    returns. *)

From S2P Require Import Prelude Machine World Posix Io Layout Log LogSpec Buffer.
From S2P Require Import BufferSpec LogLock LockSpec DbState Lease LeaseSpec Txn Silent TxnSpec Iter.
From S2P Require Import IterSpec Database CrashSpec Connection ConnSpec Recovery FaultLogic Restart.

(** ** Reading the log *)

Section read.
Context `{Build} (th : thread) (I : world -> Prop) `{OnFiles I}.

(** A header block, when there is one, is the whole log. *)
Definition header_of (es : list Z) (r : log_header_ptr) (w : world) : Prop :=
  forall l, r = HdrAt l -> peek (list byte) (w_heap w) l = Some (log_image es).

Lemma wp_log_read_entries fd o es (Q : log_header_ptr -> world -> Prop) w :
  heap_fresh w -> get_fd fd w = Some o -> get_file (fd_ino o) w = log_image es -> fd_pos o = 6 -> zlen es < 2 ^ 31 -> I w ->
  (forall r w', near w w' -> header_of es r w' -> Q r w') ->
  wp th I (log_read_entries fd LOGDB_READ_NO_TRAILER log_header_bytes) Q w.
Proof.
  intros Hf Ho Hfile Hp Hes Hi HQ. pose proof (length_log_image es) as HL.
  assert (forall w', near w w' -> I w' /\ wp th I (Ret HdrNull) Q w') as Hnull.
  { intros w' Hn. assert (I w') by by eapply near_on_files. split; [done|]. apply wp_ret; [done|]. by apply HQ. }
  unfold log_read_entries. apply wp_bind, (wp_lseek _ _ _ _ _ _ _ o); [done..|]. intros r1 w1 N1 [->|(-> & _ & Ho1)]; [by apply Hnull|].
  rewrite Hp, Z.add_0_r in *. rewrite (proj2 (Z.eqb_neq _ _)) by lia. destruct (Hnull w1 N1) as [Hi1 _].
  apply wp_bind, (wp_lseek _ _ _ _ _ _ _ (set_fd_pos 6 o)); [done..|]. cbn [fd_ino set_fd_pos]. rewrite (near_file w w1), Hfile, HL, Z.add_0_r by done.
  intros r2 w2 N2 [->|(-> & _ & Ho2)]; [apply Hnull; by etrans|]. assert (near w w2) as N02 by by etrans.
  rewrite (proj2 (Z.eqb_neq _ _)) by lia. unfold sizeof_log_header, malloc_bytes. replace (6 + 2 * zlen es - 6) with (2 * zlen es) by lia.
  rewrite !u64_small by (rewrite ?u64_small; lia). rewrite (proj2 (Z.leb_gt (2 ^ 63) _)) by lia. destruct (Hnull w2 N02) as [Hi2 _].
  assert (heap_fresh w2) as Hf2 by by apply (nr_fresh _ _ N02).
  apply wp_bind, wp_alloc; [done..|]. intros [l|] w3 N3 Hl; [|apply Hnull; by etrans].
  destruct (Hl l eq_refl) as [Hnew Hcell]. assert (near w w3) as N03 by by etrans. destruct (Hnull w3 N03) as [Hi3 _].
  assert (w_heap w !! l = None) as Hl0 by by eapply lookup_weaken_None; [|apply (nr_heap _ _ N02)].
  rewrite (proj2 (Z.ltb_ge _ _)) by lia. destruct (Z.eqb_spec (2 * zlen es) 0) as [E|E]; cbn [negb]; cbn iota.
  - assert (es = []) as -> by (destruct es; [done|cbn [length] in E; lia]). apply wp_ret; [done|]. apply HQ; [done|].
    intros x [= <-]. unfold peek. by rewrite Hcell.
  - destruct (nr_fd _ _ N3 _ _ Ho2) as (q3 & _ & Ho3); [cbn; lia|]. rewrite set_fd_pos_twice in Ho3.
    apply wp_bind, (wp_lseek _ _ _ _ _ _ _ (set_fd_pos q3 o)); [done..|]. intros r4 w4 N4 [->|(-> & _ & Ho4)]; [apply Hnull; by etrans|].
    assert (near w w4) as N04 by by etrans. destruct (Hnull w4 N04) as [Hi4 _].
    rewrite Z.add_0_l, set_fd_pos_twice in *. rewrite (proj2 (Z.eqb_neq _ _)) by lia.
    apply wp_bind, (wp_io_read _ _ _ _ _ _ (set_fd_pos 6 o)); [done|cbn; lia|lia|done|]. cbn [fd_ino set_fd_pos fd_pos].
    rewrite (near_file w w4), Hfile by done. intros r5 d w5 N5 _ Hd. assert (near w w5) as N05 by by etrans. destruct (Hnull w5 N05) as [Hi5 _].
    assert (w_heap w5 !! l = Some (CBytes log_header_bytes)) as Hcell5.
    { assert (near w3 w5) as N35 by by etrans. eapply lookup_weaken; [exact Hcell|]. apply (nr_heap _ _ N35). by apply (nr_fresh _ _ N3). }
    destruct (Z.eqb_spec r5 0) as [->|Hr5]; cbn [negb]; cbn iota.
    + destruct (Hd eq_refl) as (-> & _ & _). set (c := CBytes (log_image es)).
      assert (near w (set_heap (<[l := c]> (w_heap w5)) w5)) as N6 by (apply near_store; [done|done|by rewrite Hcell5]).
      apply wp_bind. eapply wp_silent; [exact _|rewrite run_upd; apply (do_rmw_peek (T := list byte)); unfold peek; by rewrite Hcell5|silent_solve|done|]. intros _.
      assert (log_header_bytes ++ file_read 6 (2 * zlen es) (log_image es) = log_image es) as Hread.
      { unfold log_image at 2. f_equal. pose proof (file_read_middle log_header_bytes (entries_bytes es) []) as Em.
        rewrite app_nil_r, length_entries_bytes in Em. etrans; [|exact Em]. f_equal; done || lia. }
      cbn [fst snd]. rewrite Hread. change (to_cell (log_image es)) with c. destruct (Hnull _ N6) as [Hi6 _].
      apply wp_ret; [done|]. apply HQ; [done|]. intros x [= <-]. exact (peek_insert (list byte) _ _ _).
    + apply wp_bind. eapply wp_silent; [exact _|rewrite run_free; apply do_free_run; by rewrite Hcell5|silent_solve|done|]. intros _.
      apply Hnull. by apply near_free.
Qed.

Lemma wp_log_read fd o es (Q : log_header_ptr -> world -> Prop) w :
  heap_fresh w -> get_fd fd w = Some o -> get_file (fd_ino o) w = log_image es -> fd_pos o = 0 -> zlen es < 2 ^ 31 -> I w ->
  (forall r w', near w w' -> header_of es r w' -> Q r w') ->
  wp th I (logdb_log_read fd LOGDB_READ_NO_TRAILER) Q w.
Proof.
  intros Hf Ho Hfile Hp Hes Hi HQ. pose proof (length_log_image es) as HL. unfold logdb_log_read.
  apply wp_bind, (wp_io_read _ _ _ _ _ _ o); [done|lia|done|done|]. rewrite Hfile, Hp. intros r d w1 N1 Hs Hd.
  assert (I w1) as Hi1 by by eapply near_on_files.
  assert (wp th I (Ret HdrNull) Q w1) as Hnull by (apply wp_ret; [done|by apply HQ]).
  destruct (Z.ltb_spec 0 r); [done|]. destruct (Z.eqb_spec r (-1)) as [->|Hne]; [done|].
  assert (r = 0) as -> by lia. destruct (Hd eq_refl) as (-> & _ & Ho1).
  change (file_read 0 sizeof_log_header (log_image es)) with (take 6 (log_image es)).
  rewrite log_header_image_valid. cbn [negb orb]. change (take 6 (log_image es)) with log_header_bytes. cbn iota.
  apply (wp_log_read_entries fd (set_fd_pos 6 o) es); [by apply (nr_fresh _ _ N1)|exact Ho1| |done|done|done|].
  - by rewrite (near_file w w1).
  - intros r' w' N' Hr. apply HQ; [by etrans|done].
Qed.

End read.

(** ** The merge *)

(** Appending a part of some data. *)
Lemma written_end fd o data B w n fs :
  fd_pos o = zlen B -> get_file (fd_ino o) w = B ->
  os_inodes (w_os (written fd o data w n fs)) = <[fd_ino o := B ++ take (Z.to_nat n) data]> (os_inodes (w_os w)).
Proof.
  intros Hp Hb. unfold written. cbn [w_os put_fd set_os set_os_fds os_inodes]. rewrite Hp, Hb, file_write_end. done.
Qed.

(** Two writes at the end of a file: a result of 0 says that both are whole. *)
Lemma wp_append2 `{Build} th I `{OnFiles I} fd d1 d2 B (k : Z -> prog Z) (Q : Z -> world -> Prop) w o :
  open_fd fd o w -> fd_append o = false -> fd_pos o = zlen B -> get_file (fd_ino o) w = B ->
  (forall post w', os_dir (w_os w') = os_dir (w_os w) -> os_inodes (w_os w') = <[fd_ino o := B ++ post]> (os_inodes (w_os w)) ->
    zlen post <= zlen d1 + zlen d2 -> I w') ->
  (forall r w', I w' -> w_heap w' = w_heap w -> r <> 0 \/
    os_dir (w_os w') = os_dir (w_os w) /\ os_inodes (w_os w') = <[fd_ino o := B ++ d1 ++ d2]> (os_inodes (w_os w)) -> wp th I (k r) Q w') ->
  wp th I (let! r := logdb_io_write fd d1 in let! r' := (if negb (r =? 0) then Ret r else logdb_io_write fd d2) in k r') Q w.
Proof.
  intros Ho Happ Hp Hb HI HQ.
  assert (forall n fs, 0 <= n <= zlen d1 -> I (written fd o d1 w n fs)) as HI1.
  { intros n fs Hn. eapply HI; [done|by apply written_end|rewrite length_take; lia]. }
  apply wp_bind, (wp_io_write _ _ _ _ _ _ o); [done..|]. intros n fs Hn. destruct (Z.eqb_spec (zlen d1 - n) 0) as [E|E]; cbn [negb]; cbn iota.
  2: { apply wp_bind, wp_ret; [by apply HI1|]. apply HQ; [by apply HI1|done|by left]. }
  assert (n = zlen d1) as -> by lia. set (w1 := written _ _ _ _ _ _). set (o1 := set_fd_pos (fd_pos o + zlen d1) o).
  assert (os_inodes (w_os w1) = <[fd_ino o := B ++ d1]> (os_inodes (w_os w))) as Ei1.
  { unfold w1. rewrite (written_end _ _ _ B) by done. by rewrite Nat2Z.id, firstn_all. }
  assert (open_fd fd o1 w1) as Ho1.
  { split_and!; [apply put_fd_get|rewrite Ei1; eexists; apply lookup_insert_eq|cbn; lia]. }
  assert (fd_pos o1 = zlen (B ++ d1)) as Hp1 by (cbn; rewrite length_app; lia).
  assert (get_file (fd_ino o1) w1 = B ++ d1) as Hb1 by (unfold get_file; cbn [fd_ino o1 set_fd_pos]; by rewrite Ei1, lookup_insert_eq).
  assert (forall m fs', 0 <= m <= zlen d2 -> os_inodes (w_os (written fd o1 d2 w1 m fs')) =
    <[fd_ino o := B ++ d1 ++ take (Z.to_nat m) d2]> (os_inodes (w_os w))) as Ei2.
  { intros m fs' Hm. rewrite (written_end _ _ _ (B ++ d1)) by done. rewrite Ei1, <- app_assoc. apply insert_insert_eq. }
  assert (forall m fs', 0 <= m <= zlen d2 -> I (written fd o1 d2 w1 m fs')) as HI2.
  { intros m fs' Hm. eapply HI; [done|by apply Ei2|rewrite length_app, length_take; lia]. }
  apply wp_bind, (wp_io_write _ _ _ _ _ _ o1); [done..|]. intros m fs' Hm. apply HQ; [by apply HI2|done|].
  destruct (Z.eq_dec (zlen d2 - m) 0) as [E2|E2]; [right|by left]. split; [done|]. rewrite Ei2 by done.
  assert (m = zlen d2) as -> by lia. by rewrite Nat2Z.id, firstn_all.
Qed.

(** Blocks are kept, but for the log's when it was closed. *)
Definition survives (p : loc) (r : Z) (w w' : world) : Prop :=
  forall x y, w_heap w !! x = Some y -> x = p /\ r = 0 \/ w_heap w' !! x = Some y.

Lemma near_survives p r w w' : near w w' -> heap_fresh w -> survives p r w w'.
Proof. intros Hn Hf x y E. right. eapply lookup_weaken; [done|by apply Hn]. Qed.

Lemma survives_near p r w w1 w' : near w w1 -> heap_fresh w -> survives p r w1 w' -> survives p r w w'.
Proof. intros Hn Hf Hs x y E. apply Hs. eapply lookup_weaken; [done|by apply Hn]. Qed.

Section merge.
Context `{Build} (th : thread) (I : world -> Prop) `{OnFiles I}.
Context (p : loc) (l : logdb_log_t) (es : list Z) (path : string) (dbfd ino : Z) (Q : Z -> world -> Prop).
Context (Hok : Forall entry_ok es) (Hes : zlen es < 65536).

#[local] Abbreviation tr := (trim_zeros es).
#[local] Abbreviation trailer := (bytes_u32 (u32 (6 + 2 * zlen tr + sizeof_trailer))).

Lemma wp_failunlock fd w :
  I w -> (forall r w', files w' = files w -> w_heap w' = w_heap w -> Q r w') -> wp th I (close_merge_failunlock fd) Q w.
Proof.
  intros Hi HQ. unfold close_merge_failunlock. apply wp_bind, wp_unlock; [exact _|done|]. intros _ w' [Ef Eh _ _].
  apply wp_ret; [by apply (on_files w)|by apply HQ].
Qed.

(** [logdb_log_close], also when the descriptor is gone. *)
Lemma wp_log_close w :
  I w -> peek logdb_log_t (w_heap w) p = Some l ->
  (forall w', files w' = files w -> w_heap w' = delete p (w_heap w) -> Q 0 w') -> wp th I (logdb_log_close (Some p)) Q w.
Proof.
  intros Hi Hp HQ. unfold logdb_log_close.
  apply wp_bind. eapply wp_silent; [exact _|by rewrite run_load, (do_load_peek _ _ l)|silent_solve|done|]. intros _.
  assert (exists r w1, run th (sys_close (log_fd l)) w = Done r w1 /\ w_heap w1 = w_heap w) as (r & w1 & E & Eh).
  { rewrite run_close. unfold do_close. destruct (get_fd (log_fd l) w); by do 2 eexists. }
  apply wp_bind. eapply wp_silent; [exact _|exact E|silent_solve|done|]. intros Ef.
  apply wp_bind. eapply wp_silent; [exact _|rewrite run_free; apply do_free_run; rewrite Eh; exact (peek_is_Some _ _ _ _ Hp)|silent_solve|by apply (on_files w)|]. intros _.
  apply wp_ret; [apply (on_files w); [exact Ef|done]|]. apply HQ; [exact Ef|by rewrite <- Eh].
Qed.

(** Once the file is cut: the log, the trailer, and the log file goes. *)
Definition merge_append (hdr : loc) : prog Z :=
  let! pos := sys_lseek dbfd 0 SEEK_END in
  if pos =? -1 then close_merge_failunlock (log_fd l) else
  let! hd := load_bytes hdr 0 (6 + 2 * zlen tr) in
  let! r := logdb_io_write dbfd hd in
  let! r' := (if negb (r =? 0) then Ret r else logdb_io_write dbfd trailer) in
  if negb (r' =? 0) then close_merge_failunlock (log_fd l) else
  do! sys_unlink path in
  logdb_log_close (Some p).

Context (B : list byte) (dir0 : gmap string Z) (inodes0 : gmap Z (list byte)).
Context (HI1 : forall post w', os_dir (w_os w') = dir0 -> os_inodes (w_os w') = <[ino := B ++ post]> inodes0 ->
  zlen post <= 2 ^ 20 -> I w').
Context (HI2 : forall w', os_dir (w_os w') = delete path dir0 ->
  os_inodes (w_os w') = <[ino := B ++ log_image tr ++ trailer]> inodes0 -> I w').

Lemma merge_small n m : 0 <= n <= zlen (log_image tr) -> 0 <= m <= 4 -> n + m <= 2 ^ 20.
Proof. rewrite length_log_image. pose proof (trim_zeros_length es). lia. Qed.

(** The file is merged; now or never does the log go. *)
Lemma wp_merge_unlink w w0 :
  peek logdb_log_t (w_heap w) p = Some l -> w_heap w = w_heap w0 -> I w ->
  os_dir (w_os w) = dir0 -> os_inodes (w_os w) = <[ino := B ++ log_image tr ++ trailer]> inodes0 ->
  (forall r w', survives p r w0 w' -> Q r w') ->
  wp th I (let! _ := sys_unlink path in logdb_log_close (Some p)) Q w.
Proof.
  intros Hp Hh Hi Ed Ei HQ.
  assert (forall w', files w' = files w' -> w_heap w' = w_heap w -> I w' -> wp th I (logdb_log_close (Some p)) Q w') as Hcl.
  { intros w' _ Eh Hi'. apply wp_log_close; [done|by rewrite Eh|]. intros w2 _ E2. apply HQ. intros x y Ex.
    destruct (decide (x = p)) as [->|Hne]; [by left|right]. by rewrite E2, Eh, Hh, lookup_delete_ne. }
  apply wp_bind, wp_unlink; [exact _|done|..].
  - intros fs. apply Hcl; [done..|]. by apply (on_files w).
  - intros fs w'. assert (I w') as Hi'.
    { apply HI2; [|exact Ei]. change (delete path (os_dir (w_os w)) = delete path dir0). by rewrite Ed. }
    split; [done|]. by apply Hcl.
Qed.

Lemma wp_merge_append hdr w o :
  heap_fresh w -> get_fd dbfd w = Some o -> fd_append o = false -> fd_ino o = ino -> is_Some (os_inodes (w_os w) !! ino) ->
  get_file ino w = B -> peek (list byte) (w_heap w) hdr = Some (log_image es) -> peek logdb_log_t (w_heap w) p = Some l -> I w ->
  os_dir (w_os w) = dir0 -> os_inodes (w_os w) = <[ino := B]> inodes0 ->
  (forall r w', survives p r w w' -> Q r w') -> wp th I (merge_append hdr) Q w.
Proof.
  intros Hf Ho Happ Hino His HB Hh Hp Hi Ed Ei HQ. pose proof (length_log_image es) as HL. pose proof (length_log_image tr) as HLt.
  pose proof (trim_zeros_length es) as Htl.
  assert (forall w', w_heap w' = w_heap w -> I w' -> wp th I (close_merge_failunlock (log_fd l)) Q w') as Hfail.
  { intros w' Eh Hi'. apply wp_failunlock; [done|]. intros r w2 _ E2. apply HQ. intros x y Ex. right. by rewrite E2, Eh. }
  unfold merge_append. apply wp_bind, (wp_lseek _ _ _ _ _ _ _ o); [done..|]. rewrite Hino, HB, Z.add_0_r.
  intros r1 w1 N1 Hr1. assert (I w1) as Hi1 by by eapply near_on_files.
  destruct (Z.eqb_spec r1 (-1)) as [->|Hne].
  { apply wp_failunlock; [done|]. intros r w2 _ E2. apply HQ. apply (survives_near p r w w1); [done..|]. intros x y Ex. right. by rewrite E2. }
  destruct Hr1 as [?|(-> & _ & Ho1)]; [done|]. set (o1 := set_fd_pos (zlen B) o) in *.
  apply wp_bind. eapply wp_silent; [exact _| |silent_solve|done|].
  { rewrite run_load_bytes. apply (do_load_bytes_run _ _ (log_image es)); [by apply (near_peek _ w)|lia]. }
  intros _. destruct (trim_zeros_prefix es) as [k Ek]. pose proof (take_log_image tr (replicate k 0)) as Et.
  rewrite <- Ek in Et. rewrite Et.
  assert (os_inodes (w_os w1) = <[ino := B]> inodes0 /\ os_dir (w_os w1) = dir0) as [Ei1 Ed1].
  { pose proof (nr_files _ _ N1) as [= E1 E2 _]. by rewrite E1, E2, Ei, Ed. }
  assert (open_fd dbfd o1 w1) as Hop1.
  { split_and!; [exact Ho1| |cbn; lia]. cbn [fd_ino o1 set_fd_pos]. rewrite Hino, Ei1. eexists. apply lookup_insert_eq. }
  assert (survives p (-1) w w1) as Hs1 by by apply near_survives.
  apply (wp_append2 _ _ dbfd (log_image tr) trailer B _ _ _ o1); [done|done|done|by cbn; rewrite Hino, (near_file w w1)|..].
  - intros post w' Ed' Ei' Hpost. apply (HI1 post); [congruence| |].
    + rewrite Ei'. cbn [fd_ino o1 set_fd_pos]. rewrite Hino, Ei1. apply insert_insert_eq.
    + rewrite length_bytes_u32 in Hpost. lia.
  - intros r w' Hi' Eh Hr. destruct (Z.eqb_spec r 0) as [->|Hr0]; cbn [negb]; cbn iota.
    + destruct Hr as [?|[Ed' Ei']]; [done|]. apply (wp_merge_unlink w' w1); [by rewrite Eh; apply (near_peek _ w)|done|done|congruence| |].
      * rewrite Ei'. cbn [fd_ino o1 set_fd_pos]. rewrite Hino, Ei1. apply insert_insert_eq.
      * intros x w2 Hs2. apply HQ. by apply (survives_near p x w w1).
    + apply wp_failunlock; [done|]. intros x w2 _ E2. apply HQ. apply (survives_near p x w w1); [done..|].
      intros a b Ex. right. by rewrite E2, Eh.
Qed.

(** From the header block on. *)
Lemma wp_merge_write hdr w lo dbo :
  heap_fresh w -> get_fd (log_fd l) w = Some lo -> 0 <= fd_pos lo -> get_file (fd_ino lo) w = log_image es ->
  get_fd dbfd w = Some dbo -> 0 <= fd_pos dbo -> fd_append dbo = false -> fd_ino dbo = ino ->
  B = resize (db_end tr) (get_file ino w) -> peek (list byte) (w_heap w) hdr = Some (log_image es) ->
  peek logdb_log_t (w_heap w) p = Some l -> I w -> os_dir (w_os w) = dir0 -> os_inodes (w_os w) = inodes0 ->
  (forall r w', survives p r w w' -> Q r w') -> wp th I (close_merge_write (Some p) (log_fd l) dbfd path hdr) Q w.
Proof.
  intros Hf Hlo Hlp Hlf Ho Hp Happ Hino HB Hh Hl Hi Ed Ei HQ. pose proof (length_log_image es) as HL.
  pose proof (trim_zeros_length es) as Htl. pose proof (db_end_nonneg tr (trim_zeros_ok _ Hok)) as Hend.
  unfold close_merge_write. apply wp_bind, (wp_lseek _ _ _ _ _ _ _ lo); [done..|]. rewrite Hlf, HL, Z.add_0_r.
  intros r1 w1 N1 Hr1. assert (I w1) as Hi1 by by eapply near_on_files.
  assert (forall w2, w_heap w2 = w_heap w1 -> I w2 -> wp th I (close_merge_failunlock (log_fd l)) Q w2) as Hfail.
  { intros w2 Eh Hi2. apply wp_failunlock; [done|]. intros r w3 _ E2. apply HQ. apply (survives_near p r w w1); [done..|].
    intros a b Ex. right. by rewrite E2, Eh. }
  destruct (Z.eqb_spec r1 (-1)) as [->|Hne]; [by apply Hfail|]. destruct Hr1 as [?|(-> & _ & _)]; [done|].
  assert (logdb_log_index_from_offset (6 + 2 * zlen es) = zlen es) as ->.
  { rewrite <- (log_index_of_offset (zlen es)) at 2 by lia. f_equal. unfold logdb_log_offset, sizeof_log_header, sizeof_log_entry. lia. }
  rewrite connection_offset_small by lia. assert (peek (list byte) (w_heap w1) hdr = Some (log_image es)) as Hh1 by by apply (near_peek _ w).
  pose proof (close_merge_count_run th es Hok w1 hdr Hh1) as Ec. rewrite (Z.add_0_r (6 + 2 * zlen es)) in Ec.
  apply wp_bind. eapply wp_silent; [exact _|exact Ec|silent_solve|done|]. intros _.
  destruct (nr_fd _ _ N1 _ _ Ho Hp) as (q & Hq & Ho1). set (o1 := set_fd_pos q dbo) in *.
  apply wp_bind, (wp_ftruncate _ _ _ _ _ _ o1); [exact Ho1|lia|exact Hi1| |].
  { intros fs. change (negb (-1 =? 0)) with true. cbn iota. apply Hfail; [done|by apply (on_files w1)]. }
  intros fs w2. assert (fd_ino o1 = ino) as Hino1 by done. pose proof (nr_files _ _ N1) as [= Ed1 Ei1 _].
  assert (os_inodes (w_os w2) = <[ino := B]> inodes0) as Ei2.
  { unfold w2. cbn [w_os put_file set_os set_os_inodes os_inodes set_oracle]. by rewrite Hino1, (near_file w w1), <- HB, Ei1, Ei by done. }
  assert (os_dir (w_os w2) = dir0) as Ed2 by (by rewrite <- Ed).
  assert (I w2) as Hi2 by (apply (HI1 []); [done|by rewrite app_nil_r|simpl; lia]).
  split; [done|]. change (negb (0 =? 0)) with false. cbn iota. apply (wp_merge_append hdr w2 o1); try done.
  - by apply (nr_fresh _ _ N1).
  - rewrite Ei2. eexists. apply lookup_insert_eq.
  - unfold get_file. by rewrite Ei2, lookup_insert_eq.
  - exact (near_peek _ w w1 p l N1 Hf Hl).
  - intros r w3 Hs. apply HQ. by apply (survives_near p r w w1).
Qed.

(** [logdb_log_close_merge]. *)
Lemma wp_close_merge w lo dbo :
  heap_fresh w -> log_ok p l lo es w -> log_path l = Some path -> dbfd <> log_fd l -> log_unlocked lo w ->
  get_fd dbfd w = Some dbo -> 0 <= fd_pos dbo -> fd_append dbo = false -> fd_ino dbo = ino ->
  B = resize (db_end tr) (get_file ino w) -> I w -> os_dir (w_os w) = dir0 -> os_inodes (w_os w) = inodes0 ->
  (forall r w', survives p r w w' -> Q r w') -> wp th I (logdb_log_close_merge (Some p) dbfd) Q w.
Proof.
  intros Hf Hl Hpath Hne Hun Ho Hp Happ Hino HB Hi Ed Ei HQ. destruct Hl as [Hl (Hlo & _ & Hlp) Hlf _ _].
  unfold logdb_log_close_merge. apply wp_bind. eapply wp_silent; [exact _|by rewrite run_load, (do_load_peek _ _ l)|silent_solve|done|]. intros _.
  rewrite Hpath. apply wp_bind, (wp_setlkw _ _ _ _ _ _ _ _ lo); [done..|]. intros r1 w1 [Ef1 Eh1 En1 Eo1].
  assert (I w1) as Hi1 by by apply (on_files w). assert (heap_fresh w1) as Hf1 by (unfold heap_fresh; by rewrite Eh1, En1).
  assert (forall d, get_fd d w1 = get_fd d w) as Efd by (intros; unfold get_fd; by rewrite Eo1).
  pose proof Ef1 as [= Ed1 Ei1 _].
  assert (forall i, get_file i w1 = get_file i w) as Efl by (intros; unfold get_file; by rewrite Ei1).
  assert (forall r w2, survives p r w1 w2 -> Q r w2) as HQ1.
  { intros r w2 Hs. apply HQ. intros x y. rewrite <- Eh1. apply Hs. }
  assert (forall w2, near w1 w2 -> I w2 -> wp th I (close_merge_failunlock (log_fd l)) Q w2) as Hfail.
  { intros w2 N2 Hi2. apply wp_failunlock; [done|]. intros r w3 _ E3. apply HQ1. apply (survives_near p r w1 w2); [done..|].
    intros a b Ex. right. by rewrite E3. }
  destruct (Z.eqb_spec r1 (-1)); [apply wp_ret; [done|]; apply HQ1; by apply near_survives|].
  apply wp_bind, (wp_lseek _ _ _ _ _ _ _ lo); [by rewrite Efd|done|]. intros r2 w2 N2 Hr2. assert (I w2) as Hi2 by by eapply near_on_files.
  destruct (Z.eqb_spec r2 (-1)) as [->|Hr]; [by apply Hfail|]. destruct Hr2 as [?|(-> & _ & Hlo2)]; [done|].
  apply wp_bind, (wp_log_read _ _ _ (set_fd_pos (0 + 0) lo) es); [by apply (nr_fresh _ _ N2)|exact Hlo2| |done|lia|done|].
  { cbn [fd_ino set_fd_pos]. by rewrite (near_file w1 w2), Efl. }
  intros h w3 N3 Hh. assert (near w1 w3) as N13 by by etrans. assert (I w3) as Hi3 by by eapply near_on_files.
  destruct h as [| |hdr]; [by apply Hfail..|]. pose proof (nr_files _ _ N13) as [= Ed3 Ei3 _].
  rewrite <- Efd in Ho, Hlo. destruct (nr_fd _ _ N13 _ _ Ho Hp) as (q & Hq & Ho3). destruct (nr_fd _ _ N13 _ _ Hlo Hlp) as (q' & Hq' & Hlo3).
  apply (wp_merge_write hdr w3 (set_fd_pos q' lo) (set_fd_pos q dbo)); try done; try congruence.
  - by apply (nr_fresh _ _ N13).
  - cbn [fd_ino set_fd_pos]. by rewrite (near_file w1 w3), Efl.
  - by rewrite (near_file w1 w3), Efl.
  - by apply Hh.
  - apply (near_peek _ w1); [done..|]. by rewrite Eh1.
  - intros r w4 Hs. apply HQ1. by apply (survives_near p r w1 w3).
Qed.

End merge.

(** ** What the files hold *)

(** The sections survive when the file is cut behind them, and whatever comes
    after. *)
Lemma stored_resized secs bs post :
  stored bs secs -> zlen secs < 65536 -> stored (resize (db_end (trim_zeros (sizes secs))) bs ++ post) secs.
Proof.
  intros [Hb Hh Hok _] Hlen. pose proof (trim_zeros_ok _ Hok) as Hok'. pose proof (db_end_nonneg _ Hok') as Hend.
  set (n := db_end _) in *. constructor; [|constructor|done|lia].
  - assert (6 <= length bs)%nat by (apply (f_equal length) in Hb; rewrite length_take in Hb; change (length header_bytes) with 6%nat in Hb; lia).
    unfold resize. rewrite <- app_assoc, take_app_le by (rewrite length_take; lia).
    rewrite take_take. by replace (6 `min` _)%nat with 6%nat by lia.
  - apply (ho_length _ _ _ Hh).
  - intros i e Ei Hne. pose proof (db_end_section _ _ _ Hok' (trim_zeros_lookup _ _ _ Ei Hne)).
    pose proof (lookup_lt_Some _ _ _ Ei) as Hi. rewrite length_sizes in Hi.
    rewrite connection_offset_small, length_app, Nat2Z.inj_add, length_resize by lia. lia.
  - intros i rs Er. rewrite <- (ho_section _ _ _ Hh i rs Er). unfold section.
    destruct (sizes secs !! i) as [e|] eqn:Ei; simpl; [|by rewrite !file_read_zero].
    destruct (decide (e = 0)) as [->|Hne]; [by rewrite !file_read_zero|].
    pose proof (db_end_section _ _ _ Hok' (trim_zeros_lookup _ _ _ Ei Hne)). pose proof (ho_in _ _ _ Hh i e Ei Hne) as Hin.
    pose proof (Forall_lookup_1 _ _ _ _ Hok Ei) as He. unfold entry_ok in He.
    pose proof (lookup_lt_Some _ _ _ Ei) as Hi. rewrite length_sizes in Hi. rewrite connection_offset_small in * by lia.
    rewrite file_read_app_l by (rewrite ?length_resize; lia). apply file_read_resize; lia.
Qed.

Section close_always.
Context `{Build} (path : string) (c : loc) (D : desc) (secs : sections).

(** The files hold the records, whichever of the sections are still there. *)
Definition keeps_records (v : world) : Prop :=
  exists s, spec_all s = spec_all secs /\ restartable path (d_dbino D) s v.

#[export] Instance keeps_records_on_files : OnFiles keeps_records.
Proof. intros w w' Ef (s & E & Hr). exists s. split; [done|]. by eapply on_files. Qed.

Lemma silent_close_connection conn : silent (close_connection conn).
Proof. unfold close_connection. silent_solve. Qed.

(** While the log is there. *)
Lemma session_keeps w db w' :
  session path c D secs w -> zlen secs < 65536 -> os_dir (w_os w') = os_dir (w_os w) ->
  os_inodes (w_os w') !! d_dbino D = Some db -> os_inodes (w_os w') !! d_logino D = os_inodes (w_os w) !! d_logino D ->
  stored db secs -> zlen db < 2 ^ 62 -> keeps_records w'.
Proof.
  intros Hs Hlen Ed Ei El Hst Hsz. destruct (se_db _ _ _ _ _ Hs) as [(bs & Hdb & _)].
  exists secs. split; [done|]. split; [rewrite Ed; apply Hs|]. exists db. split; [done|].
  rewrite Ed, (se_log _ _ _ _ _ Hs). split; [apply (ds_ne _ _ _ _ _ _ _ Hdb)|]. exists (log_image (sizes secs)).
  rewrite El, (ds_logfile _ _ _ _ _ _ _ Hdb). split; [done|]. left. by split_and!.
Qed.

(** When it is gone. *)
Lemma merged_keeps w bs w' :
  session path c D secs w -> zlen secs < 65536 -> os_dir (w_os w') = delete (log_name path) (os_dir (w_os w)) ->
  os_inodes (w_os w') !! d_dbino D = Some (merged_db (sizes secs) bs) -> stored bs secs -> keeps_records w'.
Proof.
  intros Hs Hlen Ed Ei Hst. pose proof (log_name_ne path). pose proof (trim_length secs).
  exists (trim secs). split; [apply spec_all_trim|]. split; [rewrite Ed, lookup_delete_ne by done; apply Hs|].
  exists (merged_db (sizes secs) bs). split; [done|]. rewrite Ed, lookup_delete_eq. destruct Hst as [Hh Hho Hok _]. constructor.
  - by apply merged_header.
  - by apply merged_holds.
  - rewrite sizes_trim. by apply trim_zeros_ok.
  - lia.
  - left. rewrite sizes_trim. apply merged_has_log; [done|by rewrite length_sizes].
Qed.

End close_always.

(** ** Closing the connection *)

Lemma close_connection_total `{Build} th c k w :
  peek logdb_connection_t (w_heap w) c = Some k ->
  exists w', run th (close_connection (Some c)) w = Done 0 w' /\ w_heap w' !! c = None /\ get_fd (conn_fd k) w' = None.
Proof.
  intros Hc. unfold close_connection. rewrite run_bind, run_load, (do_load_peek _ _ _ _ Hc).
  assert (exists r w1, run th (sys_flock_un (conn_fd k)) w = Done r w1 /\ w_heap w1 = w_heap w) as (r & w1 & E & Eh).
  { unfold sys_flock_un, with_fd. rewrite run_prim. destruct (next_fault_spec w) as (f & fs & -> & _).
    destruct f, (get_fd (conn_fd k) (set_oracle fs w)); do 2 eexists; by split. }
  rewrite run_bind, E. clear E.
  assert (exists r' w2, run th (sys_close (conn_fd k)) w1 = Done r' w2 /\ w_heap w2 = w_heap w /\ get_fd (conn_fd k) w2 = None)
    as (r' & w2 & E & Eh2 & Efd).
  { rewrite run_close. unfold do_close. destruct (get_fd (conn_fd k) w1) eqn:E1; do 2 eexists; [|done].
    split_and!; [done|done|apply lookup_delete_eq]. }
  rewrite run_bind, E. clear E. rewrite <- Eh2 in Hc.
  rewrite run_bind. unfold rwlock_unlock. rewrite run_rmw, (do_rmw_peek _ k) by exact Hc.
  rewrite run_bind, run_upd; erewrite (do_rmw_peek (T := logdb_connection_t)) by exact (peek_insert logdb_connection_t _ _ _).
  rewrite run_bind, run_free, do_free_run by exact (peek_is_Some _ _ _ _ (peek_insert logdb_connection_t _ _ _)).
  eexists. split; [done|]. split; [apply lookup_delete_eq|exact Efd].
Qed.

Section close.
Context `{Build} (th : thread) (path : string) (c : loc) (D : desc) (secs : sections).

(** The connection is gone, and its descriptor closed. *)
Definition conn_closed (r : Z) (w : world) : Prop := r = 0 /\ w_heap w !! c = None /\ get_fd (d_fd D) w = None.

(** Or nothing happened. *)
Definition close_result (w : world) (r : Z) (w' : world) : Prop :=
  conn_closed r w' \/ r = -1 /\ exists fs, w' = set_oracle fs w.

(** What is left when the log was merged, or could not be. *)
Lemma wp_close_rest I `{OnFiles I} merged w w1 :
  survives (d_log D) merged w w1 -> c <> d_log D -> is_Some (peek logdb_log_t (w_heap w) (d_log D)) ->
  peek logdb_connection_t (w_heap w) c = Some (locked_conn D) -> I w1 ->
  wp th I (if merged =? 0 then close_connection (Some c) else
    let! r := logdb_log_close (Some (d_log D)) in
    if negb (r =? 0) then do! sys_flock_un (d_fd D) in do! rwlock_unlock (Some c) in Ret (-1) else close_connection (Some c)) conn_closed w1.
Proof.
  intros Hs Hne [l Hl] Hc Hi.
  assert (forall T (HC : Cell T) x (t : T), peek T (w_heap w) x = Some t -> x <> d_log D \/ merged <> 0 -> peek T (w_heap w1) x = Some t) as Hsv.
  { intros T HC x t Hx Hor. unfold peek in *. destruct (w_heap w !! x) as [y|] eqn:Ex; [|done].
    destruct (Hs _ _ Ex) as [[-> ->]|E]; [by destruct Hor|by rewrite E]. }
  assert (forall w2, peek logdb_connection_t (w_heap w2) c = Some (locked_conn D) -> I w2 -> wp th I (close_connection (Some c)) conn_closed w2) as Hcl.
  { intros w2 Hc2 Hi2. destruct (close_connection_total th c _ w2 Hc2) as (w3 & E & E1 & E2).
    eapply wp_silent; [exact _|exact E|apply silent_close_connection|done|]. by intros _. }
  destruct (Z.eqb_spec merged 0) as [E|E]; [apply Hcl; [by apply Hsv; [|left]|done]|].
  apply wp_bind, (wp_log_close th I (d_log D) l); [done|by apply Hsv; [|right]|]. intros w2 Ef Eh.
  change (negb (0 =? 0)) with false. cbn iota. apply Hcl; [|by apply (on_files w1)].
  rewrite Eh, peek_delete_ne by done. by apply Hsv; [|left].
Qed.

#[local] Abbreviation I := (keeps_records path D secs).

(** The merge, in a world as [closing] is. *)
Lemma wp_close_tail w w2 :
  session path c D secs w -> zlen secs < 65536 -> zlen (get_file (d_dbino D) w) < 2 ^ 62 ->
  w_os w2 = w_os w -> w_heap w2 = <[c := CConn (locked_conn D)]> (w_heap w) -> w_next w2 = w_next w -> I w2 ->
  wp th I (close_tail c D) conn_closed w2.
Proof.
  intros Hs Hlen Hsz Eos2 Eh2 En2 Hi2. destruct (se_db _ _ _ _ _ Hs) as [(bs & Hdb & Hh)].
  destruct (ds_dbfd _ _ _ _ _ _ _ Hdb) as (o & Eo & Hino & Hpos & Happ). pose proof (ds_ne _ _ _ _ _ _ _ Hdb) as [Hine Hfne].
  assert (get_file (d_dbino D) w = bs) as Hfile by (unfold get_file; by rewrite (ds_db _ _ _ _ _ _ _ Hdb)).
  assert (stored bs secs) as Hst by (constructor; [rewrite <- Hfile; apply Hs|done|apply Hdb|lia]).
  destruct (session_log_ok path c D secs o (locked_conn D) w Hs Eo Hlen) as (l & lo & Hl & Hlfd & Hlp & Elo & Hlino & Hf & Hun & Hcne & _).
  unfold close_tail. apply wp_bind, wp_flock_ex_nb; [exact _|done|]. intros r w3 [Ef3 Eh3 En3 Eo3] Ec3. rewrite Eos2 in Eo3, Ec3.
  assert (I w3) as Hi3 by by apply (on_files w2). apply wp_bind.
  assert (forall d, get_fd d w3 = get_fd d w) as Efd by (intros; unfold get_fd; by rewrite Eo3).
  pose proof Ef3 as [= Ed3 Ei3 _]. rewrite Eos2 in Ed3, Ei3. rewrite Eh2 in Eh3. rewrite En2 in En3.
  assert (forall i, get_file i w3 = get_file i w) as Efl by (intros; unfold get_file; by rewrite Ei3).
  assert (heap_fresh w3) as Hf3 by (unfold heap_fresh; rewrite Eh3, En3; exact Hf).
  assert (log_ok (d_log D) l lo (sizes secs) w3) as Hl3.
  { apply (log_ok_frame _ _ _ _ _ _ Hl); [rewrite Eh3; apply Hl| |rewrite Efl; done].
    destruct Hl as [_ (? & ? & ?) _ _ _]. split_and!; [by rewrite Efd, Hlfd|by rewrite Ei3|done]. }
  assert (forall m w4, survives (d_log D) m w3 w4 -> I w4 -> wp th I (if m =? 0 then close_connection (Some c) else
    let! r := logdb_log_close (Some (d_log D)) in
    if negb (r =? 0) then do! sys_flock_un (d_fd D) in do! rwlock_unlock (Some c) in Ret (-1) else close_connection (Some c)) conn_closed w4) as Hrest.
  { intros m w4 Hsv Hi4. apply (wp_close_rest _ m w3); [done|done|exists l; apply Hl3| |done]. rewrite Eh3. exact (peek_insert logdb_connection_t _ _ _). }
  destruct (r =? 0).
  2: { apply wp_ret; [done|]. apply Hrest; [by apply near_survives|done]. }
  apply (wp_mono _ _ _ (fun m w4 => I w4 /\ survives (d_log D) m w3 w4)); [apply wp_inv|intros m w4 []; by apply Hrest].
  assert (forall post w', os_dir (w_os w') = os_dir (w_os w) ->
    os_inodes (w_os w') = <[d_dbino D := resize (db_end (trim_zeros (sizes secs))) bs ++ post]> (os_inodes (w_os w)) -> zlen post <= 2 ^ 20 -> I w') as HI1.
  { intros post w' Ed Ei Hpost. eapply session_keeps; [exact Hs|done|exact Ed|rewrite Ei; apply lookup_insert_eq|rewrite Ei; by apply lookup_insert_ne|by apply stored_resized|].
    rewrite Hfile in Hsz. pose proof (trim_zeros_ok _ (st_entries _ _ Hst)) as Htr. pose proof (db_end_nonneg _ Htr). pose proof (db_end_le _ Htr).
    pose proof (trim_zeros_length (sizes secs)) as Htl. rewrite length_sizes in Htl. rewrite length_app, Nat2Z.inj_add, length_resize by lia. lia. }
  apply (wp_close_merge th I (d_log D) l (sizes secs) (log_name path) (d_fd D) (d_dbino D) _ (st_entries _ _ Hst)
    ltac:(by rewrite length_sizes) _ (os_dir (w_os w)) (os_inodes (w_os w)) HI1) with (lo := lo) (dbo := o); try done.
  - intros w' Ed Ei. rewrite bytes_u32_u32, <- length_log_image in Ei. eapply merged_keeps; [exact Hs|done|exact Ed|rewrite Ei; apply lookup_insert_eq|done].
  - by rewrite Hlfd.
  - unfold log_unlocked. rewrite Ec3. exact Hun.
  - by rewrite Efd.
  - by rewrite Efl, Hfile.
Qed.

(** [logdb_close], whatever fails. *)
Lemma wp_close w :
  session path c D secs (set_oracle [] w) -> current_txn th D w = None -> zlen secs < 65536 ->
  zlen (get_file (d_dbino D) w) < 2 ^ 62 -> wp th I (logdb_close (Some c)) (close_result w) w.
Proof.
  intros Hs Hcur Hlen Hsz. destruct (se_db _ _ _ _ _ Hs) as [(bs & Hdb & Hh)].
  pose proof (ds_conn _ _ _ _ _ _ _ Hdb) as Ec. change (w_heap (set_oracle [] w)) with (w_heap w) in Ec.
  assert (get_file (d_dbino D) w = bs) as Hfile.
  { change (get_file (d_dbino D) (set_oracle [] w) = bs). unfold get_file. by rewrite (ds_db _ _ _ _ _ _ _ Hdb). }
  assert (stored bs secs) as Hst.
  { constructor; [rewrite <- Hfile; apply Hs|done|apply Hdb|]. pose proof (ds_count _ _ _ _ _ _ _ Hdb). by rewrite length_sizes in *. }
  assert (I w) as Hw by (rewrite Hfile in Hsz; by apply (session_keeps path c D secs (set_oracle [] w) bs); try apply Hdb).
  assert (run th (verify_connection (Some c)) w = Done true w) as E0.
  { unfold verify_connection. destruct DEBUG; [|done]. by rewrite run_bind, run_load, (do_load_peek _ _ _ _ Ec). }
  unfold logdb_close. apply wp_bind. eapply wp_silent; [exact _|exact E0|silent_solve|done|]. intros _. cbn [negb]. cbn iota.
  apply wp_bind. unfold rwlock_wrlock, prim. cbn [wp]. split; [done|]. unfold with_rwlock. destruct (next_fault_spec w) as (f & fs & -> & _).
  set (w1 := set_heap (<[c := CConn (locked_conn D)]> (w_heap w)) (set_oracle fs w)).
  match goal with |- context [@bind unit Z ?p ?q] => assert (wp th I (bind p q) (close_result w) w1) as Hok end.
  { assert (peek logdb_connection_t (w_heap w1) c = Some (locked_conn D)) as Ec1 by exact (peek_insert logdb_connection_t _ _ _).
    assert (I w1) as Hw1 by by apply (on_files w).
    assert (run th (logdb_txn_rollback_all (Some c)) w1 = Done tt w1) as E1.
    { unfold logdb_txn_rollback_all, logdb_txn_current, pthread_getspecific. rewrite run_bind, run_bind, run_load, (do_load_peek _ _ _ _ Ec1), run_prim.
      change (default None (w_tls w1 !! _)) with (current_txn th D w). by rewrite Hcur. }
    apply wp_bind. eapply wp_silent; [exact _|exact E1|silent_solve|done|]. intros _.
    apply wp_bind. eapply wp_silent; [exact _|by rewrite run_load, (do_load_peek _ _ _ _ Ec1)|silent_solve|done|]. intros _.
    apply wp_bind. eapply wp_silent; [exact _|by unfold pthread_key_delete; rewrite run_prim|silent_solve|done|]. intros _.
    eapply wp_mono; [by apply (wp_close_tail (set_oracle [] w))|by left]. }
  assert (I (set_oracle fs w)) as Hw' by by apply (on_files w).
  destruct f; [| |by split; [|apply wp_ret; [done|right; split; [|by exists fs]]]].
  all: unfold with_cell; change (w_heap (set_oracle fs w)) with (w_heap w); rewrite Ec.
  all: split; [by apply (on_files w)|exact Hok].
Qed.

End close.

(** ** Properties *)

(** C3. Whatever calls of [logdb_close] fail, or transfer less than they should,
    and whenever the process crashes: opening the database again finds all
    records, whether the log is still there, or has been put at the end of the
    database file, wholly or in part.  And [logdb_close] returns: it has closed
    the database, or it could not take the lock and changed nothing. *)
Theorem close_crash_recovery `{Build} th path c D secs w :
  session path c D secs (set_oracle [] w) -> current_txn th D w = None -> zlen secs < 65536 ->
  zlen (get_file (d_dbino D) w) < 2 ^ 62 ->
  always th (fun x => forall th' flags w0, rebooted path x w0 ->
      exists c' D' secs' w', run th' (logdb_open (Some path) flags) w0 = Done (Some c') w' /\
        session path c' D' secs' w' /\ spec_all secs' = spec_all secs)
    (logdb_close (Some c)) w /\
  exists r w', run th (logdb_close (Some c)) w = Done r w' /\ close_result c D w r w'.
Proof.
  intros Hs Hcur Hlen Hsz. destruct (wp_sound _ _ _ _ _ (wp_close th path c D secs w Hs Hcur Hlen Hsz)) as [Ha He].
  split; [|done]. eapply always_mono; [|exact Ha].
  intros x (s & Es & Hr) th' flags w0 Hb. destruct (restart_run th' path (d_dbino D) s flags x w0 Hr Hb) as (c' & D' & w' & E & Hs').
  by exists c', D', s, w'.
Qed.

(** ** Witnesses *)

#[local] Existing Instance debug_build.

(** The merge is cut short in the write of the log's header. *)
Definition short_merge : list fault := replicate 13 FOk ++ [FShort 3; FFail].

Lemma close_crash_recovery_witness :
  let w := set_oracle short_merge (put_sample [x61] [x62; x63] 0 header_bytes [0]) in
  rebooted "t.db" w (process_died w) /\
  (always main_thread (fun x => forall th' flags w0, rebooted "t.db" x w0 ->
      exists c' D' secs' w', run th' (logdb_open (Some "t.db") flags) w0 = Done (Some c') w' /\
        session "t.db" c' D' secs' w' /\ spec_all secs' = [])
    (logdb_close (Some 2)) w /\
   exists r w', run main_thread (logdb_close (Some 2)) w = Done r w' /\ close_result 2 (open_desc 0) w r w') /\
  exists w', run main_thread (logdb_close (Some 2)) w = Done 0 w' /\
    os_inodes (w_os w') !! 1 = Some (header_bytes ++ [x4c; x44; x42; x4c]).
Proof.
  split_and!.
  - apply process_died_rebooted, (se_world _ _ _ _ _ (put_sample_session [x61] [x62; x63] 0)).
  - apply (close_crash_recovery main_thread "t.db" 2 (open_desc 0) [[]]); [apply put_sample_session|done..].
  - apply (close_crash_recovery main_thread "t.db" 2 (open_desc 0) [[]]); [apply put_sample_session|done..].
  - eexists. split; vm_compute; reflexivity.
Defined.
