(* ===== verification/Commit.v ===== *)
(** * A commit whose calls fail

    When [logdb_put] holds the lease on a section, it writes the record behind
    the section's data, syncs, and writes the new length to the log.  Any of
    these calls may fail, or transfer less than it should, and the process or
    the machine may crash at any step: the log tells of the record only when
    all of it is there.  The exception is an entry of which only one byte was
    written. *)

From S2P Require Import Prelude Machine World Posix Io Layout Log LogSpec Buffer.
From S2P Require Import BufferSpec LogLock LockSpec DbState Lease LeaseSpec Txn Silent TxnSpec Iter.
From S2P Require Import IterSpec Database CrashSpec Connection ConnSpec Recovery FaultLogic.

(** ** A torn entry *)

(** The low byte of the new length with the high byte of the old one. *)
Definition torn_entry (old new : Z) : Z := new mod 256 + 256 * (old / 256).

Lemma torn_entry_ok old new : entry_ok old -> entry_ok (torn_entry old new).
Proof.
  unfold entry_ok, torn_entry. intros Ho. pose proof (Z.mod_pos_bound new 256).
  pose proof (Z.div_lt_upper_bound old 256 256). pose proof (Z.div_pos old 256). lia.
Qed.

Lemma bytes_u16_two z : bytes_u16 z = [byte_of_Z z; byte_of_Z (z / 256)].
Proof. done. Qed.

Lemma bytes_torn old new : bytes_u16 (torn_entry old new) = [byte_of_Z new; byte_of_Z (old / 256)].
Proof.
  rewrite bytes_u16_two. unfold torn_entry. f_equal.
  - unfold byte_of_Z. rewrite (Z.mul_comm 256), Z_mod_plus_full, Z.mod_mod by lia. done.
  - do 2 f_equal. rewrite (Z.mul_comm 256), Z.div_add, Z.div_small by (try apply Z.mod_pos_bound; lia). lia.
Qed.

Lemma file_write_half es i old new :
  es !! i = Some old ->
  file_write (logdb_log_offset (Z.of_nat i)) [byte_of_Z new] (log_image es) = log_image (<[i := torn_entry old new]> es).
Proof.
  intros E. rewrite <- (file_write_entry es i old (torn_entry old new) E), bytes_torn, (log_image_split es i old E), bytes_u16_two.
  pose proof (length_log_image (take i es)) as HL. rewrite (length_take_lookup es i old E) in HL.
  set (A := log_image (take i es)) in *. set (B := entries_bytes _).
  assert (Z.to_nat (logdb_log_offset (Z.of_nat i)) = length A) as Eo by (unfold logdb_log_offset, sizeof_log_header, sizeof_log_entry; lia).
  unfold file_write. rewrite Eo. unfold splice. rewrite !take_app_length, length_app, !drop_app_add.
  by replace (length A - _)%nat with 0%nat by lia.
Qed.

(** ** The data *)

#[export] Instance table_leaked_frame i : TableFrame (table_leaked i).
Proof. constructor; [apply (table_conn (T := table_idle))|apply (table_user (T := table_idle))]. Qed.

Section commit.
Context `{Build} (th : thread) (c : loc) (D : desc).

(** The state, but for the calls that will fail. *)
#[local] Abbreviation st es bs r T w := (db_state c D es bs r T (set_oracle [] w)).

(** New contents of the database file. *)
Definition db_written (b : list byte) (fs : list fault) (w : world) : world := put_file (d_dbino D) b (set_oracle fs w).

Lemma db_written_twice b b' fs fs' w : db_written b' fs' (db_written b fs w) = db_written b' fs' w.
Proof.
  unfold db_written. change (set_oracle fs' (put_file ?i b (set_oracle fs w))) with (put_file i b (set_oracle fs' w)). apply put_file_twice.
Qed.

Lemma db_written_id es bs r T w : st es bs r T w -> db_written bs (w_oracle w) w = w.
Proof.
  intros Hst. pose proof (ds_db _ _ _ _ _ _ _ Hst) as E. unfold db_written. rewrite set_oracle_id.
  assert (get_file (d_dbino D) w = bs) as <- by (unfold get_file; by rewrite (E : os_inodes (w_os w) !! _ = _)).
  apply put_file_id. by eexists.
Qed.

Lemma db_written_state es bs b r T w fs : st es bs r T w -> st es b r T (db_written b fs w).
Proof. intros Hst. exact (proj1 (write_db_state c D es bs b r T _ Hst)). Qed.

Lemma wp_lease_write I `{OnFiles I} es bs r T (Q : Z * logdb_lease_t -> world -> Prop) w i off len t p n d :
  st es bs r T w -> mem_bytes (w_heap w) p n = Some d -> 0 <= i < 65536 -> 0 <= off -> n <= len < 2 ^ 32 -> off + n < 2 ^ 62 ->
  (forall d1 d2 fs, d = d1 ++ d2 -> I (db_written (file_write (logdb_connection_offset i + off) d1 bs) fs w)) ->
  (forall fs, Q (0, mk_lease (Some c) i (off + n) (len - n) t) (db_written (file_write (logdb_connection_offset i + off) d bs) fs w)) ->
  (forall d1 d2 fs x off' len', d = d1 ++ d2 -> x <> 0 -> Q (x, mk_lease (Some c) i off' len' t) (db_written (file_write (logdb_connection_offset i + off) d1 bs) fs w)) ->
  wp th I (logdb_lease_write (mk_lease (Some c) i off len t) p n) Q w.
Proof.
  intros Hst Hd Hi Hoff Hlen Hsz HI HQ HQ'. pose proof (mem_bytes_length _ _ _ _ Hd) as Hn.
  assert (I w) as Hw.
  { pose proof (HI [] d (w_oracle w) eq_refl) as Hw. by rewrite file_write_nil, (db_written_id es bs r T) in Hw. }
  unfold logdb_lease_write. cbn [lease_len lease_index lease_offset lease_connection].
  destruct (DEBUG && bool_decide (p = None)) eqn:Ep.
  - apply andb_prop in Ep as [_ ->%bool_decide_eq_true]. unfold mem_bytes in Hd.
    destruct (Z.eqb_spec n 0) as [->|]; [|done]. injection Hd as <-. apply wp_ret; [done|]. pose proof (HQ (w_oracle w)) as HQ0.
    by rewrite file_write_nil, (db_written_id es bs r T), Z.add_0_r, Z.sub_0_r in HQ0.
  - rewrite (proj2 (Z.ltb_ge _ _)) by lia. pose proof (ds_conn _ _ _ _ _ _ _ Hst) as Ec.
    apply wp_bind. eapply wp_silent; [exact _|rewrite run_load; by apply (do_load_peek logdb_connection_t c (the_conn D r))|silent_solve|done|]. intros _.
    apply wp_bind. eapply wp_silent; [exact _|by apply load_mem_run|silent_solve|done|]. intros _. cbn [conn_fd the_conn].
    destruct (ds_dbfd _ _ _ _ _ _ _ Hst) as (o & Eo & Hino & Hpos & Happ). pose proof (ds_db _ _ _ _ _ _ _ Hst) as Eb.
    assert (forall m fs, pwritten (fd_ino o) (logdb_connection_offset i + off) d w m fs =
      db_written (file_write (logdb_connection_offset i + off) (take (Z.to_nat m) d) bs) fs w) as Epw.
    { intros m fs. unfold pwritten, db_written. rewrite Hino. do 2 f_equal. unfold get_file. by rewrite (Eb : os_inodes (w_os w) !! _ = _). }
    apply wp_bind, (wp_io_pwrite _ _ _ _ _ _ _ o).
    + split_and!; [done|rewrite Hino; by eexists|done].
    + rewrite connection_offset_small; lia.
    + intros m fs Hm. rewrite Epw. apply (HI _ (drop (Z.to_nat m) d)). by rewrite take_drop.
    + intros m fs Hm. rewrite Epw. apply wp_ret.
      { apply (HI _ (drop (Z.to_nat m) d)). by rewrite take_drop. }
      destruct (Z.eq_dec m (zlen d)) as [->|Hne].
      * rewrite Nat2Z.id, firstn_all. unfold lease_advance. cbn [lease_len lease_index lease_offset lease_connection lease_type].
        rewrite Hn, !Z.sub_diag, Z.sub_0_r, u64_small, s64_small, u32_small by lia. apply HQ.
      * apply (HQ' _ (drop (Z.to_nat m) d)); [by rewrite take_drop|lia].
Qed.

Lemma wp_write_buf_loop I `{OnFiles I} m es bs r T (Q : Z * logdb_lease_t -> world -> Prop) w i off len l d :
  st es bs r T w -> buffer_bytes m (w_heap w) (Some l) = Some d ->
  0 <= i < 65536 -> 0 <= off -> zlen d <= len < 2 ^ 32 -> off + zlen d < 2 ^ 62 ->
  (forall d1 d2 fs, d = d1 ++ d2 -> I (db_written (file_write (logdb_connection_offset i + off) d1 bs) fs w)) ->
  (forall fs, Q (0, mk_lease (Some c) i (off + zlen d) (len - zlen d) LOGDB_LOG_LOCK_WRITE)
    (db_written (file_write (logdb_connection_offset i + off) d bs) fs w)) ->
  (forall d1 d2 fs off' len', d = d1 ++ d2 ->
    Q (-1, mk_lease (Some c) i off' len' LOGDB_LOG_LOCK_WRITE) (db_written (file_write (logdb_connection_offset i + off) d1 bs) fs w)) ->
  wp th I (txn_write_buf_loop m (mk_lease (Some c) i off len LOGDB_LOG_LOCK_WRITE) (Some l)) Q w.
Proof.
  revert es bs w off len l d Q. induction m as [|m IH]; intros es bs w off len l d Q Hst Hb Hi Hoff Hlen Hsz HI HQ HQ'; [done|].
  cbn [buffer_bytes] in Hb. destruct (peek logdb_buffer_t (w_heap w) l) as [b|] eqn:Eb; [|done].
  cbn [mbind option_bind] in Hb. apply bind_Some in Hb as (d1 & E1 & (d2 & E2 & [= <-])%bind_Some).
  rewrite length_app in *. rewrite Nat2Z.inj_add in *. cbn [txn_write_buf_loop]. set (O := logdb_connection_offset i) in *.
  assert (I w) as Hw.
  { pose proof (HI [] (d1 ++ d2) (w_oracle w) eq_refl) as Hw. by rewrite file_write_nil, (db_written_id es bs r T) in Hw. }
  apply wp_bind. eapply wp_silent; [exact _|by rewrite run_load, (do_load_peek _ _ _ _ Eb)|silent_solve|done|]. intros _. apply wp_bind.
  assert (forall a a' fs, d1 = a ++ a' -> I (db_written (file_write (O + off) a bs) fs w)) as HI1.
  { intros a a' fs ->. apply (HI a (a' ++ d2)). by rewrite app_assoc. }
  set (K := fun (x : Z * logdb_lease_t) (w' : world) => wp th I (let '(r, lease) := x in
      if negb (r =? 0) then Ret (-1, lease) else
      match buf_next b with Some _ => txn_write_buf_loop m lease (buf_next b) | None => Ret (0, lease) end) Q w').
  assert (forall fs, K (0, mk_lease (Some c) i (off + zlen d1) (len - zlen d1) LOGDB_LOG_LOCK_WRITE) (db_written (file_write (O + off) d1 bs) fs w)) as Hok.
  { intros fs. unfold K. change (negb (0 =? 0)) with false. cbn iota. destruct (buf_next b) as [l'|].
    - assert (forall a fs', db_written (file_write (O + (off + zlen d1)) a (file_write (O + off) d1 bs)) fs' (db_written (file_write (O + off) d1 bs) fs w) =
        db_written (file_write (O + off) (d1 ++ a) bs) fs' w) as Ew.
      { intros a fs'. rewrite db_written_twice, Z.add_assoc, file_write_app; [done|]. unfold O. rewrite connection_offset_small; lia. }
      apply (IH es _ _ (off + zlen d1) (len - zlen d1) l' d2 Q (db_written_state es bs (file_write (O + off) d1 bs) r T w fs Hst) E2); [lia..| | |].
      + intros a a' fs' ->. rewrite Ew. apply (HI (d1 ++ a) a'). by rewrite app_assoc.
      + intros fs'. rewrite Ew, <- Z.add_assoc, <- Z.sub_add_distr. apply HQ.
      + intros a a' fs' off' len' ->. rewrite Ew. apply (HQ' (d1 ++ a) a'). by rewrite app_assoc.
    - assert (d2 = []) as -> by (destruct m; by injection E2). apply wp_ret; [by apply (HI1 d1 []); rewrite app_nil_r|].
      pose proof (HQ fs) as HQ0. rewrite app_nil_r, Z.add_0_r in HQ0. exact HQ0. }
  assert (forall a a' fs x off' len', d1 = a ++ a' -> x <> 0 ->
    K (x, mk_lease (Some c) i off' len' LOGDB_LOG_LOCK_WRITE) (db_written (file_write (O + off) a bs) fs w)) as Hbad.
  { intros a a' fs x off' len' Ea Hx. unfold K. rewrite (proj2 (Z.eqb_neq _ _)) by done. apply wp_ret; [by apply (HI1 a a')|].
    apply (HQ' a (a' ++ d2)). by rewrite Ea, app_assoc. }
  destruct (buf_orig b) as [o|].
  - apply (IH es bs w off len o d1 K); try done; try lia. intros a a' fs off' len' Ea. by apply (Hbad a a').
  - pose proof (mem_bytes_length _ _ _ _ E1) as Hn. apply (wp_lease_write I es bs r T K w i off len _ _ _ d1); try done; try lia. by rewrite <- Hn.
Qed.

(** ** The entry *)

(** New contents of the log. *)
Definition log_written (es : list Z) (fs : list fault) (w : world) : world := put_file (d_logino D) (log_image es) (set_oracle fs w).

Lemma log_written_state es es2 bs r T w fs :
  st es bs r T w -> Forall entry_ok es2 -> length es2 = length es -> st es2 bs r T (log_written es2 fs w).
Proof.
  intros Hst Hok Hlen. pose proof (ds_ne _ _ _ _ _ _ _ Hst) as [Hne _]. constructor; try apply Hst; try done; cbn.
  - rewrite lookup_insert_ne by done. apply Hst.
  - apply lookup_insert_eq.
  - rewrite Hlen. apply Hst.
Qed.

Lemma wp_write_entry I `{OnFiles I} es bs r T (Q : Z -> world -> Prop) w i e len :
  st es bs r T w -> es !! i = Some e -> 0 <= len < 65536 ->
  (forall es2 fs, es2 = es \/ es2 = <[i := torn_entry e len]> es \/ es2 = <[i := len]> es -> I (log_written es2 fs w)) ->
  (forall fs, Q 0 (log_written (<[i := len]> es) fs w)) ->
  (forall es2 fs, es2 = es \/ es2 = <[i := torn_entry e len]> es -> Q (-1) (log_written es2 fs w)) ->
  wp th I (logdb_log_write_entry (Some (d_log D)) len (Z.of_nat i)) Q w.
Proof.
  intros Hst Ei Hlen HI HQ HQ'. destruct (db_log_ok _ _ _ _ _ _ _ Hst) as (l & o & Hl & Hfd & _ & _ & Eo & Hino & _).
  pose proof (lo_struct _ _ _ _ _ Hl) as El.
  assert (get_file (d_logino D) w = log_image es) as Ef by (rewrite <- Hino; apply Hl).
  assert (forall es2 fs, log_written es2 fs w = put_file (d_logino D) (log_image es2) (set_oracle fs w)) as Elw by done.
  assert (I w) as Hw.
  { pose proof (HI es (w_oracle w) ltac:(by left)) as Hw. rewrite Elw, set_oracle_id, <- Ef in Hw.
    rewrite put_file_id in Hw; [done|]. rewrite <- Hino. apply Hl. }
  unfold logdb_log_write_entry. rewrite bool_decide_eq_false_2, andb_false_r by done.
  apply wp_bind. eapply wp_silent; [exact _|by rewrite run_load, (do_load_peek logdb_log_t _ l)|silent_solve|done|]. intros _. apply wp_bind.
  assert (forall n fs, 0 <= n <= 2 -> exists es2, pwritten (fd_ino o) (logdb_log_offset (Z.of_nat i)) (bytes_u16 len) w n fs = log_written es2 fs w /\
    (n < 2 /\ (es2 = es \/ es2 = <[i := torn_entry e len]> es) \/ n = 2 /\ es2 = <[i := len]> es)) as Hpw.
  { intros n fs Hn. unfold pwritten. rewrite Hino, Ef. assert (n = 0 \/ n = 1 \/ n = 2) as [->|[->| ->]] by lia; rewrite ?bytes_u16_two.
    - exists es. cbn [Z.to_nat take]. rewrite file_write_nil. split; [done|]. by left; split; [lia|left].
    - exists (<[i := torn_entry e len]> es). change (take (Z.to_nat 1) [byte_of_Z len; byte_of_Z (len / 256)]) with [byte_of_Z len].
      rewrite (file_write_half es i e) by done. split; [done|]. by left; split; [lia|right].
    - exists (<[i := len]> es). change (take (Z.to_nat 2) [byte_of_Z len; byte_of_Z (len / 256)]) with (bytes_u16 len).
      rewrite (file_write_entry es i e) by done. split; [done|]. by right. }
  apply (wp_io_pwrite _ _ _ _ _ _ _ o); [apply Hl|unfold logdb_log_offset, sizeof_log_header, sizeof_log_entry; lia|..].
  - intros n fs Hn. destruct (Hpw n fs Hn) as (es2 & -> & Hes2). apply HI. tauto.
  - intros n fs Hn. destruct (Hpw n fs Hn) as (es2 & -> & [[Hn2 Hes2]|[-> ->]]).
    + rewrite (proj2 (Z.ltb_lt _ _)) by (change (zlen (bytes_u16 len)) with 2; lia). apply wp_ret; [apply HI; tauto|]. by apply HQ'.
    + change (0 <? zlen (bytes_u16 len) - 2) with false. cbn iota. apply wp_ret; [apply HI; tauto|]. apply HQ.
Qed.

(** ** Releasing the lease *)

Lemma unlocked_state es bs r i w h F l :
  st es bs r (table_held i) w -> (forall k, k ∈ F -> fl_ino k = d_logino D -> k ∈ os_fcntl (w_os w)) ->
  peek logdb_log_t (w_heap w) (d_log D) = Some l -> peek logdb_log_t h (d_log D) = Some l -> table_idle h l ->
  lock_equiv (w_heap w) h -> heap_fresh (set_heap h w) ->
  st es bs r (table_leaked i) (set_os (set_os_fcntl F (w_os w)) (set_heap h w)).
Proof.
  intros Hst HF El El' Hidle He Hf. constructor; try apply Hst; try done.
  - exact (lock_equiv_peek logdb_connection_t _ _ _ _ He (ds_conn _ _ _ _ _ _ _ Hst)).
  - destruct (ds_log _ _ _ _ _ _ _ Hst) as (l' & Hl' & ? & ? & _). change (peek logdb_log_t (w_heap w) (d_log D) = Some l') in Hl'.
    assert (l' = l) as -> by congruence. by exists l.
  - intros k Hk Hki. apply (ds_fcntl _ _ _ _ _ _ _ Hst); [by apply HF|done].
Qed.

Lemma wp_log_unlock I `{OnFiles I} es bs r (Q : unit -> world -> Prop) w i :
  st es bs r (table_held i) w -> 0 <= i < 2 ^ 31 -> I w ->
  (forall w', files w' = files w -> st es bs r (table_leaked i) w' -> Q tt w') ->
  wp th I (logdb_log_unlock (Some (d_log D)) i LOGDB_LOG_LOCK_WRITE) Q w.
Proof.
  intros Hst Hi Hw HQ. destruct (db_log_ok _ _ _ _ _ _ _ Hst) as (l & o & Hl & Hfd & _ & HT & Eo & Hino & _ & Hpid).
  pose proof (lo_struct _ _ _ _ _ Hl) as El. change (get_fd (d_logfd D) w = Some o) in Eo.
  destruct (ds_log _ _ _ _ _ _ _ Hst) as (l' & El' & Hfd' & _ & HT').
  assert (l' = l) as -> by congruence. clear El' HT.
  unfold logdb_log_unlock. apply wp_bind. eapply wp_silent; [exact _|by rewrite run_load, (do_load_peek logdb_log_t _ l)|silent_solve|done|]. intros _.
  assert (forall F fs, (forall k, k ∈ F -> fl_ino k = d_logino D -> k ∈ os_fcntl (w_os w)) ->
    wp th I (logdb_log_inproc_unlock (Some (d_log D)) i LOGDB_LOG_LOCK_WRITE) Q (set_os (set_os_fcntl F (w_os w)) (set_oracle fs w))) as Hin.
  { intros F fs HF. set (w1 := set_os _ _).
    destruct (inproc_unlock_held_run th w1 (d_log D) l i) as (h' & E & Ep & Hidle & He & Hf); [apply (ds_fresh _ _ _ _ _ _ _ Hst)|done..|].
    eapply wp_silent; [exact _|exact E|apply silent_inproc_unlock|by apply (on_files w)|]. intros Ef. apply HQ; [exact Ef|].
    by apply (unlocked_state es bs r i w h' F l). }
  apply wp_bind. unfold sys_fcntl_setlk, do_setlk. apply (wp_with_fd th I) with (o := o); [by rewrite Hfd|done|..].
  - intros fs. pose proof (Hin (os_fcntl (w_os w)) fs ltac:(done)) as Hin1.
    assert (set_os (set_os_fcntl (os_fcntl (w_os w)) (w_os w)) (set_oracle fs w) = set_oracle fs w) as Ew by (by destruct w as [[] ? ? ? ? ? ?]).
    by rewrite Ew in Hin1.
  - intros f fs x w' E. pose proof (fcntl_free_unlock o i (set_oracle fs w)) as Hfree. unfold fcntl_free in Hfree.
    change (sizeof_log_entry =? 0) with false in E. cbn iota in E. rewrite Hfree in E. injection E as <- <-.
    split; [by apply (on_files w)|]. apply Hin. intros k Hk Hki. exfalso. eapply fcntl_apply_last; [| |exact Hk|congruence].
    + intros y Hy Hyi. destruct (ds_fcntl _ _ _ _ _ _ _ Hst y Hy) as (j & [= <-] & ->); [congruence|]. by rewrite Hino, Hpid.
    + unfold sizeof_log_entry. lia.
  - intros f fs. pose proof (fcntl_free_unlock o i (set_oracle fs w)) as Hfree. unfold fcntl_free in Hfree.
    change (sizeof_log_entry =? 0) with false. cbn iota. rewrite Hfree. eauto.
Qed.

Lemma wp_release I `{OnFiles I} es bs r (Q : logdb_lease_t -> world -> Prop) w i off len :
  st es bs r (table_held i) w -> 0 <= i < 2 ^ 31 -> I w ->
  (forall lease w', files w' = files w -> st es bs (r - 1) (table_leaked i) w' -> Q lease w') ->
  wp th I (logdb_lease_release (mk_lease (Some c) i off len LOGDB_LOG_LOCK_WRITE)) Q w.
Proof.
  intros Hst Hi Hw HQ. pose proof (ds_conn _ _ _ _ _ _ _ Hst) as Ec.
  unfold logdb_lease_release. cbn [lease_connection lease_type lease_index].
  rewrite bool_decide_eq_false_2, andb_false_r by done. rewrite decide_False by done. apply wp_bind, wp_bind.
  eapply wp_silent; [exact _|by rewrite run_load, (do_load_peek logdb_connection_t c (the_conn D r))|silent_solve|done|]. intros _. cbn [conn_log the_conn].
  eapply wp_mono; [apply wp_inv, (wp_log_unlock I es bs r (fun _ w' => files w' = files w /\ st es bs r (table_leaked i) w') w i); try done|].
  intros [] w1 (Hw1 & Ef & Hst1). pose proof (ds_conn _ _ _ _ _ _ _ Hst1) as Ec1.
  apply wp_bind. eapply wp_silent; [exact _| |silent_solve|done|].
  { unfold rwlock_unlock. by rewrite run_rmw, (do_rmw_peek (T := logdb_connection_t) _ (the_conn D r)). }
  intros Ef2. apply wp_ret; [by apply (on_files w1)|]. apply HQ; [exact Ef|].
  exact (proj1 (db_state_readers c D es bs (table_leaked i) r (r - 1) _ Hst1)).
Qed.

End commit.

(** ** What is on the disk *)

Section disk.
Context (D : desc) (es : list Z) (bs : list byte) (es0 : list Z) (bs0 : list byte) (w : world).
Context (Hne : d_dbino D <> d_logino D) (Ho : on_disk D es bs es0 bs0 w).

Lemma on_disk_db b fs : on_disk D es b es0 bs0 (db_written D b fs w).
Proof. destruct Ho. constructor; try done; cbn; [apply lookup_insert_eq|by rewrite lookup_insert_ne]. Qed.

Lemma on_disk_log es2 fs : on_disk D es2 bs es0 bs0 (log_written D es2 fs w).
Proof. destruct Ho. constructor; try done; cbn; [by rewrite lookup_insert_ne|apply lookup_insert_eq]. Qed.

Lemma on_disk_fsync_db : on_disk D es bs es0 bs (fsynced (d_dbino D) w).
Proof.
  destruct Ho. constructor; try done; intros Hs; cbn.
  - rewrite lookup_insert_eq. unfold get_file. by rewrite od_db.
  - rewrite lookup_insert_ne by done. by apply od_slog.
Qed.

Lemma on_disk_fsync_log : on_disk D es bs es bs0 (fsynced (d_logino D) w).
Proof.
  destruct Ho. constructor; try done; intros Hs; cbn.
  - rewrite lookup_insert_ne by done. by apply od_sdb.
  - rewrite lookup_insert_eq. unfold get_file. by rewrite od_log.
Qed.

Lemma on_disk_nosync es1 bs1 : is_durable (d_flags D) = false -> on_disk D es bs es1 bs1 w.
Proof. destruct Ho. intros E. constructor; try done; intros Hs; unfold syncs in Hs; congruence. Qed.

End disk.

Lemma fsynced_state c D es bs r T ino fs w :
  db_state c D es bs r T (set_oracle [] w) -> db_state c D es bs r T (set_oracle [] (fsynced ino (set_oracle fs w))).
Proof. intros Hst. constructor; by try apply Hst. Qed.

(** ** The whole commit *)

Section steps.
Context `{Build} (th : thread) (c : loc) (D : desc) (P : sections -> Prop).
Context (es es' : list Z) (bs : list byte) (r : Z) (i : nat) (e : Z) (d : list byte).

#[local] Abbreviation st es bs r T w := (db_state c D es bs r T (set_oracle [] w)).
#[local] Abbreviation es2 := (<[i := u16 (e + zlen d)]> es').
#[local] Abbreviation part := (part_written bs i e).
#[local] Abbreviation torn_es := (<[i := torn_entry e (u16 (e + zlen d))]> es').

(** What is found after a crash is acceptable, unless the entry is torn. *)
Definition commit_holds (x : world) : Prop :=
  crash_holds D P x \/ os_inodes (w_os x) !! d_logino D = Some (log_image torn_es).

#[export] Instance commit_holds_on_files : OnFiles commit_holds.
Proof.
  intros w w' Ef [Hc|Ht]; [left; by eapply on_files|right]. pose proof Ef as [= _ Ei _]. by rewrite Ei.
Qed.

Context (Hpart : forall d1 d2, d = d1 ++ d2 -> acceptable P es (part d1) /\ acceptable P es' (part d1)).
Context (Hall : acceptable P es2 (part d)).
Context (Ei : es' !! i = Some e) (Hlen : zlen d <= 65536).
Context (Q : Z -> world -> Prop).
Context (HQ : forall w', st es2 (part d) (r - 1) (table_leaked (Z.of_nat i)) w' -> Q 0 w').
Context (HQ' : forall es3 d1 d2 w', d = d1 ++ d2 -> es3 = es' \/ es3 = torn_es -> st es3 (part d1) (r - 1) (table_leaked (Z.of_nat i)) w' -> Q (-1) w').

#[local] Abbreviation I := commit_holds.

Lemma holds_data d1 d2 b0 w : d = d1 ++ d2 -> b0 = bs \/ b0 = part d1 -> on_disk D es' (part d1) es b0 w -> I w.
Proof. intros. left. by eapply (crash_data D P es es' bs i e d Hpart). Qed.

Lemma holds_entry e0 w : e0 = es \/ e0 = es2 -> on_disk D es2 (part d) e0 (part d) w -> I w.
Proof. intros. left. by eapply (crash_entry D P es es' bs i e d Hpart Hall). Qed.

(** The lease is released. *)
Lemma wp_finish es3 b res off len w :
  st es3 b r (table_held (Z.of_nat i)) w -> I w -> (i < length es')%nat -> length es3 = length es' ->
  (forall w', st es3 b (r - 1) (table_leaked (Z.of_nat i)) w' -> Q res w') ->
  wp th I (let! _ := logdb_lease_release (mk_lease (Some c) (Z.of_nat i) off len LOGDB_LOG_LOCK_WRITE) in Ret res) Q w.
Proof.
  intros Hst Hi Hil Hl HQ3. pose proof (ds_count _ _ _ _ _ _ _ Hst).
  apply wp_bind. eapply wp_mono; [apply wp_inv, (wp_release th c D I es3 b r (fun _ w' => st es3 b (r - 1) (table_leaked (Z.of_nat i)) w')); try done; lia|].
  intros lease w' [Hi' Hst']. apply wp_ret; [done|]. by apply HQ3.
Qed.

(** The end of [commit_write]. *)
#[local] Abbreviation commit_entry off len := (let! r := logdb_log_write_entry (Some (d_log D)) (u16 (e + zlen d)) (Z.of_nat i) in
    if negb (r =? 0) then
      do! logdb_lease_release (mk_lease (Some c) (Z.of_nat i) off len LOGDB_LOG_LOCK_WRITE) in
      Ret (-1)
    else
      do! (if is_durable (d_flags D) then
             let! l := load logdb_log_t (Some (d_log D)) in
             do! sys_fsync (log_fd l) in
             Ret tt
           else Ret tt) in
      do! logdb_lease_release (mk_lease (Some c) (Z.of_nat i) off len LOGDB_LOG_LOCK_WRITE) in
      Ret 0).

(** The entry, once all of the data is written and synced. *)
Lemma wp_commit_entry w off len :
  st es' (part d) r (table_held (Z.of_nat i)) w -> on_disk D es' (part d) es (part d) w ->
  wp th I (commit_entry off len) Q w.
Proof.
  intros Hst Ho. pose proof (lookup_lt_Some _ _ _ Ei) as Hil. destruct (ds_ne _ _ _ _ _ _ _ Hst) as [Hne _].
  pose proof (db_entry _ _ _ _ _ _ _ Hst _ _ Ei) as He. pose proof (u16_range (e + zlen d)) as Hu.
  assert (forall es3 fs, es3 = es' \/ es3 = torn_es \/ es3 = es2 -> I (log_written D es3 fs w)) as HI.
  { intros es3 fs [->|[->| ->]].
    - eapply (holds_data d []); [by rewrite app_nil_r|by right|by eapply on_disk_log].
    - right. cbn. apply lookup_insert_eq.
    - eapply holds_entry; [by left|by eapply on_disk_log]. }
  assert (forall es3 fs, es3 = es' \/ es3 = torn_es \/ es3 = es2 -> st es3 (part d) r (table_held (Z.of_nat i)) (log_written D es3 fs w) /\ length es3 = length es') as Hst3.
  { intros es3 fs Hes3. assert (Forall entry_ok es3 /\ length es3 = length es') as [Hok Hl].
    { pose proof (ds_entries _ _ _ _ _ _ _ Hst). destruct Hes3 as [->|[->| ->]]; [done|..]; (split; [|apply length_insert]);
        apply Forall_insert; try done. by apply torn_entry_ok. }
    split; [|done]. by eapply log_written_state. }
  apply wp_bind, (wp_write_entry th c D I es' (part d) r (table_held (Z.of_nat i)) _ w i e); [done|done|exact Hu|exact HI|..].
  - intros fs. change (negb (0 =? 0)) with false. cbn iota. destruct (Hst3 es2 fs) as [Hst2 Hl2]; [tauto|].
    assert (on_disk D es2 (part d) es (part d) (log_written D es2 fs w)) as Ho2 by by eapply on_disk_log.
    destruct (ds_logfd _ _ _ _ _ _ _ Hst2) as (o & Eo & Hino & _). destruct (ds_log _ _ _ _ _ _ _ Hst2) as (l & El & Hlfd & _).
    set (w2 := log_written D es2 fs w) in *. assert (I w2) as Hw2 by (apply HI; tauto).
    apply wp_bind. destruct (is_durable (d_flags D)).
    + apply wp_bind. eapply wp_silent; [exact _|by rewrite run_load, (do_load_peek logdb_log_t _ l)|silent_solve|done|]. intros _.
      apply wp_bind, (wp_fsync _ _ _ _ _ o); [by rewrite Hlfd|done|..].
      * intros fs'. assert (I (set_oracle fs' w2)) by by apply (on_files w2). apply wp_ret; [done|]. by apply (wp_finish es2 (part d)).
      * intros fs'. rewrite Hino. set (w3 := fsynced _ _). assert (I w3) as Hw3.
        { eapply holds_entry; [by right|]. eapply on_disk_fsync_log; [done|]. eapply on_files; [|exact Ho2]. done. }
        split; [done|]. apply wp_ret; [done|]. apply (wp_finish es2 (part d)); try done. apply fsynced_state. exact Hst2.
    + apply wp_ret; [done|]. by apply (wp_finish es2 (part d)).
  - intros es3 fs Hes3. change (negb (-1 =? 0)) with true. cbn iota. destruct (Hst3 es3 fs) as [Hst2 Hl2]; [tauto|].
    apply (wp_finish es3 (part d)); [done|apply HI; tauto|done|done|]. intros w' Hst'.
    apply (HQ' es3 d [] w'); [by rewrite app_nil_r|done|done].
Qed.

Lemma wp_commit_write w t tx l :
  st es' bs r (table_held (Z.of_nat i)) w -> on_disk D es' bs es bs w ->
  peek logdb_txn_t (w_heap w) t = Some tx -> txn_buf tx = Some l -> buffer_is (w_heap w) (Some l) d ->
  wp th I (commit_write (Some c) (Some t) (mk_lease (Some c) (Z.of_nat i) e (zlen d) LOGDB_LOG_LOCK_WRITE)) Q w.
Proof.
  intros Hst Ho Et Etb Hd. pose proof (lookup_lt_Some _ _ _ Ei) as Hil. destruct (ds_ne _ _ _ _ _ _ _ Hst) as [Hne _].
  pose proof (db_entry _ _ _ _ _ _ _ Hst _ _ Ei) as He. pose proof (ds_count _ _ _ _ _ _ _ Hst) as Hc.
  assert (forall d1 d2 fs, d = d1 ++ d2 -> I (db_written D (part d1) fs w)) as HI.
  { intros d1 d2 fs Hsp. eapply (holds_data d1 d2); [done|by left|by eapply on_disk_db]. }
  assert (I w) as Hw by (eapply (holds_data [] d); [done|by left|by rewrite part_none]).
  unfold commit_write. apply wp_bind. eapply wp_silent; [exact _|by rewrite run_load, (do_load_peek _ _ _ _ Et)|silent_solve|done|]. intros _. rewrite Etb.
  unfold logdb_txn_write_buf. apply wp_bind, wp_bind. eapply wp_silent; [exact _|by rewrite run_heap_size|silent_solve|done|]. intros _.
  apply buffer_is_size in Hd. apply (buffer_bytes_mono _ (S (size (w_heap w)))) in Hd; [|lia].
  apply (wp_write_buf_loop th c D I _ es' bs r _ _ w (Z.of_nat i) e (zlen d) l d Hst Hd); [lia..|exact HI| |].
  - intros fs. change (negb (0 =? 0)) with false. cbn iota. fold (part d).
    pose proof (db_written_state c D es' bs (part d) r _ w fs Hst) as Hst1. pose proof (on_disk_db D es' bs es bs w Hne Ho (part d) fs) as Ho1.
    set (w1 := db_written D (part d) fs w) in *. assert (I w1) as Hw1 by (apply (HI d []); by rewrite app_nil_r).
    apply wp_bind. eapply wp_silent; [exact _|rewrite run_load; apply (do_load_peek logdb_connection_t c (the_conn D r)), (ds_conn _ _ _ _ _ _ _ Hst1)|silent_solve|done|]. intros _.
    cbn [conn_fd conn_flags conn_log the_conn lease_offset lease_index].
    destruct (ds_dbfd _ _ _ _ _ _ _ Hst1) as (o & Eo & Hino & _).
    assert (forall w', st es' (part d) r (table_held (Z.of_nat i)) w' -> on_disk D es' (part d) es (part d) w' -> I w' /\
      wp th I (if 0 =? -1 then do! logdb_lease_release (mk_lease (Some c) (Z.of_nat i) (e + zlen d) (zlen d - zlen d) LOGDB_LOG_LOCK_WRITE) in Ret (-1)
        else commit_entry (e + zlen d) (zlen d - zlen d)) Q w') as Hrest.
    { intros w' Hst' Ho'. split; [|by apply wp_commit_entry].
      eapply (holds_data d []); [by rewrite app_nil_r|by right|exact Ho']. }
    apply wp_bind. destruct (is_durable (d_flags D)) eqn:Edur.
    + apply (wp_fsync _ _ _ _ _ o); [done|done|..].
      * intros fs'. change (-1 =? -1) with true. cbn iota. assert (I (set_oracle fs' w1)) by by apply (on_files w1).
        apply (wp_finish es' (part d)); [exact Hst1|done..|]. intros w' Hst'. apply (HQ' es' d [] w'); [by rewrite app_nil_r|by left|done].
      * intros fs'. apply Hrest; [apply fsynced_state; exact Hst1|]. rewrite Hino. eapply on_disk_fsync_db; [done|]. eapply on_files; [|exact Ho1]. done.
    + destruct (Hrest w1 Hst1) as [_ Hr]; [by eapply on_disk_nosync|]. by apply wp_ret.
  - intros d1 d2 fs off' len' Hsp. change (negb (-1 =? 0)) with true. cbn iota. fold (part d1).
    apply (wp_finish es' (part d1)); [by apply (db_written_state c D es' bs)|by apply (HI d1 d2)|done|done|]. intros w' Hst'.
    by apply (HQ' es' d1 d2 w'); [|left|].
Qed.

End steps.

(** ** Properties *)

(** The entry of the section the record goes to, with one byte of the new
    length and one of the old. *)
Definition entry_torn (D : desc) (secs : sections) (n : Z) (x : world) : Prop :=
  exists es i e, (es = sizes secs \/ es = sizes secs ++ [0]) /\ es !! i = Some e /\
    os_inodes (w_os x) !! d_logino D = Some (log_image (<[i := torn_entry e (e + n)]> es)).

(** The state when the lease is released: the database has these records, and
    nothing is locked in the process. *)
Definition released (c : loc) (D : desc) (secs : sections) (w : world) : Prop :=
  exists bs i, db_state c D (sizes secs) bs 0 (table_leaked i) (set_oracle [] w) /\ holds (sizes secs) bs secs.

(** What the commit may leave is what the theorem says. *)
Lemma released_state `{Build} c D secs bs k v i e es' es3 d1 w :
  stored bs secs -> fits secs (k, v) = true -> place (sizes secs) (zlen (record_bytes k v)) = (i, e, es') ->
  acceptable (put_outcomes secs (k, v)) es3 (part_written bs i e d1) -> es3 = es' ->
  db_state c D es3 (part_written bs i e d1) 0 (table_leaked (Z.of_nat i)) (set_oracle [] w) ->
  exists s, spec_all s = spec_all secs /\ released c D s w.
Proof.
  intros [Hhd Hh Hok Hsl] Hfit Hpl (s & Hs & -> & Hst) Es' Hdb.
  destruct (put_sections secs bs k v i e es' Hh Hok Hfit Hpl) as (Ei & He & Hend & Hc & _ & Es & _).
  exists s. split; [|exists (part_written bs i e d1), (Z.of_nat i); by split; [|apply Hst]].
  destruct Hs as [->|[->| ->]]; [done|unfold spec_all; rewrite concat_app; simpl; by rewrite app_nil_r|exfalso].
  rewrite <- Es in Es'. apply (f_equal (fun x => x !! i)) in Es'. rewrite Ei, list_lookup_insert_eq in Es' by by eapply lookup_lt_Some.
  pose proof (length_record_bytes k v). injection Es' as E. lia.
Qed.

(** The result of the commit. *)
Definition commit_result (c : loc) (D : desc) (secs : sections) (r : record) (n res : Z) (w : world) : Prop :=
  res = 0 /\ released c D (spec_put secs r) w \/
  res = -1 /\ (entry_torn D secs n w \/ exists s, spec_all s = spec_all secs /\ released c D s w).

(** Leasing the section for a record, when no call fails. *)
Lemma acquire_section `{Build} th path c D secs w k v :
  session path c D secs w -> synced D w -> fits secs (k, v) = true ->
  exists bs i e es' w1, place (sizes secs) (zlen (record_bytes k v)) = (i, e, es') /\ stored bs secs /\
    run th (logdb_lease_acquire_write no_lease (Some c) (zlen (record_bytes k v))) w =
      Done (0, mk_lease (Some c) (Z.of_nat i) e (zlen (record_bytes k v)) LOGDB_LOG_LOCK_WRITE) w1 /\
    db_state c D es' bs 1 (table_held (Z.of_nat i)) w1 /\ on_disk D es' bs (sizes secs) bs w1 /\ same_rest D w w1.
Proof.
  intros Hs Hsync Hfit. pose proof (length_record_bytes k v) as Hn. destruct (se_db _ _ _ _ _ Hs) as [(bs & Hdb & Hh)].
  destruct (place (sizes secs) (zlen (record_bytes k v))) as [[i e] es'] eqn:Hpl.
  pose proof (ds_count _ _ _ _ _ _ _ Hdb) as Hsl. rewrite length_sizes in Hsl.
  pose proof (se_header _ _ _ _ _ Hs) as Hhd. unfold get_file in Hhd. rewrite (ds_db _ _ _ _ _ _ _ Hdb) in Hhd. cbn [from_option id] in Hhd.
  destruct (put_sections secs bs k v i e es' Hh (ds_entries _ _ _ _ _ _ _ Hdb) Hfit Hpl) as (_ & He & Hend & _).
  apply andb_prop in Hfit as [Hcount _]. zbool. unfold LOGDB_SECTION_SIZE in *.
  destruct (acquire_write_run th c D (sizes secs) bs 0 w no_lease (zlen (record_bytes k v)) i e es' Hdb) as (w1 & E1 & Hdb1 & Hr1);
    [unfold LOGDB_SECTION_SIZE; lia|rewrite length_sizes; lia|done|].
  exists bs, i, e, es', w1. split_and!; [done|constructor; [done..|apply Hdb|done]|done|done| |done].
  eapply db_on_disk; [exact Hdb1|]. intros Hsy. destruct (Hsync Hsy) as [E2 E3].
  rewrite (keeps_run _ _ _ _ _ _ (durable_acquire_write _ _ _) E1), E2, E3. split; apply Hdb.
Qed.

(** The commit in the section. *)
Lemma wp_commit_record `{Build} th c D secs bs k v i e es' t l w :
  stored bs secs -> fits secs (k, v) = true -> place (sizes secs) (zlen (record_bytes k v)) = (i, e, es') ->
  db_state c D es' bs 1 (table_held (Z.of_nat i)) (set_oracle [] w) -> on_disk D es' bs (sizes secs) bs w ->
  peek logdb_txn_t (w_heap w) t = Some (mk_txn None (Some l)) -> buffer_is (w_heap w) (Some l) (record_bytes k v) ->
  let n := zlen (record_bytes k v) in
  always th (fun x => crash_holds D (put_outcomes secs (k, v)) x \/ entry_torn D secs n x)
    (commit_write (Some c) (Some t) (mk_lease (Some c) (Z.of_nat i) e n LOGDB_LOG_LOCK_WRITE)) w /\
  exists res w', run th (commit_write (Some c) (Some t) (mk_lease (Some c) (Z.of_nat i) e n LOGDB_LOG_LOCK_WRITE)) w = Done res w' /\
    commit_result c D secs (k, v) n res w'.
Proof.
  intros Hst Hfit Hpl Hdb Ho Et Hb n. pose proof (length_record_bytes k v) as Hn.
  destruct (put_acceptable secs bs k v i e es' Hst Hfit Hpl) as [Hpart Hall].
  destruct (put_sections secs bs k v i e es' (st_holds _ _ Hst) (st_entries _ _ Hst) Hfit Hpl) as (Ei & He & Hend & Hc & Hes & Es & Hh2).
  unfold LOGDB_SECTION_SIZE in *.
  assert (forall x, os_inodes (w_os x) !! d_logino D = Some (log_image (<[i := torn_entry e (u16 (e + n))]> es')) -> entry_torn D secs n x) as Htorn.
  { intros x Hx. exists es', i, e. rewrite u16_small in Hx by (unfold n; lia). split_and!; [tauto|done|done]. }
  destruct (wp_sound th (commit_holds D (put_outcomes secs (k, v)) es' i e (record_bytes k v))
    (commit_write (Some c) (Some t) (mk_lease (Some c) (Z.of_nat i) e n LOGDB_LOG_LOCK_WRITE)) (commit_result c D secs (k, v) n) w) as [Ha He'].
  { eapply (wp_commit_write th c D (put_outcomes secs (k, v)) (sizes secs) es' bs 1 i e (record_bytes k v)); try done; [lia|..].
    - intros w' Hst'. left. split; [done|]. rewrite u16_small, Es in Hst' by lia. by exists (part_written bs i e (record_bytes k v)), (Z.of_nat i).
    - intros es3 d1 d2 w' Hsp Hes3 Hst'. right. split; [done|]. destruct Hes3 as [->| ->]; [right|left; apply Htorn, Hst'].
      eapply released_state; [exact Hst|exact Hfit|exact Hpl|apply (Hpart d1 d2 Hsp)|done|exact Hst']. }
  split; [|exact He']. eapply always_mono; [|exact Ha]. intros x [Hx|Hx]; [by left|right; by apply Htorn].
Qed.


(** ** Witness *)

#[local] Existing Instance debug_build.

(** The sample of CrashSpec.v, with a transaction that holds a record. *)
Definition commit_sample (k v : list byte) : world :=
  let w := crash_sample k (record_bytes k v) in
  set_next 8 (set_heap (<[7 := CTxn (mk_txn None (Some 6))]> (w_heap w)) w).

Lemma commit_sample_session k v : session "t.db" 2 (open_desc 0) [[]] (commit_sample k v).
Proof.
  pose proof (crash_sample_session k (record_bytes k v)) as Hs. pose proof (wo_heap _ (se_world _ _ _ _ _ Hs)) as Hf.
  apply session_user; [done|..].
  - intros x y Ex _. rewrite lookup_insert_ne; [done|]. intros <-. by rewrite Hf in Ex by (cbn; lia).
  - intros x Hx. cbn [w_heap w_next set_heap set_next] in *. rewrite lookup_insert_ne by lia. apply Hf. cbn. lia.
Qed.

