(* ===== verification/Processes.v ===== *)
(** * Several processes

    A database may be open in several processes at a time: each has a shared
    [flock] on the database file, and the log tells all of them how far the
    sections are filled.  The first to open it creates the log, the others open
    that; the last to close it merges the log, the others leave it. *)

From S2P Require Import Prelude Machine World Posix Io Layout Log LogSpec Buffer.
From S2P Require Import BufferSpec LogLock LockSpec DbState Lease LeaseSpec Txn TxnSpec Iter.
From S2P Require Import IterSpec Database Connection ConnSpec Recovery.

(** ** Locks on the database file *)

Lemma set_os_flock_id w : set_os (set_os_flock (os_flock (w_os w)) (w_os w)) w = w.
Proof. by destruct w as [[] ??????]. Qed.

Lemma flock_busy fd o w k :
  quiet w -> get_fd fd w = Some o -> k ∈ os_flock (w_os w) -> fk_ino k = fd_ino o -> fk_fd k <> fd ->
  do_flock true true fd w =
    Done (-1) (set_os (set_os_flock (filter (fun k => fk_fd k <> fd) (os_flock (w_os w))) (w_os w)) w).
Proof.
  intros Hq Ho Hk Hi Hne. unfold do_flock. rewrite (with_fd_quiet _ Hq _ _ _ o) by done.
  destruct (existsb _ _) eqn:E; [done|exfalso]. apply not_true_iff_false in E. apply E. apply existsb_exists. exists k.
  split; [by apply list_elem_of_In, list_elem_of_filter|]. by rewrite Hi, Z.eqb_refl.
Qed.

Lemma flock_share fd o w :
  quiet w -> get_fd fd w = Some o ->
  (forall k, k ∈ os_flock (w_os w) -> fk_ino k = fd_ino o -> fk_fd k <> fd -> fk_excl k = false) ->
  do_flock false false fd w = Done 0 (set_os (set_os_flock
    (mk_flock fd (fd_ino o) false :: filter (fun k => fk_fd k <> fd) (os_flock (w_os w))) (w_os w)) w).
Proof.
  intros Hq Ho Hk. unfold do_flock. rewrite (with_fd_quiet _ Hq _ _ _ o) by done.
  destruct (existsb _ _) eqn:E; [exfalso|done]. apply existsb_exists in E as (k & Hin & Hc).
  apply list_elem_of_In, list_elem_of_filter in Hin as [Hne Hin]. apply andb_prop in Hc as [Hc Hx]. zbool.
  by rewrite (Hk k Hin Hc Hne) in Hx.
Qed.

(** ** Opening a database that is open elsewhere *)

Section join.
Context `{Build} (th : thread) (path : string).

(** The locks when [fd] has joined. *)
Definition share_locks (fd ino : Z) (ks : list flock_lock) : list flock_lock :=
  mk_flock fd ino false :: filter (fun k => fk_fd k <> fd) (filter (fun k => fk_fd k <> fd) ks).

Lemma elem_of_share_locks fd ino ks k :
  k ∈ share_locks fd ino ks <-> k = mk_flock fd ino false \/ k ∈ ks /\ fk_fd k <> fd.
Proof. unfold share_locks. rewrite elem_of_cons, !list_elem_of_filter. tauto. Qed.

(** Another process has the file, and shares it. *)
Definition shared_by (ino n : Z) (ks : list flock_lock) : Prop :=
  (exists k, k ∈ ks /\ fk_ino k = ino /\ fk_fd k < n) /\ forall k, k ∈ ks -> fk_ino k = ino -> fk_excl k = false.

Lemma join_log_run ino lino db secs fd o w :
  present path ino lino db secs w -> get_fd fd w = Some o -> fd_ino o = ino -> 0 <= fd_pos o ->
  shared_by ino fd (os_flock (w_os w)) ->
  exists p w5, run th (open_log_file 1 false (log_name path) fd) w = Done (Some p) w5 /\
    log_ready th path fd o secs w p (os_next_fd (w_os w)) lino w5 /\
    os_flock (w_os w5) = share_locks fd ino (os_flock (w_os w)) /\
    forall d, d <> os_next_fd (w_os w) -> os_fds (w_os w5) !! d = os_fds (w_os w) !! d.
Proof.
  intros Hp Ho Hino Hpos [(k & Hk & Hki & Hkfd) Hsh]. destruct (ps_world _ _ _ _ _ _ Hp) as [Hq Hf Hos Henv Hfc Hfk Htls].
  set (F := share_locks fd ino (os_flock (w_os w))). set (w1 := set_os (set_os_flock F (w_os w)) w).
  pose proof (log_open_run th (log_name path) lino (sizes secs) w1 Hq Hos (ps_logdir _ _ _ _ _ _ Hp) (ps_log _ _ _ _ _ _ Hp)) as E.
  cbn zeta in E. set (w3 := alloced _ _) in E. change (os_next_fd (w_os w1)) with (os_next_fd (w_os w)) in *.
  exists (w_next w1), w3. split_and!.
  - cbn [open_log_file]. rewrite run_bind, run_flock_ex_nb, (flock_busy fd o w k Hq Ho Hk); [|congruence|lia].
    cbn beta iota. change (-1 =? 0) with false. cbn iota. unfold lock_shared.
    rewrite run_bind, run_bind, run_flock_sh, (flock_share fd o).
    2: done. 2: done.
    2: { intros x [_ Hx]%list_elem_of_filter Hxi _. apply Hsh; [done|congruence]. }
    cbn beta iota. rewrite run_ret. change (0 =? 0) with true. cbn iota. cbn [negb].
    replace (set_os _ (set_os _ w)) with w1 by (unfold w1, F, share_locks; by rewrite Hino).
    rewrite run_bind, E. cbn iota. by rewrite run_ret.
  - pose proof (set_os_flock_id w3) as Ew. change (os_flock (w_os w3)) with F in Ew. rewrite <- Ew.
    eapply (left_ready th path ino lino db secs fd o w w1 F F); [done..| |].
    + by eapply scanned_refl.
    + intros x [->|[Hx _]]%elem_of_share_locks; [by right|by left].
  - done.
  - intros d Hd. unfold w3. change (get_fd d (put_fd (os_next_fd (w_os w)) (set_fd_pos 6 (mk_ofd lino 0 true (th_pid th)))
      (fd_opened lino (mk_open_flags false false true) th w1)) = get_fd d w).
    rewrite put_fd_get_ne by done. unfold fd_opened. change (os_next_fd (w_os w1)) with (os_next_fd (w_os w)).
    by rewrite put_fd_get_ne by done.
Qed.

(** Up to the log: the file is opened and its header written or verified. *)
Lemma open_present_run flags ino lino db secs w :
  present path ino lino db secs w ->
  let fd := os_next_fd (w_os w) in
  let o := mk_ofd ino 6 false (th_pid th) in
  exists w2, run th (logdb_open (Some path) flags) w = run th (open_rest path flags fd (Some (w_next w))) w2 /\
    present path ino lino db secs w2 /\ get_fd fd w2 = Some o /\ is_Some (w_heap w2 !! w_next w) /\
    (forall x, x < w_next w -> w_heap w2 !! x = w_heap w !! x) /\ w_next w2 = w_next w + 1 /\ w_tls w2 = w_tls w /\
    w_next_key w2 = w_next_key w /\ os_next_fd (w_os w2) = fd + 1 /\ os_flock (w_os w2) = os_flock (w_os w) /\
    os_fcntl (w_os w2) = os_fcntl (w_os w) /\ (forall d, d <> fd -> os_fds (w_os w2) !! d = os_fds (w_os w) !! d).
Proof.
  intros Hp fd o. destruct (ps_world _ _ _ _ _ _ Hp) as [Hq Hf Hos Henv Hfc Hfk Htls].
  set (fl := mk_open_flags (flag_set flags LOGDB_OPEN_CREATE) false false).
  set (w1 := alloced (CBytes (String.list_byte_of_string (log_name path))) w).
  rewrite (open_enter_run th path flags ino w1); [|done| |apply Hos].
  2: { rewrite (do_open_exists_quiet _ _ _ _ ino); [|done|apply Hp]. cbn [o_excl]. by rewrite andb_false_r. }
  fold fl fd. set (o0 := mk_ofd ino 0 false (th_pid th)).
  assert (get_file ino (fd_opened ino fl th w1) = db) as Hfile
    by (change (default [] (os_inodes (w_os w) !! ino) = db); by rewrite (ps_db _ _ _ _ _ _ Hp)).
  assert (open_fd fd o0 (fd_opened ino fl th w1)) as Ho.
  { split_and!; [apply put_fd_get|exists db; apply Hp|done]. }
  rewrite run_bind, (open_header_run th fd flags o0); [|done..|].
  2: { cbn [fd_ino o0]. rewrite Hfile. apply (ps_stored _ _ _ _ _ _ Hp). }
  cbn [negb]. cbn iota. set (w2 := put_fd fd o (fd_opened ino fl th w1)). exists w2.
  assert (world_ok w2) as Hw2.
  { eapply world_ok_put_fd; [|apply Ho]. apply world_ok_opened, world_ok_alloced. by constructor. }
  split_and!; try done.
  - by destruct Hp; constructor.
  - apply put_fd_get.
  - eexists. apply lookup_insert_eq.
  - intros x Hx. apply lookup_insert_ne. lia.
  - intros d Hd. change (get_fd d w2 = get_fd d w). unfold w2. rewrite put_fd_get_ne by done. exact (put_fd_get_ne fd d _ w1 (not_eq_sym Hd)).
Qed.

(** [logdb_open] with a shared lock. *)
Lemma join_run flags ino lino db secs w :
  present path ino lino db secs w -> flag_set flags LOGDB_OPEN_NOSYNC = false ->
  shared_by ino (os_next_fd (w_os w)) (os_flock (w_os w)) ->
  exists c D w', run th (logdb_open (Some path) flags) w = Done (Some c) w' /\ arrived th path ino secs flags c D w w' /\
    d_logino D = lino /\ d_fd D = os_next_fd (w_os w) /\ d_logfd D = os_next_fd (w_os w) + 1 /\
    os_flock (w_os w') = share_locks (d_fd D) ino (os_flock (w_os w)) /\
    forall d, d <> d_fd D -> d <> d_logfd D -> os_fds (w_os w') !! d = os_fds (w_os w) !! d.
Proof.
  intros Hp Hs Hsh. set (fd := os_next_fd (w_os w)) in *.
  destruct (open_present_run flags ino lino db secs w Hp) as (w2 & E & Hp2 & Ho & Hlp & Hh2 & Hn2 & Ht2 & Hk2 & Hfd2 & Hfl2 & _ & Hfds2).
  set (o := mk_ofd ino 6 false (th_pid th)) in *. fold fd in Hfd2, Ho, E, Hfds2.
  destruct (join_log_run ino lino db secs fd o w2) as (p & w5 & E5 & Hr & Hfl5 & Hfds5); [done..|by rewrite Hfl2|].
  destruct (open_rest_ready th path fd flags o secs w2 p (os_next_fd (w_os w2)) lino w5 db (w_next w)) as (c & D & w' & E' & Ha & Hos & _ & Hdfd & Hdlfd & Hdlino);
    [apply Hp2|apply Hp2|done|apply Hp2|done|by rewrite Hs|exact Hr|].
  exists c, D, w'. rewrite E. split; [exact E'|]. split; [|split_and!; [done|done|congruence|by rewrite Hos, Hfl5, Hfl2, Hdfd|]].
  - destruct Ha as [? ? ? ? Hfile Hheap Hnew ? ?]. constructor; try done.
    + change (fd_ino o) with ino in Hfile. rewrite Hfile. unfold get_file. cbn [w_os set_heap]. by rewrite (ps_db _ _ _ _ _ _ Hp2), (ps_db _ _ _ _ _ _ Hp).
    + intros x Hx. cbn [w_next w_heap set_heap] in *. rewrite Hheap by lia. rewrite lookup_delete_ne by lia. by apply Hh2.
    + cbn [w_next set_heap] in Hnew. lia.
    + cbn [w_tls set_heap] in *. congruence.
  - intros d H1 H2. rewrite Hos, Hfds5, Hfds2 by congruence. done.
Qed.

(** [logdb_open] without a shared lock, when another process has any. *)
Lemma busy_run flags ino lino db secs w k :
  present path ino lino db secs w -> flag_set flags LOGDB_OPEN_NOSYNC = true ->
  k ∈ os_flock (w_os w) -> fk_ino k = ino -> fk_fd k < os_next_fd (w_os w) ->
  exists w', run th (logdb_open (Some path) flags) w = Done None w' /\ present path ino lino db secs w' /\
    (forall d, d <> os_next_fd (w_os w) -> os_fds (w_os w') !! d = os_fds (w_os w) !! d) /\
    (forall k, k ∈ os_flock (w_os w') <-> k ∈ os_flock (w_os w) /\ fk_fd k <> os_next_fd (w_os w)) /\
    (forall x, x < w_next w -> w_heap w' !! x = w_heap w !! x) /\ w_next w <= w_next w' /\ w_tls w' = w_tls w /\
    w_next_key w' = w_next_key w.
Proof.
  intros Hp Hs Hk Hki Hkfd. set (fd := os_next_fd (w_os w)) in *.
  destruct (open_present_run flags ino lino db secs w Hp) as (w2 & E & Hp2 & Ho & Hlp & Hh2 & Hn2 & Ht2 & Hk2 & Hfd2 & Hfl2 & Hfc2 & Hfds2).
  set (o := mk_ofd ino 6 false (th_pid th)) in *. fold fd in Hfd2, Ho, E, Hfds2. rewrite E. unfold open_rest. rewrite Hs.
  destruct (ps_world _ _ _ _ _ _ Hp2) as [Hq Hf Hos Henv Hfc Hfk Htls].
  cbn [open_log_file]. rewrite run_bind, run_bind, run_flock_ex_nb, (flock_busy fd o w2 k Hq Ho); [|by rewrite Hfl2|done|lia].
  cbn beta iota. change (-1 =? 0) with false. cbn iota. rewrite run_ret. unfold open_fail.
  set (w3 := set_os _ w2). rewrite run_bind, run_close, (do_close_run _ o) by exact Ho.
  rewrite run_bind, run_free, do_free_run by exact Hlp. rewrite run_ret. eexists. split; [done|].
  set (w' := set_heap _ _).
  assert (forall x, x ∈ os_fcntl (w_os w') -> x ∈ os_fcntl (w_os w2)) as Hfc'.
  { intros x [_ Hx]%list_elem_of_filter. exact Hx. }
  assert (forall x, x ∈ os_flock (w_os w') <-> x ∈ os_flock (w_os w) /\ fk_fd x <> fd) as Hfl'.
  { intros x. change (os_flock (w_os w')) with (filter (fun k => fk_fd k <> fd) (filter (fun k => fk_fd k <> fd) (os_flock (w_os w2)))).
    rewrite !list_elem_of_filter, Hfl2. tauto. }
  split_and!; [| |exact Hfl'| | |done|done].
  - destruct Hp2 as [? ? ? ? ? ? ? Hfree]. constructor; try done; [|by intros x Hx%Hfc'; apply Hfree]. constructor; try done.
    + apply (heap_fresh_delete (fd_closed fd o w3)). exact Hf.
    + apply (os_fresh_closed fd o w3). exact Hos.
    + intros x ?%Hfc'. by apply Hfc.
    + intros x [Hx _]%Hfl'. apply Hfk. by rewrite Hfl2.
  - intros d Hd. change (delete fd (os_fds (w_os w2)) !! d = os_fds (w_os w) !! d). rewrite lookup_delete_ne by done. by apply Hfds2.
  - intros x Hx. change (delete (w_next w) (w_heap w2) !! x = w_heap w !! x). rewrite lookup_delete_ne by lia. by apply Hh2.
  - change (w_next w <= w_next w2). lia.
Qed.

End join.

(** ** What belongs to a process *)

Section view.
Context `{Build} (th : thread) (path : string) (c : loc) (D : desc).

Record view (w : world) : Prop := mk_view {
  vw_conn : peek logdb_connection_t (w_heap w) c = Some (the_conn D 0);
  vw_log : exists l, peek logdb_log_t (w_heap w) (d_log D) = Some l /\
    log_fd l = d_logfd D /\ log_path l = d_path D /\ table_idle (w_heap w) l;
  vw_dbfd : exists o, get_fd (d_fd D) w = Some o /\ fd_ino o = d_dbino D /\ 0 <= fd_pos o /\ fd_append o = false;
  vw_logfd : exists o, get_fd (d_logfd D) w = Some o /\ fd_ino o = d_logino D /\ 0 <= fd_pos o /\
    fd_append o = true /\ fd_pid o = d_pid D;
  vw_ne : d_fd D <> d_logfd D;
  vw_path : d_path D = Some (log_name path);
  vw_key : d_key D < w_next_key w
}.

Lemma attached_view secs w : attached path c D secs w -> view w.
Proof. intros Ha. destruct (at_db _ _ _ _ _ Ha) as [(bs & [] & _)]. by constructor; try apply Ha; try apply ds_ne. Qed.

Lemma attached_present secs w :
  attached path c D secs w -> exists db, present path (d_dbino D) (d_logino D) db secs w.
Proof.
  intros Ha. destruct (at_db _ _ _ _ _ Ha) as [(bs & Hdb & Hh)]. exists bs. pose proof (ds_ne _ _ _ _ _ _ _ Hdb) as [Hne _].
  constructor; [apply Ha|apply Ha|apply Ha|exact Hne|exact (ds_db _ _ _ _ _ _ _ Hdb)| |exact (ds_logfile _ _ _ _ _ _ _ Hdb)|].
  - constructor; [|exact Hh|exact (ds_entries _ _ _ _ _ _ _ Hdb)|].
    + pose proof (at_header _ _ _ _ _ Ha) as E. unfold get_file in E. by rewrite (ds_db _ _ _ _ _ _ _ Hdb) in E.
    + pose proof (ds_count _ _ _ _ _ _ _ Hdb) as Hn. by rewrite length_sizes in Hn.
  - intros k Hk Hi. by destruct (ds_fcntl _ _ _ _ _ _ _ Hdb k Hk Hi) as (? & ? & _).
Qed.

Lemma view_attached db secs w :
  present path (d_dbino D) (d_logino D) db secs w -> view w -> attached path c D secs w.
Proof.
  intros [Hw Hd Hl Hne Hdb Hst Hlog Hfc] [Hc Hlg Hdf Hlf Hnf Hp Hk]. constructor; try done.
  - constructor. exists db. split; [|apply Hst]. constructor; try done; try apply Hw; try apply Hst.
    + rewrite length_sizes. apply Hst.
    + intros k Hkin Hi. by destruct (Hfc k Hkin).
  - unfold get_file. rewrite Hdb. apply Hst.
Qed.

(** Seen from elsewhere, a process is its memory and its descriptors. *)
Lemma view_frame w w' :
  view w -> w_heap w' = w_heap w -> w_next_key w' = w_next_key w ->
  get_fd (d_fd D) w' = get_fd (d_fd D) w -> get_fd (d_logfd D) w' = get_fd (d_logfd D) w -> view w'.
Proof. intros [] E1 E2 E3 E4. constructor; rewrite ?E1, ?E2, ?E3, ?E4; done. Qed.

(** ** Closing while others have the database open *)

(** The world after [logdb_close] gave up the exclusive lock: descriptors,
    structs and locks are gone. *)
Definition left_alone (o lo : ofd) (w : world) : world :=
  let unlock w := set_os (set_os_flock (filter (fun k => fk_fd k <> d_fd D) (os_flock (w_os w))) (w_os w)) w in
  let w1 := unlock (set_tls (filter (fun kv => kv.1.2 <> d_key D) (w_tls w)) (set_heap (<[c := CConn (locked_conn D)]> (w_heap w)) w)) in
  let w2 := fd_closed (d_logfd D) lo w1 in
  let w3 := set_heap (delete (d_log D) (w_heap w2)) w2 in
  set_heap (delete c (w_heap w3)) (fd_closed (d_fd D) o (unlock w3)).

Lemma left_alone_run es bs w o lo k :
  db_state c D es bs 0 table_idle w -> current_txn th D w = None ->
  get_fd (d_fd D) w = Some o -> fd_ino o = d_dbino D -> get_fd (d_logfd D) w = Some lo ->
  k ∈ os_flock (w_os w) -> fk_ino k = d_dbino D -> fk_fd k <> d_fd D ->
  run th (logdb_close (Some c)) w = Done 0 (left_alone o lo w).
Proof.
  intros Hdb Hcur Eo Hoi Elo Hk Hki Hkfd. pose proof (ds_quiet _ _ _ _ _ _ _ Hdb) as Hq.
  destruct (ds_log _ _ _ _ _ _ _ Hdb) as (l & El & Elfd & _). pose proof (ds_ne _ _ _ _ _ _ _ Hdb) as [_ Hnfd].
  assert (c <> d_log D) as Hne by (apply (db_conn_ne _ _ _ _ _ _ _ Hdb); congruence).
  rewrite (close_prefix_none th c D _ _ w Hdb Hcur). unfold close_tail. set (w1 := set_tls _ _).
  rewrite run_bind, run_flock_ex_nb, (flock_busy _ o w1 k); [|done..|congruence|done].
  cbn beta iota. change (-1 =? 0) with false. cbn iota. rewrite run_bind, run_ret. change (-1 =? 0) with false. cbn iota.
  set (w2 := set_os _ w1). assert (peek logdb_log_t (w_heap w2) (d_log D) = Some l) as El2.
  { change (w_heap w2) with (<[c := CConn (locked_conn D)]> (w_heap w)). by rewrite peek_insert_ne. }
  unfold logdb_log_close. rewrite run_bind, run_bind, run_load, (do_load_peek _ _ _ _ El2), Elfd.
  rewrite run_bind, run_close, (do_close_run _ lo) by exact Elo.
  rewrite run_bind, run_free, do_free_run by exact (peek_is_Some _ _ _ _ El2). rewrite run_ret.
  change (negb (0 =? 0)) with false. cbn iota. set (w3 := set_heap _ _).
  assert (get_fd (d_fd D) w3 = Some o) as Eo3.
  { change (delete (d_logfd D) (os_fds (w_os w)) !! d_fd D = Some o). by rewrite lookup_delete_ne. }
  assert (peek logdb_connection_t (w_heap w3) c = Some (locked_conn D)) as Ec3.
  { unfold peek. change (w_heap w3) with (delete (d_log D) (<[c := CConn (locked_conn D)]> (w_heap w))).
    rewrite lookup_delete_ne by done. exact (peek_insert logdb_connection_t _ _ _). }
  by rewrite (close_connection_run th c D w3 o (locked_conn D)).
Qed.

Lemma left_alone_flock o lo w x :
  x ∈ os_flock (w_os (left_alone o lo w)) <-> x ∈ os_flock (w_os w) /\ fk_fd x <> d_fd D /\ fk_fd x <> d_logfd D.
Proof.
  change (os_flock (w_os (left_alone o lo w))) with (filter (fun k => fk_fd k <> d_fd D) (filter (fun k => fk_fd k <> d_fd D)
      (filter (fun k => fk_fd k <> d_logfd D) (filter (fun k => fk_fd k <> d_fd D) (os_flock (w_os w)))))).
  rewrite !list_elem_of_filter. tauto.
Qed.

Lemma left_alone_fcntl o lo w x : x ∈ os_fcntl (w_os (left_alone o lo w)) -> x ∈ os_fcntl (w_os w).
Proof. by intros [_ [_ Hx]%list_elem_of_filter]%list_elem_of_filter. Qed.

Lemma left_alone_heap o lo w x :
  w_heap (left_alone o lo w) !! x = if decide (x = c \/ x = d_log D) then None else w_heap w !! x.
Proof.
  change (w_heap (left_alone o lo w)) with (delete c (delete (d_log D) (<[c := CConn (locked_conn D)]> (w_heap w)))).
  destruct (decide (c = x)) as [<-|]; [by rewrite lookup_delete_eq, decide_True by tauto|]. rewrite lookup_delete_ne by done.
  destruct (decide (d_log D = x)) as [<-|]; [by rewrite lookup_delete_eq, decide_True by tauto|].
  by rewrite lookup_delete_ne, lookup_insert_ne, decide_False by (done || intros [|]; congruence).
Qed.

Lemma left_alone_present db secs o lo w :
  present path (d_dbino D) (d_logino D) db secs w -> present path (d_dbino D) (d_logino D) db secs (left_alone o lo w).
Proof.
  intros [[Hq Hf Hos Henv Hfcn Hfk Htls] ? ? ? ? ? ? Hfree].
  constructor; try done; [|by intros x Hx%left_alone_fcntl; apply Hfree]. constructor; try done.
  - intros x Hx. rewrite left_alone_heap. case_decide; [done|]. by apply Hf.
  - do 2 apply os_fresh_closed. exact Hos.
  - intros x ?%left_alone_fcntl. by apply Hfcn.
  - intros x [? _]%left_alone_flock. by apply Hfk.
  - intros t x p Hx. change (filter (fun kv => kv.1.2 <> d_key D) (w_tls w) !! (t, x) = Some p) in Hx.
    apply map_lookup_filter_Some in Hx as [Hx _]. by eapply Htls.
Qed.

(** [logdb_close] while others have the database open. *)
Lemma leave_run secs w k :
  attached path c D secs w -> current_txn th D w = None ->
  k ∈ os_flock (w_os w) -> fk_ino k = d_dbino D -> fk_fd k <> d_fd D ->
  exists w' db, run th (logdb_close (Some c)) w = Done 0 w' /\ present path (d_dbino D) (d_logino D) db secs w' /\
    (forall d, d <> d_fd D -> d <> d_logfd D -> os_fds (w_os w') !! d = os_fds (w_os w) !! d) /\
    (forall k, k ∈ os_flock (w_os w') <-> k ∈ os_flock (w_os w) /\ fk_fd k <> d_fd D /\ fk_fd k <> d_logfd D) /\
    user_kept (w_heap w) (w_heap w').
Proof.
  intros Ha Hcur Hk Hki Hkfd. destruct (at_db _ _ _ _ _ Ha) as [(bs & Hdb & _)]. destruct (attached_present _ _ Ha) as [db Hp].
  destruct (ds_dbfd _ _ _ _ _ _ _ Hdb) as (o & Eo & Hoi & _). destruct (ds_logfd _ _ _ _ _ _ _ Hdb) as (lo & Elo & _).
  exists (left_alone o lo w), db. split_and!; [by eapply left_alone_run|by apply left_alone_present| |apply left_alone_flock|].
  - intros d H1 H2. change (delete (d_fd D) (delete (d_logfd D) (os_fds (w_os w))) !! d = os_fds (w_os w) !! d).
    by rewrite !lookup_delete_ne.
  - destruct (ds_log _ _ _ _ _ _ _ Hdb) as (l & (yl & Ey & Hyl)%peek_cell & _).
    pose proof (ds_conn _ _ _ _ _ _ _ Hdb) as (yc & Ec & Hyc)%peek_cell.
    intros x y Ex Hy. rewrite left_alone_heap, decide_False; [done|].
    intros [-> | ->]; [rewrite Ec in Ex|rewrite Ey in Ex]; injection Ex as ->; by destruct y.
Qed.

End view.
