(* ===== verification/Sharing.v ===== *)
(** * Clients in several processes

    A machine of processes, each with its own memory, over one operating
    system; clients open, put, read and close at any time.  An abstract store,
    with the sections and the processes that have it open, says what every call
    returns; it is refined by the machine, for any order of the calls of any
    number of processes.  (Calls are taken as a whole here; what happens when
    two puts overlap is in Races.v.) *)

From stdpp Require Import functions.
From S2P Require Import Prelude Machine World Posix Io Layout Log LogSpec Buffer.
From S2P Require Import BufferSpec LogLock LockSpec DbState Lease LeaseSpec Txn TxnSpec Iter.
From S2P Require Import IterSpec Database Connection ConnSpec Store Recovery Processes.

(** ** The machine *)

Record proc := mk_proc {
  pc_heap : heap; pc_next : loc; pc_tls : gmap (thread * Z) ptr; pc_next_key : Z; pc_disposed : list (Z * ptr) }.

(** [m_conn]: the connection the client of a process holds. *)
Record machine := mk_machine { m_os : os_state; m_proc : Z -> proc; m_conn : Z -> ptr }.

(** The world as process [p] sees it, and back. *)
Definition enter (p : Z) (m : machine) : world :=
  let c := m_proc m p in mk_world (m_os m) (pc_heap c) (pc_next c) (pc_tls c) (pc_next_key c) (pc_disposed c) [].

Definition leave (p : Z) (w : world) (m : machine) : machine :=
  mk_machine (w_os w)
    (<[p := mk_proc (w_heap w) (w_next w) (w_tls w) (w_next_key w) (w_disposed w)]> (m_proc m)) (m_conn m).

Definition set_conn (p : Z) (c : ptr) (m : machine) : machine :=
  mk_machine (m_os m) (m_proc m) (<[p := c]> (m_conn m)).

(** A thread runs a call to its end. *)
Definition run_at {A} (t : thread) (q : prog A) (m : machine) : option (A * machine) :=
  match run t q (enter (th_pid t) m) with
  | Done a w => Some (a, leave (th_pid t) w m)
  | _ => None
  end.

Lemma enter_leave p w m : quiet w -> enter p (leave p w m) = w.
Proof. intros Hq. unfold enter, leave. cbn. rewrite fn_lookup_insert. destruct w. cbn in *. by rewrite Hq. Qed.

Lemma enter_leave_ne p q w m : p <> q -> enter q (leave p w m) = set_os (w_os w) (enter q m).
Proof. intros Hne. unfold enter, leave. cbn. by rewrite fn_lookup_insert_ne. Qed.

(** ** The clients *)

Inductive call := OpenDb (flags : Z) | PutRec (kl vl : loc) | ReadAll (fuel : nat) | CloseDb.
Inductive answer := Opened (ok : bool) | Code (r : Z) | Records (rs : list record).

#[export] Instance nonempty_record_dec r : Decision (nonempty_record r).
Proof. unfold nonempty_record. apply _. Defined.

(** What the store holds, who has it open, and whether that one locks others out. *)
Record sharing := mk_sharing { sh_secs : sections; sh_open : gset Z; sh_excl : bool }.

Section clients.
Context `{Build} (path : string).

Definition exec_call (t : thread) (a : call) (m : machine) : option (answer * machine) :=
  let p := th_pid t in
  match a with
  | OpenDb flags => '(c, m) ← run_at t (logdb_open (Some path) flags) m; Some (Opened (bool_decide (c <> None)), set_conn p c m)
  | PutRec kl vl => '(r, m) ← run_at t (logdb_put (m_conn m p) (Some kl) (Some vl)) m; Some (Code r, m)
  | ReadAll n => '(rs, m) ← run_at t (read_database n (m_conn m p)) m; Some (Records rs, m)
  | CloseDb => '(r, m) ← run_at t (logdb_close (m_conn m p)) m; Some (Code r, m)
  end.

Fixpoint exec_calls (cs : list (thread * call)) (m : machine) : option (list answer * machine) :=
  match cs with
  | [] => Some ([], m)
  | (t, a) :: cs => '(x, m) ← exec_call t a m; '(xs, m) ← exec_calls cs m; Some (x :: xs, m)
  end.

(** [mem p l]: what the buffer at [l] of process [p] holds. *)
Context (mem : Z -> loc -> option (list byte)).

(** The answer, or [None] when the caller breaks a rule (it closes what it does
    not have open, a record does not fit) or would have to wait. *)
Definition spec_call (t : thread) (a : call) (s : sharing) : option (answer * sharing) :=
  let p := th_pid t in
  let '(mk_sharing secs open excl) := s in
  match a with
  | OpenDb flags =>
      let nosync := flag_set flags LOGDB_OPEN_NOSYNC in
      if decide (p ∈ open) then None else
      if decide (open = ∅) then Some (Opened true, mk_sharing secs {[p]} nosync) else
      if nosync then Some (Opened false, s) else
      if excl then None else Some (Opened true, mk_sharing secs ({[p]} ∪ open) false)
  | PutRec kl vl =>
      k ← mem p kl; v ← mem p vl;
      if decide (p ∈ open) then
        if fits secs (k, v) then Some (Code 0, mk_sharing (spec_put secs (k, v)) open excl) else None
      else None
  | ReadAll n =>
      if decide (p ∈ open /\ Forall nonempty_record (spec_all secs) /\ (length (spec_all secs) < n)%nat)
      then Some (Records (spec_all secs), s) else None
  | CloseDb =>
      if decide (p ∈ open) then
        if decide (open ∖ {[p]} = ∅) then
          if zlen secs <? 65536 then Some (Code 0, mk_sharing (trim secs) ∅ false) else None
        else Some (Code 0, mk_sharing secs (open ∖ {[p]}) excl)
      else None
  end.

Fixpoint spec_calls (cs : list (thread * call)) (s : sharing) : option (list answer * sharing) :=
  match cs with
  | [] => Some ([], s)
  | (t, a) :: cs => '(x, s) ← spec_call t a s; '(xs, s) ← spec_calls cs s; Some (x :: xs, s)
  end.

End clients.

(** ** Other processes *)

Lemma world_ok_os `{Build} w w' : world_ok w -> world_ok w' -> world_ok (set_os (w_os w') w).
Proof. intros [] []. by constructor. Qed.

Lemma present_os `{Build} path ino lino db secs w w' :
  world_ok w -> present path ino lino db secs w' -> present path ino lino db secs (set_os (w_os w') w).
Proof. intros Hw []. constructor; try done. by apply world_ok_os. Qed.

Lemma closed_os `{Build} path ino secs w w' :
  world_ok w -> closed_db path ino secs w' -> closed_db path ino secs (set_os (w_os w') w).
Proof. intros Hw []. constructor; try done. by apply world_ok_os. Qed.

(** ** The refinement *)

(** Two processes use different descriptors. *)
Definition apart (D E : desc) : Prop :=
  d_fd D <> d_fd E /\ d_fd D <> d_logfd E /\ d_logfd D <> d_fd E /\ d_logfd D <> d_logfd E.

Section refine.
Context `{Build} (path : string) (ino : Z) (mem : Z -> loc -> option (list byte)).

Definition mem_ok (m : machine) : Prop :=
  forall p l bs, mem p l = Some bs -> user_buffer (pc_heap (m_proc m p)) l bs.

(** Process [p] of those in [sh_open] uses the connection [cn p]. *)
Record used (lino : Z) (D : Z -> desc) (cn : Z -> loc) (s : sharing) (m : machine) : Prop := mk_used {
  us_present p : exists db, present path ino lino db (sh_secs s) (enter p m);
  us_view p : p ∈ sh_open s -> view path (cn p) (D p) (enter p m);
  us_conn p : p ∈ sh_open s -> m_conn m p = Some (cn p);
  us_ids p : p ∈ sh_open s -> d_dbino (D p) = ino /\ d_logino (D p) = lino;
  us_txn p t : p ∈ sh_open s -> current_txn t (D p) (enter p m) = None;
  us_apart p q : p ∈ sh_open s -> q ∈ sh_open s -> p <> q -> apart (D p) (D q);
  us_held p : p ∈ sh_open s -> mk_flock (d_fd (D p)) ino (sh_excl s) ∈ os_flock (m_os m);
  us_flock k : k ∈ os_flock (m_os m) -> fk_ino k = ino ->
    exists p, p ∈ sh_open s /\ k = mk_flock (d_fd (D p)) ino (sh_excl s);
  us_excl p q : sh_excl s = true -> p ∈ sh_open s -> q ∈ sh_open s -> p = q
}.

Definition represents (s : sharing) (m : machine) : Prop :=
  mem_ok m /\ ((sh_open s = ∅ /\ forall p, closed_db path ino (sh_secs s) (enter p m)) \/
               (sh_open s <> ∅ /\ exists lino D cn, used lino D cn s m)).

Lemma mem_ok_leave p w m : mem_ok m -> user_kept (w_heap (enter p m)) (w_heap w) -> mem_ok (leave p w m).
Proof.
  intros Hm Hk q l bs Hl. unfold leave. cbn [m_proc]. destruct (decide (p = q)) as [<-|Hne].
  - rewrite fn_lookup_insert. cbn [pc_heap]. by eapply user_buffer_kept; [exact Hk|apply Hm].
  - rewrite fn_lookup_insert_ne by done. by apply Hm.
Qed.

Lemma present_leave lino db secs p w m q :
  (forall q, world_ok (enter q m)) -> present path ino lino db secs w ->
  present path ino lino db secs (enter q (leave p w m)).
Proof.
  intros Hw Hp. destruct (decide (p = q)) as [<-|Hne].
  - rewrite enter_leave; [done|]. apply (ps_world _ _ _ _ _ _ Hp).
  - rewrite enter_leave_ne by done. by apply present_os.
Qed.

Lemma view_leave c D p w m q :
  p <> q -> view path c D (enter q m) ->
  os_fds (w_os w) !! d_fd D = os_fds (m_os m) !! d_fd D -> os_fds (w_os w) !! d_logfd D = os_fds (m_os m) !! d_logfd D ->
  view path c D (enter q (leave p w m)).
Proof. intros Hne Hv E1 E2. rewrite enter_leave_ne by done. by eapply view_frame. Qed.

Lemma used_world lino D cn s m : used lino D cn s m -> forall q, world_ok (enter q m).
Proof. intros Hu q. destruct (us_present _ _ _ _ _ Hu q) as [db Hp]. apply Hp. Qed.

Lemma used_attached lino D cn s m p : used lino D cn s m -> p ∈ sh_open s -> attached path (cn p) (D p) (sh_secs s) (enter p m).
Proof.
  intros Hu Hp. destruct (us_present _ _ _ _ _ Hu p) as [db Hpr]. destruct (us_ids _ _ _ _ _ Hu p Hp) as [E1 E2].
  eapply view_attached; [rewrite E1, E2; exact Hpr|by apply (us_view _ _ _ _ _ Hu)].
Qed.

(** A call of one process that leaves the locks alone. *)
Lemma used_step lino D cn secs open excl m p secs' w :
  used lino D cn (mk_sharing secs open excl) m -> p ∈ open -> attached path (cn p) (D p) secs' w ->
  (forall d, d <> d_fd (D p) -> d <> d_logfd (D p) -> os_fds (w_os w) !! d = os_fds (m_os m) !! d) ->
  os_flock (w_os w) = os_flock (m_os m) -> (forall t, current_txn t (D p) w = None) ->
  used lino D cn (mk_sharing secs' open excl) (leave p w m).
Proof.
  intros Hu Hp Ha Hfds Hfl Htx. destruct (us_ids _ _ _ _ _ Hu p Hp) as [E1 E2].
  destruct (attached_present _ _ _ _ _ Ha) as [db Hpr]. rewrite E1, E2 in Hpr. pose proof (wo_quiet _ (at_world _ _ _ _ _ Ha)) as Hq.
  constructor; cbn [sh_secs sh_open sh_excl m_os m_conn leave]; try apply Hu.
  - intros q. exists db. apply present_leave; [by eapply used_world|done].
  - intros q Hqo. destruct (decide (p = q)) as [<-|Hne]; [rewrite enter_leave by done; by eapply attached_view|].
    destruct (us_apart _ _ _ _ _ Hu q p Hqo Hp (not_eq_sym Hne)) as (? & ? & ? & ?).
    apply view_leave; [done|by apply (us_view _ _ _ _ _ Hu)|by apply Hfds..].
  - intros q t Hqo. destruct (decide (p = q)) as [<-|Hne]; [by rewrite enter_leave|].
    rewrite enter_leave_ne by done. exact (us_txn _ _ _ _ _ Hu q t Hqo).
  - intros q Hqo. rewrite Hfl. exact (us_held _ _ _ _ _ Hu q Hqo).
  - intros k. rewrite Hfl. exact (us_flock _ _ _ _ _ Hu k).
Qed.

Lemma put_rest_step lino D cn secs open excl m t w secs' :
  used lino D cn (mk_sharing secs open excl) m -> th_pid t ∈ open ->
  attached path (cn (th_pid t)) (D (th_pid t)) secs' w -> put_rest t (D (th_pid t)) (enter (th_pid t) m) w ->
  mem_ok m -> represents (mk_sharing secs' open excl) (leave (th_pid t) w m).
Proof.
  intros Hu Hp Ha Hr Hm. pose proof (pr_rest _ _ _ _ Hr) as Hs. split.
  - apply mem_ok_leave; [done|]. exact (user_equiv_kept _ _ (sr_heap _ _ _ Hs)).
  - right. split; [cbn; set_solver|]. exists lino, D, cn. eapply used_step; [exact Hu|done|done| | |].
    + intros d H1 H2. exact (sr_fds _ _ _ Hs d H1 H2).
    + exact (sr_flock _ _ _ Hs).
    + intros u. eapply put_rest_none; [done|]. by apply (us_txn _ _ _ _ _ Hu).
Qed.

Lemma put_step lino D cn secs open excl m t kl vl k v :
  used lino D cn (mk_sharing secs open excl) m -> th_pid t ∈ open -> mem_ok m ->
  mem (th_pid t) kl = Some k -> mem (th_pid t) vl = Some v -> fits secs (k, v) = true ->
  exists m', exec_call path t (PutRec kl vl) m = Some (Code 0, m') /\ represents (mk_sharing (spec_put secs (k, v)) open excl) m'.
Proof.
  intros Hu Hp Hm Hk Hv Hf.
  destruct (attached_put t path (cn (th_pid t)) (D (th_pid t)) secs (enter (th_pid t) m) kl vl k v) as (w & E & Ha & Hr);
    [by apply (used_attached _ _ _ _ _ _ Hu)|by apply (us_txn _ _ _ _ _ Hu)|by apply Hm..|done|].
  eexists. split; [|by eapply put_rest_step]. cbn [exec_call]. rewrite (us_conn _ _ _ _ _ Hu _ Hp). unfold run_at. by rewrite E.
Qed.

Lemma read_step lino D cn secs open excl m t n :
  used lino D cn (mk_sharing secs open excl) m -> th_pid t ∈ open -> mem_ok m ->
  Forall nonempty_record (spec_all secs) -> (length (spec_all secs) < n)%nat ->
  exists m', exec_call path t (ReadAll n) m = Some (Records (spec_all secs), m') /\ represents (mk_sharing secs open excl) m'.
Proof.
  intros Hu Hp Hm Hne Hn.
  destruct (attached_read t path (cn (th_pid t)) (D (th_pid t)) secs (enter (th_pid t) m) n) as (w & E & Ha & Hr);
    [by apply (used_attached _ _ _ _ _ _ Hu)|done|done|].
  eexists. split; [|by eapply put_rest_step]. cbn [exec_call]. rewrite (us_conn _ _ _ _ _ Hu _ Hp). unfold run_at. by rewrite E.
Qed.

(** The first process opens the database. *)
Lemma open_first_step secs m t flags :
  mem_ok m -> (forall p, closed_db path ino secs (enter p m)) ->
  exists m', exec_call path t (OpenDb flags) m = Some (Opened true, m') /\
    represents (mk_sharing secs {[th_pid t]} (flag_set flags LOGDB_OPEN_NOSYNC)) m'.
Proof.
  intros Hm Hc. set (p := th_pid t). destruct (open_run t path flags ino secs (enter p m) (Hc p)) as (c & D & w & E & Hop).
  pose proof (session_attached _ _ _ _ _ (op_session _ _ _ _ _ _ _ _ _ Hop)) as Ha. destruct (attached_present _ _ _ _ _ Ha) as [db Hpr].
  rewrite (op_ino _ _ _ _ _ _ _ _ _ Hop) in Hpr. pose proof (wo_quiet _ (at_world _ _ _ _ _ Ha)) as Hq.
  eexists. split; [cbn [exec_call]; unfold run_at; fold p; by rewrite E|]. split.
  { apply (mem_ok_leave p w m Hm). eapply opened_kept; [exact Hop|]. apply (Hc p). }
  right. split; [cbn; set_solver|]. exists (d_logino D), (fun _ => D), (fun _ => c).
  destruct (op_flock _ _ _ _ _ _ _ _ _ Hop) as [Hheld Hlocks].
  constructor; cbn [sh_secs sh_open sh_excl].
  - intros q. exists db. apply (present_leave _ db secs p w m q); [intros; apply Hc|done].
  - intros q ->%elem_of_singleton. change (view path c D (enter p (leave p w m))). rewrite enter_leave by done. by eapply attached_view.
  - intros q ->%elem_of_singleton. apply fn_lookup_insert.
  - intros q ->%elem_of_singleton. split; [apply Hop|done].
  - intros q u ->%elem_of_singleton. change (current_txn u D (enter p (leave p w m)) = None). rewrite enter_leave by done. apply Hop.
  - intros x y ->%elem_of_singleton ->%elem_of_singleton. done.
  - intros q _. exact Hheld.
  - intros k Hk Hi. exists p. split; [set_solver|]. by apply Hlocks.
  - intros x y _ ->%elem_of_singleton ->%elem_of_singleton. done.
Qed.

(** The descriptors of the others are below the next one. *)
Lemma used_below lino D cn s m p :
  used lino D cn s m -> p ∈ sh_open s -> d_fd (D p) < os_next_fd (m_os m) /\ d_logfd (D p) < os_next_fd (m_os m).
Proof.
  intros Hu Hp. pose proof (used_attached _ _ _ _ _ _ Hu Hp) as Ha.
  pose proof (attached_inos path (cn p) (D p) _ _ Ha) as (_ & _ & ? & ?). done.
Qed.

(** Another process joins. *)
Lemma open_join_step lino D cn secs open m t flags :
  used lino D cn (mk_sharing secs open false) m -> mem_ok m -> open <> ∅ -> th_pid t ∉ open ->
  flag_set flags LOGDB_OPEN_NOSYNC = false ->
  exists m', exec_call path t (OpenDb flags) m = Some (Opened true, m') /\
    represents (mk_sharing secs ({[th_pid t]} ∪ open) false) m'.
Proof.
  intros Hu Hm Hne Hp Hs. set (p := th_pid t) in *. destruct (us_present _ _ _ _ _ Hu p) as [db Hpr].
  apply set_choose_L in Hne as [p0 Hp0].
  destruct (join_run t path flags ino lino db secs (enter p m)) as (c & E & w & Er & Har & Hlino & Hfd & Hlfd & Hfl & Hfds); [done..| |].
  { split; [|by intros k Hk Hi; destruct (us_flock _ _ _ _ _ Hu k Hk Hi) as (x & _ & ->)].
    exists (mk_flock (d_fd (D p0)) ino false). split_and!; [exact (us_held _ _ _ _ _ Hu p0 Hp0)|done|].
    exact (proj1 (used_below _ _ _ _ _ _ Hu Hp0)). }
  pose proof (ar_attached _ _ _ _ _ _ _ _ _ Har) as Ha. destruct (attached_present _ _ _ _ _ Ha) as [db' Hpr'].
  rewrite (ar_ino _ _ _ _ _ _ _ _ _ Har), Hlino in Hpr'. pose proof (wo_quiet _ (at_world _ _ _ _ _ Ha)) as Hq.
  change (os_next_fd (w_os (enter p m))) with (os_next_fd (m_os m)) in *.
  eexists. split; [cbn [exec_call]; unfold run_at; fold p; by rewrite Er|]. split.
  { apply (mem_ok_leave p w m Hm). intros x y Ex _. rewrite (ar_heap _ _ _ _ _ _ _ _ _ Har); [done|].
    apply Z.nle_gt. intros Hge. by rewrite (wo_heap _ (ps_world _ _ _ _ _ _ Hpr)) in Ex. }
  right. split; [cbn; set_solver|]. exists lino, (<[p := E]> D), (<[p := c]> cn).
  assert (forall q, q ∈ open -> p <> q) as Hpq by (by intros q Hqo <-).
  assert (forall q, q ∈ open -> (<[p := E]> D) q = D q /\ (<[p := c]> cn) q = cn q) as Hold.
  { intros q Hqo. by rewrite !fn_lookup_insert_ne by by apply Hpq. }
  assert ((<[p := E]> D) p = E /\ (<[p := c]> cn) p = c) as [HD Hcn] by by rewrite !fn_lookup_insert.
  constructor; cbn [sh_secs sh_open sh_excl].
  - intros q. exists db'. apply (present_leave _ db' secs p w m q); [by eapply used_world|done].
  - intros q [->%elem_of_singleton|Hqo]%elem_of_union.
    + rewrite HD, Hcn. change (view path c E (enter p (leave p w m))). rewrite enter_leave by done. by eapply attached_view.
    + destruct (Hold q Hqo) as [-> ->]. destruct (used_below _ _ _ _ _ _ Hu Hqo).
      apply (view_leave (cn q) (D q) p w m q); [by apply Hpq|by apply (us_view _ _ _ _ _ Hu)|apply Hfds; lia..].
  - intros q [->%elem_of_singleton|Hqo]%elem_of_union; [rewrite Hcn; apply fn_lookup_insert|].
    destruct (Hold q Hqo) as [_ ->]. cbn [m_conn set_conn leave]. rewrite fn_lookup_insert_ne by by apply Hpq. by apply (us_conn _ _ _ _ _ Hu).
  - intros q [->%elem_of_singleton|Hqo]%elem_of_union; [rewrite HD; split; [apply Har|done]|].
    destruct (Hold q Hqo) as [-> _]. by apply (us_ids _ _ _ _ _ Hu).
  - intros q u [->%elem_of_singleton|Hqo]%elem_of_union.
    + rewrite HD. change (current_txn u E (enter p (leave p w m)) = None). rewrite enter_leave by done. apply Har.
    + destruct (Hold q Hqo) as [-> _]. change (current_txn u (D q) (enter q (leave p w m)) = None).
      rewrite enter_leave_ne by by apply Hpq. exact (us_txn _ _ _ _ _ Hu q u Hqo).
  - assert (forall q, q ∈ open -> apart E (D q)) as Hnew.
    { intros q Hqo. destruct (used_below _ _ _ _ _ _ Hu Hqo). unfold apart. lia. }
    intros x y [->%elem_of_singleton|Hx]%elem_of_union [->%elem_of_singleton|Hy]%elem_of_union Hxy; [done|..].
    + rewrite HD. destruct (Hold y Hy) as [-> _]. by apply Hnew.
    + rewrite HD. destruct (Hold x Hx) as [-> _]. destruct (Hnew x Hx) as (? & ? & ? & ?). unfold apart. lia.
    + destruct (Hold x Hx) as [-> _], (Hold y Hy) as [-> _]. by apply (us_apart _ _ _ _ _ Hu).
  - intros q Hq'. cbn [m_os set_conn leave]. rewrite Hfl. apply elem_of_share_locks.
    apply elem_of_union in Hq' as [->%elem_of_singleton|Hqo]; [left; by rewrite HD|right].
    destruct (Hold q Hqo) as [-> _]. split; [exact (us_held _ _ _ _ _ Hu q Hqo)|].
    destruct (used_below _ _ _ _ _ _ Hu Hqo). cbn [fk_fd]. lia.
  - intros k Hk Hi. cbn [m_os set_conn leave] in Hk. rewrite Hfl in Hk. apply elem_of_share_locks in Hk as [->|[Hk _]].
    + exists p. split; [by apply elem_of_union_l, elem_of_singleton|]. by rewrite HD.
    + destruct (us_flock _ _ _ _ _ Hu k Hk Hi) as (q & Hqo & ->). exists q. split; [by apply elem_of_union_r|]. by destruct (Hold q Hqo) as [-> _].
  - done.
Qed.

(** One that does not share finds it open. *)
Lemma open_busy_step lino D cn secs open excl m t flags :
  used lino D cn (mk_sharing secs open excl) m -> mem_ok m -> open <> ∅ -> th_pid t ∉ open ->
  flag_set flags LOGDB_OPEN_NOSYNC = true ->
  exists m', exec_call path t (OpenDb flags) m = Some (Opened false, m') /\ represents (mk_sharing secs open excl) m'.
Proof.
  intros Hu Hm Hne Hp Hs. set (p := th_pid t) in *. destruct (us_present _ _ _ _ _ Hu p) as [db Hpr].
  pose proof Hne as [p0 Hp0]%set_choose_L. set (n := os_next_fd (m_os m)).
  destruct (busy_run t path flags ino lino db secs (enter p m) (mk_flock (d_fd (D p0)) ino excl))
    as (w & Er & Hpr' & Hfds & Hfl & Hh & _ & _ & _); [done..|exact (us_held _ _ _ _ _ Hu p0 Hp0)|done|exact (proj1 (used_below _ _ _ _ _ _ Hu Hp0))|].
  change (os_next_fd (w_os (enter p m))) with n in *.
  eexists. split; [cbn [exec_call]; unfold run_at; fold p; by rewrite Er|]. split.
  { apply (mem_ok_leave p w m Hm). intros x y Ex _. rewrite Hh; [done|].
    apply Z.nle_gt. intros Hge. by rewrite (wo_heap _ (ps_world _ _ _ _ _ _ Hpr)) in Ex. }
  right. split; [done|]. exists lino, D, cn.
  assert (forall q, q ∈ open -> p <> q) as Hpq by (by intros q Hqo <-).
  constructor; cbn [sh_secs sh_open sh_excl].
  - intros q. exists db. apply (present_leave _ db secs p w m q); [by eapply used_world|done].
  - intros q Hqo. destruct (used_below _ _ _ _ _ _ Hu Hqo).
    apply (view_leave (cn q) (D q) p w m q); [by apply Hpq|by apply (us_view _ _ _ _ _ Hu)|apply Hfds; lia..].
  - intros q Hqo. cbn [m_conn set_conn leave]. rewrite fn_lookup_insert_ne by by apply Hpq. by apply (us_conn _ _ _ _ _ Hu).
  - apply Hu.
  - intros q u Hqo. change (current_txn u (D q) (enter q (leave p w m)) = None).
    rewrite enter_leave_ne by by apply Hpq. exact (us_txn _ _ _ _ _ Hu q u Hqo).
  - apply Hu.
  - intros q Hqo. apply Hfl. split; [exact (us_held _ _ _ _ _ Hu q Hqo)|].
    destruct (used_below _ _ _ _ _ _ Hu Hqo). cbn [fk_fd]. lia.
  - intros k [Hk _]%Hfl. apply (us_flock _ _ _ _ _ Hu k Hk).
  - apply Hu.
Qed.

(** The last process closes the database. *)
Lemma close_last_step lino D cn secs open excl m t :
  used lino D cn (mk_sharing secs open excl) m -> mem_ok m -> th_pid t ∈ open -> open ∖ {[th_pid t]} = ∅ -> zlen secs < 65536 ->
  exists m', exec_call path t CloseDb m = Some (Code 0, m') /\ represents (mk_sharing (trim secs) ∅ false) m'.
Proof.
  intros Hu Hm Hp Hlast Hlen. set (p := th_pid t) in *. destruct (us_ids _ _ _ _ _ Hu p Hp) as [E1 E2].
  assert (session path (cn p) (D p) secs (enter p m)) as Hs.
  { apply attached_session; [by apply (used_attached _ _ _ _ _ _ Hu)|]. intros k Hk Hi. rewrite E1 in Hi.
    destruct (us_flock _ _ _ _ _ Hu k Hk Hi) as (q & Hq & ->). destruct (decide (q = p)) as [->|Hqp]; [done|exfalso].
    assert (q ∈ open ∖ {[p]}) as Hq' by (apply elem_of_difference; by rewrite elem_of_singleton). rewrite Hlast in Hq'. by apply elem_of_empty in Hq'. }
  destruct (close_session t path (cn p) (D p) secs (enter p m) Hs) as (w & Er & Hc & Hk); [by apply (us_txn _ _ _ _ _ Hu)|done|].
  eexists. split; [cbn [exec_call]; fold p; rewrite (us_conn _ _ _ _ _ Hu _ Hp); unfold run_at; fold p; by rewrite Er|].
  split; [by apply (mem_ok_leave p w m Hm)|]. left. split; [done|]. intros q. rewrite E1 in Hc. cbn [sh_secs].
  destruct (decide (p = q)) as [<-|Hne].
  - rewrite enter_leave; [done|]. apply (cl_world _ _ _ _ Hc).
  - rewrite enter_leave_ne by done. apply closed_os; [by eapply used_world|done].
Qed.

(** Another one does. *)
Lemma close_other_step lino D cn secs open excl m t :
  used lino D cn (mk_sharing secs open excl) m -> mem_ok m -> th_pid t ∈ open -> open ∖ {[th_pid t]} <> ∅ ->
  exists m', exec_call path t CloseDb m = Some (Code 0, m') /\ represents (mk_sharing secs (open ∖ {[th_pid t]}) excl) m'.
Proof.
  intros Hu Hm Hp Hne. set (p := th_pid t) in *. destruct (us_ids _ _ _ _ _ Hu p Hp) as [E1 E2].
  pose proof Hne as [p0 [Hp0 Hp0']%elem_of_difference]%set_choose_L. rewrite elem_of_singleton in Hp0'.
  destruct (us_apart _ _ _ _ _ Hu p0 p Hp0 Hp Hp0') as (Hap & _).
  destruct (leave_run t path (cn p) (D p) secs (enter p m) (mk_flock (d_fd (D p0)) ino excl)) as (w & db & Er & Hpr & Hfds & Hfl & Hk);
    [by apply (used_attached _ _ _ _ _ _ Hu)|by apply (us_txn _ _ _ _ _ Hu)|exact (us_held _ _ _ _ _ Hu p0 Hp0)|done|done|].
  rewrite E1, E2 in Hpr. eexists. split; [cbn [exec_call]; fold p; rewrite (us_conn _ _ _ _ _ Hu _ Hp); unfold run_at; fold p; by rewrite Er|].
  split; [by apply (mem_ok_leave p w m Hm)|]. right. split; [done|]. exists lino, D, cn.
  assert (forall q, q ∈ open ∖ {[p]} -> q ∈ open /\ p <> q) as Hin.
  { intros q [Hqo Hqp]%elem_of_difference. split; [done|]. intros ->. by apply Hqp, elem_of_singleton. }
  constructor; cbn [sh_secs sh_open sh_excl].
  - intros q. exists db. apply (present_leave _ db secs p w m q); [by eapply used_world|done].
  - intros q [Hqo Hpq]%Hin. destruct (us_apart _ _ _ _ _ Hu q p Hqo Hp (not_eq_sym Hpq)) as (? & ? & ? & ?).
    apply (view_leave (cn q) (D q) p w m q); [done|by apply (us_view _ _ _ _ _ Hu)|by apply Hfds..].
  - intros q [Hqo _]%Hin. by apply (us_conn _ _ _ _ _ Hu).
  - intros q [Hqo _]%Hin. by apply (us_ids _ _ _ _ _ Hu).
  - intros q u [Hqo Hpq]%Hin. change (current_txn u (D q) (enter q (leave p w m)) = None).
    rewrite enter_leave_ne by done. exact (us_txn _ _ _ _ _ Hu q u Hqo).
  - intros x y [Hx _]%Hin [Hy _]%Hin. by apply (us_apart _ _ _ _ _ Hu).
  - intros q [Hqo Hpq]%Hin. apply Hfl. split; [exact (us_held _ _ _ _ _ Hu q Hqo)|]. cbn [fk_fd].
    by destruct (us_apart _ _ _ _ _ Hu q p Hqo Hp (not_eq_sym Hpq)) as (? & ? & ? & ?).
  - intros k [Hk' [Hkfd _]]%Hfl Hi. destruct (us_flock _ _ _ _ _ Hu k Hk' Hi) as (q & Hqo & ->). exists q.
    split; [|done]. apply elem_of_difference. split; [done|]. intros ->%elem_of_singleton. by apply Hkfd.
  - intros x y Hx [? _]%Hin [? _]%Hin. by apply (us_excl _ _ _ _ _ Hu).
Qed.

(** Every call does what the abstract store says. *)
Lemma call_step t a s s' x m :
  represents s m -> spec_call mem t a s = Some (x, s') ->
  exists m', exec_call path t a m = Some (x, m') /\ represents s' m'.
Proof.
  destruct s as [secs open excl]. intros [Hm Hrep] Hspec. destruct a as [flags|kl vl|n|]; cbn [spec_call] in Hspec.
  - case_decide as Hp; [done|]. case_decide as He.
    + injection Hspec as <- <-. destruct Hrep as [[_ Hc]|[Hne _]]; [by apply open_first_step|done].
    + destruct Hrep as [[? _]|[_ (lino & D & cn & Hu)]]; [done|].
      destruct (flag_set flags LOGDB_OPEN_NOSYNC) eqn:Es; [injection Hspec as <- <-; by eapply open_busy_step|].
      destruct excl; [done|]. injection Hspec as <- <-. by eapply open_join_step.
  - apply bind_Some in Hspec as (k & Hk & (v & Hv & Hspec)%bind_Some). case_decide as Hp; [|done].
    destruct (fits secs (k, v)) eqn:Hf; [|done]. injection Hspec as <- <-.
    destruct Hrep as [[He _]|[_ (lino & D & cn & Hu)]]; [cbn in He; set_solver|]. by eapply put_step.
  - case_decide as Hc; [|done]. destruct Hc as (Hp & Hne & Hn). injection Hspec as <- <-.
    destruct Hrep as [[He _]|[_ (lino & D & cn & Hu)]]; [cbn in He; set_solver|]. by eapply read_step.
  - case_decide as Hp; [|done]. destruct Hrep as [[He _]|[_ (lino & D & cn & Hu)]]; [cbn in He; set_solver|].
    case_decide as Hlast; [destruct (Z.ltb_spec (zlen secs) 65536); [|done]|]; injection Hspec as <- <-;
      [by eapply close_last_step|by eapply close_other_step].
Qed.

Lemma calls_run cs s s' xs m :
  represents s m -> spec_calls mem cs s = Some (xs, s') ->
  exists m', exec_calls path cs m = Some (xs, m') /\ represents s' m'.
Proof.
  revert s xs m. induction cs as [|[t a] cs IH]; intros s xs m Hr E; cbn [spec_calls exec_calls] in *.
  - injection E as <- <-. by exists m.
  - apply bind_Some in E as ([x s1] & E1 & ([ys s2] & E2 & [= <- <-])%bind_Some).
    destruct (call_step t a s s1 x m Hr E1) as (m1 & -> & Hr1). destruct (IH s1 ys m1 Hr1 E2) as (m2 & E3 & Hr2).
    cbn [mbind option_bind]. rewrite E3. by exists m2.
Qed.

End refine.

(** ** Properties *)

(** C2. Processes that share a database: any number of processes, each with
    its own memory, open, put, read and close it in any order.  Every call
    returns what the abstract store says: a put of one process is read by all,
    a process that wants the database for itself is refused while others have
    it, the last one to close it leaves it closed with all its records. *)
Theorem processes_refine `{Build} path ino mem cs s s' xs m :
  represents path ino mem s m -> spec_calls mem cs s = Some (xs, s') ->
  exists m', exec_calls path cs m = Some (xs, m') /\ represents path ino mem s' m'.
Proof. apply calls_run. Qed.

(** ** Witnesses *)

#[local] Existing Instance debug_build.

(** A closed database, and processes with buffers 4 and 6 and no connection. *)
Definition sample_machine (k v : list byte) : machine :=
  let w := closed_sample k v in
  mk_machine (w_os w) (fun _ => mk_proc (w_heap w) (w_next w) (w_tls w) (w_next_key w) (w_disposed w)) (fun _ => None).

Definition sample_mem (k v : list byte) (p : Z) (l : loc) : option (list byte) :=
  if l =? 4 then Some k else if l =? 6 then Some v else None.

Lemma sample_machine_represents k v :
  represents "t.db" 1 (sample_mem k v) (mk_sharing sample_secs ∅ false) (sample_machine k v).
Proof.
  split.
  - intros p l bs Hl. unfold sample_mem in Hl. change (user_buffer (w_heap (put_sample k v 0 [] [])) l bs).
    apply put_sample_buffer. repeat case_match; zbool; try done; injection Hl as ->; subst; [by left|by right].
  - left. split; [done|]. intros p. exact (closed_sample_ok k v).
Qed.

(** Processes 1 and 2 share the database and read each other's records; 3
    cannot have it for itself until both have closed it. *)
Lemma processes_refine_witness :
  let k := [x61] in let v := [x62; x63] in let m := sample_machine k v in
  let t p := mk_thread p 1 in let old := ([x61], [x62]) in
  exists m', exec_calls "t.db"
      [(t 1, OpenDb 0); (t 2, OpenDb LOGDB_OPEN_CREATE); (t 1, PutRec 4 6); (t 2, ReadAll 5); (t 2, PutRec 6 4);
       (t 3, OpenDb LOGDB_OPEN_NOSYNC); (t 1, ReadAll 5); (t 1, CloseDb); (t 2, CloseDb);
       (t 3, OpenDb LOGDB_OPEN_NOSYNC); (t 3, ReadAll 5); (t 3, CloseDb)] m =
    Some ([Opened true; Opened true; Code 0; Records [old; (k, v)]; Code 0;
           Opened false; Records [old; (k, v); (v, k)]; Code 0; Code 0;
           Opened true; Records [old; (k, v); (v, k)]; Code 0], m') /\
    represents "t.db" 1 (sample_mem k v) (mk_sharing [[old; (k, v); (v, k)]] ∅ false) m'.
Proof.
  apply (processes_refine "t.db" 1 (sample_mem [x61] [x62; x63]) _ (mk_sharing sample_secs ∅ false)).
  - apply sample_machine_represents.
  - by vm_compute.
Defined.
