(* ===== verification/TxnStack.v ===== *)
(** * Nested transactions

    The transactions of a thread are a stack: [logdb_begin] pushes one,
    [logdb_commit] and [logdb_rollback] pop one, and [logdb_close] drops all
    of them.  Here they hold no records (a put in a transaction is undefined
    behaviour later on, see TxnSpec.v). *)

From S2P Require Import Prelude Machine World Posix Io Layout Log LogSpec Buffer.
From S2P Require Import BufferSpec LogLock LockSpec DbState Lease LeaseSpec Txn TxnSpec Iter.
From S2P Require Import IterSpec Database Connection ConnSpec.

(** ** The abstract stack *)

Inductive txn_op := Begin | Commit | Rollback.

(** What a call returns, and the depth afterwards. *)
Definition spec_op (depth : nat) (op : txn_op) : Z * nat :=
  match op, depth with
  | Begin, _ => (0, S depth)
  | _, O => (-1, O)
  | _, S depth => (0, depth)
  end.

Fixpoint spec_ops (depth : nat) (ops : list txn_op) : list Z * nat :=
  match ops with
  | [] => ([], depth)
  | op :: ops => let (r, depth) := spec_op depth op in let (rs, depth) := spec_ops depth ops in (r :: rs, depth)
  end.

(** ** The transactions in memory *)

Fixpoint txn_stack (h : heap) (p : ptr) (ls : list loc) : Prop :=
  match ls with
  | [] => p = None
  | l :: ls => p = Some l /\ exists o, peek logdb_txn_t h l = Some (mk_txn o None) /\ txn_stack h o ls
  end.

Lemma txn_stack_frame h h' p ls :
  (forall x, x ∈ ls -> h' !! x = h !! x) -> txn_stack h p ls -> txn_stack h' p ls.
Proof.
  revert p. induction ls as [|l ls IH]; intros p Hx; [done|]. intros (-> & o & E & Ho). split; [done|]. exists o.
  split; [unfold peek; by rewrite Hx by left|]. apply IH; [|done]. intros x Hin. apply Hx. by right.
Qed.

Lemma txn_stack_in h p ls x : txn_stack h p ls -> x ∈ ls -> exists t, peek logdb_txn_t h x = Some t.
Proof.
  revert p. induction ls as [|l ls IH]; intros p Hs Hx; [by apply not_elem_of_nil in Hx|].
  destruct Hs as (-> & o & E & Ho). apply elem_of_cons in Hx as [->|Hx]; eauto.
Qed.

Section stack.
Context `{Build} (th : thread) (path : string) (c : loc) (D : desc) (h0 : heap) (b : loc).

(** The database is open; the thread is in the transactions [ls], the
    innermost first, all in blocks from [b] on; below there is what there was. *)
Record stacked (secs : sections) (ls : list loc) (w : world) : Prop := mk_stacked {
  sk_session : session path c D secs w;
  sk_stack : txn_stack (w_heap w) (current_txn th D w) ls;
  sk_nodup : NoDup ls;
  sk_base : b <= w_next w /\ Forall (fun l => b <= l) ls;
  sk_below x : x < b -> w_heap w !! x = h0 !! x
}.

(** The connection is the one of the session. *)
Lemma stacked_db secs ls w : stacked secs ls w -> exists bs, db_state c D (sizes secs) bs 0 table_idle w.
Proof. intros Hs. destruct (se_db _ _ _ _ _ (sk_session _ _ _ Hs)) as [(bs & Hdb & _)]. by exists bs. Qed.

Lemma stacked_peek secs ls w x : stacked secs ls w -> x ∈ ls -> exists t, w_heap w !! x = Some (CTxn t).
Proof.
  intros Hs Hx. destruct (txn_stack_in _ _ _ _ (sk_stack _ _ _ Hs) Hx) as [t Et].
  apply peek_cell in Et as (y & Ey & Hy). exists t. destruct y; try done. by injection Hy as ->.
Qed.

(** [logdb_begin] *)
Lemma stacked_begin secs ls w :
  stacked secs ls w ->
  exists w', run th (logdb_begin (Some c)) w = Done 0 w' /\ stacked secs (w_next w :: ls) w'.
Proof.
  intros Hs. destruct (stacked_db _ _ _ Hs) as (bs & Hdb). pose proof (ds_fresh _ _ _ _ _ _ _ Hdb) as Hf.
  assert (w_heap w !! w_next w = None) as Hnew by (apply Hf; lia).
  unfold logdb_begin, logdb_txn_set_current. rewrite run_bind, (verify_connection_run _ _ _ _ _ _ _ _ Hdb). cbn [negb]. cbn iota.
  rewrite run_bind, (begin_implicit_run th c D w 0 w); [|apply Hdb|apply Hdb| |done].
  2: { exact (heap_fresh_lt _ _ _ _ Hf (ds_conn _ _ _ _ _ _ _ Hdb)). }
  cbn beta iota. set (w1 := set_next (w_next w + 1) _).
  assert (session path c D secs w1) as H1.
  { apply session_user; [apply Hs| |by apply heap_fresh_alloc]. intros x y Ex _. rewrite lookup_insert_ne; [done|]. congruence. }
  assert (exists bs1, db_state c D (sizes secs) bs1 0 table_idle w1) as (bs1 & Hdb1).
  { destruct (se_db _ _ _ _ _ H1) as [(bs1 & Hdb1 & _)]. by exists bs1. }
  rewrite run_bind, run_load, (do_load_peek _ _ _ _ (ds_conn _ _ _ _ _ _ _ Hdb1)).
  cbn [conn_current_txn_key the_conn]. unfold pthread_setspecific. rewrite run_prim, next_fault_quiet by apply Hdb1. cbn beta iota.
  eexists. split; [done|]. destruct (sk_base _ _ _ Hs) as [Hb Hls]. constructor.
  - by apply session_tls.
  - unfold current_txn at 1. cbn [w_tls set_tls]. rewrite lookup_insert_eq. split; [done|]. exists (current_txn th D w).
    split; [exact (peek_insert logdb_txn_t _ _ _)|]. eapply txn_stack_frame; [|apply Hs].
    intros x Hx. apply lookup_insert_ne. intros <-. destruct (stacked_peek _ _ _ _ Hs Hx) as [t Et]. congruence.
  - apply NoDup_cons_2; [|apply Hs]. intros Hx. destruct (stacked_peek _ _ _ _ Hs Hx) as [t Et]. congruence.
  - cbn. split; [lia|by constructor].
  - intros x Hx. cbn. rewrite lookup_insert_ne by lia. by apply (sk_below _ _ _ Hs).
Qed.

(** Closing the current transaction. *)
Lemma stacked_close secs l ls w :
  stacked secs (l :: ls) w ->
  exists w', run th (logdb_txn_close (Some c) (Some l)) w = Done tt w' /\ stacked secs ls w'.
Proof.
  intros Hs. destruct (stacked_db _ _ _ Hs) as (bs & Hdb). destruct (sk_stack _ _ _ Hs) as (Ecur & o & El & Ho).
  unfold logdb_txn_close, logdb_txn_set_current. rewrite run_bind, run_load, (do_load_peek _ _ _ _ El). cbn [txn_outer].
  rewrite run_bind, run_bind, run_load, (do_load_peek _ _ _ _ (ds_conn _ _ _ _ _ _ _ Hdb)). cbn [conn_current_txn_key the_conn].
  unfold pthread_setspecific. rewrite run_prim, next_fault_quiet by apply Hdb. cbn beta iota.
  set (w1 := set_tls _ w). rewrite run_bind, run_load. change (w_heap w) with (w_heap w1) in El. rewrite (do_load_peek _ _ _ _ El). cbn [txn_buf]. rewrite run_bind, run_ret.
  rewrite run_free, do_free_run by exact (peek_is_Some _ _ _ _ El). exists (set_heap (delete l (w_heap w1)) w1). split; [done|].
  destruct (sk_base _ _ _ Hs) as [Hb [Hl Hls]%Forall_cons_iff]. destruct (stacked_peek _ _ _ l Hs) as [t Et]; [left|]. constructor.
  - replace (set_heap _ w1) with (set_next (w_next w1) (set_heap (delete l (w_heap w1)) w1)) by done.
    apply session_user; [by apply session_tls, Hs| |].
    + intros x y Ex Hy. rewrite lookup_delete_ne; [done|]. intros <-. change (w_heap w1) with (w_heap w) in Ex. rewrite Et in Ex. by injection Ex as <-.
    + change (heap_fresh (set_heap (delete l (w_heap w)) w)). apply heap_fresh_delete, Hdb.
  - unfold current_txn. cbn [w_tls set_tls set_heap w1]. rewrite lookup_insert_eq. cbn [default from_option id].
    eapply txn_stack_frame; [|exact Ho]. intros x Hx. apply lookup_delete_ne. intros <-.
    by apply (NoDup_cons_1_1 _ _ (sk_nodup _ _ _ Hs)).
  - exact (NoDup_cons_1_2 _ _ (sk_nodup _ _ _ Hs)).
  - by split.
  - intros x Hx. cbn. rewrite lookup_delete_ne by lia. by apply (sk_below _ _ _ Hs).
Qed.

(** One call. *)
Definition run_txn_op (conn : ptr) (op : txn_op) : prog Z :=
  match op with
  | Begin => logdb_begin conn
  | Commit => logdb_commit conn
  | Rollback => logdb_rollback conn
  end.

Lemma stacked_commit secs l ls w o :
  stacked secs (l :: ls) w -> peek logdb_txn_t (w_heap w) l = Some (mk_txn o None) ->
  run th (logdb_txn_commit (Some c) (Some l)) w =
    run th (let! _ := logdb_txn_close (Some c) (Some l) in Ret 0) w.
Proof.
  intros Hs El. unfold logdb_txn_commit at 1. rewrite run_bind, run_load, (do_load_peek _ _ _ _ El). cbn [txn_buf].
  unfold logdb_buffer_length. by rewrite run_bind, run_bind, run_heap_size.
Qed.

Lemma stacked_op secs ls w op :
  stacked secs ls w ->
  exists ls' w', run th (run_txn_op (Some c) op) w = Done (fst (spec_op (length ls) op)) w' /\
    stacked secs ls' w' /\ length ls' = snd (spec_op (length ls) op).
Proof.
  intros Hs. destruct (stacked_db _ _ _ Hs) as (bs & Hdb). pose proof (sk_stack _ _ _ Hs) as Hst.
  destruct op; cbn [run_txn_op spec_op fst snd].
  - destruct (stacked_begin _ _ _ Hs) as (w' & E & Hs'). by exists (w_next w :: ls), w'.
  - unfold logdb_commit. rewrite run_bind, (verify_connection_run _ _ _ _ _ _ _ _ Hdb). cbn [negb]. cbn iota.
    rewrite run_bind, (txn_current_run _ _ _ _ _ _ _ _ Hdb). destruct ls as [|l ls]; [rewrite Hst; by exists [], w|].
    destruct Hst as (-> & o & El & _). rewrite (stacked_commit _ _ _ _ _ Hs El).
    destruct (stacked_close _ _ _ _ Hs) as (w' & E & Hs'). exists ls, w'. by rewrite run_bind, E.
  - unfold logdb_rollback. rewrite run_bind, (verify_connection_run _ _ _ _ _ _ _ _ Hdb). cbn [negb]. cbn iota.
    rewrite run_bind, (txn_current_run _ _ _ _ _ _ _ _ Hdb). destruct ls as [|l ls]; [rewrite Hst; by exists [], w|].
    destruct Hst as (-> & o & El & _). destruct (stacked_close _ _ _ _ Hs) as (w' & E & Hs'). exists ls, w'. by rewrite run_bind, E.
Qed.

(** A sequence of calls. *)
Fixpoint run_txn_ops (conn : ptr) (ops : list txn_op) : prog (list Z) :=
  match ops with
  | [] => Ret []
  | op :: ops =>
      let! r := run_txn_op conn op in
      let! rs := run_txn_ops conn ops in
      Ret (r :: rs)
  end.

Lemma stacked_ops secs ls w ops :
  stacked secs ls w ->
  exists ls' w', run th (run_txn_ops (Some c) ops) w = Done (fst (spec_ops (length ls) ops)) w' /\
    stacked secs ls' w' /\ length ls' = snd (spec_ops (length ls) ops).
Proof.
  revert ls w. induction ops as [|op ops IH]; intros ls w Hs; [by exists ls, w|].
  destruct (stacked_op _ _ _ op Hs) as (ls1 & w1 & E1 & Hs1 & Hn1). destruct (IH _ _ Hs1) as (ls2 & w2 & E2 & Hs2 & Hn2).
  exists ls2, w2. cbn [run_txn_ops spec_ops]. rewrite run_bind, E1, run_bind, E2, run_ret.
  destruct (spec_op (length ls) op) as [r d]. cbn [fst snd] in *. subst d. by destruct (spec_ops (length ls1) ops).
Qed.

(** ** Dropping the stack *)

Lemma txn_close_all_run n l ls w :
  txn_stack (w_heap w) (Some l) (l :: ls) -> NoDup (l :: ls) -> (length (l :: ls) <= n)%nat ->
  run th (txn_close_all n (Some l)) w = Done tt (set_heap (forget (l :: ls) (w_heap w)) w).
Proof.
  revert l ls. induction n as [|n IH]; intros l ls Hst Hnd Hn; [cbn in Hn; lia|].
  destruct Hst as (_ & o & El & Ho). apply list.NoDup_cons in Hnd as [Hl Hnd]. cbn [txn_close_all].
  rewrite run_bind, run_load, (do_load_peek _ _ _ _ El). cbn [txn_outer]. rewrite run_bind.
  set (w1 := set_heap (forget ls (w_heap w)) w).
  assert (run th (match o with Some _ => txn_close_all n o | None => Ret tt end) w = Done tt w1) as ->.
  { destruct ls as [|l' ls]; [cbn in Ho; subst o; rewrite run_ret; unfold w1; by destruct w|].
    assert (o = Some l') as -> by apply Ho. apply IH; [exact Ho|done|cbn in *; lia]. }
  assert (peek logdb_txn_t (w_heap w1) l = Some (mk_txn o None)) as El1.
  { unfold peek, w1. cbn [w_heap set_heap]. rewrite lookup_forget, decide_False by done. exact El. }
  rewrite run_bind, run_load, (do_load_peek _ _ _ _ El1). cbn [txn_buf]. rewrite run_bind, run_ret, run_free.
  by rewrite do_free_run by exact (peek_is_Some _ _ _ _ El1).
Qed.

(** The world without the transactions. *)
Definition unstacked (ls : list loc) (w : world) : world :=
  set_tls (<[(th, d_key D) := None]> (w_tls w)) (set_heap (forget ls (w_heap w)) w).

Lemma forget_fresh ls w : heap_fresh w -> heap_fresh (set_heap (forget ls (w_heap w)) w).
Proof. intros Hf x Hx. cbn in *. rewrite lookup_forget. case_decide; [done|]. by apply Hf. Qed.

Lemma unstacked_stacked secs ls w : stacked secs ls w -> stacked secs [] (unstacked ls w).
Proof.
  intros Hs. destruct (stacked_db _ _ _ Hs) as (bs & Hdb). constructor.
  - assert (set_next (w_next w) (set_heap (forget ls (w_heap w)) w) = set_heap (forget ls (w_heap w)) w) as Ew by by destruct w.
    apply (session_tls path c D secs (set_heap (forget ls (w_heap w)) w) th None). rewrite <- Ew. apply session_user; [apply Hs| |].
    + intros x y Ex Hy. rewrite lookup_forget, decide_False; [done|]. intros Hx.
      destruct (stacked_peek _ _ _ _ Hs Hx) as [t Et]. rewrite Et in Ex. by injection Ex as <-.
    + rewrite Ew. apply forget_fresh, Hdb.
  - cbn. unfold current_txn, unstacked. cbn. by rewrite lookup_insert_eq.
  - constructor.
  - split; [apply Hs|constructor].
  - intros x Hx. cbn. rewrite lookup_forget, decide_False; [by apply (sk_below _ _ _ Hs)|].
    intros Hin. destruct (sk_base _ _ _ Hs) as [_ Hb]. pose proof (proj1 (list.Forall_forall _ _) Hb x Hin) as Hlt. cbn in Hlt. lia.
Qed.

Lemma close_drops secs ls w :
  stacked secs ls w ->
  run th (logdb_close (Some c)) w = run th (close_tail c D)
    (set_tls (filter (fun kv => kv.1.2 <> d_key D) (w_tls w)) (set_heap (<[c := CConn (locked_conn D)]> (forget ls (w_heap w))) w)).
Proof.
  intros Hs. destruct (stacked_db _ _ _ Hs) as (bs & Hdb). pose proof (ds_conn _ _ _ _ _ _ _ Hdb) as Ec.
  assert (c ∉ ls) as Hcl.
  { intros Hx. destruct (stacked_peek _ _ _ _ Hs Hx) as [t Et]. unfold peek in Ec. by rewrite Et in Ec. }
  apply (close_prefix_run th c D (sizes secs) bs); [done|exact (peek_insert logdb_connection_t _ _ _)|].
  set (w1 := set_heap (<[c := CConn (locked_conn D)]> (w_heap w)) w).
  set (w2 := set_heap (<[c := CConn (locked_conn D)]> (forget ls (w_heap w))) w).
  assert (run th (logdb_txn_destruct (current_txn th D w)) w1 = Done tt w2) as E; [|exact E].
  { pose proof (sk_stack _ _ _ Hs) as Hst. destruct ls as [|l ls]; [by rewrite Hst|].
    assert (current_txn th D w = Some l) as -> by apply Hst. assert (txn_stack (w_heap w1) (Some l) (l :: ls)) as Hst1.
    { eapply txn_stack_frame; [|split; [done|apply Hst]]. intros x Hx. apply lookup_insert_ne. by intros ->. }
    unfold logdb_txn_destruct, logdb_txn_close. rewrite run_bind, run_heap_size.
    rewrite (txn_close_all_run _ _ ls); [|done|apply Hs|].
    - unfold w2, w1. f_equal. unfold set_heap. cbn [w_heap w_os w_next w_tls w_next_key w_disposed w_oracle]. f_equal.
      apply map_eq. intros x. rewrite lookup_forget. destruct (decide (c = x)) as [<-|Hne].
      + by rewrite decide_False, !lookup_insert_eq by done.
      + by rewrite !lookup_insert_ne, lookup_forget by done.
    - apply Nat.le_le_succ_r, NoDup_heap_size; [apply Hs|]. intros x Hx.
      destruct (txn_stack_in _ _ _ _ Hst1 Hx) as [t Et]. exact (peek_is_Some _ _ _ _ Et). }
Qed.

Lemma close_unstacked secs ls w :
  stacked secs ls w -> run th (logdb_close (Some c)) w = run th (logdb_close (Some c)) (unstacked ls w).
Proof.
  intros Hs. rewrite (close_drops _ _ _ Hs), (close_drops _ _ _ (unstacked_stacked _ _ _ Hs)). f_equal.
  unfold unstacked, set_tls, set_heap. cbn [w_heap w_os w_next w_tls w_next_key w_disposed w_oracle forget foldr]. f_equal.
  apply map_eq. intros [t k]. rewrite !map_lookup_filter. destruct (decide ((th, d_key D) = (t, k))) as [[= -> <-]|Hne].
  - rewrite lookup_insert_eq. cbn [mbind option_bind].
    destruct (w_tls w !! (t, d_key D)); cbn [mbind option_bind]; by rewrite !option_guard_False by (cbn; tauto).
  - by rewrite lookup_insert_ne.
Qed.

End stack.

(** ** Properties *)

(** C22. Any sequence of [logdb_begin], [logdb_commit] and [logdb_rollback],
    however deep the transactions nest, followed by [logdb_close] in the middle
    of them, terminates: each call returns what the abstract stack returns (-1
    for a commit or rollback outside a transaction), [logdb_close] drops the
    transactions that are left and closes the database with its records as
    they were, and no block of the caller's memory is touched. *)
Theorem nested_transactions `{Build} th path c D secs ops w :
  session path c D secs w -> current_txn th D w = None -> zlen secs < 65536 ->
  exists w', run th (let! rs := run_txn_ops (Some c) ops in
                     let! r := logdb_close (Some c) in Ret (rs, r)) w = Done (fst (spec_ops 0 ops), 0) w' /\
    closed_db path (d_dbino D) (trim secs) w' /\ user_kept (w_heap w) (w_heap w').
Proof.
  intros Hs Hcur Hlen.
  assert (stacked th path c D (w_heap w) (w_next w) secs [] w) as Hst by (constructor; try done; constructor).
  destruct (stacked_ops _ _ _ _ _ _ _ _ _ ops Hst) as (ls & w1 & E1 & Hst1 & _).
  pose proof (unstacked_stacked _ _ _ _ _ _ _ _ _ Hst1) as Hst2.
  destruct (close_session th path c D secs (unstacked th D ls w1)) as (w' & E & Hc & Hk); [apply Hst2|apply Hst2|done|].
  exists w'. rewrite run_bind, E1, run_bind, (close_unstacked _ _ _ _ _ _ _ _ _ Hst1), E, run_ret.
  split_and!; [done..|]. intros x y Ex Hy. apply Hk; [|done]. rewrite (sk_below _ _ _ _ _ _ _ _ _ Hst2); [done|].
  apply Z.nle_gt. intros Hge. by rewrite (wo_heap _ (se_world _ _ _ _ _ Hs)) in Ex.
Qed.

(** ** Witnesses *)

#[local] Existing Instance debug_build.

Lemma nested_transactions_witness :
  let w := put_sample [x61] [x62; x63] 0 header_bytes [0] in
  exists w', run main_thread (let! rs := run_txn_ops (Some 2) [Begin; Begin; Commit; Rollback; Rollback; Begin; Begin] in
                     let! r := logdb_close (Some 2) in Ret (rs, r)) w = Done ([0; 0; 0; 0; -1; 0; 0], 0) w' /\
    closed_db "t.db" 1 [] w' /\ user_kept (w_heap w) (w_heap w').
Proof.
  apply (nested_transactions main_thread "t.db" 2 (open_desc 0) [[]]
    [Begin; Begin; Commit; Rollback; Rollback; Begin; Begin]); [apply put_sample_session|done..].
Defined.
