(* ===== verification/CLib.v ===== *)
(** * What the programs around the library use of libc

    String literals, [strlen], [strncmp], reading an [int], and the two
    conversions of [printf] that the tools use.  A C string is the bytes of a
    block up to its first NUL; reading beyond the block is undefined. *)

From S2P Require Import Prelude Machine World Posix Layout.
From Stdlib Require String.

(** The bytes of a string literal. *)
Definition c_string (s : string) : list byte := String.list_byte_of_string s ++ [x00].

(** The characters before the NUL, or [None] when there is none. *)
Fixpoint c_chars (bs : list byte) : option (list byte) :=
  match bs with
  | [] => None
  | b :: bs => if decide (b = x00) then Some [] else cons b <$> c_chars bs
  end.

(** Are the first [n] characters equal?  [None] when a block ends first. *)
Fixpoint c_strneq (n : nat) (a b : list byte) : option bool :=
  match n with
  | O => Some true
  | S n =>
      match a, b with
      | x :: a, y :: b =>
          if decide (x = y) then if decide (x = x00) then Some true else c_strneq n a b else Some false
      | _, _ => None
      end
  end.

(** The block at [p]. *)
Definition with_block {X} (p : ptr) (g : list byte -> option X) : prog X :=
  prim (fun _ w => with_cell (T:=list byte) p w (fun _ bs =>
    match g bs with Some x => Done x w | None => Undef UbBounds end)).

Lemma with_block_run {X} th w l bs (g : list byte -> option X) x :
  peek (list byte) (w_heap w) l = Some bs -> g bs = Some x -> run th (with_block (Some l) g) w = Done x w.
Proof. intros E Hg. unfold with_block, with_cell. by rewrite run_prim, E, Hg. Qed.

(** The address of a literal, in static memory. *)
Definition literal (s : string) : prog ptr :=
  prim (fun _ w => Done (Some (w_next w))
    (set_next (w_next w + 1) (set_heap (<[w_next w := CBytes (c_string s)]> (w_heap w)) w))).

(** [!strncmp (p, s, n)] *)
Definition strncmp_zero (p : ptr) (s : string) (n : nat) : prog bool :=
  with_block p (fun bs => c_strneq n bs (c_string s)).

Definition strlen (p : ptr) : prog Z := with_block p (fun bs => (fun cs => zlen cs) <$> c_chars bs).

(** [*(const int* )p] *)
Definition load_int (p : ptr) : prog Z :=
  with_block p (fun bs => if (4 <=? length bs)%nat then Some (s32 (le_val (take 4 bs))) else None).

Definition setenv (name value : string) : prog Z :=
  prim (fun _ w => Done 0 (set_os (set_os_env (<[name := value]> (os_env (w_os w))) (w_os w)) w)).
Definition unsetenv (name : string) : prog Z :=
  prim (fun _ w => Done 0 (set_os (set_os_env (delete name (os_env (w_os w))) (w_os w)) w)).

(** ** Output *)

(** What a tool prints: the output of its [printf] calls. *)
Abbreviation output := (list (list byte)).

Definition text (s : string) : list byte := String.list_byte_of_string s.
Definition nl : list byte := [x0a].

(** [basename] of libgen, on the characters of a path. *)
Fixpoint strip_slashes (rev_path : list byte) : list byte :=
  match rev_path with
  | b :: r => if decide (b = x2f) then strip_slashes r else rev_path
  | [] => []
  end.
Fixpoint upto_slash (rev_path : list byte) : list byte :=
  match rev_path with
  | b :: r => if decide (b = x2f) then [] else b :: upto_slash r
  | [] => []
  end.
Definition basename (path : option (list byte)) : list byte :=
  match path with
  | None | Some [] => [x2e]
  | Some p =>
      match strip_slashes (rev p) with
      | [] => [x2f]
      | r => rev (upto_slash r)
      end
  end.

Example basename_path : basename (Some (text "/usr/bin/dump")) = text "dump". Proof. done. Qed.
Example basename_slash : basename (Some (text "bin/dump//")) = text "dump". Proof. done. Qed.
Example basename_root : basename (Some (text "//")) = text "/". Proof. done. Qed.

(** ** Decimal numbers *)

(** The digit [d] as a character. *)
Definition digit (d : Z) : byte := default x00 (Byte.of_N (Z.to_N (48 + d))).

(** The decimal digits of [n], most significant first; [fuel] digits at most. *)
Fixpoint digits (fuel : nat) (n : Z) : list byte :=
  match fuel with
  | O => []
  | S fuel => (if n <? 10 then [] else digits fuel (n / 10)) ++ [digit (n mod 10)]
  end.

(** An [int] has at most ten. *)
Definition printf_d (n : Z) : list byte :=
  if n <? 0 then x2d :: digits 10 (- n) else digits 10 n.

(** [%04d]: padded with zeros, behind the sign, to four characters. *)
Definition printf_04d (n : Z) : list byte :=
  let ds := digits 10 (Z.abs n) in
  let width := if n <? 0 then 3%nat else 4%nat in
  (if n <? 0 then [x2d] else []) ++ replicate (width - length ds) x30 ++ ds.

(** The value of a string of digits. *)
Definition digits_val (ds : list byte) : Z :=
  foldl (fun n d => n * 10 + (Z.of_N (Byte.to_N d) - 48)) 0 ds.

Lemma digits_val_snoc ds d : digits_val (ds ++ [d]) = digits_val ds * 10 + (Z.of_N (Byte.to_N d) - 48).
Proof. unfold digits_val. by rewrite foldl_app. Qed.

Lemma digit_val d : 0 <= d < 10 -> Z.of_N (Byte.to_N (digit d)) - 48 = d.
Proof.
  intros Hd. assert (d = 0 \/ d = 1 \/ d = 2 \/ d = 3 \/ d = 4 \/ d = 5 \/ d = 6 \/ d = 7 \/ d = 8 \/ d = 9) as Hc by lia.
  by repeat destruct Hc as [-> | Hc]; [..|subst d].
Qed.

Lemma digits_val_digits fuel n : 0 <= n < 10 ^ Z.of_nat fuel -> digits_val (digits fuel n) = n.
Proof.
  revert n. induction fuel as [|fuel IH]; intros n Hn; [simpl in *; unfold digits_val; simpl; lia|].
  cbn [digits]. rewrite digits_val_snoc, digit_val by (apply Z.mod_pos_bound; lia).
  rewrite Nat2Z.inj_succ, Z.pow_succ_r in Hn by lia. destruct (Z.ltb_spec n 10).
  - rewrite Z.mod_small by lia. unfold digits_val. simpl. lia.
  - rewrite IH; [pose proof (Z.div_mod n 10); lia|]. split; [apply Z.div_pos; lia|apply Z.div_lt_upper_bound; lia].
Qed.

(** What [%d] and [%04d] print determines the number. *)
Lemma digits_val_zeros k ds : digits_val (replicate k x30 ++ ds) = digits_val ds.
Proof. induction k as [|k IH]; [done|]. exact IH. Qed.

Lemma length_digits fuel n k : 0 <= n < 10 ^ Z.of_nat (S k) -> (length (digits fuel n) <= S k)%nat.
Proof.
  revert n k. induction fuel as [|fuel IH]; intros n k Hn; cbn [digits]; [simpl; lia|]. rewrite length_app. simpl.
  destruct (Z.ltb_spec n 10); [simpl; lia|]. destruct k as [|k]; [simpl in Hn; lia|].
  assert (length (digits fuel (n / 10)) <= S k)%nat; [|lia]. apply IH.
  rewrite (Nat2Z.inj_succ (S k)), (Z.pow_succ_r 10 (Z.of_nat (S k))) in Hn by lia. destruct Hn as [Hn0 Hn].
  split; [apply Z.div_pos; lia|]. apply Z.div_lt_upper_bound; [lia|exact Hn].
Qed.

(** Strings hold no NUL. *)
Abbreviation no_nul := (Forall (fun b : byte => b <> x00)).

Lemma digits_no_nul fuel n : 0 <= n -> no_nul (digits fuel n).
Proof.
  revert n. induction fuel as [|fuel IH]; intros n Hn; cbn [digits]; [constructor|]. apply Forall_app. split.
  - case_match; [constructor|]. apply IH, Z.div_pos; lia.
  - apply Forall_singleton. pose proof (Z.mod_pos_bound n 10 ltac:(lia)) as Hm. pose proof (digit_val _ Hm) as Hd. intros E.
    assert (Z.of_N (Byte.to_N x00) = 0) as E0 by done. rewrite E, E0 in Hd. lia.
Qed.

Lemma c_chars_no_nul bs cs : c_chars bs = Some cs -> no_nul cs.
Proof.
  revert cs. induction bs as [|b bs IH]; intros cs; simpl; [done|]. case_decide; [by intros [= <-]|].
  destruct (c_chars bs) as [r|]; [|done]. intros [= <-]. constructor; [done|by apply IH].
Qed.

Lemma c_chars_snoc cs : no_nul cs -> c_chars (cs ++ [x00]) = Some cs.
Proof.
  induction 1 as [|b cs Hb _ IH]; [done|]. cbn [c_chars app]. rewrite decide_False by done. by rewrite IH.
Qed.

Example printf_04d_7 : printf_04d 7 = String.list_byte_of_string "0007". Proof. done. Qed.
Example printf_04d_m7 : printf_04d (-7) = String.list_byte_of_string "-007". Proof. done. Qed.
Example printf_04d_12345 : printf_04d 12345 = String.list_byte_of_string "12345". Proof. done. Qed.
