(* ===== verification/Tests.v ===== *)
(** * The library's own tests: src/tests

    The test cases of testcases.def as programs on the model, and their
    driver.  That they pass in a fresh process validates the definitions: it
    runs most of them, buffers, opening, recovery, merging, transactions and
    iterators, on a concrete machine. *)

From S2P Require Import Prelude Machine World Posix Io Layout Log LogLock Buffer.
From S2P Require Import Lease Txn Iter Connection CLib.

(** [ASSERT]: the [n]-th assertion of the file returns [n] when it fails. *)
Definition ASSERT (n : Z) (cond : bool) (rest : prog Z) : prog Z := if cond then rest else Ret n.

Notation "'assert!' n 'that' b 'in' q" := (ASSERT n b q)
  (at level 10, n at level 9, b at level 100, q at level 200,
   format "'[v' 'assert!'  n  'that'  b  'in' '/' q ']'") : prog_scope.

Definition not_null (p : ptr) : bool := bool_decide (p <> None).

Section tests.
Context `{Build}.

(** The first [n] characters of a literal, as [logdb_buffer_new_copy] gets them. *)
Definition chars (s : string) (n : nat) : list byte := take n (c_string s).

Definition Buffers : prog Z :=
  let! buf1 := logdb_buffer_new_copy (Some (chars "foo" 3)) in
  assert! 1 that not_null buf1 in
  let! buf2 := logdb_buffer_new_copy (Some (chars "bar" 3)) in
  assert! 2 that not_null buf2 in
  let! baz := literal "baz" in
  let! buf3 := logdb_buffer_new_direct baz 3 None in
  assert! 3 that not_null buf3 in
  let! r := logdb_buffer_append buf1 buf2 in
  assert! 4 that not_null r in
  let! n := logdb_buffer_length buf1 in
  assert! 5 that 6 =? n in
  let! n := logdb_buffer_length buf2 in
  assert! 6 that 3 =? n in
  let! data := logdb_buffer_data buf1 in
  assert! 7 that not_null data in
  let! eq := strncmp_zero data "foobar" 6 in
  assert! 8 that eq in
  let! r := logdb_buffer_append buf1 buf3 in
  assert! 9 that not_null r in
  let! n := logdb_buffer_length buf1 in
  assert! 10 that 9 =? n in
  let! n := logdb_buffer_length buf2 in
  assert! 11 that 3 =? n in
  let! n := logdb_buffer_length buf3 in
  assert! 12 that 3 =? n in
  let! data := logdb_buffer_data buf1 in
  assert! 13 that not_null data in
  let! eq := strncmp_zero data "foobarbaz" 9 in
  assert! 14 that eq in
  do! logdb_buffer_free buf1 in
  do! logdb_buffer_free buf2 in
  do! logdb_buffer_free buf3 in
  Ret 0.

Definition OpenCloseConnection : prog Z :=
  let! conn := logdb_open (Some "temp.logdb") LOGDB_OPEN_EXISTING in
  if not_null conn then
    do! logdb_close conn in
    Ret 15
  else
    let! conn := logdb_open (Some "temp.logdb") LOGDB_OPEN_CREATE in
    assert! 16 that not_null conn in
    let! r := logdb_close conn in
    assert! 17 that r =? 0 in
    let! conn := logdb_open (Some "temp.logdb") LOGDB_OPEN_EXISTING in
    assert! 18 that not_null conn in
    let! r := logdb_close conn in
    assert! 19 that r =? 0 in
    do! sys_unlink "temp.logdb" in
    Ret 0.

Definition TransactionBeginRollback : prog Z :=
  let! conn := logdb_open (Some "temp.logdb") LOGDB_OPEN_CREATE in
  assert! 20 that not_null conn in
  let! r := logdb_rollback conn in
  assert! 21 that negb (r =? 0) in
  let! r := logdb_begin conn in
  assert! 22 that r =? 0 in
  let! r := logdb_rollback conn in
  assert! 23 that r =? 0 in
  let! r := logdb_rollback conn in
  assert! 24 that negb (r =? 0) in
  let! r := logdb_close conn in
  assert! 25 that r =? 0 in
  do! sys_unlink "temp.logdb" in
  Ret 0.

(** Two of the assertions of [Put1], and its puts, come in this shape. *)
Definition new_literal (s : string) (len : Z) : prog ptr :=
  let! p := literal s in
  logdb_buffer_new_direct p len None.

Definition Put1 : prog Z :=
  let! conn := logdb_open (Some "temp.logdb") LOGDB_OPEN_CREATE in
  assert! 26 that not_null conn in
  let! key := new_literal "foo" 3 in
  assert! 27 that not_null key in
  let! val := new_literal "bar!" 4 in
  assert! 28 that not_null val in
  let! n := logdb_buffer_length key in
  assert! 29 that 3 =? n in
  let! n := logdb_buffer_length val in
  assert! 30 that 4 =? n in
  let! r := logdb_put conn key val in
  assert! 31 that r =? 0 in
  do! logdb_buffer_free key in
  do! logdb_buffer_free val in
  let! key := new_literal "hello" 5 in
  assert! 32 that not_null key in
  let! val := new_literal "world!" 6 in
  assert! 33 that not_null val in
  let! n := logdb_buffer_length key in
  assert! 34 that 5 =? n in
  let! n := logdb_buffer_length val in
  assert! 35 that 6 =? n in
  let! r := logdb_put conn key val in
  assert! 36 that r =? 0 in
  do! logdb_buffer_free key in
  do! logdb_buffer_free val in
  let! iter := logdb_iter_all conn in
  assert! 37 that not_null iter in
  let! r := logdb_iter_next iter in
  assert! 38 that negb (r =? 0) in
  let! r := logdb_iter_next iter in
  assert! 39 that negb (r =? 0) in
  let! key := logdb_iter_current_key iter in
  assert! 40 that not_null key in
  let! val := logdb_iter_current_value iter in
  assert! 41 that not_null val in
  let! n := logdb_buffer_length key in
  assert! 42 that 5 =? n in
  let! n := logdb_buffer_length val in
  assert! 43 that 6 =? n in
  let! data := logdb_buffer_data key in
  assert! 44 that not_null data in
  let! eq := strncmp_zero data "hello" 5 in
  assert! 45 that eq in
  let! data := logdb_buffer_data val in
  assert! 46 that not_null data in
  let! eq := strncmp_zero data "world!" 6 in
  assert! 47 that eq in
  let! r := logdb_iter_next iter in
  assert! 48 that r =? 0 in
  do! logdb_iter_free iter in
  let! r := logdb_close conn in
  assert! 49 that r =? 0 in
  do! sys_unlink "temp.logdb" in
  Ret 0.

Definition LogRecovery : prog Z :=
  let! conn := logdb_open (Some "temp.logdb") LOGDB_OPEN_CREATE in
  assert! 50 that not_null conn in
  let! key := new_literal "foo" 3 in
  assert! 51 that not_null key in
  let! val := new_literal "bar!" 4 in
  assert! 52 that not_null val in
  let! r := logdb_put conn key val in
  assert! 53 that r =? 0 in
  do! logdb_buffer_free key in
  do! logdb_buffer_free val in
  let! r := logdb_close conn in
  assert! 54 that r =? 0 in
  let! r := setenv "LOGDB_TEST_LOG_CREATE_RETURN_EARLY" "1" in
  assert! 55 that r =? 0 in
  let! conn := logdb_open (Some "temp.logdb") LOGDB_OPEN_EXISTING in
  assert! 56 that negb (not_null conn) in
  let! r := unsetenv "LOGDB_TEST_LOG_CREATE_RETURN_EARLY" in
  assert! 57 that r =? 0 in
  let! conn := logdb_open (Some "temp.logdb") LOGDB_OPEN_EXISTING in
  assert! 58 that not_null conn in
  let! iter := logdb_iter_all conn in
  assert! 59 that not_null iter in
  let! r := logdb_iter_next iter in
  assert! 60 that negb (r =? 0) in
  let! key := logdb_iter_current_key iter in
  assert! 61 that not_null key in
  let! val := logdb_iter_current_value iter in
  assert! 62 that not_null val in
  let! n := logdb_buffer_length key in
  assert! 63 that 3 =? n in
  let! n := logdb_buffer_length val in
  assert! 64 that 4 =? n in
  let! data := logdb_buffer_data key in
  assert! 65 that not_null data in
  let! eq := strncmp_zero data "foo" 3 in
  assert! 66 that eq in
  let! data := logdb_buffer_data val in
  assert! 67 that not_null data in
  let! eq := strncmp_zero data "bar!" 4 in
  assert! 68 that eq in
  let! r := logdb_iter_next iter in
  assert! 69 that r =? 0 in
  do! logdb_iter_free iter in
  let! r := logdb_close conn in
  assert! 70 that r =? 0 in
  do! sys_unlink "temp.logdb" in
  Ret 0.

(** [main] of src/tests/main.c: all tests, in order, in one process. *)
Definition tests_main : prog Z :=
  let! r1 := Buffers in
  let! r2 := OpenCloseConnection in
  let! r3 := TransactionBeginRollback in
  let! r4 := Put1 in
  let! r5 := LogRecovery in
  Ret (Z.lor (Z.lor (Z.lor (Z.lor (Z.lor 0 r1) r2) r3) r4) r5).

End tests.

Definition release_build : Build := mk_build false 4.

(** What an execution leaves in the operating system: files, open descriptors
    and locks. *)
Definition os_left (os : os_state) : list string * nat * nat * nat :=
  (fst <$> map_to_list (os_dir os), size (os_fds os), length (os_flock os), length (os_fcntl os)).

Definition test_result (o : outcome Z) : option (Z * (list string * nat * nat * nat)) :=
  match o with Done r w => Some (r, os_left (w_os w)) | _ => None end.

(** ** Properties *)

