(* ===== verification/Dump.v ===== *)
(** * The dump tool: src/stress/dump.c

    A command-line program that prints the records of a database.  What it
    prints is the list of its [printf] calls' output. *)

From S2P Require Import Prelude Machine World Posix Io Layout Log LogSpec Buffer.
From S2P Require Import BufferSpec LogLock LockSpec DbState Lease LeaseSpec Txn TxnSpec Iter.
From S2P Require Import IterSpec Database Connection ConnSpec CLib.
From Stdlib Require String.

Section dump.
Context `{Build}.

Definition dump_usage (argv : list string) : output :=
  [text "Usage: " ++ basename (text <$> head argv) ++ text " [file]" ++ nl ++ nl ++ text "Where:" ++ nl ++ nl;
   x09 :: text "[file]" ++ [x09; x09] ++ text "The name of the db file to dump" ++ nl].

(** [printf("%s: %04d\n", k, *v)] *)
Definition dump_line (k : list byte) (v : Z) : list byte := k ++ text ": " ++ printf_04d v ++ nl.

(** The [while] loop: an early return of [main], or what was printed. *)
Fixpoint dump_loop (fuel : nat) (iter : ptr) (out : output) : prog (option Z * output) :=
  match fuel with
  | O => no_fuel
  | S fuel' =>
      let! more := logdb_iter_next iter in
      if more =? 0 then Ret (None, out) else
      let! key := logdb_iter_current_key iter in
      let! val := logdb_iter_current_value iter in
      match key, val with
      | Some _, Some _ =>
          let! k := logdb_buffer_data key in
          let! v := logdb_buffer_data val in
          match k, v with
          | Some _, Some _ =>
              let! ks := with_block k c_chars in
              let! n := load_int v in
              dump_loop fuel' iter (out ++ [dump_line ks n])
          | _, _ => Ret (Some 10, out ++ [text "logdb_buffer_data failed" ++ nl])
          end
      | _, _ => Ret (Some 9, out ++ [text "logdb_iter_current_key or logdb_iter_current_value failed" ++ nl])
      end
  end.

(** [main]: the exit status and what was printed; [fuel] bounds the loop. *)
Definition dump_main (fuel : nat) (argv : list string) : prog (Z * output) :=
  match argv with
  | [_; file] =>
      let! conn := logdb_open (Some file) LOGDB_OPEN_EXISTING in
      match conn with
      | None => Ret (2, [text "logdb_open failed" ++ nl])
      | Some _ =>
          let! iter := logdb_iter_all conn in
          match iter with
          | None => Ret (8, [text "logdb_iter_all failed" ++ nl])
          | Some _ =>
              let! (early, out) := dump_loop fuel iter [] in
              match early with
              | Some code => Ret (code, out)
              | None =>
                  do! logdb_iter_free iter in
                  let! r := logdb_close conn in
                  Ret (r, out)
              end
          end
      end
  | _ => Ret (1, dump_usage argv)
  end.

(** ** Facts *)

(** A record the tool can print: a key with a NUL in it, a value that holds an
    [int]; and the line it prints. *)
Definition printable (kv : record) : Prop := is_Some (c_chars kv.1) /\ (4 <= length kv.2)%nat.
Definition record_line (kv : record) : list byte :=
  dump_line (default [] (c_chars kv.1)) (s32 (le_val (take 4 kv.2))).

Lemma printable_nonempty kv : printable kv -> nonempty_record kv.
Proof. destruct kv as [k v]. intros [[cs Ek] Hv]. cbn [fst snd] in *. split; intros E; cbn [fst snd] in E; subst; simpl in *; [done|lia]. Qed.

Lemma slot_data_run th w s : slot_ok (w_heap w) s -> run th (logdb_buffer_data (Some (sl_buf s))) w = Done (Some (sl_data s)) w.
Proof.
  intros [Hb Hd]. unfold logdb_buffer_data. rewrite run_bind, run_heap_size. cbn [buffer_data_loop].
  by rewrite run_bind, run_load, (do_load_peek _ _ _ _ Hb).
Qed.

Lemma dump_loop_run th c D es bs secs r0 fuel r it i ss w0 w rest out :
  iter_state c D es bs r it i ss w0 w -> reading c bs secs r0 i ss r rest -> holds es bs secs ->
  Forall printable rest -> (length rest < fuel)%nat ->
  exists w' i' ss', run th (dump_loop fuel (Some it) out) w = Done (None, out ++ (record_line <$> rest)) w' /\
    iter_state c D es bs r0 it i' ss' w0 w' /\ iter_connection i' = Some c /\ slots_of i' ss' /\ lease_connection (iter_lease i') = None.
Proof.
  revert r i ss w rest out. induction fuel as [|fuel IH]; intros r i ss w rest out Hs Hr Hh Hp Hf; [lia|].
  cbn [dump_loop]. destruct rest as [|[k v] rest].
  - destruct (read_end_run th c D es bs secs r0 r it i ss w0 w Hs Hr Hh) as (w1 & i1 & E1 & ?). rewrite run_bind, E1.
    exists w1, i1, ss. by rewrite app_nil_r.
  - apply Forall_cons_iff in Hp as [Hkv Hp]. pose proof (printable_nonempty _ Hkv) as Hne.
    destruct (read_record_run th c D es bs secs r0 r it i ss w0 w k v rest Hs Hr Hh Hne)
      as (w1 & w2 & w3 & sk & sv & i' & r' & E1 & E2 & E3 & (Hsk & Hok1 & _) & (Hsv & Hok2 & _) & H3 & Hr3).
    rewrite run_bind, E1. change (1 =? 0) with false. cbn iota. rewrite run_bind, E2, run_bind, E3.
    rewrite run_bind, (slot_data_run _ _ _ Hok1), run_bind, (slot_data_run _ _ _ Hok2).
    destruct Hkv as [[cs Ek] Hv]. cbn [fst snd] in Ek, Hv. rewrite <- Hsk in Ek.
    rewrite run_bind, (with_block_run _ _ _ _ _ cs (proj2 Hok1) Ek).
    unfold load_int. rewrite run_bind, (with_block_run _ _ _ _ _ (s32 (le_val (take 4 v))) (proj2 Hok2)).
    2: { rewrite Hsv. by rewrite (proj2 (Nat.leb_le _ _)) by lia. }
    destruct (IH r' i' [sk; sv] w3 rest (out ++ [dump_line cs (s32 (le_val (take 4 v)))]) H3 Hr3 Hh Hp) as (w4 & i4 & ss4 & E4 & ?);
      [simpl in Hf; lia|].
    exists w4, i4, ss4. rewrite E4, <- app_assoc. split; [|done]. do 2 f_equal. unfold record_line. cbn [fst snd fmap list_fmap].
    rewrite <- Hsk, Ek. done.
Qed.

End dump.

(** ** Properties *)

(** C20. On a database no process has open the tool prints one line for each
    record, in the order of the sections and of the records in them, exits with
    0 and leaves the database as it was, but for empty sections at its end. *)
Theorem dump_prints_records `{Build} th path ino secs argv0 w :
  closed_db path ino secs w -> Forall printable (spec_all secs) ->
  exists w', run th (dump_main (S (length (spec_all secs))) [argv0; path]) w =
      Done (0, record_line <$> spec_all secs) w' /\
    closed_db path ino (trim secs) w' /\ user_kept (w_heap w) (w_heap w').
Proof.
  intros Hc Hp. unfold dump_main. destruct (open_run th path LOGDB_OPEN_EXISTING _ _ w Hc) as (c & D & w1 & E1 & Hop).
  rewrite run_bind, E1. pose proof (op_session _ _ _ _ _ _ _ _ _ Hop) as Hs1.
  destruct (se_db _ _ _ _ _ Hs1) as [(bs & Hdb1 & Hh)].
  destruct (iter_all_run th c D _ bs 0 w1 Hdb1) as (w2 & it & E2 & H2). rewrite run_bind, E2.
  destruct (dump_loop_run th c D _ bs secs 0 (S (length (spec_all secs))) 0 it _ [] w1 w2 (spec_all secs) [] H2)
    as (w3 & i & ss & E3 & H3 & Hci & Hss & Hl); [by constructor|done|done|lia|].
  rewrite run_bind, E3. cbn iota beta.
  destruct (iter_free_run th c D _ bs 0 0 it i ss w1 w3 0 H3 Hci Hss) as (w4 & E4 & Hdb4 & Hr4); [by left|].
  rewrite run_bind, E4. pose proof (read_put_rest th c D _ _ bs 0 w1 w4 Hdb1 Hdb4 Hr4) as Hp4.
  assert (session path c D secs w4) as Hs4.
  { eapply session_frame; [done| |done]. constructor. by exists bs. }
  destruct (close_session th path c D secs w4 Hs4) as (w5 & E5 & H5 & K5).
  { eapply put_rest_none; [done|apply Hop]. }
  { apply Hc. }
  rewrite run_bind, E5, run_ret. exists w5. split_and!; [done|by rewrite <- (op_ino _ _ _ _ _ _ _ _ _ Hop)|].
  etransitivity; [eapply opened_kept; [done|apply Hc]|].
  etransitivity; [exact (user_equiv_kept _ _ (sr_heap _ _ _ Hr4))|done].
Qed.

#[local] Existing Instance debug_build.

Lemma dump_prints_records_witness :
  let secs := [[(c_string "a", bytes_u32 7); (c_string "b", bytes_u32 12345)]] in
  let w := closed_world secs (header_bytes ++ records_bytes (concat secs)) in
  exists w', run main_thread (dump_main 3 ["dump"; "t.db"]) w =
      Done (0, [text "a: 0007" ++ nl; text "b: 12345" ++ nl]) w' /\
    closed_db "t.db" 1 secs w' /\ user_kept (w_heap w) (w_heap w').
Proof.
  apply (dump_prints_records main_thread "t.db" 1 [[(c_string "a", bytes_u32 7); (c_string "b", bytes_u32 12345)]] "dump").
  - apply closed_world_ok; [|by repeat constructor|done..]. constructor; [done| |].
    + intros [|i] e E; [|done]. injection E as <-. by vm_compute.
    + intros [|i] rs E; [|done]. injection E as <-. by vm_compute.
  - repeat constructor; cbn; (by eexists) || lia.
Defined.
