(* ===== verification/Races.v ===== *)
(** * Several threads and processes

    Executions of [logdb_put] that interleave with another thread's, and one
    that waits for another process: what goes wrong in
    [logdb_lease_acquire_write] when the section it chose is not the one it
    gets.  A schedule lists which thread takes the next atomic step. *)

From S2P Require Import Prelude Machine World Posix Io Layout Log LogSpec Buffer.
From S2P Require Import BufferSpec LogLock LockSpec DbState Lease LeaseSpec Txn TxnSpec Iter.
From S2P Require Import IterSpec Database Connection.

(** Two threads of one process put the records (a, bc) and (bc, a). *)
Definition two_puts `{Build} : pool Z :=
  [(main_thread, logdb_put (Some 2) (Some 4) (Some 6)); (other_thread, logdb_put (Some 2) (Some 6) (Some 4))].
Definition both_done : pool Z := [(main_thread, Ret 0); (other_thread, Ret 0)].

(** The first thread takes [k] steps, then the second runs to its end, then the
    first goes on. *)
Definition preempted (k n m : nat) : list nat := replicate k 0%nat ++ replicate n 1%nat ++ replicate m 0%nat.

(** All that can be read from the database afterwards. *)
Definition read_after `{Build} (s : option (pool Z * world)) : option (list record) :=
  match s with
  | Some ([(_, Ret 0); (_, Ret 0)], w) =>
      match run main_thread (read_database 5 (Some 2)) w with Done rs _ => Some rs | _ => None end
  | _ => None
  end.

(** The locks of the process that are still taken. *)
Definition locks_after (s : option (pool Z * world)) : option (list Z * list fcntl_lock) :=
  match s with
  | Some ([(_, Ret 0); (_, Ret 0)], w) =>
      Some (map_to_list (w_heap w) ≫= (fun p => match p.2 with CLock k => filter (fun n => n <> 0) (lock_locks k) | _ => [] end),
            os_fcntl (w_os w))
  | _ => None
  end.

(** Another process holds write locks on these entries. *)
Definition foreign_locks (ixs : list Z) : list fcntl_lock :=
  (fun i => mk_fcntl_lock 2 200 true (logdb_log_offset i) (Some (logdb_log_offset i + sizeof_log_entry))) <$> ixs.
Definition foreign_world (es : list Z) (ixs : list Z) : world :=
  let w := put_sample [x61] [x62; x63] 0 header_bytes es in
  set_os (set_os_fcntl (foreign_locks ixs) (w_os w)) w.

(** Schedules as derivations of [pool_step]. *)
Lemma sched_reaches {A B} l (s : pool A * world) (g : option (pool A * world) -> option B) x :
  g None = None -> g (sched l s) = Some x -> exists s', rtc pool_step s s' /\ g (Some s') = Some x.
Proof.
  intros Hn E. destruct (sched l s) as [s'|] eqn:Es; [|congruence]. exists s'. split; [by eapply sched_sound|done].
Qed.

Lemma run_bind_done {A B} th (p : prog A) (q : A -> prog B) w a w' :
  run th p w = Done a w' -> run th (bind p q) w = run th (q a) w'.
Proof. intros E. by rewrite run_bind, E. Qed.

#[local] Existing Instance debug_build.

(** One round of the walk of [acquire_walk] that does not get its lock. *)
Definition failed_round (size visited : Z) : prog Z :=
  let! place := choose_section (Some 1) 4 size visited in
  match place with
  | Some (_, index, visited) =>
      do! logdb_log_lock (Some 1) index LOGDB_LOG_LOCK_WRITE in
      Ret visited
  | None => Ret (-1)
  end.

Definition world_after {A} (o : outcome A) (w : world) : world := match o with Done _ w' => w' | _ => w end.

(** Three sections, the last two of them locked; after one round, and after
    another. *)
Definition waiting0 : world :=
  let w := foreign_world [0; 0; 0] [1; 2] in
  world_after (run main_thread (logdb_lease_acquire_prelude no_lease (Some 2)) w) w.
Definition waiting1 : world := world_after (run main_thread (failed_round 11 0) waiting0) waiting0.
Definition waiting2 : world := world_after (run main_thread (failed_round 11 1) waiting1) waiting1.

Ltac compute_step := etransitivity; [eapply run_bind_done; vm_compute; reflexivity|].

(** The walk on [w], having visited [v], starts over on [w']. *)
Definition starts_over (v : Z) (w w' : world) : Prop := forall f n,
  run main_thread (@acquire_walk (mk_build true f) (S n) no_lease (Some 2) 11 v) w =
  run main_thread (@acquire_walk (mk_build true f) n no_lease (Some 2) 11 1) w'.

Ltac compute_round :=
  intros f n; cbn [acquire_walk]; do 3 (compute_step; cbn beta iota); compute_step; cbn [negb Z.eqb];
  refine (f_equal (run main_thread _) _); by vm_compute.

Lemma waiting_round0 : starts_over 0 waiting0 waiting1.
Proof. compute_round. Qed.

Lemma waiting_round1 : starts_over 1 waiting1 waiting2.
Proof. compute_round. Qed.

Lemma waiting_round2 : starts_over 1 waiting2 waiting2.
Proof. compute_round. Qed.

(** ** Properties *)

(** C17. Two puts at once: when the second thread commits after the first chose
    the section and before the first locked it, the first writes its record
    over the second's.  Both calls return 0 and one record is lost.  One after
    the other, the same two calls keep both. *)
Theorem put_race_loses_record :
  let start := (two_puts, put_sample [x61] [x62; x63] 0 header_bytes [0]) in
  (exists s, rtc pool_step start s /\ read_after (Some s) = Some [([x61], [x62; x63])]) /\
  (exists s, rtc pool_step start s /\ read_after (Some s) = Some [([x61], [x62; x63]); ([x62; x63], [x61])]).
Proof.
  split.
  - apply (sched_reaches (preempted 50 115 64)); [done|by vm_compute].
  - apply (sched_reaches (preempted 115 114 0)); [done|by vm_compute].
Qed.


(** C18. The walk can go on for ever: with the last two of three sections locked by
    another process it tries one of them after the other, however many rounds
    the model allows, although the first section is free; with only the last
    one locked it succeeds. *)
Theorem acquire_write_livelock :
  (forall retries, run main_thread (@logdb_lease_acquire_write (mk_build true retries) no_lease (Some 2) 11)
     (foreign_world [0; 0; 0] [1; 2]) = NoFuel) /\
  (exists w', run main_thread (logdb_lease_acquire_write no_lease (Some 2) 11) (foreign_world [0; 0; 0] [2]) =
     Done (0, mk_lease (Some 2) 1 0 11 LOGDB_LOG_LOCK_WRITE) w').
Proof.
  split; [|eexists; vm_compute; reflexivity]. intros f. unfold logdb_lease_acquire_write. change (LOGDB_SECTION_SIZE <? 11) with false.
  cbn iota. compute_step. cbn [negb Z.eqb].
  transitivity (run main_thread (@acquire_walk (mk_build true f) (S f) no_lease (Some 2) 11 0) waiting0); [refine (f_equal (run main_thread _) _); by vm_compute|].
  rewrite waiting_round0. destruct f as [|n]; [done|]. rewrite waiting_round1.
  generalize (S n) at 1 as g. intros g. induction n as [|n IH]; [done|]. rewrite waiting_round2. exact IH.
Qed.
