(* ===== verification/Types.v ===== *)
(** * The types of the program's data

    The model keeps C's integers in [Z]; here is what makes that faithful:
    every integer a program of the library stores is one its C type can hold,
    a lock chunk always has its 128 counters and the first index it was made
    for, and a block is of one struct for as long as it lives.  [typed Q p]
    says so of each step of [p], whatever the other threads, the files and the
    system calls did before, and that [p] returns a value in [Q]; a client
    that calls the library as its header allows is typed, so an interleaving
    of any number of clients keeps a well-typed memory well typed. *)

From S2P Require Import Prelude Machine World Posix Io Layout Log LogSpec Buffer.
From S2P Require Import LogLock LockSpec DbState Lease Txn TxnSpec Iter Database Connection Races.

(** ** Well-typed memory *)

Definition is_u16 (z : Z) : Prop := 0 <= z < 2 ^ 16.
Definition is_u32 (z : Z) : Prop := 0 <= z < 2 ^ 32.
Definition is_s32 (z : Z) : Prop := - 2 ^ 31 <= z < 2 ^ 31.
Definition is_s64 (z : Z) : Prop := - 2 ^ 63 <= z < 2 ^ 63.

Lemma is_u32_u32 z : is_u32 (u32 z).
Proof. apply u32_range. Qed.

Lemma is_u32_0 : is_u32 0.
Proof. done. Qed.

Lemma is_s32_s32 z : is_s32 (s32 z).
Proof. unfold is_s32, s32. pose proof (Z.mod_pos_bound (z + 2 ^ 31) (2 ^ 32)). lia. Qed.

Lemma is_s64_s64 z : is_s64 (s64 z).
Proof. unfold is_s64, s64. pose proof (Z.mod_pos_bound (z + 2 ^ 63) (2 ^ 64)). lia. Qed.

Lemma le_val_take_u32 bs : is_u32 (le_val (take 4 bs)).
Proof.
  pose proof (le_val_range (take 4 bs)) as H. unfold is_u32. split; [lia|].
  eapply Z.lt_le_trans; [apply H|]. apply (Z.pow_le_mono_r 256 _ 4); rewrite ?length_take; lia.
Qed.

(** The fields of the structs, with the types of the headers. *)
Definition lease_ok (l : logdb_lease_t) : Prop := is_u32 (lease_index l) /\ is_s64 (lease_offset l) /\ is_u32 (lease_len l).
Definition record_ok (r : logdb_data_header_t) : Prop := is_u32 (hdr_keylen r) /\ is_u32 (hdr_valuelen r).
Definition buffer_ok (b : logdb_buffer_t) : Prop := is_u32 (buf_len b) /\ is_s32 (buf_refcnt b).
Definition chunk_ok (k : logdb_log_lock_t) : Prop :=
  is_u32 (lock_startindex k) /\ length (lock_locks k) = 128%nat /\ Forall is_s32 (lock_locks k).

Definition cell_ok (c : cell) : Prop :=
  match c with
  | CBuffer b => buffer_ok b
  | CLock k => chunk_ok k
  | CConn c => is_u16 (conn_version c) /\ is_s32 (conn_flags c)
  | CIter i => lease_ok (iter_lease i) /\ record_ok (iter_record i)
  | CBytes _ | CTxn _ | CLog _ => True
  end.

#[export] Instance cell_ok_dec c : Decision (cell_ok c).
Proof. destruct c; cbn; unfold buffer_ok, chunk_ok, lease_ok, record_ok, is_u16, is_u32, is_s32, is_s64; apply _. Defined.

(** What may become of a block while it lives. *)
Definition cell_step (c c' : cell) : Prop :=
  match c, c' with
  | CBytes _, CBytes _ | CBuffer _, CBuffer _ | CTxn _, CTxn _ | CLog _, CLog _ | CConn _, CConn _ | CIter _, CIter _ => True
  | CLock k, CLock k' => lock_startindex k' = lock_startindex k
  | _, _ => False
  end.

#[export] Instance cell_step_preorder : PreOrder cell_step.
Proof.
  split; [by intros []|]. intros [] [] [] H1 H2; try done. simpl in *. congruence.
Qed.

Definition well_typed (w : world) : Prop := heap_fresh w /\ map_Forall (fun _ => cell_ok) (w_heap w).

(** A block at an address that was handed out before is the one that was
    there; the environment of the process is as it was. *)
Definition evolves (w w' : world) : Prop :=
  os_env (w_os w') = os_env (w_os w) /\ w_next w <= w_next w' /\
  forall l c', l < w_next w -> w_heap w' !! l = Some c' -> exists c, w_heap w !! l = Some c /\ cell_step c c'.

#[export] Instance evolves_preorder : PreOrder evolves.
Proof.
  split; [intros w; split_and!; [done|lia|]; intros l c _ E; by exists c|].
  intros w1 w2 w3 (Ee & Hn & H1) (Ee' & Hm & H2). split_and!; [congruence|lia|]. intros l c3 Hl E3.
  destruct (H2 l c3 ltac:(lia) E3) as (c2 & E2 & S2). destruct (H1 l c2 Hl E2) as (c1 & E1 & S1).
  exists c1. split; [done|]. by etrans.
Qed.

(** ** Typed programs *)

Definition grows (w w' : world) : Prop := well_typed w' /\ evolves w w'.

Fixpoint typed {A} (Q : A -> Prop) (p : prog A) : Prop :=
  match p with
  | Ret a => Q a
  | Step f k => forall th w x w', well_typed w -> f th w = Done x w' -> grows w w' /\ typed Q (k x)
  end.

Lemma typed_bind {A B} (P : A -> Prop) (Q : B -> Prop) (p : prog A) (q : A -> prog B) :
  typed P p -> (forall a, P a -> typed Q (q a)) -> typed Q (bind p q).
Proof.
  intros Hp Hq. induction p as [a|X f k IH]; [by apply Hq|]. intros th w x w' Hw E.
  destruct (Hp th w x w' Hw E) as [Hg Hk]. split; [done|]. by apply IH.
Qed.

Lemma typed_mono {A} (P Q : A -> Prop) (p : prog A) : (forall a, P a -> Q a) -> typed P p -> typed Q p.
Proof.
  intros HPQ. induction p as [a|X f k IH]; [apply HPQ|]. intros Hp th w x w' Hw E.
  destruct (Hp th w x w' Hw E) as [Hg Hk]. split; [done|]. by apply IH.
Qed.

Abbreviation anything := (fun _ => True).

Lemma typed_any {A} (P : A -> Prop) (p : prog A) : typed P p -> typed anything p.
Proof. by apply typed_mono. Qed.

Lemma typed_ret {A} (Q : A -> Prop) a : Q a -> typed Q (Ret a).
Proof. done. Qed.

Lemma typed_prim {X} (Q : X -> Prop) (f : thread -> world -> outcome X) :
  (forall th w x w', well_typed w -> f th w = Done x w' -> grows w w' /\ Q x) -> typed Q (prim f).
Proof. exact id. Qed.

Lemma typed_run {A} (Q : A -> Prop) (p : prog A) th w a w' :
  typed Q p -> well_typed w -> run th p w = Done a w' -> grows w w' /\ Q a.
Proof.
  revert w. induction p as [b|X f k IH]; intros w Hp Hw E; cbn [run] in E.
  - injection E as <- <-. split; [|done]. split; [done|]. reflexivity.
  - destruct (f th w) as [x w1| | |] eqn:Ef; try done. destruct (Hp th w x w1 Hw Ef) as [[Hw1 He] Hk].
    destruct (IH x w1 Hk Hw1 E) as [[Hw' He'] HQ]. split; [|done]. split; [done|]. by etrans.
Qed.

(** ** Steps on the memory *)

Lemma grows_same w w' : w_heap w' = w_heap w -> w_next w' = w_next w -> os_env (w_os w') = os_env (w_os w) -> well_typed w -> grows w w'.
Proof.
  intros Eh En Ee [Hf Hc]. split.
  - split; [|by rewrite Eh]. intros l. rewrite Eh, En. apply Hf.
  - split_and!; [done|lia|]. intros l c _. rewrite Eh. by exists c.
Qed.

Lemma grows_store w w' l c c' :
  w_heap w' = <[l := c']> (w_heap w) -> w_next w' = w_next w -> os_env (w_os w') = os_env (w_os w) -> w_heap w !! l = Some c ->
  cell_ok c' -> cell_step c c' -> well_typed w -> grows w w'.
Proof.
  intros Eh En Ee El Hc' Hs [Hf Hc]. split.
  - split.
    + intros k Hk. rewrite Eh. rewrite En in Hk. destruct (decide (l = k)) as [->|].
      * by rewrite Hf in El.
      * rewrite lookup_insert_ne by done. by apply Hf.
    + rewrite Eh. by apply map_Forall_insert_2.
  - split_and!; [done|lia|]. intros k d _. rewrite Eh. destruct (decide (l = k)) as [->|].
    + rewrite lookup_insert_eq. intros [= <-]. by exists c.
    + rewrite lookup_insert_ne by done. by exists d.
Qed.

Lemma grows_alloc w w' c :
  w_heap w' = <[w_next w := c]> (w_heap w) -> w_next w' = w_next w + 1 -> os_env (w_os w') = os_env (w_os w) -> cell_ok c -> well_typed w -> grows w w'.
Proof.
  intros Eh En Ee Hc' [Hf Hc]. split.
  - split.
    + intros k Hk. rewrite Eh, lookup_insert_ne by lia. apply Hf. lia.
    + rewrite Eh. by apply map_Forall_insert_2.
  - split_and!; [done|lia|]. intros k d Hk. rewrite Eh, lookup_insert_ne by lia. by exists d.
Qed.

Lemma grows_delete w w' l :
  w_heap w' = delete l (w_heap w) -> w_next w' = w_next w -> os_env (w_os w') = os_env (w_os w) -> well_typed w -> grows w w'.
Proof.
  intros Eh En Ee [Hf Hc]. split.
  - split.
    + intros k Hk. rewrite Eh. rewrite En in Hk. destruct (decide (l = k)) as [->|];
        [apply lookup_delete_eq|]. rewrite lookup_delete_ne by done. by apply Hf.
    + rewrite Eh. by apply map_Forall_delete.
  - split_and!; [done|lia|]. intros k d _. rewrite Eh. intros [_ E]%lookup_delete_Some. by exists d.
Qed.

Lemma with_cell_done {T X} `{Cell T} p w (f : loc -> T -> outcome X) x w' :
  with_cell p w f = Done x w' ->
  exists l t c, p = Some l /\ w_heap w !! l = Some c /\ of_cell c = Some t /\ f l t = Done x w'.
Proof.
  unfold with_cell, peek. destruct p as [l|]; [|done]. destruct (w_heap w !! l) as [c|] eqn:E; [|done]. simpl.
  destruct (of_cell c) as [t|] eqn:Et; [|done]. intros. by exists l, t, c.
Qed.

(** A cell that reads as a [T] is one. *)
Class CellInv (T : Type) `{Cell T} := cell_inv c (t : T) : of_cell c = Some t -> c = to_cell t.
#[export] Instance CellInv_bytes : CellInv (list byte). Proof. by intros [] y [= ->]. Qed.
#[export] Instance CellInv_buffer : CellInv logdb_buffer_t. Proof. by intros [] y [= ->]. Qed.
#[export] Instance CellInv_txn : CellInv logdb_txn_t. Proof. by intros [] y [= ->]. Qed.
#[export] Instance CellInv_lock : CellInv logdb_log_lock_t. Proof. by intros [] y [= ->]. Qed.
#[export] Instance CellInv_log : CellInv logdb_log_t. Proof. by intros [] y [= ->]. Qed.
#[export] Instance CellInv_conn : CellInv logdb_connection_t. Proof. by intros [] y [= ->]. Qed.
#[export] Instance CellInv_iter : CellInv logdb_iter_t. Proof. by intros [] y [= ->]. Qed.

Lemma next_fault_grows w f w1 : next_fault w = (f, w1) -> 
  w_heap w1 = w_heap w /\ w_next w1 = w_next w /\ os_env (w_os w1) = os_env (w_os w) /\ (well_typed w -> well_typed w1).
Proof. unfold next_fault. destruct (w_oracle w); intros [= <- <-]; done. Qed.

Section prims.
Context {T : Type} `{CellInv T}.
Abbreviation ok t := (cell_ok (to_cell (t : T))).

Lemma typed_load p : typed (fun t : T => ok t) (load T p).
Proof.
  apply typed_prim. intros th w x w' Hw (l & t & c & -> & El & Et%cell_inv & [= <- <-])%with_cell_done. subst c.
  split; [by apply grows_same|]. destruct Hw as [_ Hc]. by apply (Hc l).
Qed.

Lemma do_rmw_grows {X} p (g : T -> T * X) w x w' :
  (forall t, ok t -> ok (g t).1 /\ cell_step (to_cell t) (to_cell (g t).1)) ->
  well_typed w -> do_rmw p g w = Done x w' -> grows w w' /\ exists t, ok t /\ x = (g t).2.
Proof.
  intros Hg Hw (l & t & c & -> & El & Et%cell_inv & [= <- <-])%with_cell_done. subst c.
  assert (ok t) as Ht by (destruct Hw as [_ Hc]; by apply (Hc l)). destruct (Hg t Ht) as [Hok Hs].
  split; [|by exists t]. by eapply grows_store.
Qed.

Lemma typed_rmw {X} p (g : T -> T * X) :
  (forall t, ok t -> ok (g t).1 /\ cell_step (to_cell t) (to_cell (g t).1)) ->
  typed (fun x => exists t, ok t /\ x = (g t).2) (rmw p g).
Proof. intros Hg. apply typed_prim. intros th w x w' Hw E. by eapply do_rmw_grows. Qed.

Lemma typed_upd p (g : T -> T) :
  (forall t, ok t -> ok (g t) /\ cell_step (to_cell t) (to_cell (g t))) -> typed anything (upd p g).
Proof. intros Hg. eapply typed_any, typed_rmw, Hg. Qed.

Lemma typed_alloc (t : T) : ok t -> typed anything (alloc t).
Proof.
  intros Ht. apply typed_prim. unfold do_alloc. intros th w x w' Hw E. split; [|done].
  destruct (next_fault w) as [f w1] eqn:Ef. apply next_fault_grows in Ef as (Eh & En & Ee & Ew).
  destruct f; injection E as _ <-; [| |by apply grows_same];
    (eapply grows_alloc; [cbn; by rewrite Eh, En|cbn; by rewrite En|done|done|done]).
Qed.

Lemma typed_cas_weak p (get : T -> Z) put e d :
  (forall t, ok t -> get t = e -> ok (put d t) /\ cell_step (to_cell t) (to_cell (put d t))) ->
  typed (fun x => exists t, ok t /\ x.2 = get t) (cas_weak p get put e d).
Proof.
  intros Hg. apply typed_prim. intros th w x w' Hw E. destruct (next_fault w) as [f w1] eqn:Ef.
  apply next_fault_grows in Ef as (Eh & En & Ee & Ew). apply do_rmw_grows in E as [[Hw' (He' & Hn & He)] (t & Ht & ->)]; [|..|by apply Ew].
  - split.
    + split; [done|]. split_and!; [congruence|lia|]. intros l c Hl Ec. rewrite <- Eh. apply He; [lia|done].
    + exists t. split; [done|]. destruct f; [case_match| case_match |]; done.
  - intros t Ht. destruct f; [case_match eqn:Eg| case_match eqn:Eg|]; cbn [fst]; try (split; [done|reflexivity]);
      apply Z.eqb_eq in Eg; by apply Hg.
Qed.

End prims.

(** A call of the operating system does not touch the memory. *)
Lemma typed_same {X} (f : thread -> world -> outcome X) :
  (forall th w x w', f th w = Done x w' ->
    w_heap w' = w_heap w /\ w_next w' = w_next w /\ os_env (w_os w') = os_env (w_os w)) -> typed anything (prim f).
Proof. intros Hf. apply typed_prim. intros th w x w' Hw E. split; [|done]. apply Hf in E as (Eh & En & Ee). by apply grows_same. Qed.

Ltac same_solve :=
  apply typed_same; intros th w x w' E;
  cbv [do_load_bytes with_cell with_fd do_open do_close do_read do_pread do_write do_pwrite do_lseek do_ftruncate
       do_fsync do_unlink do_realpath do_setlk do_flock next_fault] in E;
  repeat (case_match; try done); simplify_eq/=; done.

Lemma typed_load_bytes l off n : typed anything (load_bytes l off n).
Proof. same_solve. Qed.
Lemma typed_load_mem p n : typed anything (load_mem p n).
Proof. unfold load_mem. destruct (n =? 0); [done|]. same_solve. Qed.
Lemma typed_heap_size : typed anything heap_size.
Proof. same_solve. Qed.
Lemma typed_undef {A} (Q : A -> Prop) u : typed Q (undef u : prog A).
Proof. by intros th w x w' Hw E. Qed.
Lemma typed_no_fuel {A} (Q : A -> Prop) : typed Q (no_fuel : prog A).
Proof. by intros th w x w' Hw E. Qed.
Lemma typed_fails : typed anything fails.
Proof. same_solve. Qed.
Lemma typed_open path fl : typed anything (sys_open path fl).
Proof. same_solve. Qed.
Lemma typed_close fd : typed anything (sys_close fd).
Proof. same_solve. Qed.
Lemma typed_read fd sz : typed anything (sys_read fd sz).
Proof. same_solve. Qed.
(** A read returns no more than it was asked for. *)
Definition read_at_most (sz : Z) (x : Z * list byte) : Prop := zlen x.2 <= Z.max 0 sz /\ (x.1 = zlen x.2 \/ x = (-1, [])).

Lemma file_read_at_most f sz n bs : zlen (file_read n (xfer f sz) bs) <= Z.max 0 sz.
Proof.
  unfold file_read, slice. rewrite length_take. pose proof (Nat.le_min_l (Z.to_nat (xfer f sz)) (length (drop (Z.to_nat n) bs))).
  assert (xfer f sz <= Z.max 0 sz) by (destruct f; cbn [xfer]; lia). lia.
Qed.

Lemma typed_pread fd sz off : typed (read_at_most sz) (sys_pread fd sz off).
Proof.
  apply typed_prim. intros th w x w' Hw E. unfold do_pread, with_fd, next_fault in E.
  split; [by repeat (case_match; try done); simplify_eq/=; apply grows_same|].
  pose proof file_read_at_most as Hl. unfold read_at_most. repeat (case_match; try done); simplify_eq/=; (split; [first [apply (Hl FOk)|apply (Hl (FShort _))|cbn; lia]|by auto]).
Qed.
Lemma typed_write fd d : typed anything (sys_write fd d).
Proof. same_solve. Qed.
Lemma typed_pwrite fd d off : typed anything (sys_pwrite fd d off).
Proof. same_solve. Qed.
Lemma typed_lseek fd off wh : typed anything (sys_lseek fd off wh).
Proof. same_solve. Qed.
Lemma typed_ftruncate fd n : typed anything (sys_ftruncate fd n).
Proof. same_solve. Qed.
Lemma typed_fsync fd : typed anything (sys_fsync fd).
Proof. same_solve. Qed.
Lemma typed_unlink path : typed anything (sys_unlink path).
Proof. same_solve. Qed.
Lemma typed_realpath path : typed anything (realpath path).
Proof. same_solve. Qed.
Lemma typed_getenv name : typed anything (getenv name).
Proof. same_solve. Qed.
Lemma typed_setlk fd op s n : typed anything (sys_fcntl_setlk fd op s n).
Proof. same_solve. Qed.
Lemma typed_setlkw fd op s n : typed anything (sys_fcntl_setlkw fd op s n).
Proof. same_solve. Qed.
Lemma typed_flock_ex_nb fd : typed anything (sys_flock_ex_nb fd).
Proof. same_solve. Qed.
Lemma typed_flock_sh fd : typed anything (sys_flock_sh fd).
Proof. same_solve. Qed.
Lemma typed_flock_un fd : typed anything (sys_flock_un fd).
Proof. same_solve. Qed.
Lemma typed_getspecific k : typed anything (pthread_getspecific k).
Proof. same_solve. Qed.
Lemma typed_setspecific k p : typed anything (pthread_setspecific k p).
Proof. same_solve. Qed.
Lemma typed_key_create : typed anything pthread_key_create.
Proof. same_solve. Qed.
Lemma typed_key_delete k : typed anything (pthread_key_delete k).
Proof. same_solve. Qed.
Lemma typed_log_entries log : typed anything (log_entries log).
Proof. same_solve. Qed.

Lemma do_free_grows p w x w' : well_typed w -> do_free p w = Done x w' -> grows w w'.
Proof.
  intros Hw. unfold do_free. destruct p as [l|]; [|intros [= _ <-]; by apply grows_same].
  destruct (w_heap w !! l); [|done]. intros [= _ <-]. by apply (grows_delete _ _ l).
Qed.
Lemma typed_free p : typed anything (free p).
Proof. apply typed_prim. intros th w x w' Hw E. split; [|done]. by eapply do_free_grows. Qed.
Lemma typed_dispose d p : typed anything (dispose d p).
Proof.
  apply typed_prim. intros th w x w' Hw E. split; [|done]. destruct d; cbn [do_dispose] in E; [by eapply do_free_grows|].
  injection E as _ <-. by apply grows_same.
Qed.
Lemma typed_store_append p cap d : typed anything (store_append p cap d).
Proof.
  apply typed_prim. intros th w x w' Hw (l & bs & c & -> & El & Et%cell_inv & E)%with_cell_done. subst c. split; [|done].
  case_match; [|done]. injection E as _ <-. by eapply grows_store.
Qed.
Lemma typed_with_rwlock p g : typed anything (prim (fun _ w => with_rwlock p w g)).
Proof.
  apply typed_prim. unfold with_rwlock. intros th w x w' Hw E. split; [|done]. destruct (next_fault w) as [f w1] eqn:Ef.
  apply next_fault_grows in Ef as (Eh & En & Ee & Ew).
  destruct f; [| |injection E as _ <-; by apply grows_same];
    apply with_cell_done in E as (l & c & d & -> & El & Et%cell_inv & E); subst d; (case_match; [|done]); injection E as _ <-;
    rewrite Eh in El; (eapply grows_store; [cbn; by rewrite Eh|done|done|done| |done|done]);
    destruct Hw as [_ Hc]; exact (Hc l _ El).
Qed.
Lemma typed_rdlock p : typed anything (rwlock_rdlock p).
Proof. apply typed_with_rwlock. Qed.
Lemma typed_wrlock p : typed anything (rwlock_wrlock p).
Proof. apply typed_with_rwlock. Qed.
Lemma typed_rwunlock p : typed anything (rwlock_unlock p).
Proof. eapply typed_any, typed_rmw. intros t Ht. by split. Qed.

Create HintDb typed.
#[export] Hint Resolve is_u32_u32 is_u32_0 is_s32_s32 is_s64_s64 le_val_take_u32 : typed.
#[export] Hint Extern 1 (typed _ (load _ _)) => eapply typed_load; exact _ : typed.
#[export] Hint Resolve typed_load_bytes typed_load_mem typed_heap_size typed_undef typed_no_fuel typed_fails
  typed_open typed_close typed_read typed_pread typed_write typed_pwrite typed_lseek typed_ftruncate typed_fsync typed_unlink
  typed_realpath typed_getenv typed_setlk typed_setlkw typed_flock_ex_nb typed_flock_sh typed_flock_un typed_getspecific
  typed_setspecific typed_key_create typed_key_delete typed_log_entries typed_free typed_dispose typed_store_append typed_rdlock
  typed_wrlock typed_rwunlock : typed.

(** What remains to show of a value: the fields that changed are in range. *)
Ltac ok_solve :=
  intros; cbn in *; unfold buffer_ok, lease_ok, record_ok, is_u16 in *; cbn in *;
  repeat match goal with H : _ /\ _ |- _ => destruct H end; split_and?;
  first [done | solve [eauto with typed] | unfold is_u32, is_s32, is_s64 in *; lia].

(** Through binds and branches, down to what is known. *)
Ltac typed_step :=
  first
  [ done
  | match goal with
    | |- typed _ (Ret _) => apply typed_ret; ok_solve
    | |- typed _ (upd _ _) => apply typed_upd; ok_solve
    | |- typed _ (rmw _ _) => eapply typed_any, typed_rmw; ok_solve
    | |- typed _ (alloc _) => apply typed_alloc; ok_solve
    | |- typed _ (match ?x with _ => _ end) => destruct x eqn:?
    | |- typed _ (bind _ _) =>
        first [ eapply typed_bind; [solve [eauto with typed]|intros ? ?]
              | apply (typed_bind anything); [|intros ? _] ]
    end
  | solve [eauto with typed]
  | solve [eapply typed_any; eauto with typed] ].
Ltac typed_hyps := repeat lazymatch goal with |- typed _ _ => fail | |- forall _, _ => intro end.
Ltac typed_solve := typed_hyps; repeat (cbn beta iota in *; typed_step).

(** ** The functions of the library *)

Section library.
Context `{Build}.

Lemma typed_new_direct d n f : is_u32 n -> typed anything (logdb_buffer_new_direct d n f).
Proof. unfold logdb_buffer_new_direct. typed_solve. Qed.

Lemma typed_new_copy data : (forall bs, data = Some bs -> is_u32 (zlen bs)) -> typed anything (logdb_buffer_new_copy data).
Proof. pose proof typed_new_direct. unfold logdb_buffer_new_copy. intros Hd. typed_solve. Qed.

Lemma typed_length_loop n buf len : is_u32 len -> typed is_u32 (buffer_length_loop n buf len).
Proof.
  revert buf len. induction n as [|n IH]; intros [l|] len Hlen; cbn [buffer_length_loop]; typed_solve.
Qed.

Lemma typed_length buf : typed is_u32 (logdb_buffer_length buf).
Proof. pose proof typed_length_loop. unfold logdb_buffer_length. typed_solve. Qed.

Lemma typed_retain buf : typed anything (logdb_buffer_retain buf).
Proof. unfold logdb_buffer_retain. typed_solve. Qed.

Lemma typed_copy buf : typed anything (logdb_buffer_copy buf).
Proof.
  pose proof typed_retain. pose proof typed_new_direct. unfold logdb_buffer_copy.
  eapply typed_bind; [eauto with typed|]. intros b [Hb _]. typed_solve.
Qed.

Lemma typed_data_copy rec n nd nl cur :
  (forall p, typed anything (rec p)) -> typed anything (data_copy rec n nd nl cur).
Proof.
  intros Hrec. pose proof typed_length. revert cur. induction n as [|n IH]; intros [l|]; cbn [data_copy]; typed_solve.
Qed.

Lemma typed_data_loop n buf : typed anything (buffer_data_loop n buf).
Proof.
  pose proof typed_length. pose proof typed_data_copy. revert buf. induction n as [|n IH]; intros [l|]; cbn [buffer_data_loop]; typed_solve.
Qed.

Lemma typed_data buf : typed anything (logdb_buffer_data buf).
Proof. pose proof typed_data_loop. unfold logdb_buffer_data. typed_solve. Qed.

Lemma typed_append_last n b b2 : typed anything (append_last n b b2).
Proof. revert b. induction n as [|n IH]; intros b; cbn [append_last]; typed_solve. Qed.

Lemma typed_append b1 b2 : typed anything (logdb_buffer_append b1 b2).
Proof.
  pose proof typed_length. pose proof typed_append_last. pose proof typed_copy. unfold logdb_buffer_append. typed_solve.
Qed.

Lemma typed_free_loop n b : typed anything (buffer_free_loop n b).
Proof. revert b. induction n as [|n IH]; intros [l|]; cbn [buffer_free_loop]; typed_solve. Qed.

Lemma typed_buffer_free b : typed anything (logdb_buffer_free b).
Proof. pose proof typed_free_loop. unfold logdb_buffer_free. typed_solve. Qed.

(** Files. *)

Lemma typed_read_loop n fd sz b buf : typed anything (io_read_loop n fd sz b buf).
Proof. revert sz b buf. induction n as [|n IH]; intros sz b buf; cbn [io_read_loop]; unfold io_read_result; typed_solve. Qed.
Lemma typed_io_read fd sz : typed anything (logdb_io_read fd sz).
Proof. apply typed_read_loop. Qed.
Lemma typed_write_loop n fd d sz : typed anything (io_write_loop n fd d sz).
Proof. revert d sz. induction n as [|n IH]; intros d sz; cbn [io_write_loop]; typed_solve. Qed.
Lemma typed_io_write fd d : typed anything (logdb_io_write fd d).
Proof. apply typed_write_loop. Qed.
Lemma typed_read_result b sz buf : typed (fun x => x.2 = buf) (io_read_result b sz buf).
Proof. unfold io_read_result. typed_solve. Qed.
Lemma typed_pread_loop n fd sz o b buf :
  typed (fun x => zlen x.2 <= zlen buf + Z.max 0 sz) (io_pread_loop n fd sz o b buf).
Proof.
  assert (forall b sz, typed (fun x => zlen x.2 <= zlen buf + Z.max 0 sz) (io_read_result b sz buf)) as Hr.
  { intros b' sz'. eapply typed_mono; [|apply typed_read_result]. intros x ->. lia. }
  revert sz o b buf Hr. induction n as [|n IH]; intros sz o b buf Hr; cbn [io_pread_loop]; case_match eqn:Es; try apply Hr; [apply typed_no_fuel|].
  zbool. eapply typed_bind; [apply typed_pread|]. intros [r data] [Hl Hd]. cbn [fst snd] in *. case_match eqn:Eb; [|apply Hr].
  zbool. destruct Hd as [->|[= -> ->]]; [|lia]. eapply typed_mono; [|apply IH].
  - intros x Hx. rewrite length_app in Hx. lia.
  - intros b' sz'. eapply typed_mono; [|apply typed_read_result]. intros x ->. lia.
Qed.
Lemma typed_io_pread fd sz o : typed (fun x => zlen x.2 <= Z.max 0 sz) (logdb_io_pread fd sz o).
Proof. exact (typed_pread_loop (Z.to_nat sz) fd sz o None []). Qed.
Lemma typed_pwrite_loop n fd d sz o : typed anything (io_pwrite_loop n fd d sz o).
Proof. revert d sz o. induction n as [|n IH]; intros d sz o; cbn [io_pwrite_loop]; typed_solve. Qed.
Lemma typed_io_pwrite fd d o : typed anything (logdb_io_pwrite fd d o).
Proof. apply typed_pwrite_loop. Qed.

#[local] Hint Resolve typed_io_read typed_io_write typed_io_pread typed_io_pwrite typed_buffer_free typed_append typed_length : typed.

(** The log. *)

Lemma typed_log_new fd path : typed anything (logdb_log_new fd path).
Proof. unfold logdb_log_new. typed_solve. Qed.
#[local] Hint Resolve typed_log_new : typed.

Lemma typed_log_read fd mode : typed anything (logdb_log_read fd mode).
Proof. unfold logdb_log_read, log_read_entries, malloc_bytes. typed_solve. Qed.
#[local] Hint Resolve typed_log_read : typed.

Lemma typed_log_open path : typed anything (logdb_log_open path).
Proof. unfold logdb_log_open. typed_solve. Qed.

Lemma typed_log_create path dbfd : typed anything (logdb_log_create path dbfd).
Proof.
  unfold logdb_log_create, log_create_find, log_create_write, log_create_fail. typed_solve.
Qed.

Lemma typed_read_entry log i : typed (fun x => is_u16 x.2) (logdb_log_read_entry log i).
Proof.
  unfold logdb_log_read_entry. case_match; [done|]. eapply typed_bind; [eauto with typed|]. intros l _.
  eapply typed_bind; [eauto with typed|]. intros [r bs] Hbs. cbn [fst snd] in *. case_match; [done|]. apply typed_ret.
  pose proof (le_val_range bs) as Hv. cbn [snd]. split; [lia|]. eapply Z.lt_le_trans; [apply Hv|].
  apply (Z.pow_le_mono_r 256 _ 2); [lia|]. unfold sizeof_log_entry in Hbs. lia.
Qed.

Lemma typed_write_entry log len i : typed anything (logdb_log_write_entry log len i).
Proof. unfold logdb_log_write_entry. typed_solve. Qed.

Lemma typed_log_close log : typed anything (logdb_log_close log).
Proof. unfold logdb_log_close. typed_solve. Qed.
#[local] Hint Resolve typed_log_open typed_log_create typed_read_entry typed_write_entry typed_log_close : typed.

Lemma typed_merge_trim n hd i s m l : typed anything (close_merge_trim n hd i s m l).
Proof. revert i m l. induction n as [|n IH]; intros i m l; cbn [close_merge_trim]; typed_solve. Qed.

Lemma typed_log_close_merge log dbfd : typed anything (logdb_log_close_merge log dbfd).
Proof.
  pose proof typed_merge_trim. unfold logdb_log_close_merge, close_merge_write, close_merge_failunlock. typed_solve.
Qed.
#[local] Hint Resolve typed_log_close_merge : typed.

(** Entry locks. *)

Lemma typed_load_dest d : typed anything (load_dest d).
Proof. unfold load_dest. typed_solve. Qed.

Lemma typed_cas_dest d e x : typed anything (cas_dest d e x).
Proof.
  destruct d; unfold cas_dest; eapply typed_any, typed_rmw; intros t Ht; case_decide; by split.
Qed.
#[local] Hint Resolve typed_load_dest typed_cas_dest : typed.

Lemma new_chunk_ok index next : is_u32 index -> chunk_ok (mk_lock index (replicate 128 0) next).
Proof. intros Hi. split_and!; [done|done|]. by repeat constructor. Qed.
#[local] Hint Resolve new_chunk_ok : typed.

Lemma typed_lock_find n dest lock index : is_u32 index -> typed anything (lock_find n dest lock index).
Proof.
  revert dest lock. induction n as [|n IH]; intros dest lock Hi; cbn [lock_find]; typed_solve.
Qed.

Lemma put_lock_ok i v k :
  is_s32 v -> cell_ok (CLock k) -> cell_ok (CLock (put_lock i v k)) /\ cell_step (CLock k) (CLock (put_lock i v k)).
Proof.
  intros Hv (Hi & Hl & Hs). split; [|done]. split_and!; [done|cbn; by rewrite length_insert|]. by apply Forall_insert.
Qed.

Lemma get_lock_ok i k : cell_ok (CLock k) -> is_s32 (get_lock i k).
Proof.
  intros (_ & _ & Hs). unfold get_lock. destruct (lock_locks k !! Z.to_nat i) as [v|] eqn:E; [|done]. by eapply Forall_lookup_1.
Qed.
#[local] Hint Resolve get_lock_ok : typed.

Lemma typed_lock_take n lock i type v : is_s32 v -> typed anything (lock_take n lock i type v).
Proof.
  revert v. induction n as [|n IH]; intros v Hv; cbn [lock_take]; [apply typed_no_fuel|].
  assert (forall d, is_s32 d -> typed (fun x => is_s32 x.2) (cas_weak lock (get_lock i) (put_lock i) v d)) as Hcas.
  { intros d Hd. eapply typed_mono; [|apply typed_cas_weak; intros t Ht _; by apply put_lock_ok].
    intros x (t & Ht & ->). by apply get_lock_ok. }
  case_match eqn:Er.
  - case_match eqn:Em; [apply typed_undef|]. apply Z.eqb_neq in Em. apply andb_prop in Er as [_ Hn%Z.leb_le].
    eapply typed_bind; [apply Hcas; unfold is_s32 in *; lia|]. intros [ok found] Hf. typed_solve.
  - case_match; [|done]. eapply typed_bind; [by apply Hcas|]. intros [ok found] Hf. typed_solve.
Qed.

Lemma typed_fetch_add lock i d : typed anything (fetch_add_lock lock i d).
Proof.
  apply typed_prim. intros th w x w' Hw (l & k & c & -> & El & Et%cell_inv & E)%with_cell_done. subst c. split; [|done].
  case_match; [|done]. injection E as _ <-.
  destruct (put_lock_ok i (s32 (z + d)) k) as [Hok Hs]; [apply is_s32_s32|destruct Hw as [_ Hc]; exact (Hc l _ El)|].
  by eapply grows_store.
Qed.
#[local] Hint Resolve typed_fetch_add : typed.

Lemma typed_unlock_loop n lock index type : typed anything (inproc_unlock_loop n lock index type).
Proof. revert lock. induction n as [|n IH]; intros lock; cbn [inproc_unlock_loop]; typed_solve. Qed.

Lemma typed_inproc_unlock log index type : typed anything (logdb_log_inproc_unlock log index type).
Proof. pose proof typed_unlock_loop. unfold logdb_log_inproc_unlock. typed_solve. Qed.
#[local] Hint Resolve typed_inproc_unlock : typed.

Lemma typed_log_lock log index type : is_u32 index -> typed anything (logdb_log_lock log index type).
Proof. pose proof typed_lock_find. pose proof typed_lock_take. unfold logdb_log_lock, lock_at. typed_solve. Qed.

Lemma typed_log_unlock log index type : typed anything (logdb_log_unlock log index type).
Proof. unfold logdb_log_unlock. typed_solve. Qed.
#[local] Hint Resolve typed_log_lock typed_log_unlock : typed.

(** Leases. *)

Lemma lease_ok_advance n l : lease_ok l -> lease_ok (lease_advance n l).
Proof. intros (Hi & _ & _). split_and!; [done|apply is_s64_s64|apply is_u32_u32]. Qed.

Lemma lease_ok_seek l n : lease_ok l -> lease_ok (logdb_lease_seek l n).2.
Proof. intros Hl. unfold logdb_lease_seek. case_match; [done|by apply lease_ok_advance]. Qed.

Lemma typed_prelude lease conn :
  lease_ok lease -> typed (fun x => lease_ok x.2) (logdb_lease_acquire_prelude lease conn).
Proof. unfold logdb_lease_acquire_prelude. typed_solve. Qed.

Lemma typed_acquire_read lease conn index offset :
  lease_ok lease -> is_u32 index -> is_s64 offset -> typed (fun x => lease_ok x.2) (logdb_lease_acqire_read lease conn index offset).
Proof.
  pose proof typed_prelude. pose proof typed_read_entry. unfold logdb_lease_acqire_read. intros Hl Hi Ho.
  eapply typed_bind; [by eauto|]. intros [r l] Hl'. typed_solve.
Qed.

Lemma is_u16_s64 z : is_u16 z -> is_s64 z.
Proof. unfold is_u16, is_s64. lia. Qed.
#[local] Hint Resolve is_u16_s64 : typed.

Lemma typed_entry_space log i size : typed (fun x => is_u16 x.2) (logdb_lease_read_entry_space log i size).
Proof.
  unfold logdb_lease_read_entry_space. eapply typed_bind; [eauto with typed|]. intros [r len] Hl. typed_solve.
Qed.
#[local] Hint Resolve typed_entry_space : typed.

Lemma typed_walk_entries n log size i v : is_u32 i -> 
  typed (fun x => is_s64 x.1.1 /\ is_u32 x.1.2) (walk_entries n log size i v).
Proof.
  revert i v. induction n as [|n IH]; intros i v Hi; cbn [walk_entries]; [apply typed_no_fuel|].
  destruct (i =? 0) eqn:E; [typed_solve|]. zbool. assert (is_u32 (i - 1)) by (unfold is_u32 in *; lia). typed_solve.
Qed.

Lemma typed_append_entry logfd : typed (from_option is_u32 True) (append_entry logfd).
Proof. unfold append_entry. typed_solve. Qed.

Lemma typed_choose_section log logfd size v :
  typed (from_option (fun x => is_s64 x.1.1 /\ is_u32 x.1.2) True) (choose_section log logfd size v).
Proof.
  pose proof typed_append_entry. pose proof typed_walk_entries. unfold choose_section.
  eapply typed_bind; [eauto with typed|]. intros off _. case_match; [done|].
  eapply typed_bind; [eauto with typed|]. intros [[o i] v'] Hi. case_match; [|done].
  eapply typed_bind; [eauto with typed|]. intros [j|] Hj; done.
Qed.

Lemma typed_acquire_walk n lease conn size v :
  lease_ok lease -> is_u32 size -> typed (fun x => lease_ok x.2) (acquire_walk n lease conn size v).
Proof.
  pose proof typed_choose_section. revert v. induction n as [|n IH]; intros v Hl Hs; cbn [acquire_walk]; [apply typed_no_fuel|].
  eapply typed_bind; [eauto with typed|]. intros c _. eapply typed_bind; [eauto with typed|]. intros l _.
  eapply typed_bind; [eauto with typed|]. intros [[[o i] v']|] Hi; [destruct Hi as [Ho Hi]; cbn in Ho, Hi|]; typed_solve.
Qed.

Lemma typed_acquire_write lease conn size :
  lease_ok lease -> is_u32 size -> typed (fun x => lease_ok x.2) (logdb_lease_acquire_write lease conn size).
Proof.
  pose proof typed_prelude. pose proof typed_acquire_walk. unfold logdb_lease_acquire_write. intros Hl Hs.
  case_match; [done|]. eapply typed_bind; [by eauto|]. intros [r l] Hl'. typed_solve.
Qed.

Lemma typed_lease_read lease len : lease_ok lease -> typed (fun x => lease_ok x.2) (logdb_lease_read lease len).
Proof.
  pose proof lease_ok_advance. unfold logdb_lease_read. intros Hl. case_match; [done|].
  eapply typed_bind; [eauto with typed|]. intros c _. eapply typed_bind; [eauto with typed|]. intros [r d] _.
  apply typed_ret. by apply lease_ok_advance.
Qed.

Lemma typed_lease_write lease buf len : typed anything (logdb_lease_write lease buf len).
Proof. unfold logdb_lease_write. typed_solve. Qed.

Lemma typed_release lease : lease_ok lease -> typed lease_ok (logdb_lease_release lease).
Proof. unfold logdb_lease_release. typed_solve. Qed.
#[local] Hint Resolve typed_lease_write typed_release : typed.

(** Transactions. *)

Lemma typed_verify_connection conn : typed anything (verify_connection conn).
Proof. unfold verify_connection. typed_solve. Qed.

Lemma typed_txn_current conn : typed anything (logdb_txn_current conn).
Proof. unfold logdb_txn_current. typed_solve. Qed.

Lemma typed_txn_set_current conn txn : typed anything (logdb_txn_set_current conn txn).
Proof. unfold logdb_txn_set_current. typed_solve. Qed.
#[local] Hint Resolve typed_verify_connection typed_txn_current typed_txn_set_current : typed.

Lemma typed_write_buf_loop n lease buf : typed anything (txn_write_buf_loop n lease buf).
Proof. revert lease buf. induction n as [|n IH]; intros lease buf; cbn [txn_write_buf_loop]; typed_solve. Qed.

Lemma typed_begin_implicit conn : typed anything (logdb_txn_begin_implicit conn).
Proof. unfold logdb_txn_begin_implicit. typed_solve. Qed.

Lemma typed_close_all n txn : typed anything (txn_close_all n txn).
Proof. revert txn. induction n as [|n IH]; intros txn; cbn [txn_close_all]; typed_solve. Qed.

Lemma typed_txn_close conn txn : typed anything (logdb_txn_close conn txn).
Proof. pose proof typed_close_all. unfold logdb_txn_close. typed_solve. Qed.
#[local] Hint Resolve typed_begin_implicit typed_txn_close : typed.

Lemma typed_release_any lease : typed anything (logdb_lease_release lease).
Proof. unfold logdb_lease_release. typed_solve. Qed.

Lemma typed_commit_write conn txn lease : typed anything (commit_write conn txn lease).
Proof.
  pose proof typed_write_buf_loop. pose proof typed_release_any. pose proof typed_write_entry.
  unfold commit_write, logdb_txn_write_buf. typed_solve.
Qed.

Lemma no_lease_ok : lease_ok no_lease.
Proof. by split_and!. Qed.
#[local] Hint Resolve no_lease_ok : typed.

Lemma typed_txn_commit conn txn : typed anything (logdb_txn_commit conn txn).
Proof.
  pose proof typed_acquire_write. pose proof typed_commit_write. unfold logdb_txn_commit. typed_solve.
Qed.
#[local] Hint Resolve typed_txn_commit : typed.

Lemma typed_begin conn : typed anything (logdb_begin conn).
Proof. unfold logdb_begin. typed_solve. Qed.

Lemma typed_put conn key value : typed anything (logdb_put conn key value).
Proof.
  assert (forall h bs, Some (data_header_bytes h) = Some bs -> is_u32 (zlen bs)) as Hh.
  { intros h bs [= <-]. unfold data_header_bytes. rewrite length_app, !length_bytes_u32. done. }
  pose proof typed_new_copy. unfold logdb_put, logdb_txn_commit_implicit. typed_solve.
Qed.

Lemma typed_commit conn : typed anything (logdb_commit conn).
Proof. unfold logdb_commit. typed_solve. Qed.

Lemma typed_rollback conn : typed anything (logdb_rollback conn).
Proof. unfold logdb_rollback. typed_solve. Qed.

(** Iterators. *)

Lemma typed_verify_iter iter : typed anything (verify_iter iter).
Proof. unfold verify_iter. typed_solve. Qed.
#[local] Hint Resolve typed_verify_iter typed_new_direct : typed.

Lemma typed_iter_read_buf iter len : is_u32 len -> typed anything (logdb_iter_read_buf iter len).
Proof.
  intros Hlen. unfold logdb_iter_read_buf. typed_step; [typed_solve|]. cbn beta. case_match; [|done].
  eapply typed_bind; [eauto with typed|]. intros i [Hl Hr].
  eapply typed_bind; [by apply typed_lease_read|]. intros [[r d] lease] Hl'. typed_solve.
Qed.

Lemma typed_iter_all conn : typed anything (logdb_iter_all conn).
Proof. unfold logdb_iter_all. typed_solve. Qed.

Lemma typed_next_section n log i : is_u32 i -> typed (from_option is_u32 True) (next_section n log i).
Proof.
  pose proof typed_read_entry. revert i. induction n as [|n IH]; intros i Hi; cbn [next_section]; typed_solve.
Qed.

Lemma typed_iter_next_lease iter : typed anything (iter_next_lease iter).
Proof.
  pose proof typed_next_section as Hn. unfold iter_next_lease. eapply typed_bind; [eauto with typed|]. intros i [Hl Hr].
  apply (typed_bind is_u32).
  { case_match; [|done]. eapply typed_bind; [by apply typed_release|]. intros l Hl'. typed_solve. }
  intros j Hj. do 2 (eapply typed_bind; [eauto with typed|]; intros ? _). eapply typed_bind; [by apply Hn|].
  intros [k|] Hk; [|done]. eapply typed_bind; [eauto with typed|]. intros i' [Hl' Hr'].
  eapply typed_bind; [by apply typed_acquire_read|]. intros [r l] Hl''. typed_solve.
Qed.

Lemma typed_seek iter l n {A} (p : Z -> prog A) :
  lease_ok l -> (forall r, typed anything (p r)) ->
  typed anything (let (r, lease) := logdb_lease_seek l n in do! upd iter (set_iter_lease lease) in p r).
Proof.
  intros Hl Hp. pose proof (lease_ok_seek l n Hl) as Hs. destruct (logdb_lease_seek l n) as [r lease]. typed_solve.
Qed.

Lemma typed_iter_skip iter : typed anything (iter_skip iter).
Proof.
  unfold iter_skip. eapply typed_bind; [eauto with typed|]. intros i [Hl Hr]. apply (typed_bind anything).
  - case_match; [done|]. by apply (typed_seek _ _ _ (fun r => Ret (negb (r =? -1)))).
  - intros ok _. case_match; [done|]. eapply typed_bind; [eauto with typed|]. intros i' [Hl' Hr']. case_match; [done|].
    by apply (typed_seek _ _ _ (fun r => Ret (negb (r =? -1)))).
Qed.

Lemma typed_iter_dispose iter : typed anything (iter_dispose iter).
Proof. unfold iter_dispose. typed_solve. Qed.

Lemma typed_iter_read_record iter : typed anything (iter_read_record iter).
Proof.
  unfold iter_read_record. eapply typed_bind; [eauto with typed|]. intros i [Hl Hr].
  eapply typed_bind; [by apply typed_lease_read|]. intros [[r d] lease] Hl'. typed_solve.
Qed.
#[local] Hint Resolve typed_iter_next_lease typed_iter_skip typed_iter_dispose typed_iter_read_record : typed.

Lemma typed_iter_next iter : typed anything (logdb_iter_next iter).
Proof. unfold logdb_iter_next. typed_solve. Qed.

Lemma typed_current_key iter : typed anything (logdb_iter_current_key iter).
Proof.
  unfold logdb_iter_current_key. typed_step. case_match; [done|]. eapply typed_bind; [eauto with typed|]. intros i [Hl [Hk Hv]].
  pose proof (typed_iter_read_buf iter _ Hk). typed_solve.
Qed.

Lemma typed_current_value iter : typed anything (logdb_iter_current_value iter).
Proof.
  pose proof typed_current_key. unfold logdb_iter_current_value. typed_step. case_match; [done|].
  eapply typed_bind; [eauto with typed|]. intros i [Hl [Hk Hv]]. pose proof (typed_iter_read_buf iter _ Hv). typed_solve.
Qed.

Lemma typed_iter_free iter : typed anything (logdb_iter_free iter).
Proof.
  unfold logdb_iter_free. typed_step; [typed_solve|]. case_match; [done|]. eapply typed_bind; [eauto with typed|]. intros i [Hl Hr].
  typed_solve.
Qed.

(** Connections. *)

Lemma typed_create_locked n path fd : typed anything (create_locked n path fd).
Proof. induction n as [|n IH]; cbn [create_locked]; typed_solve. Qed.
#[local] Hint Resolve typed_create_locked : typed.

Lemma typed_open_log_file n nosync path fd : typed anything (open_log_file n nosync path fd).
Proof. unfold lock_shared. induction n as [|n IH]; cbn [open_log_file]; unfold lock_shared; typed_solve. Qed.

Lemma typed_open_connection flags fd log : is_s32 flags -> typed anything (open_connection flags fd log).
Proof. unfold open_connection, open_logclosefail. typed_solve. Qed.

Lemma typed_logdb_open path flags : is_s32 flags -> typed anything (logdb_open path flags).
Proof.
  pose proof typed_open_log_file. pose proof typed_open_connection. unfold logdb_open, open_fail, open_header. typed_solve.
Qed.

Lemma typed_logdb_close conn : typed anything (logdb_close conn).
Proof.
  unfold logdb_close, close_connection, logdb_txn_rollback_all, logdb_txn_destruct. typed_solve.
Qed.

End library.

(** ** Clients *)

Section clients.
Context `{Build}.

(** A caller of the library: the functions of include/logdb.h, with arguments
    their types can hold, and blocks of memory of its own. *)
Inductive client : forall {A : Type}, prog A -> Prop :=
| client_ret {A} (a : A) : client (Ret a)
| client_bind {A B} (p : prog A) (q : A -> prog B) : client p -> (forall a, client (q a)) -> client (bind p q)
| client_malloc (bs : list byte) : client (alloc bs)
| client_store p cap bs : client (store_append p cap bs)
| client_load p n : client (load_mem p n)
| client_free p : client (free p)
| client_open path flags : is_s32 flags -> client (logdb_open path flags)
| client_close conn : client (logdb_close conn)
| client_new_direct p n d : is_u32 n -> client (logdb_buffer_new_direct p n d)
| client_new_copy bs : is_u32 (zlen bs) -> client (logdb_buffer_new_copy (Some bs))
| client_length b : client (logdb_buffer_length b)
| client_data b : client (logdb_buffer_data b)
| client_append b1 b2 : client (logdb_buffer_append b1 b2)
| client_retain b : client (logdb_buffer_retain b)
| client_buffer_free b : client (logdb_buffer_free b)
| client_begin conn : client (logdb_begin conn)
| client_put conn k v : client (logdb_put conn k v)
| client_commit conn : client (logdb_commit conn)
| client_rollback conn : client (logdb_rollback conn)
| client_iter_all conn : client (logdb_iter_all conn)
| client_iter_next it : client (logdb_iter_next it)
| client_key it : client (logdb_iter_current_key it)
| client_value it : client (logdb_iter_current_value it)
| client_iter_free it : client (logdb_iter_free it).

#[local] Hint Resolve typed_logdb_open typed_logdb_close typed_new_direct typed_length typed_data typed_append typed_retain
  typed_buffer_free typed_begin typed_put typed_commit typed_rollback typed_iter_all typed_iter_next typed_current_key
  typed_current_value typed_iter_free : typed.

Lemma client_typed {A} (p : prog A) : client p -> typed anything p.
Proof.
  induction 1; try solve [typed_step].
  - by eapply typed_bind.
  - apply typed_new_copy. by intros ? [= <-].
Qed.

Abbreviation typed_pool ps := (Forall (fun tp => typed anything tp.2) ps).

Lemma pool_step_typed {A} (s s' : pool A * world) :
  pool_step s s' -> well_typed s.2 -> typed_pool s.1 -> grows s.2 s'.2 /\ typed_pool s'.1.
Proof.
  intros [ps w i th X f k x w' Ei E] Hw Hps. cbn [fst snd] in *.
  destruct (proj1 (Forall_lookup _ _) Hps i _ Ei th w x w' Hw E) as [Hg Hk].
  split; [done|]. by apply Forall_insert.
Qed.

Lemma pool_steps_typed {A} (s s' : pool A * world) :
  rtc pool_step s s' -> well_typed s.2 -> typed_pool s.1 -> grows s.2 s'.2.
Proof.
  induction 1 as [s|s s1 s' Hs _ IH]; intros Hw Ht; [by split|].
  destruct (pool_step_typed _ _ Hs Hw Ht) as [[Hw1 He] Ht1]. destruct (IH Hw1 Ht1) as [Hw' He'].
  split; [done|]. by etrans.
Qed.

End clients.

(** ** Property *)

#[local] Existing Instance debug_build.


