(* ===== verification/Stress.v ===== *)
(** * The stress tool: src/stress/stress.c

    A command-line program that opens a database and lets threads put records
    in it.  [main] starts and joins threads, so it is a program of its own
    kind, [mprog]; [machine_step] interleaves it with the threads it started.
    What the tool prints on its standard output is a value; what [perror]
    prints on the other stream is left out. *)

From S2P Require Import Prelude Machine World Posix Io Layout Log LogSpec Buffer.
From S2P Require Import BufferSpec LogLock LockSpec DbState Lease LeaseSpec Txn TxnSpec Iter.
From S2P Require Import IterSpec Database Connection ConnSpec CLib Types.
From Stdlib Require String.

(** ** Programs that start threads *)

Inductive mprog : Type :=
| MExit (code : Z) (out : output)                                  (** [return] from [main] *)
| MStep {X : Type} (f : thread -> world -> outcome X) (k : X -> mprog)
| MCreate (body : prog output) (k : Z * Z -> mprog)                (** [pthread_create]: error number and thread *)
| MJoin (id : Z) (k : Z -> mprog).                                 (** [pthread_join]: error number *)

Fixpoint mdo {A} (p : prog A) (k : A -> mprog) : mprog :=
  match p with
  | Ret a => k a
  | Step f q => MStep f (fun x => mdo (q x) k)
  end.

Notation "'main!' x := p 'in' q" := (mdo p (fun x => q))
  (at level 10, x pattern, p at level 100, q at level 200,
   format "'[v' 'main!'  x  :=  p  'in' '/' q ']'") : prog_scope.

Definition EAGAIN : Z := 11.
Definition ESRCH : Z := 3.

(** The threads in the order they were created; [pthread_t] is the position. *)
Record machine := mk_machine { m_main : mprog; m_threads : pool output; m_world : world }.

Section machine.
Context (th : thread).

(** The thread with number [n] of the process of [th]. *)
Definition nth_thread (n : nat) : thread := mk_thread (th_pid th) (th_tid th + 1 + Z.of_nat n).

Definition running (m : mprog) : Prop := match m with MExit _ _ => False | _ => True end.

(** One step of [main] or of a thread; when [main] returns the process ends. *)
Inductive machine_step : machine -> machine -> Prop :=
| machine_main X (f : thread -> world -> outcome X) k ps w x w' :
    f th w = Done x w' -> machine_step (mk_machine (MStep f k) ps w) (mk_machine (k x) ps w')
| machine_create body k ps w f w' :
    next_fault w = (f, w') -> f <> FFail ->
    machine_step (mk_machine (MCreate body k) ps w)
      (mk_machine (k (0, zlen ps)) (ps ++ [(nth_thread (length ps), body)]) w')
| machine_create_fails body k ps w w' :
    next_fault w = (FFail, w') ->
    machine_step (mk_machine (MCreate body k) ps w) (mk_machine (k (EAGAIN, 0)) ps w')
| machine_join id k ps w t out :
    ps !! Z.to_nat id = Some (t, Ret out) ->
    machine_step (mk_machine (MJoin id k) ps w) (mk_machine (k 0) ps w)
| machine_join_fails id k ps w :
    ps !! Z.to_nat id = None ->
    machine_step (mk_machine (MJoin id k) ps w) (mk_machine (k ESRCH) ps w)
| machine_thread m ps w i t X (f : thread -> world -> outcome X) k x w' :
    running m -> ps !! i = Some (t, Step f k) -> f t w = Done x w' ->
    machine_step (mk_machine m ps w) (mk_machine m (<[i := (t, k x)]> ps) w').

End machine.

(** ** C strings of the command line *)

(** The characters of an argument or an environment variable. *)
Definition arg_chars (s : string) : list byte := default [] (c_chars (c_string s)).

Definition is_space (b : byte) : bool := existsb (fun c => bool_decide (b = c)) [x20; x09; x0a; x0b; x0c; x0d].
Definition digit_of (b : byte) : option Z :=
  let d := Z_of_byte b - 48 in if (0 <=? d) && (d <=? 9) then Some d else None.

Fixpoint read_digits (n : Z) (bs : list byte) : Z :=
  match bs with
  | [] => n
  | b :: bs => match digit_of b with Some d => read_digits (n * 10 + d) bs | None => n end
  end.

Fixpoint skip_spaces (bs : list byte) : list byte :=
  match bs with
  | b :: r => if is_space b then skip_spaces r else bs
  | [] => []
  end.

(** [atoi]: undefined when the number is not one of an [int]. *)
Definition atoi_val (bs : list byte) : Z :=
  match skip_spaces bs with
  | b :: r =>
      if decide (b = x2d) then - read_digits 0 r
      else if decide (b = x2b) then read_digits 0 r
      else read_digits 0 (b :: r)
  | [] => 0
  end.
Definition atoi (s : string) : prog Z :=
  let n := atoi_val (arg_chars s) in
  if (- 2 ^ 31 <=? n) && (n <? 2 ^ 31) then Ret n else undef UbOverflow.

Example atoi_12 : atoi " 12x" = Ret 12. Proof. done. Qed.
Example atoi_m3 : atoi "-3" = Ret (-3). Proof. done. Qed.
Example atoi_none : atoi "four" = Ret 0. Proof. done. Qed.

(** ** The tool *)

Section stress.
Context `{Build} (strerror : Z -> string).

(** The loop of [thread_func] over [i]; [key] is its argument. *)
Fixpoint thread_loop (fuel : nat) (conn keybuf key : ptr) (i count : Z) (out : output) : prog output :=
  if i <? count then
    match fuel with
    | O => no_fuel
    | S fuel' =>
        let! valuebuf := logdb_buffer_new_copy (Some (bytes_u32 i)) in
        let! r := logdb_put conn keybuf valuebuf in
        let! out :=
          (if negb (r =? 0) then
             let! ks := with_block key c_chars in
             Ret (out ++ [text "logdb_put failed on iter " ++ printf_d i ++ text " of thread " ++ ks ++ nl])
           else Ret out) in
        do! logdb_buffer_free valuebuf in
        thread_loop fuel' conn keybuf key (i + 1) count out
    end
  else Ret out.

(** [thread_func]: what it prints. *)
Definition thread_func (conn : ptr) (count : Z) (arg : ptr) : prog output :=
  let! len := strlen arg in
  let! keybuf := logdb_buffer_new_direct arg (u32 (len + 1)) (Some DisposeFree) in
  let! out := thread_loop (Z.to_nat count) conn keybuf arg 0 count [] in
  do! logdb_buffer_free keybuf in
  Ret out.

Definition stress_usage (argv : list string) : output :=
  [text "Usage: " ++ basename (arg_chars <$> head argv) ++ text " [file] [key] [threads] [count]" ++ nl ++ nl ++ text "Where:" ++ nl ++ nl;
   x09 :: text "[file]" ++ [x09; x09] ++ text "The name of the db file to open/create" ++ nl;
   x09 :: text "[key]" ++ [x09; x09] ++ text "The prefix to use for the keys added by this process" ++ nl;
   [x09; x09; x09] ++ text "  - Env var LOGDB_STRESS_KEY_PREFIX will override this. Suffix will have thread # unless LOGDB_STRESS_KEY_SUFFIX is set." ++ nl;
   x09 :: text "[threads]" ++ [x09] ++ text "The number of threads to create in this process" ++ nl;
   x09 :: text "[count]" ++ [x09; x09] ++ text "The number of iterations per thread" ++ nl].

(** The [sprintf] of the key of thread [i]. *)
Definition key_chars (prefix : list byte) (suffix : option (list byte)) (i : Z) : list byte :=
  match suffix with
  | Some s => prefix ++ s
  | None => prefix ++ text ":t" ++ printf_d i
  end.

(** The key of thread [i]: NULL when there is no memory for it. *)
Definition stress_key (prefix : list byte) (suffix : option (list byte)) (i : Z) : prog ptr :=
  let size := u64 (zlen prefix + match suffix with Some s => zlen s | None => 10 end) in
  let! key := malloc_bytes size [] in
  match key with
  | None => Ret None
  | Some _ =>
      do! store_append key size (key_chars prefix suffix i ++ [x00]) in
      Ret key
  end.

(** [(void)logdb_close (conn); return code;] *)
Definition close_and_exit (conn : ptr) (code : Z) (out : output) : mprog :=
  main! _ := logdb_close conn in MExit code out.

(** The loop that starts the threads; [threads] is the array of [threadcnt]
    places. *)
Fixpoint create_loop (fuel : nat) (conn threads : ptr) (prefix : list byte) (count threadcnt i : Z) (k : mprog) : mprog :=
  if i <? threadcnt then
    match fuel with
    | O => mdo no_fuel (fun _ : unit => k)
    | S fuel' =>
        main! suffix := getenv "LOGDB_STRESS_KEY_SUFFIX" in
        main! key := stress_key prefix (arg_chars <$> suffix) i in
        match key with
        | None => close_and_exit conn 5 []
        | Some _ =>
            MCreate (thread_func conn count key) (fun '(err, id) =>
              if negb (err =? 0) then
                close_and_exit conn 6 [text "pthread_create: " ++ text (strerror err) ++ nl]
              else
                main! _ := store_append threads (8 * threadcnt) (le_bytes 8 id) in
                create_loop fuel' conn threads prefix count threadcnt (i + 1) k)
        end
    end
  else k.

(** The loop that waits for them. *)
Fixpoint join_loop (fuel : nat) (conn : ptr) (threads : loc) (threadcnt i : Z) (k : mprog) : mprog :=
  if i <? threadcnt then
    match fuel with
    | O => mdo no_fuel (fun _ : unit => k)
    | S fuel' =>
        main! id := load_bytes threads (8 * i) 8 in
        MJoin (le_val id) (fun err =>
          if negb (err =? 0) then
            close_and_exit conn 7 [text "pthread_join: " ++ text (strerror err) ++ nl]
          else join_loop fuel' conn threads threadcnt (i + 1) k)
    end
  else k.

(** [main]. *)
Definition stress_main (argv : list string) : mprog :=
  match argv with
  | [_; file; key; threads; count] =>
      main! prefix := getenv "LOGDB_STRESS_KEY_PREFIX" in
      let keyprefix := default key prefix in
      main! threadcnt := atoi threads in
      if threadcnt =? 0 then MExit 2 [text "Invalid number of threads!" ++ nl] else
      main! count := atoi count in
      if count =? 0 then MExit 2 [text "Invalid iterations per thread!" ++ nl] else
      main! threads := malloc_bytes (u64 (u64 threadcnt * 8)) [] in
      match threads with
      | None => MExit 3 []
      | Some tl =>
          main! conn := logdb_open (Some file) LOGDB_OPEN_CREATE in
          match conn with
          | None => MExit 4 [text "logdb_open failed" ++ nl]
          | Some _ =>
              create_loop (Z.to_nat threadcnt) conn threads (arg_chars keyprefix) count threadcnt 0
                (join_loop (Z.to_nat threadcnt) conn tl threadcnt 0
                  (main! r := logdb_close conn in MExit r []))
          end
      end
  | _ => MExit 1 (stress_usage argv)
  end.

End stress.

(** ** Executions *)

Section steps.
Context (th : thread).

Lemma main_steps {A} (p : prog A) (k : A -> mprog) ps w a w' :
  run th p w = Done a w' -> rtc (machine_step th) (mk_machine (mdo p k) ps w) (mk_machine (k a) ps w').
Proof.
  revert w. induction p as [b|X f q IH]; intros w E; cbn [run] in E; [by injection E as -> ->|].
  destruct (f th w) as [x w1| | |] eqn:Ef; try done. eapply rtc_l; [by eapply machine_main|]. by apply (IH x).
Qed.

Lemma main_then {A} (p : prog A) (k : A -> mprog) ps w a w' s :
  run th p w = Done a w' -> rtc (machine_step th) (mk_machine (k a) ps w') s ->
  rtc (machine_step th) (mk_machine (mdo p k) ps w) s.
Proof. intros E Hr. etransitivity; [by apply main_steps|exact Hr]. Qed.

Lemma thread_steps m ps w i t (p : prog output) a w' :
  running m -> ps !! i = Some (t, p) -> run t p w = Done a w' ->
  rtc (machine_step th) (mk_machine m ps w) (mk_machine m (<[i := (t, Ret a)]> ps) w').
Proof.
  intros Hm. revert ps w. induction p as [b|X f q IH]; intros ps w Ei E; cbn [run] in E.
  - injection E as -> ->. by rewrite list_insert_id.
  - destruct (f t w) as [x w1| | |] eqn:Ef; try done. eapply rtc_l; [by eapply machine_thread|].
    replace (<[i := (t, Ret a)]> ps) with (<[i := (t, Ret a)]> (<[i := (t, q x)]> ps)) by apply list_insert_insert_eq.
    apply (IH x); [|done]. apply list_lookup_insert_eq. by eapply lookup_lt_Some.
Qed.

End steps.

(** ** The memory of the caller during a session *)

Section thread.
Context `{Build} (path : string) (c : loc) (D : desc).

(** No thread is in a transaction. *)
Definition idle_session (secs : sections) (w : world) : Prop := session path c D secs w /\ forall t, current_txn t D w = None.

Lemma idle_session_user secs w h nx :
  idle_session secs w ->
  (forall x y, w_heap w !! x = Some y -> user_cell (Some y) = None -> h !! x = Some y) ->
  heap_fresh (set_next nx (set_heap h w)) -> idle_session secs (set_next nx (set_heap h w)).
Proof.
  intros [Hs Hn] Hh Hf. split; [by apply session_user|exact Hn].
Qed.

Lemma idle_session_fresh secs w : idle_session secs w -> heap_fresh w.
Proof. intros [Hs _]. apply (se_world _ _ _ _ _ Hs). Qed.

Lemma idle_session_quiet secs w : idle_session secs w -> quiet w.
Proof. intros [Hs _]. apply (se_world _ _ _ _ _ Hs). Qed.

(** A new block. *)
Lemma idle_session_alloced secs w x : idle_session secs w -> idle_session secs (alloced x w).
Proof.
  intros Hs. pose proof (idle_session_fresh _ _ Hs) as Hf. apply idle_session_user; [done| |by apply heap_fresh_alloc].
  intros y z Ey _. rewrite lookup_insert_ne; [done|]. intros <-. by rewrite Hf in Ey.
Qed.

Lemma user_kept_alloced w x : heap_fresh w -> user_kept (w_heap w) (w_heap (alloced x w)).
Proof. intros Hf. apply user_kept_subseteq, insert_subseteq, Hf. lia. Qed.

(** Freeing a slot. *)
Lemma idle_session_free th secs w s :
  idle_session secs w -> slot_ok (w_heap w) s -> sl_buf s <> sl_data s ->
  exists w', run th (logdb_buffer_free (Some (sl_buf s))) w = Done tt w' /\ idle_session secs w' /\
    (forall x, x <> sl_buf s -> x <> sl_data s -> w_heap w' !! x = w_heap w !! x) /\ os_env (w_os w') = os_env (w_os w).
Proof.
  intros Hs Hok Hne. destruct (free_slot_run th w s Hok Hne) as (h & E & Hb & Hd & Hx). exists (set_heap h w).
  split; [exact E|]. split_and!; [|done|done]. destruct Hok as [Eb Ed].
  replace (set_heap h w) with (set_next (w_next w) (set_heap h w)) by by destruct w. apply idle_session_user; [done|..].
  - apply peek_buffer_cell in Eb. apply peek_cell in Ed as (z & Ed & Hz). intros x y Ex Hy.
    rewrite Hx; [done|..]; intros ->; [rewrite Eb in Ex|rewrite Ed in Ex; destruct z; try done]; by injection Ex as <-.
  - intros x Hlt. cbn [w_heap w_next set_heap set_next] in *. pose proof (idle_session_fresh _ _ Hs x Hlt).
    destruct (decide (x = sl_buf s)) as [->|]; [done|]. destruct (decide (x = sl_data s)) as [->|]; [done|]. by rewrite Hx.
Qed.

(** Putting one record. *)
Lemma idle_session_put th secs w kl vl k v :
  idle_session secs w -> user_buffer (w_heap w) kl k -> user_buffer (w_heap w) vl v -> fits secs (k, v) = true ->
  exists w', run th (logdb_put (Some c) (Some kl) (Some vl)) w = Done 0 w' /\
    idle_session (spec_put secs (k, v)) w' /\ user_equiv (w_heap w) (w_heap w') /\ os_env (w_os w') = os_env (w_os w).
Proof.
  intros [Hs Hn] Hk Hv Hf. destruct (put_database th c D secs 0 w kl vl k v (se_db _ _ _ _ _ Hs) (Hn th) Hk Hv Hf)
    as (w' & E & Hdb & _ & Hr). exists w'. split; [exact E|]. split_and!.
  - split; [by eapply session_frame|]. intros t. by eapply put_rest_none.
  - apply (sr_heap _ _ _ (pr_rest _ _ _ _ Hr)).
  - apply (sr_env _ _ _ (pr_rest _ _ _ _ Hr)).
Qed.

(** A value buffer as the loop makes it. *)
Definition value_slot (w : world) (bs : list byte) : slot := mk_slot (w_next w + 1) (w_next w) bs.

Lemma new_value_run th secs w bs :
  idle_session secs w -> exists w', run th (logdb_buffer_new_copy (Some bs)) w = Done (Some (sl_buf (value_slot w bs))) w' /\
    idle_session secs w' /\ slot_ok (w_heap w') (value_slot w bs) /\ user_kept (w_heap w) (w_heap w') /\
    os_env (w_os w') = os_env (w_os w).
Proof.
  intros Hs. rewrite new_copy_run by by eapply idle_session_quiet.
  set (b := mk_buffer (Some (w_next w)) (zlen bs) (Some DisposeFree) None None 1). set (w1 := alloced (CBytes bs) w).
  replace (set_next _ _) with (alloced (CBuffer b) w1).
  2: { unfold w1, alloced, set_next, set_heap. cbn [w_os w_heap w_next w_tls w_next_key w_disposed w_oracle]. f_equal. lia. }
  assert (idle_session secs w1) as H1 by by apply idle_session_alloced.
  exists (alloced (CBuffer b) w1). split_and!; [done|by apply idle_session_alloced| |etransitivity; apply user_kept_alloced|done].
  - split; [exact (peek_insert logdb_buffer_t (w_next w + 1) b _)|]. unfold alloced at 1. cbn [sl_data sl_bytes value_slot w_heap set_heap set_next].
    rewrite peek_insert_ne by (cbn; lia). exact (peek_insert (list byte) (w_next w) bs _).
  - by eapply idle_session_fresh.
  - by eapply idle_session_fresh.
Qed.

Lemma slot_user_buffer h s : slot_ok h s -> user_buffer h (sl_buf s) (sl_bytes s).
Proof. intros [Hb Hd]. split; [by eapply buffer_is_own|]. eexists. split; [exact Hb|]. split; [by right|done]. Qed.

Lemma slot_ok_kept h h' s : user_kept h h' -> slot_ok h s -> slot_ok h' s.
Proof.
  intros Hk [Hb Hd]. split; [by eapply (user_kept_peek logdb_buffer_t)|by eapply (user_kept_peek (list byte))].
Qed.

(** The records of one thread: its key with the numbers from [i] on. *)
Definition thread_records (kb : list byte) (i count : Z) : list record :=
  (fun j => (kb, bytes_u32 j)) <$> seqZ i (count - i).

Lemma thread_records_cons kb i count :
  i < count -> thread_records kb i count = (kb, bytes_u32 i) :: thread_records kb (i + 1) count.
Proof.
  intros Hi. unfold thread_records. rewrite seqZ_cons by lia. cbn [fmap list_fmap]. f_equal.
  f_equal. f_equal; lia.
Qed.

(** One round of the loop. *)
Lemma thread_round th secs w ks i :
  idle_session secs w -> slot_ok (w_heap w) ks -> fits secs (sl_bytes ks, bytes_u32 i) = true ->
  exists w1 w2 w3,
    let vs := value_slot w (bytes_u32 i) in
    run th (logdb_buffer_new_copy (Some (bytes_u32 i))) w = Done (Some (sl_buf vs)) w1 /\
    run th (logdb_put (Some c) (Some (sl_buf ks)) (Some (sl_buf vs))) w1 = Done 0 w2 /\
    run th (logdb_buffer_free (Some (sl_buf vs))) w2 = Done tt w3 /\
    idle_session (spec_put secs (sl_bytes ks, bytes_u32 i)) w3 /\ user_kept (w_heap w) (w_heap w3) /\
    os_env (w_os w3) = os_env (w_os w).
Proof.
  intros Hs Hk Hf. destruct (new_value_run th secs w (bytes_u32 i) Hs) as (w1 & E1 & H1 & Hv1 & K1 & Ee1).
  set (vs := value_slot w (bytes_u32 i)) in *.
  destruct (idle_session_put th secs w1 (sl_buf ks) (sl_buf vs) (sl_bytes ks) (bytes_u32 i) H1) as (w2 & E2 & H2 & Eq & Ee2);
    [by eapply slot_user_buffer, slot_ok_kept|exact (slot_user_buffer _ _ Hv1)|done|].
  destruct (idle_session_free th _ w2 vs H2) as (w3 & E3 & H3 & Hx & Ee3);
    [by eapply slot_ok_kept; [apply user_equiv_kept|]|cbn; lia|].
  exists w1, w2, w3. split_and!; [done..| |congruence].
  assert (user_kept (w_heap w) (w_heap w2)) as K2 by (etransitivity; [exact K1|by apply user_equiv_kept]).
  intros x y Ex Hy. pose proof (K2 x y Ex Hy) as E. rewrite Hx; [done|..]; intros ->; cbn in Ex;
    by rewrite (idle_session_fresh _ _ Hs) in Ex by lia.
Qed.

Lemma thread_loop_run th n kp ks secs w i count out :
  idle_session secs w -> slot_ok (w_heap w) ks -> fit_all secs (thread_records (sl_bytes ks) i count) = true ->
  (Z.to_nat (count - i) <= n)%nat ->
  exists w', run th (thread_loop n (Some c) (Some (sl_buf ks)) kp i count out) w = Done out w' /\
    idle_session (foldl spec_put secs (thread_records (sl_bytes ks) i count)) w' /\ user_kept (w_heap w) (w_heap w') /\
    os_env (w_os w') = os_env (w_os w).
Proof.
  revert i secs w. induction n as [|n IH]; intros i secs w Hs Hk Hf Hn; cbn [thread_loop];
    (destruct (Z.ltb_spec i count) as [Hi|Hi]; [|exists w; unfold thread_records; by rewrite (seqZ_nil i (count - i)) by lia]); [lia|].
  rewrite thread_records_cons in Hf |- * by done. cbn [fit_all foldl] in *. apply andb_prop in Hf as [Hf Hfs].
  destruct (thread_round th secs w ks i Hs Hk Hf) as (w1 & w2 & w3 & E1 & E2 & E3 & H3 & K3 & Ee3).
  rewrite run_bind, E1, run_bind, E2. change (negb (0 =? 0)) with false. cbn iota. rewrite run_bind, run_ret, run_bind, E3.
  destruct (IH (i + 1) _ w3 H3) as (w4 & E4 & H4 & K4 & Ee4); [by eapply slot_ok_kept|done|lia|].
  exists w4. split_and!; [exact E4|done|by etransitivity|congruence].
Qed.

(** A whole thread: it frees its key, and what else the caller has stays. *)
Lemma thread_func_run th kp cs secs w count :
  idle_session secs w -> no_nul cs -> peek (list byte) (w_heap w) kp = Some (cs ++ [x00]) -> zlen cs + 1 < 2 ^ 32 ->
  fit_all secs (thread_records (cs ++ [x00]) 0 count) = true ->
  exists w', run th (thread_func (Some c) count (Some kp)) w = Done [] w' /\
    idle_session (foldl spec_put secs (thread_records (cs ++ [x00]) 0 count)) w' /\
    (forall x y, x <> kp -> w_heap w !! x = Some y -> user_cell (Some y) = Some y -> w_heap w' !! x = Some y) /\
    os_env (w_os w') = os_env (w_os w).
Proof.
  intros Hs Hcs Hk Hlen Hf. unfold thread_func, strlen.
  rewrite run_bind, (with_block_run _ _ _ _ _ (zlen cs) Hk) by by rewrite c_chars_snoc.
  unfold logdb_buffer_new_direct. rewrite (bool_decide_eq_false_2 (Some kp = None)), andb_false_r, u32_small by (done || lia).
  rewrite run_bind, run_alloc, do_alloc_quiet by by eapply idle_session_quiet. cbn beta iota.
  set (b := mk_buffer _ _ _ _ _ _). change (set_next _ _) with (alloced (CBuffer b) w).
  pose proof (idle_session_fresh _ _ Hs) as Hfr. set (ks := mk_slot (w_next w) kp (cs ++ [x00])).
  assert (w_next w <> kp) as Hne by (apply heap_fresh_ne; [done|exact (peek_is_Some _ _ _ _ Hk)]).
  assert (slot_ok (w_heap (alloced (CBuffer b) w)) ks) as Hok.
  { split; cbn [sl_buf sl_data sl_bytes ks]; unfold alloced; cbn [w_heap set_heap set_next].
    - rewrite length_app, Nat2Z.inj_add. exact (peek_insert logdb_buffer_t _ b _).
    - by rewrite peek_insert_ne. }
  assert (idle_session secs (alloced (CBuffer b) w)) as H1 by by apply idle_session_alloced.
  change (Some (w_next w)) with (Some (sl_buf ks)).
  destruct (thread_loop_run th (Z.to_nat count) (Some kp) ks secs (alloced (CBuffer b) w) 0 count [] H1) as (w2 & E2 & H2 & K2 & Ee2);
    [done|exact Hf|lia|]. rewrite run_bind, E2.
  destruct (idle_session_free th _ w2 ks H2) as (w3 & E3 & H3 & Hx & Ee3); [by eapply slot_ok_kept|done|].
  rewrite run_bind, E3, run_ret. exists w3. split_and!; [done|exact H3| |by rewrite Ee3, Ee2].
  intros x y Hxk Ex Hy. rewrite Hx; [|cbn; intros ->; by rewrite Hfr in Ex by lia|done].
  apply K2; [|done]. by apply user_kept_alloced.
Qed.

End thread.

(** ** Keys and the array of threads *)

Lemma arg_chars_no_nul s : no_nul (arg_chars s).
Proof. unfold arg_chars. destruct (c_chars _) eqn:E; [by eapply c_chars_no_nul|constructor]. Qed.

Lemma key_chars_no_nul prefix i : no_nul prefix -> 0 <= i -> no_nul (key_chars prefix None i).
Proof.
  intros Hp Hi. apply Forall_app. split; [done|]. apply Forall_app. split; [by repeat constructor|].
  unfold printf_d. rewrite (proj2 (Z.ltb_ge _ _)) by lia. by apply digits_no_nul.
Qed.

Lemma length_key_chars prefix i : 0 <= i < 10 ^ 7 -> zlen (key_chars prefix None i) + 1 <= zlen prefix + 10.
Proof.
  intros Hi. unfold key_chars, printf_d. rewrite (proj2 (Z.ltb_ge _ _)) by lia.
  rewrite !length_app, !Nat2Z.inj_add. change (zlen (text ":t")) with 2.
  pose proof (length_digits 10 i 6) as Hd. specialize (Hd ltac:(simpl; lia)). lia.
Qed.

Lemma stress_key_run th prefix i w :
  quiet w -> 0 <= i < 10 ^ 7 -> zlen prefix < 2 ^ 31 ->
  run th (stress_key prefix None i) w =
    Done (Some (w_next w)) (alloced (CBytes (key_chars prefix None i ++ [x00])) w).
Proof.
  intros Hq Hi Hp. unfold stress_key, malloc_bytes. rewrite u64_small by lia.
  rewrite (proj2 (Z.leb_gt _ _)) by lia. rewrite run_bind, run_alloc, do_alloc_quiet by done. cbn beta iota.
  change (set_next _ _) with (alloced (CBytes []) w). rewrite run_bind. unfold store_append. rewrite run_prim. unfold with_cell.
  assert (peek (list byte) (w_heap (alloced (CBytes []) w)) (w_next w) = Some []) as -> by exact (peek_insert (list byte) _ [] _).
  pose proof (length_key_chars prefix i Hi). rewrite (proj2 (Z.leb_le _ _)).
  2: { rewrite length_app, Nat2Z.inj_add. cbn [length]. lia. }
  rewrite run_ret. f_equal. unfold alloced, set_heap, set_next. cbn [w_os w_heap w_next w_tls w_next_key w_disposed w_oracle app].
  by rewrite insert_insert_eq.
Qed.

(** What the array holds when [n] threads were started. *)
Definition ids (n : Z) : list byte := seqZ 0 n ≫= le_bytes 8.

Lemma ids_succ n : 0 <= n -> ids (n + 1) = ids n ++ le_bytes 8 n.
Proof.
  intros Hn. unfold ids. rewrite (seqZ_app 0 n 1), bind_app by lia.
  by f_equal.
Qed.

Lemma length_ids n : 0 <= n -> zlen (ids n) = 8 * n.
Proof.
  intros Hn. revert n Hn. apply natlike_ind; [done|]. intros n Hn IH. rewrite <- Z.add_1_r, ids_succ by lia.
  rewrite length_app, length_le_bytes, Nat2Z.inj_add, IH. lia.
Qed.

Lemma ids_slice i n : 0 <= i < n -> slice (Z.to_nat (8 * i)) 8 (ids n) = le_bytes 8 i.
Proof.
  intros Hi. pose proof (length_ids i ltac:(lia)) as Hl. unfold slice.
  assert (ids n = ids i ++ le_bytes 8 i ++ (seqZ (i + 1) (n - i - 1) ≫= le_bytes 8)) as ->.
  { unfold ids. replace n with (i + (1 + (n - i - 1))) at 1 by lia. rewrite (seqZ_app 0 i), bind_app by lia. f_equal.
    rewrite (seqZ_app (0 + i) 1), bind_app by lia. rewrite (seqZ_cons (0 + i)) by lia. cbn. rewrite app_nil_r.
    do 2 f_equal; lia. }
  rewrite drop_app_length' by lia. rewrite take_app_length'; [done|]. by rewrite length_le_bytes.
Qed.

(** ** One schedule: every thread runs when it was started *)

Section sequential.
Context `{Build} (strerror : Z -> string) (th : thread) (path : string) (c : loc) (D : desc) (tl : loc).
Context (prefix : list byte) (count threadcnt : Z).
Context (Hprefix : no_nul prefix) (Hlen : zlen prefix < 2 ^ 31) (Hcnt : threadcnt <= 10 ^ 7).

Definition thread_key (i : Z) : list byte := key_chars prefix None i ++ [x00].

Definition stress_records (n : Z) : list record := seqZ 0 n ≫= fun i => thread_records (thread_key i) 0 count.

Lemma stress_records_succ n : 0 <= n -> stress_records (n + 1) = stress_records n ++ thread_records (thread_key n) 0 count.
Proof.
  intros Hn. unfold stress_records. rewrite (seqZ_app 0 n 1), bind_app by lia. f_equal. exact (app_nil_r _).
Qed.

Definition finished (ps : pool output) : Prop := Forall (fun t => t.2 = Ret []) ps.

(** [n] threads were started and are done. *)
Record created (secs : sections) (n : Z) (ps : pool output) (w : world) : Prop := mk_created {
  cr_session : idle_session path c D secs w;
  cr_array : peek (list byte) (w_heap w) tl = Some (ids n);
  cr_env : os_env (w_os w) !! "LOGDB_STRESS_KEY_SUFFIX" = None;
  cr_count : zlen ps = n;
  cr_done : finished ps
}.

Lemma create_round fuel secs i ps w k :
  created secs i ps w -> 0 <= i < threadcnt -> fit_all secs (thread_records (thread_key i) 0 count) = true ->
  exists ps' w',
    rtc (machine_step th) (mk_machine (create_loop strerror (S fuel) (Some c) (Some tl) prefix count threadcnt i k) ps w)
      (mk_machine (create_loop strerror fuel (Some c) (Some tl) prefix count threadcnt (i + 1) k) ps' w') /\
    created (foldl spec_put secs (thread_records (thread_key i) 0 count)) (i + 1) ps' w'.
Proof.
  intros [Hs Ha He Hn Hd] Hi Hf. cbn [create_loop]. rewrite (proj2 (Z.ltb_lt _ _)) by lia.
  pose proof (idle_session_quiet _ _ _ _ _ Hs) as Hq. pose proof (idle_session_fresh _ _ _ _ _ Hs) as Hfr.
  set (w1 := alloced (CBytes (thread_key i)) w).
  assert (peek (list byte) (w_heap w1) (w_next w) = Some (thread_key i)) as Hk1 by exact (peek_insert (list byte) _ _ _).
  assert (tl <> w_next w) as Htl by (apply not_eq_sym, heap_fresh_ne; [done|exact (peek_is_Some _ _ _ _ Ha)]).
  assert (peek (list byte) (w_heap w1) tl = Some (ids i)) as Ha1 by exact (eq_trans (peek_insert_ne (list byte) _ _ _ _ (not_eq_sym Htl)) Ha).
  destruct (thread_func_run path c D (nth_thread th (length ps)) (w_next w) (key_chars prefix None i) secs w1 count) as (w2 & E2 & H2 & K2 & Ee2).
  { by apply idle_session_alloced. } { by apply key_chars_no_nul; [|lia]. } { exact Hk1. }
  { pose proof (length_key_chars prefix i). lia. } { exact Hf. }
  assert (peek (list byte) (w_heap w2) tl = Some (ids i)) as Ha2.
  { destruct (peek_cell _ _ _ _ Ha1) as (y & Ey & Hy). unfold peek. rewrite (K2 tl y Htl Ey); [exact Hy|by destruct y]. }
  set (w3 := set_heap (<[tl := CBytes (ids i ++ le_bytes 8 i)]> (w_heap w2)) w2).
  exists (ps ++ [(nth_thread th (length ps), Ret [])]), w3. split.
  - eapply main_then; [unfold getenv; by rewrite run_prim, He|]. cbn beta iota. change (arg_chars <$> None) with (@None (list byte)).
    eapply main_then; [apply stress_key_run; [done|lia|done]|]. cbn beta iota. fold (thread_key i) w1.
    eapply rtc_l; [eapply (machine_create _ _ _ _ _ FOk); [by apply next_fault_quiet|done]|]. cbn beta iota. rewrite Hn.
    change (negb (0 =? 0)) with false. cbn iota.
    etransitivity; [eapply thread_steps; [done|by apply list_lookup_middle|exact E2]|].
    rewrite insert_app_r_alt, Nat.sub_diag by done. cbn [list_insert insert].
    eapply main_then; [|apply rtc_refl]. unfold store_append. rewrite run_prim. unfold with_cell. rewrite Ha2.
    rewrite (proj2 (Z.leb_le _ _)); [done|]. rewrite length_ids, length_le_bytes by lia. lia.
  - constructor.
    + replace w3 with (set_next (w_next w2) w3) by by destruct w2. apply (idle_session_user path c D _ w2); [done| |].
      * intros x y Ex Hy. rewrite lookup_insert_ne; [done|]. intros <-. destruct (peek_cell _ _ _ _ Ha2) as (z & Ez & Hz).
        rewrite Ez in Ex. injection Ex as ->. by destruct y.
      * change (heap_fresh w3). apply heap_fresh_store; [by eapply idle_session_fresh|exact (peek_is_Some _ _ _ _ Ha2)].
    + rewrite ids_succ by lia. exact (peek_insert (list byte) _ _ _).
    + change (os_env (w_os w3)) with (os_env (w_os w2)). by rewrite Ee2.
    + rewrite length_app, Nat2Z.inj_add, Hn. done.
    + apply Forall_app. split; [done|]. by apply Forall_singleton.
Qed.

Lemma fit_all_app secs a b : fit_all secs (a ++ b) = fit_all secs a && fit_all (foldl spec_put secs a) b.
Proof.
  revert secs. induction a as [|r a IH]; intros secs; [done|]. cbn [app fit_all foldl]. by rewrite IH, andb_assoc.
Qed.

(** The records of the threads from [i] on. *)
Definition records_from (i : Z) : list record := seqZ i (threadcnt - i) ≫= fun j => thread_records (thread_key j) 0 count.

Lemma create_loop_run fuel secs i ps w k :
  created secs i ps w -> 0 <= i <= threadcnt -> fit_all secs (records_from i) = true -> fuel = Z.to_nat (threadcnt - i) ->
  exists ps' w',
    rtc (machine_step th) (mk_machine (create_loop strerror fuel (Some c) (Some tl) prefix count threadcnt i k) ps w) (mk_machine k ps' w') /\
    created (foldl spec_put secs (records_from i)) threadcnt ps' w'.
Proof.
  revert secs i ps w. induction fuel as [|fuel IH]; intros secs i ps w Hc Hi Hf Hfuel.
  - assert (i = threadcnt) as -> by lia. exists ps, w. cbn [create_loop]. rewrite Z.ltb_irrefl.
    split; [done|]. unfold records_from. by rewrite Z.sub_diag.
  - assert (records_from i = thread_records (thread_key i) 0 count ++ records_from (i + 1)) as Er.
    { unfold records_from. rewrite seqZ_cons by lia. by replace (Z.pred (threadcnt - i)) with (threadcnt - (i + 1)) by lia. }
    rewrite Er, fit_all_app in Hf. apply andb_prop in Hf as [Hf1 Hf2].
    destruct (create_round fuel secs i ps w k Hc) as (ps1 & w1 & R1 & H1); [lia|done|].
    destruct (IH _ (i + 1) ps1 w1 H1) as (ps2 & w2 & R2 & H2); [lia|done|lia|].
    exists ps2, w2. split; [by etransitivity|]. by rewrite Er, foldl_app.
Qed.

Lemma join_loop_run fuel secs i ps w k :
  created secs threadcnt ps w -> 0 <= i <= threadcnt -> fuel = Z.to_nat (threadcnt - i) ->
  rtc (machine_step th) (mk_machine (join_loop strerror fuel (Some c) tl threadcnt i k) ps w) (mk_machine k ps w).
Proof.
  clear Hprefix Hlen. intros [Hs Ha He Hn Hd]. revert i. induction fuel as [|fuel IH]; intros i Hi Hfuel; cbn [join_loop].
  - assert (i = threadcnt) as -> by lia. by rewrite Z.ltb_irrefl.
  - rewrite (proj2 (Z.ltb_lt _ _)) by lia. eapply main_then.
    { unfold load_bytes. rewrite run_prim. unfold do_load_bytes, with_cell. rewrite Ha.
      rewrite length_ids by lia. rewrite (proj2 (Z.leb_le _ _)) by lia. change (Z.to_nat 8) with 8%nat. by rewrite ids_slice by lia. }
    cbn beta. rewrite le_val_bytes, Z.mod_small by (change (256 ^ Z.of_nat 8) with (2 ^ 64); lia).
    destruct (lookup_lt_is_Some_2 ps (Z.to_nat i)) as [[t p] Et]; [lia|].
    pose proof (proj1 (Forall_lookup _ _) Hd _ _ Et) as Ep. cbn in Ep. subst p.
    eapply rtc_l; [by eapply machine_join|]. cbn [negb Z.eqb]. cbn iota. apply IH; lia.
Qed.

End sequential.

Lemma atoi_run th s n w : atoi_val (arg_chars s) = n -> - 2 ^ 31 <= n < 2 ^ 31 -> run th (atoi s) w = Done n w.
Proof.
  intros E Hn. unfold atoi. rewrite E, (proj2 (Z.leb_le _ _)), (proj2 (Z.ltb_lt _ _)) by lia. done.
Qed.

(** Up to the loops: the database is open and the array empty. *)
Lemma stress_opened `{Build} th file w :
  world_ok w -> w_heap w = ∅ -> os_dir (w_os w) !! file = None -> os_dir (w_os w) !! log_name file = None ->
  os_env (w_os w) !! "LOGDB_STRESS_KEY_SUFFIX" = None ->
  exists c D w', run th (logdb_open (Some file) LOGDB_OPEN_CREATE) (alloced (CBytes []) w) = Done (Some c) w' /\
    d_dbino D = os_next_ino (w_os w) /\ created file c D (w_next w) [] 0 [] w'.
Proof.
  intros Hw Hh Hdir Hlog Henv. set (w1 := alloced (CBytes []) w).
  destruct (open_new_run th file LOGDB_OPEN_CREATE w1) as (c & D & w2 & E & Hs & Hino & _ & _ & _ & Hheap & Hcur);
    [by apply world_ok_alloced|done..|].
  assert (well_typed w1) as Ht.
  { split; [apply heap_fresh_alloc, Hw|]. cbn. rewrite Hh. apply map_Forall_insert_2; [done|apply map_Forall_empty]. }
  assert (typed anything (logdb_open (Some file) LOGDB_OPEN_CREATE)) as Hopen by (apply typed_logdb_open; done).
  destruct (typed_run _ _ th w1 _ w2 Hopen Ht E) as [[_ (Ee & _)] _].
  exists c, D, w2. split; [exact E|]. split; [done|]. constructor; [by split| | |done|constructor].
  - unfold peek. rewrite Hheap by (unfold w1, alloced; cbn; lia). exact (peek_insert (list byte) (w_next w) [] (w_heap w)).
  - by rewrite Ee.
Qed.

(** ** With LOGDB_STRESS_KEY_SUFFIX *)

(** The block for the key is a byte too short. *)
Lemma stress_key_suffix th prefix suffix i w a w' : run th (stress_key prefix (Some suffix) i) w = Done a w' -> a = None.
Proof.
  unfold stress_key, malloc_bytes. rewrite run_bind. destruct (2 ^ 63 <=? u64 _); [cbn; congruence|].
  rewrite run_alloc. unfold do_alloc. destruct (next_fault w) as [f w1] eqn:Ef.
  assert (forall cap w2, peek (list byte) (w_heap w2) (w_next w1) = Some [] -> cap < zlen (key_chars prefix (Some suffix) i ++ [x00]) ->
    run th (do! store_append (Some (w_next w1)) cap (key_chars prefix (Some suffix) i ++ [x00]) in Ret (Some (w_next w1))) w2 = Undef UbBounds) as Hub.
  { intros cap w2 E Hcap. rewrite run_bind. unfold store_append. rewrite run_prim. unfold with_cell. rewrite E.
    by rewrite (proj2 (Z.leb_gt _ _)) by (cbn [length]; lia). }
  assert (u64 (zlen prefix + zlen suffix) < zlen (key_chars prefix (Some suffix) i ++ [x00])) as Hcap.
  { cbn [key_chars]. rewrite !length_app, !Nat2Z.inj_add. simpl length. unfold u64.
    pose proof (Z.mod_le (zlen prefix + zlen suffix) (2 ^ 64)). lia. }
  destruct f; cbn beta iota; [rewrite Hub|rewrite Hub|cbn; congruence]; done || exact (peek_insert (list byte) _ [] _).
Qed.

Lemma machine_step_cases th s s' :
  machine_step th s s' -> m_threads s = [] ->
  match m_main s with
  | MExit _ _ => False
  | MStep f k => exists x w', f th (m_world s) = Done x w' /\ s' = mk_machine (k x) [] w'
  | MCreate _ _ => True
  | MJoin _ k => exists e, s' = mk_machine (k e) [] (m_world s)
  end.
Proof.
  destruct 1; cbn; intros Hps; try done; subst; eauto.
  - destruct m; by rewrite lookup_nil in *.
Qed.

(** No thread is started from here on. *)
Definition starts_none (th : thread) (m : mprog) (w : world) : Prop :=
  forall s, rtc (machine_step th) (mk_machine m [] w) s -> m_threads s = [].

Lemma starts_none_exit th code out w : starts_none th (MExit code out) w.
Proof. intros s Hs. inversion Hs as [|? s1 ? H1 _]; subst; [done|]. by pose proof (machine_step_cases _ _ _ H1 eq_refl). Qed.

Lemma starts_none_do {A} th (p : prog A) (k : A -> mprog) w :
  typed anything p -> well_typed w ->
  (forall a w', run th p w = Done a w' -> well_typed w' -> os_env (w_os w') = os_env (w_os w) -> starts_none th (k a) w') ->
  starts_none th (mdo p k) w.
Proof.
  revert w. induction p as [a|X f q IH]; intros w Hp Hw Hk; [by apply (Hk a w)|].
  intros s Hs. inversion Hs as [|? s1 ? H1 Hs1]; subst; [done|].
  pose proof (machine_step_cases _ _ _ H1 eq_refl) as (x & w1 & E & ->). destruct (Hp th w x w1 Hw E) as [[Hw1 [Ee _]] Hq].
  cbn [m_world] in E. apply (IH x w1 Hq Hw1); [|exact Hs1]. intros a w' Er Hw' Ee'. apply Hk; [|done|congruence].
  cbn [run]. by rewrite E.
Qed.

Lemma typed_atoi s : typed anything (atoi s).
Proof. unfold atoi. by case_match. Qed.

Lemma typed_malloc size bs : typed anything (malloc_bytes size bs).
Proof. unfold malloc_bytes. case_match; [done|]. by apply typed_alloc. Qed.

Lemma typed_stress_key prefix suffix i : typed anything (stress_key prefix suffix i).
Proof.
  unfold stress_key. eapply typed_bind; [apply typed_malloc|]. intros [l|] _; [|done].
  eapply typed_bind; [apply typed_store_append|done].
Qed.

Lemma starts_none_close `{Build} th conn w k :
  well_typed w -> (forall r w', starts_none th (k r) w') -> starts_none th (mdo (logdb_close conn) k) w.
Proof. intros Hw Hk. apply starts_none_do; [apply typed_logdb_close|done|]. auto. Qed.

Lemma create_loop_starts_none `{Build} strerror th fuel conn threads prefix count threadcnt k w suffix :
  well_typed w -> os_env (w_os w) !! "LOGDB_STRESS_KEY_SUFFIX" = Some suffix ->
  (threadcnt <= 0 -> starts_none th k w) ->
  starts_none th (create_loop strerror fuel conn threads prefix count threadcnt 0 k) w.
Proof.
  intros Hw He Hk. assert (starts_none th (mdo no_fuel (fun _ : unit => k)) w) as Hno by (apply starts_none_do; [apply typed_no_fuel|done..]).
  destruct fuel as [|fuel]; cbn [create_loop]; destruct (Z.ltb_spec 0 threadcnt); try done; try (apply Hk; lia).
  apply starts_none_do; [apply typed_getenv|done|]. unfold getenv. intros a w' E Hw' Ee. rewrite run_prim, He in E. injection E as <- _.
  apply starts_none_do; [apply typed_stress_key|done|]. intros key w2 ->%stress_key_suffix Hw2 _.
  apply starts_none_close; [done|]. intros. apply starts_none_exit.
Qed.

(** ** Properties *)

(** C21. The tool does what it is for: started on a path where there is no
    database, with room for the records, it can reach the end - each thread
    running as soon as it is created - with status 0 and no output, all threads
    done, and a closed database with exactly the records "key:t<i>", j. *)
Theorem stress_stores `{Build} strerror th argv0 file key threads count w :
  let n := atoi_val (arg_chars threads) in
  let m := atoi_val (arg_chars count) in
  let rs := stress_records (arg_chars key) m n in
  let secs := foldl spec_put [] rs in
  world_ok w -> w_heap w = ∅ -> os_dir (w_os w) !! file = None -> os_dir (w_os w) !! log_name file = None ->
  os_env (w_os w) !! "LOGDB_STRESS_KEY_PREFIX" = None -> os_env (w_os w) !! "LOGDB_STRESS_KEY_SUFFIX" = None ->
  0 < n <= 10 ^ 7 -> 0 < m < 2 ^ 31 -> zlen (arg_chars key) < 2 ^ 31 -> fit_all [] rs = true -> zlen secs < 65536 ->
  exists ps w', rtc (machine_step th) (mk_machine (stress_main strerror [argv0; file; key; threads; count]) [] w)
                                      (mk_machine (MExit 0 []) ps w') /\
    zlen ps = n /\ finished ps /\ closed_db file (os_next_ino (w_os w)) (trim secs) w' /\ spec_all (trim secs) ≡ₚ rs.
Proof.
  intros n m rs secs Hw Hh Hdir Hlog Hpre Hsuf Hn Hm Hk Hfit Hlen.
  destruct (stress_opened th file w Hw Hh Hdir Hlog Hsuf) as (c & D & w2 & E2 & Hino & H2).
  destruct (create_loop_run strerror th file c D (w_next w) (arg_chars key) m n (arg_chars_no_nul key) Hk ltac:(lia) (Z.to_nat n) [] 0 [] w2
    (join_loop strerror (Z.to_nat n) (Some c) (w_next w) n 0 (main! r := logdb_close (Some c) in MExit r [])))
    as (ps & w3 & R3 & H3); [done|lia|unfold records_from; by rewrite Z.sub_0_r|f_equal; lia|].
  unfold records_from in H3. rewrite Z.sub_0_r in H3. change (foldl spec_put [] _) with secs in H3.
  pose proof H3 as [[Hs Hcur] Ha He Hps Hd].
  destruct (close_session th file c D secs w3 Hs (Hcur th) Hlen) as (w4 & E4 & H4 & _).
  exists ps, w4. split_and!; [|done|done|by rewrite <- Hino|].
  - cbn [stress_main]. eapply main_then; [unfold getenv; by rewrite run_prim, Hpre|]. cbn [default].
    eapply main_then; [apply (atoi_run _ _ n); [done|lia]|]. rewrite (proj2 (Z.eqb_neq n 0)) by lia.
    eapply main_then; [apply (atoi_run _ _ m); [done|lia]|]. rewrite (proj2 (Z.eqb_neq m 0)) by lia.
    eapply main_then.
    { unfold malloc_bytes. rewrite (u64_small n), u64_small, (proj2 (Z.leb_gt _ _)) by lia. by rewrite run_alloc, do_alloc_quiet by apply Hw. }
    cbn beta iota. eapply main_then; [exact E2|]. cbn beta iota. etransitivity; [exact R3|].
    etransitivity; [eapply join_loop_run; first [exact H3|lia|f_equal; lia]|]. eapply main_then; [exact E4|]. apply rtc_refl.
  - rewrite spec_all_trim. unfold secs. rewrite spec_puts_all. by rewrite app_nil_r.
Qed.


(** ** Witnesses *)

#[local] Existing Instance debug_build.

Lemma empty_world_ok : world_ok (empty_world []).
Proof.
  constructor; [done|by intros l Hl|by split_and!|by right|..].
  - by intros k Hk%not_elem_of_nil.
  - by intros k Hk%not_elem_of_nil.
  - done.
Qed.

Lemma stress_stores_witness :
  let rs := stress_records (text "k") 2 2 in
  let secs := foldl spec_put [] rs in
  exists ps w', rtc (machine_step main_thread) (mk_machine (stress_main (fun _ => "?"%string) ["stress"; "t.db"; "k"; "2"; "2"]%string) [] (empty_world []))
                                      (mk_machine (MExit 0 []) ps w') /\
    zlen ps = 2 /\ finished ps /\ closed_db "t.db" 2 (trim secs) w' /\ spec_all (trim secs) ≡ₚ rs.
Proof.
  apply (stress_stores (fun _ => "?"%string) main_thread "stress" "t.db" "k" "2" "2" (empty_world []));
    try done; [apply empty_world_ok|by vm_compute..].
Defined.

(** The same arguments with a suffix. *)
Definition suffix_world : world :=
  set_os (set_os_env {[ "LOGDB_STRESS_KEY_SUFFIX" := "s" ]} empty_os) (empty_world []).

