(* ===== verification/Faults.v ===== *)
(** * What a failure leaves behind

    An entry of the log has two bytes, and nothing says that they are written
    together: a [pwrite] may transfer the first one, and the next may fail.
    The entry is then neither the old nor the new length.  An allocation that
    fails in [logdb_buffer_append] goes unnoticed, and [logdb_open] takes a log
    it could not read for one that is not there. *)

From S2P Require Import Prelude Machine World Posix Io Layout Log LogSpec Buffer.
From S2P Require Import BufferSpec LogLock LockSpec DbState Lease LeaseSpec Txn Silent TxnSpec Iter.
From S2P Require Import IterSpec Database Connection ConnSpec Races Restart Commit.

Section torn.
Context `{Build}.

Lemma write_entry_torn th p l o es w i len old :
  log_ok p l o es w -> w_oracle w = [FShort 0; FFail] -> es !! i = Some old ->
  run th (logdb_log_write_entry (Some p) len (Z.of_nat i)) w =
    Done (-1) (put_file (fd_ino o) (log_image (<[i := torn_entry old len]> es)) (set_oracle [] w)).
Proof.
  intros Hl Hor E. unfold logdb_log_write_entry. rewrite bool_decide_eq_false_2, andb_false_r by done.
  rewrite run_bind, run_load, (do_load_peek _ _ l) by apply Hl. rewrite run_bind. unfold logdb_io_pwrite. rewrite bytes_u16_two.
  assert (0 <= logdb_log_offset (Z.of_nat i)) as Hoff by (unfold logdb_log_offset, sizeof_log_header, sizeof_log_entry; lia).
  assert (get_fd (log_fd l) w = Some o) as Ho by apply Hl.
  cbn [length io_pwrite_loop]. change (Z.of_nat 2) with 2. change (0 <? 2) with true. cbn iota.
  rewrite run_bind. unfold sys_pwrite at 1. rewrite run_prim. unfold do_pwrite, with_fd, next_fault. rewrite Hor.
  change (get_fd (log_fd l) (set_oracle [FFail] w)) with (get_fd (log_fd l) w). rewrite Ho, (proj2 (Z.ltb_ge _ _)) by lia. cbn beta iota.
  change (take _ [_; _]) with [byte_of_Z len]. change (0 <? zlen [byte_of_Z len]) with true. cbn iota.
  change (get_file (fd_ino o) (set_oracle [FFail] w)) with (get_file (fd_ino o) w). rewrite (lo_file _ _ _ _ _ Hl), (file_write_half es i old) by done.
  change (2 - zlen [byte_of_Z len]) with 1. change (0 <? 1) with true. cbn iota. rewrite run_bind. unfold sys_pwrite. rewrite run_prim.
  reflexivity.
Qed.

(** The copy of the second buffer fails: the list is stored to, but with what
    it holds already. *)
Lemma append_dropped th w t l bs bt l2 b2 bs2 fs :
  w_oracle w = FFail :: fs -> spine (w_heap w) t l bs -> peek logdb_buffer_t (w_heap w) t = Some bt -> buf_next bt = None ->
  peek logdb_buffer_t (w_heap w) l2 = Some b2 -> copyable b2 ->
  buffer_is (delete t (w_heap w)) (Some l2) bs2 -> zlen bs + zlen bs2 < 2 ^ 32 ->
  run th (logdb_buffer_append (Some l) (Some l2)) w = Done (Some l) (set_oracle fs w).
Proof.
  intros Hor Hs Et Hn E2 Hc Hb2 Hlen. rewrite (append_enter th w t l bs l2 bs2) by done.
  unfold logdb_buffer_copy, logdb_buffer_new_direct. rewrite run_bind, run_bind, run_load, (do_load_peek _ _ _ _ E2).
  assert (DEBUG && bool_decide (buf_data b2 = None) = false) as ->.
  { destruct Hc as [-> | Hc]; [done|]. rewrite bool_decide_eq_false_2 by done. apply andb_false_r. }
  rewrite run_bind, run_alloc. unfold do_alloc, next_fault. rewrite Hor. cbn beta iota. rewrite run_ret.
  unfold upd. rewrite run_bind, run_rmw, (do_rmw_peek _ bt) by done. cbn [fst snd]. rewrite run_ret. f_equal.
  assert (set_buf_next None bt = bt) as -> by (destruct bt; cbn in *; by subst).
  assert (<[t := to_cell bt]> (w_heap (set_oracle fs w)) = w_heap w) as ->; [|by destruct w].
  apply insert_id. by apply peek_buffer_cell.
Qed.

End torn.

(** ** A file that is no database *)

(** Nothing but the schedule, the position of new descriptors and the addresses
    of new blocks changes. *)
Record untouched (w w' : world) : Prop := mk_untouched {
  un_files : files w' = files w;
  un_heap : w_heap w' = w_heap w;
  un_fds : os_fds (w_os w') = os_fds (w_os w);
  un_flock k : k ∈ os_flock (w_os w') -> k ∈ os_flock (w_os w);
  un_tls : w_tls w' = w_tls w
}.

(** [logdb_open] without [LOGDB_OPEN_CREATE] reads the header, and refuses all
    but the right one, and all when the read fails. *)
Lemma open_header_refuses `{Build} th fd flags o w :
  get_fd fd w = Some o -> fd_pos o = 0 -> flag_set flags LOGDB_OPEN_CREATE = false ->
  take 6 (get_file (fd_ino o) w) <> header_bytes ->
  exists fs q, run th (open_header fd flags) w = Done false (put_fd fd (set_fd_pos q o) (set_oracle fs w)).
Proof.
  intros Ho Hp Hc Hh. unfold open_header. rewrite Hc, run_bind. unfold logdb_io_read.
  destruct (io_read_loop_spec th fd (Z.to_nat sizeof_header) sizeof_header None [] w o) as (n & r & fs & -> & _ & Hn & Hl & Hr); [done|lia|done|lia|done|].
  exists fs, (fd_pos o + n). rewrite app_nil_l, Hp in *. destruct (Z.ltb_spec 0 r); [done|]. rewrite run_ret. f_equal.
  remember 0 as z eqn:Ez in Hr. destruct Hr; [subst|done|lia].
  rewrite (proj2 (Z.eqb_neq 0 (-1))) by done. cbn [orb]. apply negb_false_iff, orb_true_iff.
  destruct (bool_decide _) eqn:E1; [right|by left]. apply bool_decide_eq_true in E1.
  apply negb_true_iff, Z.eqb_neq. intros E2. apply Hh. change (file_read 0 sizeof_header ?b) with (take 6 b) in *.
  set (h := take 6 (get_file (fd_ino o) w)) in *. change sizeof_header with 6 in Hl.
  rewrite <- (take_drop 4 h), E1. unfold header_bytes. f_equal.
  rewrite <- (le_bytes_val (drop 4 h)), E2, length_drop. replace (length h - 4)%nat with 2%nat by lia. done.
Qed.

(** A call and what follows, whether it fails or not. *)
Lemma run_alloc_any th {T X} `{Cell T} (t : T) (k : ptr -> prog X) (P : outcome X -> Prop) w :
  (forall fs, P (run th (k None) (set_oracle fs w))) ->
  (forall fs, P (run th (k (Some (w_next w))) (alloced (to_cell t) (set_oracle fs w)))) ->
  P (run th (let! p := alloc t in k p) w).
Proof.
  intros H1 H2. rewrite run_bind, run_alloc. unfold do_alloc. destruct (next_fault_spec w) as (f & fs & -> & _).
  destruct f; [apply H2|apply H2|apply H1].
Qed.

Lemma run_open_any th {X} path fl (k : Z -> prog X) (P : outcome X -> Prop) w :
  o_creat fl = false -> (forall fs, P (run th (k (-1)) (set_oracle fs w))) ->
  (forall ino fs, os_dir (w_os w) !! path = Some ino -> P (run th (k (os_next_fd (w_os w))) (fd_opened ino fl th (set_oracle fs w)))) ->
  P (run th (let! fd := sys_open path fl in k fd) w).
Proof.
  intros Hc H1 H2. rewrite run_bind, run_open. unfold do_open. rewrite Hc. destruct (next_fault_spec w) as (f & fs & -> & _).
  change (os_dir (w_os (set_oracle fs w))) with (os_dir (w_os w)).
  destruct f; [| |apply H1]; (destruct (os_dir (w_os w) !! path) as [ino|] eqn:E; [by apply H2|apply H1]).
Qed.

(** The block for the name of the log is given back. *)
Lemma name_freed `{Build} th w w' c :
  heap_fresh w -> w_heap w' = <[w_next w := c]> (w_heap w) -> files w' = files w -> os_fds (w_os w') = os_fds (w_os w) ->
  (forall k, k ∈ os_flock (w_os w') -> k ∈ os_flock (w_os w)) -> w_tls w' = w_tls w ->
  exists w2, run th (let! _ := free (Some (w_next w)) in Ret None) w' = Done (@None loc) w2 /\ untouched w w2.
Proof.
  intros Hf Eh Ef Efd Hk Et. eexists. split.
  - rewrite run_bind, run_free, do_free_run by (rewrite Eh; eexists; apply lookup_insert_eq). by rewrite run_ret.
  - constructor; try done. cbn [w_heap set_heap]. rewrite Eh, delete_insert_id; [done|]. apply Hf. lia.
Qed.

(** ** Properties *)

#[local] Existing Instance debug_build.

(** C23. When the [pwrite] of an entry stops after its first byte and then fails,
    the call reports the error, but the entry is left with the low byte of the
    new length and the high byte of the old one. *)
Theorem log_entry_torn `{Build} th p l o es w i len old :
  log_ok p l o es w -> w_oracle w = [FShort 0; FFail] -> es !! i = Some old ->
  exists w', run th (logdb_log_write_entry (Some p) len (Z.of_nat i)) w = Done (-1) w' /\
    log_ok p l o (<[i := torn_entry old len]> es) w' /\
    run th (logdb_log_read_entry (Some p) (Z.of_nat i)) w' =
      Done (logdb_log_offset (Z.of_nat i), torn_entry old len) w'.
Proof.
  intros Hl Hor E. eexists. split; [by apply (write_entry_torn th p l o es)|].
  set (w' := put_file _ _ _). assert (log_ok p l o (<[i := torn_entry old len]> es) w') as Hl'.
  { apply (log_ok_write (set_oracle [] w)); [|apply torn_entry_ok; by eapply Forall_lookup_1; [apply Hl|]].
    eapply log_ok_frame; [exact Hl|apply Hl|apply Hl|done]. }
  split; [exact Hl'|]. rewrite (read_entry_run th w' p l o _ eq_refl Hl') by lia.
  rewrite Nat2Z.id, list_lookup_insert_eq by by eapply lookup_lt_Some. done.
Qed.

Lemma log_entry_torn_witness :
  exists w', run main_thread (logdb_log_write_entry (Some 1) 300 1) (open_world 0 [] [5; 250] [FShort 0; FFail]) = Done (-1) w' /\
    log_ok 1 open_log log_ofd [5; 44] w' /\
    run main_thread (logdb_log_read_entry (Some 1) 1) w' = Done (8, 44) w'.
Proof.
  apply (log_entry_torn main_thread 1 open_log log_ofd [5; 250] _ 1 300 250); [|done..].
  apply open_world_log; [by repeat constructor|done].
Defined.

(** What that does to a put: the section holds 250 bytes; the entry of the
    next put of 10 bytes is torn; the put fails, and the first record, which
    was stored before, is gone. *)
Example put_torn_entry :
  let two_puts := (let! r1 := logdb_put (Some 2) (Some 4) (Some 6) in
                   let! r2 := logdb_put (Some 2) (Some 4) (Some 4) in
                   let! rs := read_database 3 (Some 2) in Ret (r1, r2, rs)) in
  let start := put_sample [x61] (replicate 241 x62) 0 header_bytes [0] in
  let result fs := match run main_thread two_puts (set_oracle fs start) with Done x _ => Some x | _ => None end in
  result [] = Some (0, 0, [([x61], replicate 241 x62); ([x61], [x61])]) /\
  result (replicate 35 FOk ++ [FShort 0; FFail]) = Some (0, -1, []).
Proof. by vm_compute. Qed.

(** C24. When the copy of the second buffer cannot be allocated,
    [logdb_buffer_append] returns the first one as if it had succeeded, and the
    contents of the second are missing. *)
Theorem buffer_append_drops `{Build} th w t l bs l2 b2 bs2 fs :
  w_oracle w = FFail :: fs -> spine (w_heap w) t l bs -> peek logdb_buffer_t (w_heap w) l2 = Some b2 -> copyable b2 ->
  buffer_is (delete t (w_heap w)) (Some l2) bs2 -> zlen bs + zlen bs2 < 2 ^ 32 ->
  exists w', run th (logdb_buffer_append (Some l) (Some l2)) w = Done (Some l) w' /\
    buffer_is (w_heap w') (Some l) bs /\ w_heap w' = w_heap w /\ w_os w' = w_os w.
Proof.
  intros Hor Hs E2 Hc Hb2 Hlen. destruct (spine_tail _ _ _ _ Hs) as (bt & Et & Hn).
  exists (set_oracle fs w). split; [by eapply append_dropped|]. split; [by eapply spine_is|done].
Qed.

Lemma buffer_append_drops_witness :
  let w := set_oracle [FFail] (two_buffers [x61] [x62]) in
  exists w', run main_thread (logdb_buffer_append (Some 2) (Some 4)) w = Done (Some 2) w' /\
    buffer_is (w_heap w') (Some 2) [x61] /\ w_heap w' = w_heap w /\ w_os w' = w_os w.
Proof.
  apply (buffer_append_drops main_thread _ 2 2 [x61] 4 (mk_buffer (Some 3) 1 None None None 1) [x62] []); try done.
  - by eapply spine_last.
  - by right.
  - by eapply buffer_is_own.
Defined.

(** A put that loses the value this way returns 0; its header still announces
    the value, so the next record of the section is read as part of it. *)
Example put_value_dropped :
  let two_puts := (let! r1 := logdb_put (Some 2) (Some 4) (Some 6) in
                   let! r2 := logdb_put (Some 2) (Some 6) (Some 4) in
                   let! rs := read_database 3 (Some 2) in Ret (r1, r2, rs)) in
  let start := put_sample [x61] [x62; x63] 0 header_bytes [0] in
  let result fs := match run main_thread two_puts (set_oracle fs start) with Done x _ => Some x | _ => None end in
  result [] = Some (0, 0, [([x61], [x62; x63]); ([x62; x63], [x61])]) /\
  result (replicate 4 FOk ++ [FFail]) = Some (0, 0, [([x61], [x02; x00]); ([], [])]).
Proof. by vm_compute. Qed.

(** The call after the first [n] fails. *)
Definition failing (n : nat) (w : world) : world := set_oracle (replicate n FOk ++ [FFail]) w.


(** C37. Without [LOGDB_OPEN_CREATE], [logdb_open] refuses a file that is not
    there or does not start with the header, whatever else fails: it returns
    NULL, and the files, the descriptors and the memory are as they were. *)
Theorem open_refused `{Build} th path flags w :
  heap_fresh w -> os_fresh w -> flag_set flags LOGDB_OPEN_CREATE = false ->
  (forall ino, os_dir (w_os w) !! path = Some ino -> take 6 (get_file ino w) <> header_bytes) ->
  exists w', run th (logdb_open (Some path) flags) w = Done None w' /\ untouched w w'.
Proof.
  intros Hf (_ & Hfd & Hn) Hc Hdir. unfold logdb_open.
  set (P := fun r : outcome ptr => exists w', r = Done None w' /\ untouched w w').
  apply (run_alloc_any th _ _ P); [by intros fs; exists (set_oracle fs w)|]. intros fs. set (w1 := alloced _ _). cbn iota.
  apply (run_open_any th _ _ _ P); [exact Hc|..].
  - intros fs1. change (-1 =? -1) with true. cbn iota. by eapply name_freed.
  - intros ino fs1 Ed. change (os_dir (w_os w1)) with (os_dir (w_os w)) in Ed. set (fd := os_next_fd (w_os w1)).
    rewrite (proj2 (Z.eqb_neq fd (-1))) by (change fd with (os_next_fd (w_os w)); lia). set (w2 := fd_opened _ _ _ _).
    destruct (open_header_refuses th fd flags (mk_ofd ino 0 false (th_pid th)) w2) as (fs2 & q & E); [apply put_fd_get|done|done|by apply Hdir|].
    rewrite run_bind, E. cbn [negb]. cbn iota. unfold open_fail. rewrite run_bind, run_close.
    rewrite (do_close_run fd (set_fd_pos q (mk_ofd ino 0 false (th_pid th)))) by apply put_fd_get.
    eapply name_freed; try done.
    + change (os_fds (w_os (fd_closed fd ?o (put_fd fd ?o' (set_oracle fs2 w2))))) with (delete fd (<[fd := o']> (<[fd := mk_ofd ino 0 false (th_pid th)]> (os_fds (w_os w))))).
      rewrite !delete_insert_eq. apply delete_id. apply Hfd. change fd with (os_next_fd (w_os w)). lia.
    + intros k Hk. by apply list_elem_of_filter in Hk as [_ Hk].
Qed.

(** The header is for another version, and the read is cut short. *)
Lemma open_refused_witness :
  let w := put_file 1 (LOGDB_MAGIC ++ [x02; x00]) (set_oracle [FOk; FOk; FShort 2; FOk] (closed_sample [] [])) in
  exists w', run main_thread (logdb_open (Some "t.db") LOGDB_OPEN_EXISTING) w = Done None w' /\ untouched w w'.
Proof.
  pose proof (cl_world _ _ _ _ (closed_sample_ok [] [])) as Hw. apply (open_refused main_thread "t.db" LOGDB_OPEN_EXISTING).
  - exact (wo_heap _ Hw).
  - destruct (wo_os _ Hw) as (Hi & Hd & Hn). split; [|by split]. intros i E. specialize (Hi i E). cbn in E |- *.
    rewrite lookup_insert_ne by (intros <-; cbn in Hi; done). exact Hi.
  - done.
  - intros ino E. vm_compute in E. injection E as <-. by vm_compute.
Defined.
